(* ===== verification/_CoqProject ===== *)
-Q . S2P
Prelude.v
GoSort.v
GoStrings.v
GoBase64.v
GoURL.v
GoDuration.v
Libs.v
Contract.v
Gcp.v
Nested.v
IamPolicy.v
PolicyController.v
BucketPolicy.v
BucketPolicyMember.v
ServiceAccountPolicy.v
CryptoKeyPolicy.v
ServiceAccount.v
ServiceAccountKey.v
Bucket.v
BucketController.v
Network.v
Subnetwork.v
GlobalAddress.v
Connection.v
Topic.v
KeyRing.v
CryptoKey.v
Memorystore.v
CloudSQL.v
ClusterTypes.v
ContainerAPI.v
ClusterGenerate.v
ClusterLate.v
Cluster.v
ClusterUpdates.v
ClusterController.v
NodePool.v
NodePoolController.v
References.v
Connect.v
GoMemory.v
DeepCopyProvider.v
DeepCopyCache.v
DeepCopyCompute.v
DeepCopyCluster.v
DeepCopyNodePool.v
DeepCopyDatabase.v
DeepCopyIam.v
DeepCopyKms.v
DeepCopyPubsub.v
DeepCopyConnection.v
DeepCopyBucketPolicy.v
DeepCopyBucket.v
DeepCopy.v
TopicMemory.v
Registration.v
Setup.v
Publishing.v
Accessors.v
ListItems.v
Addressing.v
Existence.v
