(* ===== verification/Prelude.v ===== *)
(** * provider-gcp, verified

    The program is a Crossplane provider: a Kubernetes controller manager that
    makes Google Cloud resources out of custom resources. This development models
    its Go code and proves what makes it correct. The paths below are under src/.

    ** The program

    cmd/provider/main.go makes a manager, adds the API types to its scheme
    (apis/gcp.go, apis/.../register.go), sets up nineteen controllers
    (pkg/controller/gcp.go) and starts. Eighteen of them each reconcile one kind
    of managed resource, through crossplane-runtime's managed reconciler, which
    resolves the references of the resource (apis/.../referencers.go), calls
    Connect for a client with the credentials of the resource's provider
    (pkg/clients/gcp.go), and then Observe and, as Observe reports, Create, Update
    or Delete (pkg/controller/...). These handlers translate between the spec and status
    of the resource (apis/.../*_types.go) and the structs of a Google API with the
    functions of a client package (pkg/clients/...): Generate..., LateInitialize...
    and IsUpToDate.

    ** How it is modelled

    A Go value is the tree of what can be reached from it: pointers, slices and
    maps are options, so that nil and empty differ; a struct is a Record, an
    in-place assignment {| r with f := v |}, an enumeration of constants a
    string, as in Go. A slice of pointers is a list of options, of which each may
    be nil. A dereference of nil, of an element of a slice too, gives [Panics] or
    [Crash], never a made-up value; a function that dereferences what may be nil
    returns an [outcome]. A handler is a tree of calls ([prog]): a theorem about it quantifies over
    all that the services may answer, and a service with a state is run by [run].
    What the repository does not contain is a class with the laws its
    documentation states ([Libs], [Resolver], [GKE] and the like), a call, or a
    variable of the section; each class has an instance in the development.

    Integers are Z; where they can overflow, the width is written out: a
    retention period in nanoseconds is an int64 that wraps for more than 9223372036 seconds,
    which the CRD's maximum of 3155673600 excludes (GoDuration, Bucket). The fuel of
    strings.ReplaceAll is the length of the string, and each round consumes a
    character (GoStrings). A GKE cluster is up to date after at most 22
    successful updates, one for each kind of update (ClusterUpdates). Nothing else needs fuel or a bound:
    the recursions are structural.

    Memory is explicit in GoMemory and the files after it: there the generated
    DeepCopy functions, on which Observe relies when it compares a spec with what it
    was, are run on a heap with locations and sharing, and one late
    initialization is shown to refine the functions on trees.

    ** The files

    Prelude: notation, Go data, panics, programs. GoSort, GoStrings, GoBase64,
    GoURL, GoDuration: the parts of the Go library that are called. Libs:
    pkg/errors, go-cmp, crossplane-runtime. Contract: what a controller promises
    to the reconciler. Gcp: pkg/clients/gcp.go. Nested: copying nested optional
    structs and slices of pointers.

    IamPolicy, PolicyController (an interface, [PolicyClient], and the handlers over
    it), BucketPolicy, BucketPolicyMember, ServiceAccountPolicy, CryptoKeyPolicy: IAM policies
    and their controllers. ServiceAccount, ServiceAccountKey: apis/iam,
    pkg/controller/iam. Bucket, BucketController: apis/storage/v1alpha3,
    pkg/controller/storage/bucket.go. Network, Subnetwork, GlobalAddress: compute.
    Connection: servicenetworking. Topic: pubsub. KeyRing, CryptoKey: kms.
    Memorystore: cache. CloudSQL: database. ClusterTypes, ContainerAPI,
    ClusterGenerate, ClusterLate, Cluster, ClusterUpdates, ClusterController, NodePool,
    NodePoolController: container. References: the referencers.go files. Connect: the
    Connect methods.

    GoMemory; DeepCopyProvider, DeepCopyCache, DeepCopyCompute, DeepCopyCluster,
    DeepCopyNodePool, DeepCopyDatabase, DeepCopyIam, DeepCopyKms, DeepCopyPubsub,
    DeepCopyConnection, DeepCopyBucketPolicy, DeepCopyBucket: the
    zz_generated.deepcopy.go files. DeepCopy: the theorems about them. TopicMemory: a
    topic's Observe in memory. Registration: register.go and apis/gcp.go.
    Setup: the SetupX functions, pkg/controller/gcp.go and main. Publishing: which controllers
    publish connection details. Accessors: zz_generated.managed.go, and
    pc.go and pcu.go of apis/v1beta1. ListItems: GetItems of
    zz_generated.managedlist.go and pculist.go, with pointers to the elements of an array. Addressing: the
    controllers put together from Connect and the handlers, as the reconciler uses them. Existence: what
    their Observe says about whether a resource is there.

    ** What is shown

    - Convergence: once Create or Update returned without error an Observe whose
      read is answered with what was written finds the resource up to date (bucket,
      service account and key policies, service accounts, topics, crypto keys). A
      cluster is up to date after as many successful updates as sections differ, failing
      updates in between notwithstanding, for specs that leave nothing to the
      service.
    - Exactness: binding and unbinding a member of a policy change that grant
      alone, also when any number of controllers interleave on one server, where
      each role has one binding; where a role has two, a Delete misses the second; label
      updates give exactly the labels of the spec; IsUpToDate of CloudSQL,
      Memorystore, subnetworks and policies is characterised field by field.
    - Late initialization keeps what the user set, and where it does not, or where it
      dereferences nil, a theorem says exactly when (clusters, subnetworks).
    - Errors: the handlers fail exactly when a call failed, with NotFound excused
      where the code excuses it, make no call after a failed one, and do not panic
      where the hypotheses say that no pointer they dereference is nil; Connect fails or returns a client; main starts the manager or fails.
    - Round trips: bucket attributes, retention periods, service account keys,
      connection secrets, names of node pools.
    - References: once resolved, they stay.
    - Memory: each of the 229 structs of the API is copied in full, with nothing
      shared; a topic's Observe on a heap refines the one on trees.
    - Wiring: each controller reconciles the kind its handlers are written for,
      each kind has one, the scheme has the kinds before the reconcilers are made, the items of
      a list are its elements and not copies, and no connection detail is dropped.
    - Isolation: from the provider that a resource names to the calls of its
      handlers, everything a controller does is about the objects of that resource; what is
      under any other name stays as it is. For the nine kinds that are named by a project
      these are in the project of that provider; the others are where the spec says in full.
    - Existence: Observe of every controller reports that a resource is missing exactly when
      the service said so.

    The flaws of the code that this shows are theorems about the code as it
    is: settings that are never sent, dereferences of nil, grants that stay.

    ** Not modelled

    Every function of the repository outside test code is modelled, but for
    the registration of command line flags in main, logging, and the wrapper of the storage
    client in pkg/controller/storage/bucket.go, whose handles are the bucket names in the calls. strings.EqualFold folds the case of
    ASCII letters only (NodePool). The texts of errors that the Go library
    makes, and constants that no code uses. Of the API structs of Google's libraries the fields that the code neither reads nor
    writes are one opaque value, which is copied and compared with the struct. Contexts
    and deadlines: a call that is cut off is a call that fails. The reconcilers, the
    scheme, the work queue and the rate limiters are crossplane-runtime's and
    controller-runtime's. pkg/test is test code. Interior pointers, but for those of GetItems to the elements of an array, and slices
    that share part of an array: in the explicit memory every struct that
    is pointed at, and every slice, has a cell of its own. *)

From stdpp Require Export base tactics option list gmap strings sorting pretty.
From Stdlib Require Export ZArith String Ascii.
From Stdlib Require Import Lia.

#[global] Open Scope string_scope.
#[global] Open Scope list_scope.

(** ** Go data *)

(** A pointer is nil or points at a value; a slice or a map is nil or holds
    elements, so that nil and empty stay apart, as [== nil] and a comparison
    without the EquateEmpty option see them. Nothing in the modelled code
    depends on two pointers being the same pointer. *)
Abbreviation ptr := option (only parsing).
Abbreviation slice A := (option (list A)) (only parsing).
Abbreviation gomap V := (option (gmap string V)) (only parsing).

(** The fields of a generated API struct that this repository neither reads
    nor writes, as one opaque value: copied with the struct, compared with it,
    empty in a struct literal. *)
Abbreviation rest := (gmap string string) (only parsing).

(** Ranging over a nil slice or map visits nothing. *)
Definition elems {A} (s : slice A) : list A := default [] s.
Definition entries {V} (m : gomap V) : gmap string V := default ∅ m.

(** [len(s) == 0] for slices and maps. *)
Definition slice_empty {A} (s : slice A) : bool :=
  match elems s with [] => true | _ => false end.
Definition map_empty {V} (m : gomap V) : bool :=
  bool_decide (entries m = ∅).

(** A slice or map as a comparison under EquateEmpty sees it: every empty one
    is nil. *)
Definition norm_slice {A} (s : slice A) : slice A :=
  match elems s with [] => None | l => Some l end.
Definition norm_map {V} (m : gomap V) : gomap V :=
  if map_empty m then None else Some (entries m).

(** ** Panics *)

(** A nil dereference is a value of the model, not an omission of it. *)
Inductive outcome (A : Type) :=
| Returns (a : A)
| Panics.
Arguments Returns {A} a.
Arguments Panics {A}.

#[global] Instance outcome_ret : MRet outcome := @Returns.
#[global] Instance outcome_bind : MBind outcome := λ A B f o,
  match o with Returns a => f a | Panics => Panics end.

Definition deref {A} (p : ptr A) : outcome A :=
  match p with Some a => Returns a | None => Panics end.

(** ** Programs that call services

    The Kubernetes API server and the Google APIs are not part of this
    repository. A handler is a tree of the calls it makes: after [Call e k] the
    handler goes on as [k r] for whatever response [r] the service gives, so a
    theorem about the tree quantifies over everything a service may answer. *)
Inductive prog (E : Type → Type) (A : Type) : Type :=
| Done (a : A)
| Crash
| Call {X : Type} (e : E X) (k : X → prog E A).
Arguments Done {E A} a.
Arguments Crash {E A}.
Arguments Call {E A X} e k.

Fixpoint prog_bind_ {E : Type → Type} {A B} (f : A → prog E B) (p : prog E A) : prog E B :=
  match p with
  | Done a => f a
  | Crash => Crash
  | Call e k => Call e (λ r, prog_bind_ f (k r))
  end.
#[global] Instance prog_ret E : MRet (prog E) := @Done E.
#[global] Instance prog_bind E : MBind (prog E) := λ A B f p, prog_bind_ f p.

Definition call {E : Type → Type} {X} (e : E X) : prog E X := Call e Done.

(** Running Go code that may panic inside a handler. *)
Definition lift {E A} (o : outcome A) : prog E A :=
  match o with Returns a => Done a | Panics => Crash end.

(** Every call of the program satisfies [P], whatever the services answer. *)
Fixpoint calls_only {E : Type → Type} {A} (P : ∀ X, E X → Prop) (p : prog E A) : Prop :=
  match p with
  | Done _ | Crash => True
  | Call e k => P _ e ∧ ∀ r, calls_only P (k r)
  end.

(** Every result of the program satisfies [Q], and it never panics. *)
Fixpoint always {E : Type → Type} {A} (Q : A → Prop) (p : prog E A) : Prop :=
  match p with
  | Done a => Q a
  | Crash => False
  | Call _ k => ∀ r, always Q (k r)
  end.

(** Running a program against a service with a state. *)
Section run.
Context {E : Type → Type} {W : Type} (serve : ∀ X, E X → W → X * W).

Fixpoint run {A} (p : prog E A) (w : W) : outcome (A * W) :=
  match p with
  | Done a => Returns (a, w)
  | Crash => Panics
  | Call e k => let '(r, w') := serve _ e w in run (k r) w'
  end.
End run.

Lemma calls_only_bind {E : Type → Type} {A B} (P : ∀ X, E X → Prop) (p : prog E A) (f : A → prog E B) :
  calls_only P p → (∀ a, calls_only P (f a)) → calls_only P (p ≫= f).
Proof.
  intros Hp Hf. induction p as [a| |X e k IH]; simpl in *; [apply Hf|done|].
  destruct Hp as [He Hk]. split; [done|]. intros r. apply IH, Hk.
Qed.

Lemma run_bind {E : Type → Type} {W A B} (s : ∀ X, E X → W → X * W) (p : prog E A) (f : A → prog E B) w :
  run s (p ≫= f) w = (run s p w ≫= λ '(a, w'), run s (f a) w').
Proof.
  revert w. induction p as [a| |X e k IH]; intros w; simpl; [done|done|].
  destruct (s X e w) as [r w']. apply IH.
Qed.
