(* ===== verification/GoSort.v ===== *)
(** * Stable sorting by a key

    [cmpopts.SortSlices(less)] sorts both slices of a comparison stably before
    they are compared. This file holds the stable sort by a less function and
    what comparing two sorted slices decides: for a less function that orders
    by a key, the two slices are equal after sorting exactly when, key by key,
    they list the same elements in the same order. *)

From S2P Require Import Prelude.

Fixpoint sort_insert {A} (less : A → A → bool) (x : A) (l : list A) : list A :=
  match l with
  | [] => [x]
  | y :: l' => if less y x then y :: sort_insert less x l' else x :: y :: l'
  end.

Definition stable_sort {A} (less : A → A → bool) (l : list A) : list A :=
  foldr (sort_insert less) [] l.

(** Whatever the less function, sorting permutes. *)
Lemma sort_insert_perm {A} (less : A → A → bool) x l : sort_insert less x l ≡ₚ x :: l.
Proof.
  induction l as [|y l IH]; simpl; [done|]. destruct (less y x); [|done].
  rewrite IH. apply Permutation_swap.
Qed.
Lemma stable_sort_perm {A} (less : A → A → bool) l : stable_sort less l ≡ₚ l.
Proof. induction l as [|x l IH]; simpl; [done|]. by rewrite sort_insert_perm, IH. Qed.

(** Sorting commutes with a map that the less functions agree on. *)
Lemma stable_sort_map {A B} (f : A → B) (less : A → A → bool) (less' : B → B → bool) l :
  (∀ x y, less' (f x) (f y) = less x y) → stable_sort less' (f <$> l) = f <$> stable_sort less l.
Proof.
  intros Hless. induction l as [|x l IH]; [done|]. rewrite fmap_cons.
  change (sort_insert less' (f x) (stable_sort less' (f <$> l)) = f <$> sort_insert less x (stable_sort less l)).
  rewrite IH. generalize (stable_sort less l). intros k. clear IH.
  induction k as [|y k IH]; simpl; [done|]. rewrite Hless. destruct (less y x); [|done].
  rewrite fmap_cons. by f_equal.
Qed.

Section by_key.
Context {A K : Type} (le : relation K) `{!PartialOrder le, !Total le, !RelDecision le, !EqDecision K}.
Context (key : A → K) (less : A → A → bool).
Context (less_spec : ∀ x y, less x y = true ↔ ¬ le (key y) (key x)).

Abbreviation below := (λ x y : A, le (key x) (key y)).
Abbreviation at_key k := (filter (λ x : A, key x = k)).

Lemma less_false x y : less x y = false ↔ le (key y) (key x).
Proof using Type*.
  generalize (less_spec x y). clear less_spec.
  destruct (less x y), (decide (le (key y) (key x))); intuition congruence.
Qed.

Lemma less_above x y : less x y = true → le (key x) (key y).
Proof using Type*.
  intros Hl%less_spec. by destruct (total le (key x) (key y)).
Qed.

Lemma sort_insert_sorted x l :
  StronglySorted below l → StronglySorted below (sort_insert less x l).
Proof using Type*.
  induction 1 as [|y l Hl IH Hy]; simpl; [by repeat constructor|].
  destruct (less y x) eqn:Hyx.
  - constructor; [done|]. rewrite sort_insert_perm. constructor; [|done].
    by apply less_above.
  - apply less_false in Hyx. constructor; [by constructor|]. constructor; [done|].
    eapply Forall_impl; [done|]. intros z Hz. by trans (key y).
Qed.

Lemma stable_sort_sorted l : StronglySorted below (stable_sort less l).
Proof using Type*.
  induction l as [|x l IH]; simpl; [constructor|]. by apply sort_insert_sorted.
Qed.

Lemma sort_insert_at_key k x l :
  at_key k (sort_insert less x l) = at_key k (x :: l).
Proof using Type*.
  induction l as [|y l IH]; simpl; [done|].
  destruct (less y x) eqn:Hyx; [|done].
  rewrite filter_cons, IH, !filter_cons.
  repeat case_decide; try done. subst k.
  apply less_spec in Hyx. destruct Hyx. by rewrite H0.
Qed.

(** Sorting is stable: elements with the same key keep their order. *)
Lemma stable_sort_at_key k l : at_key k (stable_sort less l) = at_key k l.
Proof using Type*.
  induction l as [|x l IH]; simpl; [done|].
  rewrite sort_insert_at_key, !filter_cons. by rewrite IH.
Qed.

Lemma sorted_head_least x l y :
  StronglySorted below (x :: l) → y ∈ x :: l → le (key x) (key y).
Proof using Type*.
  intros [_ Hall]%StronglySorted_inv [->|Hy]%elem_of_cons; [done|].
  by eapply Forall_forall in Hall.
Qed.

Lemma sorted_unique l1 l2 :
  StronglySorted below l1 → StronglySorted below l2 →
  (∀ k, at_key k l1 = at_key k l2) → l1 = l2.
Proof using Type*.
  intros H1. revert l2.
  induction l1 as [|x l1 IH]; intros l2 H2 Heq.
  { destruct l2 as [|y l2]; [done|]. specialize (Heq (key y)).
    by rewrite filter_cons_True in Heq. }
  destruct l2 as [|y l2].
  { specialize (Heq (key x)). by rewrite filter_cons_True in Heq. }
  assert (∀ z, z ∈ x :: l1 ↔ z ∈ y :: l2) as Hin.
  { intros z. specialize (Heq (key z)). split; intros Hz.
    - assert (z ∈ at_key (key z) (x :: l1)) as Hf by by apply list_elem_of_filter.
      rewrite Heq in Hf. by apply list_elem_of_filter in Hf as [_ ?].
    - assert (z ∈ at_key (key z) (y :: l2)) as Hf by by apply list_elem_of_filter.
      rewrite <-Heq in Hf. by apply list_elem_of_filter in Hf as [_ ?]. }
  assert (key x = key y) as Hk.
  { apply (anti_symm le).
    - apply (sorted_head_least _ _ _ H1), Hin. by left.
    - apply (sorted_head_least _ _ _ H2), Hin. by left. }
  assert (x = y) as <-.
  { specialize (Heq (key x)). rewrite !filter_cons_True in Heq by done. by simplify_eq. }
  f_equal. apply IH; [by inversion H1|by inversion H2|].
  intros k. specialize (Heq k). rewrite !filter_cons in Heq. case_decide; by simplify_eq.
Qed.

(** Equal after sorting is equal key by key. *)
Lemma stable_sort_eq_iff l1 l2 :
  stable_sort less l1 = stable_sort less l2 ↔ ∀ k, at_key k l1 = at_key k l2.
Proof using Type*.
  split.
  - intros Heq k. by rewrite <-(stable_sort_at_key k l1), Heq, stable_sort_at_key.
  - intros Heq. apply sorted_unique; try apply stable_sort_sorted.
    intros k. by rewrite !stable_sort_at_key.
Qed.
End by_key.

(** ** Sorting strings *)

Definition string_less (i j : string) : bool := String.ltb i j.
Definition string_greater (i j : string) : bool := String.ltb j i.

Lemma string_ltb_le (x y : string) : String.ltb x y = true ↔ ¬ String.le y x.
Proof.
  unfold String.le, String.leb, String.ltb.
  rewrite (String.compare_antisym y x). destruct (String.compare x y); simpl; naive_solver.
Qed.

#[global] Instance string_ge_partial : PartialOrder (flip String.le).
Proof.
  split; [split|].
  - intros x. unfold flip. done.
  - intros x y z. unfold flip. intros ??. by trans y.
  - intros x y ??. by apply (anti_symm String.le).
Qed.
#[global] Instance string_ge_total : Total (flip String.le).
Proof. intros x y. destruct (total String.le x y); auto. Qed.
#[global] Instance string_ge_dec : RelDecision (flip String.le).
Proof. intros x y. apply String.le_dec. Defined.

Lemma string_less_spec (x y : string) : string_less x y = true ↔ ¬ String.le y x.
Proof. apply string_ltb_le. Qed.
Lemma string_greater_spec (x y : string) : string_greater x y = true ↔ ¬ flip String.le y x.
Proof. apply string_ltb_le. Qed.

Section sort_strings.
Context (le : relation string) `{!PartialOrder le, !Total le, !RelDecision le}.
Context (less : string → string → bool) (less_spec : ∀ x y, less x y = true ↔ ¬ le y x).

Lemma sort_strings_perm_gen (l1 l2 : list string) :
  stable_sort less l1 = stable_sort less l2 ↔ l1 ≡ₚ l2.
Proof using Type*.
  pose proof (stable_sort_perm less) as Hp.
  pose proof (stable_sort_sorted le id less less_spec) as Hs.
  split.
  - intros Heq. by rewrite <-(Hp l1), Heq, Hp.
  - intros Hl. apply (StronglySorted_unique le); [apply Hs..|]. by rewrite !Hp.
Qed.
End sort_strings.

(** Two string slices are equal after sorting when one is a permutation of the
    other. *)
Lemma sort_strings_less (l1 l2 : list string) :
  stable_sort string_less l1 = stable_sort string_less l2 ↔ l1 ≡ₚ l2.
Proof. apply (sort_strings_perm_gen String.le), string_less_spec. Qed.
Lemma sort_strings_greater (l1 l2 : list string) :
  stable_sort string_greater l1 = stable_sort string_greater l2 ↔ l1 ≡ₚ l2.
Proof. apply (sort_strings_perm_gen (flip String.le)), string_greater_spec. Qed.
