(* ===== verification/GoStrings.v ===== *)
(** * The string functions of the Go standard library the code calls

    strings.HasPrefix, strings.TrimPrefix, strings.Join, path.Base and
    strings.ReplaceAll on byte strings. *)

From Stdlib Require Import Lia.
From S2P Require Import Prelude.

(** The string after a prefix, when it is one. *)
Fixpoint strip_prefix (p s : string) : option string :=
  match p, s with
  | EmptyString, _ => Some s
  | String a p', String b s' => if Ascii.eqb a b then strip_prefix p' s' else None
  | String _ _, EmptyString => None
  end.

Definition HasPrefix (s p : string) : bool :=
  match strip_prefix p s with Some _ => true | None => false end.
Definition TrimPrefix (s p : string) : string := default s (strip_prefix p s).
Definition Join (elems : list string) (sep : string) : string := String.concat sep elems.

Fixpoint skip_while (f : ascii → bool) (l : list ascii) : list ascii :=
  match l with
  | [] => []
  | c :: l' => if f c then skip_while f l' else l
  end.
Fixpoint take_while (f : ascii → bool) (l : list ascii) : list ascii :=
  match l with
  | [] => []
  | c :: l' => if f c then c :: take_while f l' else []
  end.

Definition is_slash (c : ascii) : bool := Ascii.eqb c "/"%char.

(** path.Base: strips trailing slashes, then keeps what follows the last slash;
    "." for the empty path, "/" when only slashes were there. *)
Definition Base (path : string) : string :=
  match path with
  | EmptyString => "."
  | _ =>
    let stripped := skip_while is_slash (reverse (list_ascii_of_string path)) in
    match take_while (λ c, negb (is_slash c)) stripped with
    | [] => "/"
    | e => string_of_list_ascii (reverse e)
    end
  end.

(** strings.ReplaceAll for a non-empty [old]: replaces the occurrences found
    from left to right, without overlap. Each step consumes a byte, so the length
    of the string is fuel enough. *)
Fixpoint replace_fuel (n : nat) (s old new : string) : string :=
  match n with
  | O => s
  | S n' =>
    match s with
    | EmptyString => EmptyString
    | String c s' =>
      match strip_prefix old s with
      | Some t => String.append new (replace_fuel n' t old new)
      | None => String c (replace_fuel n' s' old new)
      end
    end
  end.
Definition ReplaceAll (s old new : string) : string :=
  replace_fuel (String.length s) s old new.

(** ** Prefixes *)

Lemma strip_prefix_app p s : strip_prefix p (String.append p s) = Some s.
Proof. induction p as [|a p IH]; simpl; [done|]. by rewrite Ascii.eqb_refl. Qed.

Lemma strip_prefix_Some p s t : strip_prefix p s = Some t ↔ s = String.append p t.
Proof.
  split; [|intros ->; apply strip_prefix_app].
  revert s. induction p as [|a p IH]; intros s; simpl; [naive_solver|].
  destruct s as [|b s]; [done|].
  destruct (Ascii.eqb_spec a b) as [->|]; [|done]. intros Ht. by rewrite (IH s Ht).
Qed.

Lemma HasPrefix_true s p : HasPrefix s p = true ↔ ∃ t, s = String.append p t.
Proof.
  unfold HasPrefix. split.
  - destruct (strip_prefix p s) as [t|] eqn:H; [|done].
    intros _. exists t. by apply strip_prefix_Some.
  - intros [t ->]. by rewrite strip_prefix_app.
Qed.

Lemma TrimPrefix_app p s : TrimPrefix (String.append p s) p = s.
Proof. unfold TrimPrefix. by rewrite strip_prefix_app. Qed.

Lemma TrimPrefix_none s p : HasPrefix s p = false → TrimPrefix s p = s.
Proof. unfold TrimPrefix, HasPrefix. by destruct (strip_prefix p s). Qed.

(** ** The last element of a path *)

(** The bytes of a string hold no slash. *)
Definition no_slash (s : string) : Prop :=
  Forall (λ c, is_slash c = false) (list_ascii_of_string s).

Lemma list_ascii_of_append s t :
  list_ascii_of_string (String.append s t) = list_ascii_of_string s ++ list_ascii_of_string t.
Proof. induction s; simpl; by f_equal. Qed.

Lemma take_while_app f l k :
  Forall (λ c, f c = true) l → take_while f (l ++ k) = l ++ take_while f k.
Proof. induction 1 as [|c l Hc _ IH]; simpl; [done|]. by rewrite Hc, IH. Qed.

Lemma Base_last prefix name :
  name ≠ "" → no_slash name →
  Base (String.append prefix (String "/" name)) = name ∧ Base name = name.
Proof.
  intros Hne Hns. unfold no_slash in Hns.
  set (l := list_ascii_of_string name) in *.
  assert (l ≠ []) as Hl by (unfold l; by destruct name).
  assert (∃ c k, reverse l = c :: k) as (c & k & Hrev).
  { destruct (reverse l) eqn:E; [|eauto]. by apply (f_equal reverse) in E; rewrite reverse_involutive in E. }
  assert (Forall (λ c, negb (is_slash c) = true) (reverse l)) as Hr.
  { apply Forall_reverse. eapply Forall_impl; [done|]. by intros ? ->. }
  assert (is_slash c = false) as Hc by (rewrite Hrev in Hr; inversion Hr; by destruct (is_slash c)).
  assert (∀ k', match take_while (λ c, negb (is_slash c)) (skip_while is_slash (reverse l ++ k')) with
     | [] => "/" | e => string_of_list_ascii (reverse e) end =
     string_of_list_ascii (reverse (reverse l ++ take_while (λ c, negb (is_slash c)) k'))) as Hgo.
  { intros k'. rewrite Hrev. simpl. rewrite Hc. rewrite app_comm_cons, <-Hrev, take_while_app by done.
    by rewrite Hrev. }
  split.
  - unfold Base. destruct (String.append prefix (String "/" name)) eqn:E; [by destruct prefix|].
    rewrite <-E. clear E. rewrite list_ascii_of_append. simpl. fold l.
    rewrite reverse_app, reverse_cons, <-app_assoc, Hgo. simpl.
    rewrite app_nil_r, reverse_involutive. apply string_of_list_ascii_of_string.
  - unfold Base. destruct name as [|a name']; [done|]. fold l.
    specialize (Hgo []). rewrite !app_nil_r in Hgo. rewrite Hgo.
    simpl. rewrite ?app_nil_r, reverse_involutive. apply string_of_list_ascii_of_string.
Qed.

(** ** Replacing an element of a path *)

Lemma no_slash_cons c s : no_slash (String c s) ↔ is_slash c = false ∧ no_slash s.
Proof. unfold no_slash. simpl. by rewrite Forall_cons. Qed.

(** Two paths that start alike have the same first element. *)
Lemma first_element a b s t :
  no_slash a → no_slash b → String.append a (String "/" s) = String.append b (String "/" t) → a = b.
Proof.
  revert b. induction a as [|c a IH]; intros [|d b] Ha Hb; simpl; [done|..].
  - apply no_slash_cons in Hb as [Hd _]. intros [= <- _]. done.
  - apply no_slash_cons in Ha as [Hc _]. intros [= -> _]. done.
  - apply no_slash_cons in Ha as [_ Ha]. apply no_slash_cons in Hb as [_ Hb]. intros [= -> H]. f_equal. by apply IH.
Qed.
Lemma no_slash_first a b t : no_slash a → no_slash b → a ≠ String.append b (String "/" t).
Proof.
  revert b. induction a as [|c a IH]; intros [|d b] Ha Hb; simpl; try done.
  - apply no_slash_cons in Ha as [Hc _]. intros [= -> _]. done.
  - apply no_slash_cons in Ha as [_ Ha]. apply no_slash_cons in Hb as [_ Hb]. intros [= _ H]. by apply (IH b).
Qed.

(** The replaced string starts with a slash: an element is skipped as a whole,
    whatever fuel is left over. *)
Lemma replace_element n a t old new :
  no_slash a → (String.length (String.append a t) ≤ n)%nat →
  ∃ m, (String.length t ≤ m)%nat ∧
    replace_fuel n (String.append a t) (String "/" old) new = String.append a (replace_fuel m t (String "/" old) new).
Proof.
  revert n. induction a as [|c a IH]; intros n Ha Hn; simpl in *; [by exists n|].
  apply no_slash_cons in Ha as [Hc Ha]. destruct n as [|n]; [lia|].
  destruct (IH n Ha) as (m & Hm & Heq); [lia|]. exists m. split; [done|].
  unfold is_slash in Hc. change (String.append (String c a) ?x) with (String c (String.append a x)).
  cbn [replace_fuel strip_prefix]. destruct (Ascii.eqb_spec "/"%char c) as [<-|]; [done|]. by f_equal.
Qed.
(** A slash that does not start an occurrence is kept. *)
Lemma replace_slash n t old new :
  HasPrefix t old = false → (String.length (String "/" t) ≤ n)%nat →
  ∃ m, (String.length t ≤ m)%nat ∧
    replace_fuel n (String "/" t) (String "/" old) new = String "/" (replace_fuel m t (String "/" old) new).
Proof.
  intros Hp Hn. destruct n as [|n]; simpl in Hn; [lia|]. exists n. split; [lia|].
  unfold HasPrefix in Hp. simpl. by destruct (strip_prefix old t).
Qed.
Lemma length_append_r s t : (String.length t ≤ String.length (String.append s t))%nat.
Proof. induction s as [|c s IH]; [done|]. etrans; [exact IH|]. apply Nat.le_succ_diag_r. Qed.
Lemma replace_here n t old new :
  (String.length (String.append old t) ≤ n)%nat → old ≠ "" →
  ∃ m, (String.length t ≤ m)%nat ∧ replace_fuel n (String.append old t) old new = String.append new (replace_fuel m t old new).
Proof.
  intros Hn Hne. destruct old as [|c old]; [done|]. destruct n as [|n]; simpl in Hn; [lia|]. exists n. split.
  - etrans; [apply (length_append_r old)|]. by apply le_S_n.
  - pose proof (strip_prefix_app (String c old) t) as Hp.
    change (String.append (String c old) ?x) with (String c (String.append old x)) in *.
    cbn [replace_fuel]. by rewrite Hp.
Qed.
Lemma replace_no_slash n a old new :
  no_slash a → (String.length a ≤ n)%nat → replace_fuel n a (String "/" old) new = a.
Proof.
  revert n. induction a as [|c a IH]; intros [|n] Ha Hn; try done.
  apply no_slash_cons in Ha as [Hc Ha]. unfold is_slash in Hc. cbn [replace_fuel strip_prefix].
  destruct (Ascii.eqb_spec "/"%char c) as [<-|]; [done|]. f_equal. apply IH; [done|]. by apply le_S_n.
Qed.

Lemma append_append a b c : String.append (String.append a b) c = String.append a (String.append b c).
Proof. induction a as [|x a IH]; [done|]. exact (f_equal (String x) IH). Qed.
Lemma append_slash e u : String.append (String.append e "/") u = String.append e (String "/" u).
Proof. apply append_append. Qed.

(** An element other than [e] does not start with "e/". *)
Lemma other_element a e t :
  no_slash a → no_slash e → a ≠ e → HasPrefix (String.append a (String "/" t)) (String.append e "/") = false.
Proof.
  intros Ha He Hne. apply not_true_is_false. intros [u Hu]%HasPrefix_true.
  apply Hne, (first_element a e t u); [done..|]. by rewrite Hu, append_slash.
Qed.
Lemma last_element a e : no_slash a → no_slash e → HasPrefix a (String.append e "/") = false.
Proof.
  intros Ha He. apply not_true_is_false. intros [u Hu]%HasPrefix_true.
  apply (no_slash_first a e u); [done..|]. by rewrite Hu, append_slash.
Qed.

(** ** Case *)

(** strings.ToLower on ASCII text, which is what the names of Kubernetes
    resources are made of. *)
Definition lower_ascii (c : ascii) : ascii :=
  let n := nat_of_ascii c in
  if (Nat.leb 65 n && Nat.leb n 90)%bool then ascii_of_nat (n + 32) else c.
Fixpoint ToLower (s : string) : string :=
  match s with
  | EmptyString => EmptyString
  | String c s' => String (lower_ascii c) (ToLower s')
  end.

(** Replacing one byte by another is a map over the bytes. *)
Lemma replace_byte n s a b :
  (String.length s ≤ n)%nat →
  list_ascii_of_string (replace_fuel n s (String a "") (String b "")) =
  (λ c, if bool_decide (c = a) then b else c) <$> list_ascii_of_string s.
Proof.
  revert s. induction n as [|n IH]; intros [|c s] Hlen; simpl in *; try done; [lia|].
  destruct (Ascii.eqb_spec a c) as [->|Hne].
  - simpl. unfold String.append at 1. by rewrite IH, bool_decide_eq_true_2 by (done || lia).
  - simpl. by rewrite IH, bool_decide_eq_false_2 by (done || lia).
Qed.
Lemma list_ascii_of_lower s : list_ascii_of_string (ToLower s) = lower_ascii <$> list_ascii_of_string s.
Proof. induction s; simpl; by f_equal. Qed.

(** ** Field masks *)

(** The paths of a field mask: the mask is a list of paths joined by commas. *)
Fixpoint mask_paths (mask : string) : list string :=
  match mask with
  | EmptyString => [""]
  | String c mask' =>
    if Ascii.eqb c ","%char then "" :: mask_paths mask'
    else match mask_paths mask' with
         | p :: ps => String c p :: ps
         | [] => [String c ""]
         end
  end.
Definition masked (mask path : string) : bool := bool_decide (path ∈ mask_paths mask).
