(* ===== verification/GoBase64.v ===== *)
(** * encoding/base64 of the Go standard library

    [StdEncoding.DecodeString], which the service account key and the cluster
    controllers call on what the APIs send, and [StdEncoding.EncodeToString], its
    inverse. *)

From Stdlib Require Import Lia.
From S2P Require Import Prelude.

#[local] Open Scope Z_scope.

(** ** The alphabet *)

Definition code (c : ascii) : Z := Z.of_nat (nat_of_ascii c).
Definition byte (n : Z) : ascii := ascii_of_nat (Z.to_nat n).

Definition decode_char (c : ascii) : option Z :=
  let n := code c in
  if bool_decide (65 ≤ n ≤ 90) then Some (n - 65)
  else if bool_decide (97 ≤ n ≤ 122) then Some (n - 71)
  else if bool_decide (48 ≤ n ≤ 57) then Some (n + 4)
  else if bool_decide (n = 43) then Some 62
  else if bool_decide (n = 47) then Some 63
  else None.

Definition encode_char (s : Z) : ascii :=
  if bool_decide (s < 26) then byte (s + 65)
  else if bool_decide (s < 52) then byte (s + 71)
  else if bool_decide (s < 62) then byte (s - 4)
  else if bool_decide (s = 62) then "+"%char else "/"%char.

Definition pad : ascii := "="%char.
Definition is_newline (c : ascii) : bool := bool_decide (code c = 10 ∨ code c = 13).

(** ** Decoding *)

(** The first bytes of the 24 bits that four sextets make. *)
Definition bytes_of (s0 s1 s2 s3 : Z) : list ascii :=
  let n := s0 * 2 ^ 18 + s1 * 2 ^ 12 + s2 * 2 ^ 6 + s3 in
  [byte (n / 2 ^ 16); byte ((n / 2 ^ 8) `mod` 256); byte (n `mod` 256)].

(** The loop over the quanta, newlines skipped already. A quantum is four
    characters of the alphabet; the last one may end in one or two padding
    characters, after which nothing may follow. The bits of the last character
    that do not fill a byte are ignored, as the encoding is not strict. *)
Fixpoint decode_quanta (src : list ascii) : option (list ascii) :=
  match src with
  | [] => Some []
  | c0 :: c1 :: c2 :: c3 :: rest =>
    s0 ← decode_char c0; s1 ← decode_char c1;
    if bool_decide (c2 = pad) then
      if bool_decide (c3 = pad ∧ rest = []) then Some (take 1 (bytes_of s0 s1 0 0)) else None
    else
      s2 ← decode_char c2;
      if bool_decide (c3 = pad) then
        if bool_decide (rest = []) then Some (take 2 (bytes_of s0 s1 s2 0)) else None
      else
        s3 ← decode_char c3; bs ← decode_quanta rest; Some (bytes_of s0 s1 s2 s3 ++ bs)
  | _ => None
  end.

(** [None] is a CorruptInputError; no caller looks at the bytes decoded before
    it. *)
Definition DecodeString (s : string) : option string :=
  string_of_list_ascii <$> decode_quanta (filter (λ c, is_newline c = false) (list_ascii_of_string s)).

(** ** Encoding *)

Fixpoint encode_quanta (bs : list ascii) : list ascii :=
  match bs with
  | [] => []
  | [a] => let n := code a * 2 ^ 16 in
    [encode_char (n / 2 ^ 18); encode_char ((n / 2 ^ 12) `mod` 64); pad; pad]
  | [a; b] => let n := code a * 2 ^ 16 + code b * 2 ^ 8 in
    [encode_char (n / 2 ^ 18); encode_char ((n / 2 ^ 12) `mod` 64); encode_char ((n / 2 ^ 6) `mod` 64); pad]
  | a :: b :: c :: rest => let n := code a * 2 ^ 16 + code b * 2 ^ 8 + code c in
    encode_char (n / 2 ^ 18) :: encode_char ((n / 2 ^ 12) `mod` 64) :: encode_char ((n / 2 ^ 6) `mod` 64)
      :: encode_char (n `mod` 64) :: encode_quanta rest
  end.

Definition EncodeToString (s : string) : string :=
  string_of_list_ascii (encode_quanta (list_ascii_of_string s)).

(** ** Decoding undoes encoding *)

Lemma code_bounds c : 0 ≤ code c < 256.
Proof. unfold code. pose proof (nat_ascii_bounded c). lia. Qed.
Lemma byte_code c : byte (code c) = c.
Proof. unfold byte, code. rewrite Nat2Z.id. apply ascii_nat_embedding. Qed.

(** Every sextet by its character. *)
Lemma sextets (P : Z → bool) :
  forallb P (Z.of_nat <$> seq 0 64) = true → ∀ s, 0 ≤ s < 64 → P s = true.
Proof.
  intros Hall s Hs. rewrite forallb_forall in Hall. apply Hall.
  rewrite <-list_elem_of_In. apply list_elem_of_fmap. exists (Z.to_nat s).
  split; [lia|]. apply elem_of_seq. lia.
Qed.
Lemma decode_encode_char s : 0 ≤ s < 64 → decode_char (encode_char s) = Some s.
Proof.
  intros Hs. apply (bool_decide_eq_true_1 _). revert s Hs.
  by apply (sextets (λ s, bool_decide (decode_char (encode_char s) = Some s))).
Qed.
Lemma encode_char_plain s : 0 ≤ s < 64 → encode_char s ≠ pad ∧ is_newline (encode_char s) = false.
Proof.
  intros Hs. apply (bool_decide_eq_true_1 _). revert s Hs.
  by apply (sextets (λ s, bool_decide (encode_char s ≠ pad ∧ is_newline (encode_char s) = false))).
Qed.

(** The sextets of 24 bits, and the bits of the sextets. *)
Lemma sextets_join n :
  n = n / 2 ^ 18 * 2 ^ 18 + (n / 2 ^ 12) `mod` 64 * 2 ^ 12 + (n / 2 ^ 6) `mod` 64 * 2 ^ 6 + n `mod` 64.
Proof.
  assert (n / 2 ^ 12 = n / 64 / 64) as -> by by rewrite Z.div_div.
  assert (n / 2 ^ 18 = n / 64 / 64 / 64) as -> by by rewrite !Z.div_div.
  change (2 ^ 6) with 64.
  pose proof (Z.div_mod n 64). pose proof (Z.div_mod (n / 64) 64). pose proof (Z.div_mod (n / 64 / 64) 64). lia.
Qed.

Lemma sextets_of_bytes a b c :
  0 ≤ a < 256 → 0 ≤ b < 256 → 0 ≤ c < 256 →
  let n := a * 2 ^ 16 + b * 2 ^ 8 + c in
  (0 ≤ n / 2 ^ 18 < 64 ∧ 0 ≤ (n / 2 ^ 12) `mod` 64 < 64 ∧ 0 ≤ (n / 2 ^ 6) `mod` 64 < 64 ∧ 0 ≤ n `mod` 64 < 64) ∧
  bytes_of (n / 2 ^ 18) ((n / 2 ^ 12) `mod` 64) ((n / 2 ^ 6) `mod` 64) (n `mod` 64) = [byte a; byte b; byte c].
Proof.
  intros Ha Hb Hc n. split.
  - split_and!; try (apply Z.mod_pos_bound; lia); [apply Z.div_pos|apply Z.div_lt_upper_bound]; unfold n; lia.
  - unfold bytes_of. rewrite <-sextets_join.
    assert (n / 2 ^ 16 = a) as -> by (symmetry; apply (Z.div_unique _ _ _ (b * 2 ^ 8 + c)); unfold n; lia).
    assert (n / 2 ^ 8 = a * 256 + b) as -> by (symmetry; apply (Z.div_unique _ _ _ c); unfold n; lia).
    assert ((a * 256 + b) `mod` 256 = b) as -> by (symmetry; apply (Z.mod_unique _ _ a); lia).
    assert (n `mod` 256 = c) as -> by (symmetry; apply (Z.mod_unique _ _ (a * 256 + b)); unfold n; lia).
    done.
Qed.

Lemma decode_encode_quanta bs : decode_quanta (encode_quanta bs) = Some bs.
Proof.
  assert (∀ n bs, (List.length bs ≤ n)%nat → decode_quanta (encode_quanta bs) = Some bs) as Hgo; [|by eapply Hgo].
  clear bs. induction n as [|n IH]; intros [|a [|b [|c bs]]] Hlen; simpl in Hlen; try done; try lia.
  - destruct (sextets_of_bytes (code a) 0 0) as [(? & ? & ? & ?) Hb]; [apply code_bounds|lia|lia|].
    rewrite !Z.add_0_r in *. cbn [encode_quanta decode_quanta]. rewrite !decode_encode_char by done.
    cbn [mbind option_bind]. rewrite !bool_decide_eq_true_2 by done.
    replace (bytes_of _ _ 0 0) with [byte (code a); byte 0; byte 0]; [simpl; by rewrite byte_code|].
    rewrite <-Hb. f_equal; Z.to_euclidean_division_equations; lia.
  - destruct (sextets_of_bytes (code a) (code b) 0) as [(? & ? & ? & ?) Hb]; [apply code_bounds|apply code_bounds|lia|].
    rewrite !Z.add_0_r in *. cbn [encode_quanta decode_quanta]. rewrite !decode_encode_char by done.
    cbn [mbind option_bind]. rewrite bool_decide_eq_false_2 by (by apply encode_char_plain).
    cbn [mbind option_bind]. rewrite !bool_decide_eq_true_2 by done.
    replace (bytes_of _ _ _ 0) with [byte (code a); byte (code b); byte 0]; [simpl; by rewrite !byte_code|].
    rewrite <-Hb. f_equal; Z.to_euclidean_division_equations; lia.
  - destruct (sextets_of_bytes (code a) (code b) (code c)) as [(? & ? & ? & ?) Hb]; [apply code_bounds..|].
    cbn [encode_quanta decode_quanta]. rewrite !decode_encode_char by done. cbn [mbind option_bind].
    rewrite !bool_decide_eq_false_2 by (by apply encode_char_plain). cbn [mbind option_bind].
    rewrite IH by lia. cbn [mbind option_bind]. by rewrite Hb, !byte_code.
Qed.

(** What is true of every sextet's character and of the padding is true of every
    character of an encoding. *)
Lemma encode_quanta_forall (P : ascii → Prop) bs :
  P pad → (∀ s, 0 ≤ s < 64 → P (encode_char s)) → Forall P (encode_quanta bs).
Proof.
  intros Hpad Hchar. assert (∀ n bs, (List.length bs ≤ n)%nat → Forall P (encode_quanta bs)) as Hgo; [|by eapply Hgo].
  clear bs. induction n as [|n IH]; intros [|a [|b [|c bs]]] Hlen; simpl in Hlen; try lia; try by constructor.
  - destruct (sextets_of_bytes (code a) 0 0) as [(? & ? & ? & ?) _]; [apply code_bounds|lia|lia|].
    rewrite !Z.add_0_r in *. repeat constructor; auto.
  - destruct (sextets_of_bytes (code a) (code b) 0) as [(? & ? & ? & ?) _]; [apply code_bounds..|lia|].
    rewrite !Z.add_0_r in *. repeat constructor; auto.
  - destruct (sextets_of_bytes (code a) (code b) (code c)) as [(? & ? & ? & ?) _]; [apply code_bounds..|].
    cbn [encode_quanta]. repeat (constructor; [by auto|]). apply IH. lia.
Qed.

Lemma filter_all {A} (P : A → Prop) `{!∀ x, Decision (P x)} (l : list A) : Forall P l → filter P l = l.
Proof. induction 1 as [|x l Hx _ IH]; [done|]. by rewrite filter_cons_True, IH. Qed.

Lemma DecodeString_Encode s : DecodeString (EncodeToString s) = Some s.
Proof.
  unfold DecodeString, EncodeToString. rewrite list_ascii_of_string_of_list_ascii, filter_all, decode_encode_quanta.
  - simpl. by rewrite string_of_list_ascii_of_string.
  - apply encode_quanta_forall; [done|]. intros c Hc. by apply encode_char_plain.
Qed.

Example decode_hello : DecodeString "aGVs
bG8=" = Some "hello" ∧ DecodeString "aGVsbG8" = None ∧ DecodeString "aGVsbG8=x" = None.
Proof. by vm_compute. Qed.
