(* ===== verification/GoURL.v ===== *)
(** * net/url of the Go standard library

    [Parse], of which the service account key client reads the error and the
    path. The texts of the errors are not modelled. *)

From Stdlib Require Import Lia.
From S2P Require Import Prelude GoStrings.

(** ** Bytes *)

Definition in_range (lo hi : ascii) (c : ascii) : bool :=
  Nat.leb (nat_of_ascii lo) (nat_of_ascii c) && Nat.leb (nat_of_ascii c) (nat_of_ascii hi).
Definition is_digit (c : ascii) : bool := in_range "0" "9" c.
Definition is_letter (c : ascii) : bool := in_range "a" "z" c || in_range "A" "Z" c.
Definition one_of (s : string) (c : ascii) : bool := existsb (Ascii.eqb c) (list_ascii_of_string s).
Definition is_ctl (c : ascii) : bool := Nat.ltb (nat_of_ascii c) 32 || Nat.eqb (nat_of_ascii c) 127.

Definition unhex (c : ascii) : option nat :=
  if is_digit c then Some (nat_of_ascii c - 48)
  else if in_range "a" "f" c then Some (nat_of_ascii c - 87)
  else if in_range "A" "F" c then Some (nat_of_ascii c - 55)
  else None.

(** Everything before and after the first [c]. *)
Fixpoint cut (c : ascii) (s : list ascii) : option (list ascii * list ascii) :=
  match s with
  | [] => None
  | b :: s' => if Ascii.eqb b c then Some ([], s') else (λ '(p, q), (b :: p, q)) <$> cut c s'
  end.
(** split(s, c, cutc). *)
Definition split_at (c : ascii) (cutc : bool) (s : list ascii) : list ascii * list ascii :=
  match cut c s with
  | None => (s, [])
  | Some (p, q) => (p, if cutc then q else c :: q)
  end.
(** The same at the last [c]. *)
Definition cut_last (c : ascii) (s : list ascii) : option (list ascii * list ascii) :=
  (λ '(q, p), (reverse p, reverse q)) <$> cut c (reverse s).

(** ** Escapes *)

Inductive encoding := encodePath | encodeUserPassword | encodeHost | encodeZone | encodeFragment.

(** A byte that a host may hold as it is; for every other byte shouldEscape says
    true. *)
Definition host_byte (c : ascii) : bool :=
  is_letter c || is_digit c || one_of "!$&'()*+,;=:[]<>" c || Nat.eqb (nat_of_ascii c) 34 || one_of "-_.~" c.

Definition valid_escape (mode : encoding) (a b : ascii) (v : nat) : bool :=
  match mode with
  | encodeHost => negb (Nat.ltb v 128) || (Ascii.eqb a "2" && Ascii.eqb b "5")
  | encodeZone =>
    (Ascii.eqb a "2" && Ascii.eqb b "5") || Nat.eqb v 32 || host_byte (ascii_of_nat v)
  | _ => true
  end.
Definition valid_plain (mode : encoding) (c : ascii) : bool :=
  match mode with
  | encodeHost | encodeZone => negb (Nat.ltb (nat_of_ascii c) 128) || host_byte c
  | _ => true
  end.

(** unescape; [None] is an error. *)
Fixpoint unescape (mode : encoding) (s : list ascii) : option (list ascii) :=
  match s with
  | [] => Some []
  | c :: s' =>
    if Ascii.eqb c "%" then
      match s' with
      | a :: b :: s'' =>
        x ← unhex a; y ← unhex b;
        let v := (16 * x + y)%nat in
        if valid_escape mode a b v then cons (ascii_of_nat v) <$> unescape mode s'' else None
      | _ => None
      end
    else if valid_plain mode c then cons c <$> unescape mode s' else None
  end.

(** ** The authority *)

Definition validOptionalPort (port : list ascii) : bool :=
  match port with
  | [] => true
  | c :: digits => Ascii.eqb c ":" && forallb is_digit digits
  end.
Definition validUserinfo (s : list ascii) : bool :=
  forallb (λ c, is_letter c || is_digit c || one_of "-._:~!$&'()*+,;=%@" c) s.

(** The text before the first occurrence of %25, when there is one, and the rest
    with it. *)
Fixpoint find_zone (s : list ascii) : option (list ascii * list ascii) :=
  match s with
  | [] => None
  | c :: s' =>
    if bool_decide (take 3 s = list_ascii_of_string "%25") then Some ([], s)
    else (λ '(p, q), (c :: p, q)) <$> find_zone s'
  end.

Definition validHost (host : list ascii) : bool :=
  match host with
  | "["%char :: _ =>
    match cut_last "]" host with
    | None => false
    | Some (before, colonPort) =>
      validOptionalPort colonPort &&
      match find_zone before with
      | Some (h1, zone) =>
        bool_decide (unescape encodeHost h1 ≠ None) && bool_decide (unescape encodeZone zone ≠ None) &&
        bool_decide (unescape encodeHost ("]"%char :: colonPort) ≠ None)
      | None => bool_decide (unescape encodeHost host ≠ None)
      end
    end
  | _ =>
    match cut_last ":" host with
    | Some (_, port) => validOptionalPort (":"%char :: port)
    | None => true
    end && bool_decide (unescape encodeHost host ≠ None)
  end.

Definition parseAuthority (authority : list ascii) : bool :=
  match cut_last "@" authority with
  | None => validHost authority
  | Some (userinfo, host) =>
    validHost host && validUserinfo userinfo &&
    let '(username, password) := split_at ":" true userinfo in
    bool_decide (unescape encodeUserPassword username ≠ None) &&
    bool_decide (unescape encodeUserPassword password ≠ None)
  end.

(** ** Parsing *)

(** getscheme: the scheme and the rest; [None] when the scheme is missing before
    a colon. *)
Fixpoint scheme_from (first : bool) (s : list ascii) : option (list ascii * list ascii) :=
  match s with
  | [] => None
  | c :: s' =>
    if is_letter c then (λ '(p, q), (c :: p, q)) <$> scheme_from false s'
    else if is_digit c || one_of "+-." c then
      if first then None else (λ '(p, q), (c :: p, q)) <$> scheme_from false s'
    else if Ascii.eqb c ":" then if first then None else Some ([], s')
    else None
  end.
Definition getscheme (s : list ascii) : option (list ascii * list ascii) :=
  match s with
  | ":"%char :: _ => None
  | _ => Some (default ([], s) (scheme_from true s))
  end.

Definition starts_with (p : string) (s : list ascii) : bool :=
  bool_decide (take (String.length p) s = list_ascii_of_string p).

(** The first path segment of a relative reference may hold no colon. *)
Definition colon_first (s : list ascii) : bool :=
  match cut ":" s with
  | None => false
  | Some (before, _) => negb (existsb (Ascii.eqb "/") before)
  end.

(** parse(rawurl, false), as the path of the URL. *)
Definition parse (rawurl : list ascii) : option (list ascii) :=
  if existsb is_ctl rawurl then None
  else if bool_decide (rawurl = ["*"%char]) then Some rawurl
  else
    '(scheme, rest) ← getscheme rawurl;
    (* a lone trailing question mark is cut off as an empty query is *)
    let rest := (split_at "?" true rest).1 in
    if negb (starts_with "/" rest) && bool_decide (scheme ≠ []) then Some []
    else if negb (starts_with "/" rest) && colon_first rest then None
    else
      rest ← (if (bool_decide (scheme ≠ []) || negb (starts_with "///" rest)) && starts_with "//" rest
              then
                let '(authority, rest') := split_at "/" false (drop 2 rest) in
                if parseAuthority authority then Some rest' else None
              else Some rest);
      unescape encodePath rest.

(** url.Parse(rawurl), as the path of the URL; [None] is an error. *)
Definition Parse (rawurl : string) : option string :=
  let '(u, frag) := split_at "#" true (list_ascii_of_string rawurl) in
  path ← parse u;
  _ ← unescape encodeFragment frag;
  Some (string_of_list_ascii path).

(** ** Relative references *)

(** The bytes that stand for themselves in the path of a relative reference. *)
Definition path_byte (c : ascii) : bool := negb (is_ctl c) && negb (one_of "%?#" c).

Lemma cut_absent c s : Forall (λ b, Ascii.eqb b c = false) s → cut c s = None.
Proof. induction 1 as [|b s Hb _ IH]; simpl; [done|]. by rewrite Hb, IH. Qed.
Lemma unescape_plain s : Forall (λ c, path_byte c = true) s → unescape encodePath s = Some s.
Proof.
  induction 1 as [|c s Hc _ IH]; simpl; [done|].
  destruct (Ascii.eqb_spec c "%") as [->|]; [done|]. by rewrite IH.
Qed.

(** A name of the form projects/... without escapes, query or fragment is its own
    path. *)
Lemma Parse_project s :
  Forall (λ c, path_byte c = true) (list_ascii_of_string s) →
  Parse (String.append "projects/" s) = Some (String.append "projects/" s).
Proof.
  intros Hs. unfold Parse, split_at. rewrite list_ascii_of_append.
  set (l := list_ascii_of_string "projects/" ++ list_ascii_of_string s).
  assert (Forall (λ c, path_byte c = true) l) as Hl.
  { apply Forall_app; split; [|done]. by repeat constructor. }
  assert (∀ d, one_of "?#" d = true → cut d l = None) as Hcut.
  { intros d Hd. apply cut_absent. eapply Forall_impl; [exact Hl|]. intros c Hc. cbv beta in Hc.
    destruct (Ascii.eqb_spec c d) as [->|]; [|done]. unfold path_byte, one_of in *. simpl in *.
    rewrite !orb_false_r in *. destruct (Ascii.eqb d "?"), (Ascii.eqb d "#"); rewrite ?orb_true_r, ?andb_false_r in *; done. }
  assert (existsb is_ctl l = false) as Hctl.
  { apply not_true_is_false. intros (c & Hin & Hc)%existsb_exists.
    apply list_elem_of_In in Hin. rewrite Forall_forall in Hl. apply Hl in Hin.
    unfold path_byte in Hin. by rewrite Hc in Hin. }
  rewrite (Hcut "#"%char) by done. cbv beta iota. unfold parse. rewrite Hctl.
  rewrite bool_decide_eq_false_2 by done.
  change (getscheme l) with (Some ([] : list ascii, l)). cbn [mbind option_bind].
  unfold split_at. rewrite (Hcut "?"%char) by done. cbn [fst].
  change (starts_with "/" l) with false. change (starts_with "//" l) with false.
  assert (colon_first l = false) as ->.
  { unfold colon_first, l. simpl. destruct (cut ":" (list_ascii_of_string s)) as [[p q]|]; done. }
  rewrite andb_false_r. cbn [negb andb orb]. rewrite bool_decide_eq_false_2 by tauto.
  rewrite andb_false_r. cbn [mbind option_bind]. rewrite unescape_plain by done. cbn [mbind option_bind unescape].
  unfold l. rewrite <-list_ascii_of_append. by rewrite string_of_list_ascii_of_string.
Qed.

Example parse_name : Parse "projects/p/serviceAccounts/a@p.iam.gserviceaccount.com/keys/k1"
  = Some "projects/p/serviceAccounts/a@p.iam.gserviceaccount.com/keys/k1".
Proof. reflexivity. Qed.
Example parse_url : Parse "https://u@[fe80::1%25en0]:80/a%20b/c?q#f" = Some "/a b/c" ∧ Parse "a:b" = Some "" ∧
  Parse "1a:b/c" = None ∧ Parse "a%2" = None ∧ Parse "//h:x/a" = None.
Proof. split_and!; reflexivity. Qed.
