(* ===== verification/GoDuration.v ===== *)
(** * Durations of the Go standard library

    time.Duration is an int64 that counts nanoseconds. Multiplying two of them
    wraps around; Seconds gives a float64, computed here with the IEEE 754
    operations of the Rocq library, and converting that to an int truncates. *)

From Stdlib Require Import Lia.
From Stdlib Require Import SpecFloat.
From S2P Require Import Prelude.
#[local] Open Scope Z_scope.

Definition MaxInt64 : Z := 2 ^ 63 - 1.
Definition MinInt64 : Z := - 2 ^ 63.
Definition is_int64 (z : Z) : Prop := MinInt64 ≤ z ≤ MaxInt64.

(** The int64 that the low 64 bits of an integer stand for. *)
Definition int64_wrap (z : Z) : Z := (z + 2 ^ 63) `mod` 2 ^ 64 - 2 ^ 63.

(** time.Second. *)
Definition Second : Z := 1000000000.

(** [d * time.Second]. *)
Definition times_Second (d : Z) : Z := int64_wrap (d * Second).

(** float64(z), rounded to nearest even, and the arithmetic on float64. *)
Definition float64 (z : Z) : spec_float := binary_normalize 53 1024 z 0 false.
Definition float64_add : spec_float → spec_float → spec_float := SFadd 53 1024.
Definition float64_div : spec_float → spec_float → spec_float := SFdiv 53 1024.

(** Duration.Seconds: the whole seconds and the rest, each as a float64. Go's
    division and remainder truncate towards zero. *)
Definition Seconds (d : Z) : spec_float :=
  let sec := Z.quot d Second in
  let nsec := Z.rem d Second in
  float64_add (float64 sec) (float64_div (float64 nsec) (float64 Second)).

(** int(f): the fraction is dropped. For a value that does not fit the language
    leaves the result to the implementation: [None]. *)
Definition int_of_float (f : spec_float) : option Z :=
  match f with
  | S754_zero _ => Some 0
  | S754_finite s m e =>
    let magnitude := Z.shiftr (Zpos m) (- e) in
    let z := if s then - magnitude else magnitude in
    if bool_decide (is_int64 z) then Some z else None
  | _ => None
  end.

(** ** Whole seconds are exact *)

Lemma int64_wrap_id z : is_int64 z → int64_wrap z = z.
Proof.
  intros Hz. unfold int64_wrap, is_int64, MinInt64, MaxInt64 in *. rewrite Z.mod_small by lia. lia.
Qed.

Lemma digits2_bounds m : 2 ^ (Zpos (digits2_pos m) - 1) ≤ Zpos m < 2 ^ Zpos (digits2_pos m).
Proof.
  induction m as [m IH|m IH|]; cbn [digits2_pos]; [| |done].
  all: rewrite Pos2Z.inj_succ; replace (Z.succ (Zpos (digits2_pos m)) - 1) with (Z.succ (Zpos (digits2_pos m) - 1)) by lia;
    rewrite !Z.pow_succ_r by lia; lia.
Qed.
Lemma digits2_shift m d : Zpos (digits2_pos (Pos.iter xO m d)) = Zpos (digits2_pos m) + Zpos d.
Proof.
  revert m. induction d as [|d IH] using Pos.peano_ind; intros m; [simpl; lia|].
  rewrite Pos.iter_succ. cbn [digits2_pos]. rewrite Pos2Z.inj_succ, IH. lia.
Qed.
Lemma shift_value m d : Zpos (Pos.iter xO m d) = Zpos m * 2 ^ Zpos d.
Proof.
  revert m. induction d as [|d IH] using Pos.peano_ind; intros m; [simpl; lia|].
  rewrite Pos.iter_succ, Pos2Z.inj_xO, IH, Pos2Z.inj_succ, Z.pow_succ_r by lia. lia.
Qed.

(** An integer of at most 53 bits is a float64 and comes back. *)
Lemma binary_round_small s m :
  Zpos m < 2 ^ 53 → ∃ m' e, binary_round 53 1024 s m 0 = S754_finite s m' e ∧ Z.shiftr (Zpos m') (- e) = Zpos m.
Proof.
  intros Hm. pose proof (digits2_bounds m) as [Hlo Hhi].
  assert (Zpos (digits2_pos m) ≤ 53) as Hd.
  { destruct (Z_le_gt_dec (Zpos (digits2_pos m)) 53) as [|Hgt]; [done|].
    pose proof (Z.pow_le_mono_r 2 53 (Zpos (digits2_pos m) - 1)). lia. }
  unfold binary_round, shl_align. rewrite Z.sub_0_r, Z.add_0_r.
  assert (fexp 53 1024 (Zpos (digits2_pos m)) = Zpos (digits2_pos m) - 53) as ->
    by (unfold fexp, emin; lia).
  destruct (Zpos (digits2_pos m) - 53) as [|p|d] eqn:Hs; [|lia|].
  - exists m, 0. unfold binary_round_aux, shr_fexp. cbn [Zdigits2]. rewrite Z.add_0_r.
    replace (fexp 53 1024 (Zpos (digits2_pos m)) - 0) with 0 by (unfold fexp, emin; lia).
    cbn [shr shr_record_of_loc shr_m loc_of_shr_record round_nearest_even Zdigits2]. rewrite Z.add_0_r.
    replace (fexp 53 1024 (Zpos (digits2_pos m)) - 0) with 0 by (unfold fexp, emin; lia). done.
  - exists (Pos.iter xO m d), (Zneg d). unfold binary_round_aux, shr_fexp. cbn [Zdigits2]. rewrite digits2_shift.
    replace (fexp 53 1024 (Zpos (digits2_pos m) + Zpos d + Zneg d) - Zneg d) with 0 by (unfold fexp, emin; lia).
    cbn [shr shr_record_of_loc shr_m loc_of_shr_record round_nearest_even Zdigits2]. rewrite digits2_shift.
    replace (fexp 53 1024 (Zpos (digits2_pos m) + Zpos d + Zneg d) - Zneg d) with 0 by (unfold fexp, emin; lia).
    cbn [shr shr_m shr_record_of_loc]. split.
    + by rewrite (proj2 (Z.leb_le (Zneg d) (1024 - 53))) by lia.
    + change (- Zneg d) with (Zpos d). rewrite Z.shiftr_div_pow2, shift_value by lia.
      apply Z.div_mul. lia.
Qed.

Lemma float64_small z : - 2 ^ 53 < z < 2 ^ 53 →
  int_of_float (float64 z) = Some z ∧ ∀ s, float64_add (float64 z) (S754_zero s) = float64 z ∨ z = 0.
Proof.
  intros Hz. unfold float64, binary_normalize. destruct z as [|m|m]; [split; [done|by right]|..].
  - destruct (binary_round_small false m) as (m' & e & -> & He); [lia|]. split; [|by left].
    unfold int_of_float. rewrite He. rewrite bool_decide_eq_true_2; [done|]. unfold is_int64, MinInt64, MaxInt64. lia.
  - destruct (binary_round_small true m) as (m' & e & -> & He); [lia|]. split; [|by left].
    unfold int_of_float. rewrite He. rewrite bool_decide_eq_true_2; [done|]. unfold is_int64, MinInt64, MaxInt64. lia.
Qed.

(** The seconds of a duration of [n] whole seconds are [n]. *)
Lemma Seconds_whole n : - 2 ^ 53 < n < 2 ^ 53 → int_of_float (Seconds (n * Second)) = Some n.
Proof.
  intros Hn. unfold Seconds. rewrite Z.quot_mul, Z.rem_mul by done.
  assert (float64_div (float64 0) (float64 Second) = S754_zero false) as -> by (by vm_compute).
  destruct (float64_small n Hn) as [Hi Ha]. destruct (Ha false) as [->| ->]; [done|by vm_compute].
Qed.

(** A number of seconds fits a duration exactly when it is at most this many. *)
Definition MaxSeconds : Z := 9223372036.
Lemma seconds_fit n : is_int64 (n * Second) ↔ - MaxSeconds ≤ n ≤ MaxSeconds.
Proof. unfold is_int64, MinInt64, MaxInt64, Second, MaxSeconds. lia. Qed.
