(* ===== verification/Libs.v ===== *)
(** * The packages this repository depends on, as an interface

    pkg/errors, go-cmp, copystructure and crossplane-runtime are not part of the
    repository. What the code relies on of them is a class: the functions it
    calls, each with the laws its documentation states. The theorems hold for
    every instance; [reference_libs] shows that the laws can be met. *)

From S2P Require Import Prelude.

(** ** Errors *)

(** The dynamic types of an error value that the code tells apart: a
    *googleapi.Error with its HTTP code, an error with a gRPC status code, what
    errors.New and errors.Wrap make, and anything else. A nil error is [None]. *)
Inductive error :=
| GoogleAPIError (code : Z) (message : string)
| GRPCStatusError (code : Z) (message : string)
| FundamentalError (message : string)
| WrappedError (cause : error) (message : string)
| OtherError (message : string).

#[global] Instance error_eq_dec : EqDecision error.
Proof. solve_decision. Defined.

(** errors.New. *)
Definition errors_New (message : string) : option error := Some (FundamentalError message).

(** base64.CorruptInputError of the standard library, whose offset is not
    modelled. *)
Definition corrupt_input : error := OtherError "illegal base64 data".

(** ** Conditions of a managed resource *)

(** The four Ready conditions of crossplane-runtime, and any other condition by
    its type. *)
Inductive condition :=
| Available
| Creating
| Deleting
| Unavailable
| OtherCondition (ctype : string).

#[global] Instance condition_eq_dec : EqDecision condition.
Proof. solve_decision. Defined.

Definition is_ready_condition (c : condition) : bool :=
  match c with OtherCondition _ => false | _ => true end.

(** The Ready condition of a status, if any: status.GetCondition(TypeReady). *)
Definition ready (cs : list condition) : option condition :=
  match filter is_ready_condition cs with c :: _ => Some c | [] => None end.

(** ** Managed resources *)

Record Reference := { refName : string }.
#[global] Instance Reference_eq_dec : EqDecision Reference.
Proof. solve_decision. Defined.

Record Selector := { MatchControllerRef : ptr bool; MatchLabels : gomap string }.
#[global] Instance Selector_eq_dec : EqDecision Selector.
Proof. solve_decision. Defined.

(** A managed resource: what the code reads of its metadata and of the embedded
    xpv1.ResourceSpec and xpv1.ResourceStatus, the spec.forProvider of type [P]
    and the status.atProvider of type [O]. meta.GetExternalName reads
    [ExternalName], meta.WasDeleted reads [WasDeleted]. *)
Record Managed (P O : Type) := {
  ExternalName : string;
  WasDeleted : bool;
  ProviderConfigReference : ptr Reference;
  ProviderReference : ptr Reference;
  ForProvider : P;
  AtProvider : O;
  Conditions : list condition
}.
Arguments ExternalName {P O} _.
Arguments WasDeleted {P O} _.
Arguments ProviderConfigReference {P O} _.
Arguments ProviderReference {P O} _.
Arguments ForProvider {P O} _.
Arguments AtProvider {P O} _.
Arguments Conditions {P O} _.

(** A resource of which nothing is known but its name and its spec. *)
Definition fresh {P O} (name : string) (spec : P) (status : O) : Managed P O := {|
  ExternalName := name; WasDeleted := false; ProviderConfigReference := None; ProviderReference := None;
  ForProvider := spec; AtProvider := status; Conditions := [] |}.

(** The keys of connection details that crossplane-runtime names. *)
Definition ResourceCredentialsSecretUserKey : string := "username".
Definition ResourceCredentialsSecretPasswordKey : string := "password".
Definition ResourceCredentialsSecretEndpointKey : string := "endpoint".
Definition ResourceCredentialsSecretCAKey : string := "clusterCA".
Definition ResourceCredentialsSecretClientCertKey : string := "clientCert".
Definition ResourceCredentialsSecretClientKeyKey : string := "clientKey".
Definition ResourceCredentialsSecretKubeconfigKey : string := "kubeconfig".

(** What an [Observe] reports to the reconciler. *)
Record ExternalObservation := {
  ResourceExists : bool;
  ResourceUpToDate : bool;
  ResourceLateInitialized : bool;
  ConnectionDetails : gomap string
}.

Definition no_observation : ExternalObservation := {|
  ResourceExists := false; ResourceUpToDate := false;
  ResourceLateInitialized := false; ConnectionDetails := None |}.

(** What a [Create] reports to the reconciler. *)
Record ExternalCreation := {
  ExternalNameAssigned : bool;
  CreationDetails : gomap string
}.

Definition no_creation : ExternalCreation := {|
  ExternalNameAssigned := false; CreationDetails := None |}.

(** ** The interface *)

(** What copystructure.Copy returns to its caller: an error, or a value of
    which the caller's type assertion does or does not hold. *)
Inductive copied (A : Type) :=
| CopyFails (e : error)
| CopyOtherType
| Copied (a : A).
Arguments CopyFails {A} e.
Arguments CopyOtherType {A}.
Arguments Copied {A} a.

Class Libs := {
  (** errors.Wrap: nil for a nil error, otherwise an error of its own type with
      the message and the cause. *)
  errors_Wrap : option error → string → option error;
  errors_Wrap_nil m : errors_Wrap None m = None;
  errors_Wrap_some e m : errors_Wrap (Some e) m = Some (WrappedError e m);
  (** resource.Ignore: nil for an error the predicate holds of, any other error
      unmodified. *)
  resource_Ignore : (option error → bool) → option error → option error;
  resource_Ignore_true f e : f e = true → resource_Ignore f e = None;
  resource_Ignore_false f e : f e = false → resource_Ignore f e = e;
  (** cmp.Equal with its options: [R] is the equality that the documentation of
      the options gives for the compared type. *)
  cmp_Equal {A : Type} (R : relation A) `{!RelDecision R} : A → A → bool;
  cmp_Equal_spec {A : Type} (R : relation A) `{!RelDecision R} (x y : A) :
    cmp_Equal R x y = true ↔ R x y;
  (** copystructure.Copy: a deep copy, or an error. *)
  copystructure_Copy {A : Type} : A → copied A;
  copystructure_Copy_deep {A : Type} (x y : A) : copystructure_Copy x = Copied y → y = x;
  (** ConditionedStatus.SetConditions: the supplied condition replaces the one
      of its type. *)
  SetConditions : list condition → condition → list condition;
  SetConditions_ready cs c : is_ready_condition c = true → ready (SetConditions cs c) = Some c;
}.

(** copystructure.Copy copies: the structs compared here have no channel, no
    function and no locked field, so it does not fail. *)
Class CopySucceeds `{Libs} :=
  copy_succeeds : ∀ (A : Type) (x : A), copystructure_Copy x = Copied x.

(** The relation cmp.Equal decides when its options only hide differences: two
    values are equal when [view] makes them so. *)
Definition same_view {A B} (view : A → B) : relation A := λ x y, view x = view y.
#[global] Instance same_view_dec {A B} `{!EqDecision B} (view : A → B) : RelDecision (same_view view).
Proof. intros x y. unfold same_view. apply _. Defined.
#[global] Instance same_view_equiv {A B} (view : A → B) : Equivalence (same_view view).
Proof. unfold same_view. split; [by intros x|by intros x y|intros x y z; congruence]. Qed.

(** cr.SetConditions(c), which is cr.Status.SetConditions(c). *)
Definition set_condition `{Libs} {P O} (c : condition) (cr : Managed P O) : Managed P O :=
  {| cr with Conditions := SetConditions cr.(Conditions) c |}.

Section laws.
Context `{Libs}.

Lemma set_condition_ready {P O} c (cr : Managed P O) :
  is_ready_condition c = true → ready (set_condition c cr).(Conditions) = Some c.
Proof. apply SetConditions_ready. Qed.

Lemma cmp_Equal_false {A : Type} (R : relation A) `{!RelDecision R} (x y : A) :
  cmp_Equal R x y = false ↔ ¬ R x y.
Proof. rewrite <-(cmp_Equal_spec R x y). by destruct (cmp_Equal R x y). Qed.

Lemma cmp_Equal_decides {A : Type} (R : relation A) `{!RelDecision R} (x y : A) :
  cmp_Equal R x y = bool_decide (R x y).
Proof. apply eq_bool_prop_intro. by rewrite Is_true_true, cmp_Equal_spec, bool_decide_spec. Qed.

Lemma cmp_Equal_refl {A : Type} (R : relation A) `{!RelDecision R, !Reflexive R} (x : A) :
  cmp_Equal R x x = true.
Proof. by apply cmp_Equal_spec. Qed.

Lemma errors_Wrap_None e m : errors_Wrap e m = None ↔ e = None.
Proof. destruct e; [rewrite errors_Wrap_some|rewrite errors_Wrap_nil]; done. Qed.

(** errors.Wrap(resource.Ignore(f, err), m). *)
Lemma wrap_ignore_true f e m :
  f e = true → errors_Wrap (resource_Ignore f e) m = None.
Proof. intros Hf. by rewrite resource_Ignore_true, errors_Wrap_nil. Qed.
Lemma wrap_ignore_false f e m :
  f (Some e) = false →
  errors_Wrap (resource_Ignore f (Some e)) m = Some (WrappedError e m).
Proof. intros Hf. by rewrite resource_Ignore_false, errors_Wrap_some. Qed.
End laws.

(** ** An instance *)

#[local] Obligation Tactic := idtac.

#[program] Definition reference_libs : Libs := {|
  errors_Wrap o m := match o with Some e => Some (WrappedError e m) | None => None end;
  resource_Ignore f e := if f e then None else e;
  cmp_Equal A R _ x y := bool_decide (R x y);
  copystructure_Copy A x := Copied x;
  SetConditions cs c :=
    c :: filter (λ d, negb (is_ready_condition d)) cs;
|}.
Next Obligation. done. Qed.
Next Obligation. done. Qed.
Next Obligation. by intros f e H; simpl; rewrite H. Qed.
Next Obligation. by intros f e H; simpl; rewrite H. Qed.
Next Obligation. intros. apply bool_decide_eq_true. Qed.
Next Obligation. by intros A x y [= ->]. Qed.
Next Obligation. intros cs c Hc. unfold ready. rewrite filter_cons_True; [done|]. by rewrite Hc. Qed.

Lemma reference_copy : @CopySucceeds reference_libs.
Proof. done. Qed.
