(* ===== verification/Contract.v ===== *)
(** * What a controller promises to the reconciler

    crossplane-runtime's managed reconciler calls the four methods of an
    external client and acts on what they return. The promises that do not
    depend on the kind of resource are stated here once, over the tree of calls
    of a handler, and discharged by each controller. *)

From S2P Require Import Prelude Libs.

(** A handler returns its results, the error among them. *)
Class HasError (A : Type) := error_of : A → option error.
#[global] Instance observe_error {M} : HasError (ExternalObservation * option error * M) := λ r, r.1.2.
#[global] Instance create_error {M} : HasError (ExternalCreation * option error * M) := λ r, r.1.2.
#[global] Instance update_error {M} : HasError (option error * M) := fst.

Section contract.
Context {E : Type → Type}.

(** For every response that [answers] allows the handler does not panic, and
    returns an error exactly when one of its calls failed ([failed]: one did
    already). *)
Fixpoint errors_from {A} `{!HasError A} (answers : ∀ X, E X → X → Prop) (fails : ∀ X, E X → X → bool)
    (failed : bool) (p : prog E A) : Prop :=
  match p with
  | Done a => error_of a ≠ None ↔ failed = true
  | Crash => False
  | Call e k => ∀ r, answers _ e r → errors_from answers fails (failed || fails _ e r) (k r)
  end.
Definition errors_given {A} `{!HasError A} (answers : ∀ X, E X → X → Prop) (fails : ∀ X, E X → X → bool)
    (p : prog E A) : Prop := errors_from answers fails false p.
Definition errors_iff {A} `{!HasError A} (fails : ∀ X, E X → X → bool) (p : prog E A) : Prop :=
  errors_given (λ _ _ _, True) fails p.

(** For every response that [answers] allows, the handler does not panic and its
    result satisfies [Q]. *)
Fixpoint always_given {A} (answers : ∀ X, E X → X → Prop) (Q : A → Prop) (p : prog E A) : Prop :=
  match p with
  | Done a => Q a
  | Crash => False
  | Call e k => ∀ r, answers _ e r → always_given answers Q (k r)
  end.

(** After a failed call the handler makes no other call. *)
Fixpoint stops_on_failure {A} (fails : ∀ X, E X → X → bool) (p : prog E A) : Prop :=
  match p with
  | Done _ | Crash => True
  | Call e k => ∀ r,
      if fails _ e r then calls_only (λ _ _, False) (k r) else stops_on_failure fails (k r)
  end.

(** What [Observe] reports is consistent: with an error, or when the resource
    does not exist, it reports nothing else. *)
Definition observes {P O} (p : prog E (ExternalObservation * option error * option (Managed P O))) : Prop :=
  always (λ '(o, err, _),
    (err ≠ None → o = no_observation) ∧ (o.(ResourceExists) = false → o = no_observation)) p.
End contract.

(** Wrapping keeps an error an error, and ignoring forgives it. *)
Lemma wrap_none_iff `{Libs} e m : errors_Wrap e m ≠ None ↔ bool_decide (e ≠ None) = true.
Proof. destruct e; rewrite ?errors_Wrap_some, ?errors_Wrap_nil; by case_bool_decide. Qed.
Lemma wrap_ignore_iff `{Libs} f e m :
  errors_Wrap (resource_Ignore f (Some e)) m ≠ None ↔ negb (f (Some e)) = true.
Proof.
  destruct (f (Some e)) eqn:Hf; [rewrite wrap_ignore_true by done|rewrite wrap_ignore_false by done]; naive_solver.
Qed.

Lemma ignore_nil `{Libs} f : resource_Ignore f None = None.
Proof. destruct (f None) eqn:Hf; [by apply resource_Ignore_true|by rewrite resource_Ignore_false]. Qed.

(** What a controller may write back to the API server in Observe: the resource
    with another spec, one that [keeps] what the user set. *)
Definition late_update {P O} (keeps : P → P → Prop) (cr cr' : Managed P O) : Prop :=
  ∃ i, keeps cr.(ForProvider) i ∧ i ≠ cr.(ForProvider) ∧ cr' = {| cr with ForProvider := i |}.
Lemma late_update_intro `{Libs} {P O} `{!EqDecision P} (keeps : P → P → Prop) (cr : Managed P O) i :
  negb (cmp_Equal (=) cr.(ForProvider) i) = true → keeps cr.(ForProvider) i →
  late_update keeps cr {| cr with ForProvider := i |}.
Proof.
  intros Hne%negb_true_iff Hk. exists i. split_and!; [done| |done].
  apply cmp_Equal_false in Hne. congruence.
Qed.

Create HintDb handlers.
#[export] Hint Resolve late_update_intro : handlers.
Create Rewrite HintDb handlers.
#[export] Hint Rewrite @errors_Wrap_some @errors_Wrap_nil @ignore_nil : handlers.

(** Walks a handler call by call, over every response of every call, and closes
    what is left by computation. *)
Ltac walk_step :=
  match goal with
  | |- ∀ _, _ => intros ?
  | |- _ ∧ _ => split
  | x : (_ + _)%type |- _ => destruct x; simpl in *
  | x : (_ * _)%type |- _ => destruct x; simpl in *
  | x : option error |- _ => destruct x; simpl in *
  | |- context [if ?b then _ else _] =>
    match b with
    | decide _ => case_decide
    | bool_decide _ => case_bool_decide
    | _ => destruct b eqn:?
    end; simpl in *
  | |- context [deref ?p] => destruct p eqn:?; simpl in *
  | |- context [match ?x with Some _ => _ | None => _ end] => destruct x eqn:?; simpl in *
  | |- context [match ?x with pair _ _ => _ end] => destruct x eqn:?; simpl in *
  end.
Ltac walk_done :=
  unfold error_of, observe_error, create_error, update_error in *; simpl in *;
  rewrite ?orb_false_r, ?orb_true_r; autorewrite with handlers;
  first [done | apply wrap_ignore_iff | solve [eauto with handlers] | naive_solver].
Ltac walk := repeat (simpl; autorewrite with handlers; walk_step); try walk_done.
