(* ===== verification/Gcp.v ===== *)
(** * pkg/clients/gcp.go: what every client shares

    The helpers on optional values, late initialization, the classification of
    API errors, the comparison of compute URLs and the choice of credentials. *)

From S2P Require Import Prelude GoStrings Libs.

(** ** Optional values *)

Definition StringValue (v : ptr string) : string := match v with None => "" | Some s => s end.
Definition Int64Value (v : ptr Z) : Z := match v with None => 0%Z | Some i => i end.
Definition BoolValue (v : ptr bool) : bool := match v with None => false | Some b => b end.

Definition StringPtr (p : string) : ptr string := Some p.
Definition Int64Ptr (p : Z) : ptr Z := Some p.
Definition BoolPtr (p : bool) : ptr bool := Some p.

(** ** Late initialization *)

Definition LateInitializeString (s : ptr string) (from : string) : ptr string :=
  if bool_decide (s ≠ None) || bool_decide (from = "") then s else Some from.
Definition LateInitializeInt64 (i : ptr Z) (from : Z) : ptr Z :=
  if bool_decide (i ≠ None) || bool_decide (from = 0%Z) then i else Some from.
Definition LateInitializeBool (b : ptr bool) (from : bool) : ptr bool :=
  if bool_decide (b ≠ None) || negb from then b else Some from.
Definition LateInitializeStringSlice (s from : slice string) : slice string :=
  if negb (slice_empty s) || slice_empty from then s else from.
Definition LateInitializeStringMap (s from : gomap string) : gomap string :=
  if negb (map_empty s) || map_empty from then s else from.

(** ** API errors *)

Definition StatusBadRequest : Z := 400.
Definition StatusNotFound : Z := 404.
Definition StatusConflict : Z := 409.
(** codes.NotFound of gRPC. *)
Definition codes_NotFound : Z := 5.

Definition IsErrorNotFoundGRPC (err : option error) : bool :=
  match err with
  | None => false
  | Some (GRPCStatusError code _) => bool_decide (code = codes_NotFound)
  | Some _ => false
  end.
Definition IsErrorNotFound (err : option error) : bool :=
  match err with
  | None => false
  | Some (GoogleAPIError code _) => bool_decide (code = StatusNotFound)
  | Some _ => false
  end.
Definition IsErrorAlreadyExists (err : option error) : bool :=
  match err with
  | None => false
  | Some (GoogleAPIError code _) => bool_decide (code = StatusConflict)
  | Some _ => false
  end.
Definition IsErrorBadRequest (err : option error) : bool :=
  match err with
  | None => false
  | Some (GoogleAPIError code _) => bool_decide (code = StatusBadRequest)
  | Some _ => false
  end.

(** pkg/util/googleapi has a second one, by type assertion alone; it is not
    called anywhere. *)
Definition util_IsErrorNotFound (err : option error) : bool :=
  match err with
  | Some (GoogleAPIError code _) => bool_decide (code = StatusNotFound)
  | _ => false
  end.
Lemma util_IsErrorNotFound_same err : util_IsErrorNotFound err = IsErrorNotFound err.
Proof. by destruct err as [[]|]. Qed.

#[global] Arguments IsErrorNotFoundGRPC : simpl never.
#[global] Arguments IsErrorNotFound : simpl never.
#[global] Arguments IsErrorAlreadyExists : simpl never.
#[global] Arguments IsErrorBadRequest : simpl never.

(** ** Compute URLs *)

Definition ComputeURIPrefix : string := "https://www.googleapis.com/compute/v1/".

(** The comparer EquateComputeURLs hands to cmp.Equal. *)
Definition EquateComputeURLs (a b : string) : bool :=
  if bool_decide (a = b) then true
  else if negb (HasPrefix a ComputeURIPrefix) && negb (HasPrefix b ComputeURIPrefix)
  then bool_decide (a = b)
  else
    let ta := TrimPrefix a ComputeURIPrefix in
    let tb := TrimPrefix b ComputeURIPrefix in
    if bool_decide (ta = tb) then true else bool_decide (Base ta = Base tb).

(** ** Credentials *)

Record SecretKeySelector := { sks_Name : string; sks_Namespace : string; sks_Key : string }.
Record ProviderSpec := { CredentialsSecretRef : SecretKeySelector; prov_ProjectID : string }.
Record ProviderCredentials := { Source : string; CommonCredentialSelectors : rest }.
Record ProviderConfigSpec := { Credentials : ProviderCredentials; pc_ProjectID : string }.

(** option.WithCredentialsJSON(data). *)
Record ClientOption := { CredentialsJSON : ptr string }.

(** The calls authentication makes: to the API server, to the usage tracker and
    to the credential extractor of crossplane-runtime. *)
Inductive AuthE : Type → Type :=
| TrackUsage : AuthE (option error)
| GetProviderConfig (name : string) : AuthE (ProviderConfigSpec + error)
| CommonCredentialExtractor (c : ProviderCredentials) : AuthE (ptr string + error)
| GetProvider (name : string) : AuthE (ProviderSpec + error)
| GetSecret (name namespace : string) : AuthE (gomap string + error).

Definition AuthInfo : Type := string * ptr ClientOption * option error.

Section auth.
Context `{Libs}.
Context {P O : Type}.
Implicit Types mg : Managed P O.

Definition UseProvider mg : prog AuthE AuthInfo :=
  ref ← lift (deref mg.(ProviderReference));
  p ← call (GetProvider ref.(refName));
  match p with
  | inr err => mret ("", None, Some err)
  | inl spec =>
    let ref := spec.(CredentialsSecretRef) in
    s ← call (GetSecret ref.(sks_Name) ref.(sks_Namespace));
    match s with
    | inr err => mret ("", None, Some err)
    | inl data =>
      mret (spec.(prov_ProjectID),
            Some {| CredentialsJSON := entries data !! ref.(sks_Key) |}, None)
    end
  end.

Definition UseProviderConfig mg : prog AuthE AuthInfo :=
  t ← call TrackUsage;
  match t with
  | Some err => mret ("", None, Some err)
  | None =>
    ref ← lift (deref mg.(ProviderConfigReference));
    pc ← call (GetProviderConfig ref.(refName));
    match pc with
    | inr err => mret ("", None, Some err)
    | inl spec =>
      d ← call (CommonCredentialExtractor spec.(Credentials));
      match d with
      | inr err => mret ("", None, errors_Wrap (Some err) "cannot get credentials")
      | inl data => mret (spec.(pc_ProjectID), Some {| CredentialsJSON := data |}, None)
      end
    end
  end.

Definition GetAuthInfo mg : prog AuthE AuthInfo :=
  match mg.(ProviderConfigReference), mg.(ProviderReference) with
  | Some _, _ => UseProviderConfig mg
  | None, Some _ => UseProvider mg
  | None, None => mret ("", None, errors_New "neither providerConfigRef nor providerRef is given")
  end.
End auth.

(** ** Late initialization: lemmas *)

Create HintDb late.
Create Rewrite HintDb late.

Lemma LateInitializeString_Some s from : LateInitializeString (Some s) from = Some s.
Proof. done. Qed.
Lemma LateInitializeInt64_Some i from : LateInitializeInt64 (Some i) from = Some i.
Proof. done. Qed.
Lemma LateInitializeBool_Some b from : LateInitializeBool (Some b) from = Some b.
Proof. done. Qed.

(** Reading a late-initialized value gives the user's value, and the observed
    one where the user gave none. *)
Lemma StringValue_late s from : StringValue (LateInitializeString s from) = default from s.
Proof. unfold LateInitializeString. destruct s; simpl; [done|]. by case_bool_decide; subst. Qed.
Lemma Int64Value_late i from : Int64Value (LateInitializeInt64 i from) = default from i.
Proof. unfold LateInitializeInt64. destruct i; simpl; [done|]. by case_bool_decide; subst. Qed.
Lemma BoolValue_late b from : BoolValue (LateInitializeBool b from) = default from b.
Proof. unfold LateInitializeBool. destruct b; simpl; [done|]. by destruct from. Qed.
Lemma elems_late s from :
  elems (LateInitializeStringSlice s from) = if slice_empty s then elems from else elems s.
Proof.
  unfold LateInitializeStringSlice, slice_empty.
  destruct (elems s) eqn:Hs, (elems from) eqn:Hf; simpl; by rewrite ?Hs, ?Hf.
Qed.
Lemma entries_late s from :
  entries (LateInitializeStringMap s from) = if map_empty s then entries from else entries s.
Proof.
  unfold LateInitializeStringMap, map_empty.
  repeat case_bool_decide; simpl; congruence.
Qed.

Lemma LateInitializeString_idem s from from' :
  from ≠ "" → LateInitializeString (LateInitializeString s from) from' = LateInitializeString s from.
Proof. intros Hf. destruct s; [done|]. unfold LateInitializeString; simpl. by rewrite (bool_decide_eq_false_2 (from = "")). Qed.

Lemma LateInitializeString_same s from :
  LateInitializeString (LateInitializeString s from) from = LateInitializeString s from.
Proof. unfold LateInitializeString. destruct s; [done|]; simpl. repeat case_bool_decide; naive_solver. Qed.
Lemma LateInitializeInt64_same i from :
  LateInitializeInt64 (LateInitializeInt64 i from) from = LateInitializeInt64 i from.
Proof. unfold LateInitializeInt64. destruct i; [done|]; simpl. repeat case_bool_decide; naive_solver. Qed.
Lemma LateInitializeBool_same b from :
  LateInitializeBool (LateInitializeBool b from) from = LateInitializeBool b from.
Proof. by destruct b, from. Qed.
Lemma LateInitializeStringSlice_same s from :
  LateInitializeStringSlice (LateInitializeStringSlice s from) from = LateInitializeStringSlice s from.
Proof. unfold LateInitializeStringSlice. destruct (slice_empty s) eqn:Hs, (slice_empty from) eqn:Hf; simpl; rewrite ?Hs, ?Hf; done. Qed.
Lemma LateInitializeStringMap_same s from :
  LateInitializeStringMap (LateInitializeStringMap s from) from = LateInitializeStringMap s from.
Proof. unfold LateInitializeStringMap. destruct (map_empty s) eqn:Hs, (map_empty from) eqn:Hf; simpl; rewrite ?Hs, ?Hf; done. Qed.

#[export] Hint Rewrite StringValue_late Int64Value_late BoolValue_late elems_late entries_late
  LateInitializeString_same LateInitializeInt64_same LateInitializeBool_same
  LateInitializeStringSlice_same LateInitializeStringMap_same : late.

(** The user's choices that late initialization must keep: a set pointer, a
    non-empty slice or map. *)
Definition keeps {A} (x y : ptr A) : Prop := x ≠ None → y = x.
Definition keeps_slice {A} (x y : slice A) : Prop := slice_empty x = false → y = x.
Definition keeps_map {V} (x y : gomap V) : Prop := map_empty x = false → y = x.
Definition keeps_string (x y : string) : Prop := x ≠ "" → y = x.

(** The user's choice, if any, is the observed value. *)
Definition agrees {A} (x : ptr A) (v : A) : Prop := default v x = v.
#[global] Instance agrees_dec {A} `{!EqDecision A} (x : ptr A) (v : A) : Decision (agrees x v).
Proof. unfold agrees. apply _. Defined.

(** The same for nested structs, slices and maps: what the user set of the
    struct, a non-empty slice or a non-empty map. *)
Definition agrees_ptr {A B} (R : A → B → Prop) (x : ptr A) (y : ptr B) : Prop :=
  match x, y with None, _ => True | Some a, Some b => R a b | Some _, None => False end.
#[global] Instance agrees_ptr_dec {A B} (R : A → B → Prop) `{!RelDecision R} x y : Decision (agrees_ptr R x y).
Proof. destruct x, y; simpl; apply _. Defined.
Definition agrees_slice {A} (x y : slice A) : Prop := slice_empty x = true ∨ norm_slice x = norm_slice y.
Definition agrees_map {V} (x y : gomap V) : Prop := map_empty x = true ∨ norm_map x = norm_map y.
Definition agrees_string (x y : string) : Prop := x = "" ∨ x = y.

(** A nested struct is kept when it stays set and what it sets is kept. *)
Definition keeps_ptr {A} (R : A → A → Prop) (x y : ptr A) : Prop :=
  match x with None => True | Some a => ∃ b, y = Some b ∧ R a b end.

Lemma norm_late_slice s from :
  norm_slice (LateInitializeStringSlice s from) = norm_slice from ↔ agrees_slice s from.
Proof.
  unfold agrees_slice, norm_slice, LateInitializeStringSlice, slice_empty.
  destruct (elems s) eqn:Hs, (elems from) eqn:Hf; simpl; rewrite ?Hs, ?Hf; intuition done.
Qed.
Lemma norm_late_map s from :
  norm_map (LateInitializeStringMap s from) = norm_map from ↔ agrees_map s from.
Proof.
  unfold agrees_map, norm_map, LateInitializeStringMap.
  destruct (map_empty s) eqn:Hs, (map_empty from) eqn:Hf; simpl; rewrite ?Hs, ?Hf; intuition done.
Qed.
Lemma late_plain_string s from : (if bool_decide (s = "") then from else s) = from ↔ agrees_string s from.
Proof. unfold agrees_string. case_bool_decide; naive_solver. Qed.

Lemma keeps_refl {A} (x : ptr A) : keeps x x.
Proof. done. Qed.
Lemma keeps_late_string s from : keeps s (LateInitializeString s from).
Proof. by destruct s; intros Hset. Qed.
Lemma keeps_late_int64 i from : keeps i (LateInitializeInt64 i from).
Proof. by destruct i; intros Hset. Qed.
Lemma keeps_late_bool b from : keeps b (LateInitializeBool b from).
Proof. by destruct b; intros Hset. Qed.
Lemma keeps_late_slice s from : keeps_slice s (LateInitializeStringSlice s from).
Proof. intros Hs. unfold LateInitializeStringSlice. by rewrite Hs. Qed.
Lemma keeps_late_map s from : keeps_map s (LateInitializeStringMap s from).
Proof. intros Hs. unfold LateInitializeStringMap. by rewrite Hs. Qed.
#[export] Hint Resolve keeps_refl keeps_late_string keeps_late_int64 keeps_late_bool
  keeps_late_slice keeps_late_map : late.

(** Of a write the errors that count: none that the predicate excuses. *)
Definition write_fails (excuse : option error → bool) (r : option error) : bool :=
  match r with Some e => negb (excuse (Some e)) | None => false end.
Definition read_fails {A} (excuse : option error → bool) (r : A + error) : bool :=
  match r with inr e => negb (excuse (Some e)) | inl _ => false end.
Definition no_excuse (e : option error) : bool := false.

(** ** API errors: lemmas *)

(** An error that was wrapped is no longer an API error: the type assertions
    look at the error itself, not at its cause. *)
Lemma wrapped_not_classified e m :
  IsErrorNotFound (Some (WrappedError e m)) = false ∧
  IsErrorAlreadyExists (Some (WrappedError e m)) = false ∧
  IsErrorBadRequest (Some (WrappedError e m)) = false ∧
  IsErrorNotFoundGRPC (Some (WrappedError e m)) = false.
Proof. done. Qed.

(** ** Compute URLs: lemmas *)

Lemma HasPrefix_app p s : HasPrefix (String.append p s) p = true.
Proof. apply HasPrefix_true. eauto. Qed.

Lemma EquateComputeURLs_sym a b : EquateComputeURLs a b = EquateComputeURLs b a.
Proof.
  unfold EquateComputeURLs. rewrite (andb_comm (negb (HasPrefix a _))).
  set (plain := negb _ && negb _).
  repeat case_bool_decide; destruct plain; repeat case_bool_decide; congruence.
Qed.

(** A bare name is not fully qualified. *)
Lemma no_slash_unqualified name : no_slash name → HasPrefix name ComputeURIPrefix = false.
Proof.
  intros Hns. destruct (HasPrefix name ComputeURIPrefix) eqn:Hp; [|done].
  apply HasPrefix_true in Hp as [t ->]. unfold no_slash in Hns.
  rewrite list_ascii_of_append in Hns. apply Forall_app in Hns as [Hns _].
  by repeat (apply Forall_cons in Hns as [? Hns]).
Qed.

(** What the comparer decides when one side is fully qualified. *)
Lemma EquateComputeURLs_full p b :
  EquateComputeURLs (String.append ComputeURIPrefix p) b = true ↔
  p = TrimPrefix b ComputeURIPrefix ∨ Base p = Base (TrimPrefix b ComputeURIPrefix).
Proof.
  unfold EquateComputeURLs. rewrite HasPrefix_app, TrimPrefix_app. cbn [negb andb].
  repeat case_bool_decide; subst; rewrite ?TrimPrefix_app; naive_solver.
Qed.

(** ** Properties *)

(** Late initialization fills in and never overrides. For each of the five
    functions a value the user set (a non-nil pointer, a non-empty slice or map)
    comes back unchanged, an unset one reads afterwards as the observed value,
    and a second round with the same observation changes nothing. *)
Theorem late_initialization_fills_in :
  (∀ s from, keeps s (LateInitializeString s from) ∧
     StringValue (LateInitializeString s from) = default from s ∧
     LateInitializeString (LateInitializeString s from) from = LateInitializeString s from) ∧
  (∀ i from, keeps i (LateInitializeInt64 i from) ∧
     Int64Value (LateInitializeInt64 i from) = default from i ∧
     LateInitializeInt64 (LateInitializeInt64 i from) from = LateInitializeInt64 i from) ∧
  (∀ b from, keeps b (LateInitializeBool b from) ∧
     BoolValue (LateInitializeBool b from) = default from b ∧
     LateInitializeBool (LateInitializeBool b from) from = LateInitializeBool b from) ∧
  (∀ s from, keeps_slice s (LateInitializeStringSlice s from) ∧
     elems (LateInitializeStringSlice s from) = (if slice_empty s then elems from else elems s) ∧
     LateInitializeStringSlice (LateInitializeStringSlice s from) from = LateInitializeStringSlice s from) ∧
  (∀ s from, keeps_map s (LateInitializeStringMap s from) ∧
     entries (LateInitializeStringMap s from) = (if map_empty s then entries from else entries s) ∧
     LateInitializeStringMap (LateInitializeStringMap s from) from = LateInitializeStringMap s from).
Proof. split_and!; intros; autorewrite with late; auto with late. Qed.

(** The URL comparer is reflexive and symmetric; it equates a fully
    qualified URL with its partially qualified form and with the bare name it
    ends in; two strings neither of which is fully qualified are equal only when
    identical. *)
Theorem compute_urls_equated :
  (∀ a, EquateComputeURLs a a = true) ∧
  (∀ a b, EquateComputeURLs a b = EquateComputeURLs b a) ∧
  (∀ p, HasPrefix p ComputeURIPrefix = false →
     EquateComputeURLs (String.append ComputeURIPrefix p) p = true) ∧
  (∀ dir name, name ≠ "" → no_slash name →
     EquateComputeURLs (String.append ComputeURIPrefix (String.append dir (String "/" name))) name = true) ∧
  (∀ a b, HasPrefix a ComputeURIPrefix = false → HasPrefix b ComputeURIPrefix = false →
     EquateComputeURLs a b = true ↔ a = b).
Proof.
  split_and!.
  - intros a. unfold EquateComputeURLs. by rewrite bool_decide_eq_true_2.
  - apply EquateComputeURLs_sym.
  - intros p Hp. apply EquateComputeURLs_full. left. by rewrite TrimPrefix_none.
  - intros dir name Hne Hns. apply EquateComputeURLs_full. right.
    rewrite TrimPrefix_none by by apply no_slash_unqualified.
    destruct (Base_last dir name Hne Hns) as [-> ->]. done.
  - intros a b Ha Hb. unfold EquateComputeURLs. rewrite Ha, Hb. simpl. case_bool_decide; naive_solver.
Qed.

(** Any two fully qualified URLs that end in the same name are equal to the
    comparer, whatever project, region or kind of resource they name; so it is
    not transitive, and a network of another project passes for the desired one. *)
Theorem compute_urls_conflate_projects :
  (∀ d1 d2 name, name ≠ "" → no_slash name →
     EquateComputeURLs (String.append ComputeURIPrefix (String.append d1 (String "/" name)))
       (String.append ComputeURIPrefix (String.append d2 (String "/" name))) = true) ∧
  EquateComputeURLs
    (String.append ComputeURIPrefix "projects/a/global/networks/n")
    (String.append ComputeURIPrefix "projects/b/global/networks/n") = true ∧
  EquateComputeURLs "projects/a/global/networks/n" "projects/b/global/networks/n" = false.
Proof.
  split_and!; [|by vm_compute..].
  intros d1 d2 name Hne Hns. apply EquateComputeURLs_full. rewrite TrimPrefix_app.
  right. destruct (Base_last d1 name Hne Hns) as [-> _].
  by destruct (Base_last d2 name Hne Hns) as [-> _].
Qed.

(** Choosing credentials never panics, and hands out a client option exactly
    when there is no error; an error comes with an empty project. *)
Theorem auth_info_or_error `{Libs} {P O : Type} (mg : Managed P O) :
  always (λ '(project, opts, err), (err = None ↔ opts ≠ None) ∧ (err ≠ None → project = ""))
    (GetAuthInfo mg).
Proof.
  unfold GetAuthInfo, UseProviderConfig, UseProvider.
  destruct (ProviderConfigReference mg); simpl.
  - intros [err|]; simpl; [naive_solver|].
    intros [spec|err]; simpl; [|naive_solver].
    intros [data|err]; simpl; [naive_solver|]. rewrite errors_Wrap_some. naive_solver.
  - destruct (ProviderReference mg); simpl; [|naive_solver].
    intros [spec|err]; simpl; [|naive_solver]. intros [data|err]; simpl; naive_solver.
Qed.

Lemma auth_info_or_error_witness :
  always (λ '(project, opts, err), (err = None ↔ opts ≠ None) ∧ (err ≠ None → project = ""))
    (@GetAuthInfo reference_libs unit unit
       {| (fresh "r" () ()) with ProviderConfigReference := Some {| refName := "default" |} |}).
Proof. apply (@auth_info_or_error reference_libs). Defined.
