(* ===== verification/Nested.v ===== *)
(** * Optional structs and slices of pointers

    The shapes the client packages use to copy between the structs of this
    repository and those of an API, written once with their laws: an optional
    struct that is created when it is missing and then filled, field by field, an
    optional struct that is copied only when it is missing, and slices of
    pointers, whose elements may be nil. *)

From S2P Require Import Prelude Libs Gcp.

(** The elements that are not nil, each at its index. *)
Definition each {A B} (f : A → B) (l : list (ptr A)) : list (ptr B) := (λ p : option A, f <$> p) <$> l.

(** ** Towards the API *)

(** [if in.X != nil { if out.X == nil { out.X = &X{} }; ... }]. *)
Definition generate_ptr {A B} (f : A → B → B) (zero : B) (x : ptr A) (y : ptr B) : ptr B :=
  match x with None => y | Some a => Some (f a (default zero y)) end.

(** The same when filling the struct may panic. *)
Definition generate_ptr_try {A B} (f : A → B → outcome B) (zero : B) (x : ptr A) (y : ptr B) : outcome (ptr B) :=
  match x with None => Returns y | Some a => b ← f a (default zero y); Returns (Some b) end.

(** [if len(in) > 0 { out = make(..., len(in)) }], then the elements of [in] that
    are not nil, each at its index. *)
Definition generate_elems {A B} (f : A → B) (x : slice (ptr A)) (y : slice (ptr B)) : slice (ptr B) :=
  if slice_empty x then y else Some (each f (elems x)).

(** The same where every element of [in] is dereferenced. *)
Definition generate_derefs {A B} (f : A → B) (x : slice (ptr A)) (y : slice (ptr B)) : outcome (slice (ptr B)) :=
  if slice_empty x then Returns y
  else l ← mapM (λ p, a ← deref p; Returns (Some (f a))) (elems x); Returns (Some l).

(** ** Late initialization *)

(** [if in.X != nil { if spec.X == nil { spec.X = &X{} }; ... }]. *)
Definition late_ptr {A B} (f : B → A → A) (zero : A) (x : ptr A) (y : ptr B) : ptr A :=
  match y with None => x | Some b => Some (f b (default zero x)) end.
(** The same when filling the struct may panic. *)
Definition late_ptr_try {A B} (f : B → A → outcome A) (zero : A) (x : ptr A) (y : ptr B) : outcome (ptr A) :=
  match y with None => Returns x | Some b => a ← f b (default zero x); Returns (Some a) end.

(** [if spec.X == nil && in.X != nil { spec.X = &X{...} }]. *)
Definition late_new {A B} (f : B → A) (x : ptr A) (y : ptr B) : ptr A :=
  match x with Some _ => x | None => f <$> y end.

(** [if len(in) != 0 && len(spec) == 0 { spec = make(..., len(in)); ... }], where
    every element of [in] is dereferenced. *)
Definition late_elems {A B} (f : B → A) (x : slice (ptr A)) (y : slice (ptr B)) : outcome (slice (ptr A)) :=
  if negb (slice_empty y) && slice_empty x
  then l ← mapM (λ p, b ← deref p; Returns (Some (f b))) (elems y); Returns (Some l)
  else Returns x.

(** ** Observation *)

(** [for _, c := range in { if c != nil { out = append(out, ...) } }]. *)
Definition collect {A B} (f : A → B) (x : slice (ptr A)) : slice (ptr B) :=
  match omap (λ p : option A, (λ a, Some (f a)) <$> p) (elems x) with [] => None | l => Some l end.

(** ** Laws *)

Section nested.
Context {A B C : Type} (gen : A → B → B) (late : B → A → A) (zero : B) (no : A) (view : B → C) (R : A → B → Prop).
Hypothesis gen_late : ∀ s o, view (gen (late o s) o) = view o ↔ R s o.
Hypothesis R_no : ∀ o, R no o.

(** An optional struct that was late initialized generates what was observed
    exactly when the user's choices agree with it. *)
Lemma generate_late_ptr x y :
  view <$> generate_ptr gen zero (late_ptr late no x y) y = view <$> y ↔ agrees_ptr R x y.
Proof using Type*.
  destruct x as [a|], y as [b|]; simpl; [| |split; [done|]|done].
  - split; [intros [= Heq]; by apply gen_late|intros Hr; f_equal; by apply gen_late].
  - done.
  - intros _. f_equal. by apply gen_late.
Qed.
End nested.

Lemma keeps_late_ptr {A B} (R : A → A → Prop) (late : B → A → A) (no : A) x y :
  (∀ b a, R a (late b a)) → (∀ a, R a a) → keeps_ptr R x (late_ptr late no x y).
Proof. intros HR Hrefl. destruct x, y; simpl; eauto. Qed.
Lemma keeps_late_new {A B} (f : B → A) x y : keeps x (late_new f x y).
Proof. by destruct x; intros Hset. Qed.
#[export] Hint Resolve keeps_late_new : late.

Lemma late_ptr_idem {A B} (late : B → A → A) (no : A) x y :
  (∀ b a, late b (late b a) = late b a) → late_ptr late no (late_ptr late no x y) y = late_ptr late no x y.
Proof. intros Hidem. destruct x, y; simpl; [|done| |done]; by rewrite Hidem. Qed.

Lemma generate_ptr_idem {A B} (gen : A → B → B) (zero : B) x y :
  (∀ a b, gen a (gen a b) = gen a b) →
  generate_ptr gen zero x (generate_ptr gen zero x y) = generate_ptr gen zero x y.
Proof. intros Hidem. destruct x; simpl; [by rewrite Hidem|done]. Qed.

(** Late initialization of a slice dereferences the observed elements: it panics
    exactly when it copies a nil one. *)
Lemma mapM_deref {A B} (f : B → A) (l : list (ptr B)) :
  mapM (λ p, b ← deref p; Returns (Some (f b))) l =
    if existsb (λ p, bool_decide (p = None)) l then Panics else Returns (each f l).
Proof.
  induction l as [|[b|] l IH]; simpl; [done| |done].
  change (mapM (λ p, b ← deref p; Returns (Some (f b))) l) with
    (mapM (M := outcome) (λ p, deref p ≫= λ b : B, Returns (Some (f b))) l) in IH.
  rewrite IH. by destruct (existsb _ l).
Qed.
Lemma late_elems_spec {A B} (f : B → A) (x : slice (ptr A)) (y : slice (ptr B)) :
  late_elems f x y =
    if negb (slice_empty y) && slice_empty x then
      if existsb (λ p, bool_decide (p = None)) (elems y) then Panics else Returns (Some (each f (elems y)))
    else Returns x.
Proof. unfold late_elems. destruct (negb _ && _); [|done]. rewrite mapM_deref. by destruct (existsb _ _). Qed.

(** What it gives when it does not. *)
Definition late_list {A B} (f : B → A) (x : slice (ptr A)) (y : slice (ptr B)) : slice (ptr A) :=
  if negb (slice_empty y) && slice_empty x then Some (each f (elems y)) else x.

(** ** Nil elements *)

Abbreviation has_nil l := (existsb (λ p, bool_decide (p = None)) l) (only parsing).
Definition no_nil {A} (l : slice (ptr A)) : Prop := Forall is_Some (elems l).
#[global] Instance no_nil_dec {A} (l : slice (ptr A)) : Decision (no_nil l).
Proof. unfold no_nil. apply _. Defined.

Lemma no_nil_existsb {A} (l : list (ptr A)) : Forall is_Some l → has_nil l = false.
Proof.
  intros Hl. apply not_true_is_false. intros (p & Hin & Hp)%existsb_exists. apply list_elem_of_In in Hin.
  rewrite Forall_forall in Hl. destruct (Hl p Hin) as [a ->]. by apply bool_decide_eq_true in Hp.
Qed.
Lemma has_nil_false {A} (l : list (ptr A)) : has_nil l = false ↔ Forall is_Some l.
Proof.
  split; [|apply no_nil_existsb]. induction l as [|[a|] l IH]; simpl; [done| |done].
  intros Hl. constructor; [by eexists|auto].
Qed.
Lemma has_nil_true {A} (l : list (ptr A)) : has_nil l = true ↔ None ∈ l.
Proof.
  rewrite existsb_exists. setoid_rewrite <-list_elem_of_In. setoid_rewrite bool_decide_eq_true. naive_solver.
Qed.
Lemma no_nil_values {A} (l : list (ptr A)) : Forall is_Some l ↔ ∃ vs, l = Some <$> vs.
Proof.
  split; [|intros [vs ->]; apply Forall_fmap, Forall_forall; intros a _; by eexists].
  induction 1 as [|p l [a ->] _ [vs ->]]; [by exists []|]. by exists (a :: vs).
Qed.
Lemma each_values {A B} (f : A → B) vs : each f (Some <$> vs) = Some <$> (f <$> vs).
Proof. unfold each. rewrite <-!list_fmap_compose. done. Qed.
Lemma has_nil_each {A B} (f : A → B) l : has_nil (each f l) = has_nil l.
Proof. induction l as [|[a|] l IH]; simpl; [done|exact IH|done]. Qed.
Lemma no_nil_generate {A B} (f : A → B) x y : no_nil x → no_nil y → no_nil (generate_elems f x y).
Proof.
  intros Hx Hy. unfold generate_elems. destruct (slice_empty x); [done|]. unfold no_nil, each; simpl.
  apply Forall_fmap. eapply Forall_impl; [exact Hx|]. intros [a|] [? [=]]. by eexists.
Qed.

Lemma generate_derefs_spec {A B} (f : A → B) x y :
  generate_derefs f x y = if has_nil (elems x) then Panics else Returns (generate_elems f x y).
Proof.
  unfold generate_derefs, generate_elems, slice_empty. rewrite mapM_deref. destruct (elems x) as [|p l] eqn:Hx; [done|].
  by destruct (existsb _ _).
Qed.

Lemma late_elems_list {A B} (f : B → A) (x : slice (ptr A)) (y : slice (ptr B)) :
  late_elems f x y = if slice_empty x && has_nil (elems y) then Panics else Returns (late_list f x y).
Proof.
  rewrite late_elems_spec. unfold late_list, slice_empty. by destruct (elems y) as [|p l], (elems x).
Qed.
Lemma late_list_idem {A B} (f : B → A) x y : late_list f (late_list f x y) y = late_list f x y.
Proof.
  unfold late_list. destruct (negb (slice_empty y) && slice_empty x) eqn:Hx; [|by rewrite Hx].
  by destruct (slice_empty y), (slice_empty (Some (each f (elems y)))).
Qed.
Lemma late_list_keeps {A B} (f : B → A) x y : keeps_slice x (late_list f x y).
Proof. intros Hne. unfold late_list. by rewrite Hne, andb_false_r. Qed.
Lemma late_list_no_nil {A B} (f : B → A) x y : no_nil x → no_nil y → no_nil (late_list f x y).
Proof.
  intros Hx Hy. unfold no_nil, late_list in *. destruct (negb _ && _); [|done].
  simpl. apply has_nil_false. by rewrite has_nil_each, no_nil_existsb.
Qed.
#[export] Hint Resolve late_list_keeps : late.

(** What the pointers of a slice that are not nil point to. *)
Definition derefs {A} (s : slice (ptr A)) : list A := omap id (elems s).
Lemma derefs_values {A} (l : list A) : derefs (Some (Some <$> l)) = l.
Proof. unfold derefs. simpl. induction l as [|a l IH]; [done|]. simpl. by f_equal. Qed.
Lemma values_derefs {A} (s : slice (ptr A)) : no_nil s → elems s = Some <$> derefs s.
Proof. intros [vs Hvs]%no_nil_values. rewrite Hvs. f_equal. unfold derefs. by rewrite Hvs, <-(derefs_values vs) at 1. Qed.
Lemma no_nil_Some {A} (l : list A) : no_nil (Some (Some <$> l)).
Proof. apply no_nil_values. by exists l. Qed.
#[export] Hint Resolve no_nil_Some : core.

(** [out = make(..., len(in))], then every element of [in], which is
    dereferenced, made into one of [out]. *)
Definition generate_all {A B} (f : A → outcome B) (x : slice (ptr A)) : outcome (slice (ptr B)) :=
  l ← mapM (λ p, a ← deref p; b ← f a; Returns (Some b)) (elems x); Returns (Some l).

(** When it returns, no element was nil, and each gave its element. *)
Lemma generate_all_returns {A B} (f : A → outcome B) x y :
  generate_all f x = Returns y ↔ no_nil x ∧ ∃ l, y = Some (Some <$> l) ∧ Forall2 (λ a b, f a = Returns b) (derefs x) l.
Proof.
  unfold generate_all, no_nil, derefs. generalize (elems x). intros l. clear x. revert y.
  induction l as [|[a|] l IH]; intros y; simpl.
  - split; [intros [= <-]; split; [constructor|by exists []]|intros [_ (l & -> & Hl)]; by inversion Hl].
  - rewrite Forall_cons. destruct (f a) as [b|] eqn:Hf; simpl.
    2:{ split; [done|]. intros [_ (k & _ & Hk)]. inversion Hk. congruence. }
    destruct (mapM _ l) as [k|]; simpl in *.
    + split.
      * intros [= <-]. destruct (proj1 (IH (Some k)) eq_refl) as [Hl (k' & [= ->] & Hk)].
        split; [split; [by eexists|done]|]. exists (b :: k'). split; [done|by constructor].
      * intros [[_ Hl] (k' & -> & Hk)]. inversion Hk as [|? b' ? k'' Hb Hk']; subst.
        rewrite Hf in Hb. injection Hb as <-.
        assert (Returns (Some k) = Returns (Some (Some <$> k''))) as [= ->] by (apply IH; eauto). done.
    + split; [done|]. intros [[_ Hl] (k' & -> & Hk)]. inversion Hk as [|? b' ? k'' Hb Hk']; subst.
      assert (Panics = Returns (Some (Some <$> k''))) by (apply IH; eauto). done.
  - rewrite Forall_cons. split; [done|]. by intros [[[? ?] _] _].
Qed.

(** The same where [f] gives [g] exactly on the elements that satisfy [Q]. *)
Lemma generate_all_values {A B} (f : A → outcome B) (g : A → B) (Q : A → Prop) x y :
  (∀ a b, f a = Returns b ↔ Q a ∧ b = g a) →
  generate_all f x = Returns y ↔ (no_nil x ∧ Forall Q (derefs x)) ∧ y = Some (Some <$> (g <$> derefs x)).
Proof.
  intros Hf. rewrite generate_all_returns.
  assert (∀ l k, Forall2 (λ a b, f a = Returns b) l k ↔ Forall Q l ∧ k = g <$> l) as Hl.
  { induction l as [|a l IH]; intros k.
    - split; [intros Hk; inversion Hk; by subst|by intros [_ ->]].
    - rewrite Forall_cons, fmap_cons. split.
      + intros Hk. inversion Hk as [|? b ? k' Ha Hl]; subst. apply Hf in Ha as [? ->]. by apply IH in Hl as [? ->].
      + intros [[Ha Hl] ->]. constructor; [by apply Hf|by apply IH]. }
  setoid_rewrite Hl. naive_solver.
Qed.

(** cmpopts.SortSlices calls its less function on the elements of a slice when
    there are two or more of them, on each of them at least once. *)
Definition sorts_nil {A} (s : slice (ptr A)) : bool := Nat.leb 2 (List.length (elems s)) && has_nil (elems s).
Lemma sorts_nil_false {A} (s : slice (ptr A)) : no_nil s → sorts_nil s = false.
Proof. intros Hs. unfold sorts_nil. by rewrite no_nil_existsb, andb_false_r. Qed.
(** A less function of structs, where it is called on pointers that are not nil. *)
Definition less_ptr {A} (less : A → A → bool) (x y : ptr A) : bool :=
  match x, y with Some a, Some b => less a b | _, _ => false end.
(** Two pointers are equal to cmp.Equal when both are nil or what they point to is. *)
Definition ptr_same {A} (R : relation A) (x y : ptr A) : Prop := option_Forall2 R x y.
#[global] Instance ptr_same_dec {A} (R : relation A) `{!RelDecision R} : RelDecision (ptr_same R).
Proof.
  intros [a|] [b|]; unfold ptr_same.
  - destruct (decide (R a b)) as [Hab|Hab]; [left; by constructor|right; by inversion 1].
  - right. by inversion 1.
  - right. by inversion 1.
  - left. constructor.
Defined.
#[global] Instance ptr_same_refl {A} (R : relation A) `{!Reflexive R} : Reflexive (ptr_same R).
Proof. intros [a|]; by constructor. Qed.
