(* ===== verification/IamPolicy.v ===== *)
(** * IAM policies: the types of apis/iam/v1alpha1/policy.go and the API's

    The policy a user writes, the policy the Google APIs exchange, how the
    former becomes the latter binding by binding, and when cmp.Equal with the
    options the policy clients give takes two API policies for the same. *)

From S2P Require Import Prelude GoSort GoStrings Libs Gcp Nested.

Definition PolicyVersion : Z := 3.

(** ** The policy of a managed resource *)

Record Expr := {
  Description : ptr string;
  Expression : string;
  Location : ptr string;
  Title : ptr string
}.

Record Binding := {
  Condition : ptr Expr;
  Members : slice string;
  ServiceAccountMemberRefs : slice Reference;
  ServiceAccountMemberSelector : ptr Selector;
  Role : string
}.

Record AuditLogConfig := {
  ExemptedMembers : slice string;
  LogType : string
}.

Record AuditConfig := {
  AuditLogConfigs : slice (ptr AuditLogConfig);
  Service : string
}.

Record Policy := {
  AuditConfigs : slice (ptr AuditConfig);
  Bindings : slice (ptr Binding)
}.

(** ** The policy of the APIs

    The packages storage/v1, iam/v1 and cloudkms/v1 declare the same structs
    for a binding, a condition and an audit configuration. *)

Record apiExpr := {
  ae_Description : string;
  ae_Expression : string;
  ae_Location : string;
  ae_Title : string;
  ae_rest : rest
}.
#[global] Instance apiExpr_eq_dec : EqDecision apiExpr.
Proof. solve_decision. Defined.

Record apiBinding := {
  ab_Condition : ptr apiExpr;
  ab_Members : slice string;
  ab_Role : string;
  ab_rest : rest
}.
#[global] Instance apiBinding_eq_dec : EqDecision apiBinding.
Proof. solve_decision. Defined.

Record apiAuditLogConfig := {
  al_ExemptedMembers : slice string;
  al_LogType : string;
  al_rest : rest
}.
#[global] Instance apiAuditLogConfig_eq_dec : EqDecision apiAuditLogConfig.
Proof. solve_decision. Defined.

Record apiAuditConfig := {
  aa_AuditLogConfigs : slice (ptr apiAuditLogConfig);
  aa_Service : string;
  aa_rest : rest
}.
#[global] Instance apiAuditConfig_eq_dec : EqDecision apiAuditConfig.
Proof. solve_decision. Defined.

(** iam.Policy and cloudkms.Policy, which have the same fields. *)
Record iamPolicy := {
  ip_AuditConfigs : slice (ptr apiAuditConfig);
  ip_Bindings : slice (ptr apiBinding);
  ip_Etag : string;
  ip_Version : Z;
  ip_rest : rest
}.
#[global] Instance iamPolicy_eq_dec : EqDecision iamPolicy.
Proof. solve_decision. Defined.

Definition zero_iamPolicy : iamPolicy :=
  {| ip_AuditConfigs := None; ip_Bindings := None; ip_Etag := ""; ip_Version := 0; ip_rest := ∅ |}.

(** The calls of the policy controllers: a policy is read in the requested
    version and written back whole. *)
Inductive PolicyE (P : Type) : Type → Type :=
| GetIamPolicy (resource : string) (requestedVersion : Z) : PolicyE P (P + error)
| SetIamPolicy (resource : string) (policy : P) : PolicyE P (P + error).
Arguments GetIamPolicy {P} _ _.
Arguments SetIamPolicy {P} _ _.

(** ** Generation, as the loops of the three clients do it *)

Definition generate_expr (c : Expr) : apiExpr := {|
  ae_Description := StringValue c.(Description);
  ae_Expression := c.(Expression);
  ae_Location := StringValue c.(Location);
  ae_Title := StringValue c.(Title);
  ae_rest := ∅ |}.

Definition generate_binding (v : Binding) : apiBinding := {|
  ab_Condition := generate_expr <$> v.(Condition);
  ab_Members := Some (elems v.(Members));
  ab_Role := v.(Role);
  ab_rest := ∅ |}.

Definition generate_audit_log (av : AuditLogConfig) : apiAuditLogConfig := {|
  al_ExemptedMembers := Some (elems av.(ExemptedMembers));
  al_LogType := av.(LogType);
  al_rest := ∅ |}.

Definition generate_audit (v : AuditConfig) : outcome apiAuditConfig :=
  logs ← generate_all (λ av, Returns (generate_audit_log av)) v.(AuditLogConfigs);
  Returns {| aa_AuditLogConfigs := logs; aa_Service := v.(Service); aa_rest := ∅ |}.

Definition generate_bindings (p : Policy) : outcome (slice (ptr apiBinding)) :=
  generate_all (λ v, Returns (generate_binding v)) p.(Bindings).
Definition generate_audits (p : Policy) : outcome (slice (ptr apiAuditConfig)) :=
  generate_all generate_audit p.(AuditConfigs).

(** ** What cmp.Equal sees

    cmpopts.EquateEmpty, SortSlices on the role of bindings and SortSlices on
    strings, both descending. Sorting two or more bindings dereferences each of
    them; a single binding, and audit configurations, are compared as pointers. *)

Definition role_greater (i j : apiBinding) : bool := string_greater i.(ab_Role) j.(ab_Role).

Definition view_strings (s : slice string) : slice string :=
  stable_sort string_greater <$> norm_slice s.

Definition view_binding (b : apiBinding) : apiBinding :=
  {| b with ab_Members := view_strings b.(ab_Members) |}.

Definition view_bindings (bs : slice (ptr apiBinding)) : list (ptr apiBinding) :=
  stable_sort (less_ptr role_greater) (each view_binding (elems bs)).

Definition view_audit_log (a : apiAuditLogConfig) : apiAuditLogConfig :=
  {| a with al_ExemptedMembers := view_strings a.(al_ExemptedMembers) |}.

Definition view_audit (a : apiAuditConfig) : apiAuditConfig :=
  {| a with aa_AuditLogConfigs := norm_slice (Some (each view_audit_log (elems a.(aa_AuditLogConfigs)))) |}.

Definition view_audits (s : slice (ptr apiAuditConfig)) : list (ptr apiAuditConfig) := each view_audit (elems s).

(** What cmp.Equal sees of an iam.Policy or a cloudkms.Policy with
    IgnoreFields(Policy, "Version"). *)
Definition view_iamPolicy (p : iamPolicy) : list (ptr apiAuditConfig) * list (ptr apiBinding) * string * rest :=
  (view_audits p.(ip_AuditConfigs), view_bindings p.(ip_Bindings), p.(ip_Etag), p.(ip_rest)).

(** ** Lemmas: generation *)

(** The bindings and the audit configuration of a policy without nil. *)
Definition bindings_generated (p : Policy) : slice (ptr apiBinding) :=
  Some (Some <$> (generate_binding <$> derefs p.(Bindings))).
Definition audit_generated (v : AuditConfig) : apiAuditConfig := {|
  aa_AuditLogConfigs := Some (Some <$> (generate_audit_log <$> derefs v.(AuditLogConfigs)));
  aa_Service := v.(Service); aa_rest := ∅ |}.
Definition audits_generated (p : Policy) : slice (ptr apiAuditConfig) :=
  Some (Some <$> (audit_generated <$> derefs p.(AuditConfigs))).
Definition audits_no_nil (p : Policy) : Prop :=
  no_nil p.(AuditConfigs) ∧ Forall (λ v, no_nil v.(AuditLogConfigs)) (derefs p.(AuditConfigs)).

Lemma generate_bindings_returns p bs :
  generate_bindings p = Returns bs ↔ no_nil p.(Bindings) ∧ bs = bindings_generated p.
Proof.
  unfold generate_bindings. rewrite (generate_all_values _ generate_binding (λ _, True)) by naive_solver.
  split; [by intros [[? _] ->]|]. intros [? ->]. split; [|done].
  split; [done|]. by apply Forall_true.
Qed.
Lemma generate_audit_returns v a :
  generate_audit v = Returns a ↔ no_nil v.(AuditLogConfigs) ∧ a = audit_generated v.
Proof.
  unfold generate_audit. destruct (generate_all _ _) as [l|] eqn:Hl; simpl.
  - apply (generate_all_values _ generate_audit_log (λ _, True)) in Hl as [[Hnil _] ->]; [|naive_solver].
    unfold audit_generated. naive_solver.
  - split; [done|]. intros [Hnil ->].
    assert (generate_all (λ av, Returns (generate_audit_log av)) v.(AuditLogConfigs) =
      Returns (audit_generated v).(aa_AuditLogConfigs)); [|congruence].
    apply (generate_all_values _ generate_audit_log (λ _, True)); [naive_solver|].
    split; [split; [done|by apply Forall_true]|done].
Qed.
Lemma generate_audits_returns p a :
  generate_audits p = Returns a ↔ audits_no_nil p ∧ a = audits_generated p.
Proof. apply generate_all_values. apply generate_audit_returns. Qed.

(** ** Lemmas: comparison *)

(** Two string slices look the same when they hold the same strings, as often,
    in any order. *)
Lemma view_strings_eq s1 s2 : view_strings s1 = view_strings s2 ↔ elems s1 ≡ₚ elems s2.
Proof.
  unfold view_strings, norm_slice.
  destruct (elems s1) as [|x l1] eqn:H1, (elems s2) as [|y l2] eqn:H2; simpl.
  - done.
  - split; [done|]. by intros ?%Permutation_nil_l.
  - split; [done|]. by intros ?%Permutation_nil_r.
  - rewrite <-sort_strings_greater. split; [intros [= Heq]; exact Heq|intros Heq].
    f_equal. exact Heq.
Qed.

(** What makes two bindings the same: role, condition and the members as a
    multiset. *)
Definition binding_same (b1 b2 : apiBinding) : Prop :=
  b1.(ab_Condition) = b2.(ab_Condition) ∧ b1.(ab_Role) = b2.(ab_Role) ∧
  b1.(ab_rest) = b2.(ab_rest) ∧ elems b1.(ab_Members) ≡ₚ elems b2.(ab_Members).

Lemma view_binding_eq b1 b2 : view_binding b1 = view_binding b2 ↔ binding_same b1 b2.
Proof.
  unfold binding_same. rewrite <-view_strings_eq. destruct b1, b2; simpl.
  unfold view_binding; simpl. split; [by intros [=]|by intros (-> & -> & -> & ->)].
Qed.

Lemma role_greater_spec x y :
  role_greater x y = true ↔ ¬ flip String.le y.(ab_Role) x.(ab_Role).
Proof. apply string_greater_spec. Qed.

Definition bindings_for (r : string) (l : list apiBinding) : list apiBinding :=
  filter (λ b, b.(ab_Role) = r) l.

Lemma bindings_for_view r l :
  bindings_for r (view_binding <$> l) = view_binding <$> bindings_for r l.
Proof.
  unfold bindings_for. induction l as [|b l IH]; [done|].
  rewrite fmap_cons, !filter_cons. simpl. case_decide; by rewrite IH.
Qed.

Lemma view_binding_list_eq l1 l2 :
  view_binding <$> l1 = view_binding <$> l2 ↔ Forall2 binding_same l1 l2.
Proof.
  revert l2. induction l1 as [|b1 l1 IH]; intros [|b2 l2]; simpl.
  - split; [constructor|done].
  - split; [done|inversion 1].
  - split; [done|inversion 1].
  - rewrite Forall2_cons, <-IH, <-view_binding_eq.
    split; [apply cons_eq_inj|by intros [??]; f_equal].
Qed.

(** Bindings that are not nil look as their values do. *)
Lemma view_bindings_values s :
  no_nil s → view_bindings s = Some <$> stable_sort role_greater (view_binding <$> derefs s).
Proof.
  intros Hs. unfold view_bindings. rewrite (values_derefs s), each_values by done.
  by rewrite (stable_sort_map Some role_greater) by done.
Qed.

(** Two lists of bindings look the same when, role by role, they list the same
    bindings in the same order. *)
Lemma view_bindings_eq s1 s2 :
  no_nil s1 → no_nil s2 →
  view_bindings s1 = view_bindings s2 ↔
  ∀ r, Forall2 binding_same (bindings_for r (derefs s1)) (bindings_for r (derefs s2)).
Proof.
  intros H1 H2. rewrite !view_bindings_values by done.
  transitivity (stable_sort role_greater (view_binding <$> derefs s1) =
    stable_sort role_greater (view_binding <$> derefs s2)).
  { split; [by intros ?%(inj (fmap Some))|by intros ->]. }
  rewrite (stable_sort_eq_iff (flip String.le) ab_Role role_greater role_greater_spec).
  apply forall_proper. intros r.
  rewrite <-view_binding_list_eq, <-!bindings_for_view. done.
Qed.

Lemma view_bindings_perm s : view_bindings s ≡ₚ each view_binding (elems s).
Proof. apply stable_sort_perm. Qed.
Lemma view_bindings_nil s : view_bindings s = [] ↔ elems s = [].
Proof.
  split; [|by unfold view_bindings; intros ->]. intros Hnil. pose proof (view_bindings_perm s) as Hperm.
  rewrite Hnil in Hperm. symmetry in Hperm. by apply Permutation_nil_r, fmap_nil_inv in Hperm.
Qed.
(** Bindings that look the same as others that are not nil are not nil. *)
Lemma view_bindings_no_nil s1 s2 : view_bindings s1 = view_bindings s2 → no_nil s1 → no_nil s2.
Proof.
  intros Heq H1. unfold no_nil in *. apply has_nil_false. rewrite <-(has_nil_each view_binding).
  apply has_nil_false. rewrite <-view_bindings_perm, <-Heq, view_bindings_perm.
  apply has_nil_false. rewrite has_nil_each. by apply has_nil_false.
Qed.

(** ** What bindings grant *)

(** The binding gives the role to the member. *)
Definition binds (role member : string) (b : apiBinding) : Prop :=
  b.(ab_Role) = role ∧ member ∈ elems b.(ab_Members).
Definition grants_in (bs : slice (ptr apiBinding)) (role member : string) : Prop :=
  Exists (binds role member) (derefs bs).

(** Bindings in canonical form: none is nil, one binding per role, which lists
    each member once. *)
Definition canonical_in (bs : slice (ptr apiBinding)) : Prop :=
  no_nil bs ∧ NoDup (ab_Role <$> derefs bs) ∧ Forall (λ b, NoDup (elems b.(ab_Members))) (derefs bs).

(** No binding is nil or without members. *)
Definition inhabited_in (bs : slice (ptr apiBinding)) : Prop :=
  no_nil bs ∧ Forall (λ b, elems b.(ab_Members) ≠ []) (derefs bs).

(** ** The policy server

    The IAM methods of the Google APIs, as their documentation describes them: a
    read returns the current policy of the resource, or fails; a write either
    fails and changes nothing, or replaces the policy of that resource alone. A
    write that carries an etag succeeds only when the etag is the current one,
    and every write gives the policy a new etag. The server may normalise what
    it is given, but grants what the written policy grants; a policy without
    empty bindings keeps its bindings, up to order, and its audit
    configuration. *)

Class PolicyOps (P : Type) := {
  p_Bindings : P → slice (ptr apiBinding);
  p_AuditConfigs : P → slice (ptr apiAuditConfig);
  p_Etag : P → string
}.

#[global] Instance iamPolicy_ops : PolicyOps iamPolicy := {|
  p_Bindings := ip_Bindings;
  p_AuditConfigs := ip_AuditConfigs;
  p_Etag := ip_Etag |}.

Class IamServer (P : Type) `{!PolicyOps P} (W : Type) := {
  serve : ∀ X, PolicyE P X → W → X * W;
  stored : W → string → P;
  revision : W → string → nat;
  tag : nat → string;
  tag_inj : Inj (=) (=) tag;
  tag_non_empty n : tag n ≠ "";
  stored_Etag w res : p_Etag (stored w res) = tag (revision w res);
  serve_get w res v :
    let '(r, w') := serve _ (GetIamPolicy res v) w in
    w' = w ∧ ∀ p, r = inl p → p = stored w res;
  serve_set_fails w res p e w' :
    serve _ (SetIamPolicy res p) w = (inr e, w') → w' = w;
  serve_set w res p p' w' :
    serve _ (SetIamPolicy res p) w = (inl p', w') →
    (p_Etag p = "" ∨ p_Etag p = p_Etag (stored w res)) ∧
    p' = stored w' res ∧
    revision w' res = S (revision w res) ∧
    (∀ res', res' ≠ res → stored w' res' = stored w res' ∧ revision w' res' = revision w res') ∧
    (∀ role member, grants_in (p_Bindings p') role member ↔ grants_in (p_Bindings p) role member) ∧
    (canonical_in (p_Bindings p) → canonical_in (p_Bindings p')) ∧
    (inhabited_in (p_Bindings p) →
       view_bindings (p_Bindings p') = view_bindings (p_Bindings p) ∧
       (elems (p_Bindings p) ≠ [] → p_Bindings p' ≠ None)) ∧
    (inhabited_in (p_Bindings p) →
       view_audits (p_AuditConfigs p') = view_audits (p_AuditConfigs p))
}.

(** The calls that read, and the responses that are failures: any error, except
    that a policy that is not found is no failure where [excuse_missing]. *)
Definition reads_policy {P} (X : Type) (e : PolicyE P X) : Prop :=
  match e with GetIamPolicy _ _ => True | SetIamPolicy _ _ => False end.
Definition policy_fails {P} (excuse_missing : bool) (X : Type) (e : PolicyE P X) : X → bool :=
  match e with
  | GetIamPolicy _ _ => λ r,
      match r with inr err => negb (excuse_missing && IsErrorNotFound (Some err)) | inl _ => false end
  | SetIamPolicy _ _ => λ r, match r with inr _ => true | inl _ => false end
  end.

(** A policy that is read has no nil binding. *)
Definition policy_answers {P} `{!PolicyOps P} (X : Type) (e : PolicyE P X) : X → Prop :=
  match e with
  | GetIamPolicy _ _ => λ r, match r with inl p => no_nil (p_Bindings p) | inr _ => True end
  | SetIamPolicy _ _ => λ _, True
  end.

(** ** A policy server in memory, which meets the interface *)

Definition etag_of_revision (n : nat) : string := String "e" (pretty n).

Section memory.
Context {P : Type} `{!PolicyOps P} (no_policy : P) (set_etag : string → P → P).
Hypothesis set_etag_Etag : ∀ t p, p_Etag (set_etag t p) = t.
Hypothesis set_etag_Bindings : ∀ t p, p_Bindings (set_etag t p) = p_Bindings p.
Hypothesis set_etag_AuditConfigs : ∀ t p, p_AuditConfigs (set_etag t p) = p_AuditConfigs p.

Abbreviation memory := (gmap string (nat * P)) (only parsing).
Definition memory_revision (w : memory) (res : string) : nat := (default (0, no_policy) (w !! res)).1.
Definition memory_stored (w : memory) (res : string) : P :=
  set_etag (etag_of_revision (memory_revision w res)) (default (0, no_policy) (w !! res)).2.

Definition memory_serve (X : Type) (e : PolicyE P X) (w : memory) : X * memory :=
  match e with
  | GetIamPolicy res _ => (inl (memory_stored w res), w)
  | SetIamPolicy res p =>
    if decide (p_Etag p = "" ∨ p_Etag p = p_Etag (memory_stored w res)) then
      let w' := <[res := (S (memory_revision w res), p)]> w in (inl (memory_stored w' res), w')
    else (inr (GoogleAPIError 412 "conditionNotMet"), w)
  end.

#[local] Obligation Tactic := idtac.
#[program] Definition memory_server : IamServer P memory := {|
  serve := memory_serve;
  stored := memory_stored;
  revision := memory_revision;
  tag := etag_of_revision |}.
Next Obligation. by intros n m [= Hnm%(inj pretty)]. Qed.
Next Obligation. done. Qed.
Next Obligation. intros w res. apply set_etag_Etag. Qed.
Next Obligation. intros w res v. simpl. split; [done|]. by intros p [= <-]. Qed.
Next Obligation. intros w res p e w'. simpl. by case_decide; intros [= <- <-]. Qed.
Next Obligation.
  intros w res p p' w'. simpl. case_decide as Hetag; [|done]. intros [= <- <-].
  unfold memory_stored, memory_revision. rewrite lookup_insert_eq. simpl.
  rewrite set_etag_Bindings, set_etag_AuditConfigs.
  split_and!; try done.
  - intros res' Hne. by rewrite lookup_insert_ne.
  - intros _. split; [done|]. by destruct (p_Bindings p).
Qed.
End memory.

Definition iam_memory : IamServer iamPolicy (gmap string (nat * iamPolicy)) :=
  memory_server zero_iamPolicy (λ t p, {| p with ip_Etag := t |})
    (λ _ _, eq_refl) (λ _ _, eq_refl) (λ _ _, eq_refl).
