(* ===== verification/PolicyController.v ===== *)
(** * Controllers of whole IAM policies

    pkg/controller/storage/bucketpolicy.go, pkg/controller/iam/serviceaccountpolicy.go
    and pkg/controller/kms/cryptokeypolicy.go treat three kinds of policy the
    same way. What such a controller needs of its client is the class
    [PolicyClient]; the handlers over it are here once, and each of the three
    components shows that its own handlers are these. *)

From S2P Require Import Prelude GoSort GoStrings Libs Contract Gcp Nested IamPolicy.

(** The client of a kind of policy: which resource the parameters [I] name, the
    bindings they ask for and the audit configuration (none where the API has
    none), whether a pointer among them is nil, and the functions of the client
    package. *)
Class PolicyClient `{Libs} (I P : Type) `{!PolicyOps P} := {
  pc_resource : I → string;
  pc_bindings : I → slice (ptr apiBinding);
  pc_audits : I → slice (ptr apiAuditConfig);
  pc_no_nil : I → Prop;
  pc_zero : P;
  pc_Generate : I → P → outcome P;
  pc_IsUpToDate : I → P → outcome (bool * option error);
  pc_IsEmpty : P → bool;
  pc_bindings_no_nil i : no_nil (pc_bindings i);
  (** A policy is generated exactly when no pointer is nil; it has the bindings
      and the audit configuration asked for, and the etag of the policy it was
      generated over. *)
  pc_Generate_total i p : pc_no_nil i → ∃ q, pc_Generate i p = Returns q;
  pc_Generate_returns i p q :
    pc_Generate i p = Returns q →
    pc_no_nil i ∧ p_Bindings q = pc_bindings i ∧ p_AuditConfigs q = pc_audits i ∧ p_Etag q = p_Etag p;
  (** Whether a policy is the one asked for. *)
  pc_IsUpToDate_spec `{!CopySucceeds} i p :
    pc_no_nil i →
    pc_IsUpToDate i p =
      if sorts_nil (p_Bindings p) then Panics
      else Returns (bool_decide (view_bindings (pc_bindings i) = view_bindings (p_Bindings p) ∧
                                 view_audits (pc_audits i) = view_audits (p_AuditConfigs p)), None);
  pc_IsUpToDate_no_nil `{!CopySucceeds} i p r : pc_IsUpToDate i p = Returns r → pc_no_nil i;
  pc_IsEmpty_spec p : p_Bindings p ≠ None → pc_IsEmpty p = false
}.

Record PolicyMessages := {
  msg_kind : string;
  msg_upToDate : string;
  msg_get : string;
  msg_set : string
}.

Section handlers.
Context `{Libs} {I P O : Type} `{!PolicyOps P} `{!PolicyClient I P} (msg : PolicyMessages).
Implicit Types mg : option (Managed I O).

Definition policy_Observe mg : prog (PolicyE P) (ExternalObservation * option error * option (Managed I O)) :=
  match mg with
  | None => mret (no_observation, errors_New msg.(msg_kind), None)
  | Some cr =>
    r ← call (GetIamPolicy (pc_resource cr.(ForProvider)) PolicyVersion);
    match r with
    | inr err =>
      mret (no_observation, errors_Wrap (resource_Ignore IsErrorNotFound (Some err)) msg.(msg_get), Some cr)
    | inl instance =>
      if pc_IsEmpty instance then mret (no_observation, None, Some cr)
      else
        up ← lift (pc_IsUpToDate cr.(ForProvider) instance);
        match up with
        | (_, Some err) =>
          mret (no_observation, errors_Wrap (Some err) msg.(msg_upToDate), Some cr)
        | (false, None) =>
          mret ({| no_observation with ResourceExists := true |}, None, Some cr)
        | (true, None) =>
          mret ({| no_observation with ResourceExists := true; ResourceUpToDate := true |},
                None, Some (set_condition Available cr))
        end
    end
  end.

Definition policy_Create mg : prog (PolicyE P) (ExternalCreation * option error * option (Managed I O)) :=
  match mg with
  | None => mret (no_creation, errors_New msg.(msg_kind), None)
  | Some cr =>
    let cr := set_condition Creating cr in
    instance ← lift (pc_Generate cr.(ForProvider) pc_zero);
    r ← call (SetIamPolicy (pc_resource cr.(ForProvider)) instance);
    match r with
    | inr err => mret (no_creation, errors_Wrap (Some err) msg.(msg_set), Some cr)
    | inl _ => mret (no_creation, None, Some cr)
    end
  end.

Definition policy_Update mg : prog (PolicyE P) (option error * option (Managed I O)) :=
  match mg with
  | None => mret (errors_New msg.(msg_kind), None)
  | Some cr =>
    r ← call (GetIamPolicy (pc_resource cr.(ForProvider)) PolicyVersion);
    match r with
    | inr err => mret (errors_Wrap (Some err) msg.(msg_get), Some cr)
    | inl instance =>
      up ← lift (pc_IsUpToDate cr.(ForProvider) instance);
      match up with
      | (_, Some err) => mret (errors_Wrap (Some err) msg.(msg_upToDate), Some cr)
      | (true, None) => mret (None, Some cr)
      | (false, None) =>
        instance ← lift (pc_Generate cr.(ForProvider) instance);
        s ← call (SetIamPolicy (pc_resource cr.(ForProvider)) instance);
        match s with
        | inr err => mret (errors_Wrap (Some err) msg.(msg_set), Some cr)
        | inl _ => mret (None, Some cr)
        end
      end
    end
  end.

Definition policy_Delete mg : prog (PolicyE P) (option error * option (Managed I O)) :=
  match mg with
  | None => mret (errors_New msg.(msg_kind), None)
  | Some cr =>
    r ← call (SetIamPolicy (pc_resource cr.(ForProvider)) pc_zero);
    match r with
    | inr err => mret (errors_Wrap (Some err) msg.(msg_set), Some cr)
    | inl _ => mret (None, Some cr)
    end
  end.

(** ** What the handlers promise *)

Context `{!CopySucceeds}.

(** Where the policies that are read have no nil binding: no panic; an error
    exactly when a call failed, where for Observe a policy that is not found is
    no failure; nothing after a failure; Observe reads. *)
Definition policy_errors_contract (observe : prog (PolicyE P) (ExternalObservation * option error * option (Managed I O)))
    (create : prog (PolicyE P) (ExternalCreation * option error * option (Managed I O)))
    (update delete : prog (PolicyE P) (option error * option (Managed I O))) : Prop :=
  errors_given policy_answers (policy_fails true) observe ∧ calls_only reads_policy observe ∧
  always_given policy_answers (λ '(o, err, _), err ≠ None ∨ o.(ResourceExists) = false → o = no_observation) observe ∧
  errors_iff (policy_fails false) create ∧
  errors_given policy_answers (policy_fails false) update ∧ stops_on_failure (policy_fails false) update ∧
  errors_iff (policy_fails false) delete.

Lemma IsUpToDate_returns i p :
  pc_no_nil i → no_nil (p_Bindings p) → ∃ b, pc_IsUpToDate i p = Returns (b, None).
Proof using Type*. intros Hi Hp. rewrite pc_IsUpToDate_spec, sorts_nil_false by done. by eexists. Qed.

Lemma policy_Observe_errors cr :
  pc_no_nil cr.(ForProvider) →
  errors_given policy_answers (policy_fails true) (policy_Observe (Some cr)) ∧
  calls_only reads_policy (policy_Observe (Some cr)) ∧
  always_given policy_answers (λ '(o, err, _), err ≠ None ∨ o.(ResourceExists) = false → o = no_observation)
    (policy_Observe (Some cr)).
Proof using Type*.
  intros Hcr. unfold errors_given. split_and!; [intros [p|err] Hp|split; [done|intros [p|err]]|intros [p|err] Hp]; simpl; try walk.
  - destruct (IsUpToDate_returns cr.(ForProvider) p Hcr Hp) as [[] ->]; walk.
  - destruct (pc_IsUpToDate _ p) as [[[] []]|]; done.
  - destruct (IsUpToDate_returns cr.(ForProvider) p Hcr Hp) as [[] ->]; walk.
Qed.

Lemma policy_handlers_errors cr :
  pc_no_nil cr.(ForProvider) →
  policy_errors_contract (policy_Observe (Some cr)) (policy_Create (Some cr))
    (policy_Update (Some cr)) (policy_Delete (Some cr)).
Proof using Type*.
  intros Hcr. destruct (policy_Observe_errors cr Hcr) as (Ho & Hr & Ha). unfold policy_errors_contract, errors_iff, errors_given.
  split_and!; [done..| | | |simpl; walk].
  - simpl. destruct (pc_Generate_total cr.(ForProvider) pc_zero Hcr) as [q ->]. simpl. walk.
  - intros [p|err] Hp; simpl; [|walk]. destruct (IsUpToDate_returns cr.(ForProvider) p Hcr Hp) as [b ->].
    destruct (pc_Generate_total cr.(ForProvider) p Hcr) as [q Hq]. simpl. destruct b; simpl; [walk|]. rewrite Hq. simpl. walk.
  - intros [p|err]; simpl; [|done]. destruct (pc_IsUpToDate _ p) as [[[] []]|]; simpl; try done.
    destruct (pc_Generate _ p); simpl; [|done]. walk.
Qed.

(** ** Convergence *)

Context {W : Type} `{!IamServer P W}.

(** The server's policy is what the resource asks for. *)
Definition reflects (i : I) (p : P) : Prop :=
  p_Bindings p ≠ None ∧
  view_bindings (pc_bindings i) = view_bindings (p_Bindings p) ∧
  view_audits (pc_audits i) = view_audits (p_AuditConfigs p).

(** The resource asks for at least one binding, and for none without members. *)
Definition substantial (i : I) : Prop := elems (pc_bindings i) ≠ [] ∧ inhabited_in (pc_bindings i).

(** Observing such a policy, once the server answers the read. *)
Lemma run_Observe_reflects (cr : Managed I O) w p :
  pc_no_nil cr.(ForProvider) →
  (serve _ (GetIamPolicy (pc_resource cr.(ForProvider)) PolicyVersion) w).1 = inl p →
  reflects cr.(ForProvider) (stored w (pc_resource cr.(ForProvider))) →
  run serve (policy_Observe (Some cr)) w =
    Returns ({| no_observation with ResourceExists := true; ResourceUpToDate := true |}, None,
             Some (set_condition Available cr), w).
Proof using Type*.
  intros Hcr Hp [Hne [Hview Haud]]. simpl. pose proof (serve_get w (pc_resource cr.(ForProvider)) PolicyVersion) as Hget.
  destruct (serve _ _ w) as [r w1]. destruct Hget as [-> Hr]. simpl in *. subst r.
  rewrite (Hr p eq_refl) in *. rewrite pc_IsEmpty_spec, pc_IsUpToDate_spec, sorts_nil_false by
    (done || by eapply view_bindings_no_nil; [exact Hview|apply pc_bindings_no_nil]).
  by rewrite bool_decide_eq_true_2.
Qed.

(** Writing the generated policy makes the server reflect the resource. *)
Lemma set_reflects i w q q' p' w' :
  substantial i → pc_Generate i q = Returns q' →
  serve _ (SetIamPolicy (pc_resource i) q') w = (inl p', w') →
  reflects i (stored w' (pc_resource i)).
Proof using Type*.
  intros [Hsome Hall] (_ & Hb & Ha & _)%pc_Generate_returns (_ & -> & _ & _ & _ & _ & Hview & Haud)%serve_set.
  rewrite Hb, ?Ha in *. destruct Hview as [Hview Hne]; [done|]. split_and!; [auto|done|]. by rewrite Haud.
Qed.

Lemma run_Create_reflects (cr : Managed I O) w o cr' w' :
  substantial cr.(ForProvider) →
  run serve (policy_Create (Some cr)) w = Returns (o, None, cr', w') →
  pc_no_nil cr.(ForProvider) ∧ reflects cr.(ForProvider) (stored w' (pc_resource cr.(ForProvider))).
Proof using Type*.
  intros Hsub. simpl. destruct (pc_Generate _ _) as [q|] eqn:Hq; simpl; [|done].
  destruct (serve _ _ w) as [[p|e] w1] eqn:Hset; simpl; [|by rewrite errors_Wrap_some].
  intros [= _ _ <-]. split; [by apply pc_Generate_returns in Hq as [? _]|].
  by apply (set_reflects _ w _ q p w1 Hsub Hq) in Hset.
Qed.

Lemma run_Update_reflects (cr : Managed I O) w cr' w' :
  substantial cr.(ForProvider) →
  run serve (policy_Update (Some cr)) w = Returns (None, cr', w') →
  pc_no_nil cr.(ForProvider) ∧ reflects cr.(ForProvider) (stored w' (pc_resource cr.(ForProvider))).
Proof using Type*.
  intros Hsub. simpl. pose proof (serve_get w (pc_resource cr.(ForProvider)) PolicyVersion) as Hget.
  destruct (serve _ _ w) as [[p|e] w1]; destruct Hget as [-> Hr]; simpl; [|by rewrite errors_Wrap_some].
  rewrite (Hr p eq_refl). destruct (pc_IsUpToDate _ _) as [up|] eqn:Hup; simpl; [|done].
  pose proof (pc_IsUpToDate_no_nil _ _ _ Hup) as Hcr. rewrite pc_IsUpToDate_spec in Hup by done.
  destruct (sorts_nil _); [done|]. injection Hup as <-. case_bool_decide as Hview; simpl.
  - intros [= _ <-]. destruct Hsub as [Hsome _]. split; [done|]. split; [|done]. intros Hnil.
    destruct Hview as [Hview _]. rewrite Hnil in Hview. by apply view_bindings_nil in Hview.
  - destruct (pc_Generate _ _) as [q|] eqn:Hq; simpl; [|done].
    destruct (serve _ _ w) as [[p'|e] w1] eqn:Hset; simpl; [|by rewrite errors_Wrap_some].
    intros [= _ <-]. split; [done|]. by apply (set_reflects _ w _ q p' w1 Hsub Hq) in Hset.
Qed.

(** After a Create or an Update without error an Observe that is answered finds
    the policy up to date and the resource Available. *)
Lemma policy_handlers_converge (cr : Managed I O) w w' p :
  substantial cr.(ForProvider) →
  (∃ o cr', run serve (policy_Create (Some cr)) w = Returns (o, None, cr', w')) ∨
  (∃ cr', run serve (policy_Update (Some cr)) w = Returns (None, cr', w')) →
  (serve _ (GetIamPolicy (pc_resource cr.(ForProvider)) PolicyVersion) w').1 = inl p →
  ∃ cr', run serve (policy_Observe (Some cr)) w' =
    Returns ({| no_observation with ResourceExists := true; ResourceUpToDate := true |}, None, Some cr', w') ∧
  ready cr'.(Conditions) = Some Available.
Proof using Type*.
  intros Hsub Hwritten Hread. exists (set_condition Available cr). split; [|by apply set_condition_ready].
  assert (pc_no_nil cr.(ForProvider) ∧ reflects cr.(ForProvider) (stored w' (pc_resource cr.(ForProvider)))) as [Hcr Hst].
  { destruct Hwritten as [(o & cr' & Hrun)|(cr' & Hrun)].
    - by apply run_Create_reflects in Hrun.
    - by apply run_Update_reflects in Hrun. }
  by apply (run_Observe_reflects cr w' p).
Qed.
End handlers.
