(* ===== verification/BucketPolicy.v ===== *)
(** * Bucket policies

    pkg/clients/bucketpolicy/bucketpolicy.go (whole policies, and one member of
    one role) and pkg/controller/storage/bucketpolicy.go. The controller of
    single members is in BucketPolicyMember. *)

From S2P Require Import Prelude GoSort GoStrings Libs Contract Gcp Nested IamPolicy PolicyController.
From Stdlib Require Import Lia.


(** ** Types *)

Record BucketPolicyParameters := {
  bp_Bucket : ptr string;
  bp_BucketRef : ptr Reference;
  bp_BucketSelector : ptr Selector;
  bp_Policy : Policy
}.

Record BucketPolicyObservation := { bpo_Version : Z }.

Definition BucketPolicy : Type := Managed BucketPolicyParameters BucketPolicyObservation.

Record BucketPolicyMemberParameters := {
  bpm_Bucket : ptr string;
  bpm_BucketRef : ptr Reference;
  bpm_BucketSelector : ptr Selector;
  bpm_Role : string;
  bpm_Member : ptr string;
  bpm_ServiceAccountMemberRef : ptr Reference;
  bpm_ServiceAccountMemberSelector : ptr Selector
}.

(** storage.Policy. *)
Record storagePolicy := {
  sp_Bindings : slice (ptr apiBinding);
  sp_Etag : string;
  sp_Version : Z;
  sp_rest : rest
}.
#[global] Instance storagePolicy_eq_dec : EqDecision storagePolicy.
Proof. solve_decision. Defined.

Definition zero_storagePolicy : storagePolicy :=
  {| sp_Bindings := None; sp_Etag := ""; sp_Version := 0; sp_rest := ∅ |}.

(** ** The client *)

Definition errCheckUpToDate : string := "unable to determine if external resource is up to date".

Definition GenerateBucketPolicyInstance (i : BucketPolicyParameters) (ck : storagePolicy)
  : outcome storagePolicy :=
  bindings ← generate_bindings i.(bp_Policy);
  Returns {| ck with sp_Bindings := bindings; sp_Version := PolicyVersion |}.

(** What cmp.Equal sees of a policy with IgnoreFields(Policy, "Version"). *)
Definition view_policy (p : storagePolicy) : list (ptr apiBinding) * string * rest :=
  (view_bindings p.(sp_Bindings), p.(sp_Etag), p.(sp_rest)).

Section client.
Context `{Libs}.

Definition ArePoliciesSame (p1 p2 : storagePolicy) : outcome bool :=
  if sorts_nil p1.(sp_Bindings) || sorts_nil p2.(sp_Bindings) then Panics
  else Returns (cmp_Equal (same_view view_policy) p1 p2).

Definition IsUpToDate (i : BucketPolicyParameters) (observed : storagePolicy)
  : outcome (bool * option error) :=
  match copystructure_Copy observed with
  | CopyFails err => Returns (true, errors_Wrap (Some err) errCheckUpToDate)
  | CopyOtherType => Returns (true, errors_New errCheckUpToDate)
  | Copied desired =>
    desired ← GenerateBucketPolicyInstance i desired;
    same ← ArePoliciesSame desired observed;
    Returns (same, None)
  end.
End client.

Definition IsEmpty (i : storagePolicy) : bool := bool_decide (i.(sp_Bindings) = None).

(** The loop of BindRoleToMember over the bindings: [None] when no binding has
    the role, otherwise whether the first one that has it changed, and the
    bindings. Every binding up to that one is dereferenced. *)
Fixpoint bind_in (role member : string) (bs : list (ptr apiBinding)) : outcome (option (bool * list (ptr apiBinding))) :=
  match bs with
  | [] => Returns None
  | p :: bs' =>
    b ← deref p;
    if bool_decide (b.(ab_Role) = role) then
      if bool_decide (member ∈ elems b.(ab_Members)) then Returns (Some (false, bs))
      else Returns (Some (true, Some {| b with ab_Members := Some (elems b.(ab_Members) ++ [member]) |} :: bs'))
    else
      r ← bind_in role member bs';
      Returns ('(changed, bs'') ← r; Some (changed, p :: bs''))
  end.

Definition BindRoleToMember (i : BucketPolicyMemberParameters) (ck : storagePolicy) : outcome (bool * storagePolicy) :=
  let ck := {| ck with sp_Version := PolicyVersion |} in
  let member := StringValue i.(bpm_Member) in
  r ← bind_in i.(bpm_Role) member (elems ck.(sp_Bindings));
  match r with
  | Some (false, _) => Returns (false, ck)
  | Some (true, bs) => Returns (true, {| ck with sp_Bindings := Some bs |})
  | None =>
    Returns (true, {| ck with sp_Bindings := Some (elems ck.(sp_Bindings) ++
       [Some {| ab_Condition := None; ab_Members := Some [member]; ab_Role := i.(bpm_Role); ab_rest := ∅ |}]) |})
  end.

(** The inner loop of UnbindRoleFromMember: the index of the first occurrence. *)
Fixpoint index_of (member : string) (l : list string) : option nat :=
  match l with
  | [] => None
  | m :: l' => if bool_decide (m = member) then Some 0 else S <$> index_of member l'
  end.

(** The loop of UnbindRoleFromMember: [None] when the policy does not change. *)
Fixpoint unbind_in (role member : string) (bs : list (ptr apiBinding)) : outcome (option (list (ptr apiBinding))) :=
  match bs with
  | [] => Returns None
  | p :: bs' =>
    b ← deref p;
    if bool_decide (b.(ab_Role) = role) then
      match index_of member (elems b.(ab_Members)) with
      | Some ix =>
        let ms := elems b.(ab_Members) in
        Returns (Some (Some {| b with ab_Members := Some (take ix ms ++ drop (S ix) ms) |} :: bs'))
      | None => Returns None
      end
    else
      r ← unbind_in role member bs';
      Returns (bs'' ← r; Some (p :: bs''))
  end.

Definition UnbindRoleFromMember (i : BucketPolicyMemberParameters) (ck : storagePolicy) : outcome (bool * storagePolicy) :=
  r ← unbind_in i.(bpm_Role) (StringValue i.(bpm_Member)) (elems ck.(sp_Bindings));
  match r with
  | Some bs => Returns (true, {| ck with sp_Bindings := Some bs |})
  | None => Returns (false, ck)
  end.

(** ** The controller *)

Definition errNotBucketPolicy : string := "managed resource is not a GCP BucketPolicy".
Definition errCheckPolicyUpToDate : string := "cannot determine if BucketPolicy instance is up to date".
Definition errGetPolicy : string := "cannot get GCP BucketPolicy object via Storage API".
Definition errSetPolicy : string := "cannot set GCP BucketPolicy object via Storage API".

Section controller.
Context `{Libs}.

(** A handler receives a managed resource of this kind, or of another one
    ([None]), and returns the resource as it left it. *)
Definition Observe (mg : option BucketPolicy)
  : prog (PolicyE storagePolicy) (ExternalObservation * option error * option BucketPolicy) :=
  match mg with
  | None => mret (no_observation, errors_New errNotBucketPolicy, None)
  | Some cr =>
    r ← call (GetIamPolicy (StringValue cr.(ForProvider).(bp_Bucket)) PolicyVersion);
    match r with
    | inr err =>
      mret (no_observation, errors_Wrap (resource_Ignore IsErrorNotFound (Some err)) errGetPolicy, Some cr)
    | inl instance =>
      if IsEmpty instance then mret (no_observation, None, Some cr)
      else
        up ← lift (IsUpToDate cr.(ForProvider) instance);
        match up with
        | (_, Some err) =>
          mret (no_observation, errors_Wrap (Some err) errCheckPolicyUpToDate, Some cr)
        | (false, None) =>
          mret ({| no_observation with ResourceExists := true |}, None, Some cr)
        | (true, None) =>
          mret ({| no_observation with ResourceExists := true; ResourceUpToDate := true |},
                None, Some (set_condition Available cr))
        end
    end
  end.

Definition Create (mg : option BucketPolicy)
  : prog (PolicyE storagePolicy) (ExternalCreation * option error * option BucketPolicy) :=
  match mg with
  | None => mret (no_creation, errors_New errNotBucketPolicy, None)
  | Some cr =>
    let cr := set_condition Creating cr in
    instance ← lift (GenerateBucketPolicyInstance cr.(ForProvider) zero_storagePolicy);
    r ← call (SetIamPolicy (StringValue cr.(ForProvider).(bp_Bucket)) instance);
    match r with
    | inr err => mret (no_creation, errors_Wrap (Some err) errSetPolicy, Some cr)
    | inl _ => mret (no_creation, None, Some cr)
    end
  end.

Definition Update (mg : option BucketPolicy)
  : prog (PolicyE storagePolicy) (option error * option BucketPolicy) :=
  match mg with
  | None => mret (errors_New errNotBucketPolicy, None)
  | Some cr =>
    r ← call (GetIamPolicy (StringValue cr.(ForProvider).(bp_Bucket)) PolicyVersion);
    match r with
    | inr err => mret (errors_Wrap (Some err) errGetPolicy, Some cr)
    | inl instance =>
      up ← lift (IsUpToDate cr.(ForProvider) instance);
      match up with
      | (_, Some err) => mret (errors_Wrap (Some err) errCheckPolicyUpToDate, Some cr)
      | (true, None) => mret (None, Some cr)
      | (false, None) =>
        instance ← lift (GenerateBucketPolicyInstance cr.(ForProvider) instance);
        s ← call (SetIamPolicy (StringValue cr.(ForProvider).(bp_Bucket)) instance);
        match s with
        | inr err => mret (errors_Wrap (Some err) errSetPolicy, Some cr)
        | inl _ => mret (None, Some cr)
        end
      end
    end
  end.

Definition Delete (mg : option BucketPolicy)
  : prog (PolicyE storagePolicy) (option error * option BucketPolicy) :=
  match mg with
  | None => mret (errors_New errNotBucketPolicy, None)
  | Some cr =>
    r ← call (SetIamPolicy (StringValue cr.(ForProvider).(bp_Bucket)) zero_storagePolicy);
    match r with
    | inr err => mret (errors_Wrap (Some err) errSetPolicy, Some cr)
    | inl _ => mret (None, Some cr)
    end
  end.
End controller.

(** ** What a policy grants *)

Definition grants (p : storagePolicy) (role member : string) : Prop :=
  grants_in p.(sp_Bindings) role member.
Definition canonical (p : storagePolicy) : Prop := canonical_in p.(sp_Bindings).

(** The first binding of the role, where both loops stop. *)
Definition first_for (role : string) (p : storagePolicy) : option apiBinding :=
  head (bindings_for role (derefs p.(sp_Bindings))).

Definition add_member (member : string) (b : apiBinding) : apiBinding :=
  {| b with ab_Members := Some (elems b.(ab_Members) ++ [member]) |}.

Definition remove_member (member : string) (b : apiBinding) : apiBinding :=
  let ms := elems b.(ab_Members) in
  match index_of member ms with
  | Some ix => {| b with ab_Members := Some (take ix ms ++ drop (S ix) ms) |}
  | None => b
  end.

(** ** The two functions on bindings that are not nil *)

Fixpoint bind_values (role member : string) (bs : list apiBinding) : option (bool * list apiBinding) :=
  match bs with
  | [] => None
  | b :: bs' =>
    if bool_decide (b.(ab_Role) = role) then
      if bool_decide (member ∈ elems b.(ab_Members)) then Some (false, bs) else Some (true, add_member member b :: bs')
    else '(changed, bs'') ← bind_values role member bs'; Some (changed, b :: bs'')
  end.
Definition bound (i : BucketPolicyMemberParameters) (ck : storagePolicy) : bool * storagePolicy :=
  let ck := {| ck with sp_Version := PolicyVersion |} in
  let member := StringValue i.(bpm_Member) in
  match bind_values i.(bpm_Role) member (derefs ck.(sp_Bindings)) with
  | Some (false, _) => (false, ck)
  | Some (true, bs) => (true, {| ck with sp_Bindings := Some (Some <$> bs) |})
  | None =>
    (true, {| ck with sp_Bindings := Some (Some <$> (derefs ck.(sp_Bindings) ++
       [{| ab_Condition := None; ab_Members := Some [member]; ab_Role := i.(bpm_Role); ab_rest := ∅ |}])) |})
  end.

Fixpoint unbind_values (role member : string) (bs : list apiBinding) : option (list apiBinding) :=
  match bs with
  | [] => None
  | b :: bs' =>
    if bool_decide (b.(ab_Role) = role) then
      match index_of member (elems b.(ab_Members)) with
      | Some ix =>
        let ms := elems b.(ab_Members) in
        Some ({| b with ab_Members := Some (take ix ms ++ drop (S ix) ms) |} :: bs')
      | None => None
      end
    else bs'' ← unbind_values role member bs'; Some (b :: bs'')
  end.
Definition unbound (i : BucketPolicyMemberParameters) (ck : storagePolicy) : bool * storagePolicy :=
  match unbind_values i.(bpm_Role) (StringValue i.(bpm_Member)) (derefs ck.(sp_Bindings)) with
  | Some bs => (true, {| ck with sp_Bindings := Some (Some <$> bs) |})
  | None => (false, ck)
  end.

Lemma bind_in_values role member (bs : list apiBinding) :
  bind_in role member (Some <$> bs) =
    Returns ('(changed, l) ← bind_values role member bs; Some (changed, Some <$> (l : list apiBinding))).
Proof.
  induction bs as [|b bs IH]; [done|]. rewrite fmap_cons. simpl. case_bool_decide; [by case_bool_decide|].
  rewrite IH. simpl. by destruct (bind_values role member bs) as [[]|].
Qed.
Lemma unbind_in_values role member (bs : list apiBinding) :
  unbind_in role member (Some <$> bs) = Returns (l ← unbind_values role member bs; Some (Some <$> (l : list apiBinding))).
Proof.
  induction bs as [|b bs IH]; [done|]. rewrite fmap_cons. simpl. case_bool_decide; [by destruct (index_of _ _)|].
  rewrite IH. simpl. by destruct (unbind_values role member bs).
Qed.
Lemma BindRoleToMember_bound i p : no_nil p.(sp_Bindings) → BindRoleToMember i p = Returns (bound i p).
Proof.
  intros Hp. unfold BindRoleToMember, bound. simpl. rewrite (values_derefs _ Hp), bind_in_values. simpl.
  destruct (bind_values _ _ _) as [[[] bs]|]; try done. simpl. by rewrite fmap_app.
Qed.
Lemma UnbindRoleFromMember_unbound i p : no_nil p.(sp_Bindings) → UnbindRoleFromMember i p = Returns (unbound i p).
Proof.
  intros Hp. unfold UnbindRoleFromMember, unbound. simpl. rewrite (values_derefs _ Hp), unbind_in_values. simpl.
  by destruct (unbind_values _ _ _).
Qed.

(** The bindings a loop reaches: a nil one before any of the role. *)
Definition reaches_nil (role : string) (bs : list (ptr apiBinding)) : Prop :=
  ∃ pre post, bs = (Some <$> pre) ++ None :: post ∧ Forall (λ b, b.(ab_Role) ≠ role) pre.
Lemma reaches_nil_cons role p bs :
  reaches_nil role (p :: bs) ↔ match p with None => True | Some b => b.(ab_Role) ≠ role ∧ reaches_nil role bs end.
Proof.
  unfold reaches_nil. destruct p as [b|].
  - split.
    + intros ([|c pre] & post & Hbs & Hpre); [done|]. rewrite fmap_cons in Hbs. injection Hbs as <- ->.
      apply Forall_cons in Hpre as [? ?]. eauto.
    + intros (Hb & pre & post & -> & Hpre). exists (b :: pre), post. split; [done|by constructor].
  - split; [done|]. intros _. by exists [], bs.
Qed.
Lemma bind_in_panics role member bs : bind_in role member bs = Panics ↔ reaches_nil role bs.
Proof.
  induction bs as [|[b|] bs IH]; [|rewrite reaches_nil_cons; simpl..].
  - split; [done|]. by intros ([] & ? & ? & _).
  - case_bool_decide; [case_bool_decide; naive_solver|]. rewrite <-IH. destruct (bind_in role member bs); simpl; naive_solver.
  - done.
Qed.
Lemma unbind_in_panics role member bs : unbind_in role member bs = Panics ↔ reaches_nil role bs.
Proof.
  induction bs as [|[b|] bs IH]; [|rewrite reaches_nil_cons; simpl..].
  - split; [done|]. by intros ([] & ? & ? & _).
  - case_bool_decide; [destruct (index_of _ _); naive_solver|]. rewrite <-IH.
    destruct (unbind_in role member bs); simpl; naive_solver.
  - done.
Qed.
Lemma BindRoleToMember_panics i p : BindRoleToMember i p = Panics ↔ reaches_nil i.(bpm_Role) (elems p.(sp_Bindings)).
Proof.
  rewrite <-(bind_in_panics _ (StringValue i.(bpm_Member))). unfold BindRoleToMember. simpl.
  destruct (bind_in _ _ _) as [[[[] ?]|]|]; done.
Qed.
Lemma UnbindRoleFromMember_panics i p :
  UnbindRoleFromMember i p = Panics ↔ reaches_nil i.(bpm_Role) (elems p.(sp_Bindings)).
Proof.
  rewrite <-(unbind_in_panics _ (StringValue i.(bpm_Member))). unfold UnbindRoleFromMember.
  by destruct (unbind_in _ _ _) as [[]|].
Qed.

(** ** Lemmas: the two loops *)

Lemma index_of_spec member l :
  match index_of member l with
  | Some ix => ∃ l1 l2, l = l1 ++ member :: l2 ∧ List.length l1 = ix ∧ member ∉ l1
  | None => member ∉ l
  end.
Proof.
  induction l as [|m l IH]; simpl; [apply not_elem_of_nil|].
  case_bool_decide as Hm; subst.
  - exists [], l. split_and!; [done..|apply not_elem_of_nil].
  - destruct (index_of member l) as [ix|]; simpl.
    + destruct IH as (l1 & l2 & -> & <- & Hnin). exists (m :: l1), l2.
      split_and!; [done..|]. by rewrite not_elem_of_cons.
    + by rewrite not_elem_of_cons.
Qed.

(** The bindings around the first one of a role. *)
Inductive split_at (role : string) (bs : list apiBinding) : Prop :=
| Split_none (Hnone : Forall (λ b, b.(ab_Role) ≠ role) bs)
| Split_some pre b post (Hbs : bs = pre ++ b :: post)
    (Hpre : Forall (λ b, b.(ab_Role) ≠ role) pre) (Hrole : b.(ab_Role) = role).

Lemma split_role role bs : split_at role bs.
Proof.
  induction bs as [|b bs IH]; [by constructor|].
  destruct (decide (b.(ab_Role) = role)) as [Hb|Hb].
  - by apply (Split_some _ _ [] b bs).
  - destruct IH as [Hnone|pre c post -> Hpre Hrole].
    + by constructor; constructor.
    + apply (Split_some _ _ (b :: pre) c post); [done|by constructor|done].
Qed.

Lemma bind_values_none role member bs :
  Forall (λ b, b.(ab_Role) ≠ role) bs → bind_values role member bs = None.
Proof.
  induction 1 as [|b bs Hb Hbs IH]; simpl; [done|].
  by rewrite bool_decide_eq_false_2, IH.
Qed.
Lemma bind_values_some role member pre b post :
  Forall (λ b, b.(ab_Role) ≠ role) pre → b.(ab_Role) = role →
  bind_values role member (pre ++ b :: post) =
    if decide (member ∈ elems b.(ab_Members)) then Some (false, pre ++ b :: post)
    else Some (true, pre ++ add_member member b :: post).
Proof.
  intros Hpre Hb. induction Hpre as [|c pre Hc Hpre IH]; simpl.
  - rewrite bool_decide_eq_true_2 by done. by repeat case_decide; case_bool_decide.
  - rewrite bool_decide_eq_false_2, IH by done. by case_decide.
Qed.

Lemma unbind_values_none role member bs :
  Forall (λ b, b.(ab_Role) ≠ role) bs → unbind_values role member bs = None.
Proof.
  induction 1 as [|b bs Hb Hbs IH]; simpl; [done|].
  by rewrite bool_decide_eq_false_2, IH.
Qed.
Lemma unbind_values_some role member pre b post :
  Forall (λ b, b.(ab_Role) ≠ role) pre → b.(ab_Role) = role →
  unbind_values role member (pre ++ b :: post) =
    if decide (member ∈ elems b.(ab_Members))
    then Some (pre ++ remove_member member b :: post) else None.
Proof.
  intros Hpre Hb. induction Hpre as [|c pre Hc Hpre IH]; simpl.
  - rewrite bool_decide_eq_true_2 by done. unfold remove_member.
    pose proof (index_of_spec member (elems b.(ab_Members))) as Hix.
    destruct (index_of _ _); [|by rewrite decide_False].
    destruct Hix as (l1 & l2 & -> & _). rewrite decide_True; [done|set_solver].
  - rewrite bool_decide_eq_false_2, IH by done. by case_decide.
Qed.

Lemma remove_member_members member b :
  NoDup (elems b.(ab_Members)) →
  NoDup (elems (remove_member member b).(ab_Members)) ∧
  ∀ m, m ∈ elems (remove_member member b).(ab_Members) ↔ m ∈ elems b.(ab_Members) ∧ m ≠ member.
Proof.
  intros Hnd. unfold remove_member. pose proof (index_of_spec member (elems b.(ab_Members))) as Hix.
  destruct (index_of _ _) as [ix|]; [|set_solver].
  destruct Hix as (l1 & l2 & Hms & <- & Hnin). simpl.
  rewrite Hms, take_app_length, drop_app_ge by lia.
  replace (S (List.length l1) - List.length l1) with 1 by lia. simpl. rewrite drop_0.
  rewrite Hms in Hnd. apply NoDup_app in Hnd as (H1 & H12 & H2).
  apply NoDup_cons in H2 as [Hm H2]. split; [|set_solver].
  apply NoDup_app. set_solver.
Qed.

Lemma remove_member_role member b : (remove_member member b).(ab_Role) = b.(ab_Role).
Proof. unfold remove_member. by destruct (index_of _ _). Qed.

Lemma bindings_for_none role bs :
  Forall (λ b, b.(ab_Role) ≠ role) bs → bindings_for role bs = [].
Proof. unfold bindings_for. induction 1; [done|]. by rewrite filter_cons_False. Qed.

Lemma bindings_for_app role l1 l2 :
  bindings_for role (l1 ++ l2) = bindings_for role l1 ++ bindings_for role l2.
Proof. apply filter_app. Qed.
Lemma bindings_for_cons role b l :
  bindings_for role (b :: l) = if decide (b.(ab_Role) = role) then b :: bindings_for role l else bindings_for role l.
Proof. unfold bindings_for. by rewrite filter_cons. Qed.

(** ** Lemmas: one member of one role *)

Section member.
Context (i : BucketPolicyMemberParameters).
Let role := i.(bpm_Role).
Let member := StringValue i.(bpm_Member).

(** bound, by whether and how the role is bound already. *)
Lemma bound_none p :
  Forall (λ b, b.(ab_Role) ≠ role) (derefs p.(sp_Bindings)) →
  bound i p =
    (true, {| p with sp_Version := PolicyVersion; sp_Bindings := Some (Some <$> (derefs p.(sp_Bindings) ++
       [{| ab_Condition := None; ab_Members := Some [member]; ab_Role := role; ab_rest := ∅ |}])) |}).
Proof. intros Hnone. unfold bound. simpl. by rewrite bind_values_none. Qed.
Lemma bound_some p pre b post :
  derefs p.(sp_Bindings) = pre ++ b :: post →
  Forall (λ b, b.(ab_Role) ≠ role) pre → b.(ab_Role) = role →
  bound i p =
    if decide (member ∈ elems b.(ab_Members)) then (false, {| p with sp_Version := PolicyVersion |})
    else (true, {| p with sp_Version := PolicyVersion;
                          sp_Bindings := Some (Some <$> (pre ++ add_member member b :: post)) |}).
Proof.
  intros Hbs Hpre Hb. unfold bound. simpl. rewrite Hbs, bind_values_some by done.
  by fold member; case_decide.
Qed.
Lemma unbound_none p :
  Forall (λ b, b.(ab_Role) ≠ role) (derefs p.(sp_Bindings)) → unbound i p = (false, p).
Proof. intros Hnone. unfold unbound. by rewrite unbind_values_none. Qed.
Lemma unbound_some p pre b post :
  derefs p.(sp_Bindings) = pre ++ b :: post →
  Forall (λ b, b.(ab_Role) ≠ role) pre → b.(ab_Role) = role →
  unbound i p =
    if decide (member ∈ elems b.(ab_Members))
    then (true, {| p with sp_Bindings := Some (Some <$> (pre ++ remove_member member b :: post)) |})
    else (false, p).
Proof.
  intros Hbs Hpre Hb. unfold unbound. rewrite Hbs, unbind_values_some by done.
  by fold member; case_decide.
Qed.

Lemma first_for_some p pre b post :
  derefs p.(sp_Bindings) = pre ++ b :: post →
  Forall (λ b, b.(ab_Role) ≠ role) pre → b.(ab_Role) = role → first_for role p = Some b.
Proof.
  intros Hbs Hpre Hb. unfold first_for.
  by rewrite Hbs, bindings_for_app, bindings_for_none, bindings_for_cons, decide_True.
Qed.
Lemma first_for_none p :
  Forall (λ b, b.(ab_Role) ≠ role) (derefs p.(sp_Bindings)) → first_for role p = None.
Proof. intros Hnone. unfold first_for. by rewrite bindings_for_none. Qed.

Lemma binds_add r m b :
  b.(ab_Role) = role → binds r m (add_member member b) ↔ binds r m b ∨ (r = role ∧ m = member).
Proof. unfold binds. intros Hb. simpl. rewrite elem_of_app, list_elem_of_singleton, Hb. naive_solver. Qed.

Lemma binds_remove r m b :
  b.(ab_Role) = role → NoDup (elems b.(ab_Members)) →
  binds r m (remove_member member b) ↔ binds r m b ∧ ¬ (r = role ∧ m = member).
Proof.
  unfold binds. intros Hb Hnd. destruct (remove_member_members member b Hnd) as [_ Hrem].
  rewrite remove_member_role, Hrem, Hb. naive_solver.
Qed.

Lemma binds_other m bs :
  Forall (λ b, b.(ab_Role) ≠ role) bs → ¬ Exists (binds role m) bs.
Proof. intros Hall Hex. induction Hex as [b bs [Hb _]|]; inversion Hall; auto. Qed.

Lemma grants_Bind p r m :
  grants (bound i p).2 r m ↔ grants p r m ∨ (r = role ∧ m = member).
Proof.
  unfold grants, grants_in. destruct (split_role role (derefs p.(sp_Bindings))) as [Hnone|pre b post Hbs Hpre Hb].
  - rewrite bound_none by done. simpl. rewrite derefs_values, Exists_app, Exists_cons, Exists_nil.
    unfold binds at 2. simpl. rewrite list_elem_of_singleton. naive_solver.
  - rewrite (bound_some p pre b post) by done.
    case_decide as Hm; simpl; rewrite ?derefs_values, Hbs, ?Exists_app, ?Exists_cons, ?binds_add by done; [|naive_solver].
    assert (r = role ∧ m = member → binds r m b) by by intros [-> ->]. tauto.
Qed.

Lemma canonical_split p pre b post :
  derefs p.(sp_Bindings) = pre ++ b :: post → b.(ab_Role) = role → canonical p →
  Forall (λ c, c.(ab_Role) ≠ role) post ∧ NoDup (elems b.(ab_Members)).
Proof.
  intros Hbs Hb (_ & Hroles & Hmems). rewrite Hbs in *.
  rewrite fmap_app, fmap_cons, NoDup_app, NoDup_cons in Hroles.
  apply Forall_app in Hmems as [_ Hmems]. apply Forall_cons in Hmems as [Hmem _].
  split; [|done]. apply Forall_forall. intros c Hc Hcr.
  destruct Hroles as (_ & _ & Hnin & _). apply Hnin. rewrite Hb, <-Hcr. by apply list_elem_of_fmap_2.
Qed.

Lemma grants_Unbind p r m :
  canonical p →
  grants (unbound i p).2 r m ↔ grants p r m ∧ ¬ (r = role ∧ m = member).
Proof.
  intros Hcan. unfold grants, grants_in.
  destruct (split_role role (derefs p.(sp_Bindings))) as [Hnone|pre b post Hbs Hpre Hb].
  - rewrite unbound_none by done. pose proof (binds_other m _ Hnone). naive_solver.
  - rewrite (unbound_some p pre b post) by done.
    destruct (canonical_split p pre b post Hbs Hb Hcan) as [Hpost Hnd].
    assert (∀ l, Forall (λ b, b.(ab_Role) ≠ role) l → Exists (binds r m) l → ¬ (r = role ∧ m = member)) as Hne.
    { intros l Hl Hex [-> ->]. by apply (binds_other member l). }
    specialize (Hne pre Hpre) as Hne1. specialize (Hne post Hpost) as Hne2.
    case_decide as Hm; simpl; rewrite ?derefs_values, Hbs, ?Exists_app, ?Exists_cons, ?binds_remove by done; [tauto|].
    assert (binds r m b → ¬ (r = role ∧ m = member)) by by intros [_ Hbm] [-> ->]. tauto.
Qed.

Lemma NoDup_roles_mid (pre : list apiBinding) b c post :
  c.(ab_Role) = b.(ab_Role) →
  ab_Role <$> (pre ++ c :: post) = ab_Role <$> (pre ++ b :: post).
Proof. intros Hc. by rewrite !fmap_app, !fmap_cons, Hc. Qed.

Lemma canonical_Bind p : canonical p → canonical (bound i p).2.
Proof.
  intros Hcan. destruct (split_role role (derefs p.(sp_Bindings))) as [Hnone|pre b post Hbs Hpre Hb].
  - rewrite bound_none by done. destruct Hcan as (_ & Hroles & Hmems).
    split; [apply no_nil_Some|]. simpl. rewrite derefs_values. split.
    + rewrite fmap_app. apply NoDup_app. split_and!; [done| |apply NoDup_singleton].
      intros r (b & -> & Hb)%list_elem_of_fmap Hr. apply list_elem_of_singleton in Hr.
      rewrite Forall_forall in Hnone. by apply (Hnone b).
    + apply Forall_app. split; [done|]. apply Forall_singleton, NoDup_singleton.
  - rewrite (bound_some p pre b post) by done. case_decide as Hm; [done|].
    destruct (canonical_split p pre b post Hbs Hb Hcan) as [_ Hnd].
    destruct Hcan as (_ & Hroles & Hmems). unfold canonical, canonical_in. simpl. rewrite Hbs in Hroles, Hmems.
    split; [apply no_nil_Some|]. rewrite derefs_values.
    rewrite (NoDup_roles_mid pre b) by done. split; [done|].
    apply Forall_app in Hmems as [H1 [_ H2]%Forall_cons].
    apply Forall_app. split; [done|]. apply Forall_cons. split; [|done].
    apply NoDup_app. split_and!; [done| |apply NoDup_singleton]. set_solver.
Qed.

Lemma canonical_Unbind p : canonical p → canonical (unbound i p).2.
Proof.
  intros Hcan. destruct (split_role role (derefs p.(sp_Bindings))) as [Hnone|pre b post Hbs Hpre Hb].
  - by rewrite unbound_none.
  - rewrite (unbound_some p pre b post) by done. case_decide as Hm; [|done].
    destruct (canonical_split p pre b post Hbs Hb Hcan) as [_ Hnd].
    destruct Hcan as (_ & Hroles & Hmems). unfold canonical, canonical_in. simpl. rewrite Hbs in Hroles, Hmems.
    split; [apply no_nil_Some|]. rewrite derefs_values.
    rewrite (NoDup_roles_mid pre b) by apply remove_member_role. split; [done|].
    apply Forall_app in Hmems as [H1 [_ H2]%Forall_cons].
    apply Forall_app. split; [done|]. apply Forall_cons. split; [|done].
    by apply remove_member_members.
Qed.

(** Nothing but the bindings of the role and the version changes. *)
Definition same_but_role (p q : storagePolicy) : Prop :=
  q.(sp_Etag) = p.(sp_Etag) ∧ q.(sp_rest) = p.(sp_rest) ∧
  ∀ r, r ≠ role → bindings_for r (derefs q.(sp_Bindings)) = bindings_for r (derefs p.(sp_Bindings)).

Lemma bindings_for_mid r (pre : list apiBinding) b c post :
  b.(ab_Role) ≠ r → c.(ab_Role) ≠ r →
  bindings_for r (pre ++ c :: post) = bindings_for r (pre ++ b :: post).
Proof. intros Hb Hc. by rewrite !bindings_for_app, !bindings_for_cons, !decide_False. Qed.

Lemma Bind_frame p : same_but_role p (bound i p).2.
Proof.
  destruct (split_role role (derefs p.(sp_Bindings))) as [Hnone|pre b post Hbs Hpre Hb].
  - rewrite bound_none by done. split_and!; [done..|]. intros r Hr. simpl.
    by rewrite derefs_values, bindings_for_app, bindings_for_cons, decide_False, app_nil_r.
  - rewrite (bound_some p pre b post) by done. case_decide; [done|].
    split_and!; [done..|]. intros r Hr. simpl. rewrite derefs_values, Hbs. apply bindings_for_mid; simpl; congruence.
Qed.

Lemma Unbind_frame p : same_but_role p (unbound i p).2.
Proof.
  destruct (split_role role (derefs p.(sp_Bindings))) as [Hnone|pre b post Hbs Hpre Hb].
  - by rewrite unbound_none.
  - rewrite (unbound_some p pre b post) by done. case_decide; [|done].
    split_and!; [done..|]. intros r Hr. simpl. rewrite derefs_values, Hbs.
    apply bindings_for_mid; rewrite ?remove_member_role; congruence.
Qed.

(** The member is listed in the first binding of the role. *)
Definition listed (p : storagePolicy) : Prop :=
  ∃ b, first_for role p = Some b ∧ member ∈ elems b.(ab_Members).

Lemma listed_some p pre b post :
  derefs p.(sp_Bindings) = pre ++ b :: post →
  Forall (λ b, b.(ab_Role) ≠ role) pre → b.(ab_Role) = role →
  listed p ↔ member ∈ elems b.(ab_Members).
Proof.
  intros Hbs Hpre Hb. unfold listed. rewrite (first_for_some p pre b post) by done.
  split; [by intros (? & [= <-] & ?)|eauto].
Qed.
Lemma listed_none p : Forall (λ b, b.(ab_Role) ≠ role) (derefs p.(sp_Bindings)) → ¬ listed p.
Proof. intros Hnone (b & Hb & _). by rewrite first_for_none in Hb. Qed.

Lemma Bind_changed p : (bound i p).1 = false ↔ listed p.
Proof.
  destruct (split_role role (derefs p.(sp_Bindings))) as [Hnone|pre b post Hbs Hpre Hb].
  - rewrite bound_none by done. pose proof (listed_none p Hnone). naive_solver.
  - rewrite (bound_some p pre b post), listed_some by done. by case_decide.
Qed.
Lemma Bind_unchanged p : listed p → bound i p = (false, {| p with sp_Version := PolicyVersion |}).
Proof.
  destruct (split_role role (derefs p.(sp_Bindings))) as [Hnone|pre b post Hbs Hpre Hb].
  - intros Hl. by apply listed_none in Hnone.
  - rewrite (bound_some p pre b post), (listed_some p pre b post) by done. by case_decide.
Qed.
Lemma Unbind_changed p : (unbound i p).1 = true ↔ listed p.
Proof.
  destruct (split_role role (derefs p.(sp_Bindings))) as [Hnone|pre b post Hbs Hpre Hb].
  - rewrite unbound_none by done. pose proof (listed_none p Hnone). naive_solver.
  - rewrite (unbound_some p pre b post), (listed_some p pre b post) by done. by case_decide.
Qed.

Lemma Bind_listed p : listed (bound i p).2.
Proof.
  destruct (split_role role (derefs p.(sp_Bindings))) as [Hnone|pre b post Hbs Hpre Hb].
  - rewrite bound_none by done.
    eapply listed_some; [apply derefs_values|done|done|]. simpl. apply list_elem_of_here.
  - rewrite (bound_some p pre b post) by done. case_decide.
    + by apply (listed_some _ pre b post).
    + apply (listed_some _ pre (add_member member b) post); [apply derefs_values|done..|]. simpl.
      apply elem_of_app. right. apply list_elem_of_here.
Qed.

Lemma Bind_version p : (bound i p).2.(sp_Version) = PolicyVersion.
Proof. unfold bound. by destruct (bind_values _ _ _) as [[[]]|]. Qed.

Lemma listed_granted p : canonical p → listed p ↔ grants p role member.
Proof.
  intros Hcan. unfold grants, grants_in.
  destruct (split_role role (derefs p.(sp_Bindings))) as [Hnone|pre b post Hbs Hpre Hb].
  - pose proof (listed_none p Hnone). pose proof (binds_other member _ Hnone). tauto.
  - rewrite (listed_some p pre b post), Hbs, Exists_app, Exists_cons by done.
    destruct (canonical_split p pre b post Hbs Hb Hcan) as [Hpost _].
    pose proof (binds_other member _ Hpre). pose proof (binds_other member _ Hpost).
    unfold binds. naive_solver.
Qed.
Lemma bound_no_nil p : no_nil p.(sp_Bindings) → no_nil (bound i p).2.(sp_Bindings).
Proof. intros Hp. unfold bound. destruct (bind_values _ _ _) as [[[] ?]|]; simpl; [apply no_nil_Some|done|apply no_nil_Some]. Qed.
End member.

(** ** Properties *)

#[global] Instance storagePolicy_ops : PolicyOps storagePolicy := {|
  p_Bindings := sp_Bindings;
  p_AuditConfigs := λ _, None;
  p_Etag := sp_Etag |}.

Section properties.
Context `{Libs}.

Lemma ArePoliciesSame_spec p1 p2 :
  no_nil p1.(sp_Bindings) → no_nil p2.(sp_Bindings) →
  ∃ b, ArePoliciesSame p1 p2 = Returns b ∧
  (b = true ↔
   p1.(sp_Etag) = p2.(sp_Etag) ∧ p1.(sp_rest) = p2.(sp_rest) ∧
   ∀ r, Forall2 binding_same (bindings_for r (derefs p1.(sp_Bindings))) (bindings_for r (derefs p2.(sp_Bindings)))).
Proof.
  intros H1 H2. unfold ArePoliciesSame. rewrite !sorts_nil_false by done. eexists. split; [reflexivity|].
  rewrite cmp_Equal_spec, <-view_bindings_eq by done. unfold same_view, view_policy.
  destruct p1, p2; simpl. split; [by intros [=]|by intros (-> & -> & ->)].
Qed.

Context `{!CopySucceeds}.

Definition generated (i : BucketPolicyParameters) (ck : storagePolicy) : storagePolicy :=
  {| ck with sp_Bindings := bindings_generated i.(bp_Policy); sp_Version := PolicyVersion |}.
Lemma bucket_policy_Generate_returns i p q :
  GenerateBucketPolicyInstance i p = Returns q ↔ no_nil i.(bp_Policy).(Bindings) ∧ q = generated i p.
Proof using Type.
  unfold GenerateBucketPolicyInstance. split.
  - destruct (generate_bindings _) as [bs|] eqn:Hb; simpl; [|done]. intros [= <-].
    by apply generate_bindings_returns in Hb as [? ->].
  - intros [Hb ->]. by rewrite (proj2 (generate_bindings_returns _ _) (conj Hb eq_refl)).
Qed.

Lemma bucket_policy_IsUpToDate_spec i observed :
  no_nil i.(bp_Policy).(Bindings) →
  IsUpToDate i observed =
    if sorts_nil observed.(sp_Bindings) then Panics
    else Returns (bool_decide (view_bindings (bindings_generated i.(bp_Policy)) = view_bindings observed.(sp_Bindings)), None).
Proof using Type*.
  intros Hi. unfold IsUpToDate. rewrite copy_succeeds, (proj2 (bucket_policy_Generate_returns _ _ _) (conj Hi eq_refl)).
  unfold ArePoliciesSame. simpl. rewrite (sorts_nil_false (bindings_generated _)) by apply no_nil_Some. simpl.
  destruct (sorts_nil _); [done|]. simpl. do 2 f_equal. apply eq_bool_prop_intro.
  rewrite Is_true_true, bool_decide_spec, cmp_Equal_spec. unfold same_view, view_policy. simpl.
  split; [by intros [= Hv]|by intros ->].
Qed.
End properties.

#[global] Instance bucket_policy_client `{Libs} : PolicyClient BucketPolicyParameters storagePolicy.
Proof.
  refine {| pc_resource i := StringValue i.(bp_Bucket);
    pc_bindings i := bindings_generated i.(bp_Policy);
    pc_audits _ := None;
    pc_no_nil i := no_nil i.(bp_Policy).(Bindings);
    pc_zero := zero_storagePolicy;
    pc_Generate := GenerateBucketPolicyInstance;
    pc_IsUpToDate := IsUpToDate;
    pc_IsEmpty := IsEmpty |}; try done.
  - intros i. apply no_nil_Some.
  - intros i p Hi. eexists. by apply bucket_policy_Generate_returns.
  - by intros i p q [Hi ->]%bucket_policy_Generate_returns.
  - intros Hcopy i p Hi. rewrite bucket_policy_IsUpToDate_spec by done. simpl. destruct (sorts_nil _); [done|].
    do 2 f_equal. apply bool_decide_ext. tauto.
  - intros Hcopy i p r. unfold IsUpToDate. rewrite copy_succeeds.
    destruct (GenerateBucketPolicyInstance i p) as [q|] eqn:Hq; [|done]. intros _.
    by apply bucket_policy_Generate_returns in Hq as [Hi _].
  - intros p Hne. by apply bool_decide_eq_false_2.
Defined.

Definition bucket_policy_messages : PolicyMessages := {|
  msg_kind := errNotBucketPolicy; msg_upToDate := errCheckPolicyUpToDate;
  msg_get := errGetPolicy; msg_set := errSetPolicy |}.

(** The handlers of this controller are those of PolicyController. *)
Lemma handlers_are_policy_handlers `{Libs} mg :
  Observe mg = policy_Observe bucket_policy_messages mg ∧ Create mg = policy_Create bucket_policy_messages mg ∧
  Update mg = policy_Update bucket_policy_messages mg ∧ Delete mg = policy_Delete bucket_policy_messages mg.
Proof. done. Qed.

(** C25: two bucket policies without nil bindings are the same exactly when they
    have the same etag and, role by role, the same bindings in the same order,
    each with the same condition and the same members in any order; the version
    and the order of roles do not matter. Comparing two policies panics exactly
    when one of them has a nil among two or more bindings. *)
Theorem bucket_policies_same_iff `{Libs} p1 p2 :
  (no_nil p1.(sp_Bindings) → no_nil p2.(sp_Bindings) →
   ∃ b, ArePoliciesSame p1 p2 = Returns b ∧
   (b = true ↔
    p1.(sp_Etag) = p2.(sp_Etag) ∧ p1.(sp_rest) = p2.(sp_rest) ∧
    ∀ r, Forall2 binding_same (bindings_for r (derefs p1.(sp_Bindings))) (bindings_for r (derefs p2.(sp_Bindings))))) ∧
  (ArePoliciesSame p1 p2 = Panics ↔
   ∃ p, p ∈ [p1; p2] ∧ (2 ≤ List.length (elems p.(sp_Bindings)))%nat ∧ None ∈ elems p.(sp_Bindings)).
Proof.
  split; [apply ArePoliciesSame_spec|].
  assert (∀ p, sorts_nil p.(sp_Bindings) = true ↔
    (2 ≤ List.length (elems p.(sp_Bindings)))%nat ∧ None ∈ elems p.(sp_Bindings)) as Hnil
    by (intros p; unfold sorts_nil; by rewrite andb_true_iff, Nat.leb_le, has_nil_true).
  setoid_rewrite <-Hnil. setoid_rewrite elem_of_cons. setoid_rewrite list_elem_of_singleton. unfold ArePoliciesSame.
  destruct (sorts_nil (sp_Bindings p1)) eqn:H1, (sorts_nil (sp_Bindings p2)) eqn:H2; simpl; naive_solver congruence.
Qed.

(** C4: BindRoleToMember panics exactly when it reaches a nil binding before one
    of the role. On a policy without nil bindings it returns, grants the member
    the role and nothing else, reports a change exactly when the member was not
    listed in the first binding of the role, leaves the etag and the bindings of
    every other role alone, keeps a canonical policy canonical, and reports no
    change when called again. *)
Theorem bind_grants_exactly i p :
  (BindRoleToMember i p = Panics ↔ reaches_nil i.(bpm_Role) (elems p.(sp_Bindings))) ∧
  (no_nil p.(sp_Bindings) →
   ∃ changed q, BindRoleToMember i p = Returns (changed, q) ∧
   (∀ r m, grants q r m ↔ grants p r m ∨ (r = i.(bpm_Role) ∧ m = StringValue i.(bpm_Member))) ∧
   (changed = false ↔ listed i p) ∧
   same_but_role i p q ∧
   (canonical p → canonical q) ∧
   BindRoleToMember i q = Returns (false, q)).
Proof.
  split; [apply BindRoleToMember_panics|]. intros Hnil. rewrite BindRoleToMember_bound by done.
  pose proof (Bind_version i p) as Hv. pose proof (Bind_unchanged i _ (Bind_listed i p)) as Hidem.
  pose proof (grants_Bind i p). pose proof (Bind_changed i p). pose proof (bound_no_nil i p Hnil) as Hq.
  pose proof (Bind_frame i p). pose proof (canonical_Bind i p).
  destruct (bound i p) as [changed q]; simpl in *. exists changed, q.
  split_and!; [done..|]. rewrite BindRoleToMember_bound, Hidem, <-Hv by done. by destruct q.
Qed.

(** C5: UnbindRoleFromMember panics exactly when it reaches a nil binding before
    one of the role. On a canonical policy it returns, takes the role from the
    member and changes no other grant, reports a change exactly when the member
    had the role, leaves the etag and the bindings of every other role alone,
    and keeps the policy canonical. *)
Theorem unbind_revokes_exactly i p :
  (UnbindRoleFromMember i p = Panics ↔ reaches_nil i.(bpm_Role) (elems p.(sp_Bindings))) ∧
  (canonical p →
   ∃ changed q, UnbindRoleFromMember i p = Returns (changed, q) ∧
   (∀ r m, grants q r m ↔ grants p r m ∧ ¬ (r = i.(bpm_Role) ∧ m = StringValue i.(bpm_Member))) ∧
   (changed = true ↔ grants p i.(bpm_Role) (StringValue i.(bpm_Member))) ∧
   same_but_role i p q ∧ canonical q).
Proof.
  split; [apply UnbindRoleFromMember_panics|]. intros Hcan. rewrite UnbindRoleFromMember_unbound by apply Hcan.
  pose proof (λ r m, grants_Unbind i p r m Hcan). pose proof (Unbind_changed i p) as Hch.
  pose proof (Unbind_frame i p). pose proof (canonical_Unbind i p Hcan).
  rewrite listed_granted in Hch by done.
  destruct (unbound i p) as [changed q]. by exists changed, q.
Qed.

Definition example_policy : storagePolicy := {|
  sp_Bindings := Some
    [Some {| ab_Condition := None; ab_Members := Some ["user:a"; "user:b"]; ab_Role := "viewer"; ab_rest := ∅ |};
     Some {| ab_Condition := None; ab_Members := Some ["user:c"]; ab_Role := "admin"; ab_rest := ∅ |}];
  sp_Etag := "CAE="; sp_Version := 3; sp_rest := ∅ |}.
Definition example_member (role member : string) : BucketPolicyMemberParameters := {|
  bpm_Bucket := Some "bucket"; bpm_BucketRef := None; bpm_BucketSelector := None;
  bpm_Role := role; bpm_Member := Some member;
  bpm_ServiceAccountMemberRef := None; bpm_ServiceAccountMemberSelector := None |}.

Lemma example_canonical : canonical example_policy.
Proof. split; [|split]; apply (bool_decide_unpack _); by vm_compute. Defined.

Lemma bind_grants_exactly_witness :
  ∃ changed q, BindRoleToMember (example_member "viewer" "user:c") example_policy = Returns (changed, q) ∧
    grants q "viewer" "user:c".
Proof.
  destruct (proj2 (bind_grants_exactly (example_member "viewer" "user:c") example_policy) (proj1 example_canonical))
    as (changed & q & Hq & Hg & _).
  exists changed, q. split; [done|]. apply Hg. by right.
Defined.

Lemma unbind_revokes_exactly_witness :
  ∃ changed q, UnbindRoleFromMember (example_member "viewer" "user:a") example_policy = Returns (changed, q) ∧
    ¬ grants q "viewer" "user:a".
Proof.
  destruct (proj2 (unbind_revokes_exactly (example_member "viewer" "user:a") example_policy) example_canonical)
    as (changed & q & Hq & Hg & _).
  exists changed, q. split; [done|]. rewrite Hg. intros [_ Hne]. by apply Hne.
Defined.

(** Binding a member and unbinding it again restores what the policy
    granted, when the member did not have the role before. *)
Theorem unbind_undoes_bind i p (Hcan : canonical p)
    (Hnew : ¬ grants p i.(bpm_Role) (StringValue i.(bpm_Member))) :
  ∃ b q c q', BindRoleToMember i p = Returns (b, q) ∧ UnbindRoleFromMember i q = Returns (c, q') ∧
  canonical q' ∧ ∀ r m, grants q' r m ↔ grants p r m.
Proof.
  pose proof (canonical_Bind i p Hcan) as Hq. pose proof (canonical_Unbind i _ Hq) as Hq'.
  exists (bound i p).1, (bound i p).2, (unbound i (bound i p).2).1, (unbound i (bound i p).2).2.
  rewrite BindRoleToMember_bound, UnbindRoleFromMember_unbound by (apply Hcan || apply Hq).
  split_and!; [by destruct (bound i p)|by destruct (unbound i _)|done|].
  intros r m. rewrite grants_Unbind, grants_Bind by done. naive_solver.
Qed.

Lemma unbind_undoes_bind_witness :
  ∃ b q c q', BindRoleToMember (example_member "admin" "user:a") example_policy = Returns (b, q) ∧
    UnbindRoleFromMember (example_member "admin" "user:a") q = Returns (c, q') ∧ grants q' "viewer" "user:a".
Proof.
  destruct (unbind_undoes_bind (example_member "admin" "user:a") example_policy example_canonical)
    as (b & q & c & q' & Hb & Hu & _ & Hg); [apply (bool_decide_unpack _); by vm_compute|].
  exists b, q, c, q'. split_and!; [done..|]. apply Hg, (bool_decide_unpack _). by vm_compute.
Defined.

(** BindRoleToMember does not look at conditions. Where the role is bound
    under a condition, every binding that gives the role to the member
    afterwards carries that condition, so the unconditional grant that a
    BucketPolicyMember asks for is not made although the policy counts as
    bound. *)
Theorem bind_joins_conditional_binding i p b (Hcan : canonical p)
    (Hfirst : first_for i.(bpm_Role) p = Some b) :
  ∃ changed q, BindRoleToMember i p = Returns (changed, q) ∧
  Forall (λ c, binds i.(bpm_Role) (StringValue i.(bpm_Member)) c → c.(ab_Condition) = b.(ab_Condition))
    (derefs q.(sp_Bindings)).
Proof.
  exists (bound i p).1, (bound i p).2. rewrite BindRoleToMember_bound by apply Hcan.
  split; [by destruct (bound i p)|]. destruct (split_role i.(bpm_Role) (derefs p.(sp_Bindings))) as [Hnone|pre c post Hbs Hpre Hc].
  { by rewrite (first_for_none i) in Hfirst. }
  rewrite (first_for_some i p pre c post) in Hfirst by done. injection Hfirst as <-.
  destruct (canonical_split i p pre c post Hbs Hc Hcan) as [Hpost _].
  assert (∀ l, Forall (λ b, b.(ab_Role) ≠ i.(bpm_Role)) l →
    Forall (λ d, binds i.(bpm_Role) (StringValue i.(bpm_Member)) d → d.(ab_Condition) = c.(ab_Condition)) l) as Hl.
  { intros l Hne. eapply Forall_impl; [exact Hne|]. by intros d Hd [Hr _]. }
  rewrite (bound_some i p pre c post) by done.
  case_decide; simpl; rewrite ?derefs_values, ?Hbs; apply Forall_app; auto.
Qed.

Definition conditional_policy : storagePolicy := {|
  sp_Bindings := Some
    [Some {| ab_Condition := Some {| ae_Description := ""; ae_Expression := "request.time < t";
          ae_Location := ""; ae_Title := "until t"; ae_rest := ∅ |};
        ab_Members := Some ["user:a"]; ab_Role := "viewer"; ab_rest := ∅ |}];
  sp_Etag := "CAE="; sp_Version := 3; sp_rest := ∅ |}.

Lemma bind_joins_conditional_binding_witness :
  ∃ changed q, BindRoleToMember (example_member "viewer" "user:b") conditional_policy = Returns (changed, q) ∧
    Forall (λ c, binds "viewer" "user:b" c → c.(ab_Condition) ≠ None) (derefs q.(sp_Bindings)).
Proof.
  destruct (bind_joins_conditional_binding (example_member "viewer" "user:b") conditional_policy
    (default (Build_apiBinding None None "" ∅) (first_for "viewer" conditional_policy))) as (changed & q & Hq & Hall).
  - split; [|split]; apply (bool_decide_unpack _); by vm_compute.
  - by vm_compute.
  - exists changed, q. split; [done|]. eapply Forall_impl; [exact Hall|]. intros c Hc Hb. by rewrite (Hc Hb).
Defined.

(** Where no binding of the spec and none that is read is nil, the handlers of
    the BucketPolicy controller never panic; each returns an error exactly when
    one of its API calls failed, where for Observe a policy that is not found is
    no failure, and none calls the API again after a failure. Observe only reads,
    and what it reports is consistent. *)
Theorem bucket_policy_controller_errors `{Libs} `{!CopySucceeds} cr (Hcr : no_nil cr.(ForProvider).(bp_Policy).(Bindings)) :
  policy_errors_contract (Observe (Some cr)) (Create (Some cr)) (Update (Some cr)) (Delete (Some cr)).
Proof. exact (policy_handlers_errors bucket_policy_messages cr Hcr). Qed.

(** C3: whole policies converge. Take a BucketPolicy that asks for at least one
    binding, each with members, and any policy server that meets its documented
    interface. Once Create or Update returned without error, an Observe whose
    read the server answers reports that the policy exists and is up to date,
    makes the resource Available, and leaves the server as it is. *)
Theorem bucket_policy_converges `{Libs} `{!CopySucceeds} {W : Type} `{!IamServer storagePolicy W}
    cr w w' p
    (Hsub : substantial cr.(ForProvider))
    (Hwritten : (∃ o cr', run serve (Create (Some cr)) w = Returns (o, None, cr', w')) ∨
                (∃ cr', run serve (Update (Some cr)) w = Returns (None, cr', w')))
    (Hread : (serve _ (GetIamPolicy (StringValue cr.(ForProvider).(bp_Bucket)) PolicyVersion) w').1 = inl p) :
  ∃ cr', run serve (Observe (Some cr)) w' =
    Returns ({| no_observation with ResourceExists := true; ResourceUpToDate := true |}, None, Some cr', w') ∧
  ready cr'.(Conditions) = Some Available.
Proof. exact (policy_handlers_converge bucket_policy_messages cr w w' p Hsub Hwritten Hread). Qed.

Definition storage_memory : IamServer storagePolicy (gmap string (nat * storagePolicy)) :=
  memory_server zero_storagePolicy (λ t p, {| p with sp_Etag := t |})
    (λ _ _, eq_refl) (λ _ _, eq_refl) (λ _ _, eq_refl).

Definition example_bucket_policy : BucketPolicy := {|
  ExternalName := "policy"; WasDeleted := false; ProviderConfigReference := None; ProviderReference := None;
  ForProvider := {| bp_Bucket := Some "bucket"; bp_BucketRef := None; bp_BucketSelector := None;
    bp_Policy := {| AuditConfigs := None; Bindings := Some
      [Some {| Condition := None; Members := Some ["user:a"]; ServiceAccountMemberRefs := None;
          ServiceAccountMemberSelector := None; Role := "viewer" |}] |} |};
  AtProvider := {| bpo_Version := 0 |}; Conditions := [] |}.

Lemma bucket_policy_converges_witness :
  let _ := reference_libs in let _ := storage_memory in
  ∃ w cr', run serve (Observe (Some example_bucket_policy)) w =
    Returns ({| no_observation with ResourceExists := true; ResourceUpToDate := true |}, None, Some cr', w) ∧
  ready cr'.(Conditions) = Some Available.
Proof.
  intros libs server.
  eexists. eapply (@bucket_policy_converges libs reference_copy _ server example_bucket_policy ∅).
  - split; [done|]. split; apply (bool_decide_unpack _); by vm_compute.
  - left. eexists _, _. reflexivity.
  - reflexivity.
Defined.

Lemma bucket_policy_controller_errors_witness :
  @errors_given _ _ _ policy_answers (policy_fails false) (@Update reference_libs (Some example_bucket_policy)).
Proof.
  apply (@bucket_policy_controller_errors reference_libs reference_copy example_bucket_policy).
  apply (bool_decide_unpack _). by vm_compute.
Defined.

Lemma bucket_policies_same_iff_witness :
  ∃ b, @ArePoliciesSame reference_libs example_policy {| example_policy with sp_Version := 1 |} = Returns b ∧ b = true.
Proof.
  destruct (proj1 (@bucket_policies_same_iff reference_libs example_policy {| example_policy with sp_Version := 1 |}))
    as (b & Hb & Hiff); [apply example_canonical..|].
  exists b. split; [done|]. apply Hiff. split_and!; [done|done|]. intros r. by apply view_binding_list_eq.
Defined.
