(* ===== verification/BucketPolicyMember.v ===== *)
(** * Single members of bucket policies

    pkg/controller/storage/bucketpolicymember.go: a controller that keeps one
    member bound to one role of a bucket, and many of them at work on the same
    bucket at once. Every update is read, change, write back; the theorem at the
    end of the file shows that the etag makes each of them atomic. *)

From S2P Require Import Prelude GoSort GoStrings Libs Contract Gcp Nested IamPolicy BucketPolicy.
From Stdlib Require Import Lia.

(** The status of a BucketPolicyMember holds conditions and nothing else. *)
Definition BucketPolicyMember : Type := Managed BucketPolicyMemberParameters unit.

Definition errNotBucketPolicyMember : string := "managed resource is not a GCP BucketPolicyMember".

Section controller.
Context `{Libs}.

Definition Observe (mg : option BucketPolicyMember)
  : prog (PolicyE storagePolicy) (ExternalObservation * option error * option BucketPolicyMember) :=
  match mg with
  | None => mret (no_observation, errors_New errNotBucketPolicyMember, None)
  | Some cr =>
    r ← call (GetIamPolicy (StringValue cr.(ForProvider).(bpm_Bucket)) PolicyVersion);
    match r with
    | inr err => mret (no_observation, errors_Wrap (Some err) errGetPolicy, Some cr)
    | inl instance =>
      '(changed, instance) ← lift (BindRoleToMember cr.(ForProvider) instance);
      if negb changed then
        mret ({| no_observation with ResourceExists := true; ResourceUpToDate := true |},
              None, Some (set_condition Available cr))
      else mret (no_observation, None, Some cr)
    end
  end.

Definition Create (mg : option BucketPolicyMember)
  : prog (PolicyE storagePolicy) (ExternalCreation * option error * option BucketPolicyMember) :=
  match mg with
  | None => mret (no_creation, errors_New errNotBucketPolicyMember, None)
  | Some cr =>
    r ← call (GetIamPolicy (StringValue cr.(ForProvider).(bpm_Bucket)) PolicyVersion);
    match r with
    | inr err => mret (no_creation, errors_Wrap (Some err) errGetPolicy, Some cr)
    | inl instance =>
      '(changed, instance) ← lift (BindRoleToMember cr.(ForProvider) instance);
      if negb changed then mret (no_creation, None, Some cr)
      else
        s ← call (SetIamPolicy (StringValue cr.(ForProvider).(bpm_Bucket)) instance);
        match s with
        | inr err => mret (no_creation, errors_Wrap (Some err) errSetPolicy, Some cr)
        | inl _ => mret (no_creation, None, Some cr)
        end
    end
  end.

Definition Update (mg : option BucketPolicyMember)
  : prog (PolicyE storagePolicy) (option error * option BucketPolicyMember) :=
  '(_, err, mg') ← Create mg; mret (err, mg').

Definition Delete (mg : option BucketPolicyMember)
  : prog (PolicyE storagePolicy) (option error * option BucketPolicyMember) :=
  match mg with
  | None => mret (errors_New errNotBucketPolicyMember, None)
  | Some cr =>
    r ← call (GetIamPolicy (StringValue cr.(ForProvider).(bpm_Bucket)) PolicyVersion);
    match r with
    | inr err => mret (errors_Wrap (Some err) errGetPolicy, Some cr)
    | inl instance =>
      '(changed, instance) ← lift (UnbindRoleFromMember cr.(ForProvider) instance);
      if negb changed then mret (None, Some cr)
      else
        s ← call (SetIamPolicy (StringValue cr.(ForProvider).(bpm_Bucket)) instance);
        match s with
        | inr err => mret (errors_Wrap (Some err) errSetPolicy, Some cr)
        | inl _ => mret (None, Some cr)
        end
    end
  end.
End controller.

(** Where no binding that is read is nil, the handlers of the BucketPolicyMember
    controller never panic and return an error exactly when one of their API
    calls failed (a policy that is not found included); no handler calls the API
    again after a failure. Observe only reads, and what it reports is consistent. *)
Theorem bucket_policy_member_errors `{Libs} cr :
  errors_given policy_answers (policy_fails false) (Observe (Some cr)) ∧
  calls_only reads_policy (Observe (Some cr)) ∧
  always_given policy_answers (λ '(o, err, _), err ≠ None ∨ o.(ResourceExists) = false → o = no_observation)
    (Observe (Some cr)) ∧
  errors_given policy_answers (policy_fails false) (Create (Some cr)) ∧
  stops_on_failure (policy_fails false) (Create (Some cr)) ∧
  errors_given policy_answers (policy_fails false) (Update (Some cr)) ∧
  errors_given policy_answers (policy_fails false) (Delete (Some cr)) ∧
  stops_on_failure (policy_fails false) (Delete (Some cr)).
Proof.
  unfold errors_given. split_and!; try (split; [done|]); intros [p|err]; simpl; try walk.
  all: try match goal with H : no_nil _ |- _ => rewrite ?BindRoleToMember_bound, ?UnbindRoleFromMember_unbound by done end.
  all: try destruct (BindRoleToMember _ p) as [[[] q]|]; try destruct (UnbindRoleFromMember _ p) as [[[] q]|]; simpl; walk.
Qed.

(** ** Many controllers on one server *)

(** What a reconciler of a BucketPolicyMember runs against the server: Create to
    bind, Delete to unbind. *)
Inductive op := OpBind | OpUnbind.

(** What the operation makes of a policy without nil bindings. *)
Definition applied (o : op) (i : BucketPolicyMemberParameters) (p : storagePolicy) : bool * storagePolicy :=
  match o with OpBind => bound i p | OpUnbind => unbound i p end.

(** The meaning of the operation: the grants of its bucket after it. *)
Definition effect (o : op) (i : BucketPolicyMemberParameters) (g : string → string → string → Prop)
    (bucket role member : string) : Prop :=
  let mine := bucket = StringValue i.(bpm_Bucket) ∧ role = i.(bpm_Role) ∧ member = StringValue i.(bpm_Member) in
  match o with OpBind => g bucket role member ∨ mine | OpUnbind => g bucket role member ∧ ¬ mine end.

Section interleaving.
Context `{Libs} {W : Type} `{!IamServer storagePolicy W}.

Definition task (o : op) (cr : BucketPolicyMember) : prog (PolicyE storagePolicy) (option error) :=
  match o with
  | OpBind => '(_, err, _) ← Create (Some cr); mret err
  | OpUnbind => '(err, _) ← Delete (Some cr); mret err
  end.

(** A handler at work: what it was asked to do and what is left of it. *)
Record thread := {
  th_op : op;
  th_cr : BucketPolicyMember;
  th_prog : prog (PolicyE storagePolicy) (option error)
}.

(** One handler makes one call, or a new one starts. *)
Inductive step : W * list thread → W * list thread → Prop :=
| Step_start w ts o cr :
    step (w, ts) (w, ts ++ [{| th_op := o; th_cr := cr; th_prog := task o cr |}])
| Step_call w ts j t X (e : PolicyE storagePolicy X) k r w' :
    ts !! j = Some t → t.(th_prog) = Call e k → serve X e w = (r, w') →
    step (w, ts) (w', <[j := {| t with th_prog := k r |}]> ts).

Definition granted (w : W) (bucket role member : string) : Prop := grants (stored w bucket) role member.

(** The operation's effect is there. *)
Definition established (o : op) (i : BucketPolicyMemberParameters) (w : W) : Prop :=
  let g := granted w (StringValue i.(bpm_Bucket)) i.(bpm_Role) (StringValue i.(bpm_Member)) in
  match o with OpBind => g | OpUnbind => ¬ g end.

Definition my_bucket (t : thread) : string := StringValue t.(th_cr).(ForProvider).(bpm_Bucket).

(** After its read a handler holds a policy made from a snapshot: the policy of
    the server at some revision, the current one if that is the revision still. *)
Definition snapshot (w : W) (bucket : string) (s : storagePolicy) : Prop :=
  ∃ n, s.(sp_Etag) = tag n ∧ (n ≤ revision w bucket)%nat ∧ (n = revision w bucket → s = stored w bucket).

Definition writes_back (o : op) (cr : BucketPolicyMember) (s : storagePolicy)
    (p : prog (PolicyE storagePolicy) (option error)) : Prop :=
  ∃ k, p = Call (SetIamPolicy (StringValue cr.(ForProvider).(bpm_Bucket)) (applied o cr.(ForProvider) s).2) k ∧
    ∀ r, k r = Done (match r with inr err => errors_Wrap (Some err) errSetPolicy | inl _ => None end).

Definition thread_ok (w : W) (t : thread) : Prop :=
  t.(th_prog) = task t.(th_op) t.(th_cr) ∨
  (∃ s, snapshot w (my_bucket t) s ∧ writes_back t.(th_op) t.(th_cr) s t.(th_prog)) ∨
  (∃ err, t.(th_prog) = Done err).

Definition inv (c : W * list thread) : Prop :=
  (∀ bucket, canonical (stored c.1 bucket)) ∧ Forall (thread_ok c.1) c.2.

(** ** Lemmas *)

Lemma task_unfold o cr :
  ∃ k, task o cr = Call (GetIamPolicy (StringValue cr.(ForProvider).(bpm_Bucket)) PolicyVersion) k ∧
  (∀ e, k (inr e) = Done (errors_Wrap (Some e) errGetPolicy)) ∧
  (∀ s, no_nil s.(sp_Bindings) → (applied o cr.(ForProvider) s).1 = false → k (inl s) = Done None) ∧
  (∀ s, no_nil s.(sp_Bindings) → (applied o cr.(ForProvider) s).1 = true → writes_back o cr s (k (inl s))).
Proof.
  destruct o; (eexists; split; [reflexivity|]); simpl; (split_and!; [done|..]); intros s Hs;
    unfold writes_back; simpl; rewrite ?BindRoleToMember_bound, ?UnbindRoleFromMember_unbound by done;
    [destruct (bound _ s) as [c q]|destruct (bound _ s) as [c q]
    |destruct (unbound _ s) as [c q]|destruct (unbound _ s) as [c q]];
    simpl; intros ->; try done; (eexists; split; [reflexivity|by intros []]).
Qed.

Lemma applied_frame o i p : same_but_role i p (applied o i p).2.
Proof. destruct o; [apply Bind_frame|apply Unbind_frame]. Qed.
Lemma applied_canonical o i p : canonical p → canonical (applied o i p).2.
Proof. destruct o; [apply canonical_Bind|apply canonical_Unbind]. Qed.

(** Applying the operation to the policy of its bucket has its effect. *)
Lemma applied_effect o i (g : string → string → string → Prop) p role member :
  canonical p → (∀ r m, g (StringValue i.(bpm_Bucket)) r m ↔ grants p r m) →
  effect o i g (StringValue i.(bpm_Bucket)) role member ↔ grants (applied o i p).2 role member.
Proof.
  intros Hcan Hg. unfold effect. destruct o; simpl; rewrite Hg.
  - rewrite grants_Bind. naive_solver.
  - rewrite grants_Unbind by done. naive_solver.
Qed.

(** An operation that changes nothing finds its effect made already. *)
Lemma applied_unchanged o i p :
  canonical p → (applied o i p).1 = false →
  match o with
  | OpBind => grants p i.(bpm_Role) (StringValue i.(bpm_Member))
  | OpUnbind => ¬ grants p i.(bpm_Role) (StringValue i.(bpm_Member))
  end.
Proof.
  intros Hcan Hun. destruct o; rewrite <-(listed_granted i p Hcan); simpl in *.
  - by apply Bind_changed.
  - intros Hl%Unbind_changed. congruence.
Qed.

(** What a write does to the bucket it names and to the others. *)
Lemma snapshot_stable w w' bucket res s :
  (revision w' res = S (revision w res) ∨ (revision w' res = revision w res ∧ stored w' res = stored w res)) →
  (∀ res', res' ≠ res → stored w' res' = stored w res' ∧ revision w' res' = revision w res') →
  snapshot w bucket s → snapshot w' bucket s.
Proof.
  intros Hres Hother (n & Hs & Hn & Hcur). exists n. split; [done|].
  destruct (decide (bucket = res)) as [->|Hne].
  - destruct Hres as [Hrev|[Hrev Hst]]; rewrite Hrev; [split; [lia|intros ->; lia]|].
    rewrite Hst. split; [lia|done].
  - destruct (Hother bucket Hne) as [-> ->]. done.
Qed.

(** What one call of one handler does, to the server and to the invariant. *)
Definition call_ok (w w' : W) (t : thread) (p' : prog (PolicyE storagePolicy) (option error)) : Prop :=
  (∀ bucket, canonical (stored w' bucket)) ∧
  (∀ t', thread_ok w t' → thread_ok w' t') ∧
  thread_ok w' {| t with th_prog := p' |} ∧
  ((∀ b r m, granted w' b r m ↔ granted w b r m) ∨
   (∀ b r m, granted w' b r m ↔ effect t.(th_op) t.(th_cr).(ForProvider) (granted w) b r m)) ∧
  (p' = Done None → established t.(th_op) t.(th_cr).(ForProvider) w').

Definition next_call_ok (w : W) (t : thread) (p : prog (PolicyE storagePolicy) (option error)) : Prop :=
  match p with
  | Call e k => ∀ r w', serve _ e w = (r, w') → call_ok w w' t (k r)
  | Done _ | Crash => True
  end.

Lemma read_ok w t :
  (∀ bucket, canonical (stored w bucket)) → next_call_ok w t (task t.(th_op) t.(th_cr)).
Proof.
  intros Hcan. destruct (task_unfold t.(th_op) t.(th_cr)) as (k & -> & Herr & Hun & Hch).
  intros r w' Hserve.
  pose proof (serve_get w (my_bucket t) PolicyVersion) as Hget.
  unfold my_bucket in Hget. rewrite Hserve in Hget. destruct Hget as [-> Hget].
  assert (∀ p, r = inl p → snapshot w (my_bucket t) p) as Hsnap.
  { intros p ->%Hget. exists (revision w (my_bucket t)). split_and!; [exact (stored_Etag w (my_bucket t))|lia|done]. }
  assert (∀ p, r = inl p → no_nil p.(sp_Bindings)) as Hnil by (intros p ->%Hget; apply Hcan).
  unfold call_ok. split_and!; [done|done| |by left|].
  - destruct r as [p|err].
    + destruct (applied t.(th_op) t.(th_cr).(ForProvider) p).1 eqn:Hc.
      * right; left. exists p. split; [by apply Hsnap|]. by apply Hch; [apply Hnil|].
      * right; right. eexists. by apply Hun; [apply Hnil|].
    + right; right. eexists. apply Herr.
  - destruct r as [p|err]; [|rewrite Herr, errors_Wrap_some; done].
    destruct (applied t.(th_op) t.(th_cr).(ForProvider) p).1 eqn:Hc.
    + destruct (Hch p (Hnil p eq_refl) Hc) as (k' & Hk' & _). by rewrite Hk'.
    + intros _. rewrite (Hget p eq_refl) in Hc. by apply applied_unchanged in Hc.
Qed.

Lemma set_fails_ok w t s err :
  (∀ bucket, canonical (stored w bucket)) → snapshot w (my_bucket t) s →
  call_ok w w t (Done (errors_Wrap (Some err) errSetPolicy)).
Proof.
  intros Hcan Hsnap. unfold call_ok. split_and!; [done|done| |by left|by rewrite errors_Wrap_some].
  right; right. by eexists.
Qed.

(** A write that succeeds was made from the current policy. *)
Lemma snapshot_current w t s p' w' :
  snapshot w (my_bucket t) s →
  serve _ (SetIamPolicy (my_bucket t) (applied t.(th_op) t.(th_cr).(ForProvider) s).2) w = (inl p', w') →
  s = stored w (my_bucket t).
Proof.
  intros (n & Htag & _ & Hcur) (Hetag & _)%serve_set. apply Hcur.
  destruct (applied_frame t.(th_op) t.(th_cr).(ForProvider) s) as [Hf _].
  rewrite stored_Etag in Hetag. simpl in Hetag. rewrite Hf, Htag in Hetag.
  destruct Hetag as [Hnil|Hn]; [by apply tag_non_empty in Hnil|by apply tag_inj in Hn].
Qed.

Lemma set_ok w t s p' w' :
  (∀ bucket, canonical (stored w bucket)) → snapshot w (my_bucket t) s →
  serve _ (SetIamPolicy (my_bucket t) (applied t.(th_op) t.(th_cr).(ForProvider) s).2) w = (inl p', w') →
  call_ok w w' t (Done None).
Proof.
  intros Hcan Hsnap Hserve. pose proof (snapshot_current w t s p' w' Hsnap Hserve) as ->.
  apply serve_set in Hserve as (_ & -> & Hrev & Hother & Hgr & Hc & _).
  set (i := t.(th_cr).(ForProvider)) in *. set (p := stored w (my_bucket t)) in *.
  assert (∀ r m, granted w' (my_bucket t) r m ↔ effect t.(th_op) i (granted w) (my_bucket t) r m) as Hmine.
  { intros r m. etrans; [apply Hgr|]. symmetry.
    apply (applied_effect t.(th_op) i (granted w) p); [apply Hcan|]. intros r' m'. reflexivity. }
  unfold call_ok. split_and!.
  - intros bucket. destruct (decide (bucket = my_bucket t)) as [->|Hne].
    + apply Hc, applied_canonical, Hcan.
    + by destruct (Hother bucket Hne) as [-> _].
  - intros t' [Htask|[(s & Hs & Hw)|Hdone]]; [by left| |by right; right].
    right; left. exists s. split; [|done]. by apply (snapshot_stable w w' _ (my_bucket t)); [left|..].
  - right; right. by eexists.
  - right. intros b r m. destruct (decide (b = my_bucket t)) as [->|Hne]; [apply Hmine|].
    unfold granted at 1. destruct (Hother b Hne) as [-> _].
    unfold effect. fold (granted w b r m). unfold my_bucket in Hne. destruct t.(th_op); naive_solver.
  - intros _. unfold established. fold i. specialize (Hmine i.(bpm_Role) (StringValue i.(bpm_Member))).
    unfold effect in Hmine. destruct t.(th_op); [apply Hmine; by right|]. intros Hg. by apply Hmine in Hg as [_ []].
Qed.

Lemma thread_call_ok w t :
  (∀ bucket, canonical (stored w bucket)) → thread_ok w t → next_call_ok w t t.(th_prog).
Proof.
  intros Hcan [->|[(s & Hsnap & k & -> & Hk)|[err ->]]]; [by apply read_ok| |done].
  intros r w' Hserve. rewrite Hk. destruct r as [p'|err].
  - by apply (set_ok w t s p').
  - apply serve_set_fails in Hserve as ->. by apply (set_fails_ok w t s).
Qed.

Lemma step_ok c c' :
  step c c' → inv c →
  inv c' ∧
  ((∀ b r m, granted c'.1 b r m ↔ granted c.1 b r m) ∨
   ∃ t, t ∈ c.2 ∧ ∀ b r m, granted c'.1 b r m ↔ effect t.(th_op) t.(th_cr).(ForProvider) (granted c.1) b r m) ∧
  (∀ j t t', c.2 !! j = Some t → c'.2 !! j = Some t' → t.(th_prog) ≠ Done None → t'.(th_prog) = Done None →
     established t'.(th_op) t'.(th_cr).(ForProvider) c'.1).
Proof.
  intros [w ts o cr|w ts j t X e k r w' Hj Hprog Hserve] [Hcan Hall]; simpl in *.
  - split_and!; [split; [done|]|by left|].
    + simpl. apply Forall_app. split; [done|]. apply Forall_singleton. by left.
    + intros j t t' Hj Hj'. rewrite lookup_app_l in Hj' by by eapply lookup_lt_Some. congruence.
  - pose proof (Forall_lookup_1 _ _ _ _ Hall Hj) as Ht.
    pose proof (thread_call_ok w t Hcan Ht) as Hok. rewrite Hprog in Hok.
    destruct (Hok r w' Hserve) as (Hcan' & Hthreads & Ht' & Heff & Hest).
    split_and!; [split; [done|]|destruct Heff; [by left|right]|].
    + simpl. apply Forall_insert; [|done]. by eapply Forall_impl.
    + exists t. split; [by eapply list_elem_of_lookup_2|done].
    + intros j' t1 t1' Hj1 Hj1' Hne Hdone. destruct (decide (j' = j)) as [->|Hjj].
      * rewrite list_lookup_insert_eq in Hj1' by by eapply lookup_lt_Some.
        injection Hj1' as <-. by apply Hest.
      * rewrite list_lookup_insert_ne in Hj1' by done. congruence.
Qed.

Lemma reachable_inv w0 c :
  (∀ bucket, canonical (stored w0 bucket)) → rtc step (w0, []) c → inv c.
Proof.
  intros Hcan Hreach. assert (inv (w0, [])) as Hinit by by split.
  induction Hreach as [|c1 c2 c3 Hstep _ IH]; [done|]. apply IH. by apply (step_ok c1 c2 Hstep).
Qed.
End interleaving.

(** C1: concurrent member updates are atomic. Let the stored policy of every
    bucket be canonical at the start (no nil binding, one binding per role, no
    member twice in one), and let any number of BucketPolicyMember handlers (Create to bind, Delete to
    unbind) run on one policy server, their calls interleaved in any order.
    Every step of the system either leaves what the policies grant as it is, or
    is exactly the effect of one handler's operation on the grants of that
    moment, so no handler undoes another's update; and at the step where a
    handler finishes without error its grant is there (for a Delete, gone). *)
Theorem member_updates_are_atomic `{Libs} {W : Type} `{!IamServer storagePolicy W} (w0 : W) c c'
    (Hcan : ∀ bucket, canonical (stored w0 bucket))
    (Hreach : rtc step (w0, []) c) (Hstep : step c c') :
  ((∀ b r m, granted c'.1 b r m ↔ granted c.1 b r m) ∨
   ∃ t, t ∈ c.2 ∧ ∀ b r m, granted c'.1 b r m ↔ effect t.(th_op) t.(th_cr).(ForProvider) (granted c.1) b r m) ∧
  (∀ j t t', c.2 !! j = Some t → c'.2 !! j = Some t' → t.(th_prog) ≠ Done None → t'.(th_prog) = Done None →
     established t'.(th_op) t'.(th_cr).(ForProvider) c'.1).
Proof. apply (step_ok c c' Hstep), (reachable_inv w0 c Hcan Hreach). Qed.

(** C40: where a role has two bindings, say an unconditional and a conditional
    one, Delete removes the member from the first one only: when it returns
    without error and the second one lists the member, the member still has the
    role. *)
Theorem delete_leaves_second_binding `{Libs} {W : Type} `{!IamServer storagePolicy W} cr (w w' : W) mg pre b mid c post
    (Hnil : no_nil (stored w (StringValue cr.(ForProvider).(bpm_Bucket))).(sp_Bindings))
    (Hbs : derefs (stored w (StringValue cr.(ForProvider).(bpm_Bucket))).(sp_Bindings) = pre ++ b :: mid ++ c :: post)
    (Hpre : Forall (λ b, b.(ab_Role) ≠ cr.(ForProvider).(bpm_Role)) pre)
    (Hb : b.(ab_Role) = cr.(ForProvider).(bpm_Role))
    (Hc : binds cr.(ForProvider).(bpm_Role) (StringValue cr.(ForProvider).(bpm_Member)) c)
    (Hrun : run serve (Delete (Some cr)) w = Returns (None, mg, w')) :
  granted w' (StringValue cr.(ForProvider).(bpm_Bucket)) cr.(ForProvider).(bpm_Role) (StringValue cr.(ForProvider).(bpm_Member)).
Proof.
  revert Hrun. simpl. pose proof (serve_get w (StringValue cr.(ForProvider).(bpm_Bucket)) PolicyVersion) as Hget.
  destruct (serve _ _ w) as [[p|e] w1]; destruct Hget as [-> Hr]; simpl; [|by rewrite errors_Wrap_some].
  rewrite (Hr p eq_refl), UnbindRoleFromMember_unbound by done. simpl.
  assert (∀ l, Exists (binds cr.(ForProvider).(bpm_Role) (StringValue cr.(ForProvider).(bpm_Member))) (pre ++ l :: mid ++ c :: post)) as Hex.
  { intros l. rewrite Exists_app, Exists_cons, Exists_app, Exists_cons. auto. }
  rewrite (unbound_some _ _ pre b (mid ++ c :: post)) by done. case_decide; simpl.
  - destruct (serve _ _ w) as [[p'|e] w1] eqn:Hset; simpl; [|by rewrite errors_Wrap_some]. intros [= _ <-].
    apply serve_set in Hset as (_ & -> & _ & _ & Hgr & _). apply Hgr. unfold grants_in. simpl. by rewrite derefs_values.
  - intros [= _ <-]. unfold granted, grants, grants_in. by rewrite Hbs.
Qed.

Definition example_cr : BucketPolicyMember := {|
  ExternalName := "member"; WasDeleted := false; ProviderConfigReference := None; ProviderReference := None;
  ForProvider := example_member "viewer" "user:a"; AtProvider := (); Conditions := [] |}.

Lemma empty_server_canonical bucket : canonical (@stored _ _ _ storage_memory ∅ bucket).
Proof. split_and!; simpl; unfold memory_stored; rewrite lookup_empty; constructor. Qed.

(** The policy of a bucket with a role bound twice. *)
Definition twice_bound : storagePolicy := {| zero_storagePolicy with
  sp_Bindings := Some (Some <$> [
    {| ab_Condition := None; ab_Members := Some ["user:a"]; ab_Role := "viewer"; ab_rest := ∅ |};
    {| ab_Condition := Some {| ae_Description := ""; ae_Expression := "request.time < t"; ae_Location := "";
         ae_Title := "until t"; ae_rest := ∅ |};
       ab_Members := Some ["user:a"]; ab_Role := "viewer"; ab_rest := ∅ |}]) |}.

Lemma delete_leaves_second_binding_witness :
  let _ := reference_libs in let _ := storage_memory in
  ∃ w', granted w' "bucket" "viewer" "user:a" ∧
    run serve (Delete (Some example_cr)) {["bucket" := (0, twice_bound)]} = Returns (None, Some example_cr, w').
Proof.
  intros libs server.
  assert (∃ w', run serve (Delete (Some example_cr)) {["bucket" := (0, twice_bound)]} = Returns (None, Some example_cr, w'))
    as [w' Hrun] by (eexists; vm_compute; reflexivity).
  exists w'. split; [|exact Hrun].
  eapply (@delete_leaves_second_binding libs _ server example_cr _ w' _ [] _ [] _ []); [..|exact Hrun]; try reflexivity.
  - apply no_nil_Some.
  - constructor.
  - split; [reflexivity|]. apply list_elem_of_here.
Defined.

Lemma member_updates_are_atomic_witness :
  let _ := reference_libs in let _ := storage_memory in
  ∃ c : gmap string (nat * storagePolicy) * list thread,
    rtc step (∅, []) c ∧ established OpBind example_cr.(ForProvider) c.1.
Proof.
  intros libs server.
  set (c0 := (∅ : gmap string (nat * storagePolicy), @nil thread)).
  assert (∃ c1, rtc step c0 c1 ∧ ∃ c2, step c1 c2 ∧ ∃ t t', c1.2 !! 0 = Some t ∧ c2.2 !! 0 = Some t' ∧
    t.(th_prog) ≠ Done None ∧ t'.(th_prog) = Done None ∧ t'.(th_op) = OpBind ∧ t'.(th_cr) = example_cr)
    as (c1 & Hreach & c2 & Hstep & t & t' & Ht & Ht' & Hp & Hp' & Ho & Hcr).
  { eexists. split.
    { eapply rtc_l; [apply (Step_start ∅ [] OpBind example_cr)|].
      eapply rtc_l; [eapply (Step_call _ _ 0); [reflexivity|reflexivity|reflexivity]|]. apply rtc_refl. }
    eexists. split; [eapply (Step_call _ _ 0); [reflexivity|reflexivity|reflexivity]|].
    eexists _, _. by split_and!. }
  exists c2. split; [by eapply rtc_r|].
  destruct (@member_updates_are_atomic libs _ server ∅ c1 c2 empty_server_canonical Hreach Hstep) as [_ Hfin].
  specialize (Hfin 0 t t' Ht Ht' Hp Hp'). by rewrite Ho, Hcr in Hfin.
Defined.

Lemma bucket_policy_member_errors_witness :
  errors_given policy_answers (policy_fails false) (@Create reference_libs (Some example_cr)).
Proof. apply (@bucket_policy_member_errors reference_libs). Defined.
