(* ===== verification/CryptoKeyPolicy.v ===== *)
(** * Policies of crypto keys

    pkg/clients/cryptokeypolicy/cryptokeypolicy.go and
    pkg/controller/kms/cryptokeypolicy.go. *)

From S2P Require Import Prelude GoSort GoStrings Libs Contract Gcp Nested IamPolicy PolicyController.

(** ** Types *)

Record CryptoKeyPolicyParameters := {
  ckp_CryptoKey : ptr string;
  ckp_CryptoKeyRef : ptr Reference;
  ckp_CryptoKeySelector : ptr Selector;
  ckp_Policy : Policy
}.

Definition CryptoKeyPolicy : Type := Managed CryptoKeyPolicyParameters unit.

(** ** The client *)

Definition errUpToDate : string := "unable to determine if external resource is up to date".

Definition GenerateCryptoKeyPolicyInstance (i : CryptoKeyPolicyParameters) (p : iamPolicy) : outcome iamPolicy :=
  bindings ← generate_bindings i.(ckp_Policy);
  audits ← generate_audits i.(ckp_Policy);
  Returns {| p with ip_Bindings := bindings; ip_AuditConfigs := audits; ip_Version := PolicyVersion |}.

Section client.
Context `{Libs}.

Definition ArePoliciesSame (p1 p2 : iamPolicy) : outcome bool :=
  if sorts_nil p1.(ip_Bindings) || sorts_nil p2.(ip_Bindings) then Panics
  else Returns (cmp_Equal (same_view view_iamPolicy) p1 p2).

Definition IsUpToDate (i : CryptoKeyPolicyParameters) (observed : iamPolicy)
  : outcome (bool * option error) :=
  match copystructure_Copy observed with
  | CopyFails err => Returns (true, errors_Wrap (Some err) errUpToDate)
  | CopyOtherType => Returns (true, errors_New errUpToDate)
  | Copied desired =>
    desired ← GenerateCryptoKeyPolicyInstance i desired;
    same ← ArePoliciesSame desired observed;
    Returns (same, None)
  end.
End client.

Definition IsEmpty (i : iamPolicy) : bool :=
  bool_decide (i.(ip_Bindings) = None) && bool_decide (i.(ip_AuditConfigs) = None).

(** ** The controller *)

Definition errNotCryptoKeyPolicy : string := "managed resource is not a GCP CryptoKeyPolicy".
Definition errCheckUpToDate : string := "cannot determine if CryptoKey instance is up to date".
Definition errGetPolicy : string := "cannot get policy of CryptoKey".
Definition errSetPolicy : string := "cannot set policy of CryptoKey".

Section controller.
Context `{Libs}.

Definition Observe (mg : option CryptoKeyPolicy)
  : prog (PolicyE iamPolicy) (ExternalObservation * option error * option CryptoKeyPolicy) :=
  match mg with
  | None => mret (no_observation, errors_New errNotCryptoKeyPolicy, None)
  | Some cr =>
    r ← call (GetIamPolicy (StringValue cr.(ForProvider).(ckp_CryptoKey)) PolicyVersion);
    match r with
    | inr err =>
      mret (no_observation, errors_Wrap (resource_Ignore IsErrorNotFound (Some err)) errGetPolicy, Some cr)
    | inl instance =>
      if IsEmpty instance then mret (no_observation, None, Some cr)
      else
        up ← lift (IsUpToDate cr.(ForProvider) instance);
        match up with
        | (_, Some err) => mret (no_observation, errors_Wrap (Some err) errCheckUpToDate, Some cr)
        | (false, None) => mret ({| no_observation with ResourceExists := true |}, None, Some cr)
        | (true, None) =>
          mret ({| no_observation with ResourceExists := true; ResourceUpToDate := true |},
                None, Some (set_condition Available cr))
        end
    end
  end.

Definition Create (mg : option CryptoKeyPolicy)
  : prog (PolicyE iamPolicy) (ExternalCreation * option error * option CryptoKeyPolicy) :=
  match mg with
  | None => mret (no_creation, errors_New errNotCryptoKeyPolicy, None)
  | Some cr =>
    let cr := set_condition Creating cr in
    instance ← lift (GenerateCryptoKeyPolicyInstance cr.(ForProvider) zero_iamPolicy);
    r ← call (SetIamPolicy (StringValue cr.(ForProvider).(ckp_CryptoKey)) instance);
    match r with
    | inr err => mret (no_creation, errors_Wrap (Some err) errSetPolicy, Some cr)
    | inl _ => mret (no_creation, None, Some cr)
    end
  end.

Definition Update (mg : option CryptoKeyPolicy)
  : prog (PolicyE iamPolicy) (option error * option CryptoKeyPolicy) :=
  match mg with
  | None => mret (errors_New errNotCryptoKeyPolicy, None)
  | Some cr =>
    r ← call (GetIamPolicy (StringValue cr.(ForProvider).(ckp_CryptoKey)) PolicyVersion);
    match r with
    | inr err => mret (errors_Wrap (Some err) errGetPolicy, Some cr)
    | inl instance =>
      up ← lift (IsUpToDate cr.(ForProvider) instance);
      match up with
      | (_, Some err) => mret (errors_Wrap (Some err) errCheckUpToDate, Some cr)
      | (true, None) => mret (None, Some cr)
      | (false, None) =>
        instance ← lift (GenerateCryptoKeyPolicyInstance cr.(ForProvider) instance);
        s ← call (SetIamPolicy (StringValue cr.(ForProvider).(ckp_CryptoKey)) instance);
        match s with
        | inr err => mret (errors_Wrap (Some err) errSetPolicy, Some cr)
        | inl _ => mret (None, Some cr)
        end
      end
    end
  end.

Definition Delete (mg : option CryptoKeyPolicy)
  : prog (PolicyE iamPolicy) (option error * option CryptoKeyPolicy) :=
  match mg with
  | None => mret (errors_New errNotCryptoKeyPolicy, None)
  | Some cr =>
    r ← call (SetIamPolicy (StringValue cr.(ForProvider).(ckp_CryptoKey)) zero_iamPolicy);
    match r with
    | inr err => mret (errors_Wrap (Some err) errSetPolicy, Some cr)
    | inl _ => mret (None, Some cr)
    end
  end.
End controller.

(** ** Lemmas *)

Definition no_nils (i : CryptoKeyPolicyParameters) : Prop := no_nil i.(ckp_Policy).(Bindings) ∧ audits_no_nil i.(ckp_Policy).
Definition generated (i : CryptoKeyPolicyParameters) (p : iamPolicy) : iamPolicy :=
  {| p with ip_Bindings := bindings_generated i.(ckp_Policy); ip_AuditConfigs := audits_generated i.(ckp_Policy);
            ip_Version := PolicyVersion |}.

Lemma crypto_key_policy_Generate_returns i p q :
  GenerateCryptoKeyPolicyInstance i p = Returns q ↔ no_nils i ∧ q = generated i p.
Proof.
  unfold GenerateCryptoKeyPolicyInstance, no_nils. split.
  - destruct (generate_bindings _) as [bs|] eqn:Hb; simpl; [|done].
    destruct (generate_audits _) as [l|] eqn:Ha; simpl; [|done]. intros [= <-].
    by apply generate_bindings_returns in Hb as [? ->]; apply generate_audits_returns in Ha as [? ->].
  - intros [[Hb Ha] ->]. rewrite (proj2 (generate_bindings_returns _ _) (conj Hb eq_refl)).
    simpl. by rewrite (proj2 (generate_audits_returns _ _) (conj Ha eq_refl)).
Qed.

Lemma crypto_key_policy_IsUpToDate_spec `{Libs} `{!CopySucceeds} i observed :
  no_nils i →
  IsUpToDate i observed =
    if sorts_nil observed.(ip_Bindings) then Panics
    else Returns (bool_decide (view_bindings (bindings_generated i.(ckp_Policy)) = view_bindings observed.(ip_Bindings) ∧
                  view_audits (audits_generated i.(ckp_Policy)) = view_audits observed.(ip_AuditConfigs)), None).
Proof.
  intros Hi. unfold IsUpToDate. rewrite copy_succeeds, (proj2 (crypto_key_policy_Generate_returns _ _ _) (conj Hi eq_refl)).
  unfold ArePoliciesSame. simpl. rewrite (sorts_nil_false (bindings_generated _)) by apply no_nil_Some. simpl.
  destruct (sorts_nil _); [done|]. simpl. do 2 f_equal. apply eq_bool_prop_intro.
  rewrite Is_true_true, bool_decide_spec, cmp_Equal_spec. unfold same_view, view_iamPolicy. simpl.
  split; [by intros [= Ha Hb]|by intros [-> ->]].
Qed.

#[global] Instance crypto_key_policy_client `{Libs} : PolicyClient CryptoKeyPolicyParameters iamPolicy.
Proof.
  refine {| pc_resource i := StringValue i.(ckp_CryptoKey);
    pc_bindings i := bindings_generated i.(ckp_Policy);
    pc_audits i := audits_generated i.(ckp_Policy);
    pc_no_nil := no_nils;
    pc_zero := zero_iamPolicy;
    pc_Generate := GenerateCryptoKeyPolicyInstance;
    pc_IsUpToDate := IsUpToDate;
    pc_IsEmpty := IsEmpty |}; try done.
  - intros i. apply no_nil_Some.
  - intros i p Hi. eexists. by apply crypto_key_policy_Generate_returns.
  - by intros i p q [Hi ->]%crypto_key_policy_Generate_returns.
  - intros Hcopy i p. apply crypto_key_policy_IsUpToDate_spec.
  - intros Hcopy i p r. unfold IsUpToDate. rewrite copy_succeeds.
    destruct (GenerateCryptoKeyPolicyInstance i p) as [q|] eqn:Hq; [|done]. intros _.
    by apply crypto_key_policy_Generate_returns in Hq as [Hi _].
  - intros p Hne. apply andb_false_iff. left. by apply bool_decide_eq_false_2.
Defined.

Definition crypto_key_policy_messages : PolicyMessages := {|
  msg_kind := errNotCryptoKeyPolicy; msg_upToDate := errCheckUpToDate;
  msg_get := errGetPolicy; msg_set := errSetPolicy |}.

(** ** Properties *)

(** Where no pointer of the spec and no binding that is read is nil, the handlers
    of the CryptoKeyPolicy controller never panic; each returns an error exactly
    when one of its API calls failed, where for Observe a policy that is not found
    is no failure, and none calls the API again after a failure. Observe only
    reads, and what it reports is consistent. *)
Theorem crypto_key_policy_controller_errors `{Libs} `{!CopySucceeds} cr (Hcr : no_nils cr.(ForProvider)) :
  policy_errors_contract (Observe (Some cr)) (Create (Some cr)) (Update (Some cr)) (Delete (Some cr)).
Proof. exact (policy_handlers_errors crypto_key_policy_messages cr Hcr). Qed.

(** A CryptoKeyPolicy that asks for at least one binding, each with members,
    converges on every policy server: once Create or Update returned without
    error, an Observe that is answered finds bindings and audit configuration up
    to date, makes the resource Available and leaves the server as it is. *)
Theorem crypto_key_policy_converges `{Libs} `{!CopySucceeds} {W : Type} `{!IamServer iamPolicy W}
    cr w w' p
    (Hsub : substantial cr.(ForProvider))
    (Hwritten : (∃ o cr', run serve (Create (Some cr)) w = Returns (o, None, cr', w')) ∨
                (∃ cr', run serve (Update (Some cr)) w = Returns (None, cr', w')))
    (Hread : (serve _ (GetIamPolicy (StringValue cr.(ForProvider).(ckp_CryptoKey)) PolicyVersion) w').1 = inl p) :
  ∃ cr', run serve (Observe (Some cr)) w' =
    Returns ({| no_observation with ResourceExists := true; ResourceUpToDate := true |}, None, Some cr', w') ∧
  ready cr'.(Conditions) = Some Available.
Proof. exact (policy_handlers_converge crypto_key_policy_messages cr w w' p Hsub Hwritten Hread). Qed.

Definition example_crypto_key_policy : CryptoKeyPolicy := {|
  ExternalName := "policy"; WasDeleted := false; ProviderConfigReference := None; ProviderReference := None;
  ForProvider := {| ckp_CryptoKey := Some "projects/p/locations/l/keyRings/r/cryptoKeys/k";
    ckp_CryptoKeyRef := None; ckp_CryptoKeySelector := None;
    ckp_Policy := {| AuditConfigs := Some
      [Some {| AuditLogConfigs := Some [Some {| ExemptedMembers := Some ["user:b"]; LogType := "DATA_READ" |}];
          Service := "allServices" |}];
      Bindings := Some
      [Some {| Condition := None; Members := Some ["user:a"]; ServiceAccountMemberRefs := None;
          ServiceAccountMemberSelector := None; Role := "admin" |}] |} |};
  AtProvider := (); Conditions := [] |}.

Lemma crypto_key_policy_controller_errors_witness :
  @errors_given _ _ _ policy_answers (policy_fails false) (@Update reference_libs (Some example_crypto_key_policy)).
Proof.
  apply (@crypto_key_policy_controller_errors reference_libs reference_copy example_crypto_key_policy).
  split; [|split]; apply (bool_decide_unpack _); by vm_compute.
Defined.

Lemma crypto_key_policy_converges_witness :
  let _ := reference_libs in let _ := iam_memory in
  ∃ w cr', run serve (Observe (Some example_crypto_key_policy)) w =
    Returns ({| no_observation with ResourceExists := true; ResourceUpToDate := true |}, None, Some cr', w) ∧
  ready cr'.(Conditions) = Some Available.
Proof.
  intros libs server.
  eexists. eapply (@crypto_key_policy_converges libs reference_copy _ server example_crypto_key_policy ∅).
  - split; [done|]. split; apply (bool_decide_unpack _); by vm_compute.
  - left. eexists _, _. reflexivity.
  - reflexivity.
Defined.
