(* ===== verification/ServiceAccount.v ===== *)
(** * IAM service accounts

    apis/iam/v1alpha1/serviceaccount_types.go and
    pkg/controller/iam/serviceaccount.go. *)

From S2P Require Import Prelude GoStrings Libs Contract Gcp.

(** ** Types *)

Record ServiceAccountParameters := { sa_DisplayName : ptr string; sa_Description : ptr string }.
#[global] Instance ServiceAccountParameters_eq_dec : EqDecision ServiceAccountParameters.
Proof. solve_decision. Defined.

Record ServiceAccountObservation := {
  sao_Name : string;
  sao_ProjectID : string;
  sao_UniqueID : string;
  sao_Email : string;
  sao_Oauth2ClientID : string;
  sao_Disabled : bool
}.

Definition ServiceAccount : Type := Managed ServiceAccountParameters ServiceAccountObservation.

(** iam.ServiceAccount, CreateServiceAccountRequest and
    PatchServiceAccountRequest. *)
Record apiServiceAccount := {
  asa_Description : string;
  asa_Disabled : bool;
  asa_DisplayName : string;
  asa_Email : string;
  asa_Name : string;
  asa_Oauth2ClientId : string;
  asa_UniqueId : string;
  asa_rest : rest
}.
Definition zero_serviceaccount : apiServiceAccount := {|
  asa_Description := ""; asa_Disabled := false; asa_DisplayName := ""; asa_Email := ""; asa_Name := "";
  asa_Oauth2ClientId := ""; asa_UniqueId := ""; asa_rest := ∅ |}.
Record CreateServiceAccountRequest := { csar_AccountId : string; csar_ServiceAccount : apiServiceAccount }.
Record PatchServiceAccountRequest := { psar_ServiceAccount : apiServiceAccount; psar_UpdateMask : string }.

(** ** The controller *)

Definition errNewClient : string := "cannot create new GCP IAM API client".
Definition errNotServiceAccount : string := "managed resource is not a GCP ServiceAccount".
Definition errGet : string := "cannot get GCP ServiceAccount object via IAM API".
Definition errCreate : string := "cannot create GCP ServiceAccount object via IAM API".
Definition errUpdate : string := "cannot update GCP ServiceAccount object via IAM API".
Definition errDelete : string := "cannot delete GCP ServiceAccount object via IAM API".

Inductive ServiceAccountE : Type → Type :=
| ServiceAccountsGet (name : string) : ServiceAccountE (apiServiceAccount + error)
| ServiceAccountsCreate (name : string) (csar : CreateServiceAccountRequest) : ServiceAccountE (apiServiceAccount + error)
| ServiceAccountsPatch (name : string) (psar : PatchServiceAccountRequest) : ServiceAccountE (option error)
| ServiceAccountsDelete (name : string) : ServiceAccountE (option error).

Record RelativeResourceNamer := { projectName : string }.
Definition NewRelativeResourceNamer (projectName : string) : RelativeResourceNamer :=
  {| projectName := projectName |}.
Definition ProjectName (rrn : RelativeResourceNamer) : string := String.append "projects/" rrn.(projectName).
Definition ResourceName (rrn : RelativeResourceNamer) (sa : ServiceAccount) : string :=
  String.append "projects/" (String.append rrn.(projectName) (String.append "/serviceAccounts/"
    (String.append sa.(ExternalName) (String.append "@" (String.append rrn.(projectName) ".iam.gserviceaccount.com"))))).

Definition isUpToDate (i : ServiceAccountParameters) (observed : apiServiceAccount) : bool :=
  if match i.(sa_DisplayName) with Some n => negb (bool_decide (n = observed.(asa_DisplayName))) | None => false end
  then false
  else if match i.(sa_Description) with Some d => negb (bool_decide (d = observed.(asa_Description))) | None => false end
  then false
  else true.

Definition populateCRFromProvider (cr : ServiceAccount) (fromProvider : apiServiceAccount) : ServiceAccount :=
  {| cr with AtProvider := {| cr.(AtProvider) with
       sao_UniqueID := fromProvider.(asa_UniqueId);
       sao_Email := fromProvider.(asa_Email);
       sao_Oauth2ClientID := fromProvider.(asa_Oauth2ClientId);
       sao_Disabled := fromProvider.(asa_Disabled);
       sao_Name := fromProvider.(asa_Name) |} |}.

Definition populateProviderFromCR (forProvider : apiServiceAccount) (cr : ServiceAccount) : apiServiceAccount :=
  {| forProvider with
     asa_DisplayName := StringValue cr.(ForProvider).(sa_DisplayName);
     asa_Description := StringValue cr.(ForProvider).(sa_Description) |}.

Section controller.
Context `{Libs}.
Variable rrn : RelativeResourceNamer.

Definition Observe (mg : option ServiceAccount)
  : prog ServiceAccountE (ExternalObservation * option error * option ServiceAccount) :=
  match mg with
  | None => mret (no_observation, errors_New errNotServiceAccount, None)
  | Some cr =>
    r ← call (ServiceAccountsGet (ResourceName rrn cr));
    match r with
    | inr err =>
      if IsErrorNotFound (Some err) then mret (no_observation, None, Some cr)
      else mret (no_observation, errors_Wrap (Some err) errGet, Some cr)
    | inl fromProvider =>
      let cr := populateCRFromProvider cr fromProvider in
      let cr := if bool_decide (fromProvider.(asa_Email) ≠ "") then set_condition Available cr else cr in
      mret ({| ResourceExists := true;
               ResourceUpToDate := isUpToDate cr.(ForProvider) fromProvider;
               ResourceLateInitialized := false;
               ConnectionDetails := Some ∅ |}, None, Some cr)
    end
  end.

Definition Create (mg : option ServiceAccount)
  : prog ServiceAccountE (ExternalCreation * option error * option ServiceAccount) :=
  match mg with
  | None => mret (no_creation, errors_New errNotServiceAccount, None)
  | Some cr =>
    let csar := {| csar_AccountId := cr.(ExternalName);
      csar_ServiceAccount := {| zero_serviceaccount with
        asa_DisplayName := StringValue cr.(ForProvider).(sa_DisplayName);
        asa_Description := StringValue cr.(ForProvider).(sa_Description) |} |} in
    r ← call (ServiceAccountsCreate (ProjectName rrn) csar);
    match r with
    | inr err => mret (no_creation, errors_Wrap (Some err) errCreate, Some cr)
    | inl fromProvider => mret (no_creation, errors_Wrap None errCreate, Some (populateCRFromProvider cr fromProvider))
    end
  end.

Definition Update (mg : option ServiceAccount) : prog ServiceAccountE (option error * option ServiceAccount) :=
  match mg with
  | None => mret (errors_New errNotServiceAccount, None)
  | Some cr =>
    let sa := populateProviderFromCR zero_serviceaccount cr in
    let psar := {| psar_ServiceAccount := sa; psar_UpdateMask := "description,displayName" |} in
    err ← call (ServiceAccountsPatch (ResourceName rrn cr) psar);
    mret (errors_Wrap err errUpdate, Some cr)
  end.

Definition Delete (mg : option ServiceAccount) : prog ServiceAccountE (option error * option ServiceAccount) :=
  match mg with
  | None => mret (errors_New errNotServiceAccount, None)
  | Some cr =>
    err ← call (ServiceAccountsDelete (ResourceName rrn cr));
    if IsErrorNotFound err then mret (None, Some cr)
    else mret (errors_Wrap err errDelete, Some cr)
  end.
End controller.

(** ** The service *)

(** What the documentation of the IAM API says of a service [serve] with a state
    [W], of which [account_of] is the account last written under a name: a successful create writes an account with the display
    name and description of the request and an email address; a successful patch gives the
    fields in its mask the values of the request, and there is none of an account that does not exist; a read
    writes nothing. Reads are eventually consistent: nothing is said of what a read
    answers, which may be that there is no account, or an older version of it. *)
Class ServiceAccountAPI {W : Type} (serve : ∀ X, ServiceAccountE X → W → X * W)
    (account_of : W → string → option apiServiceAccount) := {
  account_created : ∀ rrn cr csar w sa w',
    csar.(csar_AccountId) = cr.(ExternalName) →
    serve _ (ServiceAccountsCreate (ProjectName rrn) csar) w = (inl sa, w') →
    ∃ sa', account_of w' (ResourceName rrn cr) = Some sa' ∧
      sa'.(asa_DisplayName) = csar.(csar_ServiceAccount).(asa_DisplayName) ∧
      sa'.(asa_Description) = csar.(csar_ServiceAccount).(asa_Description) ∧
      sa'.(asa_Email) ≠ "";
  account_patched : ∀ name psar w w',
    serve _ (ServiceAccountsPatch name psar) w = (None, w') →
    ∃ sa sa', account_of w name = Some sa ∧ account_of w' name = Some sa' ∧
      sa'.(asa_DisplayName) = (if masked psar.(psar_UpdateMask) "displayName"
        then psar.(psar_ServiceAccount) else sa).(asa_DisplayName) ∧
      sa'.(asa_Description) = (if masked psar.(psar_UpdateMask) "description"
        then psar.(psar_ServiceAccount) else sa).(asa_Description) ∧
      sa'.(asa_Email) = sa.(asa_Email);
  account_read : ∀ name w r w',
    serve _ (ServiceAccountsGet name) w = (r, w') → ∀ n, account_of w' n = account_of w n
}.

(** A service that keeps accounts in a list of names, and answers so many reads
    after a write as if there were no account. *)
Definition accounts : Type := list (string * apiServiceAccount).
Fixpoint find_account (name : string) (w : accounts) : option apiServiceAccount :=
  match w with
  | [] => None
  | (n, sa) :: w' => if bool_decide (n = name) then Some sa else find_account name w'
  end.
Definition not_found : error := GoogleAPIError StatusNotFound "not found".
Definition memory_accounts (X : Type) (e : ServiceAccountE X) : accounts * nat → X * (accounts * nat) :=
  match e with
  | ServiceAccountsGet name => λ '(w, lag),
    match lag with
    | S lag => (inr not_found, (w, lag))
    | O => (match find_account name w with Some sa => inl sa | None => inr not_found end, (w, O))
    end
  | ServiceAccountsCreate project csar => λ '(w, lag),
    let email := String.append csar.(csar_AccountId) (String.append "@"
      (String.append (TrimPrefix project "projects/") ".iam.gserviceaccount.com")) in
    let name := String.append project (String.append "/serviceAccounts/" email) in
    let sa := {| (csar.(csar_ServiceAccount)) with asa_Email := email; asa_Name := name |} in
    match find_account name w with
    | Some _ => (inr (GoogleAPIError StatusConflict "exists"), (w, lag))
    | None => (inl sa, ((name, sa) :: w, 1%nat))
    end
  | ServiceAccountsPatch name psar => λ '(w, lag),
    match find_account name w with
    | None => (Some not_found, (w, lag))
    | Some sa =>
      let pick (path : string) := if masked psar.(psar_UpdateMask) path then psar.(psar_ServiceAccount) else sa in
      (None, ((name, {| sa with asa_DisplayName := asa_DisplayName (pick "displayName");
                          asa_Description := asa_Description (pick "description") |}) :: w, 1%nat))
    end
  | ServiceAccountsDelete name => λ '(w, lag),
    (match find_account name w with Some _ => None | None => Some not_found end, (filter (λ a, a.1 ≠ name) w, lag))
  end.

Lemma find_account_head name sa w : find_account name ((name, sa) :: w) = Some sa.
Proof. simpl. by rewrite bool_decide_eq_true_2. Qed.
Lemma append_nonempty_r s t : t ≠ "" → String.append s t ≠ "".
Proof. by destruct s. Qed.

Definition memory_account_of (w : accounts * nat) (name : string) : option apiServiceAccount := find_account name w.1.
#[global] Instance memory_accounts_api : ServiceAccountAPI memory_accounts memory_account_of.
Proof.
  split.
  - intros rrn cr csar [w lag] sa w' Hid. cbn [memory_accounts].
    unfold ProjectName. rewrite TrimPrefix_app, Hid.
    set (email := String.append _ (String.append "@" _)).
    change (String.append (String.append "projects/" (projectName rrn)) (String.append "/serviceAccounts/" email))
      with (ResourceName rrn cr).
    destruct (find_account (ResourceName rrn cr) w) eqn:Hw; [done|]. intros [= _ <-]. unfold memory_account_of.
    cbn [fst]. rewrite find_account_head. eexists; split; [done|]. simpl. split_and!; [done..|].
    unfold email. by apply append_nonempty_r.
  - intros name psar [w lag] w'. cbn [memory_accounts]. unfold memory_account_of. cbn [fst].
    destruct (find_account name w) as [sa|] eqn:Hw; [|done]. intros [= <-].
    cbn [fst]. rewrite find_account_head. eexists _, _. by split.
  - intros name [w [|lag]] r w'; cbn [memory_accounts]; by intros [= _ <-].
Qed.

(** ** Properties *)

Definition service_account_fails (X : Type) (e : ServiceAccountE X) : X → bool :=
  match e with
  | ServiceAccountsGet _ => read_fails IsErrorNotFound
  | ServiceAccountsCreate _ _ => read_fails no_excuse
  | ServiceAccountsPatch _ _ => write_fails no_excuse
  | ServiceAccountsDelete _ => write_fails IsErrorNotFound
  end.

(** Every field the user set has the observed value. *)
Lemma service_account_isUpToDate_spec i o :
  isUpToDate i o = true ↔ agrees i.(sa_DisplayName) o.(asa_DisplayName) ∧ agrees i.(sa_Description) o.(asa_Description).
Proof. unfold isUpToDate, agrees. destruct i as [[n|] [d|]]; simpl; repeat case_bool_decide; naive_solver. Qed.

Lemma isUpToDate_values i o :
  o.(asa_DisplayName) = StringValue i.(sa_DisplayName) → o.(asa_Description) = StringValue i.(sa_Description) →
  isUpToDate i o = true.
Proof. intros H1 H2. apply service_account_isUpToDate_spec. rewrite H1, H2. by destruct i as [[] []]. Qed.

(** The handlers of the ServiceAccount controller never panic and return an
    error exactly when a call failed, where NotFound is no failure of Get or
    Delete. What Observe reports agrees with the API: an account that was found is
    up to date exactly when it has every field the user set. *)
Theorem service_account_controller `{Libs} rrn cr :
  errors_iff service_account_fails (Observe rrn (Some cr)) ∧
  errors_iff service_account_fails (Create rrn (Some cr)) ∧
  errors_iff service_account_fails (Update rrn (Some cr)) ∧
  errors_iff service_account_fails (Delete rrn (Some cr)) ∧
  (∀ i o, isUpToDate i o = true ↔
     agrees i.(sa_DisplayName) o.(asa_DisplayName) ∧ agrees i.(sa_Description) o.(asa_Description)).
Proof.
  unfold errors_iff, errors_given. split_and!; [..|apply service_account_isUpToDate_spec]; simpl; walk.
  all: unfold IsErrorNotFound in *; naive_solver.
Qed.

Lemma service_account_controller_witness :
  errors_iff service_account_fails (@Observe reference_libs (NewRelativeResourceNamer "p")
    (Some (fresh "a" {| sa_DisplayName := Some "n"; sa_Description := None |}
       {| sao_Name := ""; sao_ProjectID := ""; sao_UniqueID := ""; sao_Email := ""; sao_Oauth2ClientID := "";
          sao_Disabled := false |}))).
Proof. apply (@service_account_controller reference_libs). Defined.

(** ** Convergence *)

(** A read of the account would be answered with what was written last. *)
Definition reads_last {W : Type} (serve : ∀ X, ServiceAccountE X → W → X * W)
    (account_of : W → string → option apiServiceAccount) (w : W) (name : string) : Prop :=
  ∃ sa, (serve _ (ServiceAccountsGet name) w).1 = inl sa ∧ account_of w name = Some sa.
Definition finds_up_to_date `{Libs} {W : Type} (serve : ∀ X, ServiceAccountE X → W → X * W) rrn
    (cr : ServiceAccount) (w : W) (available : bool) : Prop :=
  ∃ o cr' w', run serve (Observe rrn (Some cr)) w = Returns (o, None, Some cr', w') ∧
    o.(ResourceExists) = true ∧ o.(ResourceUpToDate) = true ∧
    (available = true → ready cr'.(Conditions) = Some Available).

(** An Observe that reads an account with the values of the spec. *)
Lemma observes_last `{Libs} {W : Type} (serve : ∀ X, ServiceAccountE X → W → X * W) account_of rrn cr w sa :
  reads_last serve account_of w (ResourceName rrn cr) → account_of w (ResourceName rrn cr) = Some sa →
  sa.(asa_DisplayName) = StringValue cr.(ForProvider).(sa_DisplayName) →
  sa.(asa_Description) = StringValue cr.(ForProvider).(sa_Description) →
  finds_up_to_date serve rrn cr w (bool_decide (sa.(asa_Email) ≠ "")).
Proof.
  intros (sa' & Hget & Hlast) Hsa Hn Hd. rewrite Hsa in Hlast. injection Hlast as <-. unfold finds_up_to_date. simpl.
  destruct (serve _ (ServiceAccountsGet _) w) as [r w2]. simpl in Hget. subst r. simpl.
  do 3 eexists. split; [done|]. split_and!; [done|..].
  - simpl. by case_bool_decide; apply isUpToDate_values.
  - intros He. rewrite He. by apply set_condition_ready.
Qed.

(** C13: an account converges in one step. Against any service that behaves as
    the IAM API documents, once Create or Update has returned without an error,
    every Observe at a time when nothing else was written to the account, and of which
    the read is answered with what was written last, reports that the account exists
    and is up to date; after Create the resource is Available. An Observe writes
    nothing itself, whatever its read is answered with. *)
Theorem service_account_converges `{Libs} {W : Type} (serve : ∀ X, ServiceAccountE X → W → X * W)
    (account_of : W → string → option apiServiceAccount) `{!ServiceAccountAPI serve account_of} rrn cr w :
  (∀ o cr' w', run serve (Create rrn (Some cr)) w = Returns (o, None, Some cr', w') →
     ∀ w2, account_of w2 (ResourceName rrn cr) = account_of w' (ResourceName rrn cr) →
       reads_last serve account_of w2 (ResourceName rrn cr) → finds_up_to_date serve rrn cr' w2 true) ∧
  (∀ w', run serve (Update rrn (Some cr)) w = Returns (None, Some cr, w') →
     ∀ w2, account_of w2 (ResourceName rrn cr) = account_of w' (ResourceName rrn cr) →
       reads_last serve account_of w2 (ResourceName rrn cr) → finds_up_to_date serve rrn cr w2 false) ∧
  (∀ r w', run serve (Observe rrn (Some cr)) w = Returns (r, w') → ∀ name, account_of w' name = account_of w name).
Proof.
  split_and!.
  - intros o cr' w'. simpl. set (csar := Build_CreateServiceAccountRequest _ _).
    destruct (serve _ (ServiceAccountsCreate _ csar) w) as [[sa|err] w1] eqn:Hc; simpl; autorewrite with handlers; [|done].
    intros [= <- <- <-] w2 Hkept Hlast.
    destruct (account_created rrn cr csar w sa w1) as (sa' & Hsa & Hn & Hd & He); [done..|]. rewrite Hsa in Hkept.
    replace true with (bool_decide (sa'.(asa_Email) ≠ "")) by (by apply bool_decide_eq_true_2).
    by eapply observes_last.
  - intros w'. simpl. set (psar := Build_PatchServiceAccountRequest _ _).
    destruct (serve _ (ServiceAccountsPatch _ psar) w) as [r w1] eqn:Hp. intros [= Hr <-] w2 Hkept Hlast.
    apply errors_Wrap_None in Hr. subst r.
    destruct (account_patched _ psar w w1 Hp) as (sa & sa' & _ & Hsa & Hn & Hd & _). rewrite Hsa in Hkept.
    destruct (observes_last serve account_of rrn cr w2 sa') as (o & cr' & w3 & Hrun & He & Hu & _); [done..|].
    exists o, cr', w3. by split_and!.
  - intros r w'. simpl. destruct (serve _ (ServiceAccountsGet _) w) as [got w1] eqn:Hget. intros Hrun name.
    assert (w' = w1) as -> by (destruct got; simpl in Hrun; [|destruct (IsErrorNotFound _)]; by injection Hrun).
    by eapply account_read.
Qed.

Definition example_account : ServiceAccount :=
  fresh "robot" {| sa_DisplayName := Some "Robot"; sa_Description := None |}
    {| sao_Name := ""; sao_ProjectID := ""; sao_UniqueID := ""; sao_Email := ""; sao_Oauth2ClientID := "";
       sao_Disabled := false |}.

(** The first Observe after the Create does not see the account; the second does. *)
Lemma service_account_converges_witness :
  let _ := reference_libs in
  let rrn := NewRelativeResourceNamer "p" in
  ∃ o cr' w1 cr1 w2, run memory_accounts (Create rrn (Some example_account)) ([], O) = Returns (o, None, Some cr', w1) ∧
    run memory_accounts (Observe rrn (Some cr')) w1 = Returns (no_observation, None, Some cr1, w2) ∧
    finds_up_to_date memory_accounts rrn cr' w2 true.
Proof.
  intros libs rrn. do 5 eexists. split; [by vm_compute|]. split; [by vm_compute|].
  eapply (@service_account_converges libs _ memory_accounts memory_account_of _ rrn example_account ([], O)).
  - by vm_compute.
  - by vm_compute.
  - eexists. by vm_compute.
Defined.
