(* ===== verification/ServiceAccountKey.v ===== *)
(** * IAM service account keys

    apis/iam/v1alpha1/serviceaccountkey_types.go,
    pkg/clients/serviceaccountkey/serviceaccountkey.go and
    pkg/controller/iam/serviceaccountkey.go. *)

From S2P Require Import Prelude GoStrings GoBase64 GoURL Libs Contract Gcp ServiceAccountPolicy.

(** ** Types *)

Record ServiceAccountKeyParameters := {
  sak_KeyAlgorithm : ptr string;
  sak_PrivateKeyType : ptr string;
  sak_PublicKeyType : ptr string;
  sak_ServiceAccountReferer : ServiceAccountReferer
}.

Record ServiceAccountKeyObservation := {
  sko_Name : string;
  sko_KeyID : string;
  sko_PrivateKeyType : string;
  sko_KeyAlgorithm : string;
  sko_ValidAfterTime : string;
  sko_ValidBeforeTime : string;
  sko_KeyOrigin : string;
  sko_KeyType : string
}.

Definition ServiceAccountKey : Type := Managed ServiceAccountKeyParameters ServiceAccountKeyObservation.

(** iam.ServiceAccountKey and CreateServiceAccountKeyRequest. *)
Record apiServiceAccountKey := {
  ask_KeyAlgorithm : string;
  ask_KeyOrigin : string;
  ask_KeyType : string;
  ask_Name : string;
  ask_PrivateKeyData : string;
  ask_PrivateKeyType : string;
  ask_PublicKeyData : string;
  ask_ValidAfterTime : string;
  ask_ValidBeforeTime : string;
  ask_rest : rest
}.
Record CreateServiceAccountKeyRequest := { cskr_KeyAlgorithm : string; cskr_PrivateKeyType : string }.

(** ** The client *)

(** The error of url.Parse, whose text is not modelled. *)
Definition url_error (rawurl : string) : error := OtherError rawurl.

Definition ParseKeyIDFromRrn (rrn : string) : string + error :=
  match Parse rrn with
  | None => inr (url_error rrn)
  | Some resourcePath => inl (Base resourcePath)
  end.

Definition PopulateSaKey (cr : ServiceAccountKey) (fromProvider : apiServiceAccountKey) : option error * ServiceAccountKey :=
  match ParseKeyIDFromRrn fromProvider.(ask_Name) with
  | inr err => (Some err, cr)
  | inl keyID =>
    (None, {| cr with AtProvider := {|
       sko_KeyID := keyID;
       sko_Name := fromProvider.(ask_Name);
       sko_PrivateKeyType := fromProvider.(ask_PrivateKeyType);
       sko_KeyAlgorithm := fromProvider.(ask_KeyAlgorithm);
       sko_ValidAfterTime := fromProvider.(ask_ValidAfterTime);
       sko_ValidBeforeTime := fromProvider.(ask_ValidBeforeTime);
       sko_KeyOrigin := fromProvider.(ask_KeyOrigin);
       sko_KeyType := fromProvider.(ask_KeyType) |} |})
  end.

(** ** The controller *)

Definition errNotServiceAccountKey : string := "managed resource is not a GCP ServiceAccountKey".
Definition errGetServiceAccountKey : string := "cannot get GCP ServiceAccountKey object via IAM API".
Definition errCreateServiceAccountKey : string := "cannot create GCP ServiceAccountKey object via IAM API".
Definition errDeleteServiceAccountKey : string := "cannot delete GCP ServiceAccountKey object via IAM API".
Definition errNoExternalName : string := "empty external name".
Definition fmtErrInvalidServiceAccountRef : string := "invalid service account reference: ".
Definition keyPrivateKeyType : string := "privateKeyType".
Definition keyPrivateKeyData : string := "privateKey".
Definition keyPublicKeyType : string := "publicKeyType".
Definition keyPublicKeyData : string := "publicKey".

Inductive ServiceAccountKeyE : Type → Type :=
| KeysGet (name : string) (publicKeyType : ptr string) : ServiceAccountKeyE (apiServiceAccountKey + error)
| KeysCreate (name : string) (req : CreateServiceAccountKeyRequest) : ServiceAccountKeyE (apiServiceAccountKey + error)
| KeysDelete (name : string) : ServiceAccountKeyE (option error).

(** The reference printed in the error is left out of its text. *)
Definition referencedServiceAccountPath (saKey : ServiceAccountKey) : outcome (string + error) :=
  let sa := saKey.(ForProvider).(sak_ServiceAccountReferer).(ServiceAccount) in
  if bool_decide (StringValue sa = "") then Returns (inr (OtherError fmtErrInvalidServiceAccountRef))
  else path ← deref sa; Returns (inl path).

Definition resourcePath (saKey : ServiceAccountKey) : outcome (string + error) :=
  saPath ← referencedServiceAccountPath saKey;
  match saPath with
  | inr err => Returns (inr err)
  | inl saPath =>
    let extName := saKey.(ExternalName) in
    if bool_decide (extName = "") then Returns (inr (FundamentalError errNoExternalName))
    else Returns (inl (String.append saPath (String.append "/keys/" extName)))
  end.

(** The details decoded before an error are not returned: both callers drop
    them. *)
Definition getConnectionDetails (publicKeyType : ptr string) (fromProvider : apiServiceAccountKey)
  : gmap string string + error :=
  let result : gmap string string := ∅ in
  match (if bool_decide (fromProvider.(ask_PublicKeyData) ≠ "") then
           match DecodeString fromProvider.(ask_PublicKeyData) with
           | None => None
           | Some data =>
             let result := <[keyPublicKeyData := data]> result in
             Some (match publicKeyType with
                   | Some t => <[keyPublicKeyType := t]> result
                   | None => result
                   end)
           end
         else Some result) with
  | None => inr corrupt_input
  | Some result =>
    if bool_decide (fromProvider.(ask_PrivateKeyData) ≠ "") then
      match DecodeString fromProvider.(ask_PrivateKeyData) with
      | None => inr corrupt_input
      | Some data => inl (<[keyPrivateKeyType := fromProvider.(ask_PrivateKeyType)]> (<[keyPrivateKeyData := data]> result))
      end
    else inl result
  end.

Section controller.
Context `{Libs}.

Definition Observe (mg : option ServiceAccountKey)
  : prog ServiceAccountKeyE (ExternalObservation * option error * option ServiceAccountKey) :=
  match mg with
  | None => mret (no_observation, errors_New errNotServiceAccountKey, None)
  | Some cr =>
    if bool_decide (cr.(ExternalName) = "") then mret (no_observation, None, Some cr)
    else
      rrn ← lift (resourcePath cr);
      match rrn with
      | inr err => mret (no_observation, errors_Wrap (Some err) errGetServiceAccountKey, Some cr)
      | inl rrn =>
        let publicKeyType :=
          match cr.(ForProvider).(sak_PublicKeyType) with
          | Some t => if bool_decide (t ≠ "") then Some t else None
          | None => None
          end in
        r ← call (KeysGet rrn publicKeyType);
        match r with
        | inr err =>
          mret (no_observation, errors_Wrap (resource_Ignore IsErrorNotFound (Some err)) errGetServiceAccountKey, Some cr)
        | inl fromProvider =>
          let '(err, cr) := PopulateSaKey cr fromProvider in
          match err with
          | Some err => mret (no_observation, errors_Wrap (Some err) errGetServiceAccountKey, Some cr)
          | None =>
            let cr := set_condition Available cr in
            match getConnectionDetails cr.(ForProvider).(sak_PublicKeyType) fromProvider with
            | inr err => mret (no_observation, errors_Wrap (Some err) errGetServiceAccountKey, Some cr)
            | inl connDetails =>
              mret ({| ResourceExists := true; ResourceUpToDate := true; ResourceLateInitialized := false;
                       ConnectionDetails := Some connDetails |}, None, Some cr)
            end
          end
        end
      end
  end.

Definition Create (mg : option ServiceAccountKey)
  : prog ServiceAccountKeyE (ExternalCreation * option error * option ServiceAccountKey) :=
  match mg with
  | None => mret (no_creation, errors_New errNotServiceAccountKey, None)
  | Some cr =>
    let cr := set_condition Creating cr in
    saPath ← lift (referencedServiceAccountPath cr);
    match saPath with
    | inr err => mret (no_creation, errors_Wrap (Some err) errCreateServiceAccountKey, Some cr)
    | inl saPath =>
      r ← call (KeysCreate saPath {|
        cskr_KeyAlgorithm := StringValue cr.(ForProvider).(sak_KeyAlgorithm);
        cskr_PrivateKeyType := StringValue cr.(ForProvider).(sak_PrivateKeyType) |});
      match r with
      | inr err => mret (no_creation, errors_Wrap (Some err) errCreateServiceAccountKey, Some cr)
      | inl fromProvider =>
        match getConnectionDetails cr.(ForProvider).(sak_PublicKeyType) fromProvider with
        | inr err => mret (no_creation, errors_Wrap (Some err) errCreateServiceAccountKey, Some cr)
        | inl connDetails =>
          match ParseKeyIDFromRrn fromProvider.(ask_Name) with
          | inr err => mret (no_creation, errors_Wrap (Some err) errCreateServiceAccountKey, Some cr)
          | inl keyID =>
            let cr := {| cr with ExternalName := keyID |} in
            mret ({| ExternalNameAssigned := true; CreationDetails := Some connDetails |}, None, Some cr)
          end
        end
      end
    end
  end.

Definition Update (mg : option ServiceAccountKey) : prog ServiceAccountKeyE (option error * option ServiceAccountKey) :=
  mret (None, mg).

Definition Delete (mg : option ServiceAccountKey) : prog ServiceAccountKeyE (option error * option ServiceAccountKey) :=
  match mg with
  | None => mret (errors_New errNotServiceAccountKey, None)
  | Some cr =>
    rrn ← lift (resourcePath cr);
    match rrn with
    | inr err => mret (errors_Wrap (Some err) errDeleteServiceAccountKey, Some cr)
    | inl rrn =>
      err ← call (KeysDelete rrn);
      mret (errors_Wrap (resource_Ignore IsErrorNotFound err) errDeleteServiceAccountKey, Some cr)
    end
  end.
End controller.

(** ** Properties *)

(** Dereferencing the account is safe where it is done. *)
Lemma referenced_path saKey :
  referencedServiceAccountPath saKey =
  let path := StringValue saKey.(ForProvider).(sak_ServiceAccountReferer).(ServiceAccount) in
  Returns (if bool_decide (path = "") then inr (OtherError fmtErrInvalidServiceAccountRef) else inl path).
Proof.
  unfold referencedServiceAccountPath. destruct (ServiceAccount _) as [p|]; simpl; [|done].
  by case_bool_decide.
Qed.
Lemma resource_path saKey :
  resourcePath saKey =
  let path := StringValue saKey.(ForProvider).(sak_ServiceAccountReferer).(ServiceAccount) in
  Returns (if bool_decide (path = "") then inr (OtherError fmtErrInvalidServiceAccountRef)
           else if bool_decide (saKey.(ExternalName) = "") then inr (FundamentalError errNoExternalName)
           else inl (String.append path (String.append "/keys/" saKey.(ExternalName)))).
Proof. unfold resourcePath. rewrite referenced_path. simpl. by repeat case_bool_decide. Qed.
#[local] Hint Rewrite referenced_path resource_path : handlers.

(** The last element of the name of a key is its id. *)
Lemma key_id_of_name path id :
  Forall (λ c, path_byte c = true) (list_ascii_of_string path) →
  Forall (λ c, path_byte c = true) (list_ascii_of_string id) →
  id ≠ "" → no_slash id →
  ParseKeyIDFromRrn (String.append "projects/" (String.append path (String.append "/keys/" id))) = inl id.
Proof.
  intros Hp Hi Hne Hns. unfold ParseKeyIDFromRrn. rewrite Parse_project.
  - f_equal. assert (∀ a b c, String.append a (String.append b c) = String.append (String.append a b) c) as Happ.
    { induction a as [|x a IH]; intros; simpl; [done|]. unfold String.append. fold String.append. by rewrite IH. }
    change (String.append "/keys/" id) with (String.append "/keys" (String "/" id)).
    rewrite !Happ. by apply Base_last.
  - rewrite !list_ascii_of_append. repeat (apply Forall_app; split); [done| |done]. by repeat constructor.
Qed.

(** What the API answers that can be used: a name that is a URL, and data that
    is base64. *)
Definition usable (k : apiServiceAccountKey) : Prop :=
  Parse k.(ask_Name) ≠ None ∧ (k.(ask_PublicKeyData) = "" ∨ DecodeString k.(ask_PublicKeyData) ≠ None) ∧
  (k.(ask_PrivateKeyData) = "" ∨ DecodeString k.(ask_PrivateKeyData) ≠ None).
#[global] Instance usable_dec k : Decision (usable k).
Proof. unfold usable. apply _. Defined.

Definition key_fails (X : Type) (e : ServiceAccountKeyE X) : X → bool :=
  match e with
  | KeysGet _ _ => λ r, match r with
    | inr e => negb (IsErrorNotFound (Some e)) | inl k => negb (bool_decide (usable k)) end
  | KeysCreate _ _ => λ r, match r with inr e => true | inl k => negb (bool_decide (usable k)) end
  | KeysDelete _ => write_fails IsErrorNotFound
  end.

Lemma usable_spec t k :
  usable k ↔ (∃ id, ParseKeyIDFromRrn k.(ask_Name) = inl id) ∧ (∃ d, getConnectionDetails t k = inl d).
Proof.
  unfold usable, ParseKeyIDFromRrn, getConnectionDetails.
  destruct (Parse _), (DecodeString k.(ask_PublicKeyData)), (DecodeString k.(ask_PrivateKeyData));
    repeat case_bool_decide; naive_solver.
Qed.
Lemma bool_decide_usable t k :
  bool_decide (usable k) =
  match ParseKeyIDFromRrn k.(ask_Name), getConnectionDetails t k with inl _, inl _ => true | _, _ => false end.
Proof.
  destruct (ParseKeyIDFromRrn k.(ask_Name)) eqn:H1, (getConnectionDetails t k) eqn:H2;
    [apply bool_decide_eq_true_2|apply bool_decide_eq_false_2..]; rewrite (usable_spec t), ?H1, ?H2; naive_solver.
Qed.

(** The service account a key belongs to. *)
Definition account (cr : ServiceAccountKey) : string :=
  StringValue cr.(ForProvider).(sak_ServiceAccountReferer).(ServiceAccount).

(** Of a handler that is given a response whose key is used or not. *)
Ltac usable_cases t :=
  rewrite ?(bool_decide_usable t); unfold PopulateSaKey;
  repeat match goal with
  | |- context [ParseKeyIDFromRrn ?n] => destruct (ParseKeyIDFromRrn n); simpl
  | |- context [getConnectionDetails ?t ?k] => destruct (getConnectionDetails t k); simpl
  end.

(** The service account key controller never panics. Without a service
    account it reports an error and calls nothing; a resource without an external
    name is reported not to exist, without a call; otherwise a handler returns an
    error exactly when its call failed, where NotFound is no failure of Get or
    Delete, and a key whose name is no URL or whose data is not base64 is a
    failure. Update never does anything, as keys are immutable. *)
Theorem service_account_key_controller `{Libs} cr :
  (cr.(ExternalName) = "" → Observe (Some cr) = Done (no_observation, None, Some cr)) ∧
  (account cr = "" →
     calls_only (λ _ _, False) (Observe (Some cr)) ∧ calls_only (λ _ _, False) (Create (Some cr)) ∧
     calls_only (λ _ _, False) (Delete (Some cr)) ∧
     always (λ r, r.1.2 ≠ None) (Create (Some cr)) ∧ always (λ r, r.1 ≠ None) (Delete (Some cr))) ∧
  (account cr ≠ "" →
     errors_iff key_fails (Observe (Some cr)) ∧
     errors_iff key_fails (Create (Some cr)) ∧
     (cr.(ExternalName) ≠ "" → errors_iff key_fails (Delete (Some cr)))) ∧
  Update (Some cr) = Done (None, Some cr).
Proof.
  unfold errors_iff, errors_given, account. split_and!; [|intros Ha; split_and!..|intros Ha; split_and!|done].
  - intros Hn. simpl. by rewrite bool_decide_eq_true_2.
  - simpl. rewrite resource_path. simpl. rewrite (bool_decide_eq_true_2 _ Ha). walk.
  - simpl. rewrite referenced_path. simpl. by rewrite (bool_decide_eq_true_2 _ Ha).
  - simpl. rewrite resource_path. simpl. by rewrite (bool_decide_eq_true_2 _ Ha).
  - simpl. rewrite referenced_path. simpl. rewrite (bool_decide_eq_true_2 _ Ha). simpl. by rewrite errors_Wrap_some.
  - simpl. rewrite resource_path. simpl. rewrite (bool_decide_eq_true_2 _ Ha). simpl. by rewrite errors_Wrap_some.
  - simpl. rewrite resource_path. simpl. rewrite (bool_decide_eq_false_2 _ Ha). case_bool_decide; simpl; [walk_done|].
    intros [k|err] _; simpl; [|walk_done]. usable_cases cr.(ForProvider).(sak_PublicKeyType); walk_done.
  - simpl. rewrite referenced_path. simpl. rewrite (bool_decide_eq_false_2 _ Ha). simpl.
    intros [k|err] _; simpl; [|walk_done]. usable_cases cr.(ForProvider).(sak_PublicKeyType); walk_done.
  - intros Hn. simpl. rewrite resource_path. simpl. rewrite !bool_decide_eq_false_2 by done. simpl.
    intros [err|] _; simpl; walk_done.
Qed.

Definition example_key : ServiceAccountKey := {|
  ExternalName := ""; WasDeleted := false; ProviderConfigReference := None; ProviderReference := None;
  ForProvider := {| sak_KeyAlgorithm := None; sak_PrivateKeyType := None; sak_PublicKeyType := Some "TYPE_RAW_PUBLIC_KEY";
    sak_ServiceAccountReferer := {| ServiceAccount := Some "projects/p/serviceAccounts/a"; ServiceAccountRef := None;
      ServiceAccountSelector := None |} |};
  AtProvider := {| sko_Name := ""; sko_KeyID := ""; sko_PrivateKeyType := ""; sko_KeyAlgorithm := ""; sko_ValidAfterTime := "";
    sko_ValidBeforeTime := ""; sko_KeyOrigin := ""; sko_KeyType := "" |};
  Conditions := [] |}.

Lemma service_account_key_controller_witness :
  @Observe reference_libs (Some example_key) = Done (no_observation, None, Some example_key) ∧
  errors_iff key_fails (@Create reference_libs (Some example_key)).
Proof. split; apply (@service_account_key_controller reference_libs); by vm_compute. Defined.

(** C23: a created key can be found again, and its secret is published. When the
    API answers Create with a key named after the account and an id, the resource
    takes the id as its external name, so that the path Observe and Delete use is
    the name of the key; the connection details hold the bytes of the private key
    that the API sent in base64. *)
Theorem service_account_key_roundtrip `{Libs} cr path id k secret
    (Hacc : account cr = String.append "projects/" path)
    (Hpath : Forall (λ c, path_byte c = true) (list_ascii_of_string path))
    (Hid : Forall (λ c, path_byte c = true) (list_ascii_of_string id)) (Hne : id ≠ "") (Hns : no_slash id)
    (Hname : k.(ask_Name) = String.append "projects/" (String.append path (String.append "/keys/" id)))
    (Hpub : k.(ask_PublicKeyData) = "")
    (Hpriv : k.(ask_PrivateKeyData) = EncodeToString secret) (Hsecret : secret ≠ "") :
  ∃ req kont o cr', Create (Some cr) = Call (KeysCreate (account cr) req) kont ∧
    kont (inl k) = Done (o, None, Some cr') ∧
    cr'.(ExternalName) = id ∧ o.(ExternalNameAssigned) = true ∧
    resourcePath cr' = Returns (inl k.(ask_Name)) ∧
    entries o.(CreationDetails) !! keyPrivateKeyData = Some secret ∧
    entries o.(CreationDetails) !! keyPrivateKeyType = Some k.(ask_PrivateKeyType).
Proof.
  assert (account cr ≠ "") as Ha by by rewrite Hacc.
  simpl. rewrite referenced_path. simpl. unfold account in *. rewrite (bool_decide_eq_false_2 _ Ha). simpl.
  do 4 eexists. split; [done|]. simpl.
  assert (EncodeToString secret ≠ "") as Henc.
  { intros Hnil. pose proof (DecodeString_Encode secret) as Hdec. rewrite Hnil in Hdec. by injection Hdec as <-. }
  unfold getConnectionDetails. rewrite Hpub, Hpriv, bool_decide_eq_false_2 by by intros [].
  rewrite bool_decide_eq_true_2, DecodeString_Encode, Hname by done. rewrite key_id_of_name by done.
  split; [done|]. simpl. split_and!; [done..| | |].
  - rewrite resource_path. simpl. rewrite !bool_decide_eq_false_2 by done. by rewrite Hacc.
  - unfold entries; simpl. rewrite lookup_insert_ne by done. apply lookup_insert_eq.
  - unfold entries; simpl. apply lookup_insert_eq.
Qed.

Definition example_api_key : apiServiceAccountKey := {|
  ask_KeyAlgorithm := "KEY_ALG_RSA_2048"; ask_KeyOrigin := "GOOGLE_PROVIDED"; ask_KeyType := "USER_MANAGED";
  ask_Name := "projects/p/serviceAccounts/a/keys/k1"; ask_PrivateKeyData := EncodeToString "secret";
  ask_PrivateKeyType := "TYPE_GOOGLE_CREDENTIALS_FILE"; ask_PublicKeyData := ""; ask_ValidAfterTime := "";
  ask_ValidBeforeTime := ""; ask_rest := ∅ |}.

Lemma service_account_key_roundtrip_witness :
  let _ := reference_libs in
  ∃ req kont o cr', Create (Some example_key) = Call (KeysCreate "projects/p/serviceAccounts/a" req) kont ∧
    kont (inl example_api_key) = Done (o, None, Some cr') ∧
    cr'.(ExternalName) = "k1" ∧ o.(ExternalNameAssigned) = true ∧
    resourcePath cr' = Returns (inl "projects/p/serviceAccounts/a/keys/k1") ∧
    entries o.(CreationDetails) !! keyPrivateKeyData = Some "secret" ∧
    entries o.(CreationDetails) !! keyPrivateKeyType = Some "TYPE_GOOGLE_CREDENTIALS_FILE".
Proof.
  intros libs.
  apply (@service_account_key_roundtrip libs example_key "p/serviceAccounts/a" "k1" example_api_key "secret");
    first [by vm_compute|unfold no_slash; simpl; repeat constructor].
Defined.
