(* ===== verification/Bucket.v ===== *)
(** * Cloud Storage buckets

    apis/storage/v1alpha3/types.go, with its conversions from and to the structs
    of the storage client library, and pkg/controller/storage/bucket.go. The
    types of the library carry the prefix api; its functions, mergo.Merge and the
    error value ErrBucketNotExist are parameters. *)

From S2P Require Import Prelude GoDuration Libs Contract Gcp.

(** ** Times *)

(** time.Time: an instant, counted from the zero time, and a location; the
    location of UTC is empty. [==] compares both, cmp.Equal the instants.
    metav1.Time embeds a time.Time and metav1.Duration a time.Duration. *)
Record Time := { tm_instant : Z; tm_location : string }.
#[global] Instance Time_eq_dec : EqDecision Time.
Proof. solve_decision. Defined.
Definition zero_Time : Time := {| tm_instant := 0; tm_location := "" |}.
Definition IsZero (t : Time) : bool := bool_decide (t.(tm_instant) = 0%Z).
Definition instant (t : Time) : Time := {| tm_instant := t.(tm_instant); tm_location := "" |}.

(** ** The structs of the library *)

Record apiProjectTeam := { apt_ProjectNumber : string; apt_Team : string }.
Record apiACLRule := {
  aar_Entity : string; aar_EntityID : string; aar_Role : string; aar_Domain : string; aar_Email : string;
  aar_ProjectTeam : ptr apiProjectTeam; aar_rest : rest }.
Record apiLifecycleAction := { ala_StorageClass : string; ala_Type : string }.
Record apiLifecycleCondition := {
  alc_AgeInDays : Z; alc_CreatedBefore : Time; alc_Liveness : Z; alc_MatchesStorageClasses : slice string;
  alc_NumNewerVersions : Z; alc_rest : rest }.
Record apiLifecycleRule := { alr_Action : apiLifecycleAction; alr_Condition : apiLifecycleCondition }.
Record apiLifecycle := { al_Rules : slice apiLifecycleRule }.
Record apiRetentionPolicy := { arp_RetentionPeriod : Z; arp_EffectiveTime : Time; arp_IsLocked : bool }.
Record apiBucketEncryption := { abe_DefaultKMSKeyName : string }.
Record apiBucketLogging := { abl_LogBucket : string; abl_LogObjectPrefix : string }.
Record apiCORS := {
  acors_MaxAge : Z; acors_Methods : slice string; acors_Origins : slice string; acors_ResponseHeaders : slice string }.
Record apiBucketWebsite := { abw_MainPageSuffix : string; abw_NotFoundPage : string }.
Record apiBucketPolicyOnly := { abpo_Enabled : bool; abpo_LockedTime : Time }.
#[global] Instance apiBucketPolicyOnly_eq_dec : EqDecision apiBucketPolicyOnly.
Proof. solve_decision. Defined.

Record apiBucketAttrs := {
  aba_BucketPolicyOnly : apiBucketPolicyOnly;
  aba_CORS : slice apiCORS;
  aba_DefaultEventBasedHold : bool;
  aba_Encryption : ptr apiBucketEncryption;
  aba_Labels : gomap string;
  aba_Lifecycle : apiLifecycle;
  aba_Logging : ptr apiBucketLogging;
  aba_PredefinedACL : string;
  aba_PredefinedDefaultObjectACL : string;
  aba_RequesterPays : bool;
  aba_RetentionPolicy : ptr apiRetentionPolicy;
  aba_VersioningEnabled : bool;
  aba_Website : ptr apiBucketWebsite;
  aba_ACL : slice apiACLRule;
  aba_DefaultObjectACL : slice apiACLRule;
  aba_Location : string;
  aba_StorageClass : string;
  aba_Created : Time;
  aba_rest : rest
}.

(** BucketAttrsToUpdate keeps its label changes to itself: here, the calls of
    SetLabel and DeleteLabel that were made on it. The fields of type
    optional.Bool are nil until they are set. *)
Inductive LabelOp :=
| SetLabel (name value : string)
| DeleteLabel (name : string).
Record apiBucketAttrsToUpdate := {
  abu_BucketPolicyOnly : ptr apiBucketPolicyOnly;
  abu_CORS : slice apiCORS;
  abu_DefaultEventBasedHold : ptr bool;
  abu_Encryption : ptr apiBucketEncryption;
  abu_Lifecycle : ptr apiLifecycle;
  abu_Logging : ptr apiBucketLogging;
  abu_PredefinedACL : string;
  abu_PredefinedDefaultObjectACL : string;
  abu_RequesterPays : ptr bool;
  abu_RetentionPolicy : ptr apiRetentionPolicy;
  abu_VersioningEnabled : ptr bool;
  abu_Website : ptr apiBucketWebsite;
  abu_labels : list LabelOp
}.

(** ** The structs of the resource *)

Record ProjectTeam := { pt_ProjectNumber : string; pt_Team : string }.
#[global] Instance ProjectTeam_eq_dec : EqDecision ProjectTeam.
Proof. solve_decision. Defined.

Definition NewProjectTeam (pt : ptr apiProjectTeam) : ptr ProjectTeam :=
  (λ p, {| pt_ProjectNumber := p.(apt_ProjectNumber); pt_Team := p.(apt_Team) |}) <$> pt.
Definition CopyToProjectTeam (pt : ptr ProjectTeam) : ptr apiProjectTeam :=
  (λ p, {| apt_ProjectNumber := p.(pt_ProjectNumber); apt_Team := p.(pt_Team) |}) <$> pt.

Record ACLRule := {
  ar_Entity : string; ar_Role : string; ar_EntityID : string; ar_Domain : string; ar_Email : string;
  ar_ProjectTeam : ptr ProjectTeam }.
#[global] Instance ACLRule_eq_dec : EqDecision ACLRule.
Proof. solve_decision. Defined.

Definition NewACLRule (r : apiACLRule) : ACLRule := {|
  ar_Entity := r.(aar_Entity); ar_EntityID := r.(aar_EntityID); ar_Role := r.(aar_Role);
  ar_Domain := r.(aar_Domain); ar_Email := r.(aar_Email); ar_ProjectTeam := NewProjectTeam r.(aar_ProjectTeam) |}.
Definition CopyToACLRule (r : ACLRule) : apiACLRule := {|
  aar_Entity := r.(ar_Entity); aar_EntityID := r.(ar_EntityID); aar_Role := r.(ar_Role);
  aar_Domain := r.(ar_Domain); aar_Email := r.(ar_Email); aar_ProjectTeam := CopyToProjectTeam r.(ar_ProjectTeam);
  aar_rest := ∅ |}.
Definition NewACLRules (r : slice apiACLRule) : slice ACLRule :=
  if slice_empty r then None else Some (NewACLRule <$> elems r).
Definition CopyToACLRules (r : slice ACLRule) : slice apiACLRule :=
  if slice_empty r then None else Some (CopyToACLRule <$> elems r).

Record LifecycleAction := { la_StorageClass : string; la_Type : string }.
#[global] Instance LifecycleAction_eq_dec : EqDecision LifecycleAction.
Proof. solve_decision. Defined.
Definition NewLifecyleAction (la : apiLifecycleAction) : LifecycleAction :=
  {| la_Type := la.(ala_Type); la_StorageClass := la.(ala_StorageClass) |}.
Definition CopyToLifecyleAction (la : LifecycleAction) : apiLifecycleAction :=
  {| ala_Type := la.(la_Type); ala_StorageClass := la.(la_StorageClass) |}.

Record LifecycleCondition := {
  lc_AgeInDays : Z; lc_CreatedBefore : Time; lc_Liveness : Z; lc_MatchesStorageClasses : slice string;
  lc_NumNewerVersions : Z }.
#[global] Instance LifecycleCondition_eq_dec : EqDecision LifecycleCondition.
Proof. solve_decision. Defined.
Definition NewLifecycleCondition (lc : apiLifecycleCondition) : LifecycleCondition := {|
  lc_AgeInDays := lc.(alc_AgeInDays); lc_CreatedBefore := lc.(alc_CreatedBefore); lc_Liveness := lc.(alc_Liveness);
  lc_MatchesStorageClasses := lc.(alc_MatchesStorageClasses); lc_NumNewerVersions := lc.(alc_NumNewerVersions) |}.
Definition CopyToLifecycleCondition (lc : LifecycleCondition) : apiLifecycleCondition := {|
  alc_AgeInDays := lc.(lc_AgeInDays); alc_CreatedBefore := lc.(lc_CreatedBefore); alc_Liveness := lc.(lc_Liveness);
  alc_MatchesStorageClasses := lc.(lc_MatchesStorageClasses); alc_NumNewerVersions := lc.(lc_NumNewerVersions);
  alc_rest := ∅ |}.

Record LifecycleRule := { lr_Action : LifecycleAction; lr_Condition : LifecycleCondition }.
#[global] Instance LifecycleRule_eq_dec : EqDecision LifecycleRule.
Proof. solve_decision. Defined.
Definition NewLifecycleRule (lr : apiLifecycleRule) : LifecycleRule := {|
  lr_Action := NewLifecyleAction lr.(alr_Action); lr_Condition := NewLifecycleCondition lr.(alr_Condition) |}.
Definition CopyToLifecyleRule (lr : LifecycleRule) : apiLifecycleRule := {|
  alr_Action := CopyToLifecyleAction lr.(lr_Action); alr_Condition := CopyToLifecycleCondition lr.(lr_Condition) |}.

Record Lifecycle := { l_Rules : slice LifecycleRule }.
#[global] Instance Lifecycle_eq_dec : EqDecision Lifecycle.
Proof. solve_decision. Defined.
(** The pointer that NewLifecycle returns is never nil, and dereferenced at
    once: the struct itself. *)
Definition NewLifecycle (lf : apiLifecycle) : Lifecycle :=
  {| l_Rules := if slice_empty lf.(al_Rules) then None else Some (NewLifecycleRule <$> elems lf.(al_Rules)) |}.
Definition CopyToLifecycle (lf : Lifecycle) : apiLifecycle :=
  {| al_Rules := if slice_empty lf.(l_Rules) then None else Some (CopyToLifecyleRule <$> elems lf.(l_Rules)) |}.

Record RetentionPolicy := { RetentionPeriodSeconds : Z }.
#[global] Instance RetentionPolicy_eq_dec : EqDecision RetentionPolicy.
Proof. solve_decision. Defined.
(** The seconds of an int64 of nanoseconds fit an int: the default is not used. *)
Definition NewRetentionPolicy (rp : ptr apiRetentionPolicy) : ptr RetentionPolicy :=
  (λ r, {| RetentionPeriodSeconds := default 0%Z (int_of_float (Seconds r.(arp_RetentionPeriod))) |}) <$> rp.
Definition CopyToRetentionPolicy (rp : ptr RetentionPolicy) : ptr apiRetentionPolicy :=
  let d := match rp with None => 0%Z | Some r => r.(RetentionPeriodSeconds) end in
  Some {| arp_RetentionPeriod := times_Second d; arp_EffectiveTime := zero_Time; arp_IsLocked := false |}.

Record RetentionPolicyStatus := { rps_EffectiveTime : Time; rps_IsLocked : bool }.
Definition NewRetentionPolicyStatus (r : ptr apiRetentionPolicy) : ptr RetentionPolicyStatus :=
  (λ r, {| rps_EffectiveTime := r.(arp_EffectiveTime); rps_IsLocked := r.(arp_IsLocked) |}) <$> r.

Record BucketEncryption := { be_DefaultKMSKeyName : string }.
#[global] Instance BucketEncryption_eq_dec : EqDecision BucketEncryption.
Proof. solve_decision. Defined.
Definition NewBucketEncryption (e : ptr apiBucketEncryption) : ptr BucketEncryption :=
  (λ e, {| be_DefaultKMSKeyName := e.(abe_DefaultKMSKeyName) |}) <$> e.
Definition CopyToBucketEncryption (e : ptr BucketEncryption) : ptr apiBucketEncryption :=
  (λ e, {| abe_DefaultKMSKeyName := e.(be_DefaultKMSKeyName) |}) <$> e.

Record BucketLogging := { bl_LogBucket : string; bl_LogObjectPrefix : string }.
#[global] Instance BucketLogging_eq_dec : EqDecision BucketLogging.
Proof. solve_decision. Defined.
Definition NewBucketLogging (l : ptr apiBucketLogging) : ptr BucketLogging :=
  (λ l, {| bl_LogBucket := l.(abl_LogBucket); bl_LogObjectPrefix := l.(abl_LogObjectPrefix) |}) <$> l.
Definition CopyToBucketLogging (l : ptr BucketLogging) : ptr apiBucketLogging :=
  (λ l, {| abl_LogBucket := l.(bl_LogBucket); abl_LogObjectPrefix := l.(bl_LogObjectPrefix) |}) <$> l.

Record CORS := {
  cors_MaxAge : Z; cors_Methods : slice string; cors_Origins : slice string; cors_ResponseHeaders : slice string }.
#[global] Instance CORS_eq_dec : EqDecision CORS.
Proof. solve_decision. Defined.
Definition NewCORS (c : apiCORS) : CORS := {|
  cors_MaxAge := c.(acors_MaxAge); cors_Methods := c.(acors_Methods); cors_Origins := c.(acors_Origins);
  cors_ResponseHeaders := c.(acors_ResponseHeaders) |}.
Definition CopyToCORS (c : CORS) : apiCORS := {|
  acors_MaxAge := c.(cors_MaxAge); acors_Methods := c.(cors_Methods); acors_Origins := c.(cors_Origins);
  acors_ResponseHeaders := c.(cors_ResponseHeaders) |}.
Definition NewCORSList (c : slice apiCORS) : slice CORS := (λ l : list apiCORS, NewCORS <$> l) <$> c.
Definition CopyToCORSList (c : slice CORS) : slice apiCORS := (λ l : list CORS, CopyToCORS <$> l) <$> c.

Record BucketWebsite := { bw_MainPageSuffix : string; bw_NotFoundPage : string }.
#[global] Instance BucketWebsite_eq_dec : EqDecision BucketWebsite.
Proof. solve_decision. Defined.
Definition NewBucketWebsite (w : ptr apiBucketWebsite) : ptr BucketWebsite :=
  (λ w, {| bw_MainPageSuffix := w.(abw_MainPageSuffix); bw_NotFoundPage := w.(abw_NotFoundPage) |}) <$> w.
Definition CopyToBucketWebsite (w : ptr BucketWebsite) : ptr apiBucketWebsite :=
  (λ w, {| abw_MainPageSuffix := w.(bw_MainPageSuffix); abw_NotFoundPage := w.(bw_NotFoundPage) |}) <$> w.

Record BucketPolicyOnly := { bpo_Enabled : bool; bpo_LockedTime : Time }.
#[global] Instance BucketPolicyOnly_eq_dec : EqDecision BucketPolicyOnly.
Proof. solve_decision. Defined.
Definition zero_apiBucketPolicyOnly : apiBucketPolicyOnly := {| abpo_Enabled := false; abpo_LockedTime := zero_Time |}.
Definition NewBucketPolicyOnly (bp : apiBucketPolicyOnly) : ptr BucketPolicyOnly :=
  if bool_decide (bp = zero_apiBucketPolicyOnly) then None
  else Some {| bpo_Enabled := bp.(abpo_Enabled); bpo_LockedTime := bp.(abpo_LockedTime) |}.
Definition CopyToBucketPolicyOnly (bp : ptr BucketPolicyOnly) : apiBucketPolicyOnly :=
  match bp with
  | None => zero_apiBucketPolicyOnly
  | Some b => {| abpo_Enabled := b.(bpo_Enabled); abpo_LockedTime := b.(bpo_LockedTime) |}
  end.

(** ** The attributes of a bucket *)

Record BucketUpdatableAttrs := {
  bua_BucketPolicyOnly : ptr BucketPolicyOnly;
  bua_CORS : slice CORS;
  bua_DefaultEventBasedHold : bool;
  bua_Encryption : ptr BucketEncryption;
  bua_Labels : gomap string;
  bua_Lifecycle : Lifecycle;
  bua_Logging : ptr BucketLogging;
  bua_PredefinedACL : string;
  bua_PredefinedDefaultObjectACL : string;
  bua_RequesterPays : bool;
  bua_RetentionPolicy : ptr RetentionPolicy;
  bua_VersioningEnabled : bool;
  bua_Website : ptr BucketWebsite
}.
#[global] Instance BucketUpdatableAttrs_eq_dec : EqDecision BucketUpdatableAttrs.
Proof. solve_decision. Defined.

(** What NewBucketUpdatableAttrs and CopyToBucketAttrs make of a pointer that
    is not nil. *)
Definition updatable_attrs (ba : apiBucketAttrs) : BucketUpdatableAttrs := {|
  bua_BucketPolicyOnly := NewBucketPolicyOnly ba.(aba_BucketPolicyOnly);
  bua_CORS := NewCORSList ba.(aba_CORS);
  bua_DefaultEventBasedHold := ba.(aba_DefaultEventBasedHold);
  bua_Encryption := NewBucketEncryption ba.(aba_Encryption);
  bua_Labels := ba.(aba_Labels);
  bua_Lifecycle := NewLifecycle ba.(aba_Lifecycle);
  bua_Logging := NewBucketLogging ba.(aba_Logging);
  bua_PredefinedACL := ba.(aba_PredefinedACL);
  bua_PredefinedDefaultObjectACL := ba.(aba_PredefinedDefaultObjectACL);
  bua_RequesterPays := ba.(aba_RequesterPays);
  bua_RetentionPolicy := NewRetentionPolicy ba.(aba_RetentionPolicy);
  bua_VersioningEnabled := ba.(aba_VersioningEnabled);
  bua_Website := NewBucketWebsite ba.(aba_Website) |}.
Definition NewBucketUpdatableAttrs (ba : ptr apiBucketAttrs) : ptr BucketUpdatableAttrs := updatable_attrs <$> ba.

Definition bucket_attrs (ba : BucketUpdatableAttrs) : apiBucketAttrs := {|
  aba_BucketPolicyOnly := CopyToBucketPolicyOnly ba.(bua_BucketPolicyOnly);
  aba_CORS := CopyToCORSList ba.(bua_CORS);
  aba_DefaultEventBasedHold := ba.(bua_DefaultEventBasedHold);
  aba_Encryption := CopyToBucketEncryption ba.(bua_Encryption);
  aba_Labels := ba.(bua_Labels);
  aba_Lifecycle := CopyToLifecycle ba.(bua_Lifecycle);
  aba_Logging := CopyToBucketLogging ba.(bua_Logging);
  aba_PredefinedACL := ba.(bua_PredefinedACL);
  aba_PredefinedDefaultObjectACL := ba.(bua_PredefinedDefaultObjectACL);
  aba_RequesterPays := ba.(bua_RequesterPays);
  aba_RetentionPolicy := CopyToRetentionPolicy ba.(bua_RetentionPolicy);
  aba_VersioningEnabled := ba.(bua_VersioningEnabled);
  aba_Website := CopyToBucketWebsite ba.(bua_Website);
  aba_ACL := None; aba_DefaultObjectACL := None; aba_Location := ""; aba_StorageClass := "";
  aba_Created := zero_Time; aba_rest := ∅ |}.
Definition CopyToBucketAttrs (ba : ptr BucketUpdatableAttrs) : ptr apiBucketAttrs := bucket_attrs <$> ba.

(** Go visits the entries of a map in an order of its own. *)
Class MapOrder := {
  range : gmap string string → list (string * string);
  range_perm m : range m ≡ₚ map_to_list m
}.

(** [delete(labels, k)] for every [k] of the first loop, then what is left of
    [labels] in the second. *)
Definition label_ops `{MapOrder} (wanted labels : gomap string) : list LabelOp :=
  let kvs := range (entries wanted) in
  let labels := foldl (λ m '(k, _), delete k m) (entries labels) kvs in
  ((λ '(k, v), SetLabel k v) <$> kvs) ++ ((λ '(k, _), DeleteLabel k) <$> range labels).

Definition CopyToBucketUpdateAttrs `{MapOrder} (ba : BucketUpdatableAttrs) (labels : gomap string)
  : apiBucketAttrsToUpdate := {|
  abu_BucketPolicyOnly := Some (CopyToBucketPolicyOnly ba.(bua_BucketPolicyOnly));
  abu_CORS := CopyToCORSList ba.(bua_CORS);
  abu_DefaultEventBasedHold := Some ba.(bua_DefaultEventBasedHold);
  abu_Encryption := CopyToBucketEncryption ba.(bua_Encryption);
  abu_Lifecycle := Some (CopyToLifecycle ba.(bua_Lifecycle));
  abu_Logging := CopyToBucketLogging ba.(bua_Logging);
  abu_PredefinedACL := ba.(bua_PredefinedACL);
  abu_PredefinedDefaultObjectACL := ba.(bua_PredefinedDefaultObjectACL);
  abu_RequesterPays := Some ba.(bua_RequesterPays);
  abu_RetentionPolicy := CopyToRetentionPolicy ba.(bua_RetentionPolicy);
  abu_VersioningEnabled := Some ba.(bua_VersioningEnabled);
  abu_Website := CopyToBucketWebsite ba.(bua_Website);
  abu_labels := label_ops ba.(bua_Labels) labels |}.

Record BucketSpecAttrs := {
  bsa_BucketUpdatableAttrs : BucketUpdatableAttrs;
  bsa_ACL : slice ACLRule;
  bsa_DefaultObjectACL : slice ACLRule;
  bsa_Location : string;
  bsa_StorageClass : string
}.
#[global] Instance BucketSpecAttrs_eq_dec : EqDecision BucketSpecAttrs.
Proof. solve_decision. Defined.

Definition empty_updatable : BucketUpdatableAttrs := {|
  bua_BucketPolicyOnly := None; bua_CORS := None; bua_DefaultEventBasedHold := false; bua_Encryption := None;
  bua_Labels := None; bua_Lifecycle := {| l_Rules := None |}; bua_Logging := None; bua_PredefinedACL := "";
  bua_PredefinedDefaultObjectACL := ""; bua_RequesterPays := false; bua_RetentionPolicy := None;
  bua_VersioningEnabled := false; bua_Website := None |}.
Definition empty_spec : BucketSpecAttrs := {|
  bsa_BucketUpdatableAttrs := empty_updatable; bsa_ACL := None; bsa_DefaultObjectACL := None; bsa_Location := "";
  bsa_StorageClass := "" |}.

Definition NewBucketSpecAttrs (ba : ptr apiBucketAttrs) : BucketSpecAttrs :=
  match ba with
  | None => empty_spec
  | Some ba => {|
      bsa_BucketUpdatableAttrs := updatable_attrs ba;
      bsa_ACL := NewACLRules ba.(aba_ACL);
      bsa_DefaultObjectACL := NewACLRules ba.(aba_DefaultObjectACL);
      bsa_Location := ba.(aba_Location);
      bsa_StorageClass := ba.(aba_StorageClass) |}
  end.
Definition CopyBucketSpecAttrs (ba : ptr BucketSpecAttrs) : ptr apiBucketAttrs :=
  (λ ba, {| (bucket_attrs ba.(bsa_BucketUpdatableAttrs)) with
     aba_ACL := CopyToACLRules ba.(bsa_ACL);
     aba_Location := ba.(bsa_Location);
     aba_StorageClass := ba.(bsa_StorageClass) |}) <$> ba.

Record BucketOutputAttrs := {
  boa_BucketPolicyOnly : ptr BucketPolicyOnly;
  boa_Created : ptr Time;
  boa_RetentionPolicy : ptr RetentionPolicyStatus
}.
Definition no_output : BucketOutputAttrs :=
  {| boa_BucketPolicyOnly := None; boa_Created := None; boa_RetentionPolicy := None |}.
Definition NewBucketOutputAttrs (attrs : ptr apiBucketAttrs) : BucketOutputAttrs :=
  match attrs with
  | None => no_output
  | Some a => {|
      boa_BucketPolicyOnly := NewBucketPolicyOnly a.(aba_BucketPolicyOnly);
      boa_RetentionPolicy := NewRetentionPolicyStatus a.(aba_RetentionPolicy);
      boa_Created := if negb (IsZero a.(aba_Created)) then Some a.(aba_Created) else None |}
  end.

(** ** Comparing attributes *)

(** The attributes as cmp.Equal sees them: of a time only the instant. *)
Definition view_rule (r : LifecycleRule) : LifecycleRule := {| r with
  lr_Condition := {| r.(lr_Condition) with lc_CreatedBefore := instant r.(lr_Condition).(lc_CreatedBefore) |} |}.
Definition view_updatable (a : BucketUpdatableAttrs) : BucketUpdatableAttrs := {| a with
  bua_BucketPolicyOnly :=
    (λ b, {| b with bpo_LockedTime := instant b.(bpo_LockedTime) |}) <$> a.(bua_BucketPolicyOnly);
  bua_Lifecycle := {| l_Rules := (λ l : list LifecycleRule, view_rule <$> l) <$> a.(bua_Lifecycle).(l_Rules) |} |}.
Definition view_spec (a : BucketSpecAttrs) : BucketSpecAttrs :=
  {| a with bsa_BucketUpdatableAttrs := view_updatable a.(bsa_BucketUpdatableAttrs) |}.

(** ** The controller *)

Definition errNotBucket : string := "managed resource is not a GCP bucket".
Definition errAttrs : string := "cannot get GCP bucket attributes".
Definition errLateInit : string := "cannot late initialize GCP bucket".
Definition errCreate : string := "cannot create GCP bucket".
Definition errUpdate : string := "cannot update GCP bucket".
Definition errDelete : string := "cannot delete GCP bucket".

(** The attributes of the spec and of the status. *)
Abbreviation Bucket := (Managed BucketSpecAttrs BucketOutputAttrs).

Inductive BucketE : Type → Type :=
| BucketGetAttrs (name : string) : BucketE (apiBucketAttrs + error)
| BucketCreate (name projectID : string) (attrs : ptr apiBucketAttrs) : BucketE (option error)
| BucketUpdate (name : string) (ua : apiBucketAttrsToUpdate) : BucketE (apiBucketAttrs + error)
| BucketDelete (name : string) : BucketE (option error)
| KubeUpdate (cr : Bucket) : BucketE (Bucket + error).

Section controller.
Context `{Libs} `{MapOrder}.
(** mergo.Merge: the destination after merging a source into it, or an error. *)
Variable merge : BucketSpecAttrs → BucketSpecAttrs → BucketSpecAttrs + error.
Variable ErrBucketNotExist : error.
Variable projectID : string.

Definition Observe (mg : option Bucket) : prog BucketE (ExternalObservation * option error * option Bucket) :=
  match mg with
  | None => mret (no_observation, errors_New errNotBucket, None)
  | Some cr =>
    r ← call (BucketGetAttrs cr.(ExternalName));
    match r with
    | inr err =>
      if bool_decide (err = ErrBucketNotExist) then mret (no_observation, None, Some cr)
      else mret (no_observation, errors_Wrap (Some err) errAttrs, Some cr)
    | inl a =>
      match merge cr.(ForProvider) (NewBucketSpecAttrs (Some a)) with
      | inr err => mret (no_observation, errors_Wrap (Some err) errLateInit, Some cr)
      | inl proposed =>
        u ← (if negb (cmp_Equal (same_view view_spec) proposed cr.(ForProvider))
             then call (KubeUpdate {| cr with ForProvider := proposed |}) else mret (inl cr));
        match u with
        | inr err =>
          mret (no_observation, errors_Wrap (Some err) errLateInit, Some {| cr with ForProvider := proposed |})
        | inl cr =>
          let cr := {| cr with AtProvider := NewBucketOutputAttrs (Some a) |} in
          let cr := set_condition Available cr in
          mret ({| ResourceExists := true;
                   ResourceUpToDate := cmp_Equal (same_view (fmap (M := option) view_updatable))
                     (NewBucketUpdatableAttrs (Some a)) (Some cr.(ForProvider).(bsa_BucketUpdatableAttrs));
                   ResourceLateInitialized := false; ConnectionDetails := None |}, None, Some cr)
        end
      end
    end
  end.

Definition Create (mg : option Bucket) : prog BucketE (ExternalCreation * option error * option Bucket) :=
  match mg with
  | None => mret (no_creation, errors_New errNotBucket, None)
  | Some cr =>
    err ← call (BucketCreate cr.(ExternalName) projectID (CopyBucketSpecAttrs (Some cr.(ForProvider))));
    mret (no_creation, errors_Wrap err errCreate, Some cr)
  end.

Definition Update (mg : option Bucket) : prog BucketE (option error * option Bucket) :=
  match mg with
  | None => mret (errors_New errNotBucket, None)
  | Some cr =>
    r ← call (BucketGetAttrs cr.(ExternalName));
    match r with
    | inr err => mret (errors_Wrap (Some err) errAttrs, Some cr)
    | inl current =>
      let ua := CopyToBucketUpdateAttrs cr.(ForProvider).(bsa_BucketUpdatableAttrs) current.(aba_Labels) in
      r ← call (BucketUpdate cr.(ExternalName) ua);
      let err := match r with inl _ => None | inr err => Some err end in
      mret (errors_Wrap err errUpdate, Some cr)
    end
  end.

Definition Delete (mg : option Bucket) : prog BucketE (option error * option Bucket) :=
  match mg with
  | None => mret (errors_New errNotBucket, None)
  | Some cr =>
    err ← call (BucketDelete cr.(ExternalName));
    mret (errors_Wrap (resource_Ignore IsErrorNotFound err) errDelete, Some cr)
  end.
End controller.
