(* ===== verification/BucketController.v ===== *)
(** * Cloud Storage buckets: what the conversions and the controller promise *)

From Stdlib Require Import Lia.
From S2P Require Import Prelude GoDuration Libs Contract Gcp Bucket.

(** ** Retention periods *)

Lemma int64_wrap_range z : is_int64 (int64_wrap z).
Proof.
  unfold is_int64, int64_wrap, MinInt64, MaxInt64. pose proof (Z.mod_pos_bound (z + 2 ^ 63) (2 ^ 64)). lia.
Qed.
Lemma times_Second_exact s : times_Second s = (s * Second)%Z ↔ (- MaxSeconds ≤ s ≤ MaxSeconds)%Z.
Proof.
  rewrite <-seconds_fit. unfold times_Second. split; [intros <-; apply int64_wrap_range|apply int64_wrap_id].
Qed.
Lemma retention_comes_back s : (- MaxSeconds ≤ s ≤ MaxSeconds)%Z →
  NewRetentionPolicy (CopyToRetentionPolicy (Some {| RetentionPeriodSeconds := s |})) =
  Some {| RetentionPeriodSeconds := s |}.
Proof.
  intros Hs. unfold CopyToRetentionPolicy, NewRetentionPolicy. cbn [RetentionPeriodSeconds].
  rewrite (proj2 (times_Second_exact s) Hs). cbn [fmap option_fmap option_map arp_RetentionPeriod].
  unfold MaxSeconds in Hs. by rewrite Seconds_whole by lia.
Qed.

(** C14: a retention period survives its conversion to a duration. The product
    by time.Second is exact for the periods of at most 9223372036 seconds and for no
    others; those include every period the CRD allows, 0 to 3155673600, and for
    them the seconds read back, through a float64, are the seconds written. *)
Theorem retention_period_bounds s :
  (times_Second s = (s * Second)%Z ↔ (- MaxSeconds ≤ s ≤ MaxSeconds)%Z) ∧
  is_int64 (times_Second s) ∧
  ((0 ≤ s ≤ 3155673600)%Z →
     NewRetentionPolicy (CopyToRetentionPolicy (Some {| RetentionPeriodSeconds := s |})) =
     Some {| RetentionPeriodSeconds := s |}).
Proof.
  split_and!; [apply times_Second_exact|apply int64_wrap_range|].
  intros Hs. apply retention_comes_back. unfold MaxSeconds. lia.
Qed.

Lemma retention_period_bounds_witness :
  NewRetentionPolicy (CopyToRetentionPolicy (Some {| RetentionPeriodSeconds := 3155673600 |})) =
  Some {| RetentionPeriodSeconds := 3155673600 |}.
Proof. apply retention_period_bounds. lia. Defined.

(** ** Round trips *)

Lemma list_roundtrip {A B} (f : A → B) (g : B → A) (l : list A) : (∀ a, g (f a) = a) → g <$> (f <$> l) = l.
Proof. intros Hgf. rewrite <-list_fmap_compose. rewrite <-(list_fmap_id l) at 2. apply list_fmap_ext. intros i a _. apply Hgf. Qed.
(** A slice that is converted when it has elements, there and back. *)
Lemma slice_roundtrip {A B} (f : A → B) (g : B → A) (r : slice A) :
  (∀ a, g (f a) = a) →
  (let s := if slice_empty r then None else Some (f <$> elems r) in
   if slice_empty s then None else Some (g <$> elems s)) = norm_slice r.
Proof.
  intros Hgf. unfold slice_empty, norm_slice. destruct (elems r) as [|x l]; [done|].
  change (Some (g <$> (f <$> (x :: l))) = Some (x :: l)). f_equal. by apply list_roundtrip.
Qed.

Lemma acl_rules_roundtrip r : NewACLRules (CopyToACLRules r) = norm_slice r.
Proof.
  apply slice_roundtrip. intros [????? t]. unfold NewACLRule, CopyToACLRule, NewProjectTeam, CopyToProjectTeam; simpl.
  by destruct t as [[]|].
Qed.
Lemma lifecycle_roundtrip l : NewLifecycle (CopyToLifecycle l) = {| l_Rules := norm_slice l.(l_Rules) |}.
Proof. unfold NewLifecycle, CopyToLifecycle. cbn [al_Rules]. f_equal. apply slice_roundtrip. by intros [[] []]. Qed.
Lemma cors_roundtrip c : NewCORSList (CopyToCORSList c) = c.
Proof. destruct c as [l|]; [|done]. unfold NewCORSList, CopyToCORSList; simpl. f_equal. apply list_roundtrip. by intros []. Qed.
Lemma policy_only_roundtrip p :
  NewBucketPolicyOnly (CopyToBucketPolicyOnly p) = p ↔ p ≠ Some {| bpo_Enabled := false; bpo_LockedTime := zero_Time |}.
Proof.
  unfold NewBucketPolicyOnly. destruct p as [[e t]|]; simpl; [|by split].
  case_bool_decide as Hz; unfold zero_apiBucketPolicyOnly in Hz; [|naive_solver].
  injection Hz as -> ->. split; [done|]. intros Hp. by destruct Hp.
Qed.
Lemma encryption_roundtrip e : NewBucketEncryption (CopyToBucketEncryption e) = e.
Proof. by destruct e as [[]|]. Qed.
Lemma logging_roundtrip l : NewBucketLogging (CopyToBucketLogging l) = l.
Proof. by destruct l as [[]|]. Qed.
Lemma website_roundtrip w : NewBucketWebsite (CopyToBucketWebsite w) = w.
Proof. by destruct w as [[]|]. Qed.
Lemma norm_slice_id {A} (s : slice A) : norm_slice s = s ↔ s ≠ Some [].
Proof. destruct s as [[|x l]|]; by split. Qed.
Lemma retention_roundtrip r : (∀ p, r = Some p → (- MaxSeconds ≤ p.(RetentionPeriodSeconds) ≤ MaxSeconds)%Z) →
  NewRetentionPolicy (CopyToRetentionPolicy r) = r ↔ r ≠ None.
Proof.
  intros Hr. destruct r as [[s]|]; [|by split]. rewrite retention_comes_back by (by apply (Hr _ eq_refl)). done.
Qed.

(** C18: the attributes the controller sends come back as they were, that is a
    bucket which has just what was sent counts as up to date, exactly when the
    spec has a retention policy, no bucketPolicyOnly that is all zero and no empty list of
    lifecycle rules, the retention period being within bounds. Of the other attributes
    the ACL, the location and the storage class come back; the default object
    ACL does not: it is never sent. *)
Theorem bucket_attrs_roundtrip ba
    (Hretention : ∀ p, ba.(bsa_BucketUpdatableAttrs).(bua_RetentionPolicy) = Some p →
       (- MaxSeconds ≤ p.(RetentionPeriodSeconds) ≤ MaxSeconds)%Z) :
  let u := ba.(bsa_BucketUpdatableAttrs) in
  let back := NewBucketSpecAttrs (CopyBucketSpecAttrs (Some ba)) in
  (NewBucketUpdatableAttrs (CopyToBucketAttrs (Some u)) = Some u ↔
     u.(bua_BucketPolicyOnly) ≠ Some {| bpo_Enabled := false; bpo_LockedTime := zero_Time |} ∧
     u.(bua_Lifecycle).(l_Rules) ≠ Some [] ∧ u.(bua_RetentionPolicy) ≠ None) ∧
  Some back.(bsa_BucketUpdatableAttrs) = NewBucketUpdatableAttrs (CopyToBucketAttrs (Some u)) ∧
  back.(bsa_ACL) = norm_slice ba.(bsa_ACL) ∧ back.(bsa_Location) = ba.(bsa_Location) ∧
  back.(bsa_StorageClass) = ba.(bsa_StorageClass) ∧ back.(bsa_DefaultObjectACL) = None.
Proof.
  destruct ba as [u acl oacl loc cls]. cbn [bsa_BucketUpdatableAttrs] in *. split_and!; [|done|apply acl_rules_roundtrip|done..].
  rewrite <-policy_only_roundtrip, <-norm_slice_id, <-retention_roundtrip by done.
  unfold NewBucketUpdatableAttrs, CopyToBucketAttrs. cbn [fmap option_fmap option_map].
  destruct u as [pol cors hold enc labels [rules] log acl1 acl2 pays ret ver web].
  unfold bucket_attrs, updatable_attrs.
  cbn [bua_BucketPolicyOnly bua_CORS bua_DefaultEventBasedHold bua_Encryption bua_Labels bua_Lifecycle bua_Logging
    bua_PredefinedACL bua_PredefinedDefaultObjectACL bua_RequesterPays bua_RetentionPolicy bua_VersioningEnabled
    bua_Website aba_BucketPolicyOnly aba_CORS aba_DefaultEventBasedHold aba_Encryption aba_Labels aba_Lifecycle
    aba_Logging aba_PredefinedACL aba_PredefinedDefaultObjectACL aba_RequesterPays aba_RetentionPolicy
    aba_VersioningEnabled aba_Website].
  rewrite lifecycle_roundtrip, cors_roundtrip, encryption_roundtrip, logging_roundtrip, website_roundtrip.
  cbn [l_Rules]. clear Hretention. generalize (NewBucketPolicyOnly (CopyToBucketPolicyOnly pol)),
    (NewRetentionPolicy (CopyToRetentionPolicy ret)), (norm_slice rules). intros pol' ret' rules'.
  split; [intros [= -> -> ->]; done|intros (-> & -> & ->); done].
Qed.

Definition example_spec : BucketSpecAttrs := {| empty_spec with
  bsa_BucketUpdatableAttrs := {| empty_updatable with
    bua_RetentionPolicy := Some {| RetentionPeriodSeconds := 86400 |};
    bua_Lifecycle := {| l_Rules := Some [{| lr_Action := {| la_StorageClass := ""; la_Type := "Delete" |};
      lr_Condition := {| lc_AgeInDays := 30; lc_CreatedBefore := zero_Time; lc_Liveness := 0;
        lc_MatchesStorageClasses := None; lc_NumNewerVersions := 0 |} |}] |} |};
  bsa_DefaultObjectACL := Some [{| ar_Entity := "allUsers"; ar_Role := "READER"; ar_EntityID := ""; ar_Domain := "";
    ar_Email := ""; ar_ProjectTeam := None |}];
  bsa_Location := "EU" |}.

Lemma bucket_attrs_roundtrip_witness :
  NewBucketUpdatableAttrs (CopyToBucketAttrs (Some example_spec.(bsa_BucketUpdatableAttrs))) =
    Some example_spec.(bsa_BucketUpdatableAttrs) ∧
  (NewBucketSpecAttrs (CopyBucketSpecAttrs (Some example_spec))).(bsa_DefaultObjectACL) = None.
Proof.
  destruct (bucket_attrs_roundtrip example_spec) as (H1 & _ & _ & _ & _ & H2).
  { intros p [= <-]. unfold MaxSeconds. simpl. lia. }
  split; [apply H1; done|exact H2].
Defined.

(** ** Labels *)

(** What a call of SetLabel or DeleteLabel asks of the labels of a bucket. *)
Definition op_label (o : LabelOp) : string := match o with SetLabel k _ => k | DeleteLabel k => k end.
Definition op_value (o : LabelOp) : option string := match o with SetLabel _ v => Some v | DeleteLabel _ => None end.
Definition apply_label (m : gmap string string) (o : LabelOp) : gmap string string :=
  partial_alter (λ _, op_value o) (op_label o) m.

(** With one call per label, each label ends up as its call says, and a label
    without a call stays as it is. *)
Lemma apply_labels_lookup ops m k :
  NoDup (op_label <$> ops) →
  foldl apply_label m ops !! k =
    match list_find (λ o, op_label o = k) ops with Some (_, o) => op_value o | None => m !! k end.
Proof.
  revert m. induction ops as [|o ops IH]; intros m Hnd; [done|]. cbn [foldl].
  rewrite fmap_cons, NoDup_cons in Hnd. destruct Hnd as [Hni Hnd]. rewrite IH by done. simpl.
  case_decide as Hk; [|destruct (list_find _ ops) as [[]|]; [done|]; by apply lookup_partial_alter_ne].
  destruct (list_find _ ops) as [[i o']|] eqn:Hf; [|unfold apply_label; rewrite Hk; apply lookup_partial_alter_eq].
  apply list_find_Some in Hf as (Hi & Ho' & _). destruct Hni.
  apply list_elem_of_fmap. exists o'. split; [congruence|]. by eapply list_elem_of_lookup_2.
Qed.

Section labels.
Context `{MapOrder}.

Lemma range_keys m : NoDup (range m).*1.
Proof using Type. rewrite range_perm. apply NoDup_fst_map_to_list. Qed.
Lemma range_elem m k v : (k, v) ∈ range m ↔ m !! k = Some v.
Proof using Type. rewrite range_perm. apply elem_of_map_to_list. Qed.
Lemma delete_all_lookup (kvs : list (string * string)) (m : gmap string string) k :
  foldl (λ m '(k, _), delete k m) m kvs !! k = if decide (k ∈ kvs.*1) then None else m !! k.
Proof using Type.
  revert m. induction kvs as [|[k' v'] kvs IH]; intros m; cbn [foldl].
  - rewrite decide_False; [done|]. apply not_elem_of_nil.
  - rewrite IH. rewrite fmap_cons. simpl. destruct (decide (k ∈ kvs.*1)).
    + rewrite decide_True; [done|]. by right.
    + destruct (decide (k = k')) as [->|Hne].
      * rewrite decide_True by (by left). apply lookup_delete_eq.
      * rewrite decide_False by (rewrite elem_of_cons; naive_solver). by apply lookup_delete_ne.
Qed.

(** The calls: SetLabel for what is wanted, DeleteLabel for what is there and
    not wanted. *)
Lemma label_ops_set wanted labels k v : SetLabel k v ∈ label_ops wanted labels ↔ entries wanted !! k = Some v.
Proof using Type.
  unfold label_ops. rewrite elem_of_app, !list_elem_of_fmap, <-range_elem. split.
  - intros [([k' v'] & [= -> ->] & Hin)|([] & [=] & _)]. done.
  - intros Hin. left. by exists (k, v).
Qed.
Lemma label_ops_delete wanted labels k :
  DeleteLabel k ∈ label_ops wanted labels ↔ is_Some (entries labels !! k) ∧ entries wanted !! k = None.
Proof using Type.
  unfold label_ops. rewrite elem_of_app, !list_elem_of_fmap.
  assert (k ∈ (range (entries wanted)).*1 ↔ is_Some (entries wanted !! k)) as Hk.
  { rewrite list_elem_of_fmap. split.
    - intros ([k' v'] & -> & Hin). apply range_elem in Hin. by exists v'.
    - intros [v Hv]. exists (k, v). split; [done|]. by apply range_elem. }
  split.
  - intros [([] & [=] & _)|([k' v'] & [= ->] & Hin)]. apply range_elem in Hin. rewrite delete_all_lookup in Hin.
    case_decide as Hd; [done|]. split; [by exists v'|]. apply eq_None_not_Some. tauto.
  - intros [[v Hv] Hnone]. right. exists (k, v). split; [done|]. apply range_elem. rewrite delete_all_lookup.
    rewrite decide_False; [done|]. rewrite Hk, Hnone. by intros [? [=]].
Qed.
Lemma label_ops_NoDup wanted labels : NoDup (op_label <$> label_ops wanted labels).
Proof using Type.
  unfold label_ops. rewrite fmap_app, <-!list_fmap_compose. apply NoDup_app. split_and!.
  - erewrite list_fmap_ext; [apply (range_keys (entries wanted))|]. by intros i [k v] _.
  - intros k Hin1 Hin2. apply list_elem_of_fmap in Hin1 as ([k1 v1] & -> & Hin1), Hin2 as ([k2 v2] & Heq & Hin2).
    simpl in Heq. subst k2. apply range_elem in Hin2. rewrite delete_all_lookup in Hin2.
    case_decide as Hd; [done|]. destruct Hd. apply list_elem_of_fmap. by exists (k1, v1).
  - erewrite list_fmap_ext; [apply range_keys|]. by intros i [k v] _.
Qed.
End labels.

(** C12: an update makes the labels of the bucket those of the spec. Whatever
    labels the bucket has, and in whatever order Go visits maps and the library
    carries out the calls of SetLabel and DeleteLabel, the labels are afterwards
    exactly the ones the spec asks for, and no label is deleted that was not
    there or that the spec has. *)
Theorem bucket_labels_exact `{MapOrder} ba labels ops
    (Hops : ops ≡ₚ (CopyToBucketUpdateAttrs ba labels).(abu_labels)) :
  foldl apply_label (entries labels) ops = entries ba.(bua_Labels) ∧
  ∀ k, DeleteLabel k ∈ ops ↔ is_Some (entries labels !! k) ∧ entries ba.(bua_Labels) !! k = None.
Proof.
  cbn [abu_labels CopyToBucketUpdateAttrs] in Hops.
  split; [|intros k; by rewrite Hops, label_ops_delete]. apply map_eq. intros k.
  rewrite apply_labels_lookup by (rewrite Hops; apply label_ops_NoDup).
  destruct (list_find _ ops) as [[i o]|] eqn:Hf.
  - apply list_find_Some in Hf as (Hi & Hk & _). apply list_elem_of_lookup_2 in Hi. rewrite Hops in Hi.
    destruct o as [k' v|k']; simpl in Hk; subst k'; simpl.
    + by apply label_ops_set in Hi as ->.
    + by apply label_ops_delete in Hi as [_ ->].
  - apply list_find_None in Hf. rewrite Forall_forall in Hf. destruct (entries (bua_Labels ba) !! k) as [v|] eqn:Hw.
    + destruct (Hf (SetLabel k v)); [|done]. rewrite Hops. by apply label_ops_set.
    + apply eq_None_not_Some. intros Hs. destruct (Hf (DeleteLabel k)); [|done]. rewrite Hops. by apply label_ops_delete.
Qed.

#[global] Instance reference_order : MapOrder := {| range := map_to_list; range_perm m := Permutation_refl _ |}.

Lemma bucket_labels_exact_witness :
  let ba := {| empty_updatable with bua_Labels := Some {[ "env" := "prod" ]} |} in
  foldl apply_label {[ "team" := "a" ]} [DeleteLabel "team"; SetLabel "env" "prod"] = {[ "env" := "prod" ]}.
Proof.
  intros ba. refine (proj1 (bucket_labels_exact ba (Some {[ "team" := "a" ]}) [DeleteLabel "team"; SetLabel "env" "prod"] _)).
  assert (label_ops (Some {[ "env" := "prod" ]}) (Some {[ "team" := "a" ]}) = [SetLabel "env" "prod"; DeleteLabel "team"])
    as Heq by (by vm_compute).
  change ([DeleteLabel "team"; SetLabel "env" "prod"] ≡ₚ label_ops (Some {[ "env" := "prod" ]}) (Some {[ "team" := "a" ]})).
  rewrite Heq. apply perm_swap.
Defined.

(** ** Attributes that never count as up to date *)

(** The service answers with times in UTC, as its API does. *)
Definition utc_attrs (X : Type) (e : BucketE X) : X → Prop :=
  match e with
  | BucketGetAttrs _ => λ r, match r with inl a => a.(aba_BucketPolicyOnly).(abpo_LockedTime).(tm_location) = "" | inr _ => True end
  | _ => λ _, True
  end.
(** A bucketPolicyOnly that is all zero, or a list of lifecycle rules that is
    there and empty. *)
Definition spelled_out_default (u : BucketUpdatableAttrs) : Prop :=
  u.(bua_BucketPolicyOnly) = Some {| bpo_Enabled := false; bpo_LockedTime := zero_Time |} ∨
  u.(bua_Lifecycle).(l_Rules) = Some [].

Lemma spelled_out_differs a u :
  a.(aba_BucketPolicyOnly).(abpo_LockedTime).(tm_location) = "" → spelled_out_default u →
  fmap (M := option) view_updatable (NewBucketUpdatableAttrs (Some a)) ≠ fmap (M := option) view_updatable (Some u).
Proof.
  intros Hutc Hu Heq%Some_inj. destruct Hu as [Hu|Hu].
  - apply (f_equal bua_BucketPolicyOnly) in Heq. revert Heq.
    cbn [view_updatable bua_BucketPolicyOnly updatable_attrs]. rewrite Hu. unfold NewBucketPolicyOnly.
    case_bool_decide as Hz; [done|]. intros [= He Ht]. destruct Hz. destruct (aba_BucketPolicyOnly a) as [e [t l]].
    simpl in *. by subst.
  - apply (f_equal bua_Lifecycle) in Heq. revert Heq.
    cbn [view_updatable bua_Lifecycle updatable_attrs]. rewrite Hu. intros [= Heq].
    unfold NewLifecycle, slice_empty in Heq. cbn [l_Rules] in Heq.
    by destruct (elems (al_Rules (aba_Lifecycle a))).
Qed.

(** Spelling out a default keeps a bucket from ever being up to date. When
    the spec that Observe ends with has a bucketPolicyOnly that is disabled and
    without locked time, or an empty list of lifecycle rules, Observe reports the bucket as
    not up to date, whatever attributes the service answers with. *)
Theorem bucket_default_never_up_to_date `{Libs} merge not_exist cr :
  always_given utc_attrs (λ '(o, _, cr'), ∀ c, cr' = Some c →
    spelled_out_default c.(ForProvider).(bsa_BucketUpdatableAttrs) → o.(ResourceUpToDate) = false)
    (Observe merge not_exist (Some cr)).
Proof.
  unfold Observe. cbn [call mbind prog_bind prog_bind_ always_given utc_attrs]. intros [a|err] Ha; [|by case_bool_decide].
  destruct (merge _ _) as [proposed|err]; [|done].
  assert (∀ c : Bucket, spelled_out_default c.(ForProvider).(bsa_BucketUpdatableAttrs) →
    cmp_Equal (same_view (fmap (M := option) view_updatable)) (NewBucketUpdatableAttrs (Some a))
      (Some c.(ForProvider).(bsa_BucketUpdatableAttrs)) = false) as Hne.
  { intros c Hc. apply cmp_Equal_false. by apply spelled_out_differs. }
  destruct (negb _); cbn [call prog_bind_ always_given utc_attrs]; [intros [cr'|err] _; [|done]|];
    intros c [= <-] Hc; by apply (Hne _ Hc).
Qed.

(** A bucket whose spec has an empty list of rules, with a merge that keeps the
    spec. *)
Definition example_bucket : Bucket := {|
  ExternalName := "bucket"; WasDeleted := false; ProviderConfigReference := None; ProviderReference := None;
  ForProvider := {| empty_spec with bsa_BucketUpdatableAttrs :=
    {| empty_spec.(bsa_BucketUpdatableAttrs) with bua_Lifecycle := {| l_Rules := Some [] |} |} |};
  AtProvider := NewBucketOutputAttrs None; Conditions := [] |}.
Lemma bucket_default_never_up_to_date_witness :
  spelled_out_default example_bucket.(ForProvider).(bsa_BucketUpdatableAttrs) ∧
  always_given utc_attrs (λ '(o, _, cr'), ∀ c, cr' = Some c →
    spelled_out_default c.(ForProvider).(bsa_BucketUpdatableAttrs) → o.(ResourceUpToDate) = false)
    (@Observe reference_libs (λ spec _, inl spec) corrupt_input (Some example_bucket)).
Proof.
  split; [right; reflexivity|].
  exact (@bucket_default_never_up_to_date reference_libs (λ spec _, inl spec) corrupt_input example_bucket).
Defined.

(** ** Errors *)

Definition bucket_fails (observing : bool) (not_exist : error) (X : Type) (e : BucketE X) : X → bool :=
  match e with
  | BucketGetAttrs _ => λ r, match r with inl _ => false | inr err => negb (observing && bool_decide (err = not_exist)) end
  | BucketCreate _ _ _ => write_fails no_excuse
  | BucketUpdate _ _ => read_fails no_excuse
  | BucketDelete _ => write_fails IsErrorNotFound
  | KubeUpdate _ => read_fails no_excuse
  end.
(** Merging the observed attributes into the spec succeeds. *)
Definition mergeable (merge : BucketSpecAttrs → BucketSpecAttrs → BucketSpecAttrs + error) (cr : Bucket)
  (X : Type) (e : BucketE X) : X → Prop :=
  match e with
  | BucketGetAttrs _ => λ r, match r with
      inl a => ∃ p, merge cr.(ForProvider) (NewBucketSpecAttrs (Some a)) = inl p | inr _ => True end
  | _ => λ _, True
  end.
(** What Update asks for is made from the spec and the labels it has just read. *)
Definition bucket_updates `{MapOrder} (cr : Bucket) (X : Type) (e : BucketE X) : Prop :=
  match e with
  | BucketGetAttrs name => name = cr.(ExternalName)
  | BucketUpdate name ua => name = cr.(ExternalName) ∧
      ∃ labels, ua = CopyToBucketUpdateAttrs cr.(ForProvider).(bsa_BucketUpdatableAttrs) labels
  | _ => False
  end.

(** While the observed attributes can be merged into the spec, the handlers
    of the Bucket controller do not panic and return an error exactly when one of
    their calls failed, where ErrBucketNotExist is no failure of Observe's read
    and NotFound no failure of Delete. Update only reads the attributes and sends what
    CopyToBucketUpdateAttrs makes of the spec. *)
Theorem bucket_controller_errors `{Libs} `{MapOrder} merge not_exist projectID cr :
  errors_given (mergeable merge cr) (bucket_fails true not_exist) (Observe merge not_exist (Some cr)) ∧
  errors_iff (bucket_fails false not_exist) (Create projectID (Some cr)) ∧
  errors_iff (bucket_fails false not_exist) (Update (Some cr)) ∧
  errors_iff (bucket_fails false not_exist) (Delete (Some cr)) ∧
  calls_only (bucket_updates cr) (Update (Some cr)).
Proof.
  split_and!.
  - unfold errors_given, Observe. cbn [call mbind prog_bind prog_bind_ errors_from bucket_fails mergeable].
    intros [a|err] Hm.
    + destruct Hm as [p ->]. destruct (negb _); cbn [call prog_bind_ errors_from bucket_fails mergeable];
        [intros [cr'|err] _|]; simpl; walk_done.
    + simpl. case_bool_decide; simpl; walk_done.
  - unfold errors_iff, errors_given, Create. cbn [call mbind prog_bind prog_bind_ errors_from bucket_fails].
    intros [err|] _; simpl; walk_done.
  - unfold errors_iff, errors_given, Update. cbn [call mbind prog_bind prog_bind_ errors_from bucket_fails].
    intros [a|err] _; [|simpl; walk_done]. cbn [call mbind prog_bind prog_bind_ errors_from bucket_fails].
    intros [a'|err] _; simpl; walk_done.
  - unfold errors_iff, errors_given, Delete. simpl. walk.
  - unfold Update. cbn [call mbind prog_bind prog_bind_ calls_only bucket_updates]. split; [done|].
    intros [a|err]; [|done]. cbn [call mbind prog_bind prog_bind_ calls_only bucket_updates]. split; [|done].
    split; [done|]. by eexists.
Qed.
