(* ===== verification/Network.v ===== *)
(** * VPC networks

    apis/compute/v1beta1/network_types.go, pkg/clients/network/network.go and
    pkg/controller/compute/network.go. *)

From S2P Require Import Prelude GoSort GoStrings Libs Contract Gcp Nested.

(** ** Types *)

Record NetworkRoutingConfig := { RoutingMode : string }.
#[global] Instance NetworkRoutingConfig_eq_dec : EqDecision NetworkRoutingConfig.
Proof. solve_decision. Defined.

Record NetworkParameters := {
  AutoCreateSubnetworks : ptr bool;
  Description : ptr string;
  RoutingConfig : ptr NetworkRoutingConfig
}.
#[global] Instance NetworkParameters_eq_dec : EqDecision NetworkParameters.
Proof. solve_decision. Defined.

Record NetworkPeering := {
  np_AutoCreateRoutes : bool;
  np_ExchangeSubnetRoutes : bool;
  np_Name : string;
  np_Network : string;
  np_State : string;
  np_StateDetails : string
}.

Record NetworkObservation := {
  no_CreationTimestamp : string;
  no_GatewayIPv4 : string;
  no_ID : Z;
  no_Peerings : slice (ptr NetworkPeering);
  no_SelfLink : string;
  no_Subnetworks : slice string
}.

Definition Network : Type := Managed NetworkParameters NetworkObservation.

(** compute.NetworkRoutingConfig, compute.NetworkPeering, compute.Network. *)
Record apiRoutingConfig := { rc_RoutingMode : string; rc_rest : rest }.
#[global] Instance apiRoutingConfig_eq_dec : EqDecision apiRoutingConfig.
Proof. solve_decision. Defined.

Record apiPeering := {
  ap_AutoCreateRoutes : bool;
  ap_ExchangeSubnetRoutes : bool;
  ap_Name : string;
  ap_Network : string;
  ap_State : string;
  ap_StateDetails : string;
  ap_rest : rest
}.
#[global] Instance apiPeering_eq_dec : EqDecision apiPeering.
Proof. solve_decision. Defined.

Record apiNetwork := {
  an_AutoCreateSubnetworks : bool;
  an_CreationTimestamp : string;
  an_Description : string;
  an_GatewayIPv4 : string;
  an_Id : Z;
  an_Name : string;
  an_Peerings : slice (ptr apiPeering);
  an_RoutingConfig : ptr apiRoutingConfig;
  an_SelfLink : string;
  an_Subnetworks : slice string;
  an_ForceSendFields : slice string;
  an_rest : rest
}.
#[global] Instance apiNetwork_eq_dec : EqDecision apiNetwork.
Proof. solve_decision. Defined.

Definition zero_network : apiNetwork := {|
  an_AutoCreateSubnetworks := false; an_CreationTimestamp := ""; an_Description := "";
  an_GatewayIPv4 := ""; an_Id := 0; an_Name := ""; an_Peerings := None; an_RoutingConfig := None;
  an_SelfLink := ""; an_Subnetworks := None; an_ForceSendFields := None; an_rest := ∅ |}.

(** ** The client *)

Definition errCheckUpToDate : string := "unable to determine if external resource is up to date".

Definition GenerateNetwork (name : string) (i : NetworkParameters) (network : apiNetwork) : apiNetwork :=
  let network := {| network with an_Name := name; an_Description := StringValue i.(Description) |} in
  let network :=
    match i.(AutoCreateSubnetworks) with
    | None => network
    | Some b =>
      let network := {| network with an_AutoCreateSubnetworks := b |} in
      if negb network.(an_AutoCreateSubnetworks)
      then {| network with an_ForceSendFields := Some ["AutoCreateSubnetworks"] |}
      else network
    end in
  match i.(RoutingConfig) with
  | None => network
  | Some rc =>
    let config := default {| rc_RoutingMode := ""; rc_rest := ∅ |} network.(an_RoutingConfig) in
    {| network with an_RoutingConfig := Some {| config with rc_RoutingMode := rc.(RoutingMode) |} |}
  end.

Definition observe_peering (p : apiPeering) : NetworkPeering := {|
  np_AutoCreateRoutes := p.(ap_AutoCreateRoutes);
  np_ExchangeSubnetRoutes := p.(ap_ExchangeSubnetRoutes);
  np_Name := p.(ap_Name);
  np_Network := p.(ap_Network);
  np_State := p.(ap_State);
  np_StateDetails := p.(ap_StateDetails) |}.

(** The peerings are dereferenced. *)
Definition GenerateNetworkObservation (i : apiNetwork) : outcome NetworkObservation :=
  peerings ← generate_derefs observe_peering i.(an_Peerings) None;
  Returns {|
    no_CreationTimestamp := i.(an_CreationTimestamp);
    no_GatewayIPv4 := i.(an_GatewayIPv4);
    no_ID := i.(an_Id);
    no_Peerings := peerings;
    no_SelfLink := i.(an_SelfLink);
    no_Subnetworks := i.(an_Subnetworks) |}.

Definition LateInitializeSpec (spec : NetworkParameters) (i : apiNetwork) : NetworkParameters := {|
  AutoCreateSubnetworks := LateInitializeBool spec.(AutoCreateSubnetworks) i.(an_AutoCreateSubnetworks);
  RoutingConfig :=
    match i.(an_RoutingConfig), spec.(RoutingConfig) with
    | Some rc, None => Some {| RoutingMode := rc.(rc_RoutingMode) |}
    | _, _ => spec.(RoutingConfig)
    end;
  Description := LateInitializeString spec.(Description) i.(an_Description) |}.

(** What cmp.Equal sees with EquateEmpty and IgnoreFields(Network,
    "ForceSendFields"). *)
Definition view_network (n : apiNetwork) : apiNetwork :=
  {| n with an_ForceSendFields := None;
            an_Peerings := norm_slice n.(an_Peerings);
            an_Subnetworks := norm_slice n.(an_Subnetworks) |}.

Section client.
Context `{Libs}.

(** The results are upTodate, switchToCustom and the error. *)
Definition IsUpToDate (name : string) (i : NetworkParameters) (observed : apiNetwork) : bool * bool * option error :=
  match copystructure_Copy observed with
  | CopyFails err => (true, false, errors_Wrap (Some err) errCheckUpToDate)
  | CopyOtherType => (true, false, errors_New errCheckUpToDate)
  | Copied desired =>
    let desired := GenerateNetwork name i desired in
    if negb desired.(an_AutoCreateSubnetworks) && observed.(an_AutoCreateSubnetworks)
    then (false, true, None)
    else (cmp_Equal (same_view view_network) desired observed, false, None)
  end.
End client.

(** ** The controller *)

Definition errNotNetwork : string := "managed resource is not a Network resource".
Definition errGetNetwork : string := "cannot get GCP network".
Definition errManagedNetworkUpdate : string := "unable to update Network managed resource".
Definition errNetworkUpdateFailed : string := "update of Network resource has failed".
Definition errNetworkCreateFailed : string := "creation of Network resource has failed".
Definition errNetworkDeleteFailed : string := "deletion of Network resource has failed".
Definition errCheckNetworkUpToDate : string := "cannot determine if GCP Network is up to date".
Definition errCheckSubnetworkUpToDate : string := "cannot determine if GCP Subnetwork is up to date".

(** The calls of this controller. kube.Update answers with the resource as the
    API server stored it. *)
Inductive NetworkE : Type → Type :=
| NetworksGet (project name : string) : NetworkE (apiNetwork + error)
| NetworksInsert (project : string) (net : apiNetwork) : NetworkE (option error)
| NetworksPatch (project name : string) (net : apiNetwork) : NetworkE (option error)
| NetworksSwitchToCustomMode (project name : string) : NetworkE (option error)
| NetworksDelete (project name : string) : NetworkE (option error)
| KubeUpdate (cr : Network) : NetworkE (Network + error).

Section controller.
Context `{Libs} (projectID : string).

Definition Observe (mg : option Network)
  : prog NetworkE (ExternalObservation * option error * option Network) :=
  match mg with
  | None => mret (no_observation, errors_New errNotNetwork, None)
  | Some cr =>
    r ← call (NetworksGet projectID cr.(ExternalName));
    match r with
    | inr err =>
      mret (no_observation, errors_Wrap (resource_Ignore IsErrorNotFound (Some err)) errGetNetwork, Some cr)
    | inl observed =>
      let currentSpec := cr.(ForProvider) in
      let cr := {| cr with ForProvider := LateInitializeSpec cr.(ForProvider) observed |} in
      u ← (if negb (cmp_Equal (=) currentSpec cr.(ForProvider)) then call (KubeUpdate cr) else mret (inl cr));
      match u with
      | inr err => mret (no_observation, errors_Wrap (Some err) errManagedNetworkUpdate, Some cr)
      | inl cr =>
        at_provider ← lift (GenerateNetworkObservation observed);
        let cr := {| cr with AtProvider := at_provider |} in
        let cr := set_condition Available cr in
        match IsUpToDate cr.(ExternalName) cr.(ForProvider) observed with
        | (_, _, Some err) => mret (no_observation, errors_Wrap (Some err) errCheckNetworkUpToDate, Some cr)
        | (u, _, None) =>
          mret ({| no_observation with ResourceExists := true; ResourceUpToDate := u |}, None, Some cr)
        end
      end
    end
  end.

Definition Create (mg : option Network)
  : prog NetworkE (ExternalCreation * option error * option Network) :=
  match mg with
  | None => mret (no_creation, errors_New errNotNetwork, None)
  | Some cr =>
    let cr := set_condition Creating cr in
    let net := GenerateNetwork cr.(ExternalName) cr.(ForProvider) zero_network in
    err ← call (NetworksInsert projectID net);
    mret (no_creation, errors_Wrap err errNetworkCreateFailed, Some cr)
  end.

Definition Update (mg : option Network) : prog NetworkE (option error * option Network) :=
  match mg with
  | None => mret (errors_New errNotNetwork, None)
  | Some cr =>
    r ← call (NetworksGet projectID cr.(ExternalName));
    match r with
    | inr err => mret (errors_Wrap (resource_Ignore IsErrorNotFound (Some err)) errGetNetwork, Some cr)
    | inl observed =>
      match IsUpToDate cr.(ExternalName) cr.(ForProvider) observed with
      | (_, _, Some err) => mret (errors_Wrap (Some err) errCheckSubnetworkUpToDate, Some cr)
      | (true, _, None) => mret (None, Some cr)
      | (false, true, None) =>
        err ← call (NetworksSwitchToCustomMode projectID cr.(ExternalName));
        mret (errors_Wrap err errNetworkUpdateFailed, Some cr)
      | (false, false, None) =>
        let net := GenerateNetwork cr.(ExternalName) cr.(ForProvider) zero_network in
        err ← call (NetworksPatch projectID cr.(ExternalName) net);
        mret (errors_Wrap err errNetworkUpdateFailed, Some cr)
      end
    end
  end.

Definition Delete (mg : option Network) : prog NetworkE (option error * option Network) :=
  match mg with
  | None => mret (errors_New errNotNetwork, None)
  | Some cr =>
    let cr := set_condition Deleting cr in
    err ← call (NetworksDelete projectID cr.(ExternalName));
    mret (errors_Wrap (resource_Ignore IsErrorNotFound err) errNetworkDeleteFailed, Some cr)
  end.
End controller.

(** ** Lemmas *)

(** A routing mode the user chose is the observed one. *)
Definition routing_agrees (x : ptr NetworkRoutingConfig) (o : ptr apiRoutingConfig) : Prop :=
  match x with None => True | Some rc => rc_RoutingMode <$> o = Some rc.(RoutingMode) end.
#[global] Instance routing_agrees_dec x o : Decision (routing_agrees x o).
Proof. unfold routing_agrees. destruct x; apply _. Defined.

(** The observed network is what the parameters ask for. *)
Definition network_matches (name : string) (i : NetworkParameters) (o : apiNetwork) : Prop :=
  o.(an_Name) = name ∧ o.(an_Description) = StringValue i.(Description) ∧
  agrees i.(AutoCreateSubnetworks) o.(an_AutoCreateSubnetworks) ∧
  routing_agrees i.(RoutingConfig) o.(an_RoutingConfig).
#[global] Instance network_matches_dec name i o : Decision (network_matches name i o).
Proof. unfold network_matches. apply _. Defined.

Lemma view_generated name i o :
  same_view view_network (GenerateNetwork name i o) o ↔ network_matches name i o.
Proof.
  unfold same_view, network_matches, GenerateNetwork, view_network, agrees, routing_agrees.
  destruct i as [auto desc routing], o as [oauto ? odesc ? ? oname ? orc ? ? ? ?]; simpl.
  destruct auto as [[]|], routing as [[mode]|], orc as [[omode orest]|]; simpl; split;
    try (intros [=]; subst; naive_solver); naive_solver congruence.
Qed.

Section lemmas.
Context `{Libs} `{!CopySucceeds}.

Lemma network_IsUpToDate_spec name i o :
  IsUpToDate name i o =
    (if bool_decide (i.(AutoCreateSubnetworks) = Some false) && o.(an_AutoCreateSubnetworks)
     then (false, true, None) else (bool_decide (network_matches name i o), false, None)).
Proof using Type*.
  unfold IsUpToDate. rewrite copy_succeeds, cmp_Equal_decides.
  rewrite (bool_decide_ext _ _ (view_generated name i o)).
  assert (negb (GenerateNetwork name i o).(an_AutoCreateSubnetworks) && o.(an_AutoCreateSubnetworks) =
    bool_decide (i.(AutoCreateSubnetworks) = Some false) && o.(an_AutoCreateSubnetworks)) as ->; [|done].
  unfold GenerateNetwork. destruct i as [[[]|] desc [rc|]], (o.(an_AutoCreateSubnetworks)) eqn:Ho;
    simpl; rewrite ?Ho, ?andb_false_r; done.
Qed.
End lemmas.
#[local] Hint Rewrite @network_IsUpToDate_spec using exact _ : handlers.

(** What late initialization must keep of a spec. *)
Definition keeps_spec (i i' : NetworkParameters) : Prop :=
  keeps i.(AutoCreateSubnetworks) i'.(AutoCreateSubnetworks) ∧
  keeps i.(Description) i'.(Description) ∧ keeps i.(RoutingConfig) i'.(RoutingConfig).

Lemma network_LateInitializeSpec_keeps i o : keeps_spec i (LateInitializeSpec i o).
Proof.
  split_and!; simpl; auto with late. unfold keeps.
  destruct i.(RoutingConfig), o.(an_RoutingConfig); naive_solver.
Qed.

#[local] Hint Resolve network_LateInitializeSpec_keeps : handlers.

(** After late initialization only what the user chose can differ. *)
Lemma network_late_matches name i o :
  network_matches name (LateInitializeSpec i o) o ↔
  o.(an_Name) = name ∧ agrees i.(Description) o.(an_Description) ∧
  agrees i.(AutoCreateSubnetworks) o.(an_AutoCreateSubnetworks) ∧
  routing_agrees i.(RoutingConfig) o.(an_RoutingConfig).
Proof.
  unfold network_matches, agrees. simpl. autorewrite with late.
  destruct i as [auto desc routing], o as [oauto ? odesc ? ? oname ? orc ? ? ? ?]; simpl.
  destruct auto as [[]|], oauto, routing as [[mode]|], orc as [[omode orest]|]; simpl; naive_solver.
Qed.

(** ** Properties *)

(** Late initialization of a network spec changes no field the user set and
    is idempotent. *)
Theorem network_late_init_keeps i o :
  keeps_spec i (LateInitializeSpec i o) ∧
  LateInitializeSpec (LateInitializeSpec i o) o = LateInitializeSpec i o.
Proof.
  split; [apply network_LateInitializeSpec_keeps|]. unfold LateInitializeSpec; simpl.
  autorewrite with late. by destruct i.(RoutingConfig), o.(an_RoutingConfig).
Qed.

(** What to do about a network. For a late-initialized spec IsUpToDate asks
    for the switch to custom mode exactly when the user set
    autoCreateSubnetworks to false and the network is in auto mode; otherwise it
    answers that the network is up to date exactly when it has the name and
    every field the user set; and generating the spec over any network without
    that switch gives an up-to-date network. *)
Theorem network_up_to_date_iff `{Libs} `{!CopySucceeds} name i o :
  IsUpToDate name (LateInitializeSpec i o) o =
    (if bool_decide (i.(AutoCreateSubnetworks) = Some false) && o.(an_AutoCreateSubnetworks)
     then (false, true, None)
     else (bool_decide (o.(an_Name) = name ∧ agrees i.(Description) o.(an_Description) ∧
             agrees i.(AutoCreateSubnetworks) o.(an_AutoCreateSubnetworks) ∧
             routing_agrees i.(RoutingConfig) o.(an_RoutingConfig)), false, None)) ∧
  IsUpToDate name i (GenerateNetwork name i o) = (true, false, None).
Proof.
  rewrite !network_IsUpToDate_spec, (bool_decide_ext _ _ (network_late_matches name i o)). split.
  - simpl. by destruct i.(AutoCreateSubnetworks) as [[]|], o.(an_AutoCreateSubnetworks).
  - rewrite (bool_decide_eq_true_2 (network_matches _ _ _)).
    + unfold GenerateNetwork. destruct i as [[[]|] ? [?|]]; simpl; rewrite ?andb_false_r; done.
    + unfold network_matches, GenerateNetwork, agrees, routing_agrees.
      destruct i as [[[]|] ? [?|]]; simpl; done.
Qed.

Lemma network_up_to_date_iff_witness :
  @IsUpToDate reference_libs "n"
    (LateInitializeSpec {| AutoCreateSubnetworks := Some false; Description := None; RoutingConfig := None |}
       {| zero_network with an_AutoCreateSubnetworks := true |})
    {| zero_network with an_AutoCreateSubnetworks := true |} = (false, true, None).
Proof. apply (@network_up_to_date_iff reference_libs reference_copy). Defined.

(** The responses that are failures: of Get and Delete, NotFound is none. *)
Definition network_fails (X : Type) (e : NetworkE X) : X → bool :=
  match e with
  | NetworksGet _ _ => read_fails IsErrorNotFound
  | NetworksDelete _ _ => write_fails IsErrorNotFound
  | NetworksInsert _ _ | NetworksPatch _ _ _ | NetworksSwitchToCustomMode _ _ => write_fails no_excuse
  | KubeUpdate _ => read_fails no_excuse
  end.

(** The calls Observe may make for the resource [cr]: read the network of that
    name in the project, and write back [cr] with a spec that keeps the user's
    choices. *)
Definition network_observe_calls (projectID : string) (cr : Network) (X : Type) (e : NetworkE X) : Prop :=
  match e with
  | NetworksGet p n => p = projectID ∧ n = cr.(ExternalName)
  | KubeUpdate cr' => late_update keeps_spec cr cr'
  | _ => False
  end.

(** A network that is read has no nil peering. *)
Definition network_answers (X : Type) (e : NetworkE X) : X → Prop :=
  match e with
  | NetworksGet _ _ => λ r, match r with inl o => no_nil o.(an_Peerings) | inr _ => True end
  | _ => λ _, True
  end.
Lemma GenerateNetworkObservation_returns i :
  no_nil i.(an_Peerings) → ∃ o, GenerateNetworkObservation i = Returns o.
Proof. intros Hi. unfold GenerateNetworkObservation. rewrite generate_derefs_spec, no_nil_existsb by done. by eexists. Qed.

(** Where no peering that is read is nil, the handlers of the Network controller
    never panic and return an error exactly when one of their calls failed, where
    NotFound is no failure of Get and Delete; after a failure they call nothing
    more. Observe reads the network and writes nothing but a spec that keeps what
    the user set. *)
Theorem network_controller_errors `{Libs} `{!CopySucceeds} projectID cr :
  errors_given network_answers network_fails (Observe projectID (Some cr)) ∧
  stops_on_failure network_fails (Observe projectID (Some cr)) ∧
  calls_only (network_observe_calls projectID cr) (Observe projectID (Some cr)) ∧
  always_given network_answers (λ '(o, err, _), err ≠ None ∨ o.(ResourceExists) = false → o = no_observation)
    (Observe projectID (Some cr)) ∧
  errors_iff network_fails (Create projectID (Some cr)) ∧
  errors_iff network_fails (Update projectID (Some cr)) ∧
  stops_on_failure network_fails (Update projectID (Some cr)) ∧
  errors_iff network_fails (Delete projectID (Some cr)).
Proof.
  unfold errors_iff, errors_given. split_and!; simpl; walk.
  all: match goal with |- context [GenerateNetworkObservation ?n] =>
    try (destruct (GenerateNetworkObservation_returns n) as [ob ->]; [done|]; simpl; walk);
    try (destruct (GenerateNetworkObservation n) as [ob|]; simpl; walk) end.
Qed.

Definition no_network_observation : NetworkObservation := {|
  no_CreationTimestamp := ""; no_GatewayIPv4 := ""; no_ID := 0; no_Peerings := None; no_SelfLink := "";
  no_Subnetworks := None |}.

Lemma network_controller_errors_witness :
  errors_iff network_fails (@Update reference_libs "project" (Some (fresh "n"
    {| AutoCreateSubnetworks := Some false; Description := None; RoutingConfig := None |} no_network_observation))).
Proof. apply (@network_controller_errors reference_libs reference_copy). Defined.
