(* ===== verification/Subnetwork.v ===== *)
(** * Subnetworks

    apis/compute/v1beta1/subnetwork_types.go, pkg/clients/subnetwork/subnetwork.go
    and pkg/controller/compute/subnetwork.go. *)

From S2P Require Import Prelude GoSort GoStrings Libs Contract Gcp Nested.

(** ** Types *)

Record SubnetworkSecondaryRange := { IPCidrRange : string; RangeName : string }.
#[global] Instance SubnetworkSecondaryRange_eq_dec : EqDecision SubnetworkSecondaryRange.
Proof. solve_decision. Defined.

Record SubnetworkParameters := {
  s_IPCidrRange : string;
  s_Network : ptr string;
  s_NetworkRef : ptr Reference;
  s_NetworkSelector : ptr Selector;
  s_Region : string;
  s_Description : ptr string;
  s_EnableFlowLogs : ptr bool;
  s_PrivateIPGoogleAccess : ptr bool;
  s_SecondaryIPRanges : slice (ptr SubnetworkSecondaryRange)
}.
#[global] Instance SubnetworkParameters_eq_dec : EqDecision SubnetworkParameters.
Proof. solve_decision. Defined.

Record SubnetworkObservation := {
  so_CreationTimestamp : string;
  so_Fingerprint : string;
  so_GatewayAddress : string;
  so_ID : Z;
  so_SelfLink : string
}.

Definition Subnetwork : Type := Managed SubnetworkParameters SubnetworkObservation.

(** compute.SubnetworkSecondaryRange and compute.Subnetwork. *)
Record apiSecondaryRange := { ar_IpCidrRange : string; ar_RangeName : string; ar_rest : rest }.
#[global] Instance apiSecondaryRange_eq_dec : EqDecision apiSecondaryRange.
Proof. solve_decision. Defined.

Record apiSubnetwork := {
  as_CreationTimestamp : string;
  as_Description : string;
  as_EnableFlowLogs : bool;
  as_Fingerprint : string;
  as_GatewayAddress : string;
  as_Id : Z;
  as_IpCidrRange : string;
  as_Name : string;
  as_Network : string;
  as_PrivateIpGoogleAccess : bool;
  as_Region : string;
  as_SecondaryIpRanges : slice (ptr apiSecondaryRange);
  as_SelfLink : string;
  as_rest : rest
}.

Definition zero_subnetwork : apiSubnetwork := {|
  as_CreationTimestamp := ""; as_Description := ""; as_EnableFlowLogs := false; as_Fingerprint := "";
  as_GatewayAddress := ""; as_Id := 0; as_IpCidrRange := ""; as_Name := ""; as_Network := "";
  as_PrivateIpGoogleAccess := false; as_Region := ""; as_SecondaryIpRanges := None; as_SelfLink := "";
  as_rest := ∅ |}.

(** ** The client *)

Definition errCheckUpToDate : string := "unable to determine if external resource is up to date".

Definition generate_range (val : SubnetworkSecondaryRange) : apiSecondaryRange := {|
  ar_IpCidrRange := val.(IPCidrRange); ar_RangeName := val.(RangeName); ar_rest := ∅ |}.

Definition GenerateSubnetwork (name : string) (i : SubnetworkParameters) (subnet : apiSubnetwork) : outcome apiSubnetwork :=
  ranges ← generate_derefs generate_range i.(s_SecondaryIPRanges) subnet.(as_SecondaryIpRanges);
  Returns {| subnet with
     as_Name := name;
     as_Description := StringValue i.(s_Description);
     as_EnableFlowLogs := BoolValue i.(s_EnableFlowLogs);
     as_IpCidrRange := i.(s_IPCidrRange);
     as_Network := StringValue i.(s_Network);
     as_PrivateIpGoogleAccess := BoolValue i.(s_PrivateIPGoogleAccess);
     as_Region := i.(s_Region);
     as_SecondaryIpRanges := ranges |}.

Definition GenerateSubnetworkForUpdate (s : Subnetwork) (name : string) : outcome apiSubnetwork :=
  let i := s.(ForProvider) in
  ranges ← generate_derefs generate_range i.(s_SecondaryIPRanges) None;
  Returns {| zero_subnetwork with
     as_Name := name;
     as_Description := StringValue i.(s_Description);
     as_EnableFlowLogs := BoolValue i.(s_EnableFlowLogs);
     as_IpCidrRange := i.(s_IPCidrRange);
     as_PrivateIpGoogleAccess := BoolValue i.(s_PrivateIPGoogleAccess);
     as_Fingerprint := s.(AtProvider).(so_Fingerprint);
     as_SecondaryIpRanges := ranges |}.

Definition GenerateSubnetworkObservation (i : apiSubnetwork) : SubnetworkObservation := {|
  so_CreationTimestamp := i.(as_CreationTimestamp);
  so_Fingerprint := i.(as_Fingerprint);
  so_GatewayAddress := i.(as_GatewayAddress);
  so_ID := i.(as_Id);
  so_SelfLink := i.(as_SelfLink) |}.

Definition observe_range (r : apiSecondaryRange) : SubnetworkSecondaryRange := {|
  IPCidrRange := r.(ar_IpCidrRange); RangeName := r.(ar_RangeName) |}.

Definition LateInitializeSpec (spec : SubnetworkParameters) (i : apiSubnetwork) : outcome SubnetworkParameters :=
  ranges ← late_elems observe_range spec.(s_SecondaryIPRanges) i.(as_SecondaryIpRanges);
  Returns {| spec with
     s_IPCidrRange := if bool_decide (spec.(s_IPCidrRange) = "") then i.(as_IpCidrRange) else spec.(s_IPCidrRange);
     s_Region := if bool_decide (spec.(s_Region) = "") then i.(as_Region) else spec.(s_Region);
     s_Network := LateInitializeString spec.(s_Network) i.(as_Network);
     s_Description := LateInitializeString spec.(s_Description) i.(as_Description);
     s_EnableFlowLogs := LateInitializeBool spec.(s_EnableFlowLogs) i.(as_EnableFlowLogs);
     s_PrivateIPGoogleAccess := LateInitializeBool spec.(s_PrivateIPGoogleAccess) i.(as_PrivateIpGoogleAccess);
     s_SecondaryIPRanges := ranges |}.

(** ** What cmp.Equal sees

    The comparer of EquateComputeURLs applies to every string of the struct;
    equateSecondaryRanges sorts by range name, descending; EquateEmpty makes nil
    and empty slices equal. *)

Definition url_same (a b : string) : Prop := EquateComputeURLs a b = true.
#[global] Instance url_same_dec : RelDecision url_same.
Proof. intros a b. unfold url_same. apply _. Defined.

Definition range_same (x y : apiSecondaryRange) : Prop :=
  url_same x.(ar_IpCidrRange) y.(ar_IpCidrRange) ∧ url_same x.(ar_RangeName) y.(ar_RangeName) ∧
  x.(ar_rest) = y.(ar_rest).
#[global] Instance range_same_dec : RelDecision range_same.
Proof. intros x y. unfold range_same. apply _. Defined.

Definition equateSecondaryRanges (i j : apiSecondaryRange) : bool :=
  string_greater i.(ar_RangeName) j.(ar_RangeName).

Definition ranges_same (x y : slice (ptr apiSecondaryRange)) : Prop :=
  Forall2 (ptr_same range_same) (stable_sort (less_ptr equateSecondaryRanges) (elems x))
    (stable_sort (less_ptr equateSecondaryRanges) (elems y)).

Definition subnetwork_same (x y : apiSubnetwork) : Prop :=
  url_same x.(as_CreationTimestamp) y.(as_CreationTimestamp) ∧
  url_same x.(as_Description) y.(as_Description) ∧
  x.(as_EnableFlowLogs) = y.(as_EnableFlowLogs) ∧
  url_same x.(as_Fingerprint) y.(as_Fingerprint) ∧
  url_same x.(as_GatewayAddress) y.(as_GatewayAddress) ∧
  x.(as_Id) = y.(as_Id) ∧
  url_same x.(as_IpCidrRange) y.(as_IpCidrRange) ∧
  url_same x.(as_Name) y.(as_Name) ∧
  url_same x.(as_Network) y.(as_Network) ∧
  x.(as_PrivateIpGoogleAccess) = y.(as_PrivateIpGoogleAccess) ∧
  url_same x.(as_Region) y.(as_Region) ∧
  ranges_same x.(as_SecondaryIpRanges) y.(as_SecondaryIpRanges) ∧
  url_same x.(as_SelfLink) y.(as_SelfLink) ∧
  x.(as_rest) = y.(as_rest).
#[global] Instance subnetwork_same_dec : RelDecision subnetwork_same.
Proof. intros x y. unfold subnetwork_same, ranges_same. apply _. Defined.

Section client.
Context `{Libs}.

(** The results are upToDate, privateAccess and the error. Sorting dereferences the ranges. *)
Definition IsUpToDate (name : string) (i : SubnetworkParameters) (observed : apiSubnetwork)
  : outcome (bool * bool * option error) :=
  match copystructure_Copy observed with
  | CopyFails err => Returns (true, false, errors_Wrap (Some err) errCheckUpToDate)
  | CopyOtherType => Returns (true, false, errors_New errCheckUpToDate)
  | Copied desired =>
    desired ← GenerateSubnetwork name i desired;
    if negb (cmp_Equal (=) desired.(as_PrivateIpGoogleAccess) observed.(as_PrivateIpGoogleAccess))
    then Returns (false, true, None)
    else if sorts_nil desired.(as_SecondaryIpRanges) || sorts_nil observed.(as_SecondaryIpRanges) then Panics
    else Returns (cmp_Equal subnetwork_same desired observed, false, None)
  end.
End client.

(** ** The controller *)

Definition errNotSubnetwork : string := "managed resource is not a Subnetwork resource".
Definition errManagedSubnetworkUpdate : string := "unable to update Subnetwork managed resource".
Definition errGetSubnetwork : string := "unable to get GCP Subnetwork".
Definition errUpdateSubnetworkFailed : string := "update of GCP Subnetwork has failed".
Definition errUpdateSubnetworkPAFailed : string := "unable to update GCP Subnetwork Private IP Google Access".
Definition errCreateSubnetworkFailed : string := "creation of GCP Subnetwork resource has failed".
Definition errDeleteSubnetworkFailed : string := "deletion of GCP Subnetwork resource has failed".
Definition errCheckSubnetworkUpToDate : string := "cannot determine if GCP Subnetwork is up to date".

Inductive SubnetworkE : Type → Type :=
| SubnetworksGet (project region name : string) : SubnetworkE (apiSubnetwork + error)
| SubnetworksInsert (project region : string) (subnet : apiSubnetwork) : SubnetworkE (option error)
| SubnetworksPatch (project region name : string) (subnet : apiSubnetwork) : SubnetworkE (option error)
| SubnetworksSetPrivateIpGoogleAccess (project region name : string) (access : bool) : SubnetworkE (option error)
| SubnetworksDelete (project region name : string) : SubnetworkE (option error)
| KubeUpdate (cr : Subnetwork) : SubnetworkE (Subnetwork + error).

Section controller.
Context `{Libs} (projectID : string).

Definition Observe (mg : option Subnetwork)
  : prog SubnetworkE (ExternalObservation * option error * option Subnetwork) :=
  match mg with
  | None => mret (no_observation, errors_New errNotSubnetwork, None)
  | Some cr =>
    r ← call (SubnetworksGet projectID cr.(ForProvider).(s_Region) cr.(ExternalName));
    match r with
    | inr err =>
      mret (no_observation, errors_Wrap (resource_Ignore IsErrorNotFound (Some err)) errGetSubnetwork, Some cr)
    | inl observed =>
      let currentSpec := cr.(ForProvider) in
      i ← lift (LateInitializeSpec cr.(ForProvider) observed);
      let cr := {| cr with ForProvider := i |} in
      u ← (if negb (cmp_Equal (=) currentSpec cr.(ForProvider)) then call (KubeUpdate cr) else mret (inl cr));
      match u with
      | inr err => mret (no_observation, errors_Wrap (Some err) errManagedSubnetworkUpdate, Some cr)
      | inl cr =>
        let cr := {| cr with AtProvider := GenerateSubnetworkObservation observed |} in
        up ← lift (IsUpToDate cr.(ExternalName) cr.(ForProvider) observed);
        match up with
        | (_, _, Some err) => mret (no_observation, errors_Wrap (Some err) errCheckSubnetworkUpToDate, Some cr)
        | (u, _, None) =>
          let cr := set_condition Available cr in
          mret ({| no_observation with ResourceExists := true; ResourceUpToDate := u |}, None, Some cr)
        end
      end
    end
  end.

Definition Create (mg : option Subnetwork)
  : prog SubnetworkE (ExternalCreation * option error * option Subnetwork) :=
  match mg with
  | None => mret (no_creation, errors_New errNotSubnetwork, None)
  | Some cr =>
    let cr := set_condition Creating cr in
    subnet ← lift (GenerateSubnetwork cr.(ExternalName) cr.(ForProvider) zero_subnetwork);
    err ← call (SubnetworksInsert projectID cr.(ForProvider).(s_Region) subnet);
    mret (no_creation, errors_Wrap err errCreateSubnetworkFailed, Some cr)
  end.

Definition Update (mg : option Subnetwork) : prog SubnetworkE (option error * option Subnetwork) :=
  match mg with
  | None => mret (errors_New errNotSubnetwork, None)
  | Some cr =>
    r ← call (SubnetworksGet projectID cr.(ForProvider).(s_Region) cr.(ExternalName));
    match r with
    | inr err => mret (errors_Wrap (resource_Ignore IsErrorNotFound (Some err)) errGetSubnetwork, Some cr)
    | inl observed =>
      up ← lift (IsUpToDate cr.(ExternalName) cr.(ForProvider) observed);
      match up with
      | (_, _, Some err) => mret (errors_Wrap (Some err) errCheckSubnetworkUpToDate, Some cr)
      | (true, _, None) => mret (None, Some cr)
      | (false, true, None) =>
        access ← lift (deref cr.(ForProvider).(s_PrivateIPGoogleAccess));
        err ← call (SubnetworksSetPrivateIpGoogleAccess projectID cr.(ForProvider).(s_Region) cr.(ExternalName) access);
        mret (errors_Wrap err errUpdateSubnetworkPAFailed, Some cr)
      | (false, false, None) =>
        subnetUpdate ← lift (GenerateSubnetworkForUpdate cr cr.(ExternalName));
        err ← call (SubnetworksPatch projectID cr.(ForProvider).(s_Region) cr.(ExternalName) subnetUpdate);
        mret (errors_Wrap err errUpdateSubnetworkFailed, Some cr)
      end
    end
  end.

Definition Delete (mg : option Subnetwork) : prog SubnetworkE (option error * option Subnetwork) :=
  match mg with
  | None => mret (errors_New errNotSubnetwork, None)
  | Some cr =>
    let cr := set_condition Deleting cr in
    err ← call (SubnetworksDelete projectID cr.(ForProvider).(s_Region) cr.(ExternalName));
    mret (errors_Wrap (resource_Ignore IsErrorNotFound err) errDeleteSubnetworkFailed, Some cr)
  end.
End controller.

(** ** Lemmas *)

#[global] Instance url_same_refl : Reflexive url_same.
Proof. intros a. unfold url_same, EquateComputeURLs. by rewrite bool_decide_eq_true_2. Qed.
#[global] Instance range_same_refl : Reflexive range_same.
Proof. intros x. by split_and!. Qed.
Lemma ranges_same_refl x : ranges_same x x.
Proof. unfold ranges_same. by induction (stable_sort _ _); constructor. Qed.
#[local] Hint Resolve ranges_same_refl : late.

(** The user's choice, if any, is the observed value as a compute URL. *)
Definition url_agrees (x : ptr string) (v : string) : Prop := url_same (default v x) v.
(** Fields that are plain strings count as chosen when not empty. *)
Definition chosen (x : string) : ptr string := if bool_decide (x = "") then None else Some x.

(** What GenerateSubnetwork and LateInitializeSpec return when they do. *)
Definition generated (name : string) (i : SubnetworkParameters) (subnet : apiSubnetwork) : apiSubnetwork :=
  {| subnet with
     as_Name := name;
     as_Description := StringValue i.(s_Description);
     as_EnableFlowLogs := BoolValue i.(s_EnableFlowLogs);
     as_IpCidrRange := i.(s_IPCidrRange);
     as_Network := StringValue i.(s_Network);
     as_PrivateIpGoogleAccess := BoolValue i.(s_PrivateIPGoogleAccess);
     as_Region := i.(s_Region);
     as_SecondaryIpRanges := generate_elems generate_range i.(s_SecondaryIPRanges) subnet.(as_SecondaryIpRanges) |}.
Lemma GenerateSubnetwork_spec name i subnet :
  GenerateSubnetwork name i subnet =
    if has_nil (elems i.(s_SecondaryIPRanges)) then Panics else Returns (generated name i subnet).
Proof. unfold GenerateSubnetwork. rewrite generate_derefs_spec. by destruct (existsb _ _). Qed.
Lemma GenerateSubnetworkForUpdate_returns s name :
  no_nil s.(ForProvider).(s_SecondaryIPRanges) → ∃ subnet, GenerateSubnetworkForUpdate s name = Returns subnet.
Proof.
  intros Hs. unfold GenerateSubnetworkForUpdate. rewrite generate_derefs_spec, no_nil_existsb by done. by eexists.
Qed.

(** It dereferences the ranges that it copies. *)
Definition copies_nil (spec : slice (ptr SubnetworkSecondaryRange)) (o : slice (ptr apiSecondaryRange)) : bool :=
  slice_empty spec && has_nil (elems o).
Definition late_initialized (spec : SubnetworkParameters) (i : apiSubnetwork) : SubnetworkParameters :=
  {| spec with
     s_IPCidrRange := if bool_decide (spec.(s_IPCidrRange) = "") then i.(as_IpCidrRange) else spec.(s_IPCidrRange);
     s_Region := if bool_decide (spec.(s_Region) = "") then i.(as_Region) else spec.(s_Region);
     s_Network := LateInitializeString spec.(s_Network) i.(as_Network);
     s_Description := LateInitializeString spec.(s_Description) i.(as_Description);
     s_EnableFlowLogs := LateInitializeBool spec.(s_EnableFlowLogs) i.(as_EnableFlowLogs);
     s_PrivateIPGoogleAccess := LateInitializeBool spec.(s_PrivateIPGoogleAccess) i.(as_PrivateIpGoogleAccess);
     s_SecondaryIPRanges := late_list observe_range spec.(s_SecondaryIPRanges) i.(as_SecondaryIpRanges) |}.
Lemma LateInitializeSpec_spec spec i :
  LateInitializeSpec spec i =
    if copies_nil spec.(s_SecondaryIPRanges) i.(as_SecondaryIpRanges) then Panics else Returns (late_initialized spec i).
Proof.
  unfold LateInitializeSpec, late_initialized, copies_nil. rewrite late_elems_list. by destruct (_ && _).
Qed.

(** The observed subnetwork is what the parameters ask for, up to URL forms. *)
Definition subnetwork_matches (name : string) (i : SubnetworkParameters) (o : apiSubnetwork) : Prop :=
  url_same (StringValue i.(s_Description)) o.(as_Description) ∧
  BoolValue i.(s_EnableFlowLogs) = o.(as_EnableFlowLogs) ∧
  url_same i.(s_IPCidrRange) o.(as_IpCidrRange) ∧
  url_same name o.(as_Name) ∧
  url_same (StringValue i.(s_Network)) o.(as_Network) ∧
  url_same i.(s_Region) o.(as_Region) ∧
  (slice_empty i.(s_SecondaryIPRanges) = false →
     ranges_same (Some (each generate_range (elems i.(s_SecondaryIPRanges)))) o.(as_SecondaryIpRanges)).
#[global] Instance subnetwork_matches_dec name i o : Decision (subnetwork_matches name i o).
Proof. unfold subnetwork_matches, ranges_same. apply _. Defined.

Lemma same_generated name i o :
  BoolValue i.(s_PrivateIPGoogleAccess) = o.(as_PrivateIpGoogleAccess) →
  subnetwork_same (generated name i o) o ↔ subnetwork_matches name i o.
Proof.
  intros Hpa. unfold subnetwork_same, subnetwork_matches, generated, generate_elems. simpl.
  assert (ranges_same (if slice_empty (s_SecondaryIPRanges i) then as_SecondaryIpRanges o
      else Some (each generate_range (elems (s_SecondaryIPRanges i)))) (as_SecondaryIpRanges o) ↔
    (slice_empty i.(s_SecondaryIPRanges) = false →
     ranges_same (Some (each generate_range (elems i.(s_SecondaryIPRanges)))) o.(as_SecondaryIpRanges))) as Hr.
  { destruct (slice_empty _); [split; [done|intros _; apply ranges_same_refl]|naive_solver]. }
  rewrite Hr. pose proof (url_same_refl o.(as_CreationTimestamp)). pose proof (url_same_refl o.(as_Fingerprint)).
  pose proof (url_same_refl o.(as_GatewayAddress)). pose proof (url_same_refl o.(as_SelfLink)). tauto.
Qed.

(** The comparison, with its two panics: a nil range in the spec, and, when the
    comparison gets to them, a nil range among several observed ones. *)
Lemma subnetwork_IsUpToDate_spec `{Libs} `{!CopySucceeds} name i o :
  IsUpToDate name i o =
    if has_nil (elems i.(s_SecondaryIPRanges)) then Panics
    else if bool_decide (BoolValue i.(s_PrivateIPGoogleAccess) = o.(as_PrivateIpGoogleAccess))
    then if sorts_nil o.(as_SecondaryIpRanges) then Panics
         else Returns (bool_decide (subnetwork_matches name i o), false, None)
    else Returns (false, true, None).
Proof.
  unfold IsUpToDate. rewrite copy_succeeds, GenerateSubnetwork_spec.
  destruct (existsb _ (elems (s_SecondaryIPRanges i))) eqn:Hnil; [done|]. cbn [mbind outcome_bind].
  rewrite !cmp_Equal_decides. cbn [as_PrivateIpGoogleAccess generated].
  case_bool_decide as Hpa; simpl; [|done].
  assert (sorts_nil (generate_elems generate_range (s_SecondaryIPRanges i) (as_SecondaryIpRanges o)) ||
    sorts_nil (as_SecondaryIpRanges o) = sorts_nil (as_SecondaryIpRanges o)) as ->.
  { unfold generate_elems. destruct (slice_empty _); [apply orb_diag|].
    rewrite sorts_nil_false; [done|]. unfold no_nil. apply has_nil_false. simpl. by rewrite has_nil_each. }
  by rewrite (bool_decide_ext _ _ (same_generated name i o Hpa)).
Qed.

Definition keeps_spec (i i' : SubnetworkParameters) : Prop :=
  keeps_string i.(s_IPCidrRange) i'.(s_IPCidrRange) ∧ keeps i.(s_Network) i'.(s_Network) ∧
  i'.(s_NetworkRef) = i.(s_NetworkRef) ∧ i'.(s_NetworkSelector) = i.(s_NetworkSelector) ∧
  keeps_string i.(s_Region) i'.(s_Region) ∧ keeps i.(s_Description) i'.(s_Description) ∧
  keeps i.(s_EnableFlowLogs) i'.(s_EnableFlowLogs) ∧
  keeps i.(s_PrivateIPGoogleAccess) i'.(s_PrivateIPGoogleAccess) ∧
  keeps_slice i.(s_SecondaryIPRanges) i'.(s_SecondaryIPRanges).

Lemma late_initialized_keeps i o : keeps_spec i (late_initialized i o).
Proof.
  split_and!; simpl; auto with late.
  - intros Hne. by rewrite bool_decide_eq_false_2.
  - intros Hne. by rewrite bool_decide_eq_false_2.
Qed.
Lemma subnetwork_LateInitializeSpec_keeps i o i' : LateInitializeSpec i o = Returns i' → keeps_spec i i'.
Proof. rewrite LateInitializeSpec_spec. destruct (copies_nil _ _); [done|]. intros [= <-]. apply late_initialized_keeps. Qed.
#[local] Hint Resolve subnetwork_LateInitializeSpec_keeps late_initialized_keeps : handlers.

Lemma late_initialized_idem i o : late_initialized (late_initialized i o) o = late_initialized i o.
Proof.
  unfold late_initialized. simpl. autorewrite with late. rewrite late_list_idem. f_equal; repeat case_bool_decide; congruence.
Qed.

(** The ranges hold nothing but a name and a CIDR range, and none is nil. *)
Definition plain_ranges (s : slice (ptr apiSecondaryRange)) : Prop :=
  Forall (λ p, ∃ r, p = Some r ∧ r.(ar_rest) = ∅) (elems s).
Lemma plain_no_nil s : plain_ranges s → no_nil s.
Proof. intros Hs. eapply Forall_impl; [exact Hs|]. intros p (r & -> & _). by eexists. Qed.

Lemma generate_observe_ranges s :
  plain_ranges s → each generate_range (each observe_range (elems s)) = elems s.
Proof.
  unfold plain_ranges, each. induction 1 as [|p l (r & -> & Hr) Hl IH]; [done|]. rewrite !fmap_cons, IH.
  simpl. do 2 f_equal. destruct r; simpl in *; by subst.
Qed.

Lemma late_ranges_same i o :
  plain_ranges o.(as_SecondaryIpRanges) →
  let i' := late_initialized i o in
  (slice_empty i'.(s_SecondaryIPRanges) = false →
     ranges_same (Some (each generate_range (elems i'.(s_SecondaryIPRanges)))) o.(as_SecondaryIpRanges)) ↔
  (slice_empty i.(s_SecondaryIPRanges) = false →
     ranges_same (Some (each generate_range (elems i.(s_SecondaryIPRanges)))) o.(as_SecondaryIpRanges)).
Proof.
  intros Hplain. unfold late_initialized, late_list. simpl.
  destruct (slice_empty i.(s_SecondaryIPRanges)) eqn:Hi; [|by rewrite andb_false_r, Hi].
  destruct (slice_empty o.(as_SecondaryIpRanges)) eqn:Ho; simpl; [by rewrite Hi|].
  rewrite generate_observe_ranges by done. split; [done|]. intros _ _.
  unfold slice_empty in Ho. destruct o.(as_SecondaryIpRanges); [apply ranges_same_refl|done].
Qed.

(** After late initialization only what the user chose can differ. *)
Definition choices_match (name : string) (i : SubnetworkParameters) (o : apiSubnetwork) : Prop :=
  url_agrees i.(s_Description) o.(as_Description) ∧ agrees i.(s_EnableFlowLogs) o.(as_EnableFlowLogs) ∧
  url_agrees (chosen i.(s_IPCidrRange)) o.(as_IpCidrRange) ∧ url_same name o.(as_Name) ∧
  url_agrees i.(s_Network) o.(as_Network) ∧ url_agrees (chosen i.(s_Region)) o.(as_Region) ∧
  (slice_empty i.(s_SecondaryIPRanges) = false →
     ranges_same (Some (each generate_range (elems i.(s_SecondaryIPRanges)))) o.(as_SecondaryIpRanges)).
#[global] Instance choices_match_dec name i o : Decision (choices_match name i o).
Proof. unfold choices_match, url_agrees, ranges_same. apply _. Defined.

Lemma subnetwork_late_matches name i o :
  plain_ranges o.(as_SecondaryIpRanges) →
  subnetwork_matches name (late_initialized i o) o ↔ choices_match name i o.
Proof.
  intros Hplain. unfold subnetwork_matches, choices_match, url_agrees, agrees.
  rewrite (late_ranges_same i o Hplain). simpl. autorewrite with late.
  assert (∀ x v, default v (chosen x) = if bool_decide (x = "") then v else x) as Hc.
  { intros x v. unfold chosen. by case_bool_decide. }
  by rewrite !Hc.
Qed.

Lemma late_no_nil i o :
  no_nil i.(s_SecondaryIPRanges) → no_nil o.(as_SecondaryIpRanges) → no_nil (late_initialized i o).(s_SecondaryIPRanges).
Proof.
  apply late_list_no_nil.
Qed.

(** ** Properties *)

(** Late initialization of a subnetwork spec panics exactly when it would copy
    a nil range; otherwise it changes no field the user set, references and
    selectors included, and is idempotent. *)
Theorem subnetwork_late_init_keeps i o :
  (LateInitializeSpec i o = Panics ↔ slice_empty i.(s_SecondaryIPRanges) = true ∧ None ∈ elems o.(as_SecondaryIpRanges)) ∧
  (∀ i', LateInitializeSpec i o = Returns i' → keeps_spec i i' ∧ LateInitializeSpec i' o = Returns i').
Proof.
  rewrite LateInitializeSpec_spec. unfold copies_nil. split.
  - rewrite <-has_nil_true. destruct (slice_empty _), (existsb _ _); naive_solver.
  - intros i'. destruct (slice_empty _ && _) eqn:Hn; [done|]. intros [= <-]. split; [apply late_initialized_keeps|].
    rewrite LateInitializeSpec_spec, late_initialized_idem. unfold copies_nil, late_initialized, late_list. simpl.
    destruct (slice_empty (s_SecondaryIPRanges i)) eqn:Hs; simpl in Hn; [by rewrite Hn, andb_false_r|].
    by rewrite andb_false_r, Hs.
Qed.


Definition example_subnetwork : apiSubnetwork :=
  {| zero_subnetwork with
     as_Name := "s"; as_Region := "us-east1"; as_IpCidrRange := "10.0.0.0/8";
     as_Network := "https://www.googleapis.com/compute/v1/projects/p/global/networks/n";
     as_SecondaryIpRanges := Some
       [Some {| ar_IpCidrRange := "10.1.0.0/16"; ar_RangeName := "a"; ar_rest := ∅ |};
        Some {| ar_IpCidrRange := "10.2.0.0/16"; ar_RangeName := "b"; ar_rest := ∅ |}] |}.
Definition example_parameters : SubnetworkParameters := {|
  s_IPCidrRange := "10.0.0.0/8"; s_Network := Some "projects/p/global/networks/n"; s_NetworkRef := None;
  s_NetworkSelector := None; s_Region := "us-east1"; s_Description := None; s_EnableFlowLogs := None;
  s_PrivateIPGoogleAccess := None; s_SecondaryIPRanges := Some
    [Some {| IPCidrRange := "10.2.0.0/16"; RangeName := "b" |}; Some {| IPCidrRange := "10.1.0.0/16"; RangeName := "a" |}] |}.


Definition subnetwork_fails (X : Type) (e : SubnetworkE X) : X → bool :=
  match e with
  | SubnetworksGet _ _ _ => read_fails IsErrorNotFound
  | SubnetworksDelete _ _ _ => write_fails IsErrorNotFound
  | SubnetworksInsert _ _ _ | SubnetworksPatch _ _ _ _
  | SubnetworksSetPrivateIpGoogleAccess _ _ _ _ => write_fails no_excuse
  | KubeUpdate _ => read_fails no_excuse
  end.

Definition subnetwork_observe_calls (projectID : string) (cr : Subnetwork) (X : Type) (e : SubnetworkE X) : Prop :=
  match e with
  | SubnetworksGet p r n => p = projectID ∧ r = cr.(ForProvider).(s_Region) ∧ n = cr.(ExternalName)
  | KubeUpdate cr' => late_update keeps_spec cr cr'
  | _ => False
  end.
(** Neither the API nor the API server answers with a nil range. *)
Definition subnetwork_answers (X : Type) (e : SubnetworkE X) : X → Prop :=
  match e with
  | SubnetworksGet _ _ _ => λ r, ∀ o, r = inl o → no_nil o.(as_SecondaryIpRanges)
  | KubeUpdate _ => λ r, ∀ cr, r = inl cr → no_nil cr.(ForProvider).(s_SecondaryIPRanges)
  | _ => λ _, True
  end.

Section errors.
Context `{Libs} `{!CopySucceeds}.
Variable projectID : string.
Variable cr : Subnetwork.
Hypothesis Hcr : no_nil cr.(ForProvider).(s_SecondaryIPRanges).

Lemma subnetwork_observe_errors : errors_given subnetwork_answers subnetwork_fails (Observe projectID (Some cr)).
Proof using Type*.
  unfold errors_given. simpl. intros [o|err] Ho; simpl; [|walk_done]. specialize (Ho o eq_refl).
  rewrite LateInitializeSpec_spec. unfold copies_nil. rewrite (no_nil_existsb _ Ho), andb_false_r. simpl.
  set (cr1 := {| cr with ForProvider := _ |}).
  assert (no_nil cr1.(ForProvider).(s_SecondaryIPRanges)) as Hcr1 by (by apply late_no_nil). clearbody cr1.
  destruct (negb _); simpl; [intros [cr2|err] H2; simpl; [specialize (H2 _ eq_refl)|walk_done]|];
    rewrite subnetwork_IsUpToDate_spec, no_nil_existsb, sorts_nil_false by done; simpl; case_bool_decide; simpl; walk_done.
Qed.
Lemma subnetwork_create_errors : errors_iff subnetwork_fails (Create projectID (Some cr)).
Proof using Type*.
  unfold errors_iff, errors_given. simpl. rewrite GenerateSubnetwork_spec, no_nil_existsb by done. simpl. walk.
Qed.
Lemma subnetwork_update_errors :
  cr.(ForProvider).(s_PrivateIPGoogleAccess) ≠ None →
  errors_given subnetwork_answers subnetwork_fails (Update projectID (Some cr)).
Proof using Type*.
  intros Hpa. unfold errors_given. simpl. intros [o|err] Ho; simpl; [|walk_done]. specialize (Ho o eq_refl).
  rewrite subnetwork_IsUpToDate_spec, no_nil_existsb, sorts_nil_false by done.
  destruct (GenerateSubnetworkForUpdate_returns cr cr.(ExternalName) Hcr) as [subnet ->].
  destruct (s_PrivateIPGoogleAccess (ForProvider cr)); [|done]. simpl.
  case_bool_decide; simpl; [case_bool_decide; simpl|]; try walk_done; intros [err|] _; walk_done.
Qed.
End errors.

(** When neither the spec nor an answer has a nil range, the handlers of the
    Subnetwork controller return an error exactly when
    one of their calls failed, where NotFound is no failure of Get and Delete;
    they do not panic, Update provided that
    privateIpGoogleAccess is set. *)
Theorem subnetwork_controller_errors `{Libs} `{!CopySucceeds} projectID cr
    (Hcr : no_nil cr.(ForProvider).(s_SecondaryIPRanges)) :
  errors_given subnetwork_answers subnetwork_fails (Observe projectID (Some cr)) ∧
  errors_iff subnetwork_fails (Create projectID (Some cr)) ∧
  (cr.(ForProvider).(s_PrivateIPGoogleAccess) ≠ None →
     errors_given subnetwork_answers subnetwork_fails (Update projectID (Some cr))) ∧
  errors_iff subnetwork_fails (Delete projectID (Some cr)).
Proof.
  split_and!; [by apply subnetwork_observe_errors|by apply subnetwork_create_errors|by apply subnetwork_update_errors|].
  unfold errors_iff, errors_given. simpl. walk.
Qed.

Lemma subnetwork_controller_errors_witness :
  errors_given subnetwork_answers subnetwork_fails (@Update reference_libs "project" (Some (fresh "s"
    {| example_parameters with s_PrivateIPGoogleAccess := Some true |}
    (GenerateSubnetworkObservation example_subnetwork)))).
Proof. apply (@subnetwork_controller_errors reference_libs reference_copy); [repeat constructor; by eexists|done]. Defined.

(** C36: when Update panics, once the subnetwork was read: exactly when a secondary range of the
    spec is nil; or the spec leaves privateIpGoogleAccess unset
    and the subnetwork has it, since the difference is taken for a wish to change it,
    and the wish is dereferenced; or they agree about it and one of several observed
    ranges is nil, which sorting them dereferences. *)
Theorem subnetwork_update_panics_iff `{Libs} `{!CopySucceeds} projectID cr o
    {W : Type} (s : ∀ X, SubnetworkE X → W → X * W) w
    (Hget : (s _ (SubnetworksGet projectID cr.(ForProvider).(s_Region) cr.(ExternalName)) w).1 = inl o) :
  run s (Update projectID (Some cr)) w = Panics ↔
  None ∈ elems cr.(ForProvider).(s_SecondaryIPRanges) ∨
  (cr.(ForProvider).(s_PrivateIPGoogleAccess) = None ∧ o.(as_PrivateIpGoogleAccess) = true) ∨
  (BoolValue cr.(ForProvider).(s_PrivateIPGoogleAccess) = o.(as_PrivateIpGoogleAccess) ∧
   (2 ≤ List.length (elems o.(as_SecondaryIpRanges)))%nat ∧ None ∈ elems o.(as_SecondaryIpRanges)).
Proof.
  rewrite <-!has_nil_true. simpl. destruct (s _ _ w) as [r w']; simpl in Hget; subst r. simpl.
  rewrite subnetwork_IsUpToDate_spec.
  destruct (existsb _ (elems (s_SecondaryIPRanges _))) eqn:Hnil; [simpl; tauto|].
  destruct (GenerateSubnetworkForUpdate_returns cr cr.(ExternalName)) as [subnet ->]; [by apply has_nil_false|].
  assert (sorts_nil (as_SecondaryIpRanges o) = true ↔
    (2 ≤ List.length (elems o.(as_SecondaryIpRanges)))%nat ∧ has_nil (elems o.(as_SecondaryIpRanges)) = true) as Hsort
    by (unfold sorts_nil; by rewrite andb_true_iff, Nat.leb_le).
  rewrite <-Hsort.
  destruct cr.(ForProvider).(s_PrivateIPGoogleAccess) as [[]|] eqn:Hpa, o.(as_PrivateIpGoogleAccess) eqn:Ho;
    simpl; rewrite ?Hpa; simpl; try (destruct (sorts_nil _); simpl); try (destruct (bool_decide (subnetwork_matches _ _ _)); simpl);
    try (destruct (s _ _ w')); split; naive_solver.
Qed.

Lemma subnetwork_update_panics_iff_witness :
  let _ := reference_libs in
  run (λ X (e : SubnetworkE X) (w : ()),
      (match e in SubnetworkE X return X with
       | SubnetworksGet _ _ _ => inl {| example_subnetwork with as_PrivateIpGoogleAccess := true |}
       | KubeUpdate cr => inl cr
       | _ => None
       end, w))
    (Update "project" (Some (fresh "s" example_parameters (GenerateSubnetworkObservation example_subnetwork)))) () = Panics.
Proof.
  intros libs. apply (@subnetwork_update_panics_iff libs reference_copy "project" _
    {| example_subnetwork with as_PrivateIpGoogleAccess := true |}); [done|]. by right; left.
Defined.
