(* ===== verification/GlobalAddress.v ===== *)
(** * Global addresses

    apis/compute/v1beta1/globaladdress_types.go,
    pkg/clients/globaladdress/globaladdress.go and
    pkg/controller/compute/globaladdress.go. *)

From S2P Require Import Prelude GoSort GoStrings Libs Contract Gcp.

(** ** Types *)

Definition StatusInUse : string := "IN_USE".
Definition StatusReserved : string := "RESERVED".
Definition StatusReserving : string := "RESERVING".

Record GlobalAddressParameters := {
  g_Address : ptr string;
  g_AddressType : ptr string;
  g_Description : ptr string;
  g_IPVersion : ptr string;
  g_Network : ptr string;
  g_NetworkRef : ptr Reference;
  g_NetworkSelector : ptr Selector;
  g_PrefixLength : ptr Z;
  g_Purpose : ptr string;
  g_Subnetwork : ptr string;
  g_SubnetworkRef : ptr Reference;
  g_SubnetworkSelector : ptr Selector
}.
#[global] Instance GlobalAddressParameters_eq_dec : EqDecision GlobalAddressParameters.
Proof. solve_decision. Defined.

Record GlobalAddressObservation := {
  go_CreationTimestamp : string;
  go_ID : Z;
  go_SelfLink : string;
  go_Status : string;
  go_Users : slice string
}.

Definition GlobalAddress : Type := Managed GlobalAddressParameters GlobalAddressObservation.

(** compute.Address. *)
Record apiAddress := {
  ad_Address : string;
  ad_AddressType : string;
  ad_CreationTimestamp : string;
  ad_Description : string;
  ad_Id : Z;
  ad_IpVersion : string;
  ad_Name : string;
  ad_Network : string;
  ad_PrefixLength : Z;
  ad_Purpose : string;
  ad_SelfLink : string;
  ad_Status : string;
  ad_Subnetwork : string;
  ad_Users : slice string;
  ad_rest : rest
}.

Definition zero_address : apiAddress := {|
  ad_Address := ""; ad_AddressType := ""; ad_CreationTimestamp := ""; ad_Description := ""; ad_Id := 0;
  ad_IpVersion := ""; ad_Name := ""; ad_Network := ""; ad_PrefixLength := 0; ad_Purpose := "";
  ad_SelfLink := ""; ad_Status := ""; ad_Subnetwork := ""; ad_Users := None; ad_rest := ∅ |}.

(** ** The client *)

Definition GenerateGlobalAddress (name : string) (i : GlobalAddressParameters) (address : apiAddress) : apiAddress :=
  {| address with
     ad_Address := StringValue i.(g_Address);
     ad_AddressType := StringValue i.(g_AddressType);
     ad_Description := StringValue i.(g_Description);
     ad_IpVersion := StringValue i.(g_IPVersion);
     ad_Name := name;
     ad_Network := StringValue i.(g_Network);
     ad_PrefixLength := Int64Value i.(g_PrefixLength);
     ad_Purpose := StringValue i.(g_Purpose);
     ad_Subnetwork := StringValue i.(g_Subnetwork) |}.

Definition LateInitializeSpec (p : GlobalAddressParameters) (observed : apiAddress) : GlobalAddressParameters :=
  {| p with
     g_Address := LateInitializeString p.(g_Address) observed.(ad_Address);
     g_AddressType := LateInitializeString p.(g_AddressType) observed.(ad_AddressType);
     g_Description := LateInitializeString p.(g_Description) observed.(ad_Description);
     g_IPVersion := LateInitializeString p.(g_IPVersion) observed.(ad_IpVersion);
     g_Network := LateInitializeString p.(g_Network) observed.(ad_Network);
     g_PrefixLength := LateInitializeInt64 p.(g_PrefixLength) observed.(ad_PrefixLength);
     g_Purpose := LateInitializeString p.(g_Purpose) observed.(ad_Purpose);
     g_Subnetwork := LateInitializeString p.(g_Subnetwork) observed.(ad_Subnetwork) |}.

Definition GenerateGlobalAddressObservation (observed : apiAddress) : GlobalAddressObservation := {|
  go_CreationTimestamp := observed.(ad_CreationTimestamp);
  go_ID := observed.(ad_Id);
  go_SelfLink := observed.(ad_SelfLink);
  go_Status := observed.(ad_Status);
  go_Users := observed.(ad_Users) |}.

(** ** The controller *)

Definition errNotGlobalAddress : string := "managed resource is not a GlobalAddress".
Definition errGetAddress : string := "cannot get external Address resource".
Definition errCreateAddress : string := "cannot create external Address resource".
Definition errDeleteAddress : string := "cannot delete external Address resource".
Definition errManagedAddressUpdate : string := "cannot update managed GlobalAddress resource".

Inductive GlobalAddressE : Type → Type :=
| GlobalAddressesGet (project name : string) : GlobalAddressE (apiAddress + error)
| GlobalAddressesInsert (project : string) (address : apiAddress) : GlobalAddressE (option error)
| GlobalAddressesDelete (project name : string) : GlobalAddressE (option error)
| KubeUpdate (cr : GlobalAddress) : GlobalAddressE (GlobalAddress + error).

Section controller.
Context `{Libs} (projectID : string).

(** The condition that goes with the status of an address. *)
Definition status_condition (cr : GlobalAddress) : GlobalAddress :=
  let status := cr.(AtProvider).(go_Status) in
  if bool_decide (status = StatusReserving) then set_condition Creating cr
  else if bool_decide (status = StatusInUse) || bool_decide (status = StatusReserved)
  then set_condition Available cr
  else cr.

Definition Observe (mg : option GlobalAddress)
  : prog GlobalAddressE (ExternalObservation * option error * option GlobalAddress) :=
  match mg with
  | None => mret (no_observation, errors_New errNotGlobalAddress, None)
  | Some cr =>
    r ← call (GlobalAddressesGet projectID cr.(ExternalName));
    match r with
    | inr err =>
      mret (no_observation, errors_Wrap (resource_Ignore IsErrorNotFound (Some err)) errGetAddress, Some cr)
    | inl observed =>
      let eo := {| no_observation with ResourceExists := true; ResourceUpToDate := true |} in
      let currentSpec := cr.(ForProvider) in
      let cr := {| cr with ForProvider := LateInitializeSpec cr.(ForProvider) observed |} in
      u ← (if negb (cmp_Equal (=) currentSpec cr.(ForProvider)) then call (KubeUpdate cr) else mret (inl cr));
      match u with
      | inr err => mret (eo, errors_Wrap (Some err) errManagedAddressUpdate, Some cr)
      | inl cr =>
        let cr := {| cr with AtProvider := GenerateGlobalAddressObservation observed |} in
        let cr := status_condition cr in
        mret (eo, errors_Wrap None errManagedAddressUpdate, Some cr)
      end
    end
  end.

Definition Create (mg : option GlobalAddress)
  : prog GlobalAddressE (ExternalCreation * option error * option GlobalAddress) :=
  match mg with
  | None => mret (no_creation, errors_New errNotGlobalAddress, None)
  | Some cr =>
    let cr := set_condition Creating cr in
    let address := GenerateGlobalAddress cr.(ExternalName) cr.(ForProvider) zero_address in
    err ← call (GlobalAddressesInsert projectID address);
    mret (no_creation, errors_Wrap err errCreateAddress, Some cr)
  end.

Definition Update (mg : option GlobalAddress) : prog GlobalAddressE (option error * option GlobalAddress) :=
  mret (None, mg).

Definition Delete (mg : option GlobalAddress) : prog GlobalAddressE (option error * option GlobalAddress) :=
  match mg with
  | None => mret (errors_New errNotGlobalAddress, None)
  | Some cr =>
    let cr := set_condition Deleting cr in
    err ← call (GlobalAddressesDelete projectID cr.(ExternalName));
    mret (errors_Wrap (resource_Ignore IsErrorNotFound err) errDeleteAddress, Some cr)
  end.
End controller.

(** ** Lemmas *)

Definition keeps_spec (i i' : GlobalAddressParameters) : Prop :=
  keeps i.(g_Address) i'.(g_Address) ∧ keeps i.(g_AddressType) i'.(g_AddressType) ∧
  keeps i.(g_Description) i'.(g_Description) ∧ keeps i.(g_IPVersion) i'.(g_IPVersion) ∧
  keeps i.(g_Network) i'.(g_Network) ∧ i'.(g_NetworkRef) = i.(g_NetworkRef) ∧
  i'.(g_NetworkSelector) = i.(g_NetworkSelector) ∧ keeps i.(g_PrefixLength) i'.(g_PrefixLength) ∧
  keeps i.(g_Purpose) i'.(g_Purpose) ∧ keeps i.(g_Subnetwork) i'.(g_Subnetwork) ∧
  i'.(g_SubnetworkRef) = i.(g_SubnetworkRef) ∧ i'.(g_SubnetworkSelector) = i.(g_SubnetworkSelector).

Lemma global_address_LateInitializeSpec_keeps i o : keeps_spec i (LateInitializeSpec i o).
Proof. split_and!; simpl; auto with late. Qed.
#[local] Hint Resolve global_address_LateInitializeSpec_keeps : handlers.

(** ** Properties *)

(** Late initialization of a global address keeps every field the user set,
    is idempotent, and fills in all there is: the address generated from the
    result is the observed one exactly when the name and every field the user
    set agree with it. *)
Theorem global_address_late_init name i o :
  keeps_spec i (LateInitializeSpec i o) ∧
  LateInitializeSpec (LateInitializeSpec i o) o = LateInitializeSpec i o ∧
  (GenerateGlobalAddress name (LateInitializeSpec i o) o = o ↔
   name = o.(ad_Name) ∧ agrees i.(g_Address) o.(ad_Address) ∧ agrees i.(g_AddressType) o.(ad_AddressType) ∧
   agrees i.(g_Description) o.(ad_Description) ∧ agrees i.(g_IPVersion) o.(ad_IpVersion) ∧
   agrees i.(g_Network) o.(ad_Network) ∧ agrees i.(g_PrefixLength) o.(ad_PrefixLength) ∧
   agrees i.(g_Purpose) o.(ad_Purpose) ∧ agrees i.(g_Subnetwork) o.(ad_Subnetwork)).
Proof.
  split_and!; [apply global_address_LateInitializeSpec_keeps|unfold LateInitializeSpec; simpl; by autorewrite with late|].
  unfold GenerateGlobalAddress, agrees. simpl. autorewrite with late. destruct o; simpl.
  split; [intros [=]; split_and!; congruence|]. intros. destruct_and!. f_equal; congruence.
Qed.

Definition global_address_fails (X : Type) (e : GlobalAddressE X) : X → bool :=
  match e with
  | GlobalAddressesGet _ _ => read_fails IsErrorNotFound
  | GlobalAddressesDelete _ _ => write_fails IsErrorNotFound
  | GlobalAddressesInsert _ _ => write_fails no_excuse
  | KubeUpdate _ => read_fails no_excuse
  end.

Definition global_address_observe_calls (projectID : string) (cr : GlobalAddress)
    (X : Type) (e : GlobalAddressE X) : Prop :=
  match e with
  | GlobalAddressesGet p n => p = projectID ∧ n = cr.(ExternalName)
  | KubeUpdate cr' => late_update keeps_spec cr cr'
  | _ => False
  end.

(** The handlers of the GlobalAddress controller never panic and return an
    error exactly when one of their calls failed, where NotFound is no failure
    of Get and Delete. Observe reads the address and writes nothing but a spec
    that keeps what the user set; whenever the address exists it reports it up
    to date, and without error the resource is Creating while the address is
    being reserved and Available once it is reserved or in use. *)
Theorem global_address_controller `{Libs} projectID cr :
  errors_iff global_address_fails (Observe projectID (Some cr)) ∧
  stops_on_failure global_address_fails (Observe projectID (Some cr)) ∧
  calls_only (global_address_observe_calls projectID cr) (Observe projectID (Some cr)) ∧
  always (λ '(o, err, mg'), o.(ResourceUpToDate) = o.(ResourceExists) ∧
    (o.(ResourceExists) = true → err = None → ∃ cr', mg' = Some cr' ∧
       (cr'.(AtProvider).(go_Status) = StatusReserving → ready cr'.(Conditions) = Some Creating) ∧
       (cr'.(AtProvider).(go_Status) = StatusReserved ∨ cr'.(AtProvider).(go_Status) = StatusInUse →
          ready cr'.(Conditions) = Some Available))) (Observe projectID (Some cr)) ∧
  errors_iff global_address_fails (Create projectID (Some cr)) ∧
  errors_iff global_address_fails (Update (Some cr)) ∧
  errors_iff global_address_fails (Delete projectID (Some cr)).
Proof.
  assert (∀ cr : GlobalAddress, ∃ cr', Some (status_condition cr) = Some cr' ∧
    (cr'.(AtProvider).(go_Status) = StatusReserving → ready cr'.(Conditions) = Some Creating) ∧
    (cr'.(AtProvider).(go_Status) = StatusReserved ∨ cr'.(AtProvider).(go_Status) = StatusInUse →
       ready cr'.(Conditions) = Some Available)) as Hstatus.
  { clear cr. intros cr. eexists; split; [done|]. unfold status_condition.
    unfold StatusReserving, StatusReserved, StatusInUse.
    repeat case_bool_decide; simpl; rewrite ?SetConditions_ready by done; naive_solver congruence. }
  unfold errors_iff, errors_given. split_and!; simpl; walk; auto.
Qed.

Definition example_address_resource : GlobalAddress :=
  fresh "a" {| g_Address := None; g_AddressType := Some "EXTERNAL"; g_Description := None; g_IPVersion := None;
               g_Network := None; g_NetworkRef := None; g_NetworkSelector := None; g_PrefixLength := None;
               g_Purpose := None; g_Subnetwork := None; g_SubnetworkRef := None; g_SubnetworkSelector := None |}
    (GenerateGlobalAddressObservation zero_address).

Lemma global_address_controller_witness :
  errors_iff global_address_fails (@Observe reference_libs "p" (Some example_address_resource)).
Proof. apply (@global_address_controller reference_libs). Defined.
