(* ===== verification/Connection.v ===== *)
(** * Service networking connections

    apis/servicenetworking/v1beta1/connection_types.go,
    pkg/clients/connection/connection.go and
    pkg/controller/servicenetworking/connection.go. *)

From S2P Require Import Prelude GoSort GoStrings Libs Contract Gcp Nested Network.

(** ** Types *)

Definition PeeringName : string := "servicenetworking-googleapis-com".
Definition PeeringStateActive : string := "ACTIVE".
Definition PeeringStateInactive : string := "INACTIVE".

Record ConnectionParameters := {
  cp_Parent : string;
  cp_Network : ptr string;
  cp_NetworkRef : ptr Reference;
  cp_NetworkSelector : ptr Selector;
  cp_ReservedPeeringRanges : slice string;
  cp_ReservedPeeringRangeRefs : slice Reference;
  cp_ReservedPeeringRangeSelector : Selector
}.

Record ConnectionObservation := { co_Peering : string; co_Service : string }.

Definition Connection : Type := Managed ConnectionParameters ConnectionObservation.

(** servicenetworking.Connection. *)
Record apiConnection := {
  ac_Network : string;
  ac_Peering : string;
  ac_ReservedPeeringRanges : slice string;
  ac_Service : string;
  ac_ForceSendFields : slice string;
  ac_rest : rest
}.

(** ** The client *)

Definition FromParameters (p : ConnectionParameters) : apiConnection := {|
  ac_Network := StringValue p.(cp_Network);
  ac_Peering := "";
  ac_ReservedPeeringRanges := p.(cp_ReservedPeeringRanges);
  ac_Service := "";
  ac_ForceSendFields := Some ["ReservedPeeringRanges"];
  ac_rest := ∅ |}.

Record Observation := { ob_Connection : apiConnection; ob_Network : apiNetwork }.

(** What cmp.Equal sees of a slice of strings with SortSlices alone: nil and
    empty are different. *)
Definition view_ranges (s : slice string) : slice string := stable_sort string_less <$> s.

Section client.
Context `{Libs}.

Definition IsUpToDate (p : ConnectionParameters) (observed : apiConnection) : bool :=
  cmp_Equal (same_view view_ranges) p.(cp_ReservedPeeringRanges) observed.(ac_ReservedPeeringRanges).

(** The loop of UpdateStatus: one peering after the other. *)
Definition peering_condition (peering : string) (s : Connection) (p : apiPeering) : Connection :=
  if bool_decide (p.(ap_Name) = peering) then
    if bool_decide (p.(ap_State) = PeeringStateActive) then set_condition Available s
    else if bool_decide (p.(ap_State) = PeeringStateInactive) then set_condition Unavailable s
    else s
  else s.

Definition UpdateStatus (s : Connection) (o : Observation) : outcome Connection :=
  let s := {| s with AtProvider := {| co_Peering := o.(ob_Connection).(ac_Peering);
                                      co_Service := o.(ob_Connection).(ac_Service) |} |} in
  if slice_empty o.(ob_Network).(an_Peerings) then Returns (set_condition Unavailable s)
  else fold_left (λ s p, s ← s; p ← deref p; Returns (peering_condition o.(ob_Connection).(ac_Peering) s p))
         (elems o.(ob_Network).(an_Peerings)) (Returns s).
End client.

(** ** The controller *)

Definition errNotConnection : string := "managed resource is not a Connection".
Definition errListConnections : string := "cannot list external Connection resources".
Definition errGetNetwork : string := "cannot get VPC Network".
Definition errCreateConnection : string := "cannot create external Connection resource".
Definition errUpdateConnection : string := "cannot update external Connection resource".
Definition errDeleteConnection : string := "cannot delete external Connection resource".

Inductive ConnectionE : Type → Type :=
| ConnectionsList (parent network : string) : ConnectionE (slice (ptr apiConnection) + error)
| NetworksGet (project name : string) : ConnectionE (apiNetwork + error)
| ConnectionsPatch (name : string) (conn : apiConnection) (updateMask : ptr string) (force : bool)
    : ConnectionE (option error)
| NetworksRemovePeering (project network peering : string) : ConnectionE (option error).

Definition findConnection (conns : slice (ptr apiConnection)) : outcome (ptr apiConnection) :=
  (fix find (l : list (ptr apiConnection)) : outcome (ptr apiConnection) :=
     match l with
     | [] => Returns None
     | p :: l' => c ← deref p; if bool_decide (c.(ac_Peering) = PeeringName) then Returns p else find l'
     end) (elems conns).

Section controller.
Context `{Libs} (projectID : string).

Definition Observe (mg : option Connection)
  : prog ConnectionE (ExternalObservation * option error * option Connection) :=
  match mg with
  | None => mret (no_observation, errors_New errNotConnection, None)
  | Some cn =>
    r ← call (ConnectionsList cn.(ForProvider).(cp_Parent) (StringValue cn.(ForProvider).(cp_Network)));
    match r with
    | inr err => mret (no_observation, errors_Wrap (Some err) errListConnections, Some cn)
    | inl conns =>
      found ← lift (findConnection conns);
      match found with
      | None => mret (no_observation, None, Some cn)
      | Some conn =>
        n ← call (NetworksGet projectID (Base conn.(ac_Network)));
        match n with
        | inr err => mret (no_observation, errors_Wrap (Some err) errGetNetwork, Some cn)
        | inl net =>
          let eo := {| no_observation with ResourceExists := true;
                       ResourceUpToDate := IsUpToDate cn.(ForProvider) conn |} in
          cn ← lift (UpdateStatus cn {| ob_Connection := conn; ob_Network := net |});
          mret (eo, None, Some cn)
        end
      end
    end
  end.

Definition Create (mg : option Connection)
  : prog ConnectionE (ExternalCreation * option error * option Connection) :=
  match mg with
  | None => mret (no_creation, errors_New errNotConnection, None)
  | Some cn =>
    let cn := set_condition Creating cn in
    let conn := FromParameters cn.(ForProvider) in
    err ← call (ConnectionsPatch (String.append cn.(ForProvider).(cp_Parent) "/connections/-") conn
                  (Some "reservedPeeringRanges") true);
    mret (no_creation, errors_Wrap (resource_Ignore IsErrorAlreadyExists err) errCreateConnection, Some cn)
  end.

Definition Update (mg : option Connection) : prog ConnectionE (option error * option Connection) :=
  match mg with
  | None => mret (errors_New errNotConnection, None)
  | Some cn =>
    let name := String.append cn.(ForProvider).(cp_Parent) (String.append "/connections/" PeeringName) in
    let conn := FromParameters cn.(ForProvider) in
    err ← call (ConnectionsPatch name conn None false);
    mret (errors_Wrap err errUpdateConnection, Some cn)
  end.

Definition Delete (mg : option Connection) : prog ConnectionE (option error * option Connection) :=
  match mg with
  | None => mret (errors_New errNotConnection, None)
  | Some cn =>
    let cn := set_condition Deleting cn in
    err ← call (NetworksRemovePeering projectID (Base (StringValue cn.(ForProvider).(cp_Network)))
                  cn.(AtProvider).(co_Peering));
    mret (errors_Wrap (resource_Ignore IsErrorNotFound err) errDeleteConnection, Some cn)
  end.
End controller.

(** ** Properties *)

(** A connection is up to date exactly when the reserved peering ranges of
    the spec and of the API are both unset, or are the same names as often in
    any order. *)
Theorem connection_up_to_date_iff `{Libs} p o :
  IsUpToDate p o = true ↔
  match p.(cp_ReservedPeeringRanges), o.(ac_ReservedPeeringRanges) with
  | None, None => True
  | Some l1, Some l2 => l1 ≡ₚ l2
  | _, _ => False
  end.
Proof.
  unfold IsUpToDate. rewrite cmp_Equal_spec. unfold same_view, view_ranges.
  destruct p.(cp_ReservedPeeringRanges) as [l1|], o.(ac_ReservedPeeringRanges) as [l2|]; simpl; try naive_solver.
  rewrite <-sort_strings_less. split; [by intros [=]|by intros ->].
Qed.

(** The peerings that decide: those of the connection in a known state. *)
Definition decides (peering : string) (p : apiPeering) : bool :=
  bool_decide (p.(ap_Name) = peering) &&
  (bool_decide (p.(ap_State) = PeeringStateActive) || bool_decide (p.(ap_State) = PeeringStateInactive)).
Definition state_condition (p : apiPeering) : condition :=
  if bool_decide (p.(ap_State) = PeeringStateActive) then Available else Unavailable.

Lemma peering_condition_decides `{Libs} peering s p :
  peering_condition peering s p = if decides peering p then set_condition (state_condition p) s else s.
Proof.
  unfold peering_condition, decides, state_condition.
  destruct (bool_decide (ap_Name p = peering)), (bool_decide (ap_State p = PeeringStateActive)),
    (bool_decide (ap_State p = PeeringStateInactive)); done.
Qed.

Lemma fold_peerings `{Libs} peering ps (s : Connection) :
  ready (fold_left (peering_condition peering) ps s).(Conditions) =
  match last (filter (λ p, decides peering p = true) ps) with
  | Some p => Some (state_condition p)
  | None => ready s.(Conditions)
  end.
Proof.
  revert s. induction ps as [|p ps IH]; intros s; [done|]. cbn [fold_left].
  rewrite IH, filter_cons, peering_condition_decides.
  destruct (decides peering p) eqn:Hp; [rewrite decide_True by done|by rewrite decide_False by done].
  rewrite last_cons. destruct (last _); [done|].
  apply set_condition_ready. unfold state_condition. by destruct (bool_decide _).
Qed.

Lemma UpdateStatus_returns `{Libs} (cn : Connection) o ps :
  elems o.(ob_Network).(an_Peerings) = Some <$> ps →
  let s := {| cn with AtProvider := {| co_Peering := o.(ob_Connection).(ac_Peering);
                                       co_Service := o.(ob_Connection).(ac_Service) |} |} in
  UpdateStatus cn o = Returns (if bool_decide (ps = []) then set_condition Unavailable s
                               else fold_left (peering_condition o.(ob_Connection).(ac_Peering)) ps s).
Proof.
  intros Hps. unfold UpdateStatus, slice_empty. rewrite Hps. destruct ps as [|p ps]; [done|]. simpl. clear Hps.
  generalize (peering_condition (ac_Peering (ob_Connection o)) {| cn with AtProvider := {|
    co_Peering := o.(ob_Connection).(ac_Peering); co_Service := o.(ob_Connection).(ac_Service) |} |} p).
  induction ps as [|q ps IH]; intros s; [done|]. apply IH.
Qed.

(** A connection whose network has no nil peering is Unavailable when there are
    no peerings, otherwise it is Available or Unavailable as the last peering with
    the connection's peering name that is ACTIVE or INACTIVE says. When there is
    no such peering, other peerings notwithstanding, the Ready condition stays
    what it was. *)
Theorem connection_ready `{Libs} cn o ps :
  elems o.(ob_Network).(an_Peerings) = Some <$> ps →
  ∃ cn', UpdateStatus cn o = Returns cn' ∧
  ready cn'.(Conditions) =
  if bool_decide (ps = []) then Some Unavailable
  else match last (filter (λ p, decides o.(ob_Connection).(ac_Peering) p = true) ps) with
       | Some p => Some (state_condition p)
       | None => ready cn.(Conditions)
       end.
Proof.
  intros Hps. rewrite (UpdateStatus_returns cn o ps Hps). eexists. split; [reflexivity|].
  case_bool_decide; [by apply set_condition_ready|]. by rewrite fold_peerings.
Qed.

(** A Create that finds the connection there already, and a Delete that does
    not find the peering, have not failed. *)
Definition connection_fails (X : Type) (e : ConnectionE X) : X → bool :=
  match e with
  | ConnectionsList _ _ => read_fails no_excuse
  | NetworksGet _ _ => read_fails no_excuse
  | ConnectionsPatch _ _ _ force => write_fails (if force then IsErrorAlreadyExists else no_excuse)
  | NetworksRemovePeering _ _ _ => write_fails IsErrorNotFound
  end.

Definition connection_reads (X : Type) (e : ConnectionE X) : Prop :=
  match e with ConnectionsList _ _ | NetworksGet _ _ => True | _ => False end.

(** No connection and no peering that is read is nil. *)
Definition connection_answers (X : Type) (e : ConnectionE X) : X → Prop :=
  match e with
  | ConnectionsList _ _ => λ r, match r with inl l => no_nil l | inr _ => True end
  | NetworksGet _ _ => λ r, match r with inl n => no_nil n.(an_Peerings) | inr _ => True end
  | _ => λ _, True
  end.
Lemma findConnection_returns conns : no_nil conns → ∃ c, findConnection conns = Returns c.
Proof.
  unfold no_nil, findConnection. induction 1 as [|p l [c ->] _ IH]; [by eexists|].
  simpl. case_bool_decide; [by eexists|done].
Qed.
Lemma UpdateStatus_no_nil `{Libs} cn o : no_nil o.(ob_Network).(an_Peerings) → ∃ cn', UpdateStatus cn o = Returns cn'.
Proof. intros [ps Hps]%no_nil_values. rewrite (UpdateStatus_returns cn o ps Hps). by eexists. Qed.

(** Where no connection and no peering that is read is nil, the handlers of the
    Connection controller never panic and return an error exactly when one of
    their calls failed, where AlreadyExists is no failure of Create and NotFound
    none of Delete; Observe only reads and makes no call after a failure, and
    with an error or without a connection of the service networking peering it
    reports nothing. *)
Theorem connection_controller_errors `{Libs} projectID cn :
  errors_given connection_answers connection_fails (Observe projectID (Some cn)) ∧
  stops_on_failure connection_fails (Observe projectID (Some cn)) ∧
  calls_only connection_reads (Observe projectID (Some cn)) ∧
  always_given connection_answers (λ '(o, err, _), err ≠ None ∨ o.(ResourceExists) = false → o = no_observation)
    (Observe projectID (Some cn)) ∧
  errors_iff connection_fails (Create (Some cn)) ∧
  errors_iff connection_fails (Update (Some cn)) ∧
  errors_iff connection_fails (Delete projectID (Some cn)).
Proof.
  assert (∀ net conn, no_nil net.(an_Peerings) → ∃ cn', UpdateStatus cn {| ob_Connection := conn; ob_Network := net |} = Returns cn')
    as Hstatus by (intros net conn Hnet; by apply UpdateStatus_no_nil).
  unfold errors_iff, errors_given. split_and!; try (split; [done|]); try intros [conns|err]; try intros Hconns; simpl; try walk.
  all: first [destruct (findConnection_returns conns Hconns) as [[c|] ->] | destruct (findConnection conns) as [[c|]|]]; simpl; try walk.
  all: match goal with |- context [UpdateStatus ?m {| ob_Connection := ?c; ob_Network := ?n |}] =>
    first [destruct (Hstatus n c) as [cn' ->]; [done|] | destruct (UpdateStatus m {| ob_Connection := c; ob_Network := n |})] end; simpl; walk.
Qed.

Definition example_connection_parameters : ConnectionParameters := {|
  cp_Parent := "services/servicenetworking.googleapis.com"; cp_Network := Some "projects/p/global/networks/n";
  cp_NetworkRef := None; cp_NetworkSelector := None; cp_ReservedPeeringRanges := Some ["range-b"; "range-a"];
  cp_ReservedPeeringRangeRefs := None;
  cp_ReservedPeeringRangeSelector := {| MatchControllerRef := None; MatchLabels := None |} |}.
Definition example_connection : apiConnection := {|
  ac_Network := "projects/p/global/networks/n"; ac_Peering := PeeringName;
  ac_ReservedPeeringRanges := Some ["range-a"; "range-b"]; ac_Service := "services/servicenetworking.googleapis.com";
  ac_ForceSendFields := None; ac_rest := ∅ |}.
Definition example_peering (name state : string) : apiPeering := {|
  ap_AutoCreateRoutes := true; ap_ExchangeSubnetRoutes := true; ap_Name := name; ap_Network := "n";
  ap_State := state; ap_StateDetails := ""; ap_rest := ∅ |}.
Definition example_connection_resource : Connection :=
  fresh "c" example_connection_parameters {| co_Peering := ""; co_Service := "" |}.

Lemma connection_up_to_date_iff_witness :
  @IsUpToDate reference_libs example_connection_parameters example_connection = true.
Proof. apply (@connection_up_to_date_iff reference_libs). apply perm_swap. Defined.

Definition example_observed : Observation := {|
  ob_Connection := example_connection;
  ob_Network := {| zero_network with an_Peerings :=
    Some [Some (example_peering PeeringName "ACTIVE"); Some (example_peering "other" "INACTIVE")] |} |}.

Lemma connection_ready_witness :
  ∃ cn', @UpdateStatus reference_libs example_connection_resource example_observed = Returns cn' ∧
    ready cn'.(Conditions) = Some Available.
Proof.
  destruct (@connection_ready reference_libs example_connection_resource example_observed
    [example_peering PeeringName "ACTIVE"; example_peering "other" "INACTIVE"]) as (cn' & Hcn & Hready); [reflexivity|].
  exists cn'. split; [exact Hcn|]. by rewrite Hready.
Defined.

Lemma connection_controller_errors_witness :
  errors_given connection_answers connection_fails (@Observe reference_libs "p" (Some example_connection_resource)).
Proof. apply (@connection_controller_errors reference_libs). Defined.
