(* ===== verification/Topic.v ===== *)
(** * Pub/Sub topics

    apis/pubsub/v1alpha1/topic_types.go, pkg/clients/topic/topic.go and
    pkg/controller/pubsub/topic.go. *)

From S2P Require Import Prelude GoSort GoStrings Libs Contract Gcp.

(** ** Types *)

Definition ConnectionSecretKeyTopic : string := "topic".
Definition ConnectionSecretKeyProjectName : string := "projectName".

Record MessageStoragePolicy := { AllowedPersistenceRegions : slice string }.
#[global] Instance MessageStoragePolicy_eq_dec : EqDecision MessageStoragePolicy.
Proof. solve_decision. Defined.

Record TopicParameters := {
  t_Labels : gomap string;
  t_MessageStoragePolicy : ptr MessageStoragePolicy;
  t_KmsKeyName : ptr string
}.
#[global] Instance TopicParameters_eq_dec : EqDecision TopicParameters.
Proof. solve_decision. Defined.

Definition zero_parameters : TopicParameters :=
  {| t_Labels := None; t_MessageStoragePolicy := None; t_KmsKeyName := None |}.

(** The status of a Topic holds conditions and nothing else. *)
Definition Topic : Type := Managed TopicParameters unit.

(** pubsub.MessageStoragePolicy, pubsub.Topic, pubsub.UpdateTopicRequest. *)
Record apiStoragePolicy := { asp_AllowedPersistenceRegions : slice string; asp_rest : rest }.
Record apiTopic := {
  at_KmsKeyName : string;
  at_Labels : gomap string;
  at_MessageStoragePolicy : ptr apiStoragePolicy;
  at_Name : string;
  at_rest : rest
}.
Record UpdateTopicRequest := { ut_Topic : apiTopic; ut_UpdateMask : string }.

(** ** The client *)

Definition GetFullyQualifiedName (project name : string) : string :=
  String.append "projects/" (String.append project (String.append "/topics/" name)).

Definition generate_policy (p : MessageStoragePolicy) : apiStoragePolicy :=
  {| asp_AllowedPersistenceRegions := p.(AllowedPersistenceRegions); asp_rest := ∅ |}.

Definition GenerateTopic (projectID name : string) (s : TopicParameters) : apiTopic := {|
  at_Name := name;
  at_Labels := s.(t_Labels);
  at_KmsKeyName := StringValue s.(t_KmsKeyName);
  at_MessageStoragePolicy := generate_policy <$> s.(t_MessageStoragePolicy);
  at_rest := ∅ |}.

Definition LateInitialize (s : TopicParameters) (t : apiTopic) : TopicParameters := {|
  t_Labels :=
    if map_empty s.(t_Labels) && negb (map_empty t.(at_Labels))
    then Some (entries t.(at_Labels)) else s.(t_Labels);
  t_KmsKeyName :=
    match s.(t_KmsKeyName) with
    | None => if negb (bool_decide (t.(at_KmsKeyName) = "")) then Some t.(at_KmsKeyName) else None
    | Some _ => s.(t_KmsKeyName)
    end;
  t_MessageStoragePolicy :=
    match s.(t_MessageStoragePolicy), t.(at_MessageStoragePolicy) with
    | None, Some p => Some {| AllowedPersistenceRegions := p.(asp_AllowedPersistenceRegions) |}
    | _, _ => s.(t_MessageStoragePolicy)
    end |}.

Section client.
Context `{Libs}.

Definition IsUpToDate (s : TopicParameters) (t : apiTopic) : bool :=
  let observed := LateInitialize zero_parameters t in
  cmp_Equal (=) observed s.

Definition GenerateUpdateRequest (projectID name : string) (s : TopicParameters) (t : apiTopic) : UpdateTopicRequest :=
  let observed := LateInitialize zero_parameters t in
  let topic := {| at_Name := name; at_KmsKeyName := ""; at_Labels := None;
                  at_MessageStoragePolicy := None; at_rest := ∅ |} in
  let '(mask, topic) :=
    if negb (cmp_Equal (=) s.(t_MessageStoragePolicy) observed.(t_MessageStoragePolicy))
    then (["messageStoragePolicy"],
          {| topic with at_MessageStoragePolicy := generate_policy <$> s.(t_MessageStoragePolicy) |})
    else ([], topic) in
  let '(mask, topic) :=
    if negb (cmp_Equal (=) s.(t_Labels) observed.(t_Labels))
    then (mask ++ ["labels"], {| topic with at_Labels := s.(t_Labels) |})
    else (mask, topic) in
  {| ut_Topic := topic; ut_UpdateMask := Join mask "," |}.
End client.

(** ** The controller *)

Definition errNotTopic : string := "managed resource is not of type Topic".
Definition errGetTopic : string := "cannot get Topic".
Definition errUpdateTopic : string := "cannot update Topic".
Definition errKubeUpdateTopic : string := "cannot update Topic custom resource".
Definition errCreateTopic : string := "cannot create Topic".
Definition errDeleteTopic : string := "cannot delete Topic".

Inductive TopicE : Type → Type :=
| TopicsGet (topic : string) : TopicE (apiTopic + error)
| TopicsCreate (name : string) (topic : apiTopic) : TopicE (option error)
| TopicsPatch (name : string) (req : UpdateTopicRequest) : TopicE (option error)
| TopicsDelete (topic : string) : TopicE (option error)
| KubeUpdate (cr : Topic) : TopicE (Topic + error).

Section controller.
Context `{Libs} (projectID : string).

Definition Observe (mg : option Topic)
  : prog TopicE (ExternalObservation * option error * option Topic) :=
  match mg with
  | None => mret (no_observation, errors_New errNotTopic, None)
  | Some cr =>
    r ← call (TopicsGet (GetFullyQualifiedName projectID cr.(ExternalName)));
    match r with
    | inr err =>
      mret (no_observation, errors_Wrap (resource_Ignore IsErrorNotFound (Some err)) errGetTopic, Some cr)
    | inl t =>
      let currentSpec := cr.(ForProvider) in
      let cr := {| cr with ForProvider := LateInitialize cr.(ForProvider) t |} in
      u ← (if negb (cmp_Equal (=) currentSpec cr.(ForProvider)) then call (KubeUpdate cr) else mret (inl cr));
      match u with
      | inr err => mret (no_observation, errors_Wrap (Some err) errKubeUpdateTopic, Some cr)
      | inl cr =>
        let cr := set_condition Available cr in
        mret ({| no_observation with
                 ResourceExists := true;
                 ResourceUpToDate := IsUpToDate cr.(ForProvider) t;
                 ConnectionDetails := Some (<[ConnectionSecretKeyTopic := cr.(ExternalName)]>
                   (<[ConnectionSecretKeyProjectName := projectID]> ∅)) |}, None, Some cr)
      end
    end
  end.

Definition Create (mg : option Topic)
  : prog TopicE (ExternalCreation * option error * option Topic) :=
  match mg with
  | None => mret (no_creation, errors_New errNotTopic, None)
  | Some cr =>
    let cr := set_condition Creating cr in
    err ← call (TopicsCreate (GetFullyQualifiedName projectID cr.(ExternalName))
                  (GenerateTopic projectID cr.(ExternalName) cr.(ForProvider)));
    mret (no_creation, errors_Wrap err errCreateTopic, Some cr)
  end.

Definition Update (mg : option Topic) : prog TopicE (option error * option Topic) :=
  match mg with
  | None => mret (errors_New errNotTopic, None)
  | Some cr =>
    r ← call (TopicsGet (GetFullyQualifiedName projectID cr.(ExternalName)));
    match r with
    | inr err => mret (errors_Wrap (Some err) errGetTopic, Some cr)
    | inl t =>
      err ← call (TopicsPatch (GetFullyQualifiedName projectID cr.(ExternalName))
                    (GenerateUpdateRequest projectID cr.(ExternalName) cr.(ForProvider) t));
      mret (errors_Wrap err errUpdateTopic, Some cr)
    end
  end.

Definition Delete (mg : option Topic) : prog TopicE (option error * option Topic) :=
  match mg with
  | None => mret (errors_New errNotTopic, None)
  | Some cr =>
    err ← call (TopicsDelete (GetFullyQualifiedName projectID cr.(ExternalName)));
    mret (errors_Wrap (resource_Ignore IsErrorNotFound err) errDeleteTopic, Some cr)
  end.
End controller.

(** ** Lemmas *)

Definition keeps_spec (i i' : TopicParameters) : Prop :=
  keeps_map i.(t_Labels) i'.(t_Labels) ∧ keeps i.(t_KmsKeyName) i'.(t_KmsKeyName) ∧
  keeps i.(t_MessageStoragePolicy) i'.(t_MessageStoragePolicy).

Lemma LateInitialize_keeps i t : keeps_spec i (LateInitialize i t).
Proof.
  split_and!; simpl.
  - intros ->. done.
  - by destruct i.(t_KmsKeyName); intros ?.
  - by destruct i.(t_MessageStoragePolicy); intros ?.
Qed.
#[local] Hint Resolve LateInitialize_keeps : handlers.

(** The parameters a topic has, as IsUpToDate and GenerateUpdateRequest see it. *)
Definition observed_labels (t : apiTopic) : gomap string :=
  if map_empty t.(at_Labels) then None else Some (entries t.(at_Labels)).
Definition observed_policy (t : apiTopic) : ptr MessageStoragePolicy :=
  (λ p, {| AllowedPersistenceRegions := p.(asp_AllowedPersistenceRegions) |}) <$> t.(at_MessageStoragePolicy).
Definition observed_kms (t : apiTopic) : ptr string :=
  if bool_decide (t.(at_KmsKeyName) = "") then None else Some t.(at_KmsKeyName).

Lemma LateInitialize_zero t :
  LateInitialize zero_parameters t =
    {| t_Labels := observed_labels t; t_MessageStoragePolicy := observed_policy t; t_KmsKeyName := observed_kms t |}.
Proof.
  unfold LateInitialize, observed_labels, observed_policy, observed_kms. simpl.
  by destruct (map_empty t.(at_Labels)), t.(at_MessageStoragePolicy); simpl; case_bool_decide.
Qed.

Lemma topic_IsUpToDate_spec `{Libs} s t :
  IsUpToDate s t =
    bool_decide (s.(t_Labels) = observed_labels t ∧ s.(t_MessageStoragePolicy) = observed_policy t ∧
                 s.(t_KmsKeyName) = observed_kms t).
Proof.
  unfold IsUpToDate. rewrite cmp_Equal_decides, LateInitialize_zero. apply bool_decide_ext.
  destruct s; simpl. split; [by intros [=]|by intros (-> & -> & ->)].
Qed.

(** What the request changes, and the values it carries. *)
Lemma GenerateUpdateRequest_spec `{Libs} projectID name s t :
  let ut := GenerateUpdateRequest projectID name s t in
  masked ut.(ut_UpdateMask) "messageStoragePolicy" = negb (bool_decide (s.(t_MessageStoragePolicy) = observed_policy t)) ∧
  masked ut.(ut_UpdateMask) "labels" = negb (bool_decide (s.(t_Labels) = observed_labels t)) ∧
  masked ut.(ut_UpdateMask) "kmsKeyName" = false ∧
  (ut.(ut_UpdateMask) = "" ↔ s.(t_MessageStoragePolicy) = observed_policy t ∧ s.(t_Labels) = observed_labels t) ∧
  (s.(t_MessageStoragePolicy) ≠ observed_policy t →
     ut.(ut_Topic).(at_MessageStoragePolicy) = generate_policy <$> s.(t_MessageStoragePolicy)) ∧
  (s.(t_Labels) ≠ observed_labels t → ut.(ut_Topic).(at_Labels) = s.(t_Labels)) ∧
  ut.(ut_Topic).(at_Name) = name.
Proof.
  unfold GenerateUpdateRequest. rewrite !cmp_Equal_decides, LateInitialize_zero. simpl.
  destruct (bool_decide_reflect (s.(t_MessageStoragePolicy) = observed_policy t)) as [Hp|Hp],
    (bool_decide_reflect (s.(t_Labels) = observed_labels t)) as [Hl|Hl]; simpl; split_and!;
    first [reflexivity | tauto | split; [discriminate|tauto] | intros; reflexivity].
Qed.

(** What the API documents of a patch: a path in the mask takes the value of
    the request, anything else stays. *)
Definition patched (ut : UpdateTopicRequest) (t t' : apiTopic) : Prop :=
  t'.(at_Labels) = (if masked ut.(ut_UpdateMask) "labels" then ut.(ut_Topic).(at_Labels) else t.(at_Labels)) ∧
  t'.(at_MessageStoragePolicy) =
    (if masked ut.(ut_UpdateMask) "messageStoragePolicy" then ut.(ut_Topic).(at_MessageStoragePolicy)
     else t.(at_MessageStoragePolicy)) ∧
  t'.(at_KmsKeyName) =
    (if masked ut.(ut_UpdateMask) "kmsKeyName" then ut.(ut_Topic).(at_KmsKeyName) else t.(at_KmsKeyName)).

(** ** Properties *)

(** Late initialization of a topic changes no field the user set and is
    idempotent. *)
Theorem topic_late_init_keeps s t :
  keeps_spec s (LateInitialize s t) ∧ LateInitialize (LateInitialize s t) t = LateInitialize s t.
Proof.
  split; [apply LateInitialize_keeps|]. unfold LateInitialize; simpl. f_equal.
  - destruct (map_empty s.(t_Labels) && _) eqn:Hs; [by destruct (map_empty (Some _) && _)|by rewrite Hs].
  - by destruct s.(t_MessageStoragePolicy), t.(at_MessageStoragePolicy).
  - destruct s.(t_KmsKeyName); [done|]. by repeat case_bool_decide.
Qed.

(** C38: a topic is brought up to date by one patch. If the key of the topic is
    the one asked for and the spec has no empty label map, every topic that is
    the result of applying the generated request is up to date. *)
Theorem topic_update_converges `{Libs} projectID name s t t'
    (Hkms : s.(t_KmsKeyName) = observed_kms t) (Hlabels : s.(t_Labels) ≠ Some ∅)
    (Hpatch : patched (GenerateUpdateRequest projectID name s t) t t') :
  IsUpToDate s t' = true.
Proof.
  destruct (GenerateUpdateRequest_spec projectID name s t) as (Hmp & Hml & Hmk & _ & Hvp & Hvl & _).
  destruct Hpatch as (Hl & Hp & Hk). rewrite Hmp in Hp. rewrite Hml in Hl. rewrite Hmk in Hk.
  rewrite topic_IsUpToDate_spec. apply bool_decide_eq_true_2. unfold observed_kms. rewrite Hk. split_and!; [| |done].
  - unfold observed_labels. rewrite Hl.
    destruct (bool_decide_reflect (s.(t_Labels) = observed_labels t)) as [Hd|Hd]; simpl; [done|]. rewrite (Hvl Hd).
    unfold map_empty, entries. destruct s.(t_Labels); simpl;
      [rewrite bool_decide_eq_false_2 by congruence|rewrite bool_decide_eq_true_2 by done]; done.
  - unfold observed_policy. rewrite Hp.
    destruct (bool_decide_reflect (s.(t_MessageStoragePolicy) = observed_policy t)) as [Hd|Hd]; simpl; [done|]. rewrite (Hvp Hd).
    by destruct s.(t_MessageStoragePolicy) as [[]|].
Qed.

Definition example_topic : apiTopic :=
  {| at_KmsKeyName := "k"; at_Labels := Some {["a" := "1"]}; at_MessageStoragePolicy := None;
     at_Name := "t"; at_rest := ∅ |}.
Definition example_topic_parameters : TopicParameters :=
  {| t_Labels := Some {["a" := "2"]}; t_KmsKeyName := Some "k";
     t_MessageStoragePolicy := Some {| AllowedPersistenceRegions := Some ["us-east1"] |} |}.

Lemma topic_update_converges_witness :
  let _ := reference_libs in
  IsUpToDate example_topic_parameters
    {| example_topic with at_Labels := Some {["a" := "2"]};
       at_MessageStoragePolicy := Some {| asp_AllowedPersistenceRegions := Some ["us-east1"]; asp_rest := ∅ |} |} = true.
Proof.
  intros libs. apply (@topic_update_converges libs "p" "t" example_topic_parameters example_topic).
  - done.
  - done.
  - by split_and!; vm_compute.
Defined.

(** What makes a topic out of date and what an update can change differ by
    the key: the topic is up to date exactly when the update mask is empty and
    the key is the one asked for, and no request ever names the key. So a topic
    with another key is never up to date and is patched with an empty mask. *)
Theorem topic_kms_change_is_lost `{Libs} projectID name s t :
  let ut := GenerateUpdateRequest projectID name s t in
  (IsUpToDate s t = true ↔ ut.(ut_UpdateMask) = "" ∧ s.(t_KmsKeyName) = observed_kms t) ∧
  masked ut.(ut_UpdateMask) "kmsKeyName" = false.
Proof.
  destruct (GenerateUpdateRequest_spec projectID name s t) as (_ & _ & Hmk & Hnil & _).
  split; [|done]. rewrite topic_IsUpToDate_spec, bool_decide_eq_true, Hnil. tauto.
Qed.

Definition topic_fails (observing : bool) (X : Type) (e : TopicE X) : X → bool :=
  match e with
  | TopicsGet _ => read_fails (if observing then IsErrorNotFound else no_excuse)
  | TopicsDelete _ => write_fails IsErrorNotFound
  | TopicsCreate _ _ | TopicsPatch _ _ => write_fails no_excuse
  | KubeUpdate _ => read_fails no_excuse
  end.

Definition topic_observe_calls (projectID : string) (cr : Topic) (X : Type) (e : TopicE X) : Prop :=
  match e with
  | TopicsGet t => t = GetFullyQualifiedName projectID cr.(ExternalName)
  | KubeUpdate cr' => late_update keeps_spec cr cr'
  | _ => False
  end.

(** The handlers of the Topic controller never panic and return an error
    exactly when one of their calls failed, where NotFound is no failure of
    Observe's Get and of Delete; after a failure they call nothing more. Observe
    reads the topic and writes nothing but a spec that keeps what the user set. *)
Theorem topic_controller_errors `{Libs} projectID cr :
  errors_iff (topic_fails true) (Observe projectID (Some cr)) ∧
  stops_on_failure (topic_fails true) (Observe projectID (Some cr)) ∧
  calls_only (topic_observe_calls projectID cr) (Observe projectID (Some cr)) ∧
  observes (Observe projectID (Some cr)) ∧
  errors_iff (topic_fails false) (Create projectID (Some cr)) ∧
  errors_iff (topic_fails false) (Update projectID (Some cr)) ∧
  stops_on_failure (topic_fails false) (Update projectID (Some cr)) ∧
  errors_iff (topic_fails false) (Delete projectID (Some cr)).
Proof. unfold errors_iff, errors_given, observes. split_and!; simpl; walk. Qed.

Lemma topic_kms_change_is_lost_witness :
  let s := {| zero_parameters with t_Labels := Some {["a" := "1"]}; t_KmsKeyName := Some "other" |} in
  @IsUpToDate reference_libs s example_topic = false ∧
  (@GenerateUpdateRequest reference_libs "p" "t" s example_topic).(ut_UpdateMask) = "" ∧
  masked (@GenerateUpdateRequest reference_libs "p" "t" s example_topic).(ut_UpdateMask) "kmsKeyName" = false.
Proof.
  intros s. destruct (@topic_kms_change_is_lost reference_libs "p" "t" s example_topic) as [Hiff Hmask].
  split_and!; [|by vm_compute|exact Hmask].
  apply not_true_iff_false. rewrite Hiff. by intros [_ Hk].
Defined.

Lemma topic_controller_errors_witness :
  errors_iff (topic_fails true) (@Observe reference_libs "p" (Some (fresh "t" example_topic_parameters ()))).
Proof. apply (@topic_controller_errors reference_libs). Defined.
