(* ===== verification/KeyRing.v ===== *)
(** * KMS key rings

    apis/kms/v1alpha1/keyring_types.go, pkg/clients/keyring/keyring.go and
    pkg/controller/kms/keyring.go. *)

From S2P Require Import Prelude GoSort GoStrings Libs Contract Gcp.

Record KeyRingParameters := { kr_Location : string }.
Record KeyRingObservation := { kro_CreateTime : string; kro_Name : string }.
Definition KeyRing : Type := Managed KeyRingParameters KeyRingObservation.

(** cloudkms.KeyRing. *)
Record apiKeyRing := { akr_CreateTime : string; akr_Name : string; akr_rest : rest }.
Definition zero_keyring : apiKeyRing := {| akr_CreateTime := ""; akr_Name := ""; akr_rest := ∅ |}.

Definition GenerateObservation (i : apiKeyRing) : KeyRingObservation :=
  {| kro_Name := i.(akr_Name); kro_CreateTime := i.(akr_CreateTime) |}.

(** ** Relative resource names *)

Record RelativeResourceNamerKeyRing := { projectName : string; location : string }.

Definition NewRelativeResourceNamerKeyRing (projectName location : string) : RelativeResourceNamerKeyRing :=
  {| projectName := projectName; location := location |}.

Definition ProjectRRN (rrn : RelativeResourceNamerKeyRing) : string :=
  String.append "projects/" rrn.(projectName).
Definition LocationRRN (rrn : RelativeResourceNamerKeyRing) : string :=
  String.append (ProjectRRN rrn) (String.append "/locations/" rrn.(location)).
Definition ResourceName (rrn : RelativeResourceNamerKeyRing) (kr : KeyRing) : string :=
  String.append (LocationRRN rrn) (String.append "/keyRings/" kr.(ExternalName)).

(** ** The controller *)

Definition errNotKeyRing : string := "managed resource is not a GCP KeyRing".
Definition errGet : string := "cannot get GCP object via KMS API".
Definition errCreate : string := "cannot create GCP object via KMS API".
Definition errUpdate : string := "cannot update GCP object via KMS API".

Inductive KeyRingE : Type → Type :=
| KeyRingsGet (name : string) : KeyRingE (apiKeyRing + error)
| KeyRingsCreate (parent keyRingId : string) (instance : apiKeyRing) : KeyRingE (option error).

Section controller.
Context `{Libs} (rrn : RelativeResourceNamerKeyRing).

Definition Observe (mg : option KeyRing)
  : prog KeyRingE (ExternalObservation * option error * option KeyRing) :=
  match mg with
  | None => mret (no_observation, errors_New errNotKeyRing, None)
  | Some cr =>
    if cr.(WasDeleted) then mret (no_observation, None, Some cr)
    else
      r ← call (KeyRingsGet (ResourceName rrn cr));
      match r with
      | inr err =>
        if IsErrorNotFound (Some err) then mret (no_observation, None, Some cr)
        else mret (no_observation, errors_Wrap (Some err) errGet, Some cr)
      | inl instance =>
        let cr := set_condition Available cr in
        let cr := {| cr with AtProvider := GenerateObservation instance |} in
        mret ({| no_observation with ResourceExists := true; ResourceUpToDate := true;
                 ConnectionDetails := Some ∅ |}, None, Some cr)
      end
  end.

Definition Create (mg : option KeyRing)
  : prog KeyRingE (ExternalCreation * option error * option KeyRing) :=
  match mg with
  | None => mret (no_creation, errors_New errNotKeyRing, None)
  | Some cr =>
    let cr := set_condition Creating cr in
    r ← call (KeyRingsCreate (LocationRRN rrn) cr.(ExternalName) zero_keyring);
    match r with
    | Some err => mret (no_creation, errors_Wrap (Some err) errCreate, Some cr)
    | None => mret (no_creation, None, Some cr)
    end
  end.

Definition Update (mg : option KeyRing) : prog KeyRingE (option error * option KeyRing) := mret (None, mg).
Definition Delete (mg : option KeyRing) : prog KeyRingE (option error * option KeyRing) := mret (None, mg).
End controller.

(** ** Properties *)

Definition key_ring_fails (X : Type) (e : KeyRingE X) : X → bool :=
  match e with
  | KeyRingsGet _ => read_fails IsErrorNotFound
  | KeyRingsCreate _ _ _ => write_fails no_excuse
  end.

(** The calls a handler may make for [cr]: none once it is deleted, otherwise
    about the key ring the namer gives it. *)
Definition key_ring_calls (rrn : RelativeResourceNamerKeyRing) (cr : KeyRing) (X : Type) (e : KeyRingE X) : Prop :=
  cr.(WasDeleted) = false ∧
  match e with
  | KeyRingsGet name => name = ResourceName rrn cr
  | KeyRingsCreate _ _ _ => False
  end.

(** The handlers of the KeyRing controller never panic and return an error
    exactly when a call failed, where NotFound is no failure of Get. Observe only
    reads; for a resource that was deleted it calls nothing and reports that the
    key ring is gone, although key rings cannot be deleted, so that Kubernetes
    can let go of the resource; whenever it reports a key ring, the resource is
    Available and carries what the API said. *)
Theorem key_ring_controller `{Libs} rrn cr :
  errors_iff key_ring_fails (Observe rrn (Some cr)) ∧
  calls_only (key_ring_calls rrn cr) (Observe rrn (Some cr)) ∧
  observes (Observe rrn (Some cr)) ∧
  (cr.(WasDeleted) = true → Observe rrn (Some cr) = Done (no_observation, None, Some cr)) ∧
  always (λ '(o, _, mg'), o.(ResourceExists) = true → ∃ cr', mg' = Some cr' ∧
    ready cr'.(Conditions) = Some Available) (Observe rrn (Some cr)) ∧
  errors_iff key_ring_fails (Create rrn (Some cr)) ∧
  Update (Some cr) = Done (None, Some cr) ∧ Delete (Some cr) = Done (None, Some cr).
Proof.
  unfold errors_iff, errors_given, observes. split_and!; simpl; walk.
  eexists; split; [done|]. by apply SetConditions_ready.
Qed.

Lemma key_ring_controller_witness :
  errors_iff key_ring_fails (@Observe reference_libs (NewRelativeResourceNamerKeyRing "p" "global")
    (Some (fresh "k" {| kr_Location := "global" |} {| kro_CreateTime := ""; kro_Name := "" |}))).
Proof. apply (@key_ring_controller reference_libs). Defined.
