(* ===== verification/CryptoKey.v ===== *)
(** * KMS crypto keys

    apis/kms/v1alpha1/cryptokey_types.go, pkg/clients/cryptokey/cryptokey.go and
    pkg/controller/kms/cryptokey.go. *)

From S2P Require Import Prelude GoSort GoStrings Libs Contract Gcp KeyRing.

(** ** Types *)

Record CryptoKeyVersionTemplate := { vt_Algorithm : ptr string; vt_ProtectionLevel : ptr string }.
#[global] Instance CryptoKeyVersionTemplate_eq_dec : EqDecision CryptoKeyVersionTemplate.
Proof. solve_decision. Defined.

Record CryptoKeyParameters := {
  ck_KeyRing : ptr string;
  ck_KeyRingRef : ptr Reference;
  ck_KeyRingSelector : ptr Selector;
  ck_Labels : gomap string;
  ck_Purpose : string;
  ck_RotationPeriod : ptr string;
  ck_NextRotationTime : ptr string;
  ck_VersionTemplate : ptr CryptoKeyVersionTemplate
}.
#[global] Instance CryptoKeyParameters_eq_dec : EqDecision CryptoKeyParameters.
Proof. solve_decision. Defined.

Record KeyOperationAttestation := { koa_Content : string; koa_Format : string }.
Record ExternalProtectionLevelOptions := { ExternalKeyUri : string }.

Record CryptoKeyVersion := {
  ckv_Algorithm : string;
  ckv_Attestation : ptr KeyOperationAttestation;
  ckv_CreateTime : string;
  ckv_DestroyEventTime : string;
  ckv_DestroyTime : string;
  ckv_ExternalProtectionLevelOptions : ptr ExternalProtectionLevelOptions;
  ckv_GenerateTime : string;
  ckv_ImportFailureReason : string;
  ckv_ImportJob : string;
  ckv_ImportTime : string;
  ckv_Name : string;
  ckv_ProtectionLevel : string;
  ckv_State : string
}.

Record CryptoKeyObservation := {
  cko_CreateTime : string;
  cko_Name : string;
  cko_NextRotationTime : string;
  cko_Primary : ptr CryptoKeyVersion
}.

Definition CryptoKey : Type := Managed CryptoKeyParameters CryptoKeyObservation.

(** cloudkms.KeyOperationAttestation, ExternalProtectionLevelOptions,
    CryptoKeyVersion, CryptoKeyVersionTemplate and CryptoKey. *)
Record apiAttestation := { aka_Content : string; aka_Format : string; aka_rest : rest }.
Record apiProtectionOptions := { apo_ExternalKeyUri : string; apo_rest : rest }.
Record apiKeyVersion := {
  akv_Algorithm : string;
  akv_Attestation : ptr apiAttestation;
  akv_CreateTime : string;
  akv_DestroyEventTime : string;
  akv_DestroyTime : string;
  akv_ExternalProtectionLevelOptions : ptr apiProtectionOptions;
  akv_GenerateTime : string;
  akv_ImportFailureReason : string;
  akv_ImportJob : string;
  akv_ImportTime : string;
  akv_Name : string;
  akv_ProtectionLevel : string;
  akv_State : string;
  akv_rest : rest
}.
Record apiVersionTemplate := {
  avt_Algorithm : string;
  avt_ProtectionLevel : string;
  avt_ForceSendFields : slice string;
  avt_NullFields : slice string;
  avt_rest : rest
}.
#[global] Instance apiVersionTemplate_eq_dec : EqDecision apiVersionTemplate.
Proof. solve_decision. Defined.
Record apiCryptoKey := {
  ack_CreateTime : string;
  ack_Labels : gomap string;
  ack_Name : string;
  ack_NextRotationTime : string;
  ack_Primary : ptr apiKeyVersion;
  ack_Purpose : string;
  ack_RotationPeriod : string;
  ack_VersionTemplate : ptr apiVersionTemplate;
  ack_rest : rest
}.

Definition zero_template : apiVersionTemplate := {|
  avt_Algorithm := ""; avt_ProtectionLevel := ""; avt_ForceSendFields := None; avt_NullFields := None;
  avt_rest := ∅ |}.
Definition zero_cryptokey : apiCryptoKey := {|
  ack_CreateTime := ""; ack_Labels := None; ack_Name := ""; ack_NextRotationTime := ""; ack_Primary := None;
  ack_Purpose := ""; ack_RotationPeriod := ""; ack_VersionTemplate := None; ack_rest := ∅ |}.

(** ** The client *)

Definition errCheckClient : string := "unable to determine if external resource is up to date".

Definition GenerateCryptoKeyInstance (i : CryptoKeyParameters) (ck : apiCryptoKey) : apiCryptoKey :=
  {| ck with
     ack_Labels := i.(ck_Labels);
     ack_Purpose := i.(ck_Purpose);
     ack_RotationPeriod := StringValue i.(ck_RotationPeriod);
     ack_NextRotationTime := StringValue i.(ck_NextRotationTime);
     ack_VersionTemplate :=
       match i.(ck_VersionTemplate) with
       | None => ck.(ack_VersionTemplate)
       | Some vt =>
         Some {| (default zero_template ck.(ack_VersionTemplate)) with
                 avt_Algorithm := StringValue vt.(vt_Algorithm);
                 avt_ProtectionLevel := StringValue vt.(vt_ProtectionLevel) |}
       end |}.

Definition GenerateObservation (i : apiCryptoKey) : CryptoKeyObservation := {|
  cko_CreateTime := i.(ack_CreateTime);
  cko_Name := i.(ack_Name);
  cko_NextRotationTime := i.(ack_NextRotationTime);
  cko_Primary := (λ p, {|
    ckv_Algorithm := p.(akv_Algorithm);
    ckv_Attestation := (λ a, {| koa_Content := a.(aka_Content); koa_Format := a.(aka_Format) |})
      <$> p.(akv_Attestation);
    ckv_CreateTime := p.(akv_CreateTime);
    ckv_DestroyEventTime := p.(akv_DestroyEventTime);
    ckv_DestroyTime := p.(akv_DestroyTime);
    ckv_ExternalProtectionLevelOptions := (λ e, {| ExternalKeyUri := e.(apo_ExternalKeyUri) |})
      <$> p.(akv_ExternalProtectionLevelOptions);
    ckv_GenerateTime := p.(akv_GenerateTime);
    ckv_ImportFailureReason := p.(akv_ImportFailureReason);
    ckv_ImportJob := p.(akv_ImportJob);
    ckv_ImportTime := p.(akv_ImportTime);
    ckv_Name := p.(akv_Name);
    ckv_ProtectionLevel := p.(akv_ProtectionLevel);
    ckv_State := p.(akv_State) |}) <$> i.(ack_Primary) |}.

Definition LateInitializeSpec (spec : CryptoKeyParameters) (i : apiCryptoKey) : CryptoKeyParameters :=
  {| spec with
     ck_Labels := i.(ack_Labels);
     ck_RotationPeriod := LateInitializeString spec.(ck_RotationPeriod) i.(ack_RotationPeriod);
     ck_NextRotationTime := LateInitializeString spec.(ck_NextRotationTime) i.(ack_NextRotationTime);
     ck_VersionTemplate :=
       match i.(ack_VersionTemplate) with
       | None => spec.(ck_VersionTemplate)
       | Some avt =>
         let vt := default {| vt_Algorithm := None; vt_ProtectionLevel := None |} spec.(ck_VersionTemplate) in
         Some {| vt_ProtectionLevel := LateInitializeString vt.(vt_ProtectionLevel) avt.(avt_ProtectionLevel);
                 vt_Algorithm := LateInitializeString vt.(vt_Algorithm) avt.(avt_Algorithm) |}
       end |}.

(** What cmp.Equal sees of a version template with IgnoreFields on
    ForceSendFields and NullFields. *)
Definition view_template (vt : ptr apiVersionTemplate) : ptr apiVersionTemplate :=
  (λ t, {| t with avt_ForceSendFields := None; avt_NullFields := None |}) <$> vt.

Section client.
Context `{Libs}.

(** The results are whether the key is up to date, the update mask and the
    error; a missing version template is dereferenced. *)
Definition IsUpToDate (i : CryptoKeyParameters) (observed : apiCryptoKey) : outcome (bool * string * option error) :=
  match copystructure_Copy observed with
  | CopyFails err => Returns (true, "", errors_Wrap (Some err) errCheckClient)
  | CopyOtherType => Returns (true, "", errors_New errCheckClient)
  | Copied desired =>
    let desired := GenerateCryptoKeyInstance i desired in
    let um := (if negb (cmp_Equal (same_view norm_map) desired.(ack_Labels) observed.(ack_Labels))
               then ["labels"] else []) in
    let um := um ++ (if negb (cmp_Equal (=) desired.(ack_Purpose) observed.(ack_Purpose))
                     then ["purpose"] else []) in
    let um := um ++ (if negb (cmp_Equal (=) desired.(ack_RotationPeriod) observed.(ack_RotationPeriod))
                     then ["rotationPeriod"] else []) in
    let um := um ++ (if negb (cmp_Equal (=) desired.(ack_NextRotationTime) observed.(ack_NextRotationTime))
                     then ["nextRotationTime"] else []) in
    um ← (if negb (cmp_Equal (same_view view_template) desired.(ack_VersionTemplate) observed.(ack_VersionTemplate))
          then
            d ← deref desired.(ack_VersionTemplate);
            o ← deref observed.(ack_VersionTemplate);
            let um := um ++ (if negb (cmp_Equal (=) d.(avt_Algorithm) o.(avt_Algorithm))
                             then ["versionTemplate.algorithm"] else []) in
            let um := um ++ (if negb (cmp_Equal (=) d.(avt_ProtectionLevel) o.(avt_ProtectionLevel))
                             then ["versionTemplate.protectionLevel"] else []) in
            Returns um
          else Returns um);
    match um with
    | [] => Returns (true, "", None)
    | _ => Returns (false, Join um ",", None)
    end
  end.
End client.

(** ** The controller *)

Definition errNotCryptoKey : string := "managed resource is not a GCP CryptoKey".
Definition errCheckUpToDate : string := "cannot determine if CryptoKey instance is up to date".

Inductive CryptoKeyE : Type → Type :=
| CryptoKeysGet (name : string) : CryptoKeyE (apiCryptoKey + error)
| CryptoKeysCreate (parent cryptoKeyId : string) (instance : apiCryptoKey) : CryptoKeyE (option error)
| CryptoKeysPatch (name : string) (instance : apiCryptoKey) (updateMask : string) : CryptoKeyE (option error).

Definition cryptoKeyRRN (cr : CryptoKey) : string :=
  String.append (StringValue cr.(ForProvider).(ck_KeyRing)) (String.append "/cryptoKeys/" cr.(ExternalName)).

Section controller.
Context `{Libs}.

Definition Observe (mg : option CryptoKey)
  : prog CryptoKeyE (ExternalObservation * option error * option CryptoKey) :=
  match mg with
  | None => mret (no_observation, errors_New errNotCryptoKey, None)
  | Some cr =>
    if cr.(WasDeleted) then mret (no_observation, None, Some cr)
    else
      r ← call (CryptoKeysGet (cryptoKeyRRN cr));
      match r with
      | inr err => mret (no_observation, errors_Wrap (resource_Ignore IsErrorNotFound (Some err)) errGet, Some cr)
      | inl instance =>
        let currentSpec := cr.(ForProvider) in
        let cr := {| cr with ForProvider := LateInitializeSpec cr.(ForProvider) instance |} in
        let lateInitialized := negb (cmp_Equal (=) currentSpec cr.(ForProvider)) in
        let cr := {| cr with AtProvider := GenerateObservation instance |} in
        let cr := set_condition Available cr in
        u ← lift (IsUpToDate cr.(ForProvider) instance);
        match u with
        | (_, _, Some err) => mret (no_observation, errors_Wrap (Some err) errCheckUpToDate, Some cr)
        | (upToDate, _, None) =>
          mret ({| no_observation with ResourceExists := true; ResourceLateInitialized := lateInitialized;
                   ResourceUpToDate := upToDate |}, None, Some cr)
        end
      end
  end.

Definition Create (mg : option CryptoKey)
  : prog CryptoKeyE (ExternalCreation * option error * option CryptoKey) :=
  match mg with
  | None => mret (no_creation, errors_New errNotCryptoKey, None)
  | Some cr =>
    let cr := set_condition Creating cr in
    let instance := GenerateCryptoKeyInstance cr.(ForProvider) zero_cryptokey in
    r ← call (CryptoKeysCreate (StringValue cr.(ForProvider).(ck_KeyRing)) cr.(ExternalName) instance);
    match r with
    | Some err => mret (no_creation, errors_Wrap (Some err) errCreate, Some cr)
    | None => mret (no_creation, None, Some cr)
    end
  end.

Definition Update (mg : option CryptoKey) : prog CryptoKeyE (option error * option CryptoKey) :=
  match mg with
  | None => mret (errors_New errNotCryptoKey, None)
  | Some cr =>
    r ← call (CryptoKeysGet (cryptoKeyRRN cr));
    match r with
    | inr err => mret (errors_Wrap (Some err) errGet, Some cr)
    | inl instance =>
      u ← lift (IsUpToDate cr.(ForProvider) instance);
      match u with
      | (_, _, Some err) => mret (errors_Wrap (Some err) errCheckUpToDate, Some cr)
      | (true, _, None) => mret (None, Some cr)
      | (false, um, None) =>
        let instance := GenerateCryptoKeyInstance cr.(ForProvider) instance in
        s ← call (CryptoKeysPatch (cryptoKeyRRN cr) instance um);
        match s with
        | Some err => mret (errors_Wrap (Some err) errUpdate, Some cr)
        | None => mret (None, Some cr)
        end
      end
    end
  end.

Definition Delete (mg : option CryptoKey) : prog CryptoKeyE (option error * option CryptoKey) := mret (None, mg).
End controller.

(** ** Lemmas *)

Definition keeps_template (x y : ptr CryptoKeyVersionTemplate) : Prop :=
  match x with
  | None => True
  | Some vt => ∃ vt', y = Some vt' ∧ keeps vt.(vt_Algorithm) vt'.(vt_Algorithm) ∧
                 keeps vt.(vt_ProtectionLevel) vt'.(vt_ProtectionLevel)
  end.

(** Where the parameters and the key differ, path by path. *)
Definition differing (i : CryptoKeyParameters) (o : apiCryptoKey) : list (bool * string) :=
  let template (f : CryptoKeyVersionTemplate → ptr string) (g : apiVersionTemplate → string) :=
    match i.(ck_VersionTemplate), o.(ack_VersionTemplate) with
    | Some vt, Some avt => negb (bool_decide (StringValue (f vt) = g avt))
    | _, _ => false
    end in
  [(negb (bool_decide (norm_map i.(ck_Labels) = norm_map o.(ack_Labels))), "labels");
   (negb (bool_decide (i.(ck_Purpose) = o.(ack_Purpose))), "purpose");
   (negb (bool_decide (StringValue i.(ck_RotationPeriod) = o.(ack_RotationPeriod))), "rotationPeriod");
   (negb (bool_decide (StringValue i.(ck_NextRotationTime) = o.(ack_NextRotationTime))), "nextRotationTime");
   (template vt_Algorithm avt_Algorithm, "versionTemplate.algorithm");
   (template vt_ProtectionLevel avt_ProtectionLevel, "versionTemplate.protectionLevel")].

Definition paths (l : list (bool * string)) : list string := (filter (λ d, d.1 = true) l).*2.

(** The template is asked for and there is none. *)
Definition no_template (i : CryptoKeyParameters) (o : apiCryptoKey) : bool :=
  bool_decide (i.(ck_VersionTemplate) ≠ None) && bool_decide (o.(ack_VersionTemplate) = None).

Lemma view_template_generated i o :
  bool_decide (same_view view_template (GenerateCryptoKeyInstance i o).(ack_VersionTemplate) o.(ack_VersionTemplate)) =
  match i.(ck_VersionTemplate), o.(ack_VersionTemplate) with
  | None, _ => true
  | Some vt, None => false
  | Some vt, Some avt => bool_decide (StringValue vt.(vt_Algorithm) = avt.(avt_Algorithm)) &&
                         bool_decide (StringValue vt.(vt_ProtectionLevel) = avt.(avt_ProtectionLevel))
  end.
Proof.
  unfold same_view, view_template. simpl.
  destruct i.(ck_VersionTemplate) as [[alg prot]|], o.(ack_VersionTemplate) as [[aalg aprot fs nf r]|]; simpl.
  - rewrite <-bool_decide_and. apply bool_decide_ext. split; [by intros [=]|by intros [-> ->]].
  - reflexivity.
  - by apply bool_decide_eq_true_2.
  - reflexivity.
Qed.

Lemma crypto_key_IsUpToDate_spec `{Libs} `{!CopySucceeds} i o :
  IsUpToDate i o =
    if no_template i o then Panics
    else Returns (bool_decide (paths (differing i o) = []), Join (paths (differing i o)) ",", None).
Proof.
  unfold IsUpToDate. rewrite copy_succeeds, !cmp_Equal_decides, view_template_generated. simpl.
  unfold same_view, no_template, differing. simpl.
  destruct (bool_decide (norm_map i.(ck_Labels) = _)), (bool_decide (i.(ck_Purpose) = _)),
    (bool_decide (StringValue i.(ck_RotationPeriod) = _)), (bool_decide (StringValue i.(ck_NextRotationTime) = _));
    destruct i.(ck_VersionTemplate) as [[alg prot]|], o.(ack_VersionTemplate) as [[aalg aprot fs nf r]|]; simpl;
    try reflexivity; rewrite !cmp_Equal_decides;
    destruct (bool_decide (StringValue alg = aalg)), (bool_decide (StringValue prot = aprot)); reflexivity.
Qed.

(** A path is in the mask exactly when its field differs. *)
Lemma masked_paths b1 b2 b3 b4 b5 b6 :
  let um := Join (paths [(b1, "labels"); (b2, "purpose"); (b3, "rotationPeriod"); (b4, "nextRotationTime");
    (b5, "versionTemplate.algorithm"); (b6, "versionTemplate.protectionLevel")]) "," in
  masked um "labels" = b1 ∧ masked um "purpose" = b2 ∧ masked um "rotationPeriod" = b3 ∧
  masked um "nextRotationTime" = b4 ∧ masked um "versionTemplate.algorithm" = b5 ∧
  masked um "versionTemplate.protectionLevel" = b6.
Proof. destruct b1, b2, b3, b4, b5, b6; vm_compute; split_and!; reflexivity. Qed.

(** What the API documents of a patch of the key [o] to [d]: a path in the mask
    takes the new value, anything else stays; empty and missing labels are the
    same. *)
Definition patched (um : string) (d o o' : apiCryptoKey) : Prop :=
  let pick {A : Type} (f : apiCryptoKey → A) (path : string) : A := f (if masked um path then d else o) in
  norm_map o'.(ack_Labels) = norm_map (pick ack_Labels "labels") ∧
  o'.(ack_Purpose) = pick ack_Purpose "purpose" ∧
  o'.(ack_RotationPeriod) = pick ack_RotationPeriod "rotationPeriod" ∧
  o'.(ack_NextRotationTime) = pick ack_NextRotationTime "nextRotationTime" ∧
  avt_Algorithm <$> o'.(ack_VersionTemplate) =
    pick (λ k, avt_Algorithm <$> k.(ack_VersionTemplate)) "versionTemplate.algorithm" ∧
  avt_ProtectionLevel <$> o'.(ack_VersionTemplate) =
    pick (λ k, avt_ProtectionLevel <$> k.(ack_VersionTemplate)) "versionTemplate.protectionLevel".

(** Choosing the new value where it differs from the old one gives the new one. *)
Lemma pick_new {A B} `{!EqDecision B} (f : A → B) (new : B) (d o : A) :
  f d = new → f (if negb (bool_decide (new = f o)) then d else o) = new.
Proof. intros Hd. case_bool_decide; simpl; congruence. Qed.

Lemma paths_nil l : paths l = [] ↔ Forall (λ d, d.1 = false) l.
Proof.
  unfold paths. induction l as [|[[] p] l IH]; [by split|..]; rewrite filter_cons, Forall_cons; simpl.
  - split; [done|]. by intros [? _].
  - rewrite IH. tauto.
Qed.

(** The key is what the parameters ask for. *)
Lemma differing_nil i o :
  no_template i o = false →
  paths (differing i o) = [] ↔
  norm_map i.(ck_Labels) = norm_map o.(ack_Labels) ∧ i.(ck_Purpose) = o.(ack_Purpose) ∧
  StringValue i.(ck_RotationPeriod) = o.(ack_RotationPeriod) ∧
  StringValue i.(ck_NextRotationTime) = o.(ack_NextRotationTime) ∧
  (∀ vt, i.(ck_VersionTemplate) = Some vt →
     avt_Algorithm <$> o.(ack_VersionTemplate) = Some (StringValue vt.(vt_Algorithm)) ∧
     avt_ProtectionLevel <$> o.(ack_VersionTemplate) = Some (StringValue vt.(vt_ProtectionLevel))).
Proof.
  intros Hvt. rewrite paths_nil. unfold differing. rewrite !Forall_cons, Forall_nil. simpl.
  rewrite !negb_false_iff, !bool_decide_eq_true. unfold no_template in Hvt.
  destruct i.(ck_VersionTemplate) as [[alg prot]|], o.(ack_VersionTemplate) as [[aalg aprot fs nf r]|];
    simpl in *; rewrite ?negb_false_iff, ?bool_decide_eq_true; naive_solver.
Qed.

Lemma patched_matches i o o' :
  no_template i o = false →
  patched (Join (paths (differing i o)) ",") (GenerateCryptoKeyInstance i o) o o' →
  no_template i o' = false ∧ paths (differing i o') = [].
Proof.
  intros Hvt Hpatch. unfold patched, differing in Hpatch.
  match type of Hpatch with context [paths [(?b1, _); (?b2, _); (?b3, _); (?b4, _); (?b5, _); (?b6, _)]] =>
    destruct (masked_paths b1 b2 b3 b4 b5 b6) as (H1 & H2 & H3 & H4 & H5 & H6) end.
  rewrite H1, H2, H3, H4, H5, H6 in Hpatch. clear H1 H2 H3 H4 H5 H6.
  destruct Hpatch as (Hl & Hp & Hr & Hn & Ha & Hpl).
  assert (∀ vt, i.(ck_VersionTemplate) = Some vt →
    avt_Algorithm <$> o'.(ack_VersionTemplate) = Some (StringValue vt.(vt_Algorithm)) ∧
    avt_ProtectionLevel <$> o'.(ack_VersionTemplate) = Some (StringValue vt.(vt_ProtectionLevel))) as Htemplate.
  { intros vt Hi. unfold no_template in Hvt. rewrite Hi in *. simpl in *.
    destruct o.(ack_VersionTemplate) as [avt|] eqn:Ho; [|done]. rewrite Ha, Hpl. split.
    - destruct (bool_decide_reflect (StringValue vt.(vt_Algorithm) = avt.(avt_Algorithm))) as [Heq|Heq];
        simpl; rewrite ?Ho, ?Hi; simpl; congruence.
    - destruct (bool_decide_reflect (StringValue vt.(vt_ProtectionLevel) = avt.(avt_ProtectionLevel))) as [Heq|Heq];
        simpl; rewrite ?Ho, ?Hi; simpl; congruence. }
  assert (no_template i o' = false) as Hvt'.
  { unfold no_template. destruct i.(ck_VersionTemplate) as [vt|]; [|done].
    destruct (Htemplate vt eq_refl) as [Hsome _]. by destruct o'.(ack_VersionTemplate). }
  split; [done|]. apply differing_nil; [done|]. rewrite Hl, Hp, Hr, Hn.
  split_and!; [..|done]; symmetry.
  - by apply (pick_new (λ k, norm_map k.(ack_Labels))).
  - by apply (pick_new ack_Purpose).
  - by apply (pick_new ack_RotationPeriod).
  - by apply (pick_new ack_NextRotationTime).
Qed.

(** ** Properties *)

(** Late initialization of a crypto key keeps the key ring with its
    reference and selector, the purpose, the rotation settings and both fields of
    the version template the user set, and is idempotent. *)
Theorem crypto_key_late_init_keeps i o :
  let i' := LateInitializeSpec i o in
  i'.(ck_KeyRing) = i.(ck_KeyRing) ∧ i'.(ck_KeyRingRef) = i.(ck_KeyRingRef) ∧
  i'.(ck_KeyRingSelector) = i.(ck_KeyRingSelector) ∧ i'.(ck_Purpose) = i.(ck_Purpose) ∧
  keeps i.(ck_RotationPeriod) i'.(ck_RotationPeriod) ∧
  keeps i.(ck_NextRotationTime) i'.(ck_NextRotationTime) ∧
  keeps_template i.(ck_VersionTemplate) i'.(ck_VersionTemplate) ∧
  LateInitializeSpec i' o = i'.
Proof.
  split_and!; simpl; auto with late.
  - unfold keeps_template. destruct i.(ck_VersionTemplate), o.(ack_VersionTemplate); eauto 10 with late.
  - unfold LateInitializeSpec; simpl. autorewrite with late.
    destruct i.(ck_VersionTemplate), o.(ack_VersionTemplate); simpl; by autorewrite with late.
Qed.

(** But the labels are not late initialized, they are overwritten: the spec
    after late initialization does not depend on the labels the user wrote, so a
    change of labels in the spec never reaches the key. *)
Theorem crypto_key_labels_are_lost `{Libs} `{!CopySucceeds} i o labels u um :
  LateInitializeSpec {| i with ck_Labels := labels |} o = LateInitializeSpec i o ∧
  (IsUpToDate (LateInitializeSpec i o) o = Returns (u, um, None) → masked um "labels" = false).
Proof.
  split; [done|]. rewrite crypto_key_IsUpToDate_spec. destruct (no_template _ _); [done|]. intros [= _ <-].
  destruct (masked_paths false (negb (bool_decide (i.(ck_Purpose) = o.(ack_Purpose))))
    (negb (bool_decide (StringValue (ck_RotationPeriod (LateInitializeSpec i o)) = ack_RotationPeriod o)))
    (negb (bool_decide (StringValue (ck_NextRotationTime (LateInitializeSpec i o)) = ack_NextRotationTime o)))
    (default false (fst <$> differing (LateInitializeSpec i o) o !! 4))
    (default false (fst <$> differing (LateInitializeSpec i o) o !! 5))) as [Hl _].
  unfold differing at 1. simpl. rewrite bool_decide_eq_true_2 by done. exact Hl.
Qed.

(** C37: a crypto key is brought up to date by one patch. Unless the spec has a
    version template and the key has none, IsUpToDate returns an update mask such
    that every key that results from applying the generated key under that mask is
    up to date with an empty mask. *)
Theorem crypto_key_update_converges `{Libs} `{!CopySucceeds} i o o' u um
    (Hvt : no_template i o = false)
    (Hum : IsUpToDate i o = Returns (u, um, None))
    (Hpatch : patched um (GenerateCryptoKeyInstance i o) o o') :
  IsUpToDate i o' = Returns (true, "", None).
Proof.
  rewrite crypto_key_IsUpToDate_spec, Hvt in Hum. injection Hum as _ <-.
  destruct (patched_matches i o o' Hvt Hpatch) as [Hvt' Hnil].
  by rewrite crypto_key_IsUpToDate_spec, Hvt', Hnil, bool_decide_eq_true_2.
Qed.

Definition example_key : apiCryptoKey :=
  {| zero_cryptokey with ack_Purpose := "ENCRYPT_DECRYPT"; ack_RotationPeriod := "100s";
     ack_VersionTemplate := Some {| zero_template with avt_Algorithm := "A1"; avt_ProtectionLevel := "SOFTWARE" |} |}.
Definition example_key_parameters : CryptoKeyParameters := {|
  ck_KeyRing := Some "projects/p/locations/l/keyRings/r"; ck_KeyRingRef := None; ck_KeyRingSelector := None;
  ck_Labels := None; ck_Purpose := "ENCRYPT_DECRYPT"; ck_RotationPeriod := Some "200s"; ck_NextRotationTime := None;
  ck_VersionTemplate := Some {| vt_Algorithm := Some "A2"; vt_ProtectionLevel := Some "SOFTWARE" |} |}.

Lemma crypto_key_update_converges_witness :
  let _ := reference_libs in
  IsUpToDate example_key_parameters example_key = Returns (false, "rotationPeriod,versionTemplate.algorithm", None) ∧
  IsUpToDate example_key_parameters (GenerateCryptoKeyInstance example_key_parameters example_key) =
    Returns (true, "", None).
Proof.
  intros libs. assert (IsUpToDate example_key_parameters example_key =
    Returns (false, "rotationPeriod,versionTemplate.algorithm", None)) as Hum by by vm_compute.
  split; [exact Hum|].
  apply (@crypto_key_update_converges libs reference_copy example_key_parameters example_key _ false _ eq_refl Hum).
  by split_and!; vm_compute.
Defined.

Lemma crypto_key_labels_are_lost_witness :
  masked "rotationPeriod,versionTemplate.algorithm" "labels" = false.
Proof.
  apply (@crypto_key_labels_are_lost reference_libs reference_copy example_key_parameters example_key None false).
  by vm_compute.
Defined.

Definition crypto_key_fails (observing : bool) (X : Type) (e : CryptoKeyE X) : X → bool :=
  match e with
  | CryptoKeysGet _ => read_fails (if observing then IsErrorNotFound else no_excuse)
  | CryptoKeysCreate _ _ _ | CryptoKeysPatch _ _ _ => write_fails no_excuse
  end.

(** The API answers with a version template where the resource has one. *)
Definition has_template (cr : CryptoKey) (X : Type) (e : CryptoKeyE X) : X → Prop :=
  match e with
  | CryptoKeysGet _ => λ r, match r with inl o => no_template cr.(ForProvider) o = false | inr _ => True end
  | _ => λ _, True
  end.

Definition crypto_key_reads (cr : CryptoKey) (X : Type) (e : CryptoKeyE X) : Prop :=
  match e with CryptoKeysGet n => n = cryptoKeyRRN cr ∧ cr.(WasDeleted) = false | _ => False end.

Lemma no_template_late i o : no_template (LateInitializeSpec i o) o = no_template i o.
Proof. unfold no_template; simpl. by destruct o.(ack_VersionTemplate), i.(ck_VersionTemplate). Qed.
#[local] Hint Rewrite @crypto_key_IsUpToDate_spec using exact _ : handlers.
#[local] Hint Rewrite no_template_late : handlers.

(** While the API answers with a version template for resources that have
    one, the handlers of the CryptoKey controller do not panic and return an
    error exactly when one of their calls failed, where NotFound is no failure of
    Observe's Get; after a failure they call nothing more. Observe only reads,
    and calls nothing for a resource that was deleted. *)
Theorem crypto_key_controller_errors `{Libs} `{!CopySucceeds} cr :
  errors_given (has_template cr) (crypto_key_fails true) (Observe (Some cr)) ∧
  calls_only (crypto_key_reads cr) (Observe (Some cr)) ∧
  (cr.(WasDeleted) = true → Observe (Some cr) = Done (no_observation, None, Some cr)) ∧
  errors_iff (crypto_key_fails false) (Create (Some cr)) ∧
  errors_given (has_template cr) (crypto_key_fails false) (Update (Some cr)) ∧
  stops_on_failure (crypto_key_fails false) (Update (Some cr)) ∧
  Delete (Some cr) = Done (None, Some cr).
Proof.
  unfold errors_iff, errors_given. split_and!; simpl; walk.
Qed.

Lemma crypto_key_controller_errors_witness :
  errors_given (has_template (fresh "k" example_key_parameters (GenerateObservation example_key)))
    (crypto_key_fails true)
    (@Observe reference_libs (Some (fresh "k" example_key_parameters (GenerateObservation example_key)))).
Proof. apply (@crypto_key_controller_errors reference_libs reference_copy). Defined.
