(* ===== verification/Memorystore.v ===== *)
(** * Cloud Memorystore instances

    apis/cache/v1beta1/cloudmemorystore_instance_types.go,
    pkg/clients/cloudmemorystore/cloudmemorystore.go and
    pkg/controller/cache/managed.go. *)

From S2P Require Import Prelude GoSort GoStrings Libs Contract Gcp.

(** ** Types *)

Definition StateCreating : string := "CREATING".
Definition StateReady : string := "READY".
Definition StateDeleting : string := "DELETING".

Record CloudMemorystoreInstanceParameters := {
  m_Region : string;
  m_Tier : string;
  m_MemorySizeGB : Z;
  m_DisplayName : ptr string;
  m_Labels : gomap string;
  m_LocationID : ptr string;
  m_AlternativeLocationID : ptr string;
  m_RedisVersion : ptr string;
  m_ReservedIPRange : ptr string;
  m_RedisConfigs : gomap string;
  m_AuthorizedNetwork : ptr string;
  m_ConnectMode : ptr string
}.
#[global] Instance CloudMemorystoreInstanceParameters_eq_dec : EqDecision CloudMemorystoreInstanceParameters.
Proof. solve_decision. Defined.

(** [Time] is metav1.Time. *)
Record CloudMemorystoreInstanceObservation (Time : Type) := {
  mo_Name : string;
  mo_Host : string;
  mo_Port : Z;
  mo_CurrentLocationID : string;
  mo_CreateTime : ptr Time;
  mo_State : string;
  mo_StatusMessage : string;
  mo_PersistenceIAMIdentity : string
}.
Arguments mo_Name {Time} _.
Arguments mo_Host {Time} _.
Arguments mo_Port {Time} _.
Arguments mo_CurrentLocationID {Time} _.
Arguments mo_CreateTime {Time} _.
Arguments mo_State {Time} _.
Arguments mo_StatusMessage {Time} _.
Arguments mo_PersistenceIAMIdentity {Time} _.

Definition CloudMemorystoreInstance (Time : Type) : Type :=
  Managed CloudMemorystoreInstanceParameters (CloudMemorystoreInstanceObservation Time).

(** redis.Instance. *)
Record apiInstance := {
  ri_AlternativeLocationId : string;
  ri_AuthorizedNetwork : string;
  ri_ConnectMode : string;
  ri_CreateTime : string;
  ri_CurrentLocationId : string;
  ri_DisplayName : string;
  ri_Host : string;
  ri_Labels : gomap string;
  ri_LocationId : string;
  ri_MemorySizeGb : Z;
  ri_Name : string;
  ri_PersistenceIamIdentity : string;
  ri_Port : Z;
  ri_RedisConfigs : gomap string;
  ri_RedisVersion : string;
  ri_ReservedIpRange : string;
  ri_State : string;
  ri_StatusMessage : string;
  ri_Tier : string;
  ri_rest : rest
}.

Definition zero_instance : apiInstance := {|
  ri_AlternativeLocationId := ""; ri_AuthorizedNetwork := ""; ri_ConnectMode := ""; ri_CreateTime := "";
  ri_CurrentLocationId := ""; ri_DisplayName := ""; ri_Host := ""; ri_Labels := None; ri_LocationId := "";
  ri_MemorySizeGb := 0; ri_Name := ""; ri_PersistenceIamIdentity := ""; ri_Port := 0; ri_RedisConfigs := None;
  ri_RedisVersion := ""; ri_ReservedIpRange := ""; ri_State := ""; ri_StatusMessage := ""; ri_Tier := "";
  ri_rest := ∅ |}.

(** ** The client *)

Definition errCheckClient : string := "unable to determine if external resource is up to date".

Definition GetFullyQualifiedParent (project : string) (p : CloudMemorystoreInstanceParameters) : string :=
  String.append "projects/" (String.append project (String.append "/locations/" p.(m_Region))).

Definition GetFullyQualifiedName (project : string) (p : CloudMemorystoreInstanceParameters) (name : string) : string :=
  String.append "projects/" (String.append project (String.append "/locations/"
    (String.append p.(m_Region) (String.append "/instances/" name)))).

Definition GenerateRedisInstance (name : string) (s : CloudMemorystoreInstanceParameters) (r : apiInstance) : apiInstance :=
  {| r with
     ri_Name := name;
     ri_Tier := s.(m_Tier);
     ri_MemorySizeGb := s.(m_MemorySizeGB);
     ri_Labels := s.(m_Labels);
     ri_RedisConfigs := s.(m_RedisConfigs);
     ri_DisplayName := StringValue s.(m_DisplayName);
     ri_LocationId := StringValue s.(m_LocationID);
     ri_AlternativeLocationId := StringValue s.(m_AlternativeLocationID);
     ri_RedisVersion := StringValue s.(m_RedisVersion);
     ri_ReservedIpRange := StringValue s.(m_ReservedIPRange);
     ri_AuthorizedNetwork := StringValue s.(m_AuthorizedNetwork);
     ri_ConnectMode := StringValue s.(m_ConnectMode) |}.

Definition LateInitializeSpec (spec : CloudMemorystoreInstanceParameters) (r : apiInstance)
  : CloudMemorystoreInstanceParameters :=
  {| spec with
     m_Tier := if bool_decide (spec.(m_Tier) = "") then r.(ri_Tier) else spec.(m_Tier);
     m_MemorySizeGB := if bool_decide (spec.(m_MemorySizeGB) = 0%Z) then r.(ri_MemorySizeGb) else spec.(m_MemorySizeGB);
     m_DisplayName := LateInitializeString spec.(m_DisplayName) r.(ri_DisplayName);
     m_Labels := LateInitializeStringMap spec.(m_Labels) r.(ri_Labels);
     m_LocationID := LateInitializeString spec.(m_LocationID) r.(ri_LocationId);
     m_AlternativeLocationID := LateInitializeString spec.(m_AlternativeLocationID) r.(ri_AlternativeLocationId);
     m_RedisVersion := LateInitializeString spec.(m_RedisVersion) r.(ri_RedisVersion);
     m_ReservedIPRange := LateInitializeString spec.(m_ReservedIPRange) r.(ri_ReservedIpRange);
     m_RedisConfigs := LateInitializeStringMap spec.(m_RedisConfigs) r.(ri_RedisConfigs);
     m_AuthorizedNetwork := LateInitializeString spec.(m_AuthorizedNetwork) r.(ri_AuthorizedNetwork);
     m_ConnectMode := LateInitializeString spec.(m_ConnectMode) r.(ri_ConnectMode) |}.

Section client.
Context `{Libs}.

Definition IsUpToDate (name : string) (i : CloudMemorystoreInstanceParameters) (observed : apiInstance)
  : bool * option error :=
  match copystructure_Copy observed with
  | CopyFails err => (true, errors_Wrap (Some err) errCheckClient)
  | CopyOtherType => (true, errors_New errCheckClient)
  | Copied desired =>
    let desired := GenerateRedisInstance name i desired in
    if negb (bool_decide (desired.(ri_MemorySizeGb) = observed.(ri_MemorySizeGb))) then (false, None)
    else if negb (bool_decide (desired.(ri_DisplayName) = observed.(ri_DisplayName))) then (false, None)
    else if negb (cmp_Equal (=) desired.(ri_RedisConfigs) observed.(ri_RedisConfigs)) then (false, None)
    else if negb (cmp_Equal (=) desired.(ri_Labels) observed.(ri_Labels)) then (false, None)
    else (true, None)
  end.
End client.

(** ** The controller *)

Definition ResourceCredentialsSecretEndpointKey : string := "endpoint".
Definition ResourceCredentialsSecretPortKey : string := "port".

Definition errNotInstance : string := "managed resource is not an CloudMemorystore instance".
Definition errUpdateCR : string := "cannot update CloudMemorystore custom resource".
Definition errGetInstance : string := "cannot get CloudMemorystore instance".
Definition errCreateInstance : string := "cannot create CloudMemorystore instance".
Definition errUpdateInstance : string := "cannot update CloudMemorystore instance".
Definition errDeleteInstance : string := "cannot delete CloudMemorystore instance".
Definition errCheckUpToDate : string := "cannot determine if CloudMemorystore instance is up to date".

Inductive MemorystoreE (Time : Type) : Type → Type :=
| InstancesGet (name : string) : MemorystoreE Time (apiInstance + error)
| InstancesCreate (parent instanceId : string) (instance : apiInstance) : MemorystoreE Time (option error)
| InstancesPatch (name : string) (instance : apiInstance) : MemorystoreE Time (option error)
| InstancesDelete (name : string) : MemorystoreE Time (option error)
| KubeUpdate (cr : CloudMemorystoreInstance Time)
    : MemorystoreE Time (CloudMemorystoreInstance Time + error).
Arguments InstancesGet {Time} _.
Arguments InstancesCreate {Time} _ _ _.
Arguments InstancesPatch {Time} _ _.
Arguments InstancesDelete {Time} _.
Arguments KubeUpdate {Time} _.

Section controller.
(** [time_Parse] is time.Parse(time.RFC3339, _). *)
Context `{Libs} {Time : Type} (time_Parse : string → Time + error) (projectID : string).

Definition GenerateObservation (r : apiInstance) : CloudMemorystoreInstanceObservation Time := {|
  mo_Name := r.(ri_Name);
  mo_Host := r.(ri_Host);
  mo_Port := r.(ri_Port);
  mo_CurrentLocationID := r.(ri_CurrentLocationId);
  mo_State := r.(ri_State);
  mo_StatusMessage := r.(ri_StatusMessage);
  mo_PersistenceIAMIdentity := r.(ri_PersistenceIamIdentity);
  mo_CreateTime := match time_Parse r.(ri_CreateTime) with inr _ => None | inl t => Some t end |}.

(** The switch on the state of the instance: the condition, and the connection
    details. *)
Definition state_condition (cr : CloudMemorystoreInstance Time)
  : CloudMemorystoreInstance Time * gmap string string :=
  let state := cr.(AtProvider).(mo_State) in
  if bool_decide (state = StateReady) then
    (set_condition Available cr,
     <[ResourceCredentialsSecretPortKey := pretty cr.(AtProvider).(mo_Port)]>
       (<[ResourceCredentialsSecretEndpointKey := cr.(AtProvider).(mo_Host)]> ∅))
  else if bool_decide (state = StateCreating) then (set_condition Creating cr, ∅)
  else if bool_decide (state = StateDeleting) then (set_condition Deleting cr, ∅)
  else (set_condition Unavailable cr, ∅).

Definition Observe (mg : option (CloudMemorystoreInstance Time))
  : prog (MemorystoreE Time) (ExternalObservation * option error * option (CloudMemorystoreInstance Time)) :=
  match mg with
  | None => mret (no_observation, errors_New errNotInstance, None)
  | Some cr =>
    r ← call (InstancesGet (GetFullyQualifiedName projectID cr.(ForProvider) cr.(ExternalName)));
    match r with
    | inr err =>
      mret (no_observation, errors_Wrap (resource_Ignore IsErrorNotFound (Some err)) errGetInstance, Some cr)
    | inl existing =>
      let currentSpec := cr.(ForProvider) in
      let cr := {| cr with ForProvider := LateInitializeSpec cr.(ForProvider) existing |} in
      u ← (if negb (cmp_Equal (=) currentSpec cr.(ForProvider)) then call (KubeUpdate cr) else mret (inl cr));
      match u with
      | inr err => mret (no_observation, errors_Wrap (Some err) errUpdateCR, Some cr)
      | inl cr =>
        let cr := {| cr with AtProvider := GenerateObservation existing |} in
        let '(cr, conn) := state_condition cr in
        match IsUpToDate cr.(ExternalName) cr.(ForProvider) existing with
        | (_, Some err) => mret (no_observation, errors_Wrap (Some err) errCheckUpToDate, Some cr)
        | (u, None) =>
          mret ({| no_observation with ResourceExists := true; ResourceUpToDate := u;
                   ConnectionDetails := Some conn |}, None, Some cr)
        end
      end
    end
  end.

Definition Create (mg : option (CloudMemorystoreInstance Time))
  : prog (MemorystoreE Time) (ExternalCreation * option error * option (CloudMemorystoreInstance Time)) :=
  match mg with
  | None => mret (no_creation, errors_New errNotInstance, None)
  | Some i =>
    let i := set_condition Creating i in
    let instance := GenerateRedisInstance
      (GetFullyQualifiedName projectID i.(ForProvider) i.(ExternalName)) i.(ForProvider) zero_instance in
    err ← call (InstancesCreate (GetFullyQualifiedParent projectID i.(ForProvider)) i.(ExternalName) instance);
    mret (no_creation, errors_Wrap err errCreateInstance, Some i)
  end.

Definition Update (mg : option (CloudMemorystoreInstance Time))
  : prog (MemorystoreE Time) (option error * option (CloudMemorystoreInstance Time)) :=
  match mg with
  | None => mret (errors_New errNotInstance, None)
  | Some i =>
    let fqn := GetFullyQualifiedName projectID i.(ForProvider) i.(ExternalName) in
    let instance := GenerateRedisInstance fqn i.(ForProvider) zero_instance in
    err ← call (InstancesPatch fqn instance);
    mret (errors_Wrap err errUpdateInstance, Some i)
  end.

Definition Delete (mg : option (CloudMemorystoreInstance Time))
  : prog (MemorystoreE Time) (option error * option (CloudMemorystoreInstance Time)) :=
  match mg with
  | None => mret (errors_New errNotInstance, None)
  | Some i =>
    let i := set_condition Deleting i in
    err ← call (InstancesDelete (GetFullyQualifiedName projectID i.(ForProvider) i.(ExternalName)));
    mret (errors_Wrap (resource_Ignore IsErrorNotFound err) errDeleteInstance, Some i)
  end.
End controller.

(** ** Lemmas *)

Definition keeps_spec (i i' : CloudMemorystoreInstanceParameters) : Prop :=
  i'.(m_Region) = i.(m_Region) ∧ keeps_string i.(m_Tier) i'.(m_Tier) ∧
  (i.(m_MemorySizeGB) ≠ 0%Z → i'.(m_MemorySizeGB) = i.(m_MemorySizeGB)) ∧
  keeps i.(m_DisplayName) i'.(m_DisplayName) ∧ keeps_map i.(m_Labels) i'.(m_Labels) ∧
  keeps i.(m_LocationID) i'.(m_LocationID) ∧
  keeps i.(m_AlternativeLocationID) i'.(m_AlternativeLocationID) ∧
  keeps i.(m_RedisVersion) i'.(m_RedisVersion) ∧ keeps i.(m_ReservedIPRange) i'.(m_ReservedIPRange) ∧
  keeps_map i.(m_RedisConfigs) i'.(m_RedisConfigs) ∧
  keeps i.(m_AuthorizedNetwork) i'.(m_AuthorizedNetwork) ∧ keeps i.(m_ConnectMode) i'.(m_ConnectMode).

Lemma memorystore_LateInitializeSpec_keeps i r : keeps_spec i (LateInitializeSpec i r).
Proof.
  split_and!; simpl; auto with late; intros Hne; by rewrite bool_decide_eq_false_2.
Qed.
#[local] Hint Resolve memorystore_LateInitializeSpec_keeps : handlers.

Lemma memorystore_IsUpToDate_spec `{Libs} `{!CopySucceeds} name i o :
  IsUpToDate name i o =
    (bool_decide (i.(m_MemorySizeGB) = o.(ri_MemorySizeGb) ∧ StringValue i.(m_DisplayName) = o.(ri_DisplayName) ∧
                  i.(m_RedisConfigs) = o.(ri_RedisConfigs) ∧ i.(m_Labels) = o.(ri_Labels)), None).
Proof.
  unfold IsUpToDate. rewrite copy_succeeds, !cmp_Equal_decides. simpl.
  rewrite !bool_decide_and. repeat case_bool_decide; done.
Qed.
#[local] Hint Rewrite @memorystore_IsUpToDate_spec using exact _ : handlers.

(** A map that was late initialized is the observed one when the user set none
    and there is one, or when they are the same, nil and empty kept apart. *)
Definition map_agrees (s o : gomap string) : Prop := (map_empty s = true ∧ map_empty o = false) ∨ s = o.

Lemma late_map_agrees s o : LateInitializeStringMap s o = o ↔ map_agrees s o.
Proof.
  unfold LateInitializeStringMap, map_agrees.
  destruct (map_empty s) eqn:Hs, (map_empty o) eqn:Ho; simpl; naive_solver.
Qed.

(** ** Properties *)

(** Late initialization of a Memorystore instance changes no field the user
    set and is idempotent. *)
Theorem memorystore_late_init_keeps i r :
  keeps_spec i (LateInitializeSpec i r) ∧
  LateInitializeSpec (LateInitializeSpec i r) r = LateInitializeSpec i r.
Proof.
  split; [apply memorystore_LateInitializeSpec_keeps|]. unfold LateInitializeSpec; simpl. autorewrite with late.
  f_equal; repeat case_bool_decide; congruence.
Qed.

(** For a late-initialized spec an instance is up to date exactly when the
    memory size, the display name, the Redis configuration and the labels the
    user set are the observed ones; generating the spec over any instance gives
    an up-to-date one. *)
Theorem memorystore_up_to_date_iff `{Libs} `{!CopySucceeds} name i o :
  IsUpToDate name (LateInitializeSpec i o) o =
    (bool_decide ((i.(m_MemorySizeGB) = 0%Z ∨ i.(m_MemorySizeGB) = o.(ri_MemorySizeGb)) ∧
       default o.(ri_DisplayName) i.(m_DisplayName) = o.(ri_DisplayName) ∧
       LateInitializeStringMap i.(m_RedisConfigs) o.(ri_RedisConfigs) = o.(ri_RedisConfigs) ∧
       LateInitializeStringMap i.(m_Labels) o.(ri_Labels) = o.(ri_Labels)), None) ∧
  (LateInitializeStringMap i.(m_Labels) o.(ri_Labels) = o.(ri_Labels) ↔ map_agrees i.(m_Labels) o.(ri_Labels)) ∧
  (∀ name' o', IsUpToDate name' i (GenerateRedisInstance name' i o') = (true, None)).
Proof.
  split_and!.
  - rewrite memorystore_IsUpToDate_spec. f_equal. apply bool_decide_ext. simpl. autorewrite with late.
    case_bool_decide; naive_solver.
  - apply late_map_agrees.
  - intros name' o'. by rewrite memorystore_IsUpToDate_spec, bool_decide_eq_true_2.
Qed.

Definition example_instance : apiInstance :=
  {| zero_instance with ri_MemorySizeGb := 4; ri_State := "READY"; ri_Host := "10.0.0.3"; ri_Port := 6379 |}.
Definition example_instance_parameters : CloudMemorystoreInstanceParameters := {|
  m_Region := "us-east1"; m_Tier := "BASIC"; m_MemorySizeGB := 4; m_DisplayName := None; m_Labels := None;
  m_LocationID := None; m_AlternativeLocationID := None; m_RedisVersion := None; m_ReservedIPRange := None;
  m_RedisConfigs := None; m_AuthorizedNetwork := None; m_ConnectMode := None |}.

Lemma memorystore_up_to_date_iff_witness :
  @IsUpToDate reference_libs "m" example_instance_parameters
    (GenerateRedisInstance "m" example_instance_parameters example_instance) = (true, None).
Proof.
  apply (@memorystore_up_to_date_iff reference_libs reference_copy "m" example_instance_parameters example_instance).
Defined.

Definition memorystore_fails {Time} (X : Type) (e : MemorystoreE Time X) : X → bool :=
  match e with
  | InstancesGet _ => read_fails IsErrorNotFound
  | InstancesDelete _ => write_fails IsErrorNotFound
  | InstancesCreate _ _ _ | InstancesPatch _ _ => write_fails no_excuse
  | KubeUpdate _ => read_fails no_excuse
  end.

Definition memorystore_observe_calls {Time} (projectID : string) (cr : CloudMemorystoreInstance Time)
    (X : Type) (e : MemorystoreE Time X) : Prop :=
  match e with
  | InstancesGet n => n = GetFullyQualifiedName projectID cr.(ForProvider) cr.(ExternalName)
  | KubeUpdate cr' => late_update keeps_spec cr cr'
  | _ => False
  end.

(** The condition of an instance in a state. *)
Definition expected_condition (state : string) : condition :=
  if bool_decide (state = StateReady) then Available
  else if bool_decide (state = StateCreating) then Creating
  else if bool_decide (state = StateDeleting) then Deleting else Unavailable.

Lemma state_condition_ready `{Libs} {Time} (cr : CloudMemorystoreInstance Time) :
  ready (state_condition cr).1.(Conditions) = Some (expected_condition cr.(AtProvider).(mo_State)) ∧
  (state_condition cr).1.(AtProvider) = cr.(AtProvider) ∧
  ((state_condition cr).2 = ∅ ↔ cr.(AtProvider).(mo_State) ≠ StateReady).
Proof.
  unfold state_condition, expected_condition. repeat case_bool_decide; simpl; split_and!;
    try done; try (by apply SetConditions_ready); split; done.
Qed.

(** The handlers of the CloudMemorystoreInstance controller never panic and
    return an error exactly when one of their calls failed, where NotFound is no
    failure of Get and Delete. Observe reads the instance and writes nothing but
    a spec that keeps what the user set; when it reports an instance, the
    resource is Available, Creating or Deleting as the instance is READY,
    CREATING or DELETING and Unavailable in any other state, and the connection
    details are empty unless the instance is READY. *)
Theorem memorystore_controller `{Libs} `{!CopySucceeds} {Time : Type} (time_Parse : string → Time + error) projectID cr :
  errors_iff memorystore_fails (Observe time_Parse projectID (Some cr)) ∧
  stops_on_failure memorystore_fails (Observe time_Parse projectID (Some cr)) ∧
  calls_only (memorystore_observe_calls projectID cr) (Observe time_Parse projectID (Some cr)) ∧
  observes (Observe time_Parse projectID (Some cr)) ∧
  always (λ '(o, _, mg'), o.(ResourceExists) = true → ∃ cr', mg' = Some cr' ∧
    ready cr'.(Conditions) = Some (expected_condition cr'.(AtProvider).(mo_State)) ∧
    (entries o.(ConnectionDetails) = ∅ ↔ cr'.(AtProvider).(mo_State) ≠ StateReady))
    (Observe time_Parse projectID (Some cr)) ∧
  errors_iff memorystore_fails (Create projectID (Some cr)) ∧
  errors_iff memorystore_fails (Update projectID (Some cr)) ∧
  errors_iff memorystore_fails (Delete projectID (Some cr)).
Proof.
  unfold errors_iff, errors_given, observes. split_and!; simpl; walk.
  all: rewrite memorystore_IsUpToDate_spec; intros _; eexists; split; [done|];
    match goal with Hs : state_condition ?m = (?c, ?g) |- _ =>
      destruct (state_condition_ready m) as (Hr & Ha & Hc); rewrite Hs in Hr, Ha, Hc; simpl in Hr, Ha, Hc;
      rewrite Ha; done end.
Qed.

Lemma memorystore_controller_witness :
  let parse (s : string) : string + error := inl s in
  errors_iff memorystore_fails (@Observe reference_libs _ parse "p"
    (Some (fresh "m" example_instance_parameters (GenerateObservation parse example_instance)))).
Proof. intros parse. apply (@memorystore_controller reference_libs reference_copy). Defined.
