(* ===== verification/CloudSQL.v ===== *)
(** * Cloud SQL instances

    apis/database/v1beta1/cloudsql_instance_types.go,
    pkg/clients/cloudsql/cloudsql.go and pkg/controller/database/cloudsql.go.
    The translation functions of the client are one function each in the source;
    here each nested struct has a function of its own, and where the elements of
    a slice are dereferenced, or may be, the rest of the struct is filled by one
    that is called fill_. *)

From S2P Require Import Prelude GoSort GoStrings Libs Contract Gcp Nested.

(** ** Types *)

Definition StateRunnable : string := "RUNNABLE".
Definition StateCreating : string := "PENDING_CREATE".
Definition StateSuspended : string := "SUSPENDED".
Definition StateMaintenance : string := "MAINTENANCE".
Definition StateCreationFailed : string := "FAILED".
Definition StateUnknownState : string := "UNKNOWN_STATE".

Definition PrivateIPType : string := "PRIVATE".
Definition PublicIPType : string := "PRIMARY".
Definition PrivateIPKey : string := "privateIP".
Definition PublicIPKey : string := "publicIP".

Record LocationPreference := { lp_FollowGaeApplication : ptr string; lp_Zone : ptr string }.
#[global] Instance LocationPreference_eq_dec : EqDecision LocationPreference.
Proof. solve_decision. Defined.

Record MaintenanceWindow := { mw_Day : ptr Z; mw_Hour : ptr Z; mw_UpdateTrack : ptr string }.
#[global] Instance MaintenanceWindow_eq_dec : EqDecision MaintenanceWindow.
Proof. solve_decision. Defined.

Record BackupConfiguration := {
  bc_BinaryLogEnabled : ptr bool;
  bc_Enabled : ptr bool;
  bc_Location : ptr string;
  bc_ReplicationLogArchivingEnabled : ptr bool;
  bc_StartTime : ptr string
}.
#[global] Instance BackupConfiguration_eq_dec : EqDecision BackupConfiguration.
Proof. solve_decision. Defined.

Record DatabaseFlags := { df_Name : string; df_Value : string }.
#[global] Instance DatabaseFlags_eq_dec : EqDecision DatabaseFlags.
Proof. solve_decision. Defined.

Record ACLEntry := { acl_ExpirationTime : ptr string; acl_Name : ptr string; acl_Value : ptr string }.
#[global] Instance ACLEntry_eq_dec : EqDecision ACLEntry.
Proof. solve_decision. Defined.

Record IPConfiguration := {
  ic_AuthorizedNetworks : slice (ptr ACLEntry);
  ic_Ipv4Enabled : ptr bool;
  ic_PrivateNetwork : ptr string;
  ic_PrivateNetworkRef : ptr Reference;
  ic_PrivateNetworkSelector : ptr Selector;
  ic_RequireSsl : ptr bool
}.
#[global] Instance IPConfiguration_eq_dec : EqDecision IPConfiguration.
Proof. solve_decision. Defined.

Record Settings := {
  st_Tier : string;
  st_ActivationPolicy : ptr string;
  st_AuthorizedGaeApplications : slice string;
  st_AvailabilityType : ptr string;
  st_CrashSafeReplicationEnabled : ptr bool;
  st_StorageAutoResize : ptr bool;
  st_DataDiskType : ptr string;
  st_PricingPlan : ptr string;
  st_ReplicationType : ptr string;
  st_UserLabels : gomap string;
  st_DatabaseFlags : slice (ptr DatabaseFlags);
  st_BackupConfiguration : ptr BackupConfiguration;
  st_IPConfiguration : ptr IPConfiguration;
  st_LocationPreference : ptr LocationPreference;
  st_MaintenanceWindow : ptr MaintenanceWindow;
  st_DataDiskSizeGb : ptr Z;
  st_DatabaseReplicationEnabled : ptr bool;
  st_StorageAutoResizeLimit : ptr Z
}.
#[global] Instance Settings_eq_dec : EqDecision Settings.
Proof. solve_decision. Defined.

Record DiskEncryptionConfiguration := { dec_KmsKeyName : string }.
#[global] Instance DiskEncryptionConfiguration_eq_dec : EqDecision DiskEncryptionConfiguration.
Proof. solve_decision. Defined.
Record DatabaseInstanceFailoverReplicaSpec := { frs_Name : string }.
#[global] Instance DatabaseInstanceFailoverReplicaSpec_eq_dec : EqDecision DatabaseInstanceFailoverReplicaSpec.
Proof. solve_decision. Defined.
Record OnPremisesConfiguration := { opc_HostPort : string }.
#[global] Instance OnPremisesConfiguration_eq_dec : EqDecision OnPremisesConfiguration.
Proof. solve_decision. Defined.

Record CloudSQLInstanceParameters := {
  p_Region : string;
  p_Settings : Settings;
  p_DatabaseVersion : ptr string;
  p_MasterInstanceName : ptr string;
  p_DiskEncryptionConfiguration : ptr DiskEncryptionConfiguration;
  p_FailoverReplica : ptr DatabaseInstanceFailoverReplicaSpec;
  p_GceZone : ptr string;
  p_InstanceType : ptr string;
  p_MaxDiskSize : ptr Z;
  p_OnPremisesConfiguration : ptr OnPremisesConfiguration;
  p_ReplicaNames : slice string;
  p_SuspensionReason : slice string
}.
#[global] Instance CloudSQLInstanceParameters_eq_dec : EqDecision CloudSQLInstanceParameters.
Proof. solve_decision. Defined.

Record IPMapping := { im_IPAddress : string; im_TimeToRetire : string; im_Type : string }.
Record DiskEncryptionStatus := { KmsKeyVersionName : string }.
Record DatabaseInstanceFailoverReplicaStatus := { Available_ : bool }.

Record CloudSQLInstanceObservation := {
  o_BackendType : string;
  o_CurrentDiskSize : Z;
  o_ConnectionName : string;
  o_DiskEncryptionStatus : ptr DiskEncryptionStatus;
  o_FailoverReplica : ptr DatabaseInstanceFailoverReplicaStatus;
  o_GceZone : string;
  o_IPAddresses : slice (ptr IPMapping);
  o_IPv6Address : string;
  o_Project : string;
  o_SelfLink : string;
  o_ServiceAccountEmailAddress : string;
  o_State : string;
  o_SettingsVersion : Z
}.

Definition CloudSQLInstance : Type := Managed CloudSQLInstanceParameters CloudSQLInstanceObservation.

(** ** The API: sqladmin.DatabaseInstance and the structs in it *)

Record apiLocationPreference := { alp_FollowGaeApplication : string; alp_Zone : string; alp_rest : rest }.
#[global] Instance apiLocationPreference_eq_dec : EqDecision apiLocationPreference.
Proof. solve_decision. Defined.
Record apiMaintenanceWindow := { amw_Day : Z; amw_Hour : Z; amw_UpdateTrack : string; amw_rest : rest }.
#[global] Instance apiMaintenanceWindow_eq_dec : EqDecision apiMaintenanceWindow.
Proof. solve_decision. Defined.
Record apiBackupConfiguration := {
  abc_BinaryLogEnabled : bool;
  abc_Enabled : bool;
  abc_Location : string;
  abc_ReplicationLogArchivingEnabled : bool;
  abc_StartTime : string;
  abc_rest : rest
}.
#[global] Instance apiBackupConfiguration_eq_dec : EqDecision apiBackupConfiguration.
Proof. solve_decision. Defined.
Record apiDatabaseFlags := { adf_Name : string; adf_Value : string; adf_rest : rest }.
#[global] Instance apiDatabaseFlags_eq_dec : EqDecision apiDatabaseFlags.
Proof. solve_decision. Defined.
Record apiAclEntry := {
  aacl_ExpirationTime : string; aacl_Kind : string; aacl_Name : string; aacl_Value : string; aacl_rest : rest
}.
#[global] Instance apiAclEntry_eq_dec : EqDecision apiAclEntry.
Proof. solve_decision. Defined.
Record apiIpConfiguration := {
  aic_AuthorizedNetworks : slice (ptr apiAclEntry);
  aic_Ipv4Enabled : bool;
  aic_PrivateNetwork : string;
  aic_RequireSsl : bool;
  aic_ForceSendFields : slice string;
  aic_rest : rest
}.
#[global] Instance apiIpConfiguration_eq_dec : EqDecision apiIpConfiguration.
Proof. solve_decision. Defined.
Record apiSettings := {
  ast_ActivationPolicy : string;
  ast_AuthorizedGaeApplications : slice string;
  ast_AvailabilityType : string;
  ast_BackupConfiguration : ptr apiBackupConfiguration;
  ast_CrashSafeReplicationEnabled : bool;
  ast_DataDiskSizeGb : Z;
  ast_DataDiskType : string;
  ast_DatabaseFlags : slice (ptr apiDatabaseFlags);
  ast_DatabaseReplicationEnabled : bool;
  ast_IpConfiguration : ptr apiIpConfiguration;
  ast_LocationPreference : ptr apiLocationPreference;
  ast_MaintenanceWindow : ptr apiMaintenanceWindow;
  ast_PricingPlan : string;
  ast_ReplicationType : string;
  ast_SettingsVersion : Z;
  ast_StorageAutoResize : ptr bool;
  ast_StorageAutoResizeLimit : Z;
  ast_Tier : string;
  ast_UserLabels : gomap string;
  ast_rest : rest
}.
#[global] Instance apiSettings_eq_dec : EqDecision apiSettings.
Proof. solve_decision. Defined.
Record apiDiskEncryptionConfiguration := { adec_KmsKeyName : string; adec_rest : rest }.
#[global] Instance apiDiskEncryptionConfiguration_eq_dec : EqDecision apiDiskEncryptionConfiguration.
Proof. solve_decision. Defined.
Record apiDiskEncryptionStatus := { ades_KmsKeyVersionName : string; ades_rest : rest }.
#[global] Instance apiDiskEncryptionStatus_eq_dec : EqDecision apiDiskEncryptionStatus.
Proof. solve_decision. Defined.
Record apiFailoverReplica := { afr_Available : bool; afr_Name : string; afr_rest : rest }.
#[global] Instance apiFailoverReplica_eq_dec : EqDecision apiFailoverReplica.
Proof. solve_decision. Defined.
Record apiOnPremisesConfiguration := { aopc_HostPort : string; aopc_rest : rest }.
#[global] Instance apiOnPremisesConfiguration_eq_dec : EqDecision apiOnPremisesConfiguration.
Proof. solve_decision. Defined.
Record apiIpMapping := { aim_IpAddress : string; aim_TimeToRetire : string; aim_Type : string; aim_rest : rest }.
#[global] Instance apiIpMapping_eq_dec : EqDecision apiIpMapping.
Proof. solve_decision. Defined.
Record apiSslCert := {
  sc_Cert : string; sc_CertSerialNumber : string; sc_CommonName : string; sc_CreateTime : string;
  sc_ExpirationTime : string; sc_Instance : string; sc_Sha1Fingerprint : string; sc_rest : rest
}.
#[global] Instance apiSslCert_eq_dec : EqDecision apiSslCert.
Proof. solve_decision. Defined.

Record DatabaseInstance := {
  db_BackendType : string;
  db_ConnectionName : string;
  db_CurrentDiskSize : Z;
  db_DatabaseVersion : string;
  db_DiskEncryptionConfiguration : ptr apiDiskEncryptionConfiguration;
  db_DiskEncryptionStatus : ptr apiDiskEncryptionStatus;
  db_FailoverReplica : ptr apiFailoverReplica;
  db_GceZone : string;
  db_InstanceType : string;
  db_IpAddresses : slice (ptr apiIpMapping);
  db_Ipv6Address : string;
  db_MasterInstanceName : string;
  db_MaxDiskSize : Z;
  db_Name : string;
  db_OnPremisesConfiguration : ptr apiOnPremisesConfiguration;
  db_Project : string;
  db_Region : string;
  db_ReplicaNames : slice string;
  db_RootPassword : string;
  db_SelfLink : string;
  db_ServerCaCert : ptr apiSslCert;
  db_ServiceAccountEmailAddress : string;
  db_Settings : ptr apiSettings;
  db_State : string;
  db_SuspensionReason : slice string;
  db_rest : rest
}.
#[global] Instance DatabaseInstance_eq_dec : EqDecision DatabaseInstance.
Proof. solve_decision. Defined.

Definition zero_backup : apiBackupConfiguration := {|
  abc_BinaryLogEnabled := false; abc_Enabled := false; abc_Location := "";
  abc_ReplicationLogArchivingEnabled := false; abc_StartTime := ""; abc_rest := ∅ |}.
Definition zero_ip : apiIpConfiguration := {|
  aic_AuthorizedNetworks := None; aic_Ipv4Enabled := false; aic_PrivateNetwork := ""; aic_RequireSsl := false;
  aic_ForceSendFields := None; aic_rest := ∅ |}.
Definition zero_location : apiLocationPreference := {| alp_FollowGaeApplication := ""; alp_Zone := ""; alp_rest := ∅ |}.
Definition zero_window : apiMaintenanceWindow := {| amw_Day := 0; amw_Hour := 0; amw_UpdateTrack := ""; amw_rest := ∅ |}.
Definition zero_settings : apiSettings := {|
  ast_ActivationPolicy := ""; ast_AuthorizedGaeApplications := None; ast_AvailabilityType := "";
  ast_BackupConfiguration := None; ast_CrashSafeReplicationEnabled := false; ast_DataDiskSizeGb := 0;
  ast_DataDiskType := ""; ast_DatabaseFlags := None; ast_DatabaseReplicationEnabled := false;
  ast_IpConfiguration := None; ast_LocationPreference := None; ast_MaintenanceWindow := None;
  ast_PricingPlan := ""; ast_ReplicationType := ""; ast_SettingsVersion := 0; ast_StorageAutoResize := None;
  ast_StorageAutoResizeLimit := 0; ast_Tier := ""; ast_UserLabels := None; ast_rest := ∅ |}.
Definition zero_database : DatabaseInstance := {|
  db_BackendType := ""; db_ConnectionName := ""; db_CurrentDiskSize := 0; db_DatabaseVersion := "";
  db_DiskEncryptionConfiguration := None; db_DiskEncryptionStatus := None; db_FailoverReplica := None;
  db_GceZone := ""; db_InstanceType := ""; db_IpAddresses := None; db_Ipv6Address := "";
  db_MasterInstanceName := ""; db_MaxDiskSize := 0; db_Name := ""; db_OnPremisesConfiguration := None;
  db_Project := ""; db_Region := ""; db_ReplicaNames := None; db_RootPassword := ""; db_SelfLink := "";
  db_ServerCaCert := None; db_ServiceAccountEmailAddress := ""; db_Settings := None; db_State := "";
  db_SuspensionReason := None; db_rest := ∅ |}.

(** ** The client: generation *)

Definition errCheckClient : string := "unable to determine if external resource is up to date".

Definition generate_acl (val : ACLEntry) : apiAclEntry := {|
  aacl_ExpirationTime := StringValue val.(acl_ExpirationTime);
  aacl_Name := StringValue val.(acl_Name);
  aacl_Value := StringValue val.(acl_Value);
  aacl_Kind := "sql#aclEntry";
  aacl_rest := ∅ |}.

Definition generate_flag (val : DatabaseFlags) : apiDatabaseFlags := {|
  adf_Name := val.(df_Name); adf_Value := val.(df_Value); adf_rest := ∅ |}.

Definition generate_backup (i : BackupConfiguration) (b : apiBackupConfiguration) : apiBackupConfiguration :=
  {| b with
     abc_BinaryLogEnabled := BoolValue i.(bc_BinaryLogEnabled);
     abc_Enabled := BoolValue i.(bc_Enabled);
     abc_Location := StringValue i.(bc_Location);
     abc_ReplicationLogArchivingEnabled := BoolValue i.(bc_ReplicationLogArchivingEnabled);
     abc_StartTime := StringValue i.(bc_StartTime) |}.

Definition fill_ip (networks : slice (ptr apiAclEntry)) (i : IPConfiguration) (c : apiIpConfiguration) : apiIpConfiguration :=
  {| c with
     aic_Ipv4Enabled := BoolValue i.(ic_Ipv4Enabled);
     aic_PrivateNetwork := StringValue i.(ic_PrivateNetwork);
     aic_RequireSsl := BoolValue i.(ic_RequireSsl);
     aic_ForceSendFields := Some ["Ipv4Enabled"];
     aic_AuthorizedNetworks := networks |}.
Definition generate_ip (i : IPConfiguration) (c : apiIpConfiguration) : outcome apiIpConfiguration :=
  networks ← generate_derefs generate_acl i.(ic_AuthorizedNetworks) c.(aic_AuthorizedNetworks);
  Returns (fill_ip networks i c).

Definition generate_location (i : LocationPreference) (l : apiLocationPreference) : apiLocationPreference :=
  {| l with
     alp_FollowGaeApplication := StringValue i.(lp_FollowGaeApplication);
     alp_Zone := StringValue i.(lp_Zone) |}.

Definition generate_window (i : MaintenanceWindow) (w : apiMaintenanceWindow) : apiMaintenanceWindow :=
  {| w with
     amw_Day := Int64Value i.(mw_Day);
     amw_Hour := Int64Value i.(mw_Hour);
     amw_UpdateTrack := StringValue i.(mw_UpdateTrack) |}.

Definition fill_settings (ip : ptr apiIpConfiguration) (flags : slice (ptr apiDatabaseFlags)) (i : Settings)
    (s : apiSettings) : apiSettings :=
  {| s with
     ast_ActivationPolicy := StringValue i.(st_ActivationPolicy);
     ast_AuthorizedGaeApplications := i.(st_AuthorizedGaeApplications);
     ast_AvailabilityType := StringValue i.(st_AvailabilityType);
     ast_CrashSafeReplicationEnabled := BoolValue i.(st_CrashSafeReplicationEnabled);
     ast_DataDiskSizeGb := Int64Value i.(st_DataDiskSizeGb);
     ast_DataDiskType := StringValue i.(st_DataDiskType);
     ast_DatabaseReplicationEnabled := BoolValue i.(st_DatabaseReplicationEnabled);
     ast_PricingPlan := StringValue i.(st_PricingPlan);
     ast_ReplicationType := StringValue i.(st_ReplicationType);
     ast_StorageAutoResize := i.(st_StorageAutoResize);
     ast_StorageAutoResizeLimit := Int64Value i.(st_StorageAutoResizeLimit);
     ast_Tier := i.(st_Tier);
     ast_UserLabels := i.(st_UserLabels);
     ast_BackupConfiguration := generate_ptr generate_backup zero_backup i.(st_BackupConfiguration) s.(ast_BackupConfiguration);
     ast_IpConfiguration := ip;
     ast_LocationPreference := generate_ptr generate_location zero_location i.(st_LocationPreference) s.(ast_LocationPreference);
     ast_MaintenanceWindow := generate_ptr generate_window zero_window i.(st_MaintenanceWindow) s.(ast_MaintenanceWindow);
     ast_DatabaseFlags := flags |}.
Definition generate_settings (i : Settings) (s : apiSettings) : outcome apiSettings :=
  ip ← generate_ptr_try generate_ip zero_ip i.(st_IPConfiguration) s.(ast_IpConfiguration);
  flags ← generate_derefs generate_flag i.(st_DatabaseFlags) s.(ast_DatabaseFlags);
  Returns (fill_settings ip flags i s).

Definition generate_encryption (i : DiskEncryptionConfiguration) (c : apiDiskEncryptionConfiguration)
  : apiDiskEncryptionConfiguration := {| c with adec_KmsKeyName := i.(dec_KmsKeyName) |}.
Definition generate_failover (i : DatabaseInstanceFailoverReplicaSpec) (c : apiFailoverReplica)
  : apiFailoverReplica := {| c with afr_Name := i.(frs_Name) |}.
Definition generate_onpremises (i : OnPremisesConfiguration) (c : apiOnPremisesConfiguration)
  : apiOnPremisesConfiguration := {| c with aopc_HostPort := i.(opc_HostPort) |}.

Definition zero_encryption : apiDiskEncryptionConfiguration := {| adec_KmsKeyName := ""; adec_rest := ∅ |}.
Definition zero_failover : apiFailoverReplica := {| afr_Available := false; afr_Name := ""; afr_rest := ∅ |}.
Definition zero_onpremises : apiOnPremisesConfiguration := {| aopc_HostPort := ""; aopc_rest := ∅ |}.

Definition fill_database (settings : apiSettings) (name : string) (i : CloudSQLInstanceParameters) (db : DatabaseInstance)
  : DatabaseInstance :=
  {| db with
     db_DatabaseVersion := StringValue i.(p_DatabaseVersion);
     db_GceZone := StringValue i.(p_GceZone);
     db_InstanceType := StringValue i.(p_InstanceType);
     db_MasterInstanceName := StringValue i.(p_MasterInstanceName);
     db_MaxDiskSize := Int64Value i.(p_MaxDiskSize);
     db_Name := name;
     db_Region := i.(p_Region);
     db_ReplicaNames := i.(p_ReplicaNames);
     db_SuspensionReason := i.(p_SuspensionReason);
     db_DiskEncryptionConfiguration :=
       generate_ptr generate_encryption zero_encryption i.(p_DiskEncryptionConfiguration) db.(db_DiskEncryptionConfiguration);
     db_FailoverReplica := generate_ptr generate_failover zero_failover i.(p_FailoverReplica) db.(db_FailoverReplica);
     db_OnPremisesConfiguration :=
       generate_ptr generate_onpremises zero_onpremises i.(p_OnPremisesConfiguration) db.(db_OnPremisesConfiguration);
     db_Settings := Some settings |}.
Definition GenerateDatabaseInstance (name : string) (i : CloudSQLInstanceParameters) (db : DatabaseInstance)
  : outcome DatabaseInstance :=
  settings ← generate_settings i.(p_Settings) (default zero_settings db.(db_Settings));
  Returns (fill_database settings name i db).

Definition observe_address (val : apiIpMapping) : IPMapping := {|
  im_IPAddress := val.(aim_IpAddress); im_TimeToRetire := val.(aim_TimeToRetire); im_Type := val.(aim_Type) |}.

(** The settings and the addresses are dereferenced. *)
Definition GenerateObservation (i : DatabaseInstance) : outcome CloudSQLInstanceObservation :=
  settings ← deref i.(db_Settings);
  addresses ← generate_derefs observe_address i.(db_IpAddresses) None;
  Returns {|
    o_BackendType := i.(db_BackendType);
    o_CurrentDiskSize := i.(db_CurrentDiskSize);
    o_ConnectionName := i.(db_ConnectionName);
    o_GceZone := i.(db_GceZone);
    o_IPv6Address := i.(db_Ipv6Address);
    o_Project := i.(db_Project);
    o_SelfLink := i.(db_SelfLink);
    o_ServiceAccountEmailAddress := i.(db_ServiceAccountEmailAddress);
    o_State := i.(db_State);
    o_SettingsVersion := settings.(ast_SettingsVersion);
    o_DiskEncryptionStatus := (λ s, {| KmsKeyVersionName := s.(ades_KmsKeyVersionName) |}) <$> i.(db_DiskEncryptionStatus);
    o_FailoverReplica := (λ f, {| Available_ := f.(afr_Available) |}) <$> i.(db_FailoverReplica);
    o_IPAddresses := addresses |}.

(** ** The client: late initialization *)

Definition late_backup (b : apiBackupConfiguration) (s : BackupConfiguration) : BackupConfiguration := {|
  bc_BinaryLogEnabled := LateInitializeBool s.(bc_BinaryLogEnabled) b.(abc_BinaryLogEnabled);
  bc_Enabled := LateInitializeBool s.(bc_Enabled) b.(abc_Enabled);
  bc_Location := LateInitializeString s.(bc_Location) b.(abc_Location);
  bc_ReplicationLogArchivingEnabled :=
    LateInitializeBool s.(bc_ReplicationLogArchivingEnabled) b.(abc_ReplicationLogArchivingEnabled);
  bc_StartTime := LateInitializeString s.(bc_StartTime) b.(abc_StartTime) |}.

Definition observe_acl (val : apiAclEntry) : ACLEntry := {|
  acl_ExpirationTime := Some val.(aacl_ExpirationTime);
  acl_Name := Some val.(aacl_Name);
  acl_Value := Some val.(aacl_Value) |}.

Definition late_fill_ip (networks : slice (ptr ACLEntry)) (c : apiIpConfiguration) (s : IPConfiguration) : IPConfiguration :=
  {| s with
     ic_Ipv4Enabled := LateInitializeBool s.(ic_Ipv4Enabled) c.(aic_Ipv4Enabled);
     ic_PrivateNetwork := LateInitializeString s.(ic_PrivateNetwork) c.(aic_PrivateNetwork);
     ic_RequireSsl := LateInitializeBool s.(ic_RequireSsl) c.(aic_RequireSsl);
     ic_AuthorizedNetworks := networks |}.
Definition late_ip (c : apiIpConfiguration) (s : IPConfiguration) : outcome IPConfiguration :=
  networks ← late_elems observe_acl s.(ic_AuthorizedNetworks) c.(aic_AuthorizedNetworks);
  Returns (late_fill_ip networks c s).

Definition late_location (l : apiLocationPreference) (s : LocationPreference) : LocationPreference := {|
  lp_Zone := LateInitializeString s.(lp_Zone) l.(alp_Zone);
  lp_FollowGaeApplication := LateInitializeString s.(lp_FollowGaeApplication) l.(alp_FollowGaeApplication) |}.

Definition late_window (w : apiMaintenanceWindow) (s : MaintenanceWindow) : MaintenanceWindow := {|
  mw_UpdateTrack := LateInitializeString s.(mw_UpdateTrack) w.(amw_UpdateTrack);
  mw_Day := LateInitializeInt64 s.(mw_Day) w.(amw_Day);
  mw_Hour := LateInitializeInt64 s.(mw_Hour) w.(amw_Hour) |}.

Definition observe_flag (val : apiDatabaseFlags) : DatabaseFlags := {|
  df_Name := val.(adf_Name); df_Value := val.(adf_Value) |}.

Definition no_backup : BackupConfiguration := {|
  bc_BinaryLogEnabled := None; bc_Enabled := None; bc_Location := None;
  bc_ReplicationLogArchivingEnabled := None; bc_StartTime := None |}.
Definition no_ip : IPConfiguration := {|
  ic_AuthorizedNetworks := None; ic_Ipv4Enabled := None; ic_PrivateNetwork := None; ic_PrivateNetworkRef := None;
  ic_PrivateNetworkSelector := None; ic_RequireSsl := None |}.
Definition no_location : LocationPreference := {| lp_FollowGaeApplication := None; lp_Zone := None |}.
Definition no_window : MaintenanceWindow := {| mw_Day := None; mw_Hour := None; mw_UpdateTrack := None |}.

Definition late_fill_settings (flags : slice (ptr DatabaseFlags)) (ip : ptr IPConfiguration) (i : apiSettings) (s : Settings)
  : Settings := {|
  st_Tier := if bool_decide (s.(st_Tier) = "") then i.(ast_Tier) else s.(st_Tier);
  st_ActivationPolicy := LateInitializeString s.(st_ActivationPolicy) i.(ast_ActivationPolicy);
  st_AuthorizedGaeApplications :=
    LateInitializeStringSlice s.(st_AuthorizedGaeApplications) i.(ast_AuthorizedGaeApplications);
  st_AvailabilityType := LateInitializeString s.(st_AvailabilityType) i.(ast_AvailabilityType);
  st_CrashSafeReplicationEnabled :=
    LateInitializeBool s.(st_CrashSafeReplicationEnabled) i.(ast_CrashSafeReplicationEnabled);
  st_DataDiskType := LateInitializeString s.(st_DataDiskType) i.(ast_DataDiskType);
  st_PricingPlan := LateInitializeString s.(st_PricingPlan) i.(ast_PricingPlan);
  st_ReplicationType := LateInitializeString s.(st_ReplicationType) i.(ast_ReplicationType);
  st_UserLabels := LateInitializeStringMap s.(st_UserLabels) i.(ast_UserLabels);
  st_DataDiskSizeGb := LateInitializeInt64 s.(st_DataDiskSizeGb) i.(ast_DataDiskSizeGb);
  st_DatabaseReplicationEnabled :=
    LateInitializeBool s.(st_DatabaseReplicationEnabled) i.(ast_DatabaseReplicationEnabled);
  st_StorageAutoResizeLimit := LateInitializeInt64 s.(st_StorageAutoResizeLimit) i.(ast_StorageAutoResizeLimit);
  st_StorageAutoResize :=
    match s.(st_StorageAutoResize) with None => i.(ast_StorageAutoResize) | Some _ => s.(st_StorageAutoResize) end;
  st_DatabaseFlags := flags;
  st_BackupConfiguration := late_ptr late_backup no_backup s.(st_BackupConfiguration) i.(ast_BackupConfiguration);
  st_IPConfiguration := ip;
  st_LocationPreference := late_ptr late_location no_location s.(st_LocationPreference) i.(ast_LocationPreference);
  st_MaintenanceWindow := late_ptr late_window no_window s.(st_MaintenanceWindow) i.(ast_MaintenanceWindow) |}.
Definition late_settings (i : apiSettings) (s : Settings) : outcome Settings :=
  flags ← late_elems observe_flag s.(st_DatabaseFlags) i.(ast_DatabaseFlags);
  ip ← late_ptr_try late_ip no_ip s.(st_IPConfiguration) i.(ast_IpConfiguration);
  Returns (late_fill_settings flags ip i s).

Definition late_encryption (c : apiDiskEncryptionConfiguration) (s : DiskEncryptionConfiguration)
  : DiskEncryptionConfiguration :=
  {| dec_KmsKeyName := if bool_decide (s.(dec_KmsKeyName) = "") then c.(adec_KmsKeyName) else s.(dec_KmsKeyName) |}.

Definition late_fill_spec (settings : Settings) (spec : CloudSQLInstanceParameters) (i : DatabaseInstance)
  : CloudSQLInstanceParameters := {|
  p_Region := if bool_decide (spec.(p_Region) = "") then i.(db_Region) else spec.(p_Region);
  p_DatabaseVersion := LateInitializeString spec.(p_DatabaseVersion) i.(db_DatabaseVersion);
  p_MasterInstanceName := LateInitializeString spec.(p_MasterInstanceName) i.(db_MasterInstanceName);
  p_GceZone := LateInitializeString spec.(p_GceZone) i.(db_GceZone);
  p_InstanceType := LateInitializeString spec.(p_InstanceType) i.(db_InstanceType);
  p_MaxDiskSize := LateInitializeInt64 spec.(p_MaxDiskSize) i.(db_MaxDiskSize);
  p_ReplicaNames := LateInitializeStringSlice spec.(p_ReplicaNames) i.(db_ReplicaNames);
  p_SuspensionReason := LateInitializeStringSlice spec.(p_SuspensionReason) i.(db_SuspensionReason);
  p_Settings := settings;
  p_DiskEncryptionConfiguration :=
    late_ptr late_encryption {| dec_KmsKeyName := "" |} spec.(p_DiskEncryptionConfiguration) i.(db_DiskEncryptionConfiguration);
  p_FailoverReplica :=
    match i.(db_FailoverReplica), spec.(p_FailoverReplica) with
    | Some f, None => Some {| frs_Name := f.(afr_Name) |}
    | _, _ => spec.(p_FailoverReplica)
    end;
  p_OnPremisesConfiguration :=
    match i.(db_OnPremisesConfiguration), spec.(p_OnPremisesConfiguration) with
    | Some c, None => Some {| opc_HostPort := c.(aopc_HostPort) |}
    | _, _ => spec.(p_OnPremisesConfiguration)
    end |}.
Definition LateInitializeSpec (spec : CloudSQLInstanceParameters) (i : DatabaseInstance)
  : outcome CloudSQLInstanceParameters :=
  settings ← match i.(db_Settings) with
             | None => Returns spec.(p_Settings)
             | Some s => late_settings s spec.(p_Settings)
             end;
  Returns (late_fill_spec settings spec i).

(** ** The client: comparison *)

(** What cmp.Equal sees with EquateEmpty and IgnoreFields(DatabaseInstance,
    "Settings.IpConfiguration.ForceSendFields"). *)
Definition view_ip (c : apiIpConfiguration) : apiIpConfiguration :=
  {| c with aic_ForceSendFields := None; aic_AuthorizedNetworks := norm_slice c.(aic_AuthorizedNetworks) |}.
Definition view_settings (s : apiSettings) : apiSettings :=
  {| s with
     ast_AuthorizedGaeApplications := norm_slice s.(ast_AuthorizedGaeApplications);
     ast_DatabaseFlags := norm_slice s.(ast_DatabaseFlags);
     ast_UserLabels := norm_map s.(ast_UserLabels);
     ast_IpConfiguration := view_ip <$> s.(ast_IpConfiguration) |}.
Definition view_database (db : DatabaseInstance) : DatabaseInstance :=
  {| db with
     db_IpAddresses := norm_slice db.(db_IpAddresses);
     db_ReplicaNames := norm_slice db.(db_ReplicaNames);
     db_SuspensionReason := norm_slice db.(db_SuspensionReason);
     db_Settings := view_settings <$> db.(db_Settings) |}.

Section client.
Context `{Libs}.

Definition IsUpToDate (name : string) (i : CloudSQLInstanceParameters) (observed : DatabaseInstance)
  : outcome (bool * option error) :=
  match copystructure_Copy observed with
  | CopyFails err => Returns (true, errors_Wrap (Some err) errCheckClient)
  | CopyOtherType => Returns (true, errors_New errCheckClient)
  | Copied desired =>
    desired ← GenerateDatabaseInstance name i desired;
    Returns (cmp_Equal (same_view view_database) desired observed, None)
  end.
End client.

Definition MysqlDefaultUser : string := "root".
Definition PostgresqlDBVersionPrefix : string := "POSTGRES".
Definition PostgresqlDefaultUser : string := "postgres".

Definition DatabaseUserName (p : CloudSQLInstanceParameters) : string :=
  if HasPrefix (StringValue p.(p_DatabaseVersion)) PostgresqlDBVersionPrefix
  then PostgresqlDefaultUser else MysqlDefaultUser.

Definition GetServerCACertificate (i : DatabaseInstance) : gomap string :=
  (λ c, <["serverCACertificateCert" := c.(sc_Cert)]>
        (<["serverCACertificateCertSerialNumber" := c.(sc_CertSerialNumber)]>
        (<["serverCACertificateCommonName" := c.(sc_CommonName)]>
        (<["serverCACertificateCreateTime" := c.(sc_CreateTime)]>
        (<["serverCACertificateExpirationTime" := c.(sc_ExpirationTime)]>
        (<["serverCACertificateInstance" := c.(sc_Instance)]>
        (<["serverCACertificateSha1Fingerprint" := c.(sc_Sha1Fingerprint)]> ∅))))))) <$> i.(db_ServerCaCert).

(** ** The controller *)

Definition CloudSQLSecretConnectionName : string := "connectionName".

Definition errNotCloudSQL : string := "managed resource is not a CloudSQLInstance custom resource".
Definition errManagedUpdateFailed : string := "cannot update CloudSQLInstance custom resource".
Definition errCreateFailed : string := "cannot create new CloudSQL instance".
Definition errNameInUse : string :=
  "cannot create new CloudSQL instance, resource name is unavailable because it is in use or was used recently".
Definition errDeleteFailed : string := "cannot delete the CloudSQL instance".
Definition errUpdateFailed : string := "cannot update the CloudSQL instance".
Definition errGetFailed : string := "cannot get the CloudSQL instance".
Definition errGeneratePassword : string := "cannot generate root password".
Definition errCheckUpToDate : string := "cannot determine if CloudSQL instance is up to date".

Inductive CloudSQLE : Type → Type :=
| InstancesGet (project name : string) : CloudSQLE (DatabaseInstance + error)
| InstancesInsert (project : string) (db : DatabaseInstance) : CloudSQLE (option error)
| InstancesPatch (project name : string) (db : DatabaseInstance) : CloudSQLE (option error)
| InstancesDelete (project name : string) : CloudSQLE (option error)
| GeneratePassword : CloudSQLE (string + error)
| KubeUpdate (cr : CloudSQLInstance) : CloudSQLE (CloudSQLInstance + error).

(** The loop of getConnectionDetails over the addresses. *)
Definition add_address (m : gmap string string) (ip : IPMapping) : gmap string string :=
  let m := if bool_decide (ip.(im_Type) = PrivateIPType)
           then <[ResourceCredentialsSecretEndpointKey := ip.(im_IPAddress)]> (<[PrivateIPKey := ip.(im_IPAddress)]> m)
           else m in
  if bool_decide (ip.(im_Type) = PublicIPType) then
    let m := <[PublicIPKey := ip.(im_IPAddress)]> m in
    if bool_decide (default "" (m !! ResourceCredentialsSecretEndpointKey) = "")
    then <[ResourceCredentialsSecretEndpointKey := ip.(im_IPAddress)]> m else m
  else m.

Definition getConnectionDetails (cr : CloudSQLInstance) (instance : DatabaseInstance) : outcome (gmap string string) :=
  let m := <[ResourceCredentialsSecretUserKey := DatabaseUserName cr.(ForProvider)]>
           (<[CloudSQLSecretConnectionName := instance.(db_ConnectionName)]> ∅) in
  m ← fold_left (λ m ip, m ← m; ip ← deref ip; Returns (add_address m ip)) (elems cr.(AtProvider).(o_IPAddresses)) (Returns m);
  Returns (entries (GetServerCACertificate instance) ∪ m).

Section controller.
Context `{Libs} (projectID : string).

Definition state_condition (cr : CloudSQLInstance) : CloudSQLInstance :=
  let state := cr.(AtProvider).(o_State) in
  if bool_decide (state = StateRunnable) then set_condition Available cr
  else if bool_decide (state = StateCreating) then set_condition Creating cr
  else if bool_decide (state ∈ [StateCreationFailed; StateSuspended; StateMaintenance; StateUnknownState])
  then set_condition Unavailable cr
  else cr.

Definition Observe (mg : option CloudSQLInstance)
  : prog CloudSQLE (ExternalObservation * option error * option CloudSQLInstance) :=
  match mg with
  | None => mret (no_observation, errors_New errNotCloudSQL, None)
  | Some cr =>
    r ← call (InstancesGet projectID cr.(ExternalName));
    match r with
    | inr err =>
      mret (no_observation, errors_Wrap (resource_Ignore IsErrorNotFound (Some err)) errGetFailed, Some cr)
    | inl instance =>
      let currentSpec := cr.(ForProvider) in
      i ← lift (LateInitializeSpec cr.(ForProvider) instance);
      let cr := {| cr with ForProvider := i |} in
      u ← (if negb (cmp_Equal (=) currentSpec cr.(ForProvider)) then call (KubeUpdate cr) else mret (inl cr));
      match u with
      | inr err => mret (no_observation, errors_Wrap (Some err) errManagedUpdateFailed, Some cr)
      | inl cr =>
        at_provider ← lift (GenerateObservation instance);
        let cr := {| cr with AtProvider := at_provider |} in
        let cr := state_condition cr in
        up ← lift (IsUpToDate cr.(ExternalName) cr.(ForProvider) instance);
        match up with
        | (_, Some err) => mret (no_observation, errors_Wrap (Some err) errCheckUpToDate, Some cr)
        | (upToDate, None) =>
          details ← lift (getConnectionDetails cr instance);
          mret ({| no_observation with ResourceExists := true; ResourceUpToDate := upToDate;
                   ConnectionDetails := Some details |}, None, Some cr)
        end
      end
    end
  end.

Definition Create (mg : option CloudSQLInstance)
  : prog CloudSQLE (ExternalCreation * option error * option CloudSQLInstance) :=
  match mg with
  | None => mret (no_creation, errors_New errNotCloudSQL, None)
  | Some cr =>
    let cr := set_condition Creating cr in
    instance ← lift (GenerateDatabaseInstance cr.(ExternalName) cr.(ForProvider) zero_database);
    p ← call GeneratePassword;
    match p with
    | inr err => mret (no_creation, errors_Wrap (Some err) errGeneratePassword, Some cr)
    | inl pw =>
      let instance := {| instance with db_RootPassword := pw |} in
      r ← call (InstancesInsert projectID instance);
      match r with
      | Some err =>
        if IsErrorAlreadyExists (Some err)
        then mret (no_creation, errors_Wrap (Some err) errNameInUse, Some cr)
        else mret (no_creation, errors_Wrap (Some err) errCreateFailed, Some cr)
      | None =>
        mret ({| no_creation with
                 CreationDetails := Some (<[ResourceCredentialsSecretPasswordKey := pw]> ∅) |}, None, Some cr)
      end
    end
  end.

Definition Update (mg : option CloudSQLInstance) : prog CloudSQLE (option error * option CloudSQLInstance) :=
  match mg with
  | None => mret (errors_New errNotCloudSQL, None)
  | Some cr =>
    if bool_decide (cr.(AtProvider).(o_State) = StateCreating) then mret (None, Some cr)
    else
      instance ← lift (GenerateDatabaseInstance cr.(ExternalName) cr.(ForProvider) zero_database);
      err ← call (InstancesPatch projectID cr.(ExternalName) instance);
      mret (errors_Wrap err errUpdateFailed, Some cr)
  end.

Definition Delete (mg : option CloudSQLInstance) : prog CloudSQLE (option error * option CloudSQLInstance) :=
  match mg with
  | None => mret (errors_New errNotCloudSQL, None)
  | Some cr =>
    let cr := set_condition Deleting cr in
    err ← call (InstancesDelete projectID cr.(ExternalName));
    if IsErrorNotFound err then mret (None, Some cr)
    else mret (errors_Wrap err errDeleteFailed, Some cr)
  end.

(** cloudsqlTagger.Initialize; [GetExternalTags] is resource.GetExternalTags. *)
Definition tag_labels (tags : gmap string string) (labels : gomap string) : gmap string string :=
  ((λ v, ToLower (ReplaceAll v "." "_")) <$> tags) ∪ entries labels.

Definition Initialize (GetExternalTags : CloudSQLInstance → gmap string string) (mg : option CloudSQLInstance)
  : prog CloudSQLE (option error * option CloudSQLInstance) :=
  match mg with
  | None => mret (errors_New errNotCloudSQL, None)
  | Some cr =>
    let settings := cr.(ForProvider).(p_Settings) in
    let labels := tag_labels (GetExternalTags cr) settings.(st_UserLabels) in
    let cr := {| cr with ForProvider :=
      {| cr.(ForProvider) with p_Settings := {| settings with st_UserLabels := Some labels |} |} |} in
    u ← call (KubeUpdate cr);
    match u with
    | inr err => mret (errors_Wrap (Some err) errManagedUpdateFailed, Some cr)
    | inl cr => mret (errors_Wrap None errManagedUpdateFailed, Some cr)
    end
  end.
End controller.

(** ** Lemmas: nil elements *)

(** What the client's functions return when they do not dereference nil. *)
Definition ip_generated (i : IPConfiguration) (c : apiIpConfiguration) : apiIpConfiguration :=
  fill_ip (generate_elems generate_acl i.(ic_AuthorizedNetworks) c.(aic_AuthorizedNetworks)) i c.
Definition settings_generated (i : Settings) (s : apiSettings) : apiSettings :=
  fill_settings (generate_ptr ip_generated zero_ip i.(st_IPConfiguration) s.(ast_IpConfiguration))
    (generate_elems generate_flag i.(st_DatabaseFlags) s.(ast_DatabaseFlags)) i s.
Definition generated (name : string) (i : CloudSQLInstanceParameters) (db : DatabaseInstance) : DatabaseInstance :=
  fill_database (settings_generated i.(p_Settings) (default zero_settings db.(db_Settings))) name i db.
Definition ip_completed (c : apiIpConfiguration) (s : IPConfiguration) : IPConfiguration :=
  late_fill_ip (late_list observe_acl s.(ic_AuthorizedNetworks) c.(aic_AuthorizedNetworks)) c s.
Definition settings_completed (o : apiSettings) (s : Settings) : Settings :=
  late_fill_settings (late_list observe_flag s.(st_DatabaseFlags) o.(ast_DatabaseFlags))
    (late_ptr ip_completed no_ip s.(st_IPConfiguration) o.(ast_IpConfiguration)) o s.
Definition completed (i : CloudSQLInstanceParameters) (o : DatabaseInstance) : CloudSQLInstanceParameters :=
  late_fill_spec (match o.(db_Settings) with None => i.(p_Settings) | Some s => settings_completed s i.(p_Settings) end) i o.

(** No flag and no authorized network is nil. *)
Definition settings_no_nil (s : Settings) : Prop :=
  no_nil s.(st_DatabaseFlags) ∧ ∀ c, s.(st_IPConfiguration) = Some c → no_nil c.(ic_AuthorizedNetworks).
Definition database_no_nil (o : DatabaseInstance) : Prop :=
  ∀ s, o.(db_Settings) = Some s →
    no_nil s.(ast_DatabaseFlags) ∧ ∀ c, s.(ast_IpConfiguration) = Some c → no_nil c.(aic_AuthorizedNetworks).
Definition settings_nil (s : Settings) : bool :=
  has_nil (elems s.(st_DatabaseFlags)) ||
  match s.(st_IPConfiguration) with Some c => has_nil (elems c.(ic_AuthorizedNetworks)) | None => false end.

Lemma settings_nil_false s : settings_nil s = false ↔ settings_no_nil s.
Proof.
  unfold settings_nil, settings_no_nil, no_nil. rewrite orb_false_iff, has_nil_false.
  destruct (st_IPConfiguration s); [rewrite has_nil_false|]; naive_solver.
Qed.
Lemma generate_settings_spec i s :
  generate_settings i s = if settings_nil i then Panics else Returns (settings_generated i s).
Proof.
  unfold generate_settings, settings_nil, settings_generated, generate_ptr_try, generate_ptr, generate_ip.
  rewrite generate_derefs_spec. destruct (st_IPConfiguration i) as [c|]; simpl; [rewrite generate_derefs_spec|];
    by destruct (existsb _ (elems (st_DatabaseFlags i))); try destruct (existsb _ _).
Qed.
Lemma GenerateDatabaseInstance_spec name i db :
  GenerateDatabaseInstance name i db = if settings_nil i.(p_Settings) then Panics else Returns (generated name i db).
Proof. unfold GenerateDatabaseInstance. rewrite generate_settings_spec. by destruct (settings_nil _). Qed.
Lemma GenerateDatabaseInstance_returns name i db :
  settings_no_nil i.(p_Settings) → GenerateDatabaseInstance name i db = Returns (generated name i db).
Proof. intros Hi%settings_nil_false. by rewrite GenerateDatabaseInstance_spec, Hi. Qed.

Lemma late_elems_returns {A B} (f : B → A) x y : no_nil y → late_elems f x y = Returns (late_list f x y).
Proof. intros Hy. by rewrite late_elems_list, no_nil_existsb, andb_false_r. Qed.
Lemma LateInitializeSpec_returns i o : database_no_nil o → LateInitializeSpec i o = Returns (completed i o).
Proof.
  intros Ho. unfold LateInitializeSpec, completed. destruct (db_Settings o) as [s|] eqn:Hs; [|done].
  destruct (Ho s Hs) as [Hf Hn]. unfold late_settings, settings_completed, late_ptr_try, late_ip.
  rewrite late_elems_returns by done. destruct (ast_IpConfiguration s) as [c|] eqn:Hc; simpl; [|done].
  by rewrite late_elems_returns by auto.
Qed.
(** If it returns, it returns that. *)
Lemma LateInitializeSpec_inv i o i' : LateInitializeSpec i o = Returns i' → i' = completed i o.
Proof.
  unfold LateInitializeSpec, completed, late_settings, settings_completed, late_ptr_try, late_ip.
  destruct (db_Settings o) as [s|]; [|by intros [= <-]]. rewrite late_elems_list.
  destruct (slice_empty _ && _); [done|]. simpl. destruct (ast_IpConfiguration s) as [c|]; simpl; [|by intros [= <-]].
  rewrite late_elems_list. destruct (_ && _); [done|]. by intros [= <-].
Qed.
(** Without nil on either side the result has none. *)
Lemma completed_no_nil i o : settings_no_nil i.(p_Settings) → database_no_nil o → settings_no_nil (completed i o).(p_Settings).
Proof.
  intros [Hf Hn] Ho. unfold completed. simpl. destruct (db_Settings o) as [s|] eqn:Hs; [|done].
  destruct (Ho s Hs) as [Hf' Hn']. split; [by apply late_list_no_nil|]. simpl.
  destruct (ast_IpConfiguration s) as [c|]; [|done]. intros d [= <-]. apply late_list_no_nil; [|by apply Hn'].
  destruct (st_IPConfiguration i.(p_Settings)); [by apply Hn|constructor].
Qed.

(** ** Lemmas: late initialization, struct by struct *)

Definition backup_agrees (s : BackupConfiguration) (o : apiBackupConfiguration) : Prop :=
  agrees s.(bc_BinaryLogEnabled) o.(abc_BinaryLogEnabled) ∧ agrees s.(bc_Enabled) o.(abc_Enabled) ∧
  agrees s.(bc_Location) o.(abc_Location) ∧
  agrees s.(bc_ReplicationLogArchivingEnabled) o.(abc_ReplicationLogArchivingEnabled) ∧
  agrees s.(bc_StartTime) o.(abc_StartTime).

Lemma backup_late s o : id (generate_backup (late_backup o s) o) = id o ↔ backup_agrees s o.
Proof.
  unfold generate_backup, backup_agrees, agrees; simpl. autorewrite with late. destruct o; simpl.
  split; [intros [=]; split_and!; congruence|]. intros. destruct_and!. do 2 f_equal; congruence.
Qed.

Definition location_agrees (s : LocationPreference) (o : apiLocationPreference) : Prop :=
  agrees s.(lp_FollowGaeApplication) o.(alp_FollowGaeApplication) ∧ agrees s.(lp_Zone) o.(alp_Zone).

Lemma location_late s o : id (generate_location (late_location o s) o) = id o ↔ location_agrees s o.
Proof.
  unfold generate_location, location_agrees, agrees; simpl. autorewrite with late. destruct o; simpl.
  split; [intros [=]; split_and!; congruence|]. intros. destruct_and!. do 2 f_equal; congruence.
Qed.

Definition window_agrees (s : MaintenanceWindow) (o : apiMaintenanceWindow) : Prop :=
  agrees s.(mw_Day) o.(amw_Day) ∧ agrees s.(mw_Hour) o.(amw_Hour) ∧ agrees s.(mw_UpdateTrack) o.(amw_UpdateTrack).

Lemma window_late s o : id (generate_window (late_window o s) o) = id o ↔ window_agrees s o.
Proof.
  unfold generate_window, window_agrees, agrees; simpl. autorewrite with late. destruct o; simpl.
  split; [intros [=]; split_and!; congruence|]. intros. destruct_and!. do 2 f_equal; congruence.
Qed.

(** The access lists and flags of the API hold nothing the parameters cannot
    say. *)
Definition plain_acls (s : slice (ptr apiAclEntry)) : Prop :=
  Forall (λ p, ∀ a, p = Some a → a.(aacl_Kind) = "sql#aclEntry" ∧ a.(aacl_rest) = ∅) (elems s).
Definition plain_flags (s : slice (ptr apiDatabaseFlags)) : Prop :=
  Forall (λ p, ∀ f, p = Some f → f.(adf_rest) = ∅) (elems s).

Lemma generate_observe_acls s : plain_acls s → each generate_acl (each observe_acl (elems s)) = elems s.
Proof.
  unfold plain_acls, each. induction 1 as [|[a|] l Ha Hl IH]; [done|..]; rewrite !fmap_cons, IH; [|done].
  destruct (Ha a eq_refl). simpl. do 2 f_equal. destruct a; simpl in *; by subst.
Qed.
Lemma generate_observe_flags s : plain_flags s → each generate_flag (each observe_flag (elems s)) = elems s.
Proof.
  unfold plain_flags, each. induction 1 as [|[f|] l Hf Hl IH]; [done|..]; rewrite !fmap_cons, IH; [|done].
  specialize (Hf f eq_refl). simpl. do 2 f_equal. destruct f; simpl in *; by subst.
Qed.

(** A list of structs that is late initialized from the observed one when empty,
    and generated over the observed one when not. *)
Lemma norm_generated_list {A B} (gen : A → B) (obs : B → A) (x : slice (ptr A)) (y : slice (ptr B)) :
  each gen (each obs (elems y)) = elems y →
  norm_slice (generate_elems gen (late_list obs x y) y) = norm_slice y ↔
  agrees_slice (if slice_empty x then None else Some (each gen (elems x))) y.
Proof.
  intros Hrt. unfold agrees_slice, generate_elems, late_list.
  destruct (slice_empty x) eqn:Hx, (slice_empty y) eqn:Hy; simpl; rewrite ?Hx; simpl.
  - intuition done.
  - replace (slice_empty (Some (each obs (elems y)))) with (slice_empty y).
    + rewrite Hy. simpl. rewrite Hrt. unfold norm_slice at 1. simpl.
      split; [by left|]. intros _. unfold norm_slice. done.
    + unfold slice_empty. simpl. by destruct (elems y).
  - assert (slice_empty (Some (each gen (elems x))) = false) as ->; [|intuition done].
    unfold slice_empty in *. simpl. by destruct (elems x).
  - assert (slice_empty (Some (each gen (elems x))) = false) as ->; [|intuition done].
    unfold slice_empty in *. simpl. by destruct (elems x).
Qed.

Definition ip_agrees (s : IPConfiguration) (o : apiIpConfiguration) : Prop :=
  agrees s.(ic_Ipv4Enabled) o.(aic_Ipv4Enabled) ∧ agrees s.(ic_PrivateNetwork) o.(aic_PrivateNetwork) ∧
  agrees s.(ic_RequireSsl) o.(aic_RequireSsl) ∧
  agrees_slice (if slice_empty s.(ic_AuthorizedNetworks) then None
                else Some (each generate_acl (elems s.(ic_AuthorizedNetworks)))) o.(aic_AuthorizedNetworks).

Lemma ip_late s o :
  plain_acls o.(aic_AuthorizedNetworks) →
  view_ip (ip_generated (ip_completed o s) o) = view_ip o ↔ ip_agrees s o.
Proof.
  intros Hplain. unfold ip_agrees.
  rewrite <-(norm_generated_list generate_acl observe_acl) by by apply generate_observe_acls.
  unfold view_ip, ip_generated, agrees; simpl. autorewrite with late. destruct o; simpl.
  split; [intros [=]; split_and!; congruence|]. intros. destruct_and!. f_equal; congruence.
Qed.

Definition settings_agrees (s : Settings) (o : apiSettings) : Prop :=
  agrees s.(st_ActivationPolicy) o.(ast_ActivationPolicy) ∧
  agrees_slice s.(st_AuthorizedGaeApplications) o.(ast_AuthorizedGaeApplications) ∧
  agrees s.(st_AvailabilityType) o.(ast_AvailabilityType) ∧
  agrees_ptr backup_agrees s.(st_BackupConfiguration) o.(ast_BackupConfiguration) ∧
  agrees s.(st_CrashSafeReplicationEnabled) o.(ast_CrashSafeReplicationEnabled) ∧
  agrees s.(st_DataDiskSizeGb) o.(ast_DataDiskSizeGb) ∧
  agrees s.(st_DataDiskType) o.(ast_DataDiskType) ∧
  agrees_slice (if slice_empty s.(st_DatabaseFlags) then None
                else Some (each generate_flag (elems s.(st_DatabaseFlags)))) o.(ast_DatabaseFlags) ∧
  agrees s.(st_DatabaseReplicationEnabled) o.(ast_DatabaseReplicationEnabled) ∧
  agrees_ptr ip_agrees s.(st_IPConfiguration) o.(ast_IpConfiguration) ∧
  agrees_ptr location_agrees s.(st_LocationPreference) o.(ast_LocationPreference) ∧
  agrees_ptr window_agrees s.(st_MaintenanceWindow) o.(ast_MaintenanceWindow) ∧
  agrees s.(st_PricingPlan) o.(ast_PricingPlan) ∧
  agrees s.(st_ReplicationType) o.(ast_ReplicationType) ∧
  (s.(st_StorageAutoResize) = None ∨ s.(st_StorageAutoResize) = o.(ast_StorageAutoResize)) ∧
  agrees s.(st_StorageAutoResizeLimit) o.(ast_StorageAutoResizeLimit) ∧
  agrees_string s.(st_Tier) o.(ast_Tier) ∧
  agrees_map s.(st_UserLabels) o.(ast_UserLabels).

Definition plain_settings (o : apiSettings) : Prop :=
  plain_flags o.(ast_DatabaseFlags) ∧
  match o.(ast_IpConfiguration) with None => True | Some c => plain_acls c.(aic_AuthorizedNetworks) end.

(** Two settings look the same when they do so field by field. *)
Lemma view_settings_eq x y :
  view_settings x = view_settings y ↔
  x.(ast_ActivationPolicy) = y.(ast_ActivationPolicy) ∧
  norm_slice x.(ast_AuthorizedGaeApplications) = norm_slice y.(ast_AuthorizedGaeApplications) ∧
  x.(ast_AvailabilityType) = y.(ast_AvailabilityType) ∧
  id <$> x.(ast_BackupConfiguration) = id <$> y.(ast_BackupConfiguration) ∧
  x.(ast_CrashSafeReplicationEnabled) = y.(ast_CrashSafeReplicationEnabled) ∧
  x.(ast_DataDiskSizeGb) = y.(ast_DataDiskSizeGb) ∧
  x.(ast_DataDiskType) = y.(ast_DataDiskType) ∧
  norm_slice x.(ast_DatabaseFlags) = norm_slice y.(ast_DatabaseFlags) ∧
  x.(ast_DatabaseReplicationEnabled) = y.(ast_DatabaseReplicationEnabled) ∧
  view_ip <$> x.(ast_IpConfiguration) = view_ip <$> y.(ast_IpConfiguration) ∧
  id <$> x.(ast_LocationPreference) = id <$> y.(ast_LocationPreference) ∧
  id <$> x.(ast_MaintenanceWindow) = id <$> y.(ast_MaintenanceWindow) ∧
  x.(ast_PricingPlan) = y.(ast_PricingPlan) ∧
  x.(ast_ReplicationType) = y.(ast_ReplicationType) ∧
  x.(ast_StorageAutoResize) = y.(ast_StorageAutoResize) ∧
  x.(ast_StorageAutoResizeLimit) = y.(ast_StorageAutoResizeLimit) ∧
  x.(ast_Tier) = y.(ast_Tier) ∧
  norm_map x.(ast_UserLabels) = norm_map y.(ast_UserLabels) ∧
  x.(ast_SettingsVersion) = y.(ast_SettingsVersion) ∧ x.(ast_rest) = y.(ast_rest).
Proof.
  rewrite !option_fmap_id. unfold view_settings. destruct x, y; simpl.
  split; [intros [=]; by split_and!|]. intros. destruct_and!. by f_equal.
Qed.

Lemma settings_late s o :
  plain_settings o →
  view_settings (settings_generated (settings_completed o s) o) = view_settings o ↔ settings_agrees s o.
Proof.
  intros [Hflags Hip]. rewrite view_settings_eq. unfold settings_agrees, agrees. simpl.
  autorewrite with late. rewrite norm_late_slice, norm_late_map, late_plain_string.
  rewrite (generate_late_ptr generate_backup late_backup zero_backup no_backup id backup_agrees backup_late) by done.
  rewrite (generate_late_ptr generate_location late_location zero_location no_location id location_agrees location_late) by done.
  rewrite (generate_late_ptr generate_window late_window zero_window no_window id window_agrees window_late) by done.
  rewrite <-(norm_generated_list generate_flag observe_flag) by by apply generate_observe_flags.
  assert (view_ip <$> generate_ptr ip_generated zero_ip (late_ptr ip_completed no_ip (st_IPConfiguration s)
      (ast_IpConfiguration o)) (ast_IpConfiguration o) = view_ip <$> ast_IpConfiguration o ↔
    agrees_ptr ip_agrees (st_IPConfiguration s) (ast_IpConfiguration o)) as ->.
  { destruct (ast_IpConfiguration o) as [c|]; [|by destruct (st_IPConfiguration s)]. simpl.
    split.
    - intros Heq%(inj Some). destruct (st_IPConfiguration s) as [x|]; [|done]. by apply ip_late in Heq.
    - intros Hx. f_equal. apply ip_late; [done|]. destruct (st_IPConfiguration s); [done|].
      split_and!; try done. by left. }
  destruct (st_StorageAutoResize s); intuition congruence.
Qed.

(** ** Lemmas: the whole instance *)

Definition encryption_agrees (s : DiskEncryptionConfiguration) (o : apiDiskEncryptionConfiguration) : Prop :=
  agrees_string s.(dec_KmsKeyName) o.(adec_KmsKeyName).
Definition failover_agrees (s : DatabaseInstanceFailoverReplicaSpec) (o : apiFailoverReplica) : Prop :=
  s.(frs_Name) = o.(afr_Name).
Definition onpremises_agrees (s : OnPremisesConfiguration) (o : apiOnPremisesConfiguration) : Prop :=
  s.(opc_HostPort) = o.(aopc_HostPort).

(** Every field the user set is the observed one. *)
Definition choices_match (name : string) (i : CloudSQLInstanceParameters) (o : DatabaseInstance) : Prop :=
  name = o.(db_Name) ∧ agrees_string i.(p_Region) o.(db_Region) ∧
  agrees i.(p_DatabaseVersion) o.(db_DatabaseVersion) ∧
  agrees i.(p_MasterInstanceName) o.(db_MasterInstanceName) ∧
  agrees_ptr encryption_agrees i.(p_DiskEncryptionConfiguration) o.(db_DiskEncryptionConfiguration) ∧
  agrees_ptr failover_agrees i.(p_FailoverReplica) o.(db_FailoverReplica) ∧
  agrees i.(p_GceZone) o.(db_GceZone) ∧ agrees i.(p_InstanceType) o.(db_InstanceType) ∧
  agrees i.(p_MaxDiskSize) o.(db_MaxDiskSize) ∧
  agrees_ptr onpremises_agrees i.(p_OnPremisesConfiguration) o.(db_OnPremisesConfiguration) ∧
  agrees_slice i.(p_ReplicaNames) o.(db_ReplicaNames) ∧
  agrees_slice i.(p_SuspensionReason) o.(db_SuspensionReason) ∧
  match o.(db_Settings) with None => False | Some s => settings_agrees i.(p_Settings) s end.

Definition plain_database (o : DatabaseInstance) : Prop :=
  match o.(db_Settings) with None => True | Some s => plain_settings s end.

Lemma view_database_generated name i o :
  view_database (generated name i o) = view_database o ↔
  StringValue i.(p_DatabaseVersion) = o.(db_DatabaseVersion) ∧ StringValue i.(p_GceZone) = o.(db_GceZone) ∧
  StringValue i.(p_InstanceType) = o.(db_InstanceType) ∧
  StringValue i.(p_MasterInstanceName) = o.(db_MasterInstanceName) ∧
  Int64Value i.(p_MaxDiskSize) = o.(db_MaxDiskSize) ∧ name = o.(db_Name) ∧ i.(p_Region) = o.(db_Region) ∧
  norm_slice i.(p_ReplicaNames) = norm_slice o.(db_ReplicaNames) ∧
  norm_slice i.(p_SuspensionReason) = norm_slice o.(db_SuspensionReason) ∧
  generate_ptr generate_encryption zero_encryption i.(p_DiskEncryptionConfiguration) o.(db_DiskEncryptionConfiguration)
    = o.(db_DiskEncryptionConfiguration) ∧
  generate_ptr generate_failover zero_failover i.(p_FailoverReplica) o.(db_FailoverReplica) = o.(db_FailoverReplica) ∧
  generate_ptr generate_onpremises zero_onpremises i.(p_OnPremisesConfiguration) o.(db_OnPremisesConfiguration)
    = o.(db_OnPremisesConfiguration) ∧
  match o.(db_Settings) with
  | None => False
  | Some s => view_settings (settings_generated i.(p_Settings) s) = view_settings s
  end.
Proof.
  unfold view_database, generated. destruct o as [? ? ? ? ? ? ? ? ? ? ? ? ? ? ? ? ? ? ? ? ? ? st ? ? ?]; simpl.
  destruct st as [s|]; cbn -[view_settings settings_generated]; [|split; [intros [=]|tauto]].
  generalize (view_settings (settings_generated (p_Settings i) s)), (view_settings s). intros vs1 vs2.
  split; [intros [=]; by split_and!|]. intros. destruct_and!. by f_equal; try apply (f_equal Some).
Qed.

Lemma encryption_late x y :
  generate_ptr generate_encryption zero_encryption (late_ptr late_encryption {| dec_KmsKeyName := "" |} x y) y = y ↔
  agrees_ptr encryption_agrees x y.
Proof.
  rewrite <-(generate_late_ptr generate_encryption late_encryption zero_encryption {| dec_KmsKeyName := "" |} id).
  - by rewrite !option_fmap_id.
  - intros [k] [ok r]. unfold encryption_agrees, generate_encryption; simpl. rewrite <-late_plain_string.
    split; [by intros [=]|]. intros Heq. by rewrite Heq.
  - by left.
Qed.
Lemma failover_late x y :
  generate_ptr generate_failover zero_failover
    (match y, x with Some f, None => Some {| frs_Name := f.(afr_Name) |} | _, _ => x end) y = y ↔
  agrees_ptr failover_agrees x y.
Proof.
  unfold failover_agrees, generate_failover. destruct x as [[n]|], y as [[a m r]|]; simpl; try done.
  split; [by intros [=]|by intros ->].
Qed.
Lemma onpremises_late x y :
  generate_ptr generate_onpremises zero_onpremises
    (match y, x with Some c, None => Some {| opc_HostPort := c.(aopc_HostPort) |} | _, _ => x end) y = y ↔
  agrees_ptr onpremises_agrees x y.
Proof.
  unfold onpremises_agrees, generate_onpremises. destruct x as [[n]|], y as [[m r]|]; simpl; try done.
  split; [by intros [=]|by intros ->].
Qed.

Lemma cloudsql_late_matches name i o :
  plain_database o →
  view_database (generated name (completed i o) o) = view_database o ↔ choices_match name i o.
Proof.
  intros Hplain. rewrite view_database_generated. unfold choices_match, agrees. simpl.
  autorewrite with late. rewrite !norm_late_slice, late_plain_string, encryption_late, failover_late, onpremises_late.
  unfold plain_database in Hplain. destruct (db_Settings o); [rewrite settings_late by done|]; tauto.
Qed.

Lemma cloudsql_IsUpToDate_spec `{Libs} `{!CopySucceeds} name i o :
  IsUpToDate name i o =
    if settings_nil i.(p_Settings) then Panics
    else Returns (bool_decide (same_view view_database (generated name i o) o), None).
Proof.
  unfold IsUpToDate. rewrite copy_succeeds, GenerateDatabaseInstance_spec. destruct (settings_nil _); [done|].
  by rewrite <-cmp_Equal_decides.
Qed.

(** ** Lemmas: what late initialization keeps *)

Definition keeps_backup (x y : BackupConfiguration) : Prop :=
  keeps x.(bc_BinaryLogEnabled) y.(bc_BinaryLogEnabled) ∧ keeps x.(bc_Enabled) y.(bc_Enabled) ∧
  keeps x.(bc_Location) y.(bc_Location) ∧
  keeps x.(bc_ReplicationLogArchivingEnabled) y.(bc_ReplicationLogArchivingEnabled) ∧
  keeps x.(bc_StartTime) y.(bc_StartTime).
Definition keeps_ip (x y : IPConfiguration) : Prop :=
  keeps_slice x.(ic_AuthorizedNetworks) y.(ic_AuthorizedNetworks) ∧ keeps x.(ic_Ipv4Enabled) y.(ic_Ipv4Enabled) ∧
  keeps x.(ic_PrivateNetwork) y.(ic_PrivateNetwork) ∧ y.(ic_PrivateNetworkRef) = x.(ic_PrivateNetworkRef) ∧
  y.(ic_PrivateNetworkSelector) = x.(ic_PrivateNetworkSelector) ∧ keeps x.(ic_RequireSsl) y.(ic_RequireSsl).
Definition keeps_location (x y : LocationPreference) : Prop :=
  keeps x.(lp_FollowGaeApplication) y.(lp_FollowGaeApplication) ∧ keeps x.(lp_Zone) y.(lp_Zone).
Definition keeps_window (x y : MaintenanceWindow) : Prop :=
  keeps x.(mw_Day) y.(mw_Day) ∧ keeps x.(mw_Hour) y.(mw_Hour) ∧ keeps x.(mw_UpdateTrack) y.(mw_UpdateTrack).
Definition keeps_settings (x y : Settings) : Prop :=
  keeps_string x.(st_Tier) y.(st_Tier) ∧ keeps x.(st_ActivationPolicy) y.(st_ActivationPolicy) ∧
  keeps_slice x.(st_AuthorizedGaeApplications) y.(st_AuthorizedGaeApplications) ∧
  keeps x.(st_AvailabilityType) y.(st_AvailabilityType) ∧
  keeps x.(st_CrashSafeReplicationEnabled) y.(st_CrashSafeReplicationEnabled) ∧
  keeps x.(st_StorageAutoResize) y.(st_StorageAutoResize) ∧ keeps x.(st_DataDiskType) y.(st_DataDiskType) ∧
  keeps x.(st_PricingPlan) y.(st_PricingPlan) ∧ keeps x.(st_ReplicationType) y.(st_ReplicationType) ∧
  keeps_map x.(st_UserLabels) y.(st_UserLabels) ∧ keeps_slice x.(st_DatabaseFlags) y.(st_DatabaseFlags) ∧
  keeps_ptr keeps_backup x.(st_BackupConfiguration) y.(st_BackupConfiguration) ∧
  keeps_ptr keeps_ip x.(st_IPConfiguration) y.(st_IPConfiguration) ∧
  keeps_ptr keeps_location x.(st_LocationPreference) y.(st_LocationPreference) ∧
  keeps_ptr keeps_window x.(st_MaintenanceWindow) y.(st_MaintenanceWindow) ∧
  keeps x.(st_DataDiskSizeGb) y.(st_DataDiskSizeGb) ∧
  keeps x.(st_DatabaseReplicationEnabled) y.(st_DatabaseReplicationEnabled) ∧
  keeps x.(st_StorageAutoResizeLimit) y.(st_StorageAutoResizeLimit).
Definition keeps_spec (x y : CloudSQLInstanceParameters) : Prop :=
  keeps_string x.(p_Region) y.(p_Region) ∧ keeps_settings x.(p_Settings) y.(p_Settings) ∧
  keeps x.(p_DatabaseVersion) y.(p_DatabaseVersion) ∧ keeps x.(p_MasterInstanceName) y.(p_MasterInstanceName) ∧
  keeps_ptr (λ a b, keeps_string a.(dec_KmsKeyName) b.(dec_KmsKeyName))
    x.(p_DiskEncryptionConfiguration) y.(p_DiskEncryptionConfiguration) ∧
  keeps x.(p_FailoverReplica) y.(p_FailoverReplica) ∧ keeps x.(p_GceZone) y.(p_GceZone) ∧
  keeps x.(p_InstanceType) y.(p_InstanceType) ∧ keeps x.(p_MaxDiskSize) y.(p_MaxDiskSize) ∧
  keeps x.(p_OnPremisesConfiguration) y.(p_OnPremisesConfiguration) ∧
  keeps_slice x.(p_ReplicaNames) y.(p_ReplicaNames) ∧ keeps_slice x.(p_SuspensionReason) y.(p_SuspensionReason).

Lemma keeps_late_plain s from : keeps_string s (if bool_decide (s = "") then from else s).
Proof. intros Hne. by rewrite bool_decide_eq_false_2. Qed.
#[local] Hint Resolve keeps_late_plain : late.

Lemma keeps_late_backup b s : keeps_backup s (late_backup b s).
Proof. split_and!; simpl; auto with late. Qed.
Lemma keeps_late_ip c s : keeps_ip s (ip_completed c s).
Proof. split_and!; simpl; auto with late. Qed.
Lemma keeps_late_location l s : keeps_location s (late_location l s).
Proof. split_and!; simpl; auto with late. Qed.
Lemma keeps_late_window w s : keeps_window s (late_window w s).
Proof. split_and!; simpl; auto with late. Qed.

Lemma keeps_settings_refl s : keeps_settings s s.
Proof.
  split_and!; try done; unfold keeps_ptr.
  - destruct (st_BackupConfiguration s); [|done]. eexists; split; [done|]. by split_and!.
  - destruct (st_IPConfiguration s); [|done]. eexists; split; [done|]. by split_and!.
  - destruct (st_LocationPreference s); [|done]. eexists; split; [done|]. by split_and!.
  - destruct (st_MaintenanceWindow s); [|done]. eexists; split; [done|]. by split_and!.
Qed.

Lemma keeps_late_settings o s : keeps_settings s (settings_completed o s).
Proof.
  split_and!; simpl; auto with late.
  - by destruct (st_StorageAutoResize s); intros ?.
  - apply keeps_late_ptr; [apply keeps_late_backup|by intros ?; split_and!].
  - apply keeps_late_ptr; [apply keeps_late_ip|by intros ?; split_and!].
  - apply keeps_late_ptr; [apply keeps_late_location|by intros ?; split_and!].
  - apply keeps_late_ptr; [apply keeps_late_window|by intros ?; split_and!].
Qed.

Lemma completed_keeps i o : keeps_spec i (completed i o).
Proof.
  split_and!; simpl; auto with late.
  - destruct (db_Settings o); [apply keeps_late_settings|apply keeps_settings_refl].
  - apply keeps_late_ptr; [|by intros ? ?]. intros b a. apply keeps_late_plain.
  - by destruct (p_FailoverReplica i), (db_FailoverReplica o); intros ?.
  - by destruct (p_OnPremisesConfiguration i), (db_OnPremisesConfiguration o); intros ?.
Qed.

Lemma cloudsql_LateInitializeSpec_keeps i o i' : LateInitializeSpec i o = Returns i' → keeps_spec i i'.
Proof. intros ->%LateInitializeSpec_inv. apply completed_keeps. Qed.

(** The observation panics without settings and with a nil address; its
    addresses are not nil. *)
Lemma GenerateObservation_panics i :
  GenerateObservation i = Panics ↔ i.(db_Settings) = None ∨ None ∈ elems i.(db_IpAddresses).
Proof.
  unfold GenerateObservation. rewrite generate_derefs_spec, <-has_nil_true.
  destruct (db_Settings i); simpl; [|naive_solver]. destruct (existsb _ _); simpl; naive_solver.
Qed.
Lemma GenerateObservation_addresses i o : GenerateObservation i = Returns o → no_nil o.(o_IPAddresses).
Proof.
  unfold GenerateObservation. rewrite generate_derefs_spec. destruct (db_Settings i); simpl; [|done].
  destruct (existsb _ _) eqn:Hnil; simpl; [done|]. intros [= <-]. simpl. apply no_nil_generate; [|constructor].
  by apply has_nil_false.
Qed.

(** ** Lemmas: late initialization is idempotent *)

Lemma late_plain_idem s from :
  (if bool_decide ((if bool_decide (s = "") then from else s) = "") then from
   else if bool_decide (s = "") then from else s) = if bool_decide (s = "") then from else s.
Proof. repeat case_bool_decide; congruence. Qed.
Lemma settings_completed_idem o s : settings_completed o (settings_completed o s) = settings_completed o s.
Proof.
  unfold settings_completed at 1, late_fill_settings. simpl. autorewrite with late. rewrite late_plain_idem, late_list_idem, !late_ptr_idem.
  - unfold settings_completed, late_fill_settings. f_equal. by destruct (st_StorageAutoResize s), (ast_StorageAutoResize o).
  - intros b a. unfold late_window. simpl. by autorewrite with late.
  - intros b a. unfold late_location. simpl. by autorewrite with late.
  - intros b a. unfold ip_completed, late_fill_ip. simpl. autorewrite with late. by rewrite late_list_idem.
  - intros b a. unfold late_backup. simpl. by autorewrite with late.
Qed.

Lemma completed_idem i o : completed (completed i o) o = completed i o.
Proof.
  unfold completed at 1, late_fill_spec. simpl. autorewrite with late. rewrite late_plain_idem, late_ptr_idem.
  - unfold completed, late_fill_spec. f_equal.
    + destruct (db_Settings o); [apply settings_completed_idem|done].
    + by destruct (db_FailoverReplica o), (p_FailoverReplica i).
    + by destruct (db_OnPremisesConfiguration o), (p_OnPremisesConfiguration i).
  - intros b a. unfold late_encryption. simpl. by rewrite late_plain_idem.
Qed.
#[local] Hint Resolve cloudsql_LateInitializeSpec_keeps completed_keeps : handlers.

(** ** Lemmas: generating twice *)

Lemma generate_elems_idem {A B} (f : A → B) x y : generate_elems f x (generate_elems f x y) = generate_elems f x y.
Proof. unfold generate_elems. by destruct (slice_empty x). Qed.
Lemma ip_generated_idem i c : ip_generated i (ip_generated i c) = ip_generated i c.
Proof. unfold ip_generated at 1. simpl. by rewrite generate_elems_idem. Qed.
Lemma settings_generated_idem i s : settings_generated i (settings_generated i s) = settings_generated i s.
Proof.
  unfold settings_generated at 1, fill_settings. simpl.
  rewrite generate_elems_idem, !generate_ptr_idem; [done|done|done|apply ip_generated_idem|done].
Qed.
Lemma generated_idem name i db : generated name i (generated name i db) = generated name i db.
Proof. unfold generated at 1, fill_database. simpl. by rewrite !generate_ptr_idem, settings_generated_idem. Qed.

(** ** Lemmas: connection details *)

Definition addresses_of (type : string) (ips : list IPMapping) : list string :=
  im_IPAddress <$> filter (λ ip, ip.(im_Type) = type) ips.

(** The last private address, the first public one when there is none. *)
Definition endpoint_of (ips : list IPMapping) : option string :=
  match last (addresses_of PrivateIPType ips) with
  | Some a => Some a
  | None => head (addresses_of PublicIPType ips)
  end.

Definition address_keys : list string := [ResourceCredentialsSecretEndpointKey; PrivateIPKey; PublicIPKey].

Lemma addresses_snoc type ips ip :
  addresses_of type (ips ++ [ip]) =
  addresses_of type ips ++ (if bool_decide (ip.(im_Type) = type) then [ip.(im_IPAddress)] else []).
Proof.
  unfold addresses_of. rewrite filter_app, fmap_app. f_equal. rewrite filter_cons, filter_nil.
  case_decide; case_bool_decide; done.
Qed.
Lemma addresses_nonempty type ips :
  Forall (λ ip, ip.(im_IPAddress) ≠ "") ips → Forall (λ a, a ≠ "") (addresses_of type ips).
Proof.
  intros Hips. unfold addresses_of. apply Forall_fmap, Forall_forall.
  intros ip [_ Hip]%list_elem_of_filter. by eapply Forall_forall in Hip.
Qed.
Lemma endpoint_nonempty ips a :
  Forall (λ ip, ip.(im_IPAddress) ≠ "") ips → endpoint_of ips = Some a → a ≠ "".
Proof.
  intros Hips. unfold endpoint_of. destruct (last _) eqn:Hlast.
  - intros [= ->]. apply last_Some_elem_of in Hlast. by eapply Forall_forall in Hlast; [|by apply addresses_nonempty].
  - intros Hhead. apply (addresses_nonempty PublicIPType) in Hips.
    destruct (addresses_of PublicIPType ips); simplify_eq/=. by inversion Hips.
Qed.

(** One turn of the loop, key by key. *)
Lemma add_address_lookup m ip k :
  add_address m ip !! k =
  let new := Some ip.(im_IPAddress) in
  let private := bool_decide (ip.(im_Type) = PrivateIPType) in
  let public := bool_decide (ip.(im_Type) = PublicIPType) in
  if bool_decide (k = PrivateIPKey) then if private then new else m !! k
  else if bool_decide (k = PublicIPKey) then if public then new else m !! k
  else if bool_decide (k = ResourceCredentialsSecretEndpointKey) then
    if private || public && bool_decide (default "" (m !! k) = "") then new else m !! k
  else m !! k.
Proof.
  unfold add_address. destruct (bool_decide_reflect (im_Type ip = PrivateIPType)) as [Ht|Ht].
  - rewrite Ht, (bool_decide_eq_false_2 (PrivateIPType = PublicIPType)) by done. simpl.
    repeat case_bool_decide; simplify_map_eq; done.
  - destruct (bool_decide (im_Type ip = PublicIPType)); simpl; [|by repeat case_bool_decide].
    rewrite (lookup_insert_ne _ PublicIPKey ResourceCredentialsSecretEndpointKey) by done.
    repeat case_bool_decide; simplify_map_eq; done.
Qed.

Lemma add_addresses base ips :
  base !! ResourceCredentialsSecretEndpointKey = None → base !! PrivateIPKey = None → base !! PublicIPKey = None →
  Forall (λ ip, ip.(im_IPAddress) ≠ "") ips →
  let m := fold_left add_address ips base in
  m !! ResourceCredentialsSecretEndpointKey = endpoint_of ips ∧
  m !! PrivateIPKey = last (addresses_of PrivateIPType ips) ∧
  m !! PublicIPKey = last (addresses_of PublicIPType ips) ∧
  ∀ k, k ∉ address_keys → m !! k = base !! k.
Proof.
  intros He Hp Hq. induction ips as [|ip ips IH] using rev_ind; [done|].
  intros [Hips [Hip _]%Forall_cons]%Forall_app. specialize (IH Hips). simpl in *.
  destruct IH as (IHe & IHp & IHq & IHk). rewrite fold_left_app. simpl.
  split_and!; [| | |intros k Hk]; rewrite add_address_lookup; cbn -[bool_decide].
  - rewrite !bool_decide_eq_false_2, bool_decide_eq_true_2, IHe by done.
    unfold endpoint_of. rewrite !addresses_snoc.
    destruct (bool_decide_reflect (im_Type ip = PrivateIPType)) as [Ht|Ht]; [by rewrite last_snoc|].
    rewrite app_nil_r. fold (endpoint_of ips). simpl.
    destruct (bool_decide (im_Type ip = PublicIPType)); simpl; [|by rewrite app_nil_r].
    destruct (endpoint_of ips) as [a|] eqn:Ha; cbn [from_option].
    + rewrite bool_decide_eq_false_2 by by eapply endpoint_nonempty.
      unfold endpoint_of in *. destruct (last _); [done|]. by rewrite head_app, Ha.
    + rewrite bool_decide_eq_true_2 by done. unfold endpoint_of in Ha.
      destruct (last _); [done|]. by rewrite head_app, Ha.
  - rewrite bool_decide_eq_true_2, addresses_snoc, IHp by done.
    case_bool_decide; [by rewrite last_snoc|by rewrite app_nil_r].
  - rewrite bool_decide_eq_false_2, bool_decide_eq_true_2, addresses_snoc, IHq by done.
    case_bool_decide; [by rewrite last_snoc|by rewrite app_nil_r].
  - unfold address_keys in Hk. rewrite !bool_decide_eq_false_2 by set_solver. by apply IHk.
Qed.

(** ** Lemmas: the labels of the tagger *)

(** A byte of a tag value as the tagger writes it. *)
Definition label_byte (c : ascii) : ascii := if bool_decide (c = "."%char) then "_"%char else lower_ascii c.

Lemma tag_value_bytes v :
  list_ascii_of_string (ToLower (ReplaceAll v "." "_")) = label_byte <$> list_ascii_of_string v.
Proof.
  unfold ReplaceAll. rewrite list_ascii_of_lower, replace_byte by done. rewrite <-list_fmap_compose.
  apply list_fmap_ext. intros ? c _. unfold label_byte; simpl. by case_bool_decide.
Qed.
Lemma label_byte_ok c : label_byte c ≠ "."%char ∧ lower_ascii (label_byte c) = label_byte c.
Proof. destruct c as [[] [] [] [] [] [] [] []]; vm_compute; split; congruence. Qed.

(** ** Properties *)

(** Late initialization of a Cloud SQL instance, with its nested settings,
    changes no field the user set, and is idempotent; it returns when the
    observed instance has no nil flag or authorized network. *)
Theorem cloudsql_late_init_keeps i o :
  (∀ i', LateInitializeSpec i o = Returns i' → keeps_spec i i') ∧
  (database_no_nil o → ∃ i', LateInitializeSpec i o = Returns i' ∧ LateInitializeSpec i' o = Returns i').
Proof.
  split; [apply cloudsql_LateInitializeSpec_keeps|]. intros Ho. exists (completed i o).
  rewrite !LateInitializeSpec_returns by done. by rewrite completed_idem.
Qed.

(** C6: where neither the spec nor the observed instance has a nil flag or
    authorized network, late initialization returns, and for the spec it gives a
    Cloud SQL instance whose access lists and flags hold nothing the spec cannot
    say is up to date exactly when every field the user set, nested ones
    included, is the observed one; and generating a spec over any instance gives
    one that is up to date with it. *)
Theorem cloudsql_up_to_date_iff `{Libs} `{!CopySucceeds} name i o :
  settings_no_nil i.(p_Settings) → database_no_nil o →
  (∃ i' b, LateInitializeSpec i o = Returns i' ∧ IsUpToDate name i' o = Returns (b, None) ∧
           (plain_database o → b = true ↔ choices_match name i o)) ∧
  (∃ g, GenerateDatabaseInstance name i o = Returns g ∧ IsUpToDate name i g = Returns (true, None)).
Proof.
  intros Hi Ho. split.
  - do 2 eexists. split; [by apply LateInitializeSpec_returns|].
    rewrite cloudsql_IsUpToDate_spec, (proj2 (settings_nil_false _)) by by apply completed_no_nil.
    split; [done|]. intros Hplain. rewrite bool_decide_eq_true. by apply cloudsql_late_matches.
  - eexists. split; [by apply GenerateDatabaseInstance_returns|].
    rewrite cloudsql_IsUpToDate_spec, (proj2 (settings_nil_false _)), generated_idem by done.
    by rewrite bool_decide_eq_true_2.
Qed.

Definition example_settings : Settings := {|
  st_Tier := "db-n1-standard-1"; st_ActivationPolicy := None; st_AuthorizedGaeApplications := None;
  st_AvailabilityType := None; st_CrashSafeReplicationEnabled := None; st_StorageAutoResize := None;
  st_DataDiskType := Some "PD_SSD"; st_PricingPlan := None; st_ReplicationType := None; st_UserLabels := None;
  st_DatabaseFlags := None; st_BackupConfiguration := None;
  st_IPConfiguration := Some {| no_ip with ic_Ipv4Enabled := Some true |}; st_LocationPreference := None;
  st_MaintenanceWindow := None; st_DataDiskSizeGb := Some 10%Z; st_DatabaseReplicationEnabled := None;
  st_StorageAutoResizeLimit := None |}.
Definition example_sql_parameters : CloudSQLInstanceParameters := {|
  p_Region := "us-east1"; p_Settings := example_settings; p_DatabaseVersion := Some "POSTGRES_9_6";
  p_MasterInstanceName := None; p_DiskEncryptionConfiguration := None; p_FailoverReplica := None;
  p_GceZone := None; p_InstanceType := None; p_MaxDiskSize := None; p_OnPremisesConfiguration := None;
  p_ReplicaNames := None; p_SuspensionReason := None |}.
Definition example_database : DatabaseInstance :=
  {| (generated "db" example_sql_parameters zero_database) with
     db_State := StateRunnable; db_ConnectionName := "p:us-east1:db" |}.
Definition example_sql_observation : CloudSQLInstanceObservation := {|
  o_BackendType := ""; o_CurrentDiskSize := 0; o_ConnectionName := "p:us-east1:db"; o_DiskEncryptionStatus := None;
  o_FailoverReplica := None; o_GceZone := "";
  o_IPAddresses := Some [
    Some {| im_IPAddress := "35.0.0.1"; im_TimeToRetire := ""; im_Type := PublicIPType |};
    Some {| im_IPAddress := "10.0.0.1"; im_TimeToRetire := ""; im_Type := PrivateIPType |}];
  o_IPv6Address := ""; o_Project := "p"; o_SelfLink := ""; o_ServiceAccountEmailAddress := "";
  o_State := StateRunnable; o_SettingsVersion := 0 |}.

Lemma example_no_nil : settings_no_nil example_settings ∧ database_no_nil example_database.
Proof.
  split; [split; [constructor|by intros c [= <-]; constructor]|].
  intros st [= <-]. split; [constructor|]. intros c [= <-]. constructor.
Qed.

Lemma cloudsql_up_to_date_iff_witness :
  plain_database example_database ∧
  (∃ i' b, LateInitializeSpec example_sql_parameters example_database = Returns i' ∧
           @IsUpToDate reference_libs "db" i' example_database = Returns (b, None) ∧
           (b = true ↔ choices_match "db" example_sql_parameters example_database)).
Proof.
  assert (plain_database example_database) as Hplain by (by repeat constructor).
  split; [done|].
  destruct (@cloudsql_up_to_date_iff reference_libs reference_copy "db" example_sql_parameters example_database)
    as [(i' & b & Hi & Hb & Hiff) _]; [apply example_no_nil..|].
  exists i', b. split; [done|]. split; [done|]. by apply Hiff.
Defined.

(** The loop of getConnectionDetails over addresses none of which is nil. *)
Lemma getConnectionDetails_returns cr instance ips :
  elems cr.(AtProvider).(o_IPAddresses) = Some <$> ips →
  getConnectionDetails cr instance = Returns (entries (GetServerCACertificate instance) ∪
    fold_left add_address ips (<[ResourceCredentialsSecretUserKey := DatabaseUserName cr.(ForProvider)]>
      (<[CloudSQLSecretConnectionName := instance.(db_ConnectionName)]> ∅))).
Proof.
  intros Hips. unfold getConnectionDetails. rewrite Hips. generalize (<[ResourceCredentialsSecretUserKey :=
    DatabaseUserName cr.(ForProvider)]> (<[CloudSQLSecretConnectionName := instance.(db_ConnectionName)]> (∅ : gmap string string))).
  clear Hips. induction ips as [|ip ips IH]; intros m; [done|]. apply IH.
Qed.

(** C16: The connection secret of a Cloud SQL instance whose addresses are not nil
    and not empty strings: the endpoint is the last private address, and the first
    public one when there is no private address; the private and public
    addresses, the user of the database engine and the connection name are there,
    and no password, so that an observation never replaces the one Create
    published. *)
Theorem cloudsql_connection_details cr instance ips :
  elems cr.(AtProvider).(o_IPAddresses) = Some <$> ips → Forall (λ ip, ip.(im_IPAddress) ≠ "") ips →
  ∃ m, getConnectionDetails cr instance = Returns m ∧
  m !! ResourceCredentialsSecretEndpointKey = endpoint_of ips ∧
  m !! PrivateIPKey = last (addresses_of PrivateIPType ips) ∧
  m !! PublicIPKey = last (addresses_of PublicIPType ips) ∧
  m !! ResourceCredentialsSecretUserKey =
    Some (if HasPrefix (StringValue cr.(ForProvider).(p_DatabaseVersion)) "POSTGRES" then "postgres" else "root") ∧
  m !! CloudSQLSecretConnectionName = Some instance.(db_ConnectionName) ∧
  m !! ResourceCredentialsSecretPasswordKey = None.
Proof.
  intros Hcr Hips. eexists. split; [by apply getConnectionDetails_returns|].
  edestruct (add_addresses (<[ResourceCredentialsSecretUserKey:=DatabaseUserName (ForProvider cr)]>
    (<[CloudSQLSecretConnectionName:=db_ConnectionName instance]> ∅)))
    as (He & Hp & Hq & Hk); [..|exact Hips|]; try reflexivity.
  assert (∀ k (m : gmap string string), k ∈ address_keys ++ [ResourceCredentialsSecretUserKey;
      CloudSQLSecretConnectionName; ResourceCredentialsSecretPasswordKey] →
    (entries (GetServerCACertificate instance) ∪ m) !! k = m !! k) as Hcert.
  { intros k m Hin. apply lookup_union_r. unfold GetServerCACertificate, entries.
    destruct (db_ServerCaCert instance); [|done]. cbn -[insert lookup] in *.
    repeat (apply elem_of_cons in Hin as [->|Hin]; [by rewrite !lookup_insert_ne, lookup_empty|]).
    by apply elem_of_nil in Hin. }
  split_and!; rewrite Hcert by set_solver; [done..| | |]; rewrite Hk by set_solver; by simplify_map_eq.
Qed.

Lemma cloudsql_connection_details_witness :
  ∃ m, getConnectionDetails (fresh "db" example_sql_parameters example_sql_observation) example_database = Returns m ∧
    m !! ResourceCredentialsSecretEndpointKey = Some "10.0.0.1".
Proof.
  destruct (cloudsql_connection_details (fresh "db" example_sql_parameters example_sql_observation) example_database
    (omap id (elems (o_IPAddresses example_sql_observation)))) as (m & Hm & He & _); [done|by repeat constructor|].
  by exists m.
Defined.

(** The sqladmin service during Create: it answers as it likes and remembers the
    instance it inserted. *)
Definition insert_service (pw : string + error) (answer : DatabaseInstance → option error)
    (X : Type) (e : CloudSQLE X) (w : ptr DatabaseInstance) : X * ptr DatabaseInstance :=
  match e in CloudSQLE X return X * ptr DatabaseInstance with
  | InstancesGet _ _ => (inr (OtherError "not served"), w)
  | InstancesInsert _ db => (answer db, match answer db with None => Some db | Some _ => w end)
  | InstancesPatch _ _ _ => (Some (OtherError "not served"), w)
  | InstancesDelete _ _ => (Some (OtherError "not served"), w)
  | GeneratePassword => (pw, w)
  | KubeUpdate cr => (inl cr, w)
  end.

(** C28: for a spec without a nil flag or authorized network Create returns for
    every answer of the password generator and of the service, publishes a
    password exactly when an instance was inserted, and then the one that
    instance was inserted with; the inserted instance is otherwise the generated
    one, and the error is nil exactly when it was inserted. With a nil one it
    panics before any call, and publishes and inserts nothing. *)
Theorem cloudsql_create_publishes_password `{Libs} projectID cr pw answer :
  (settings_no_nil cr.(ForProvider).(p_Settings) →
   ∃ c err cr' w,
    run (insert_service pw answer) (Create projectID (Some cr)) None = Returns ((c, err, Some cr'), w) ∧
    ready cr'.(Conditions) = Some Creating ∧ cr'.(ForProvider) = cr.(ForProvider) ∧
    (err = None ↔ w ≠ None) ∧
    entries c.(CreationDetails) !! ResourceCredentialsSecretPasswordKey = db_RootPassword <$> w ∧
    (∀ db, w = Some db → inl db.(db_RootPassword) = pw ∧
       GenerateDatabaseInstance cr.(ExternalName) cr.(ForProvider) zero_database =
         Returns {| db with db_RootPassword := "" |})) ∧
  (¬ settings_no_nil cr.(ForProvider).(p_Settings) → Create projectID (Some cr) = Crash).
Proof.
  assert (ready (set_condition Creating cr).(Conditions) = Some Creating) as Hready by by apply set_condition_ready.
  unfold Create. simpl. split; intros Hnil.
  - rewrite GenerateDatabaseInstance_returns by done. destruct pw as [pw|e]; cbn -[generated set_condition].
    + destruct (answer _) as [e|] eqn:Ha; cbn -[generated set_condition].
      * destruct (IsErrorAlreadyExists (Some e)); cbn -[generated set_condition]; do 4 eexists;
          (split; [reflexivity|]); rewrite errors_Wrap_some; split_and!; try done.
      * do 4 eexists. split; [reflexivity|]. split_and!; try done. by intros db [= <-].
    + do 4 eexists. split; [reflexivity|]. rewrite errors_Wrap_some. split_and!; done.
  - rewrite GenerateDatabaseInstance_spec. rewrite <-settings_nil_false in Hnil.
    by destruct (settings_nil _).
Qed.

(** What the tagger writes back: the same resource with other labels. *)
Definition tags_call (tags : gmap string string) (cr : CloudSQLInstance) (X : Type) (e : CloudSQLE X) : Prop :=
  match e with
  | KubeUpdate cr' =>
    let labels := entries cr'.(ForProvider).(p_Settings).(st_UserLabels) in
    cr' = {| cr with ForProvider := {| cr.(ForProvider) with p_Settings :=
            {| cr.(ForProvider).(p_Settings) with st_UserLabels := Some labels |} |} |} ∧
    (∀ k v, tags !! k = Some v → ∃ v', labels !! k = Some v' ∧
       list_ascii_of_string v' = label_byte <$> list_ascii_of_string v ∧
       Forall (λ c, c ≠ "."%char ∧ lower_ascii c = c) (list_ascii_of_string v')) ∧
    (∀ k, tags !! k = None → labels !! k = entries cr.(ForProvider).(p_Settings).(st_UserLabels) !! k) ∧
    tag_labels tags (Some labels) = labels
  | _ => False
  end.

Definition cloudsql_fails (X : Type) (e : CloudSQLE X) : X → bool :=
  match e with
  | InstancesGet _ _ => read_fails IsErrorNotFound
  | InstancesInsert _ _ | InstancesPatch _ _ _ => write_fails no_excuse
  | InstancesDelete _ _ => write_fails IsErrorNotFound
  | GeneratePassword => read_fails no_excuse
  | KubeUpdate _ => read_fails no_excuse
  end.

(** The tagger writes the resource with the external tags among its labels:
    each tag value with every dot an underscore and in lower case, every other
    label and every other field as it was; tagging twice changes nothing, and the
    error is the one of the update. *)
Theorem cloudsql_tagger `{Libs} tags cr :
  calls_only (tags_call (tags cr) cr) (Initialize tags (Some cr)) ∧
  errors_iff cloudsql_fails (Initialize tags (Some cr)).
Proof.
  split; [|unfold errors_iff, errors_given; simpl; walk]. split; [|by intros [?|?]]. simpl. split_and!.
  - done.
  - intros k v Hk. eexists. unfold tag_labels.
    rewrite (lookup_union_Some_l _ _ k (ToLower (ReplaceAll v "." "_"))) by by rewrite lookup_fmap, Hk.
    split; [done|]. rewrite tag_value_bytes. split; [done|].
    apply Forall_fmap, Forall_forall. intros c _. apply label_byte_ok.
  - intros k Hk. unfold tag_labels. by rewrite lookup_union_r by by rewrite lookup_fmap, Hk.
  - unfold tag_labels. simpl. by rewrite map_union_assoc, map_union_idemp.
Qed.

(** An instance the service returns has settings, and no nil address, flag or
    authorized network; a resource the API server returns has none of the latter. *)
Definition cloudsql_answers (X : Type) (e : CloudSQLE X) : X → Prop :=
  match e with
  | InstancesGet _ _ => λ r,
    match r with
    | inl db => db.(db_Settings) ≠ None ∧ database_no_nil db ∧ no_nil db.(db_IpAddresses)
    | inr _ => True
    end
  | KubeUpdate _ => λ r, match r with inl cr => settings_no_nil cr.(ForProvider).(p_Settings) | inr _ => True end
  | _ => λ _, True
  end.

Definition cloudsql_observe_calls (projectID : string) (cr : CloudSQLInstance) (X : Type) (e : CloudSQLE X) : Prop :=
  match e with
  | InstancesGet p n => p = projectID ∧ n = cr.(ExternalName)
  | KubeUpdate cr' => late_update keeps_spec cr cr'
  | _ => False
  end.
Definition cloudsql_update_calls (projectID : string) (cr : CloudSQLInstance) (X : Type) (e : CloudSQLE X) : Prop :=
  match e with
  | InstancesPatch p n db =>
    cr.(AtProvider).(o_State) ≠ StateCreating ∧ p = projectID ∧ n = cr.(ExternalName) ∧
    GenerateDatabaseInstance n cr.(ForProvider) zero_database = Returns db
  | _ => False
  end.

(** The condition an instance in a state gets; no other state sets one. *)
Definition sql_condition (state : string) : option condition :=
  if bool_decide (state = StateRunnable) then Some Available
  else if bool_decide (state = StateCreating) then Some Creating
  else if bool_decide (state ∈ [StateCreationFailed; StateSuspended; StateMaintenance; StateUnknownState])
  then Some Unavailable else None.

Lemma sql_state_condition `{Libs} (cr : CloudSQLInstance) c :
  sql_condition cr.(AtProvider).(o_State) = Some c →
  ready (state_condition cr).(Conditions) = Some c ∧ (state_condition cr).(AtProvider) = cr.(AtProvider).
Proof.
  unfold sql_condition, state_condition. repeat case_bool_decide; intros [= <-]; split; try done;
    by apply set_condition_ready.
Qed.

(** What Observe returns once it has read an instance and updated the resource. *)
Lemma observe_returns `{Libs} `{!CopySucceeds} (cr : CloudSQLInstance) db :
  db.(db_Settings) ≠ None → no_nil db.(db_IpAddresses) → settings_no_nil cr.(ForProvider).(p_Settings) →
  ∃ ob b m, GenerateObservation db = Returns ob ∧
    let cr := state_condition {| cr with AtProvider := ob |} in
    IsUpToDate cr.(ExternalName) cr.(ForProvider) db = Returns (b, None) ∧ getConnectionDetails cr db = Returns m ∧
    ∀ c, sql_condition cr.(AtProvider).(o_State) = Some c → ready cr.(Conditions) = Some c.
Proof.
  intros Hst Hips Hcr. destruct (GenerateObservation db) as [ob|] eqn:Hob.
  2:{ apply GenerateObservation_panics in Hob as [?|Hin]; [done|]. unfold no_nil in Hips.
      rewrite Forall_forall in Hips. by destruct (Hips None Hin). }
  set (cr' := state_condition {| cr with AtProvider := ob |}).
  assert (cr'.(AtProvider) = ob ∧ cr'.(ForProvider) = cr.(ForProvider)) as [Ha Hf]
    by (unfold cr', state_condition; by repeat case_bool_decide).
  destruct (proj1 (no_nil_values _) (GenerateObservation_addresses _ _ Hob)) as [ips Hvals].
  do 3 eexists. split; [done|]. simpl. fold cr'. split.
  { by rewrite cloudsql_IsUpToDate_spec, Hf, (proj2 (settings_nil_false _)) by done. }
  split; [apply (getConnectionDetails_returns _ _ ips); by rewrite Ha|].
  intros c Hc. rewrite Ha in Hc. by apply (sql_state_condition {| cr with AtProvider := ob |}).
Qed.

(** Walks Observe: where the answers are given, and where they are not and only
    the calls matter. *)
Ltac walk_given :=
  let Hst := fresh in let Ho := fresh in let Hips := fresh in let Hcr' := fresh in
  let rest x := (destruct (observe_returns x _ Hst Hips) as (ob & b & m & Hob & Hup & Hm & Hc);
    [by try apply completed_no_nil|];
    rewrite Hob; simpl in *; rewrite Hup; simpl; rewrite Hm; simpl) in
  intros [db|err]; [intros (Hst & Ho & Hips); simpl; rewrite LateInitializeSpec_returns by done; simpl;
    destruct (negb _); simpl;
    [intros [cr'|err] Hcr'; [rest cr'|]
    |match goal with cr : Managed _ _ |- _ => rest {| cr with ForProvider := completed cr.(ForProvider) db |} end]
  |intros _]; simpl.
Ltac walk_calls :=
  intros [db|err]; simpl; [|by walk];
  destruct (LateInitializeSpec _ db) as [i|] eqn:Hi; simpl; [|done];
  destruct (negb _) eqn:Hne; simpl; [split_and?; [eauto with handlers..|]; try intros [cr'|err]; simpl; try done|];
  (destruct (GenerateObservation db); simpl; [|done];
   destruct (IsUpToDate _ _ db) as [[? []]|]; simpl; [done| |done]; by destruct (getConnectionDetails _ db)).

(** C27: for a spec without nil flags and authorized networks, and answers that
    have settings and no nil among their addresses, flags and authorized
    networks, the handlers of the CloudSQLInstance controller never panic and
    return an error exactly when one of their calls failed, where NotFound is no
    failure of Get and Delete. Observe reads the instance, writes nothing but a
    spec that keeps what the user set, stops at the first failure and, with an
    error or for a missing instance, reports nothing; when it reports an instance
    the resource carries the condition of its state. Update patches the generated
    instance, and makes no call while the instance is being created. *)
Theorem cloudsql_controller_errors `{Libs} `{!CopySucceeds} projectID cr :
  settings_no_nil cr.(ForProvider).(p_Settings) →
  errors_given cloudsql_answers cloudsql_fails (Observe projectID (Some cr)) ∧
  stops_on_failure cloudsql_fails (Observe projectID (Some cr)) ∧
  calls_only (cloudsql_observe_calls projectID cr) (Observe projectID (Some cr)) ∧
  always_given cloudsql_answers (λ '(o, err, mg'),
    (err ≠ None ∨ o.(ResourceExists) = false → o = no_observation) ∧
    (o.(ResourceExists) = true → ∃ cr', mg' = Some cr' ∧
       ∀ c, sql_condition cr'.(AtProvider).(o_State) = Some c → ready cr'.(Conditions) = Some c))
    (Observe projectID (Some cr)) ∧
  errors_iff cloudsql_fails (Create projectID (Some cr)) ∧
  errors_iff cloudsql_fails (Update projectID (Some cr)) ∧
  calls_only (cloudsql_update_calls projectID cr) (Update projectID (Some cr)) ∧
  errors_iff cloudsql_fails (Delete projectID (Some cr)).
Proof.
  intros Hcr. unfold errors_iff, errors_given. split_and!; simpl.
  - walk_given; walk_done.
  - walk_calls.
  - split; [done|]. walk_calls.
  - walk_given; (split; [by intros [?|?]|]); [|done| |done]; intros _; eexists; (split; [done|]); exact Hc.
  - rewrite GenerateDatabaseInstance_returns by done. walk.
  - rewrite GenerateDatabaseInstance_returns by done. walk.
  - rewrite GenerateDatabaseInstance_returns by done. walk. by apply GenerateDatabaseInstance_returns.
  - walk.
Qed.

Lemma cloudsql_controller_errors_witness :
  errors_given cloudsql_answers cloudsql_fails
    (@Observe reference_libs "p" (Some (fresh "db" example_sql_parameters example_sql_observation))).
Proof. apply (@cloudsql_controller_errors reference_libs reference_copy), example_no_nil. Defined.

Lemma cloudsql_create_publishes_password_witness :
  ∃ c err cr' w,
    run (insert_service (inl "secret") (λ _, None))
      (@Create reference_libs "p" (Some (fresh "db" example_sql_parameters example_sql_observation))) None
      = Returns ((c, err, Some cr'), w) ∧
    entries c.(CreationDetails) !! ResourceCredentialsSecretPasswordKey = db_RootPassword <$> w.
Proof.
  destruct (proj1 (@cloudsql_create_publishes_password reference_libs "p"
    (fresh "db" example_sql_parameters example_sql_observation) (inl "secret") (λ _, None)) (proj1 example_no_nil))
    as (c & err & cr' & w & Hrun & _ & _ & _ & Hpw & _).
  by exists c, err, cr', w.
Defined.

Lemma cloudsql_tagger_witness :
  let tags (_ : CloudSQLInstance) : gmap string string := {["crossplane-kind" := "cloudsqlinstance.database.gcp"]} in
  errors_iff cloudsql_fails (@Initialize reference_libs tags
    (Some (fresh "db" example_sql_parameters example_sql_observation))).
Proof. intros tags. apply (@cloudsql_tagger reference_libs). Defined.
