(* ===== verification/ClusterTypes.v ===== *)
(** * The types of GKE clusters

    apis/container/v1beta2/cluster_types.go: the structs of the spec and of the
    status of a Cluster, field by field. *)

From S2P Require Import Prelude Libs.

Definition ClusterStateUnspecified : string := "STATUS_UNSPECIFIED".
Definition ClusterStateProvisioning : string := "PROVISIONING".
Definition ClusterStateRunning : string := "RUNNING".
Definition ClusterStateReconciling : string := "RECONCILING".
Definition ClusterStateStopping : string := "STOPPING".
Definition ClusterStateError : string := "ERROR".
Definition ClusterStateDegraded : string := "DEGRADED".

Record CloudRunConfig := { crc_Disabled : bool; crc_LoadBalancerType : ptr string }.
#[global] Instance CloudRunConfig_eq_dec : EqDecision CloudRunConfig.
Proof. solve_decision. Defined.
Record ConfigConnectorConfig := { connector_Enabled : bool }.
#[global] Instance ConfigConnectorConfig_eq_dec : EqDecision ConfigConnectorConfig.
Proof. solve_decision. Defined.
Record DNSCacheConfig := { dns_Enabled : bool }.
#[global] Instance DNSCacheConfig_eq_dec : EqDecision DNSCacheConfig.
Proof. solve_decision. Defined.
Record GCEPersistentDiskCSIDriverConfig := { csi_Enabled : bool }.
#[global] Instance GCEPersistentDiskCSIDriverConfig_eq_dec : EqDecision GCEPersistentDiskCSIDriverConfig.
Proof. solve_decision. Defined.
Record HorizontalPodAutoscaling := { hpa_Disabled : bool }.
#[global] Instance HorizontalPodAutoscaling_eq_dec : EqDecision HorizontalPodAutoscaling.
Proof. solve_decision. Defined.
Record HTTPLoadBalancing := { hlb_Disabled : bool }.
#[global] Instance HTTPLoadBalancing_eq_dec : EqDecision HTTPLoadBalancing.
Proof. solve_decision. Defined.
Record KubernetesDashboard := { kd_Disabled : bool }.
#[global] Instance KubernetesDashboard_eq_dec : EqDecision KubernetesDashboard.
Proof. solve_decision. Defined.
Record NetworkPolicyConfig := { npc_Disabled : bool }.
#[global] Instance NetworkPolicyConfig_eq_dec : EqDecision NetworkPolicyConfig.
Proof. solve_decision. Defined.
Record AddonsConfig := {
  ac_CloudRunConfig : ptr CloudRunConfig;
  ac_ConfigConnectorConfig : ptr ConfigConnectorConfig;
  ac_DNSCacheConfig : ptr DNSCacheConfig;
  ac_GCEPersistentDiskCSIDriverConfig : ptr GCEPersistentDiskCSIDriverConfig;
  ac_HorizontalPodAutoscaling : ptr HorizontalPodAutoscaling;
  ac_HTTPLoadBalancing : ptr HTTPLoadBalancing;
  ac_KubernetesDashboard : ptr KubernetesDashboard;
  ac_NetworkPolicyConfig : ptr NetworkPolicyConfig
}.
#[global] Instance AddonsConfig_eq_dec : EqDecision AddonsConfig.
Proof. solve_decision. Defined.
Record AuthenticatorGroupsConfig := { agc_Enabled : ptr bool; agc_SecurityGroup : ptr string }.
#[global] Instance AuthenticatorGroupsConfig_eq_dec : EqDecision AuthenticatorGroupsConfig.
Proof. solve_decision. Defined.
Record Autopilot := { ap_Enabled : bool }.
#[global] Instance Autopilot_eq_dec : EqDecision Autopilot.
Proof. solve_decision. Defined.
Record NodeManagement := { nm_AutoRepair : ptr bool; nm_AutoUpgrade : ptr bool }.
#[global] Instance NodeManagement_eq_dec : EqDecision NodeManagement.
Proof. solve_decision. Defined.
Record ShieldedInstanceConfig := {
  sic_EnableIntegrityMonitoring : ptr bool;
  sic_EnableSecureBoot : ptr bool
}.
#[global] Instance ShieldedInstanceConfig_eq_dec : EqDecision ShieldedInstanceConfig.
Proof. solve_decision. Defined.
Record UpgradeSettings := { us_MaxSurge : ptr Z; us_MaxUnavailable : ptr Z }.
#[global] Instance UpgradeSettings_eq_dec : EqDecision UpgradeSettings.
Proof. solve_decision. Defined.
Record AutoprovisioningNodePoolDefaults := {
  apd_BootDiskKMSKey : ptr string;
  apd_DiskSizeGb : ptr Z;
  apd_DiskType : ptr string;
  apd_Management : ptr NodeManagement;
  apd_MinCPUPlatform : ptr string;
  apd_OauthScopes : slice string;
  apd_ServiceAccount : ptr string;
  apd_ShieldedInstanceConfig : ptr ShieldedInstanceConfig;
  apd_UpgradeSettings : ptr UpgradeSettings
}.
#[global] Instance AutoprovisioningNodePoolDefaults_eq_dec : EqDecision AutoprovisioningNodePoolDefaults.
Proof. solve_decision. Defined.
Record ResourceLimit := { rl_Maximum : ptr Z; rl_Minimum : ptr Z; rl_ResourceType : ptr string }.
#[global] Instance ResourceLimit_eq_dec : EqDecision ResourceLimit.
Proof. solve_decision. Defined.
Record ClusterAutoscaling := {
  ca_AutoprovisioningLocations : slice string;
  ca_AutoprovisioningNodePoolDefaults : ptr AutoprovisioningNodePoolDefaults;
  ca_EnableNodeAutoprovisioning : ptr bool;
  ca_ResourceLimits : slice (ptr ResourceLimit)
}.
#[global] Instance ClusterAutoscaling_eq_dec : EqDecision ClusterAutoscaling.
Proof. solve_decision. Defined.
Record BinaryAuthorization := { ba_Enabled : bool }.
#[global] Instance BinaryAuthorization_eq_dec : EqDecision BinaryAuthorization.
Proof. solve_decision. Defined.
Record ConfidentialNodes := { cn_Enabled : bool }.
#[global] Instance ConfidentialNodes_eq_dec : EqDecision ConfidentialNodes.
Proof. solve_decision. Defined.
Record DatabaseEncryption := { de_KeyName : ptr string; de_State : ptr string }.
#[global] Instance DatabaseEncryption_eq_dec : EqDecision DatabaseEncryption.
Proof. solve_decision. Defined.
Record MaxPodsConstraint := { mpc_MaxPodsPerNode : Z }.
#[global] Instance MaxPodsConstraint_eq_dec : EqDecision MaxPodsConstraint.
Proof. solve_decision. Defined.
Record IPAllocationPolicy := {
  ipa_ClusterIpv4CidrBlock : ptr string;
  ipa_ClusterSecondaryRangeName : ptr string;
  ipa_CreateSubnetwork : ptr bool;
  ipa_NodeIpv4CidrBlock : ptr string;
  ipa_ServicesIpv4CidrBlock : ptr string;
  ipa_ServicesSecondaryRangeName : ptr string;
  ipa_SubnetworkName : ptr string;
  ipa_TpuIpv4CidrBlock : ptr string;
  ipa_UseIPAliases : ptr bool;
  ipa_UseRoutes : ptr bool
}.
#[global] Instance IPAllocationPolicy_eq_dec : EqDecision IPAllocationPolicy.
Proof. solve_decision. Defined.
Record LegacyAbac := { la_Enabled : bool }.
#[global] Instance LegacyAbac_eq_dec : EqDecision LegacyAbac.
Proof. solve_decision. Defined.
Record DailyMaintenanceWindowSpec := { dmws_StartTime : string }.
#[global] Instance DailyMaintenanceWindowSpec_eq_dec : EqDecision DailyMaintenanceWindowSpec.
Proof. solve_decision. Defined.
Record TimeWindow := { tw_EndTime : string; tw_StartTime : string }.
#[global] Instance TimeWindow_eq_dec : EqDecision TimeWindow.
Proof. solve_decision. Defined.
Record RecurringTimeWindow := { rtw_Recurrence : ptr string; rtw_Window : ptr TimeWindow }.
#[global] Instance RecurringTimeWindow_eq_dec : EqDecision RecurringTimeWindow.
Proof. solve_decision. Defined.
Record MaintenanceWindowSpec := {
  mws_DailyMaintenanceWindow : ptr DailyMaintenanceWindowSpec;
  mws_MaintenanceExclusions : gomap TimeWindow;
  mws_RecurringWindow : ptr RecurringTimeWindow
}.
#[global] Instance MaintenanceWindowSpec_eq_dec : EqDecision MaintenanceWindowSpec.
Proof. solve_decision. Defined.
Record MaintenancePolicySpec := { mps_Window : MaintenanceWindowSpec }.
#[global] Instance MaintenancePolicySpec_eq_dec : EqDecision MaintenancePolicySpec.
Proof. solve_decision. Defined.
Record ClientCertificateConfig := { ccc_IssueClientCertificate : bool }.
#[global] Instance ClientCertificateConfig_eq_dec : EqDecision ClientCertificateConfig.
Proof. solve_decision. Defined.
Record MasterAuth := { ma_ClientCertificateConfig : ptr ClientCertificateConfig; ma_Username : ptr string }.
#[global] Instance MasterAuth_eq_dec : EqDecision MasterAuth.
Proof. solve_decision. Defined.
Record CidrBlock := { cb_CidrBlock : string; cb_DisplayName : ptr string }.
#[global] Instance CidrBlock_eq_dec : EqDecision CidrBlock.
Proof. solve_decision. Defined.
Record MasterAuthorizedNetworksConfig := { manc_CidrBlocks : slice (ptr CidrBlock); manc_Enabled : ptr bool }.
#[global] Instance MasterAuthorizedNetworksConfig_eq_dec : EqDecision MasterAuthorizedNetworksConfig.
Proof. solve_decision. Defined.
Record DefaultSnatStatus := { dss_Disabled : bool }.
#[global] Instance DefaultSnatStatus_eq_dec : EqDecision DefaultSnatStatus.
Proof. solve_decision. Defined.
Record NetworkConfigSpec := {
  ncs_DatapathProvider : ptr string;
  ncs_DefaultSnatStatus : ptr DefaultSnatStatus;
  ncs_EnableIntraNodeVisibility : ptr bool;
  ncs_PrivateIpv6GoogleAccess : ptr string
}.
#[global] Instance NetworkConfigSpec_eq_dec : EqDecision NetworkConfigSpec.
Proof. solve_decision. Defined.
Record NetworkPolicy := { netp_Enabled : ptr bool; netp_Provider : ptr string }.
#[global] Instance NetworkPolicy_eq_dec : EqDecision NetworkPolicy.
Proof. solve_decision. Defined.
Record PubSub := { pubsub_Enabled : bool; pubsub_Topic : string }.
#[global] Instance PubSub_eq_dec : EqDecision PubSub.
Proof. solve_decision. Defined.
Record NotificationConfig := { notif_Pubsub : PubSub }.
#[global] Instance NotificationConfig_eq_dec : EqDecision NotificationConfig.
Proof. solve_decision. Defined.
Record PrivateClusterMasterGlobalAccessConfig := { pcmgac_Enabled : bool }.
#[global] Instance PrivateClusterMasterGlobalAccessConfig_eq_dec : EqDecision PrivateClusterMasterGlobalAccessConfig.
Proof. solve_decision. Defined.
Record PrivateClusterConfigSpec := {
  pccs_EnablePrivateEndpoint : ptr bool;
  pccs_EnablePrivateNodes : ptr bool;
  pccs_MasterGlobalAccessConfig : ptr PrivateClusterMasterGlobalAccessConfig;
  pccs_MasterIpv4CidrBlock : ptr string
}.
#[global] Instance PrivateClusterConfigSpec_eq_dec : EqDecision PrivateClusterConfigSpec.
Proof. solve_decision. Defined.
Record ReleaseChannel := { rc_Channel : string }.
#[global] Instance ReleaseChannel_eq_dec : EqDecision ReleaseChannel.
Proof. solve_decision. Defined.
Record BigQueryDestination := { bqd_DatasetID : string }.
#[global] Instance BigQueryDestination_eq_dec : EqDecision BigQueryDestination.
Proof. solve_decision. Defined.
Record ConsumptionMeteringConfig := { cmc_Enabled : bool }.
#[global] Instance ConsumptionMeteringConfig_eq_dec : EqDecision ConsumptionMeteringConfig.
Proof. solve_decision. Defined.
Record ResourceUsageExportConfig := {
  ruec_BigqueryDestination : ptr BigQueryDestination;
  ruec_ConsumptionMeteringConfig : ptr ConsumptionMeteringConfig;
  ruec_EnableNetworkEgressMetering : ptr bool
}.
#[global] Instance ResourceUsageExportConfig_eq_dec : EqDecision ResourceUsageExportConfig.
Proof. solve_decision. Defined.
Record VerticalPodAutoscaling := { vpa_Enabled : bool }.
#[global] Instance VerticalPodAutoscaling_eq_dec : EqDecision VerticalPodAutoscaling.
Proof. solve_decision. Defined.
Record WorkloadIdentityConfig := { wic_WorkloadPool : string }.
#[global] Instance WorkloadIdentityConfig_eq_dec : EqDecision WorkloadIdentityConfig.
Proof. solve_decision. Defined.
Record ClusterParameters := {
  cp_Location : string;
  cp_AddonsConfig : ptr AddonsConfig;
  cp_AuthenticatorGroupsConfig : ptr AuthenticatorGroupsConfig;
  cp_Autopilot : ptr Autopilot;
  cp_Autoscaling : ptr ClusterAutoscaling;
  cp_BinaryAuthorization : ptr BinaryAuthorization;
  cp_ClusterIpv4Cidr : ptr string;
  cp_ConfidentialNodes : ptr ConfidentialNodes;
  cp_DatabaseEncryption : ptr DatabaseEncryption;
  cp_DefaultMaxPodsConstraint : ptr MaxPodsConstraint;
  cp_Description : ptr string;
  cp_EnableKubernetesAlpha : ptr bool;
  cp_EnableTpu : ptr bool;
  cp_InitialClusterVersion : ptr string;
  cp_IPAllocationPolicy : ptr IPAllocationPolicy;
  cp_LabelFingerprint : ptr string;
  cp_LegacyAbac : ptr LegacyAbac;
  cp_Locations : slice string;
  cp_LoggingService : ptr string;
  cp_MaintenancePolicy : ptr MaintenancePolicySpec;
  cp_MasterAuth : ptr MasterAuth;
  cp_MasterAuthorizedNetworksConfig : ptr MasterAuthorizedNetworksConfig;
  cp_MonitoringService : ptr string;
  cp_Network : ptr string;
  cp_NetworkRef : ptr Reference;
  cp_NetworkSelector : ptr Selector;
  cp_NetworkConfig : ptr NetworkConfigSpec;
  cp_NetworkPolicy : ptr NetworkPolicy;
  cp_NotificationConfig : ptr NotificationConfig;
  cp_PrivateClusterConfig : ptr PrivateClusterConfigSpec;
  cp_ReleaseChannel : ptr ReleaseChannel;
  cp_ResourceLabels : gomap string;
  cp_ResourceUsageExportConfig : ptr ResourceUsageExportConfig;
  cp_Subnetwork : ptr string;
  cp_SubnetworkRef : ptr Reference;
  cp_SubnetworkSelector : ptr Selector;
  cp_VerticalPodAutoscaling : ptr VerticalPodAutoscaling;
  cp_WorkloadIdentityConfig : ptr WorkloadIdentityConfig
}.
#[global] Instance ClusterParameters_eq_dec : EqDecision ClusterParameters.
Proof. solve_decision. Defined.
Record StatusCondition := { sc_Code : string; sc_Message : string }.
Record DailyMaintenanceWindowStatus := { dmwst_Duration : string }.
Record MaintenanceWindowStatus := { mwst_DailyMaintenanceWindow : DailyMaintenanceWindowStatus }.
Record MaintenancePolicyStatus := { mpst_Window : MaintenanceWindowStatus }.
Record NetworkConfigStatus := { ncst_Network : string; ncst_Subnetwork : string }.
Record PrivateClusterConfigStatus := { pcst_PrivateEndpoint : string; pcst_PublicEndpoint : string }.
Record NodePoolAutoscalingClusterStatus := {
  npacs_Autoprovisioned : bool;
  npacs_Enabled : bool;
  npacs_MaxNodeCount : Z;
  npacs_MinNodeCount : Z
}.
Record AcceleratorConfigClusterStatus := { accs_AcceleratorCount : Z; accs_AcceleratorType : string }.
Record SandboxConfigClusterStatus := { sccs_Type : string }.
Record ShieldedInstanceConfigClusterStatus := {
  siccs_EnableIntegrityMonitoring : bool;
  siccs_EnableSecureBoot : bool
}.
Record NodeTaintClusterStatus := { ntcs_Effect : string; ntcs_Key : string; ntcs_Value : string }.
Record NodeConfigClusterStatus := {
  nccs_Accelerators : slice (ptr AcceleratorConfigClusterStatus);
  nccs_DiskSizeGb : Z;
  nccs_DiskType : string;
  nccs_ImageType : string;
  nccs_Labels : gomap string;
  nccs_LocalSsdCount : Z;
  nccs_MachineType : string;
  nccs_Metadata : gomap string;
  nccs_MinCPUPlatform : string;
  nccs_OauthScopes : slice string;
  nccs_Preemptible : bool;
  nccs_SandboxConfig : ptr SandboxConfigClusterStatus;
  nccs_ServiceAccount : string;
  nccs_ShieldedInstanceConfig : ptr ShieldedInstanceConfigClusterStatus;
  nccs_Tags : slice string;
  nccs_Taints : slice (ptr NodeTaintClusterStatus)
}.
Record AutoUpgradeOptionsClusterStatus := { auocs_AutoUpgradeStartTime : string; auocs_Description : string }.
Record NodeManagementClusterStatus := {
  nmcs_AutoRepair : bool;
  nmcs_AutoUpgrade : bool;
  nmcs_UpgradeOptions : ptr AutoUpgradeOptionsClusterStatus
}.
Record NodePoolClusterStatus := {
  npcs_Autoscaling : ptr NodePoolAutoscalingClusterStatus;
  npcs_Conditions : slice (ptr StatusCondition);
  npcs_Config : ptr NodeConfigClusterStatus;
  npcs_InitialNodeCount : Z;
  npcs_InstanceGroupUrls : slice string;
  npcs_Locations : slice string;
  npcs_Management : ptr NodeManagementClusterStatus;
  npcs_MaxPodsConstraint : ptr MaxPodsConstraint;
  npcs_Name : string;
  npcs_PodIpv4CidrSize : Z;
  npcs_SelfLink : string;
  npcs_Status : string;
  npcs_StatusMessage : string;
  npcs_Version : string
}.
Record ClusterObservation := {
  co_Conditions : slice (ptr StatusCondition);
  co_CreateTime : string;
  co_CurrentMasterVersion : string;
  co_CurrentNodeCount : Z;
  co_CurrentNodeVersion : string;
  co_Endpoint : string;
  co_ExpireTime : string;
  co_Location : string;
  co_MaintenancePolicy : ptr MaintenancePolicyStatus;
  co_NetworkConfig : ptr NetworkConfigStatus;
  co_NodeIpv4CidrSize : Z;
  co_PrivateClusterConfig : ptr PrivateClusterConfigStatus;
  co_NodePools : slice (ptr NodePoolClusterStatus);
  co_SelfLink : string;
  co_ServicesIpv4Cidr : string;
  co_Status : string;
  co_StatusMessage : string;
  co_TpuIpv4CidrBlock : string;
  co_Zone : string
}.

Definition Cluster : Type := Managed ClusterParameters ClusterObservation.
