(* ===== verification/ContainerAPI.v ===== *)
(** * The structs of the GKE API

    What pkg/clients/cluster, pkg/clients/nodepool and the two controllers read
    and write of the structs of google.golang.org/api/container/v1, which is not
    part of this repository, with the struct literals without fields. *)

From S2P Require Import Prelude Libs.

Record apiCloudRunConfig := {
  acrc_Disabled : bool;
  acrc_LoadBalancerType : string;
  acrc_ForceSendFields : slice string;
  acrc_rest : rest
}.
#[global] Instance apiCloudRunConfig_eq_dec : EqDecision apiCloudRunConfig.
Proof. solve_decision. Defined.
Definition zero_apiCloudRunConfig : apiCloudRunConfig := {|
  acrc_Disabled := false; acrc_LoadBalancerType := ""; acrc_ForceSendFields := None; acrc_rest := ∅ |}.
Record apiConfigConnectorConfig := {
  aconnector_Enabled : bool;
  aconnector_ForceSendFields : slice string;
  aconnector_rest : rest
}.
#[global] Instance apiConfigConnectorConfig_eq_dec : EqDecision apiConfigConnectorConfig.
Proof. solve_decision. Defined.
Definition zero_apiConfigConnectorConfig : apiConfigConnectorConfig := {|
  aconnector_Enabled := false; aconnector_ForceSendFields := None; aconnector_rest := ∅ |}.
Record apiDnsCacheConfig := { adns_Enabled : bool; adns_ForceSendFields : slice string; adns_rest : rest }.
#[global] Instance apiDnsCacheConfig_eq_dec : EqDecision apiDnsCacheConfig.
Proof. solve_decision. Defined.
Definition zero_apiDnsCacheConfig : apiDnsCacheConfig := {|
  adns_Enabled := false; adns_ForceSendFields := None; adns_rest := ∅ |}.
Record apiGcePersistentDiskCsiDriverConfig := {
  acsi_Enabled : bool;
  acsi_ForceSendFields : slice string;
  acsi_rest : rest
}.
#[global] Instance apiGcePersistentDiskCsiDriverConfig_eq_dec : EqDecision apiGcePersistentDiskCsiDriverConfig.
Proof. solve_decision. Defined.
Definition zero_apiGcePersistentDiskCsiDriverConfig : apiGcePersistentDiskCsiDriverConfig := {|
  acsi_Enabled := false; acsi_ForceSendFields := None; acsi_rest := ∅ |}.
Record apiHorizontalPodAutoscaling := {
  ahpa_Disabled : bool;
  ahpa_ForceSendFields : slice string;
  ahpa_rest : rest
}.
#[global] Instance apiHorizontalPodAutoscaling_eq_dec : EqDecision apiHorizontalPodAutoscaling.
Proof. solve_decision. Defined.
Definition zero_apiHorizontalPodAutoscaling : apiHorizontalPodAutoscaling := {|
  ahpa_Disabled := false; ahpa_ForceSendFields := None; ahpa_rest := ∅ |}.
Record apiHttpLoadBalancing := {
  ahlb_Disabled : bool;
  ahlb_ForceSendFields : slice string;
  ahlb_rest : rest
}.
#[global] Instance apiHttpLoadBalancing_eq_dec : EqDecision apiHttpLoadBalancing.
Proof. solve_decision. Defined.
Definition zero_apiHttpLoadBalancing : apiHttpLoadBalancing := {|
  ahlb_Disabled := false; ahlb_ForceSendFields := None; ahlb_rest := ∅ |}.
Record apiKubernetesDashboard := { akd_Disabled : bool; akd_ForceSendFields : slice string; akd_rest : rest }.
#[global] Instance apiKubernetesDashboard_eq_dec : EqDecision apiKubernetesDashboard.
Proof. solve_decision. Defined.
Definition zero_apiKubernetesDashboard : apiKubernetesDashboard := {|
  akd_Disabled := false; akd_ForceSendFields := None; akd_rest := ∅ |}.
Record apiNetworkPolicyConfig := {
  anpc_Disabled : bool;
  anpc_ForceSendFields : slice string;
  anpc_rest : rest
}.
#[global] Instance apiNetworkPolicyConfig_eq_dec : EqDecision apiNetworkPolicyConfig.
Proof. solve_decision. Defined.
Definition zero_apiNetworkPolicyConfig : apiNetworkPolicyConfig := {|
  anpc_Disabled := false; anpc_ForceSendFields := None; anpc_rest := ∅ |}.
Record apiAddonsConfig := {
  aac_CloudRunConfig : ptr apiCloudRunConfig;
  aac_ConfigConnectorConfig : ptr apiConfigConnectorConfig;
  aac_DnsCacheConfig : ptr apiDnsCacheConfig;
  aac_GcePersistentDiskCsiDriverConfig : ptr apiGcePersistentDiskCsiDriverConfig;
  aac_HorizontalPodAutoscaling : ptr apiHorizontalPodAutoscaling;
  aac_HttpLoadBalancing : ptr apiHttpLoadBalancing;
  aac_KubernetesDashboard : ptr apiKubernetesDashboard;
  aac_NetworkPolicyConfig : ptr apiNetworkPolicyConfig;
  aac_rest : rest
}.
#[global] Instance apiAddonsConfig_eq_dec : EqDecision apiAddonsConfig.
Proof. solve_decision. Defined.
Definition zero_apiAddonsConfig : apiAddonsConfig := {|
  aac_CloudRunConfig := None; aac_ConfigConnectorConfig := None; aac_DnsCacheConfig := None;
  aac_GcePersistentDiskCsiDriverConfig := None; aac_HorizontalPodAutoscaling := None;
  aac_HttpLoadBalancing := None; aac_KubernetesDashboard := None; aac_NetworkPolicyConfig := None;
  aac_rest := ∅ |}.
Record apiAuthenticatorGroupsConfig := { aagc_Enabled : bool; aagc_SecurityGroup : string; aagc_rest : rest }.
#[global] Instance apiAuthenticatorGroupsConfig_eq_dec : EqDecision apiAuthenticatorGroupsConfig.
Proof. solve_decision. Defined.
Definition zero_apiAuthenticatorGroupsConfig : apiAuthenticatorGroupsConfig := {|
  aagc_Enabled := false; aagc_SecurityGroup := ""; aagc_rest := ∅ |}.
Record apiAutopilot := { aap_Enabled : bool; aap_rest : rest }.
#[global] Instance apiAutopilot_eq_dec : EqDecision apiAutopilot.
Proof. solve_decision. Defined.
Definition zero_apiAutopilot : apiAutopilot := {|
  aap_Enabled := false; aap_rest := ∅ |}.
Record apiAutoUpgradeOptions := {
  aauo_AutoUpgradeStartTime : string;
  aauo_Description : string;
  aauo_rest : rest
}.
#[global] Instance apiAutoUpgradeOptions_eq_dec : EqDecision apiAutoUpgradeOptions.
Proof. solve_decision. Defined.
Definition zero_apiAutoUpgradeOptions : apiAutoUpgradeOptions := {|
  aauo_AutoUpgradeStartTime := ""; aauo_Description := ""; aauo_rest := ∅ |}.
Record apiNodeManagement := {
  anm_AutoRepair : bool;
  anm_AutoUpgrade : bool;
  anm_UpgradeOptions : ptr apiAutoUpgradeOptions;
  anm_rest : rest
}.
#[global] Instance apiNodeManagement_eq_dec : EqDecision apiNodeManagement.
Proof. solve_decision. Defined.
Definition zero_apiNodeManagement : apiNodeManagement := {|
  anm_AutoRepair := false; anm_AutoUpgrade := false; anm_UpgradeOptions := None; anm_rest := ∅ |}.
Record apiShieldedInstanceConfig := {
  asic_EnableIntegrityMonitoring : bool;
  asic_EnableSecureBoot : bool;
  asic_rest : rest
}.
#[global] Instance apiShieldedInstanceConfig_eq_dec : EqDecision apiShieldedInstanceConfig.
Proof. solve_decision. Defined.
Definition zero_apiShieldedInstanceConfig : apiShieldedInstanceConfig := {|
  asic_EnableIntegrityMonitoring := false; asic_EnableSecureBoot := false; asic_rest := ∅ |}.
Record apiUpgradeSettings := { aus_MaxSurge : Z; aus_MaxUnavailable : Z; aus_rest : rest }.
#[global] Instance apiUpgradeSettings_eq_dec : EqDecision apiUpgradeSettings.
Proof. solve_decision. Defined.
Definition zero_apiUpgradeSettings : apiUpgradeSettings := {|
  aus_MaxSurge := 0%Z; aus_MaxUnavailable := 0%Z; aus_rest := ∅ |}.
Record apiAutoprovisioningNodePoolDefaults := {
  aapd_BootDiskKmsKey : string;
  aapd_DiskSizeGb : Z;
  aapd_DiskType : string;
  aapd_Management : ptr apiNodeManagement;
  aapd_MinCpuPlatform : string;
  aapd_OauthScopes : slice string;
  aapd_ServiceAccount : string;
  aapd_ShieldedInstanceConfig : ptr apiShieldedInstanceConfig;
  aapd_UpgradeSettings : ptr apiUpgradeSettings;
  aapd_rest : rest
}.
#[global] Instance apiAutoprovisioningNodePoolDefaults_eq_dec : EqDecision apiAutoprovisioningNodePoolDefaults.
Proof. solve_decision. Defined.
Definition zero_apiAutoprovisioningNodePoolDefaults : apiAutoprovisioningNodePoolDefaults := {|
  aapd_BootDiskKmsKey := ""; aapd_DiskSizeGb := 0%Z; aapd_DiskType := ""; aapd_Management := None;
  aapd_MinCpuPlatform := ""; aapd_OauthScopes := None; aapd_ServiceAccount := "";
  aapd_ShieldedInstanceConfig := None; aapd_UpgradeSettings := None; aapd_rest := ∅ |}.
Record apiResourceLimit := { arl_Maximum : Z; arl_Minimum : Z; arl_ResourceType : string; arl_rest : rest }.
#[global] Instance apiResourceLimit_eq_dec : EqDecision apiResourceLimit.
Proof. solve_decision. Defined.
Definition zero_apiResourceLimit : apiResourceLimit := {|
  arl_Maximum := 0%Z; arl_Minimum := 0%Z; arl_ResourceType := ""; arl_rest := ∅ |}.
Record apiClusterAutoscaling := {
  aca_AutoprovisioningLocations : slice string;
  aca_AutoprovisioningNodePoolDefaults : ptr apiAutoprovisioningNodePoolDefaults;
  aca_EnableNodeAutoprovisioning : bool;
  aca_ResourceLimits : slice (ptr apiResourceLimit);
  aca_rest : rest
}.
#[global] Instance apiClusterAutoscaling_eq_dec : EqDecision apiClusterAutoscaling.
Proof. solve_decision. Defined.
Definition zero_apiClusterAutoscaling : apiClusterAutoscaling := {|
  aca_AutoprovisioningLocations := None; aca_AutoprovisioningNodePoolDefaults := None;
  aca_EnableNodeAutoprovisioning := false; aca_ResourceLimits := None; aca_rest := ∅ |}.
Record apiBinaryAuthorization := { aba_Enabled : bool; aba_rest : rest }.
#[global] Instance apiBinaryAuthorization_eq_dec : EqDecision apiBinaryAuthorization.
Proof. solve_decision. Defined.
Definition zero_apiBinaryAuthorization : apiBinaryAuthorization := {|
  aba_Enabled := false; aba_rest := ∅ |}.
Record apiConfidentialNodes := { acn_Enabled : bool; acn_rest : rest }.
#[global] Instance apiConfidentialNodes_eq_dec : EqDecision apiConfidentialNodes.
Proof. solve_decision. Defined.
Definition zero_apiConfidentialNodes : apiConfidentialNodes := {|
  acn_Enabled := false; acn_rest := ∅ |}.
Record apiDatabaseEncryption := { ade_KeyName : string; ade_State : string; ade_rest : rest }.
#[global] Instance apiDatabaseEncryption_eq_dec : EqDecision apiDatabaseEncryption.
Proof. solve_decision. Defined.
Definition zero_apiDatabaseEncryption : apiDatabaseEncryption := {|
  ade_KeyName := ""; ade_State := ""; ade_rest := ∅ |}.
Record apiMaxPodsConstraint := { ampc_MaxPodsPerNode : Z; ampc_rest : rest }.
#[global] Instance apiMaxPodsConstraint_eq_dec : EqDecision apiMaxPodsConstraint.
Proof. solve_decision. Defined.
Definition zero_apiMaxPodsConstraint : apiMaxPodsConstraint := {|
  ampc_MaxPodsPerNode := 0%Z; ampc_rest := ∅ |}.
Record apiIPAllocationPolicy := {
  aipa_ClusterIpv4CidrBlock : string;
  aipa_ClusterSecondaryRangeName : string;
  aipa_CreateSubnetwork : bool;
  aipa_NodeIpv4CidrBlock : string;
  aipa_ServicesIpv4CidrBlock : string;
  aipa_ServicesSecondaryRangeName : string;
  aipa_SubnetworkName : string;
  aipa_TpuIpv4CidrBlock : string;
  aipa_UseIpAliases : bool;
  aipa_UseRoutes : bool;
  aipa_rest : rest
}.
#[global] Instance apiIPAllocationPolicy_eq_dec : EqDecision apiIPAllocationPolicy.
Proof. solve_decision. Defined.
Definition zero_apiIPAllocationPolicy : apiIPAllocationPolicy := {|
  aipa_ClusterIpv4CidrBlock := ""; aipa_ClusterSecondaryRangeName := ""; aipa_CreateSubnetwork := false;
  aipa_NodeIpv4CidrBlock := ""; aipa_ServicesIpv4CidrBlock := ""; aipa_ServicesSecondaryRangeName := "";
  aipa_SubnetworkName := ""; aipa_TpuIpv4CidrBlock := ""; aipa_UseIpAliases := false; aipa_UseRoutes := false;
  aipa_rest := ∅ |}.
Record apiLegacyAbac := { ala_Enabled : bool; ala_rest : rest }.
#[global] Instance apiLegacyAbac_eq_dec : EqDecision apiLegacyAbac.
Proof. solve_decision. Defined.
Definition zero_apiLegacyAbac : apiLegacyAbac := {|
  ala_Enabled := false; ala_rest := ∅ |}.
Record apiDailyMaintenanceWindow := { admw_Duration : string; admw_StartTime : string; admw_rest : rest }.
#[global] Instance apiDailyMaintenanceWindow_eq_dec : EqDecision apiDailyMaintenanceWindow.
Proof. solve_decision. Defined.
Definition zero_apiDailyMaintenanceWindow : apiDailyMaintenanceWindow := {|
  admw_Duration := ""; admw_StartTime := ""; admw_rest := ∅ |}.
Record apiTimeWindow := { atw_EndTime : string; atw_StartTime : string; atw_rest : rest }.
#[global] Instance apiTimeWindow_eq_dec : EqDecision apiTimeWindow.
Proof. solve_decision. Defined.
Definition zero_apiTimeWindow : apiTimeWindow := {|
  atw_EndTime := ""; atw_StartTime := ""; atw_rest := ∅ |}.
Record apiRecurringTimeWindow := {
  artw_Recurrence : string;
  artw_Window : ptr apiTimeWindow;
  artw_rest : rest
}.
#[global] Instance apiRecurringTimeWindow_eq_dec : EqDecision apiRecurringTimeWindow.
Proof. solve_decision. Defined.
Definition zero_apiRecurringTimeWindow : apiRecurringTimeWindow := {|
  artw_Recurrence := ""; artw_Window := None; artw_rest := ∅ |}.
Record apiMaintenanceWindow := {
  amw_DailyMaintenanceWindow : ptr apiDailyMaintenanceWindow;
  amw_MaintenanceExclusions : gomap apiTimeWindow;
  amw_RecurringWindow : ptr apiRecurringTimeWindow;
  amw_rest : rest
}.
#[global] Instance apiMaintenanceWindow_eq_dec : EqDecision apiMaintenanceWindow.
Proof. solve_decision. Defined.
Definition zero_apiMaintenanceWindow : apiMaintenanceWindow := {|
  amw_DailyMaintenanceWindow := None; amw_MaintenanceExclusions := None; amw_RecurringWindow := None;
  amw_rest := ∅ |}.
Record apiMaintenancePolicy := { amp_Window : ptr apiMaintenanceWindow; amp_rest : rest }.
#[global] Instance apiMaintenancePolicy_eq_dec : EqDecision apiMaintenancePolicy.
Proof. solve_decision. Defined.
Definition zero_apiMaintenancePolicy : apiMaintenancePolicy := {|
  amp_Window := None; amp_rest := ∅ |}.
Record apiClientCertificateConfig := { accc_IssueClientCertificate : bool; accc_rest : rest }.
Definition zero_apiClientCertificateConfig : apiClientCertificateConfig := {|
  accc_IssueClientCertificate := false; accc_rest := ∅ |}.
Record apiMasterAuth := {
  ama_ClientCertificate : string;
  ama_ClientCertificateConfig : ptr apiClientCertificateConfig;
  ama_ClientKey : string;
  ama_ClusterCaCertificate : string;
  ama_Password : string;
  ama_Username : string;
  ama_rest : rest
}.
Definition zero_apiMasterAuth : apiMasterAuth := {|
  ama_ClientCertificate := ""; ama_ClientCertificateConfig := None; ama_ClientKey := "";
  ama_ClusterCaCertificate := ""; ama_Password := ""; ama_Username := ""; ama_rest := ∅ |}.
Record apiCidrBlock := { acb_CidrBlock : string; acb_DisplayName : string; acb_rest : rest }.
#[global] Instance apiCidrBlock_eq_dec : EqDecision apiCidrBlock.
Proof. solve_decision. Defined.
Definition zero_apiCidrBlock : apiCidrBlock := {|
  acb_CidrBlock := ""; acb_DisplayName := ""; acb_rest := ∅ |}.
Record apiMasterAuthorizedNetworksConfig := {
  amanc_CidrBlocks : slice (ptr apiCidrBlock);
  amanc_Enabled : bool;
  amanc_rest : rest
}.
#[global] Instance apiMasterAuthorizedNetworksConfig_eq_dec : EqDecision apiMasterAuthorizedNetworksConfig.
Proof. solve_decision. Defined.
Definition zero_apiMasterAuthorizedNetworksConfig : apiMasterAuthorizedNetworksConfig := {|
  amanc_CidrBlocks := None; amanc_Enabled := false; amanc_rest := ∅ |}.
Record apiDefaultSnatStatus := { adss_Disabled : bool; adss_rest : rest }.
#[global] Instance apiDefaultSnatStatus_eq_dec : EqDecision apiDefaultSnatStatus.
Proof. solve_decision. Defined.
Definition zero_apiDefaultSnatStatus : apiDefaultSnatStatus := {|
  adss_Disabled := false; adss_rest := ∅ |}.
Record apiNetworkConfig := {
  anc_DatapathProvider : string;
  anc_DefaultSnatStatus : ptr apiDefaultSnatStatus;
  anc_EnableIntraNodeVisibility : bool;
  anc_Network : string;
  anc_PrivateIpv6GoogleAccess : string;
  anc_Subnetwork : string;
  anc_rest : rest
}.
#[global] Instance apiNetworkConfig_eq_dec : EqDecision apiNetworkConfig.
Proof. solve_decision. Defined.
Definition zero_apiNetworkConfig : apiNetworkConfig := {|
  anc_DatapathProvider := ""; anc_DefaultSnatStatus := None; anc_EnableIntraNodeVisibility := false;
  anc_Network := ""; anc_PrivateIpv6GoogleAccess := ""; anc_Subnetwork := ""; anc_rest := ∅ |}.
Record apiNetworkPolicy := { anetp_Enabled : bool; anetp_Provider : string; anetp_rest : rest }.
#[global] Instance apiNetworkPolicy_eq_dec : EqDecision apiNetworkPolicy.
Proof. solve_decision. Defined.
Definition zero_apiNetworkPolicy : apiNetworkPolicy := {|
  anetp_Enabled := false; anetp_Provider := ""; anetp_rest := ∅ |}.
Record apiPubSub := { apubsub_Enabled : bool; apubsub_Topic : string; apubsub_rest : rest }.
#[global] Instance apiPubSub_eq_dec : EqDecision apiPubSub.
Proof. solve_decision. Defined.
Definition zero_apiPubSub : apiPubSub := {|
  apubsub_Enabled := false; apubsub_Topic := ""; apubsub_rest := ∅ |}.
Record apiNotificationConfig := { anotif_Pubsub : ptr apiPubSub; anotif_rest : rest }.
#[global] Instance apiNotificationConfig_eq_dec : EqDecision apiNotificationConfig.
Proof. solve_decision. Defined.
Definition zero_apiNotificationConfig : apiNotificationConfig := {|
  anotif_Pubsub := None; anotif_rest := ∅ |}.
Record apiPrivateClusterMasterGlobalAccessConfig := { apcmgac_Enabled : bool; apcmgac_rest : rest }.
#[global] Instance apiPrivateClusterMasterGlobalAccessConfig_eq_dec : EqDecision apiPrivateClusterMasterGlobalAccessConfig.
Proof. solve_decision. Defined.
Definition zero_apiPrivateClusterMasterGlobalAccessConfig : apiPrivateClusterMasterGlobalAccessConfig := {|
  apcmgac_Enabled := false; apcmgac_rest := ∅ |}.
Record apiPrivateClusterConfig := {
  apcc_EnablePrivateEndpoint : bool;
  apcc_EnablePrivateNodes : bool;
  apcc_MasterGlobalAccessConfig : ptr apiPrivateClusterMasterGlobalAccessConfig;
  apcc_MasterIpv4CidrBlock : string;
  apcc_PrivateEndpoint : string;
  apcc_PublicEndpoint : string;
  apcc_rest : rest
}.
#[global] Instance apiPrivateClusterConfig_eq_dec : EqDecision apiPrivateClusterConfig.
Proof. solve_decision. Defined.
Definition zero_apiPrivateClusterConfig : apiPrivateClusterConfig := {|
  apcc_EnablePrivateEndpoint := false; apcc_EnablePrivateNodes := false;
  apcc_MasterGlobalAccessConfig := None; apcc_MasterIpv4CidrBlock := ""; apcc_PrivateEndpoint := "";
  apcc_PublicEndpoint := ""; apcc_rest := ∅ |}.
Record apiReleaseChannel := { arc_Channel : string; arc_rest : rest }.
#[global] Instance apiReleaseChannel_eq_dec : EqDecision apiReleaseChannel.
Proof. solve_decision. Defined.
Definition zero_apiReleaseChannel : apiReleaseChannel := {|
  arc_Channel := ""; arc_rest := ∅ |}.
Record apiBigQueryDestination := { abqd_DatasetId : string; abqd_rest : rest }.
#[global] Instance apiBigQueryDestination_eq_dec : EqDecision apiBigQueryDestination.
Proof. solve_decision. Defined.
Definition zero_apiBigQueryDestination : apiBigQueryDestination := {|
  abqd_DatasetId := ""; abqd_rest := ∅ |}.
Record apiConsumptionMeteringConfig := { acmc_Enabled : bool; acmc_rest : rest }.
#[global] Instance apiConsumptionMeteringConfig_eq_dec : EqDecision apiConsumptionMeteringConfig.
Proof. solve_decision. Defined.
Definition zero_apiConsumptionMeteringConfig : apiConsumptionMeteringConfig := {|
  acmc_Enabled := false; acmc_rest := ∅ |}.
Record apiResourceUsageExportConfig := {
  aruec_BigqueryDestination : ptr apiBigQueryDestination;
  aruec_ConsumptionMeteringConfig : ptr apiConsumptionMeteringConfig;
  aruec_EnableNetworkEgressMetering : bool;
  aruec_rest : rest
}.
#[global] Instance apiResourceUsageExportConfig_eq_dec : EqDecision apiResourceUsageExportConfig.
Proof. solve_decision. Defined.
Definition zero_apiResourceUsageExportConfig : apiResourceUsageExportConfig := {|
  aruec_BigqueryDestination := None; aruec_ConsumptionMeteringConfig := None;
  aruec_EnableNetworkEgressMetering := false; aruec_rest := ∅ |}.
Record apiVerticalPodAutoscaling := { avpa_Enabled : bool; avpa_rest : rest }.
#[global] Instance apiVerticalPodAutoscaling_eq_dec : EqDecision apiVerticalPodAutoscaling.
Proof. solve_decision. Defined.
Definition zero_apiVerticalPodAutoscaling : apiVerticalPodAutoscaling := {|
  avpa_Enabled := false; avpa_rest := ∅ |}.
Record apiWorkloadIdentityConfig := { awic_WorkloadPool : string; awic_rest : rest }.
#[global] Instance apiWorkloadIdentityConfig_eq_dec : EqDecision apiWorkloadIdentityConfig.
Proof. solve_decision. Defined.
Definition zero_apiWorkloadIdentityConfig : apiWorkloadIdentityConfig := {|
  awic_WorkloadPool := ""; awic_rest := ∅ |}.
Record apiStatusCondition := { asc_Code : string; asc_Message : string; asc_rest : rest }.
#[global] Instance apiStatusCondition_eq_dec : EqDecision apiStatusCondition.
Proof. solve_decision. Defined.
Definition zero_apiStatusCondition : apiStatusCondition := {|
  asc_Code := ""; asc_Message := ""; asc_rest := ∅ |}.
Record apiNodePoolAutoscaling := {
  anpas_Autoprovisioned : bool;
  anpas_Enabled : bool;
  anpas_MaxNodeCount : Z;
  anpas_MinNodeCount : Z;
  anpas_rest : rest
}.
#[global] Instance apiNodePoolAutoscaling_eq_dec : EqDecision apiNodePoolAutoscaling.
Proof. solve_decision. Defined.
Definition zero_apiNodePoolAutoscaling : apiNodePoolAutoscaling := {|
  anpas_Autoprovisioned := false; anpas_Enabled := false; anpas_MaxNodeCount := 0%Z;
  anpas_MinNodeCount := 0%Z; anpas_rest := ∅ |}.
Record apiAcceleratorConfig := { aacc_AcceleratorCount : Z; aacc_AcceleratorType : string; aacc_rest : rest }.
#[global] Instance apiAcceleratorConfig_eq_dec : EqDecision apiAcceleratorConfig.
Proof. solve_decision. Defined.
Definition zero_apiAcceleratorConfig : apiAcceleratorConfig := {|
  aacc_AcceleratorCount := 0%Z; aacc_AcceleratorType := ""; aacc_rest := ∅ |}.
Record apiNodeKubeletConfig := {
  ankc_CpuCfsQuota : bool;
  ankc_CpuCfsQuotaPeriod : string;
  ankc_CpuManagerPolicy : string;
  ankc_rest : rest
}.
#[global] Instance apiNodeKubeletConfig_eq_dec : EqDecision apiNodeKubeletConfig.
Proof. solve_decision. Defined.
Definition zero_apiNodeKubeletConfig : apiNodeKubeletConfig := {|
  ankc_CpuCfsQuota := false; ankc_CpuCfsQuotaPeriod := ""; ankc_CpuManagerPolicy := ""; ankc_rest := ∅ |}.
Record apiLinuxNodeConfig := { alnc_Sysctls : gomap string; alnc_rest : rest }.
#[global] Instance apiLinuxNodeConfig_eq_dec : EqDecision apiLinuxNodeConfig.
Proof. solve_decision. Defined.
Definition zero_apiLinuxNodeConfig : apiLinuxNodeConfig := {|
  alnc_Sysctls := None; alnc_rest := ∅ |}.
Record apiReservationAffinity := {
  ara_ConsumeReservationType : string;
  ara_Key : string;
  ara_Values : slice string;
  ara_rest : rest
}.
#[global] Instance apiReservationAffinity_eq_dec : EqDecision apiReservationAffinity.
Proof. solve_decision. Defined.
Definition zero_apiReservationAffinity : apiReservationAffinity := {|
  ara_ConsumeReservationType := ""; ara_Key := ""; ara_Values := None; ara_rest := ∅ |}.
Record apiSandboxConfig := { asandbox_Type : string; asandbox_rest : rest }.
#[global] Instance apiSandboxConfig_eq_dec : EqDecision apiSandboxConfig.
Proof. solve_decision. Defined.
Definition zero_apiSandboxConfig : apiSandboxConfig := {|
  asandbox_Type := ""; asandbox_rest := ∅ |}.
Record apiNodeTaint := {
  ataint_Effect : string;
  ataint_Key : string;
  ataint_Value : string;
  ataint_rest : rest
}.
#[global] Instance apiNodeTaint_eq_dec : EqDecision apiNodeTaint.
Proof. solve_decision. Defined.
Definition zero_apiNodeTaint : apiNodeTaint := {|
  ataint_Effect := ""; ataint_Key := ""; ataint_Value := ""; ataint_rest := ∅ |}.
Record apiWorkloadMetadataConfig := { awmc_Mode : string; awmc_rest : rest }.
#[global] Instance apiWorkloadMetadataConfig_eq_dec : EqDecision apiWorkloadMetadataConfig.
Proof. solve_decision. Defined.
Definition zero_apiWorkloadMetadataConfig : apiWorkloadMetadataConfig := {|
  awmc_Mode := ""; awmc_rest := ∅ |}.
Record apiNodeConfig := {
  anodec_Accelerators : slice (ptr apiAcceleratorConfig);
  anodec_BootDiskKmsKey : string;
  anodec_DiskSizeGb : Z;
  anodec_DiskType : string;
  anodec_ImageType : string;
  anodec_KubeletConfig : ptr apiNodeKubeletConfig;
  anodec_Labels : gomap string;
  anodec_LinuxNodeConfig : ptr apiLinuxNodeConfig;
  anodec_LocalSsdCount : Z;
  anodec_MachineType : string;
  anodec_Metadata : gomap string;
  anodec_MinCpuPlatform : string;
  anodec_NodeGroup : string;
  anodec_OauthScopes : slice string;
  anodec_Preemptible : bool;
  anodec_ReservationAffinity : ptr apiReservationAffinity;
  anodec_SandboxConfig : ptr apiSandboxConfig;
  anodec_ServiceAccount : string;
  anodec_ShieldedInstanceConfig : ptr apiShieldedInstanceConfig;
  anodec_Tags : slice string;
  anodec_Taints : slice (ptr apiNodeTaint);
  anodec_WorkloadMetadataConfig : ptr apiWorkloadMetadataConfig;
  anodec_rest : rest
}.
#[global] Instance apiNodeConfig_eq_dec : EqDecision apiNodeConfig.
Proof. solve_decision. Defined.
Definition zero_apiNodeConfig : apiNodeConfig := {|
  anodec_Accelerators := None; anodec_BootDiskKmsKey := ""; anodec_DiskSizeGb := 0%Z; anodec_DiskType := "";
  anodec_ImageType := ""; anodec_KubeletConfig := None; anodec_Labels := None; anodec_LinuxNodeConfig := None;
  anodec_LocalSsdCount := 0%Z; anodec_MachineType := ""; anodec_Metadata := None; anodec_MinCpuPlatform := "";
  anodec_NodeGroup := ""; anodec_OauthScopes := None; anodec_Preemptible := false;
  anodec_ReservationAffinity := None; anodec_SandboxConfig := None; anodec_ServiceAccount := "";
  anodec_ShieldedInstanceConfig := None; anodec_Tags := None; anodec_Taints := None;
  anodec_WorkloadMetadataConfig := None; anodec_rest := ∅ |}.
Record apiNodePool := {
  anp_Autoscaling : ptr apiNodePoolAutoscaling;
  anp_Conditions : slice (ptr apiStatusCondition);
  anp_Config : ptr apiNodeConfig;
  anp_InitialNodeCount : Z;
  anp_InstanceGroupUrls : slice string;
  anp_Locations : slice string;
  anp_Management : ptr apiNodeManagement;
  anp_MaxPodsConstraint : ptr apiMaxPodsConstraint;
  anp_Name : string;
  anp_PodIpv4CidrSize : Z;
  anp_SelfLink : string;
  anp_Status : string;
  anp_StatusMessage : string;
  anp_UpgradeSettings : ptr apiUpgradeSettings;
  anp_Version : string;
  anp_rest : rest
}.
#[global] Instance apiNodePool_eq_dec : EqDecision apiNodePool.
Proof. solve_decision. Defined.
Definition zero_apiNodePool : apiNodePool := {|
  anp_Autoscaling := None; anp_Conditions := None; anp_Config := None; anp_InitialNodeCount := 0%Z;
  anp_InstanceGroupUrls := None; anp_Locations := None; anp_Management := None; anp_MaxPodsConstraint := None;
  anp_Name := ""; anp_PodIpv4CidrSize := 0%Z; anp_SelfLink := ""; anp_Status := ""; anp_StatusMessage := "";
  anp_UpgradeSettings := None; anp_Version := ""; anp_rest := ∅ |}.
Record apiCluster := {
  acl_AddonsConfig : ptr apiAddonsConfig;
  acl_AuthenticatorGroupsConfig : ptr apiAuthenticatorGroupsConfig;
  acl_Autopilot : ptr apiAutopilot;
  acl_Autoscaling : ptr apiClusterAutoscaling;
  acl_BinaryAuthorization : ptr apiBinaryAuthorization;
  acl_ClusterIpv4Cidr : string;
  acl_Conditions : slice (ptr apiStatusCondition);
  acl_ConfidentialNodes : ptr apiConfidentialNodes;
  acl_CreateTime : string;
  acl_CurrentMasterVersion : string;
  acl_CurrentNodeCount : Z;
  acl_CurrentNodeVersion : string;
  acl_DatabaseEncryption : ptr apiDatabaseEncryption;
  acl_DefaultMaxPodsConstraint : ptr apiMaxPodsConstraint;
  acl_Description : string;
  acl_EnableKubernetesAlpha : bool;
  acl_EnableTpu : bool;
  acl_Endpoint : string;
  acl_ExpireTime : string;
  acl_InitialClusterVersion : string;
  acl_IpAllocationPolicy : ptr apiIPAllocationPolicy;
  acl_LabelFingerprint : string;
  acl_LegacyAbac : ptr apiLegacyAbac;
  acl_Location : string;
  acl_Locations : slice string;
  acl_LoggingService : string;
  acl_MaintenancePolicy : ptr apiMaintenancePolicy;
  acl_MasterAuth : ptr apiMasterAuth;
  acl_MasterAuthorizedNetworksConfig : ptr apiMasterAuthorizedNetworksConfig;
  acl_MonitoringService : string;
  acl_Name : string;
  acl_Network : string;
  acl_NetworkConfig : ptr apiNetworkConfig;
  acl_NetworkPolicy : ptr apiNetworkPolicy;
  acl_NodeIpv4CidrSize : Z;
  acl_NodePools : slice (ptr apiNodePool);
  acl_NotificationConfig : ptr apiNotificationConfig;
  acl_PrivateClusterConfig : ptr apiPrivateClusterConfig;
  acl_ReleaseChannel : ptr apiReleaseChannel;
  acl_ResourceLabels : gomap string;
  acl_ResourceUsageExportConfig : ptr apiResourceUsageExportConfig;
  acl_SelfLink : string;
  acl_ServicesIpv4Cidr : string;
  acl_Status : string;
  acl_StatusMessage : string;
  acl_Subnetwork : string;
  acl_TpuIpv4CidrBlock : string;
  acl_VerticalPodAutoscaling : ptr apiVerticalPodAutoscaling;
  acl_WorkloadIdentityConfig : ptr apiWorkloadIdentityConfig;
  acl_Zone : string;
  acl_rest : rest
}.
Definition zero_apiCluster : apiCluster := {|
  acl_AddonsConfig := None; acl_AuthenticatorGroupsConfig := None; acl_Autopilot := None;
  acl_Autoscaling := None; acl_BinaryAuthorization := None; acl_ClusterIpv4Cidr := ""; acl_Conditions := None;
  acl_ConfidentialNodes := None; acl_CreateTime := ""; acl_CurrentMasterVersion := "";
  acl_CurrentNodeCount := 0%Z; acl_CurrentNodeVersion := ""; acl_DatabaseEncryption := None;
  acl_DefaultMaxPodsConstraint := None; acl_Description := ""; acl_EnableKubernetesAlpha := false;
  acl_EnableTpu := false; acl_Endpoint := ""; acl_ExpireTime := ""; acl_InitialClusterVersion := "";
  acl_IpAllocationPolicy := None; acl_LabelFingerprint := ""; acl_LegacyAbac := None; acl_Location := "";
  acl_Locations := None; acl_LoggingService := ""; acl_MaintenancePolicy := None; acl_MasterAuth := None;
  acl_MasterAuthorizedNetworksConfig := None; acl_MonitoringService := ""; acl_Name := ""; acl_Network := "";
  acl_NetworkConfig := None; acl_NetworkPolicy := None; acl_NodeIpv4CidrSize := 0%Z; acl_NodePools := None;
  acl_NotificationConfig := None; acl_PrivateClusterConfig := None; acl_ReleaseChannel := None;
  acl_ResourceLabels := None; acl_ResourceUsageExportConfig := None; acl_SelfLink := "";
  acl_ServicesIpv4Cidr := ""; acl_Status := ""; acl_StatusMessage := ""; acl_Subnetwork := "";
  acl_TpuIpv4CidrBlock := ""; acl_VerticalPodAutoscaling := None; acl_WorkloadIdentityConfig := None;
  acl_Zone := ""; acl_rest := ∅ |}.
