(* ===== verification/ClusterGenerate.v ===== *)
(** * From the spec of a GKE cluster to the API and from the API to its status

    pkg/clients/cluster/cluster.go, lines 38 to 640: the Generate functions. Each
    changes one field of the API's cluster; what it does to the struct in that
    field is a function of its own, named in lower case. *)

From S2P Require Import Prelude Libs Gcp Nested ClusterTypes ContainerAPI.

Definition BootstrapNodePoolName : string := "crossplane-bootstrap".

Definition AddNodePoolForCreate (cluster : apiCluster) : apiCluster :=
  {| cluster with acl_NodePools := Some [Some {| zero_apiNodePool with
       anp_Name := BootstrapNodePoolName; anp_InitialNodeCount := 0%Z |}] |}.

(** ** Addons *)

Definition generate_cloud_run (i : CloudRunConfig) (c : apiCloudRunConfig) : apiCloudRunConfig :=
  {| c with
     acrc_Disabled := i.(crc_Disabled);
     acrc_LoadBalancerType := StringValue i.(crc_LoadBalancerType);
     acrc_ForceSendFields := Some ["Disabled"; "LoadBalancerType"] |}.
Definition generate_connector (i : ConfigConnectorConfig) (c : apiConfigConnectorConfig) : apiConfigConnectorConfig :=
  {| c with aconnector_Enabled := i.(connector_Enabled); aconnector_ForceSendFields := Some ["Enabled"] |}.
Definition generate_dns (i : DNSCacheConfig) (c : apiDnsCacheConfig) : apiDnsCacheConfig :=
  {| c with adns_Enabled := i.(dns_Enabled); adns_ForceSendFields := Some ["Enabled"] |}.
Definition generate_csi (i : GCEPersistentDiskCSIDriverConfig) (c : apiGcePersistentDiskCsiDriverConfig)
  : apiGcePersistentDiskCsiDriverConfig :=
  {| c with acsi_Enabled := i.(csi_Enabled); acsi_ForceSendFields := Some ["Enabled"] |}.
Definition generate_hpa (i : HorizontalPodAutoscaling) (c : apiHorizontalPodAutoscaling) : apiHorizontalPodAutoscaling :=
  {| c with ahpa_Disabled := i.(hpa_Disabled); ahpa_ForceSendFields := Some ["Disabled"] |}.
Definition generate_hlb (i : HTTPLoadBalancing) (c : apiHttpLoadBalancing) : apiHttpLoadBalancing :=
  {| c with ahlb_Disabled := i.(hlb_Disabled); ahlb_ForceSendFields := Some ["Disabled"] |}.
Definition generate_dashboard (i : KubernetesDashboard) (c : apiKubernetesDashboard) : apiKubernetesDashboard :=
  {| c with akd_Disabled := i.(kd_Disabled); akd_ForceSendFields := Some ["Disabled"] |}.
Definition generate_policy_config (i : NetworkPolicyConfig) (c : apiNetworkPolicyConfig) : apiNetworkPolicyConfig :=
  {| c with anpc_Disabled := i.(npc_Disabled); anpc_ForceSendFields := Some ["Disabled"] |}.

Definition generate_addons (i : AddonsConfig) (c : apiAddonsConfig) : apiAddonsConfig :=
  {| c with
     aac_CloudRunConfig := generate_ptr generate_cloud_run zero_apiCloudRunConfig i.(ac_CloudRunConfig) c.(aac_CloudRunConfig);
     aac_ConfigConnectorConfig := generate_ptr generate_connector zero_apiConfigConnectorConfig
       i.(ac_ConfigConnectorConfig) c.(aac_ConfigConnectorConfig);
     aac_DnsCacheConfig := generate_ptr generate_dns zero_apiDnsCacheConfig i.(ac_DNSCacheConfig) c.(aac_DnsCacheConfig);
     aac_GcePersistentDiskCsiDriverConfig := generate_ptr generate_csi zero_apiGcePersistentDiskCsiDriverConfig
       i.(ac_GCEPersistentDiskCSIDriverConfig) c.(aac_GcePersistentDiskCsiDriverConfig);
     aac_HorizontalPodAutoscaling := generate_ptr generate_hpa zero_apiHorizontalPodAutoscaling
       i.(ac_HorizontalPodAutoscaling) c.(aac_HorizontalPodAutoscaling);
     aac_HttpLoadBalancing := generate_ptr generate_hlb zero_apiHttpLoadBalancing i.(ac_HTTPLoadBalancing) c.(aac_HttpLoadBalancing);
     aac_KubernetesDashboard := generate_ptr generate_dashboard zero_apiKubernetesDashboard
       i.(ac_KubernetesDashboard) c.(aac_KubernetesDashboard);
     aac_NetworkPolicyConfig := generate_ptr generate_policy_config zero_apiNetworkPolicyConfig
       i.(ac_NetworkPolicyConfig) c.(aac_NetworkPolicyConfig) |}.
Definition GenerateAddonsConfig (i : ptr AddonsConfig) (cluster : apiCluster) : apiCluster :=
  {| cluster with acl_AddonsConfig := generate_ptr generate_addons zero_apiAddonsConfig i cluster.(acl_AddonsConfig) |}.

Definition generate_autopilot (i : Autopilot) (c : apiAutopilot) : apiAutopilot := {| c with aap_Enabled := i.(ap_Enabled) |}.
Definition GenerateAutopilot (i : ptr Autopilot) (cluster : apiCluster) : apiCluster :=
  {| cluster with acl_Autopilot := generate_ptr generate_autopilot zero_apiAutopilot i cluster.(acl_Autopilot) |}.

Definition generate_groups (i : AuthenticatorGroupsConfig) (c : apiAuthenticatorGroupsConfig) : apiAuthenticatorGroupsConfig :=
  {| c with aagc_Enabled := BoolValue i.(agc_Enabled); aagc_SecurityGroup := StringValue i.(agc_SecurityGroup) |}.
Definition GenerateAuthenticatorGroupsConfig (i : ptr AuthenticatorGroupsConfig) (cluster : apiCluster) : apiCluster :=
  {| cluster with acl_AuthenticatorGroupsConfig :=
       generate_ptr generate_groups zero_apiAuthenticatorGroupsConfig i cluster.(acl_AuthenticatorGroupsConfig) |}.

(** ** Autoscaling *)

Definition generate_management (i : NodeManagement) (c : apiNodeManagement) : apiNodeManagement :=
  {| c with anm_AutoRepair := BoolValue i.(nm_AutoRepair); anm_AutoUpgrade := BoolValue i.(nm_AutoUpgrade) |}.
Definition generate_shielded (i : ShieldedInstanceConfig) (c : apiShieldedInstanceConfig) : apiShieldedInstanceConfig :=
  {| c with asic_EnableIntegrityMonitoring := BoolValue i.(sic_EnableIntegrityMonitoring);
            asic_EnableSecureBoot := BoolValue i.(sic_EnableSecureBoot) |}.
Definition generate_upgrade (i : UpgradeSettings) (c : apiUpgradeSettings) : apiUpgradeSettings :=
  {| c with aus_MaxSurge := Int64Value i.(us_MaxSurge); aus_MaxUnavailable := Int64Value i.(us_MaxUnavailable) |}.

(** The disk type is not written. *)
Definition generate_defaults (i : AutoprovisioningNodePoolDefaults) (c : apiAutoprovisioningNodePoolDefaults)
  : apiAutoprovisioningNodePoolDefaults :=
  {| c with
     aapd_BootDiskKmsKey := StringValue i.(apd_BootDiskKMSKey);
     aapd_DiskSizeGb := Int64Value i.(apd_DiskSizeGb);
     aapd_MinCpuPlatform := StringValue i.(apd_MinCPUPlatform);
     aapd_OauthScopes := i.(apd_OauthScopes);
     aapd_ServiceAccount := StringValue i.(apd_ServiceAccount);
     aapd_Management := generate_ptr generate_management zero_apiNodeManagement i.(apd_Management) c.(aapd_Management);
     aapd_ShieldedInstanceConfig := generate_ptr generate_shielded zero_apiShieldedInstanceConfig
       i.(apd_ShieldedInstanceConfig) c.(aapd_ShieldedInstanceConfig);
     aapd_UpgradeSettings := generate_ptr generate_upgrade zero_apiUpgradeSettings
       i.(apd_UpgradeSettings) c.(aapd_UpgradeSettings) |}.
Definition generate_limit (limit : ResourceLimit) : apiResourceLimit :=
  {| zero_apiResourceLimit with
     arl_Maximum := Int64Value limit.(rl_Maximum);
     arl_Minimum := Int64Value limit.(rl_Minimum);
     arl_ResourceType := StringValue limit.(rl_ResourceType) |}.
Definition generate_autoscaling (i : ClusterAutoscaling) (c : apiClusterAutoscaling) : apiClusterAutoscaling :=
  {| c with
     aca_AutoprovisioningLocations := i.(ca_AutoprovisioningLocations);
     aca_EnableNodeAutoprovisioning := BoolValue i.(ca_EnableNodeAutoprovisioning);
     aca_AutoprovisioningNodePoolDefaults := generate_ptr generate_defaults zero_apiAutoprovisioningNodePoolDefaults
       i.(ca_AutoprovisioningNodePoolDefaults) c.(aca_AutoprovisioningNodePoolDefaults);
     aca_ResourceLimits := generate_elems generate_limit i.(ca_ResourceLimits) c.(aca_ResourceLimits) |}.
Definition GenerateAutoscaling (i : ptr ClusterAutoscaling) (cluster : apiCluster) : apiCluster :=
  {| cluster with acl_Autoscaling := generate_ptr generate_autoscaling zero_apiClusterAutoscaling i cluster.(acl_Autoscaling) |}.

(** ** Sections with a few plain fields *)

Definition generate_binary (i : BinaryAuthorization) (c : apiBinaryAuthorization) : apiBinaryAuthorization :=
  {| c with aba_Enabled := i.(ba_Enabled) |}.
Definition GenerateBinaryAuthorization (i : ptr BinaryAuthorization) (cluster : apiCluster) : apiCluster :=
  {| cluster with acl_BinaryAuthorization :=
       generate_ptr generate_binary zero_apiBinaryAuthorization i cluster.(acl_BinaryAuthorization) |}.

Definition generate_confidential (i : ConfidentialNodes) (c : apiConfidentialNodes) : apiConfidentialNodes :=
  {| c with acn_Enabled := i.(cn_Enabled) |}.
Definition GenerateConfidentialNodes (i : ptr ConfidentialNodes) (cluster : apiCluster) : apiCluster :=
  {| cluster with acl_ConfidentialNodes :=
       generate_ptr generate_confidential zero_apiConfidentialNodes i cluster.(acl_ConfidentialNodes) |}.

Definition generate_encryption (i : DatabaseEncryption) (c : apiDatabaseEncryption) : apiDatabaseEncryption :=
  {| c with ade_KeyName := StringValue i.(de_KeyName); ade_State := StringValue i.(de_State) |}.
Definition GenerateDatabaseEncryption (i : ptr DatabaseEncryption) (cluster : apiCluster) : apiCluster :=
  {| cluster with acl_DatabaseEncryption :=
       generate_ptr generate_encryption zero_apiDatabaseEncryption i cluster.(acl_DatabaseEncryption) |}.

Definition generate_max_pods (i : MaxPodsConstraint) (c : apiMaxPodsConstraint) : apiMaxPodsConstraint :=
  {| c with ampc_MaxPodsPerNode := i.(mpc_MaxPodsPerNode) |}.
Definition GenerateDefaultMaxPodsConstraint (i : ptr MaxPodsConstraint) (cluster : apiCluster) : apiCluster :=
  {| cluster with acl_DefaultMaxPodsConstraint :=
       generate_ptr generate_max_pods zero_apiMaxPodsConstraint i cluster.(acl_DefaultMaxPodsConstraint) |}.

Definition generate_ip_allocation (i : IPAllocationPolicy) (c : apiIPAllocationPolicy) : apiIPAllocationPolicy :=
  {| c with
     aipa_ClusterIpv4CidrBlock := StringValue i.(ipa_ClusterIpv4CidrBlock);
     aipa_ClusterSecondaryRangeName := StringValue i.(ipa_ClusterSecondaryRangeName);
     aipa_CreateSubnetwork := BoolValue i.(ipa_CreateSubnetwork);
     aipa_NodeIpv4CidrBlock := StringValue i.(ipa_NodeIpv4CidrBlock);
     aipa_ServicesIpv4CidrBlock := StringValue i.(ipa_ServicesIpv4CidrBlock);
     aipa_ServicesSecondaryRangeName := StringValue i.(ipa_ServicesSecondaryRangeName);
     aipa_SubnetworkName := StringValue i.(ipa_SubnetworkName);
     aipa_TpuIpv4CidrBlock := StringValue i.(ipa_TpuIpv4CidrBlock);
     aipa_UseIpAliases := BoolValue i.(ipa_UseIPAliases);
     aipa_UseRoutes := BoolValue i.(ipa_UseRoutes) |}.
Definition GenerateIPAllocationPolicy (i : ptr IPAllocationPolicy) (cluster : apiCluster) : apiCluster :=
  {| cluster with acl_IpAllocationPolicy :=
       generate_ptr generate_ip_allocation zero_apiIPAllocationPolicy i cluster.(acl_IpAllocationPolicy) |}.

Definition generate_abac (i : LegacyAbac) (c : apiLegacyAbac) : apiLegacyAbac := {| c with ala_Enabled := i.(la_Enabled) |}.
Definition GenerateLegacyAbac (i : ptr LegacyAbac) (cluster : apiCluster) : apiCluster :=
  {| cluster with acl_LegacyAbac := generate_ptr generate_abac zero_apiLegacyAbac i cluster.(acl_LegacyAbac) |}.

(** ** Maintenance *)

Definition generate_daily (i : DailyMaintenanceWindowSpec) (c : apiDailyMaintenanceWindow) : apiDailyMaintenanceWindow :=
  {| c with admw_StartTime := i.(dmws_StartTime) |}.
Definition generate_time_window (v : TimeWindow) : apiTimeWindow :=
  {| zero_apiTimeWindow with atw_EndTime := v.(tw_EndTime); atw_StartTime := v.(tw_StartTime) |}.
Definition generate_recurring (i : RecurringTimeWindow) (c : apiRecurringTimeWindow) : apiRecurringTimeWindow :=
  {| c with
     artw_Recurrence := match i.(rtw_Recurrence) with Some r => r | None => c.(artw_Recurrence) end;
     artw_Window := match i.(rtw_Window) with Some w => Some (generate_time_window w) | None => c.(artw_Window) end |}.
Definition generate_window (i : MaintenanceWindowSpec) (c : apiMaintenanceWindow) : apiMaintenanceWindow :=
  {| c with
     amw_DailyMaintenanceWindow := generate_ptr generate_daily zero_apiDailyMaintenanceWindow
       i.(mws_DailyMaintenanceWindow) c.(amw_DailyMaintenanceWindow);
     amw_MaintenanceExclusions :=
       match i.(mws_MaintenanceExclusions) with
       | Some m => Some (generate_time_window <$> m)
       | None => c.(amw_MaintenanceExclusions)
       end;
     amw_RecurringWindow := generate_ptr generate_recurring zero_apiRecurringTimeWindow
       i.(mws_RecurringWindow) c.(amw_RecurringWindow) |}.
Definition generate_maintenance (i : MaintenancePolicySpec) (c : apiMaintenancePolicy) : apiMaintenancePolicy :=
  {| c with amp_Window := Some (generate_window i.(mps_Window) (default zero_apiMaintenanceWindow c.(amp_Window))) |}.
Definition GenerateMaintenancePolicy (i : ptr MaintenancePolicySpec) (cluster : apiCluster) : apiCluster :=
  {| cluster with acl_MaintenancePolicy :=
       generate_ptr generate_maintenance zero_apiMaintenancePolicy i cluster.(acl_MaintenancePolicy) |}.

(** ** The master *)

Definition generate_certificate (i : ClientCertificateConfig) (c : apiClientCertificateConfig) : apiClientCertificateConfig :=
  {| c with accc_IssueClientCertificate := i.(ccc_IssueClientCertificate) |}.
Definition generate_master_auth (i : MasterAuth) (c : apiMasterAuth) : apiMasterAuth :=
  {| c with
     ama_Username := StringValue i.(ma_Username);
     ama_ClientCertificateConfig := generate_ptr generate_certificate zero_apiClientCertificateConfig
       i.(ma_ClientCertificateConfig) c.(ama_ClientCertificateConfig) |}.
Definition GenerateMasterAuth (i : ptr MasterAuth) (cluster : apiCluster) : apiCluster :=
  {| cluster with acl_MasterAuth := generate_ptr generate_master_auth zero_apiMasterAuth i cluster.(acl_MasterAuth) |}.

Definition generate_cidr (cidr : CidrBlock) : apiCidrBlock :=
  {| zero_apiCidrBlock with acb_CidrBlock := cidr.(cb_CidrBlock); acb_DisplayName := StringValue cidr.(cb_DisplayName) |}.
Definition generate_authorized (i : MasterAuthorizedNetworksConfig) (c : apiMasterAuthorizedNetworksConfig)
  : apiMasterAuthorizedNetworksConfig :=
  {| c with
     amanc_Enabled := BoolValue i.(manc_Enabled);
     amanc_CidrBlocks := generate_elems generate_cidr i.(manc_CidrBlocks) c.(amanc_CidrBlocks) |}.
Definition GenerateMasterAuthorizedNetworksConfig (i : ptr MasterAuthorizedNetworksConfig) (cluster : apiCluster) : apiCluster :=
  {| cluster with acl_MasterAuthorizedNetworksConfig :=
       generate_ptr generate_authorized zero_apiMasterAuthorizedNetworksConfig i cluster.(acl_MasterAuthorizedNetworksConfig) |}.

(** ** Networking *)

Definition generate_snat (i : DefaultSnatStatus) (c : apiDefaultSnatStatus) : apiDefaultSnatStatus :=
  {| c with adss_Disabled := i.(dss_Disabled) |}.
Definition generate_network_config (i : NetworkConfigSpec) (c : apiNetworkConfig) : apiNetworkConfig :=
  {| c with
     anc_EnableIntraNodeVisibility := BoolValue i.(ncs_EnableIntraNodeVisibility);
     anc_PrivateIpv6GoogleAccess := StringValue i.(ncs_PrivateIpv6GoogleAccess);
     anc_DatapathProvider := StringValue i.(ncs_DatapathProvider);
     anc_DefaultSnatStatus := generate_ptr generate_snat zero_apiDefaultSnatStatus
       i.(ncs_DefaultSnatStatus) c.(anc_DefaultSnatStatus) |}.
Definition GenerateNetworkConfig (i : ptr NetworkConfigSpec) (cluster : apiCluster) : apiCluster :=
  {| cluster with acl_NetworkConfig := generate_ptr generate_network_config zero_apiNetworkConfig i cluster.(acl_NetworkConfig) |}.

Definition generate_network_policy (i : NetworkPolicy) (c : apiNetworkPolicy) : apiNetworkPolicy :=
  {| c with anetp_Enabled := BoolValue i.(netp_Enabled); anetp_Provider := StringValue i.(netp_Provider) |}.
Definition GenerateNetworkPolicy (i : ptr NetworkPolicy) (cluster : apiCluster) : apiCluster :=
  {| cluster with acl_NetworkPolicy := generate_ptr generate_network_policy zero_apiNetworkPolicy i cluster.(acl_NetworkPolicy) |}.

(** A topic that is there already is not touched. *)
Definition generate_notification (i : NotificationConfig) (c : apiNotificationConfig) : apiNotificationConfig :=
  match c.(anotif_Pubsub) with
  | Some _ => c
  | None => {| c with anotif_Pubsub := Some {| zero_apiPubSub with
      apubsub_Enabled := i.(notif_Pubsub).(pubsub_Enabled); apubsub_Topic := i.(notif_Pubsub).(pubsub_Topic) |} |}
  end.
Definition GenerateNotificationConfig (i : ptr NotificationConfig) (cluster : apiCluster) : apiCluster :=
  {| cluster with acl_NotificationConfig :=
       generate_ptr generate_notification zero_apiNotificationConfig i cluster.(acl_NotificationConfig) |}.

Definition generate_private (i : PrivateClusterConfigSpec) (c : apiPrivateClusterConfig) : apiPrivateClusterConfig :=
  {| c with
     apcc_EnablePrivateEndpoint := BoolValue i.(pccs_EnablePrivateEndpoint);
     apcc_EnablePrivateNodes := BoolValue i.(pccs_EnablePrivateNodes);
     apcc_MasterIpv4CidrBlock := StringValue i.(pccs_MasterIpv4CidrBlock);
     apcc_MasterGlobalAccessConfig :=
       match i.(pccs_MasterGlobalAccessConfig) with
       | Some g => Some {| zero_apiPrivateClusterMasterGlobalAccessConfig with apcmgac_Enabled := g.(pcmgac_Enabled) |}
       | None => c.(apcc_MasterGlobalAccessConfig)
       end |}.
Definition GeneratePrivateClusterConfig (i : ptr PrivateClusterConfigSpec) (cluster : apiCluster) : apiCluster :=
  {| cluster with acl_PrivateClusterConfig :=
       generate_ptr generate_private zero_apiPrivateClusterConfig i cluster.(acl_PrivateClusterConfig) |}.

(** ** Releases, usage export, pod autoscaling and identity *)

Definition generate_channel (i : ReleaseChannel) (c : apiReleaseChannel) : apiReleaseChannel :=
  {| c with arc_Channel := i.(rc_Channel) |}.
Definition GenerateReleaseChannel (i : ptr ReleaseChannel) (cluster : apiCluster) : apiCluster :=
  {| cluster with acl_ReleaseChannel := generate_ptr generate_channel zero_apiReleaseChannel i cluster.(acl_ReleaseChannel) |}.

Definition generate_bigquery (i : BigQueryDestination) (c : apiBigQueryDestination) : apiBigQueryDestination :=
  {| c with abqd_DatasetId := i.(bqd_DatasetID) |}.
Definition generate_metering (i : ConsumptionMeteringConfig) (c : apiConsumptionMeteringConfig) : apiConsumptionMeteringConfig :=
  {| c with acmc_Enabled := i.(cmc_Enabled) |}.
Definition generate_usage (i : ResourceUsageExportConfig) (c : apiResourceUsageExportConfig) : apiResourceUsageExportConfig :=
  {| c with
     aruec_EnableNetworkEgressMetering := BoolValue i.(ruec_EnableNetworkEgressMetering);
     aruec_BigqueryDestination := generate_ptr generate_bigquery zero_apiBigQueryDestination
       i.(ruec_BigqueryDestination) c.(aruec_BigqueryDestination);
     aruec_ConsumptionMeteringConfig := generate_ptr generate_metering zero_apiConsumptionMeteringConfig
       i.(ruec_ConsumptionMeteringConfig) c.(aruec_ConsumptionMeteringConfig) |}.
Definition GenerateResourceUsageExportConfig (i : ptr ResourceUsageExportConfig) (cluster : apiCluster) : apiCluster :=
  {| cluster with acl_ResourceUsageExportConfig :=
       generate_ptr generate_usage zero_apiResourceUsageExportConfig i cluster.(acl_ResourceUsageExportConfig) |}.

Definition generate_vpa (i : VerticalPodAutoscaling) (c : apiVerticalPodAutoscaling) : apiVerticalPodAutoscaling :=
  {| c with avpa_Enabled := i.(vpa_Enabled) |}.
Definition GenerateVerticalPodAutoscaling (i : ptr VerticalPodAutoscaling) (cluster : apiCluster) : apiCluster :=
  {| cluster with acl_VerticalPodAutoscaling :=
       generate_ptr generate_vpa zero_apiVerticalPodAutoscaling i cluster.(acl_VerticalPodAutoscaling) |}.

Definition generate_identity (i : WorkloadIdentityConfig) (c : apiWorkloadIdentityConfig) : apiWorkloadIdentityConfig :=
  {| c with awic_WorkloadPool := i.(wic_WorkloadPool) |}.
Definition GenerateWorkloadIdentityConfig (i : ptr WorkloadIdentityConfig) (cluster : apiCluster) : apiCluster :=
  {| cluster with acl_WorkloadIdentityConfig :=
       generate_ptr generate_identity zero_apiWorkloadIdentityConfig i cluster.(acl_WorkloadIdentityConfig) |}.

(** ** The whole cluster *)

Definition GenerateCluster (name : string) (i : ClusterParameters) (cluster : apiCluster) : apiCluster :=
  let cluster := {| cluster with
    acl_ClusterIpv4Cidr := StringValue i.(cp_ClusterIpv4Cidr);
    acl_Description := StringValue i.(cp_Description);
    acl_EnableKubernetesAlpha := BoolValue i.(cp_EnableKubernetesAlpha);
    acl_EnableTpu := BoolValue i.(cp_EnableTpu);
    acl_InitialClusterVersion := StringValue i.(cp_InitialClusterVersion);
    acl_LabelFingerprint := StringValue i.(cp_LabelFingerprint);
    acl_Locations := i.(cp_Locations);
    acl_LoggingService := StringValue i.(cp_LoggingService);
    acl_MonitoringService := StringValue i.(cp_MonitoringService);
    acl_Name := name;
    acl_Network := StringValue i.(cp_Network);
    acl_ResourceLabels := i.(cp_ResourceLabels);
    acl_Subnetwork := StringValue i.(cp_Subnetwork) |} in
  let cluster := GenerateAddonsConfig i.(cp_AddonsConfig) cluster in
  let cluster := GenerateAutopilot i.(cp_Autopilot) cluster in
  let cluster := GenerateAuthenticatorGroupsConfig i.(cp_AuthenticatorGroupsConfig) cluster in
  let cluster := GenerateAutoscaling i.(cp_Autoscaling) cluster in
  let cluster := GenerateConfidentialNodes i.(cp_ConfidentialNodes) cluster in
  let cluster := GenerateBinaryAuthorization i.(cp_BinaryAuthorization) cluster in
  let cluster := GenerateDatabaseEncryption i.(cp_DatabaseEncryption) cluster in
  let cluster := GenerateDefaultMaxPodsConstraint i.(cp_DefaultMaxPodsConstraint) cluster in
  let cluster := GenerateIPAllocationPolicy i.(cp_IPAllocationPolicy) cluster in
  let cluster := GenerateLegacyAbac i.(cp_LegacyAbac) cluster in
  let cluster := GenerateMaintenancePolicy i.(cp_MaintenancePolicy) cluster in
  let cluster := GenerateMasterAuth i.(cp_MasterAuth) cluster in
  let cluster := GenerateMasterAuthorizedNetworksConfig i.(cp_MasterAuthorizedNetworksConfig) cluster in
  let cluster := GenerateNetworkConfig i.(cp_NetworkConfig) cluster in
  let cluster := GenerateNetworkPolicy i.(cp_NetworkPolicy) cluster in
  let cluster := GenerateNotificationConfig i.(cp_NotificationConfig) cluster in
  let cluster := GeneratePrivateClusterConfig i.(cp_PrivateClusterConfig) cluster in
  let cluster := GenerateReleaseChannel i.(cp_ReleaseChannel) cluster in
  let cluster := GenerateResourceUsageExportConfig i.(cp_ResourceUsageExportConfig) cluster in
  let cluster := GenerateVerticalPodAutoscaling i.(cp_VerticalPodAutoscaling) cluster in
  GenerateWorkloadIdentityConfig i.(cp_WorkloadIdentityConfig) cluster.

(** ** The status *)

Definition observe_condition (c : apiStatusCondition) : StatusCondition := {|
  sc_Code := c.(asc_Code); sc_Message := c.(asc_Message) |}.
Definition observe_node_config (c : apiNodeConfig) : NodeConfigClusterStatus := {|
  nccs_Accelerators := collect (λ a, {|
    accs_AcceleratorCount := a.(aacc_AcceleratorCount); accs_AcceleratorType := a.(aacc_AcceleratorType) |}) c.(anodec_Accelerators);
  nccs_DiskSizeGb := c.(anodec_DiskSizeGb);
  nccs_DiskType := c.(anodec_DiskType);
  nccs_ImageType := c.(anodec_ImageType);
  nccs_Labels := c.(anodec_Labels);
  nccs_LocalSsdCount := c.(anodec_LocalSsdCount);
  nccs_MachineType := c.(anodec_MachineType);
  nccs_Metadata := c.(anodec_Metadata);
  nccs_MinCPUPlatform := c.(anodec_MinCpuPlatform);
  nccs_OauthScopes := c.(anodec_OauthScopes);
  nccs_Preemptible := c.(anodec_Preemptible);
  nccs_SandboxConfig := (λ s, {| sccs_Type := s.(asandbox_Type) |}) <$> c.(anodec_SandboxConfig);
  nccs_ServiceAccount := c.(anodec_ServiceAccount);
  nccs_ShieldedInstanceConfig := (λ s, {|
    siccs_EnableIntegrityMonitoring := s.(asic_EnableIntegrityMonitoring);
    siccs_EnableSecureBoot := s.(asic_EnableSecureBoot) |}) <$> c.(anodec_ShieldedInstanceConfig);
  nccs_Tags := c.(anodec_Tags);
  nccs_Taints := collect (λ t, {|
    ntcs_Effect := t.(ataint_Effect); ntcs_Key := t.(ataint_Key); ntcs_Value := t.(ataint_Value) |}) c.(anodec_Taints) |}.
(** The initial node count, the locations, the management and the constraint on
    pods of a pool are left out. *)
Definition observe_node_pool (nodePool : apiNodePool) : NodePoolClusterStatus := {|
  npcs_Autoscaling := (λ a, {|
    npacs_Autoprovisioned := a.(anpas_Autoprovisioned); npacs_Enabled := a.(anpas_Enabled);
    npacs_MaxNodeCount := a.(anpas_MaxNodeCount); npacs_MinNodeCount := a.(anpas_MinNodeCount) |}) <$> nodePool.(anp_Autoscaling);
  npcs_Conditions := collect observe_condition nodePool.(anp_Conditions);
  npcs_Config := observe_node_config <$> nodePool.(anp_Config);
  npcs_InitialNodeCount := 0%Z;
  npcs_InstanceGroupUrls := nodePool.(anp_InstanceGroupUrls);
  npcs_Locations := None;
  npcs_Management := None;
  npcs_MaxPodsConstraint := None;
  npcs_Name := nodePool.(anp_Name);
  npcs_PodIpv4CidrSize := nodePool.(anp_PodIpv4CidrSize);
  npcs_SelfLink := nodePool.(anp_SelfLink);
  npcs_Status := nodePool.(anp_Status);
  npcs_StatusMessage := nodePool.(anp_StatusMessage);
  npcs_Version := nodePool.(anp_Version) |}.

Definition GenerateObservation (c : apiCluster) : ClusterObservation := {|
  co_Conditions := collect observe_condition c.(acl_Conditions);
  co_CreateTime := c.(acl_CreateTime);
  co_CurrentMasterVersion := c.(acl_CurrentMasterVersion);
  co_CurrentNodeCount := c.(acl_CurrentNodeCount);
  co_CurrentNodeVersion := c.(acl_CurrentNodeVersion);
  co_Endpoint := c.(acl_Endpoint);
  co_ExpireTime := c.(acl_ExpireTime);
  co_Location := c.(acl_Location);
  co_MaintenancePolicy :=
    mp ← c.(acl_MaintenancePolicy); w ← mp.(amp_Window); d ← w.(amw_DailyMaintenanceWindow);
    Some {| mpst_Window := {| mwst_DailyMaintenanceWindow := {| dmwst_Duration := d.(admw_Duration) |} |} |};
  co_NetworkConfig := (λ n, {| ncst_Network := n.(anc_Network); ncst_Subnetwork := n.(anc_Subnetwork) |}) <$> c.(acl_NetworkConfig);
  co_NodeIpv4CidrSize := c.(acl_NodeIpv4CidrSize);
  co_PrivateClusterConfig := (λ p, {|
    pcst_PrivateEndpoint := p.(apcc_PrivateEndpoint); pcst_PublicEndpoint := p.(apcc_PublicEndpoint) |}) <$> c.(acl_PrivateClusterConfig);
  co_NodePools := collect observe_node_pool c.(acl_NodePools);
  co_SelfLink := c.(acl_SelfLink);
  co_ServicesIpv4Cidr := c.(acl_ServicesIpv4Cidr);
  co_Status := c.(acl_Status);
  co_StatusMessage := c.(acl_StatusMessage);
  co_TpuIpv4CidrBlock := c.(acl_TpuIpv4CidrBlock);
  co_Zone := c.(acl_Zone) |}.
