(* ===== verification/ClusterLate.v ===== *)
(** * Late initialization of a GKE cluster

    LateInitializeSpec of pkg/clients/cluster/cluster.go, lines 644 to 958, with
    the nil dereferences it contains, and what it does to the user's choices. *)

From S2P Require Import Prelude Libs Gcp Nested ClusterTypes ContainerAPI ClusterGenerate.

(** ** Addons *)

(** The branch of the source that would create the Cloud Run config tests the
    observed config, not the spec's, so it never runs; the spec's is dereferenced
    as it is. *)
Definition late_cloud_run (x : ptr CloudRunConfig) (y : ptr apiCloudRunConfig) : outcome (ptr CloudRunConfig) :=
  match y with
  | None => Returns x
  | Some c =>
    s ← deref x;
    Returns (Some {| s with crc_LoadBalancerType := LateInitializeString s.(crc_LoadBalancerType) c.(acrc_LoadBalancerType) |})
  end.
Definition late_addons (c : apiAddonsConfig) (s : AddonsConfig) : outcome AddonsConfig :=
  cr ← late_cloud_run s.(ac_CloudRunConfig) c.(aac_CloudRunConfig);
  Returns {|
    ac_CloudRunConfig := cr;
    ac_ConfigConnectorConfig := late_new (λ a, {| connector_Enabled := a.(aconnector_Enabled) |})
      s.(ac_ConfigConnectorConfig) c.(aac_ConfigConnectorConfig);
    ac_DNSCacheConfig := late_new (λ a, {| dns_Enabled := a.(adns_Enabled) |}) s.(ac_DNSCacheConfig) c.(aac_DnsCacheConfig);
    ac_GCEPersistentDiskCSIDriverConfig := late_new (λ a, {| csi_Enabled := a.(acsi_Enabled) |})
      s.(ac_GCEPersistentDiskCSIDriverConfig) c.(aac_GcePersistentDiskCsiDriverConfig);
    ac_HorizontalPodAutoscaling := late_new (λ a, {| hpa_Disabled := a.(ahpa_Disabled) |})
      s.(ac_HorizontalPodAutoscaling) c.(aac_HorizontalPodAutoscaling);
    ac_HTTPLoadBalancing := late_new (λ a, {| hlb_Disabled := a.(ahlb_Disabled) |})
      s.(ac_HTTPLoadBalancing) c.(aac_HttpLoadBalancing);
    ac_KubernetesDashboard := late_new (λ a, {| kd_Disabled := a.(akd_Disabled) |})
      s.(ac_KubernetesDashboard) c.(aac_KubernetesDashboard);
    ac_NetworkPolicyConfig := late_new (λ a, {| npc_Disabled := a.(anpc_Disabled) |})
      s.(ac_NetworkPolicyConfig) c.(aac_NetworkPolicyConfig) |}.
Definition no_addons : AddonsConfig := {|
  ac_CloudRunConfig := None; ac_ConfigConnectorConfig := None; ac_DNSCacheConfig := None;
  ac_GCEPersistentDiskCSIDriverConfig := None; ac_HorizontalPodAutoscaling := None; ac_HTTPLoadBalancing := None;
  ac_KubernetesDashboard := None; ac_NetworkPolicyConfig := None |}.

Definition late_groups (c : apiAuthenticatorGroupsConfig) (s : AuthenticatorGroupsConfig) : AuthenticatorGroupsConfig := {|
  agc_Enabled := LateInitializeBool s.(agc_Enabled) c.(aagc_Enabled);
  agc_SecurityGroup := LateInitializeString s.(agc_SecurityGroup) c.(aagc_SecurityGroup) |}.
Definition no_groups : AuthenticatorGroupsConfig := {| agc_Enabled := None; agc_SecurityGroup := None |}.

(** ** Autoscaling *)

Definition late_management (c : apiNodeManagement) (s : NodeManagement) : NodeManagement := {|
  nm_AutoRepair := LateInitializeBool s.(nm_AutoRepair) c.(anm_AutoRepair);
  nm_AutoUpgrade := LateInitializeBool s.(nm_AutoUpgrade) c.(anm_AutoUpgrade) |}.
Definition late_shielded (c : apiShieldedInstanceConfig) (s : ShieldedInstanceConfig) : ShieldedInstanceConfig := {|
  sic_EnableIntegrityMonitoring := LateInitializeBool s.(sic_EnableIntegrityMonitoring) c.(asic_EnableIntegrityMonitoring);
  sic_EnableSecureBoot := LateInitializeBool s.(sic_EnableSecureBoot) c.(asic_EnableSecureBoot) |}.
Definition late_upgrade (c : apiUpgradeSettings) (s : UpgradeSettings) : UpgradeSettings := {|
  us_MaxSurge := LateInitializeInt64 s.(us_MaxSurge) c.(aus_MaxSurge);
  us_MaxUnavailable := LateInitializeInt64 s.(us_MaxUnavailable) c.(aus_MaxUnavailable) |}.
Definition late_defaults (c : apiAutoprovisioningNodePoolDefaults) (s : AutoprovisioningNodePoolDefaults)
  : AutoprovisioningNodePoolDefaults := {|
  apd_BootDiskKMSKey := LateInitializeString s.(apd_BootDiskKMSKey) c.(aapd_BootDiskKmsKey);
  apd_DiskSizeGb := LateInitializeInt64 s.(apd_DiskSizeGb) c.(aapd_DiskSizeGb);
  apd_DiskType := LateInitializeString s.(apd_DiskType) c.(aapd_DiskType);
  apd_Management := late_ptr late_management {| nm_AutoRepair := None; nm_AutoUpgrade := None |}
    s.(apd_Management) c.(aapd_Management);
  apd_MinCPUPlatform := LateInitializeString s.(apd_MinCPUPlatform) c.(aapd_MinCpuPlatform);
  apd_OauthScopes := LateInitializeStringSlice s.(apd_OauthScopes) c.(aapd_OauthScopes);
  apd_ServiceAccount := LateInitializeString s.(apd_ServiceAccount) c.(aapd_ServiceAccount);
  apd_ShieldedInstanceConfig := late_ptr late_shielded {| sic_EnableIntegrityMonitoring := None; sic_EnableSecureBoot := None |}
    s.(apd_ShieldedInstanceConfig) c.(aapd_ShieldedInstanceConfig);
  apd_UpgradeSettings := late_ptr late_upgrade {| us_MaxSurge := None; us_MaxUnavailable := None |}
    s.(apd_UpgradeSettings) c.(aapd_UpgradeSettings) |}.
Definition no_defaults : AutoprovisioningNodePoolDefaults := {|
  apd_BootDiskKMSKey := None; apd_DiskSizeGb := None; apd_DiskType := None; apd_Management := None;
  apd_MinCPUPlatform := None; apd_OauthScopes := None; apd_ServiceAccount := None; apd_ShieldedInstanceConfig := None;
  apd_UpgradeSettings := None |}.
Definition late_limit (limit : apiResourceLimit) : ResourceLimit := {|
  rl_Maximum := Some limit.(arl_Maximum); rl_Minimum := Some limit.(arl_Minimum);
  rl_ResourceType := Some limit.(arl_ResourceType) |}.
Definition late_autoscaling (c : apiClusterAutoscaling) (s : ClusterAutoscaling) : outcome ClusterAutoscaling :=
  limits ← late_elems late_limit s.(ca_ResourceLimits) c.(aca_ResourceLimits);
  Returns {|
    ca_AutoprovisioningLocations := LateInitializeStringSlice s.(ca_AutoprovisioningLocations) c.(aca_AutoprovisioningLocations);
    ca_AutoprovisioningNodePoolDefaults := late_ptr late_defaults no_defaults
      s.(ca_AutoprovisioningNodePoolDefaults) c.(aca_AutoprovisioningNodePoolDefaults);
    ca_EnableNodeAutoprovisioning := LateInitializeBool s.(ca_EnableNodeAutoprovisioning) c.(aca_EnableNodeAutoprovisioning);
    ca_ResourceLimits := limits |}.
Definition no_autoscaling : ClusterAutoscaling := {|
  ca_AutoprovisioningLocations := None; ca_AutoprovisioningNodePoolDefaults := None; ca_EnableNodeAutoprovisioning := None;
  ca_ResourceLimits := None |}.

(** ** Plain sections *)

Definition late_encryption (c : apiDatabaseEncryption) (s : DatabaseEncryption) : DatabaseEncryption := {|
  de_KeyName := LateInitializeString s.(de_KeyName) c.(ade_KeyName);
  de_State := LateInitializeString s.(de_State) c.(ade_State) |}.
Definition late_ip_allocation (c : apiIPAllocationPolicy) (s : IPAllocationPolicy) : IPAllocationPolicy :=
  {| s with
     ipa_ClusterIpv4CidrBlock := LateInitializeString s.(ipa_ClusterIpv4CidrBlock) c.(aipa_ClusterIpv4CidrBlock);
     ipa_ClusterSecondaryRangeName := LateInitializeString s.(ipa_ClusterSecondaryRangeName) c.(aipa_ClusterSecondaryRangeName);
     ipa_CreateSubnetwork := LateInitializeBool s.(ipa_CreateSubnetwork) c.(aipa_CreateSubnetwork);
     ipa_NodeIpv4CidrBlock := LateInitializeString s.(ipa_NodeIpv4CidrBlock) c.(aipa_NodeIpv4CidrBlock);
     ipa_ServicesIpv4CidrBlock := LateInitializeString s.(ipa_ServicesIpv4CidrBlock) c.(aipa_ServicesIpv4CidrBlock);
     ipa_SubnetworkName := LateInitializeString s.(ipa_SubnetworkName) c.(aipa_SubnetworkName);
     ipa_TpuIpv4CidrBlock := LateInitializeString s.(ipa_TpuIpv4CidrBlock) c.(aipa_TpuIpv4CidrBlock);
     ipa_UseIPAliases := LateInitializeBool s.(ipa_UseIPAliases) c.(aipa_UseIpAliases) |}.
Definition no_ip_allocation : IPAllocationPolicy := {|
  ipa_ClusterIpv4CidrBlock := None; ipa_ClusterSecondaryRangeName := None; ipa_CreateSubnetwork := None;
  ipa_NodeIpv4CidrBlock := None; ipa_ServicesIpv4CidrBlock := None; ipa_ServicesSecondaryRangeName := None;
  ipa_SubnetworkName := None; ipa_TpuIpv4CidrBlock := None; ipa_UseIPAliases := None; ipa_UseRoutes := None |}.

(** ** Maintenance *)

Definition no_window : MaintenanceWindowSpec := {|
  mws_DailyMaintenanceWindow := None; mws_MaintenanceExclusions := None; mws_RecurringWindow := None |}.
(** The recurring window copies its times from the spec's own window, which was
    created a few lines before and has none. *)
Definition late_maintenance (x : ptr MaintenancePolicySpec) (y : ptr apiMaintenancePolicy) : outcome (ptr MaintenancePolicySpec) :=
  match x, y with
  | None, Some mp =>
    match mp.(amp_Window) with
    | None => Returns None
    | Some w =>
      let s := no_window in
      let s := {| s with mws_DailyMaintenanceWindow :=
        match w.(amw_DailyMaintenanceWindow) with
        | Some d => Some {| dmws_StartTime := d.(admw_StartTime) |}
        | None => s.(mws_DailyMaintenanceWindow)
        end |} in
      let s := {| s with mws_MaintenanceExclusions :=
        match w.(amw_MaintenanceExclusions) with
        | Some m => Some ((λ v, {| tw_EndTime := v.(atw_EndTime); tw_StartTime := v.(atw_StartTime) |}) <$> m)
        | None => s.(mws_MaintenanceExclusions)
        end |} in
      match w.(amw_RecurringWindow) with
      | None => Returns (Some {| mps_Window := s |})
      | Some r =>
        own ← deref s.(mws_RecurringWindow);
        times ← deref own.(rtw_Window);
        Returns (Some {| mps_Window := {| s with mws_RecurringWindow := Some {|
          rtw_Recurrence := Some r.(artw_Recurrence);
          rtw_Window := Some {| tw_EndTime := times.(tw_EndTime); tw_StartTime := times.(tw_StartTime) |} |} |} |})
      end
    end
  | _, _ => Returns x
  end.

(** ** The master and the networks *)

Definition late_master_auth (c : apiMasterAuth) (s : MasterAuth) : MasterAuth := {|
  ma_ClientCertificateConfig :=
    match c.(ama_ClientCertificateConfig) with
    | Some a => Some {| ccc_IssueClientCertificate := a.(accc_IssueClientCertificate) |}
    | None => s.(ma_ClientCertificateConfig)
    end;
  ma_Username := LateInitializeString s.(ma_Username) c.(ama_Username) |}.
Definition late_cidr (block : apiCidrBlock) : CidrBlock := {|
  cb_CidrBlock := block.(acb_CidrBlock); cb_DisplayName := Some block.(acb_DisplayName) |}.
Definition late_authorized (c : apiMasterAuthorizedNetworksConfig) (s : MasterAuthorizedNetworksConfig)
  : outcome MasterAuthorizedNetworksConfig :=
  blocks ← late_elems late_cidr s.(manc_CidrBlocks) c.(amanc_CidrBlocks);
  Returns {| manc_CidrBlocks := blocks; manc_Enabled := LateInitializeBool s.(manc_Enabled) c.(amanc_Enabled) |}.
Definition late_network_config (c : apiNetworkConfig) (s : NetworkConfigSpec) : NetworkConfigSpec := {|
  ncs_EnableIntraNodeVisibility := LateInitializeBool s.(ncs_EnableIntraNodeVisibility) c.(anc_EnableIntraNodeVisibility);
  ncs_PrivateIpv6GoogleAccess := LateInitializeString s.(ncs_PrivateIpv6GoogleAccess) c.(anc_PrivateIpv6GoogleAccess);
  ncs_DatapathProvider := LateInitializeString s.(ncs_DatapathProvider) c.(anc_DatapathProvider);
  ncs_DefaultSnatStatus := late_new (λ a, {| dss_Disabled := a.(adss_Disabled) |})
    s.(ncs_DefaultSnatStatus) c.(anc_DefaultSnatStatus) |}.
Definition no_network_config : NetworkConfigSpec := {|
  ncs_DatapathProvider := None; ncs_DefaultSnatStatus := None; ncs_EnableIntraNodeVisibility := None;
  ncs_PrivateIpv6GoogleAccess := None |}.
Definition late_network_policy (c : apiNetworkPolicy) (s : NetworkPolicy) : NetworkPolicy := {|
  netp_Enabled := LateInitializeBool s.(netp_Enabled) c.(anetp_Enabled);
  netp_Provider := LateInitializeString s.(netp_Provider) c.(anetp_Provider) |}.
Definition late_private (c : apiPrivateClusterConfig) (s : PrivateClusterConfigSpec) : PrivateClusterConfigSpec := {|
  pccs_EnablePrivateEndpoint := LateInitializeBool s.(pccs_EnablePrivateEndpoint) c.(apcc_EnablePrivateEndpoint);
  pccs_EnablePrivateNodes := LateInitializeBool s.(pccs_EnablePrivateNodes) c.(apcc_EnablePrivateNodes);
  pccs_MasterIpv4CidrBlock := LateInitializeString s.(pccs_MasterIpv4CidrBlock) c.(apcc_MasterIpv4CidrBlock);
  pccs_MasterGlobalAccessConfig := late_new (λ a, {| pcmgac_Enabled := a.(apcmgac_Enabled) |})
    s.(pccs_MasterGlobalAccessConfig) c.(apcc_MasterGlobalAccessConfig) |}.
Definition no_private : PrivateClusterConfigSpec := {|
  pccs_EnablePrivateEndpoint := None; pccs_EnablePrivateNodes := None; pccs_MasterGlobalAccessConfig := None;
  pccs_MasterIpv4CidrBlock := None |}.

Definition late_notification (x : ptr NotificationConfig) (y : ptr apiNotificationConfig) : ptr NotificationConfig :=
  match y, x with
  | Some n, None =>
    (λ p, {| notif_Pubsub := {| pubsub_Enabled := p.(apubsub_Enabled); pubsub_Topic := p.(apubsub_Topic) |} |})
      <$> n.(anotif_Pubsub)
  | _, _ => x
  end.

Definition late_usage (c : apiResourceUsageExportConfig) (s : ResourceUsageExportConfig) : ResourceUsageExportConfig := {|
  ruec_BigqueryDestination := late_new (λ a, {| bqd_DatasetID := a.(abqd_DatasetId) |})
    s.(ruec_BigqueryDestination) c.(aruec_BigqueryDestination);
  ruec_ConsumptionMeteringConfig := late_new (λ a, {| cmc_Enabled := a.(acmc_Enabled) |})
    s.(ruec_ConsumptionMeteringConfig) c.(aruec_ConsumptionMeteringConfig);
  ruec_EnableNetworkEgressMetering := LateInitializeBool s.(ruec_EnableNetworkEgressMetering) c.(aruec_EnableNetworkEgressMetering) |}.

(** ** The whole spec *)

Definition LateInitializeSpec (spec : ClusterParameters) (c : apiCluster) : outcome ClusterParameters :=
  addons ← late_ptr_try late_addons no_addons spec.(cp_AddonsConfig) c.(acl_AddonsConfig);
  autoscaling ← late_ptr_try late_autoscaling no_autoscaling spec.(cp_Autoscaling) c.(acl_Autoscaling);
  maintenance ← late_maintenance spec.(cp_MaintenancePolicy) c.(acl_MaintenancePolicy);
  authorized ← late_ptr_try late_authorized {| manc_CidrBlocks := None; manc_Enabled := None |}
    spec.(cp_MasterAuthorizedNetworksConfig) c.(acl_MasterAuthorizedNetworksConfig);
  Returns {| spec with
    cp_AddonsConfig := addons;
    cp_AuthenticatorGroupsConfig := late_ptr late_groups no_groups
      spec.(cp_AuthenticatorGroupsConfig) c.(acl_AuthenticatorGroupsConfig);
    cp_Autoscaling := autoscaling;
    cp_BinaryAuthorization := late_new (λ a, {| ba_Enabled := a.(aba_Enabled) |})
      spec.(cp_BinaryAuthorization) c.(acl_BinaryAuthorization);
    cp_ClusterIpv4Cidr := LateInitializeString spec.(cp_ClusterIpv4Cidr) c.(acl_ClusterIpv4Cidr);
    cp_DatabaseEncryption := late_ptr late_encryption {| de_KeyName := None; de_State := None |}
      spec.(cp_DatabaseEncryption) c.(acl_DatabaseEncryption);
    cp_DefaultMaxPodsConstraint := late_new (λ a, {| mpc_MaxPodsPerNode := a.(ampc_MaxPodsPerNode) |})
      spec.(cp_DefaultMaxPodsConstraint) c.(acl_DefaultMaxPodsConstraint);
    cp_Description := LateInitializeString spec.(cp_Description) c.(acl_Description);
    cp_EnableKubernetesAlpha := LateInitializeBool spec.(cp_EnableKubernetesAlpha) c.(acl_EnableKubernetesAlpha);
    cp_EnableTpu := LateInitializeBool spec.(cp_EnableTpu) c.(acl_EnableTpu);
    cp_InitialClusterVersion := LateInitializeString spec.(cp_InitialClusterVersion) c.(acl_InitialClusterVersion);
    cp_IPAllocationPolicy := late_ptr late_ip_allocation no_ip_allocation
      spec.(cp_IPAllocationPolicy) c.(acl_IpAllocationPolicy);
    cp_LabelFingerprint := LateInitializeString spec.(cp_LabelFingerprint) c.(acl_LabelFingerprint);
    cp_LegacyAbac := late_new (λ a, {| la_Enabled := a.(ala_Enabled) |}) spec.(cp_LegacyAbac) c.(acl_LegacyAbac);
    cp_Locations := LateInitializeStringSlice spec.(cp_Locations) c.(acl_Locations);
    cp_LoggingService := LateInitializeString spec.(cp_LoggingService) c.(acl_LoggingService);
    cp_MaintenancePolicy := maintenance;
    cp_MasterAuth := late_ptr late_master_auth {| ma_ClientCertificateConfig := None; ma_Username := None |}
      spec.(cp_MasterAuth) c.(acl_MasterAuth);
    cp_MasterAuthorizedNetworksConfig := authorized;
    cp_MonitoringService := LateInitializeString spec.(cp_MonitoringService) c.(acl_MonitoringService);
    cp_Network := LateInitializeString spec.(cp_Network) c.(acl_Network);
    cp_NetworkConfig := late_ptr late_network_config no_network_config spec.(cp_NetworkConfig) c.(acl_NetworkConfig);
    cp_NetworkPolicy := late_ptr late_network_policy {| netp_Enabled := None; netp_Provider := None |}
      spec.(cp_NetworkPolicy) c.(acl_NetworkPolicy);
    cp_PrivateClusterConfig := late_ptr late_private no_private spec.(cp_PrivateClusterConfig) c.(acl_PrivateClusterConfig);
    cp_NotificationConfig := late_notification spec.(cp_NotificationConfig) c.(acl_NotificationConfig);
    cp_ReleaseChannel := late_new (λ a, {| rc_Channel := a.(arc_Channel) |}) spec.(cp_ReleaseChannel) c.(acl_ReleaseChannel);
    cp_ResourceLabels := LateInitializeStringMap spec.(cp_ResourceLabels) c.(acl_ResourceLabels);
    cp_ResourceUsageExportConfig := late_ptr late_usage {| ruec_BigqueryDestination := None;
        ruec_ConsumptionMeteringConfig := None; ruec_EnableNetworkEgressMetering := None |}
      spec.(cp_ResourceUsageExportConfig) c.(acl_ResourceUsageExportConfig);
    cp_Subnetwork := LateInitializeString spec.(cp_Subnetwork) c.(acl_Subnetwork);
    cp_VerticalPodAutoscaling := late_new (λ a, {| vpa_Enabled := a.(avpa_Enabled) |})
      spec.(cp_VerticalPodAutoscaling) c.(acl_VerticalPodAutoscaling);
    cp_WorkloadIdentityConfig := late_new (λ a, {| wic_WorkloadPool := a.(awic_WorkloadPool) |})
      spec.(cp_WorkloadIdentityConfig) c.(acl_WorkloadIdentityConfig) |}.

(** ** When it panics *)

(** The observed cluster runs Cloud Run and the spec says nothing of it. *)
Definition cloud_run_missing (spec : ClusterParameters) (c : apiCluster) : Prop :=
  (c.(acl_AddonsConfig) ≫= aac_CloudRunConfig) ≠ None ∧ (spec.(cp_AddonsConfig) ≫= ac_CloudRunConfig) = None.
(** The observed cluster has a recurring window and the spec has no maintenance
    policy. *)
Definition recurring_missing (spec : ClusterParameters) (c : apiCluster) : Prop :=
  spec.(cp_MaintenancePolicy) = None ∧
  ((c.(acl_MaintenancePolicy) ≫= amp_Window) ≫= amw_RecurringWindow) ≠ None.
(** A slice with a nil element is copied. *)
Definition copies_nil {A B} (x : slice (ptr A)) (y : slice (ptr B)) : Prop := slice_empty x = true ∧ None ∈ elems y.

Lemma late_elems_panics {A B} (f : B → A) (x : slice (ptr A)) (y : slice (ptr B)) :
  late_elems f x y = Panics ↔ copies_nil x y.
Proof.
  rewrite late_elems_spec. unfold copies_nil.
  assert (existsb (λ p : option B, bool_decide (p = None)) (elems y) = true ↔ None ∈ elems y) as Hex.
  { rewrite existsb_exists. setoid_rewrite bool_decide_eq_true. setoid_rewrite <-list_elem_of_In. naive_solver. }
  destruct (slice_empty x) eqn:Hx; [|rewrite andb_false_r; by split; [|intros [? _]]].
  destruct (slice_empty y) eqn:Hy; simpl.
  - split; [done|]. intros [_ Hin]. unfold slice_empty in Hy. destruct (elems y); [by apply elem_of_nil in Hin|done].
  - destruct (existsb _ _) eqn:He; rewrite <-Hex; naive_solver.
Qed.

Lemma late_ptr_try_panics {A B} (f : B → A → outcome A) zero x y :
  late_ptr_try f zero x y = Panics ↔ ∃ b, y = Some b ∧ f b (default zero x) = Panics.
Proof.
  destruct y as [b|]; simpl; [|by split; [|intros (? & ? & _)]].
  split; [|intros (b' & [= <-] & Hf); by rewrite Hf].
  destruct (f b _) eqn:Hf; [done|]. by exists b.
Qed.

Lemma late_addons_panics c s :
  late_addons c s = Panics ↔ c.(aac_CloudRunConfig) ≠ None ∧ s.(ac_CloudRunConfig) = None.
Proof. unfold late_addons, late_cloud_run. destruct (aac_CloudRunConfig c), (ac_CloudRunConfig s); simpl; naive_solver. Qed.

Lemma late_maintenance_panics x y :
  late_maintenance x y = Panics ↔ x = None ∧ ((y ≫= amp_Window) ≫= amw_RecurringWindow) ≠ None.
Proof.
  unfold late_maintenance. destruct x, y as [[[w|] r]|]; simpl; try naive_solver.
  destruct (amw_RecurringWindow w); simpl; naive_solver.
Qed.

Lemma outcome_bind_panics {A B} (o : outcome A) (f : A → outcome B) :
  (o ≫= f) = Panics ↔ o = Panics ∨ ∃ a, o = Returns a ∧ f a = Panics.
Proof. destruct o; simpl; [naive_solver|]. split; [by left|done]. Qed.
Lemma outcome_bind_returns {A B} (o : outcome A) (f : A → outcome B) b :
  (o ≫= f) = Returns b ↔ ∃ a, o = Returns a ∧ f a = Returns b.
Proof. destruct o; simpl; naive_solver. Qed.

(** The pieces that may panic, in one. *)
Lemma LateInitializeSpec_parts spec c :
  LateInitializeSpec spec c = Panics ↔
  late_ptr_try late_addons no_addons spec.(cp_AddonsConfig) c.(acl_AddonsConfig) = Panics ∨
  late_ptr_try late_autoscaling no_autoscaling spec.(cp_Autoscaling) c.(acl_Autoscaling) = Panics ∨
  late_maintenance spec.(cp_MaintenancePolicy) c.(acl_MaintenancePolicy) = Panics ∨
  late_ptr_try late_authorized {| manc_CidrBlocks := None; manc_Enabled := None |}
    spec.(cp_MasterAuthorizedNetworksConfig) c.(acl_MasterAuthorizedNetworksConfig) = Panics.
Proof.
  unfold LateInitializeSpec.
  destruct (late_ptr_try late_addons _ _ _); cbn [mbind outcome_bind]; [|by split; [left|]].
  destruct (late_ptr_try late_autoscaling _ _ _); cbn [mbind outcome_bind]; [|split; [by right; left|done]].
  destruct (late_maintenance _ _); cbn [mbind outcome_bind]; [|split; [by right; right; left|done]].
  destruct (late_ptr_try late_authorized _ _ _); cbn [mbind outcome_bind]; [|split; [by right; right; right|done]].
  split; [done|]. by intros [|[|[|]]].
Qed.

Lemma late_ptr_addons_panics x y :
  late_ptr_try late_addons no_addons x y = Panics ↔ (y ≫= aac_CloudRunConfig) ≠ None ∧ (x ≫= ac_CloudRunConfig) = None.
Proof.
  rewrite late_ptr_try_panics. setoid_rewrite late_addons_panics. destruct y as [c|]; simpl; [|naive_solver].
  destruct x; simpl; naive_solver.
Qed.
Lemma late_ptr_autoscaling_panics x y :
  late_ptr_try late_autoscaling no_autoscaling x y = Panics ↔ copies_nil (x ≫= ca_ResourceLimits) (y ≫= aca_ResourceLimits).
Proof.
  rewrite late_ptr_try_panics. unfold late_autoscaling. setoid_rewrite outcome_bind_panics.
  setoid_rewrite late_elems_panics. unfold copies_nil.
  destruct y as [c|]; simpl; [|unfold elems; simpl; rewrite elem_of_nil; naive_solver]. destruct x; simpl; naive_solver.
Qed.
Lemma late_ptr_authorized_panics x y :
  late_ptr_try late_authorized {| manc_CidrBlocks := None; manc_Enabled := None |} x y = Panics ↔
  copies_nil (x ≫= manc_CidrBlocks) (y ≫= amanc_CidrBlocks).
Proof.
  rewrite late_ptr_try_panics. unfold late_authorized. setoid_rewrite outcome_bind_panics.
  setoid_rewrite late_elems_panics. unfold copies_nil.
  destruct y as [c|]; simpl; [|unfold elems; simpl; rewrite elem_of_nil; naive_solver]. destruct x; simpl; naive_solver.
Qed.

(** ** Properties *)

(** C19: LateInitializeSpec of a cluster panics exactly in these cases: the
    observed cluster has a Cloud Run config and the spec none, the observed
    cluster has a recurring maintenance window and the spec no maintenance policy,
    or a list of resource limits or authorized networks that the spec leaves out
    holds a nil element. The first two are clusters a user can have. *)
Theorem cluster_late_init_panics spec c :
  LateInitializeSpec spec c = Panics ↔
  cloud_run_missing spec c ∨ recurring_missing spec c ∨
  copies_nil (spec.(cp_Autoscaling) ≫= ca_ResourceLimits) (c.(acl_Autoscaling) ≫= aca_ResourceLimits) ∨
  copies_nil (spec.(cp_MasterAuthorizedNetworksConfig) ≫= manc_CidrBlocks)
    (c.(acl_MasterAuthorizedNetworksConfig) ≫= amanc_CidrBlocks).
Proof.
  rewrite LateInitializeSpec_parts, late_ptr_addons_panics, late_ptr_autoscaling_panics, late_maintenance_panics,
    late_ptr_authorized_panics. unfold cloud_run_missing, recurring_missing. tauto.
Qed.

(** ** What it keeps *)

Definition keeps_cloud_run (x y : CloudRunConfig) : Prop :=
  y.(crc_Disabled) = x.(crc_Disabled) ∧ keeps x.(crc_LoadBalancerType) y.(crc_LoadBalancerType).
Definition keeps_addons (x y : AddonsConfig) : Prop :=
  keeps_ptr keeps_cloud_run x.(ac_CloudRunConfig) y.(ac_CloudRunConfig) ∧
  keeps x.(ac_ConfigConnectorConfig) y.(ac_ConfigConnectorConfig) ∧ keeps x.(ac_DNSCacheConfig) y.(ac_DNSCacheConfig) ∧
  keeps x.(ac_GCEPersistentDiskCSIDriverConfig) y.(ac_GCEPersistentDiskCSIDriverConfig) ∧
  keeps x.(ac_HorizontalPodAutoscaling) y.(ac_HorizontalPodAutoscaling) ∧
  keeps x.(ac_HTTPLoadBalancing) y.(ac_HTTPLoadBalancing) ∧ keeps x.(ac_KubernetesDashboard) y.(ac_KubernetesDashboard) ∧
  keeps x.(ac_NetworkPolicyConfig) y.(ac_NetworkPolicyConfig).
Definition keeps_groups (x y : AuthenticatorGroupsConfig) : Prop :=
  keeps x.(agc_Enabled) y.(agc_Enabled) ∧ keeps x.(agc_SecurityGroup) y.(agc_SecurityGroup).
Definition keeps_management (x y : NodeManagement) : Prop :=
  keeps x.(nm_AutoRepair) y.(nm_AutoRepair) ∧ keeps x.(nm_AutoUpgrade) y.(nm_AutoUpgrade).
Definition keeps_shielded (x y : ShieldedInstanceConfig) : Prop :=
  keeps x.(sic_EnableIntegrityMonitoring) y.(sic_EnableIntegrityMonitoring) ∧
  keeps x.(sic_EnableSecureBoot) y.(sic_EnableSecureBoot).
Definition keeps_upgrade (x y : UpgradeSettings) : Prop :=
  keeps x.(us_MaxSurge) y.(us_MaxSurge) ∧ keeps x.(us_MaxUnavailable) y.(us_MaxUnavailable).
Definition keeps_defaults (x y : AutoprovisioningNodePoolDefaults) : Prop :=
  keeps x.(apd_BootDiskKMSKey) y.(apd_BootDiskKMSKey) ∧ keeps x.(apd_DiskSizeGb) y.(apd_DiskSizeGb) ∧
  keeps x.(apd_DiskType) y.(apd_DiskType) ∧ keeps_ptr keeps_management x.(apd_Management) y.(apd_Management) ∧
  keeps x.(apd_MinCPUPlatform) y.(apd_MinCPUPlatform) ∧ keeps_slice x.(apd_OauthScopes) y.(apd_OauthScopes) ∧
  keeps x.(apd_ServiceAccount) y.(apd_ServiceAccount) ∧
  keeps_ptr keeps_shielded x.(apd_ShieldedInstanceConfig) y.(apd_ShieldedInstanceConfig) ∧
  keeps_ptr keeps_upgrade x.(apd_UpgradeSettings) y.(apd_UpgradeSettings).
Definition keeps_autoscaling (x y : ClusterAutoscaling) : Prop :=
  keeps_slice x.(ca_AutoprovisioningLocations) y.(ca_AutoprovisioningLocations) ∧
  keeps_ptr keeps_defaults x.(ca_AutoprovisioningNodePoolDefaults) y.(ca_AutoprovisioningNodePoolDefaults) ∧
  keeps x.(ca_EnableNodeAutoprovisioning) y.(ca_EnableNodeAutoprovisioning) ∧
  keeps_slice x.(ca_ResourceLimits) y.(ca_ResourceLimits).
Definition keeps_encryption (x y : DatabaseEncryption) : Prop :=
  keeps x.(de_KeyName) y.(de_KeyName) ∧ keeps x.(de_State) y.(de_State).
Definition keeps_ip_allocation (x y : IPAllocationPolicy) : Prop :=
  keeps x.(ipa_ClusterIpv4CidrBlock) y.(ipa_ClusterIpv4CidrBlock) ∧
  keeps x.(ipa_ClusterSecondaryRangeName) y.(ipa_ClusterSecondaryRangeName) ∧
  keeps x.(ipa_CreateSubnetwork) y.(ipa_CreateSubnetwork) ∧ keeps x.(ipa_NodeIpv4CidrBlock) y.(ipa_NodeIpv4CidrBlock) ∧
  keeps x.(ipa_ServicesIpv4CidrBlock) y.(ipa_ServicesIpv4CidrBlock) ∧
  y.(ipa_ServicesSecondaryRangeName) = x.(ipa_ServicesSecondaryRangeName) ∧
  keeps x.(ipa_SubnetworkName) y.(ipa_SubnetworkName) ∧ keeps x.(ipa_TpuIpv4CidrBlock) y.(ipa_TpuIpv4CidrBlock) ∧
  keeps x.(ipa_UseIPAliases) y.(ipa_UseIPAliases) ∧ y.(ipa_UseRoutes) = x.(ipa_UseRoutes).
Definition keeps_username (x y : MasterAuth) : Prop := keeps x.(ma_Username) y.(ma_Username).
Definition keeps_authorized (x y : MasterAuthorizedNetworksConfig) : Prop :=
  keeps_slice x.(manc_CidrBlocks) y.(manc_CidrBlocks) ∧ keeps x.(manc_Enabled) y.(manc_Enabled).
Definition keeps_network_config (x y : NetworkConfigSpec) : Prop :=
  keeps x.(ncs_DatapathProvider) y.(ncs_DatapathProvider) ∧ keeps x.(ncs_DefaultSnatStatus) y.(ncs_DefaultSnatStatus) ∧
  keeps x.(ncs_EnableIntraNodeVisibility) y.(ncs_EnableIntraNodeVisibility) ∧
  keeps x.(ncs_PrivateIpv6GoogleAccess) y.(ncs_PrivateIpv6GoogleAccess).
Definition keeps_network_policy (x y : NetworkPolicy) : Prop :=
  keeps x.(netp_Enabled) y.(netp_Enabled) ∧ keeps x.(netp_Provider) y.(netp_Provider).
Definition keeps_private (x y : PrivateClusterConfigSpec) : Prop :=
  keeps x.(pccs_EnablePrivateEndpoint) y.(pccs_EnablePrivateEndpoint) ∧
  keeps x.(pccs_EnablePrivateNodes) y.(pccs_EnablePrivateNodes) ∧
  keeps x.(pccs_MasterGlobalAccessConfig) y.(pccs_MasterGlobalAccessConfig) ∧
  keeps x.(pccs_MasterIpv4CidrBlock) y.(pccs_MasterIpv4CidrBlock).
Definition keeps_usage (x y : ResourceUsageExportConfig) : Prop :=
  keeps x.(ruec_BigqueryDestination) y.(ruec_BigqueryDestination) ∧
  keeps x.(ruec_ConsumptionMeteringConfig) y.(ruec_ConsumptionMeteringConfig) ∧
  keeps x.(ruec_EnableNetworkEgressMetering) y.(ruec_EnableNetworkEgressMetering).

(** Everything the user may set but the client certificate config. *)
Definition keeps_cluster (x y : ClusterParameters) : Prop :=
  (y.(cp_Location) = x.(cp_Location) ∧ y.(cp_Autopilot) = x.(cp_Autopilot) ∧
   y.(cp_ConfidentialNodes) = x.(cp_ConfidentialNodes) ∧ y.(cp_NetworkRef) = x.(cp_NetworkRef) ∧
   y.(cp_NetworkSelector) = x.(cp_NetworkSelector) ∧ y.(cp_SubnetworkRef) = x.(cp_SubnetworkRef) ∧
   y.(cp_SubnetworkSelector) = x.(cp_SubnetworkSelector)) ∧
  (keeps_ptr keeps_addons x.(cp_AddonsConfig) y.(cp_AddonsConfig) ∧
   keeps_ptr keeps_groups x.(cp_AuthenticatorGroupsConfig) y.(cp_AuthenticatorGroupsConfig) ∧
   keeps_ptr keeps_autoscaling x.(cp_Autoscaling) y.(cp_Autoscaling) ∧
   keeps x.(cp_BinaryAuthorization) y.(cp_BinaryAuthorization) ∧ keeps x.(cp_ClusterIpv4Cidr) y.(cp_ClusterIpv4Cidr) ∧
   keeps_ptr keeps_encryption x.(cp_DatabaseEncryption) y.(cp_DatabaseEncryption) ∧
   keeps x.(cp_DefaultMaxPodsConstraint) y.(cp_DefaultMaxPodsConstraint) ∧ keeps x.(cp_Description) y.(cp_Description) ∧
   keeps x.(cp_EnableKubernetesAlpha) y.(cp_EnableKubernetesAlpha) ∧ keeps x.(cp_EnableTpu) y.(cp_EnableTpu) ∧
   keeps x.(cp_InitialClusterVersion) y.(cp_InitialClusterVersion) ∧
   keeps_ptr keeps_ip_allocation x.(cp_IPAllocationPolicy) y.(cp_IPAllocationPolicy) ∧
   keeps x.(cp_LabelFingerprint) y.(cp_LabelFingerprint) ∧ keeps x.(cp_LegacyAbac) y.(cp_LegacyAbac) ∧
   keeps_slice x.(cp_Locations) y.(cp_Locations) ∧ keeps x.(cp_LoggingService) y.(cp_LoggingService) ∧
   keeps x.(cp_MaintenancePolicy) y.(cp_MaintenancePolicy)) ∧
  (keeps_ptr keeps_username x.(cp_MasterAuth) y.(cp_MasterAuth) ∧
   keeps_ptr keeps_authorized x.(cp_MasterAuthorizedNetworksConfig) y.(cp_MasterAuthorizedNetworksConfig) ∧
   keeps x.(cp_MonitoringService) y.(cp_MonitoringService) ∧ keeps x.(cp_Network) y.(cp_Network) ∧
   keeps_ptr keeps_network_config x.(cp_NetworkConfig) y.(cp_NetworkConfig) ∧
   keeps_ptr keeps_network_policy x.(cp_NetworkPolicy) y.(cp_NetworkPolicy) ∧
   keeps x.(cp_NotificationConfig) y.(cp_NotificationConfig) ∧
   keeps_ptr keeps_private x.(cp_PrivateClusterConfig) y.(cp_PrivateClusterConfig) ∧
   keeps x.(cp_ReleaseChannel) y.(cp_ReleaseChannel) ∧ keeps_map x.(cp_ResourceLabels) y.(cp_ResourceLabels) ∧
   keeps_ptr keeps_usage x.(cp_ResourceUsageExportConfig) y.(cp_ResourceUsageExportConfig) ∧
   keeps x.(cp_Subnetwork) y.(cp_Subnetwork) ∧ keeps x.(cp_VerticalPodAutoscaling) y.(cp_VerticalPodAutoscaling) ∧
   keeps x.(cp_WorkloadIdentityConfig) y.(cp_WorkloadIdentityConfig)).

Lemma keeps_slice_refl {A} (x : slice A) : keeps_slice x x.
Proof. done. Qed.
Lemma keeps_ptr_refl {A} (R : A → A → Prop) x : (∀ a, R a a) → keeps_ptr R x x.
Proof. intros HR. destruct x; simpl; eauto. Qed.
Lemma keeps_late_ptr_try {A B} (R : A → A → Prop) (late : B → A → outcome A) no x y z :
  (∀ b a a', late b a = Returns a' → R a a') → (∀ a, R a a) → late_ptr_try late no x y = Returns z → keeps_ptr R x z.
Proof.
  intros HR Hrefl. destruct y as [b|]; simpl; [|intros [= <-]; by apply keeps_ptr_refl].
  destruct (late b _) eqn:Hl; simpl; [|done]. intros [= <-]. destruct x; simpl in *; eauto.
Qed.
Lemma keeps_late_elems {A B} (f : B → A) x (y : slice (ptr B)) z : late_elems f x y = Returns z → keeps_slice x z.
Proof.
  rewrite late_elems_spec. intros Hz Hx. rewrite Hx, andb_false_r in Hz. congruence.
Qed.
#[local] Hint Resolve keeps_slice_refl : late.

Lemma keeps_late_addons c s s' : late_addons c s = Returns s' → keeps_addons s s'.
Proof.
  unfold late_addons, late_cloud_run. rewrite outcome_bind_returns. intros (cr & Hcr & [= <-]).
  split_and!; simpl; auto with late.
  destruct (aac_CloudRunConfig c), (ac_CloudRunConfig s); simpl in *; try done; injection Hcr as <-;
    eexists; (split; [done|]); split; simpl; auto with late.
Qed.
Lemma keeps_late_defaults b a : keeps_defaults a (late_defaults b a).
Proof.
  split_and!; simpl; auto with late;
    (apply keeps_late_ptr; [intros ? ?|intros ?]; split; simpl; auto with late).
Qed.
Lemma keeps_defaults_refl a : keeps_defaults a a.
Proof. split_and!; try apply keeps_ptr_refl; auto with late; intros ?; split; auto with late. Qed.
Lemma keeps_late_autoscaling c s s' : late_autoscaling c s = Returns s' → keeps_autoscaling s s'.
Proof.
  unfold late_autoscaling. rewrite outcome_bind_returns. intros (l & Hl & [= <-]).
  split_and!; simpl; auto with late.
  - apply keeps_late_ptr; [apply keeps_late_defaults|apply keeps_defaults_refl].
  - by eapply keeps_late_elems.
Qed.
Lemma keeps_late_authorized c s s' : late_authorized c s = Returns s' → keeps_authorized s s'.
Proof.
  unfold late_authorized. rewrite outcome_bind_returns. intros (l & Hl & [= <-]).
  split; simpl; auto with late. by eapply keeps_late_elems.
Qed.

Ltac keeps_fields := intros; try split_and!; unfold keeps_username; simpl; auto with late.

Lemma cluster_LateInitializeSpec_keeps spec c spec' : LateInitializeSpec spec c = Returns spec' → keeps_cluster spec spec'.
Proof.
  intros Hret. unfold LateInitializeSpec in Hret.
  apply outcome_bind_returns in Hret as (addons & Haddons & Hret).
  apply outcome_bind_returns in Hret as (autoscaling & Hautoscaling & Hret).
  apply outcome_bind_returns in Hret as (maintenance & Hmaintenance & Hret).
  apply outcome_bind_returns in Hret as (authorized & Hauthorized & [= <-]).
  unfold keeps_cluster. cbn [cp_Location cp_Autopilot cp_ConfidentialNodes cp_NetworkRef cp_NetworkSelector
    cp_SubnetworkRef cp_SubnetworkSelector].
  split_and!; [done..| | | | | | | | | | | | | | | | | | | | | | | | | | | | | | |]; simpl; auto with late.
  all: try (apply keeps_late_ptr; by keeps_fields).
  - eapply keeps_late_ptr_try, Haddons; [apply keeps_late_addons|].
    intros a. split_and!; auto with late. apply keeps_ptr_refl. by keeps_fields.
  - eapply keeps_late_ptr_try, Hautoscaling; [apply keeps_late_autoscaling|].
    intros a. split_and!; auto with late. apply keeps_ptr_refl, keeps_defaults_refl.
  - intros Hset. unfold late_maintenance in Hmaintenance. destruct (cp_MaintenancePolicy spec); congruence.
  - eapply keeps_late_ptr_try, Hauthorized; [apply keeps_late_authorized|by keeps_fields].
  - intros Hset. unfold late_notification. destruct (cp_NotificationConfig spec), (acl_NotificationConfig c); done.
Qed.

(** C20: what LateInitializeSpec returns for a cluster keeps everything the user
    set, down to the fields of nested structs, with one exception: the client
    certificate config is overwritten with the observed one, if there is one. *)
Theorem cluster_late_init_keeps spec c spec'
    (Hret : LateInitializeSpec spec c = Returns spec') :
  keeps_cluster spec spec' ∧
  (∀ ma cert, c.(acl_MasterAuth) = Some ma → ma.(ama_ClientCertificateConfig) = Some cert →
     spec'.(cp_MasterAuth) ≫= ma_ClientCertificateConfig =
       Some {| ccc_IssueClientCertificate := cert.(accc_IssueClientCertificate) |}).
Proof.
  split; [by eapply cluster_LateInitializeSpec_keeps|]. intros ma cert Hma Hcert. unfold LateInitializeSpec in Hret.
  do 3 apply outcome_bind_returns in Hret as (? & _ & Hret). apply outcome_bind_returns in Hret as (? & _ & [= <-]).
  simpl. rewrite Hma. simpl. by rewrite Hcert.
Qed.

(** ** Witnesses *)

Definition empty_parameters : ClusterParameters := {|
  cp_Location := ""; cp_AddonsConfig := None; cp_AuthenticatorGroupsConfig := None; cp_Autopilot := None;
  cp_Autoscaling := None; cp_BinaryAuthorization := None; cp_ClusterIpv4Cidr := None; cp_ConfidentialNodes := None;
  cp_DatabaseEncryption := None; cp_DefaultMaxPodsConstraint := None; cp_Description := None;
  cp_EnableKubernetesAlpha := None; cp_EnableTpu := None; cp_InitialClusterVersion := None; cp_IPAllocationPolicy := None;
  cp_LabelFingerprint := None; cp_LegacyAbac := None; cp_Locations := None; cp_LoggingService := None;
  cp_MaintenancePolicy := None; cp_MasterAuth := None; cp_MasterAuthorizedNetworksConfig := None;
  cp_MonitoringService := None; cp_Network := None; cp_NetworkRef := None; cp_NetworkSelector := None;
  cp_NetworkConfig := None; cp_NetworkPolicy := None; cp_NotificationConfig := None; cp_PrivateClusterConfig := None;
  cp_ReleaseChannel := None; cp_ResourceLabels := None; cp_ResourceUsageExportConfig := None; cp_Subnetwork := None;
  cp_SubnetworkRef := None; cp_SubnetworkSelector := None; cp_VerticalPodAutoscaling := None;
  cp_WorkloadIdentityConfig := None |}.

(** The user asks for binary authorization, legacy access control and a release
    channel; the cluster was just created. *)
Definition example_parameters : ClusterParameters := {| empty_parameters with
  cp_Location := "us-central1"; cp_BinaryAuthorization := Some {| ba_Enabled := true |};
  cp_LegacyAbac := Some {| la_Enabled := true |}; cp_ReleaseChannel := Some {| rc_Channel := "STABLE" |};
  cp_MasterAuth := Some {| ma_ClientCertificateConfig := Some {| ccc_IssueClientCertificate := true |}; ma_Username := None |} |}.
Definition example_cluster : apiCluster := {| (AddNodePoolForCreate zero_apiCluster) with
  acl_Locations := Some ["us-central1-a"]; acl_LoggingService := "logging.googleapis.com/kubernetes";
  acl_MasterAuth := Some {| zero_apiMasterAuth with ama_ClientCertificateConfig := Some zero_apiClientCertificateConfig |} |}.
(** The spec after late initialization. *)
Definition example_complete : ClusterParameters := {| example_parameters with
  cp_Locations := Some ["us-central1-a"]; cp_LoggingService := Some "logging.googleapis.com/kubernetes";
  cp_MasterAuth := Some {| ma_ClientCertificateConfig := Some {| ccc_IssueClientCertificate := false |}; ma_Username := None |} |}.

Lemma cluster_late_init_keeps_witness :
  LateInitializeSpec example_parameters example_cluster = Returns example_complete ∧
  keeps_cluster example_parameters example_complete ∧
  example_complete.(cp_MasterAuth) ≫= ma_ClientCertificateConfig = Some {| ccc_IssueClientCertificate := false |}.
Proof.
  assert (LateInitializeSpec example_parameters example_cluster = Returns example_complete) as Hret by reflexivity.
  split_and!; [done|apply (cluster_late_init_keeps _ _ _ Hret)|].
  exact (proj2 (cluster_late_init_keeps _ _ _ Hret) _ zero_apiClientCertificateConfig eq_refl eq_refl).
Defined.
