(* ===== verification/Cluster.v ===== *)
(** * GKE clusters: updates and the controller

    pkg/clients/cluster/cluster.go from line 960 on (the update functions,
    IsUpToDate, names and the client config) and
    pkg/controller/container/cluster.go. *)

From S2P Require Import Prelude GoBase64 Libs Contract Gcp Nested ClusterTypes ContainerAPI ClusterGenerate ClusterLate.

(** ** Requests *)

(** container.IntraNodeVisibilityConfig and container.ClusterUpdate: the fields
    that are left out of a literal are not sent. *)
Record apiIntraNodeVisibilityConfig := { aivc_Enabled : bool }.
Record ClusterUpdate := {
  DesiredAddonsConfig : ptr apiAddonsConfig;
  DesiredAutopilot : ptr apiAutopilot;
  DesiredBinaryAuthorization : ptr apiBinaryAuthorization;
  DesiredClusterAutoscaling : ptr apiClusterAutoscaling;
  DesiredDatabaseEncryption : ptr apiDatabaseEncryption;
  DesiredDatapathProvider : string;
  DesiredIntraNodeVisibilityConfig : ptr apiIntraNodeVisibilityConfig;
  DesiredLocations : slice string;
  DesiredLoggingService : string;
  DesiredMasterAuthorizedNetworksConfig : ptr apiMasterAuthorizedNetworksConfig;
  DesiredMonitoringService : string;
  DesiredNotificationConfig : ptr apiNotificationConfig;
  DesiredPrivateClusterConfig : ptr apiPrivateClusterConfig;
  DesiredReleaseChannel : ptr apiReleaseChannel;
  DesiredResourceUsageExportConfig : ptr apiResourceUsageExportConfig;
  DesiredVerticalPodAutoscaling : ptr apiVerticalPodAutoscaling;
  DesiredWorkloadIdentityConfig : ptr apiWorkloadIdentityConfig
}.
Definition no_update : ClusterUpdate := {|
  DesiredAddonsConfig := None; DesiredAutopilot := None; DesiredBinaryAuthorization := None;
  DesiredClusterAutoscaling := None; DesiredDatabaseEncryption := None; DesiredDatapathProvider := "";
  DesiredIntraNodeVisibilityConfig := None; DesiredLocations := None; DesiredLoggingService := "";
  DesiredMasterAuthorizedNetworksConfig := None; DesiredMonitoringService := ""; DesiredNotificationConfig := None;
  DesiredPrivateClusterConfig := None; DesiredReleaseChannel := None; DesiredResourceUsageExportConfig := None;
  DesiredVerticalPodAutoscaling := None; DesiredWorkloadIdentityConfig := None |}.

Inductive ClusterE : Type → Type :=
| ClustersGet (name : string) : ClusterE (apiCluster + error)
| ClustersCreate (parent : string) (cluster : apiCluster) : ClusterE (option error)
| ClustersUpdate (name : string) (update : ClusterUpdate) : ClusterE (option error)
| ClustersSetLegacyAbac (name : string) (enabled : bool) : ClusterE (option error)
| ClustersSetMaintenancePolicy (name : string) (policy : ptr apiMaintenancePolicy) : ClusterE (option error)
| ClustersSetNetworkPolicy (name : string) (policy : ptr apiNetworkPolicy) : ClusterE (option error)
| ClustersSetResourceLabels (name : string) (labels : gomap string) : ClusterE (option error)
| ClustersDelete (name : string) : ClusterE (option error)
| NodePoolsDelete (name : string) : ClusterE (option error)
| KubeUpdate (cr : Cluster) : ClusterE (Cluster + error).

(** ** Names *)

Definition GetFullyQualifiedParent (project : string) (p : ClusterParameters) : string :=
  String.append "projects/" (String.append project (String.append "/locations/" p.(cp_Location))).
Definition GetFullyQualifiedName (project : string) (p : ClusterParameters) (name : string) : string :=
  String.append "projects/" (String.append project (String.append "/locations/"
    (String.append p.(cp_Location) (String.append "/clusters/" name)))).
Definition GetFullyQualifiedBNP (clusterName : string) : string :=
  String.append clusterName (String.append "/nodePools/" BootstrapNodePoolName).

(** ** Update functions *)

(** The closures that IsUpToDate returns, by the function that makes them and
    what they capture. *)
Inductive UpdateFn :=
| noOpUpdate
| deleteBootstrapNodePoolFn
| newAddonsConfigUpdateFn (i : ptr AddonsConfig)
| newAutopilotUpdateFn (i : ptr Autopilot)
| newAutoscalingUpdateFn (i : ptr ClusterAutoscaling)
| newBinaryAuthorizationUpdateFn (i : ptr BinaryAuthorization)
| newDatabaseEncryptionUpdateFn (i : ptr DatabaseEncryption)
| newLegacyAbacUpdateFn (i : ptr LegacyAbac)
| newLocationsUpdateFn (i : slice string)
| newLoggingServiceUpdateFn (i : ptr string)
| newMaintenancePolicyUpdateFn (i : ptr MaintenancePolicySpec)
| newMasterAuthorizedNetworksConfigUpdateFn (i : ptr MasterAuthorizedNetworksConfig)
| newMonitoringServiceUpdateFn (i : ptr string)
| newIntraNodeVisibilityConfigUpdateFn (i : ptr bool)
| newDatapathProviderUpdateFn (i : ptr string)
| newNetworkPolicyUpdateFn (i : ptr NetworkPolicy)
| newNotificationConfigUpdateFn (i : ptr NotificationConfig)
| newPrivateClusterConfigUpdateFn (i : ptr PrivateClusterConfigSpec)
| newReleaseChannelUpdateFn (i : ptr ReleaseChannel)
| newResourceLabelsUpdateFn (i : gomap string)
| newResourceUsageExportConfigUpdateFn (i : ptr ResourceUsageExportConfig)
| newVerticalPodAutoscalingUpdateFn (i : ptr VerticalPodAutoscaling)
| newWorkloadIdentityConfigUpdateFn (i : ptr WorkloadIdentityConfig).

(** Calling the closure with the name of a cluster. *)
Definition call_update (fn : UpdateFn) (name : string) : prog ClusterE (option error) :=
  let out := zero_apiCluster in
  match fn with
  | noOpUpdate => mret None
  | deleteBootstrapNodePoolFn => call (NodePoolsDelete (GetFullyQualifiedBNP name))
  | newAddonsConfigUpdateFn i =>
    let out := GenerateAddonsConfig i out in
    call (ClustersUpdate name {| no_update with DesiredAddonsConfig := out.(acl_AddonsConfig) |})
  | newAutopilotUpdateFn i =>
    let out := GenerateAutopilot i out in
    call (ClustersUpdate name {| no_update with DesiredAutopilot := out.(acl_Autopilot) |})
  | newAutoscalingUpdateFn i =>
    let out := GenerateAutoscaling i out in
    call (ClustersUpdate name {| no_update with DesiredClusterAutoscaling := out.(acl_Autoscaling) |})
  | newBinaryAuthorizationUpdateFn i =>
    let out := GenerateBinaryAuthorization i out in
    call (ClustersUpdate name {| no_update with DesiredBinaryAuthorization := out.(acl_BinaryAuthorization) |})
  | newDatabaseEncryptionUpdateFn i =>
    let out := GenerateDatabaseEncryption i out in
    call (ClustersUpdate name {| no_update with DesiredDatabaseEncryption := out.(acl_DatabaseEncryption) |})
  | newLegacyAbacUpdateFn i =>
    let out := GenerateLegacyAbac i out in
    abac ← lift (deref out.(acl_LegacyAbac));
    call (ClustersSetLegacyAbac name abac.(ala_Enabled))
  | newLocationsUpdateFn i => call (ClustersUpdate name {| no_update with DesiredLocations := i |})
  | newLoggingServiceUpdateFn i => call (ClustersUpdate name {| no_update with DesiredLoggingService := StringValue i |})
  | newMaintenancePolicyUpdateFn i =>
    let out := GenerateMaintenancePolicy i out in
    call (ClustersSetMaintenancePolicy name out.(acl_MaintenancePolicy))
  | newMasterAuthorizedNetworksConfigUpdateFn i =>
    let out := GenerateMasterAuthorizedNetworksConfig i out in
    call (ClustersUpdate name {| no_update with
      DesiredMasterAuthorizedNetworksConfig := out.(acl_MasterAuthorizedNetworksConfig) |})
  | newMonitoringServiceUpdateFn i => call (ClustersUpdate name {| no_update with DesiredMonitoringService := StringValue i |})
  | newIntraNodeVisibilityConfigUpdateFn i =>
    call (ClustersUpdate name {| no_update with
      DesiredIntraNodeVisibilityConfig := Some {| aivc_Enabled := BoolValue i |} |})
  | newDatapathProviderUpdateFn i => call (ClustersUpdate name {| no_update with DesiredDatapathProvider := StringValue i |})
  | newNetworkPolicyUpdateFn i =>
    let out := GenerateNetworkPolicy i out in
    call (ClustersSetNetworkPolicy name out.(acl_NetworkPolicy))
  | newNotificationConfigUpdateFn i =>
    let out := GenerateNotificationConfig i out in
    call (ClustersUpdate name {| no_update with DesiredNotificationConfig := out.(acl_NotificationConfig) |})
  | newPrivateClusterConfigUpdateFn i =>
    let out := GeneratePrivateClusterConfig i out in
    call (ClustersUpdate name {| no_update with DesiredPrivateClusterConfig := out.(acl_PrivateClusterConfig) |})
  | newReleaseChannelUpdateFn i =>
    let out := GenerateReleaseChannel i out in
    call (ClustersUpdate name {| no_update with DesiredReleaseChannel := out.(acl_ReleaseChannel) |})
  | newResourceLabelsUpdateFn i => call (ClustersSetResourceLabels name i)
  | newResourceUsageExportConfigUpdateFn i =>
    let out := GenerateResourceUsageExportConfig i out in
    call (ClustersUpdate name {| no_update with DesiredResourceUsageExportConfig := out.(acl_ResourceUsageExportConfig) |})
  | newVerticalPodAutoscalingUpdateFn i =>
    let out := GenerateVerticalPodAutoscaling i out in
    call (ClustersUpdate name {| no_update with DesiredVerticalPodAutoscaling := out.(acl_VerticalPodAutoscaling) |})
  | newWorkloadIdentityConfigUpdateFn i =>
    let out := GenerateWorkloadIdentityConfig i out in
    call (ClustersUpdate name {| no_update with DesiredWorkloadIdentityConfig := out.(acl_WorkloadIdentityConfig) |})
  end.

(** ** What the comparisons see *)

(** EquateEmpty makes every empty slice or map nil; for the addons, IgnoreFields
    hides the ForceSendFields of the eight configs. *)
Definition view_addons (a : apiAddonsConfig) : apiAddonsConfig := {| a with
  aac_CloudRunConfig := (λ c, {| c with acrc_ForceSendFields := None |}) <$> a.(aac_CloudRunConfig);
  aac_ConfigConnectorConfig := (λ c, {| c with aconnector_ForceSendFields := None |}) <$> a.(aac_ConfigConnectorConfig);
  aac_DnsCacheConfig := (λ c, {| c with adns_ForceSendFields := None |}) <$> a.(aac_DnsCacheConfig);
  aac_GcePersistentDiskCsiDriverConfig := (λ c, {| c with acsi_ForceSendFields := None |})
    <$> a.(aac_GcePersistentDiskCsiDriverConfig);
  aac_HorizontalPodAutoscaling := (λ c, {| c with ahpa_ForceSendFields := None |}) <$> a.(aac_HorizontalPodAutoscaling);
  aac_HttpLoadBalancing := (λ c, {| c with ahlb_ForceSendFields := None |}) <$> a.(aac_HttpLoadBalancing);
  aac_KubernetesDashboard := (λ c, {| c with akd_ForceSendFields := None |}) <$> a.(aac_KubernetesDashboard);
  aac_NetworkPolicyConfig := (λ c, {| c with anpc_ForceSendFields := None |}) <$> a.(aac_NetworkPolicyConfig) |}.
Definition view_defaults (d : apiAutoprovisioningNodePoolDefaults) : apiAutoprovisioningNodePoolDefaults :=
  {| d with aapd_OauthScopes := norm_slice d.(aapd_OauthScopes) |}.
Definition view_autoscaling (a : apiClusterAutoscaling) : apiClusterAutoscaling := {| a with
  aca_AutoprovisioningLocations := norm_slice a.(aca_AutoprovisioningLocations);
  aca_AutoprovisioningNodePoolDefaults := view_defaults <$> a.(aca_AutoprovisioningNodePoolDefaults);
  aca_ResourceLimits := norm_slice a.(aca_ResourceLimits) |}.
Definition view_window (w : apiMaintenanceWindow) : apiMaintenanceWindow :=
  {| w with amw_MaintenanceExclusions := norm_map w.(amw_MaintenanceExclusions) |}.
Definition view_maintenance (m : apiMaintenancePolicy) : apiMaintenancePolicy :=
  {| m with amp_Window := view_window <$> m.(amp_Window) |}.
Definition view_authorized (m : apiMasterAuthorizedNetworksConfig) : apiMasterAuthorizedNetworksConfig :=
  {| m with amanc_CidrBlocks := norm_slice m.(amanc_CidrBlocks) |}.

(** ** Is the cluster up to date *)

Definition errCheckUpToDate : string := "unable to determine if external resource is up to date".

Definition checkForBootstrapNodePool (c : apiCluster) : bool :=
  existsb (λ pool : ptr apiNodePool,
    match pool with Some p => bool_decide (p.(anp_Name) = BootstrapNodePoolName) | None => false end)
    (elems c.(acl_NodePools)).

Section client.
Context `{Libs}.

(** The results are whether the cluster is up to date, the update to make and the
    error. A missing network config of the observed cluster is filled in by the
    source in place; no caller looks at it again. *)
Definition IsUpToDate (name : string) (i : ClusterParameters) (observed : apiCluster)
  : outcome (bool * UpdateFn * option error) :=
  match copystructure_Copy observed with
  | CopyFails err => Returns (true, noOpUpdate, errors_Wrap (Some err) errCheckUpToDate)
  | CopyOtherType => Returns (true, noOpUpdate, errors_New errCheckUpToDate)
  | Copied desired =>
    let desired := GenerateCluster name i desired in
    if checkForBootstrapNodePool observed then Returns (false, deleteBootstrapNodePoolFn, None)
    else if negb (cmp_Equal (same_view (fmap (M := option) view_addons)) desired.(acl_AddonsConfig) observed.(acl_AddonsConfig))
    then Returns (false, newAddonsConfigUpdateFn i.(cp_AddonsConfig), None)
    else if negb (cmp_Equal (=) desired.(acl_Autopilot) observed.(acl_Autopilot))
    then Returns (false, newAutopilotUpdateFn i.(cp_Autopilot), None)
    else if negb (cmp_Equal (same_view (fmap (M := option) view_autoscaling)) desired.(acl_Autoscaling) observed.(acl_Autoscaling))
    then Returns (false, newAutoscalingUpdateFn i.(cp_Autoscaling), None)
    else if negb (cmp_Equal (=) desired.(acl_BinaryAuthorization) observed.(acl_BinaryAuthorization))
    then Returns (false, newBinaryAuthorizationUpdateFn i.(cp_BinaryAuthorization), None)
    else if negb (cmp_Equal (=) desired.(acl_DatabaseEncryption) observed.(acl_DatabaseEncryption))
    then Returns (false, newDatabaseEncryptionUpdateFn i.(cp_DatabaseEncryption), None)
    else if negb (cmp_Equal (=) desired.(acl_LegacyAbac) observed.(acl_LegacyAbac))
    then Returns (false, newLegacyAbacUpdateFn i.(cp_LegacyAbac), None)
    else if negb (cmp_Equal (same_view norm_slice) desired.(acl_Locations) observed.(acl_Locations))
    then Returns (false, newLocationsUpdateFn i.(cp_Locations), None)
    else if negb (cmp_Equal (=) desired.(acl_LoggingService) observed.(acl_LoggingService))
    then Returns (false, newLoggingServiceUpdateFn i.(cp_LoggingService), None)
    else if negb (cmp_Equal (same_view (fmap (M := option) view_maintenance)) desired.(acl_MaintenancePolicy) observed.(acl_MaintenancePolicy))
    then Returns (false, newMaintenancePolicyUpdateFn i.(cp_MaintenancePolicy), None)
    else if negb (cmp_Equal (same_view (fmap (M := option) view_authorized))
                    desired.(acl_MasterAuthorizedNetworksConfig) observed.(acl_MasterAuthorizedNetworksConfig))
    then Returns (false, newMasterAuthorizedNetworksConfigUpdateFn i.(cp_MasterAuthorizedNetworksConfig), None)
    else if negb (cmp_Equal (=) desired.(acl_MonitoringService) observed.(acl_MonitoringService))
    then Returns (false, newMonitoringServiceUpdateFn i.(cp_MonitoringService), None)
    else
      network ← match desired.(acl_NetworkConfig) with
        | None => Returns None
        | Some d =>
          let o := default zero_apiNetworkConfig observed.(acl_NetworkConfig) in
          if negb (cmp_Equal (=) d.(anc_EnableIntraNodeVisibility) o.(anc_EnableIntraNodeVisibility))
          then n ← deref i.(cp_NetworkConfig);
               Returns (Some (newIntraNodeVisibilityConfigUpdateFn n.(ncs_EnableIntraNodeVisibility)))
          else if negb (cmp_Equal (=) d.(anc_DatapathProvider) o.(anc_DatapathProvider))
          then n ← deref i.(cp_NetworkConfig); Returns (Some (newDatapathProviderUpdateFn n.(ncs_DatapathProvider)))
          else Returns None
        end;
      match network with
      | Some fn => Returns (false, fn, None)
      | None =>
        if negb (cmp_Equal (=) desired.(acl_NetworkPolicy) observed.(acl_NetworkPolicy))
        then Returns (false, newNetworkPolicyUpdateFn i.(cp_NetworkPolicy), None)
        else if negb (cmp_Equal (=) desired.(acl_NotificationConfig) observed.(acl_NotificationConfig))
        then Returns (false, newNotificationConfigUpdateFn i.(cp_NotificationConfig), None)
        else if negb (cmp_Equal (=) desired.(acl_PrivateClusterConfig) observed.(acl_PrivateClusterConfig))
        then Returns (false, newPrivateClusterConfigUpdateFn i.(cp_PrivateClusterConfig), None)
        else if negb (cmp_Equal (=) desired.(acl_ReleaseChannel) observed.(acl_ReleaseChannel))
        then Returns (false, newReleaseChannelUpdateFn i.(cp_ReleaseChannel), None)
        else if negb (cmp_Equal (same_view norm_map) desired.(acl_ResourceLabels) observed.(acl_ResourceLabels))
        then Returns (false, newResourceLabelsUpdateFn i.(cp_ResourceLabels), None)
        else if negb (cmp_Equal (=) desired.(acl_ResourceUsageExportConfig) observed.(acl_ResourceUsageExportConfig))
        then Returns (false, newResourceUsageExportConfigUpdateFn i.(cp_ResourceUsageExportConfig), None)
        else if negb (cmp_Equal (=) desired.(acl_VerticalPodAutoscaling) observed.(acl_VerticalPodAutoscaling))
        then Returns (false, newVerticalPodAutoscalingUpdateFn i.(cp_VerticalPodAutoscaling), None)
        else if negb (cmp_Equal (=) desired.(acl_WorkloadIdentityConfig) observed.(acl_WorkloadIdentityConfig))
        then Returns (false, newWorkloadIdentityConfigUpdateFn i.(cp_WorkloadIdentityConfig), None)
        else Returns (true, noOpUpdate, None)
      end
  end.
End client.

(** ** The client config *)

(** clientcmdapi.Cluster, Context, AuthInfo and Config: what the literal sets. *)
Record kubeCluster := { kc_Server : string; kc_CertificateAuthorityData : string }.
Record kubeContext := { kx_Cluster : string; kx_AuthInfo : string }.
Record kubeAuthInfo := {
  ka_Username : string; ka_Password : string; ka_ClientCertificateData : string; ka_ClientKeyData : string
}.
Record kubeConfig := {
  kcfg_Clusters : gmap string kubeCluster;
  kcfg_Contexts : gmap string kubeContext;
  kcfg_AuthInfos : gmap string kubeAuthInfo;
  kcfg_CurrentContext : string
}.

Definition errNoSecretInfo : string := "missing secret information for GKE cluster".

Definition GenerateClientConfig (cluster : apiCluster) : kubeConfig + error :=
  match cluster.(acl_MasterAuth) with
  | None => inr (FundamentalError errNoSecretInfo)
  | Some auth =>
    let name := cluster.(acl_Name) in
    match DecodeString auth.(ama_ClusterCaCertificate) with
    | None => inr corrupt_input
    | Some ca =>
      match DecodeString auth.(ama_ClientCertificate) with
      | None => inr corrupt_input
      | Some cert =>
        match DecodeString auth.(ama_ClientKey) with
        | None => inr corrupt_input
        | Some key =>
          inl {|
            kcfg_Clusters := {[ name := {|
              kc_Server := String.append "https://" cluster.(acl_Endpoint); kc_CertificateAuthorityData := ca |} ]};
            kcfg_Contexts := {[ name := {| kx_Cluster := name; kx_AuthInfo := name |} ]};
            kcfg_AuthInfos := {[ name := {|
              ka_Username := auth.(ama_Username); ka_Password := auth.(ama_Password);
              ka_ClientCertificateData := cert; ka_ClientKeyData := key |} ]};
            kcfg_CurrentContext := name |}
        end
      end
    end
  end.

(** ** The controller *)

Definition errNewClient : string := "cannot create new GKE container client".
Definition errManagedUpdateFailed : string := "cannot update Cluster custom resource".
Definition errNotCluster : string := "managed resource is not a Cluster".
Definition errGetCluster : string := "cannot get GKE cluster".
Definition errCreateCluster : string := "cannot create GKE cluster".
Definition errUpdateCluster : string := "cannot update GKE cluster".
Definition errDeleteCluster : string := "cannot delete GKE cluster".
Definition errCheckClusterUpToDate : string := "cannot determine if GKE cluster is up to date".

Section controller.
Context `{Libs}.
(** clientcmd.Write of client-go. *)
Variable clientcmd_Write : kubeConfig → string + error.
Variable projectID : string.

Definition connectionDetails (cluster : apiCluster) : outcome (gomap string) :=
  match GenerateClientConfig cluster with
  | inr _ => Returns None
  | inl config =>
    match clientcmd_Write config with
    | inr _ => Returns None
    | inl rawConfig =>
      c ← deref (config.(kcfg_Clusters) !! cluster.(acl_Name));
      a ← deref (config.(kcfg_AuthInfos) !! cluster.(acl_Name));
      Returns (Some (
        <[ResourceCredentialsSecretEndpointKey := c.(kc_Server)]>
        (<[ResourceCredentialsSecretUserKey := a.(ka_Username)]>
        (<[ResourceCredentialsSecretPasswordKey := a.(ka_Password)]>
        (<[ResourceCredentialsSecretCAKey := c.(kc_CertificateAuthorityData)]>
        (<[ResourceCredentialsSecretClientCertKey := a.(ka_ClientCertificateData)]>
        (<[ResourceCredentialsSecretClientKeyKey := a.(ka_ClientKeyData)]>
        (<[ResourceCredentialsSecretKubeconfigKey := rawConfig]> ∅))))))))
    end
  end.

(** The switch on the status of the cluster. *)
Definition set_cluster_condition (cr : Cluster) : Cluster :=
  let status := cr.(AtProvider).(co_Status) in
  if bool_decide (status = ClusterStateRunning ∨ status = ClusterStateReconciling) then set_condition Available cr
  else if bool_decide (status = ClusterStateProvisioning) then set_condition Creating cr
  else if bool_decide (status = ClusterStateUnspecified ∨ status = ClusterStateDegraded ∨ status = ClusterStateError)
  then set_condition Unavailable cr
  else cr.

Definition cluster_name (cr : Cluster) : string := GetFullyQualifiedName projectID cr.(ForProvider) cr.(ExternalName).

Definition Observe (mg : option Cluster)
  : prog ClusterE (ExternalObservation * option error * option Cluster) :=
  match mg with
  | None => mret (no_observation, errors_New errNotCluster, None)
  | Some cr =>
    r ← call (ClustersGet (cluster_name cr));
    match r with
    | inr err => mret (no_observation, errors_Wrap (resource_Ignore IsErrorNotFound (Some err)) errGetCluster, Some cr)
    | inl existing =>
      let cr := {| cr with AtProvider := GenerateObservation existing |} in
      let currentSpec := cr.(ForProvider) in
      i ← lift (LateInitializeSpec cr.(ForProvider) existing);
      let cr := {| cr with ForProvider := i |} in
      u ← (if negb (cmp_Equal (=) currentSpec cr.(ForProvider)) then call (KubeUpdate cr) else mret (inl cr));
      match u with
      | inr err => mret (no_observation, errors_Wrap (Some err) errManagedUpdateFailed, Some cr)
      | inl cr =>
        let cr := set_cluster_condition cr in
        '(u, _, err) ← lift (IsUpToDate cr.(ExternalName) cr.(ForProvider) existing);
        match err with
        | Some err => mret (no_observation, errors_Wrap (Some err) errCheckClusterUpToDate, Some cr)
        | None =>
          details ← lift (connectionDetails existing);
          mret ({| ResourceExists := true; ResourceUpToDate := u; ResourceLateInitialized := false;
                   ConnectionDetails := details |}, None, Some cr)
        end
      end
    end
  end.

Definition Create (mg : option Cluster)
  : prog ClusterE (ExternalCreation * option error * option Cluster) :=
  match mg with
  | None => mret (no_creation, errors_New errNotCluster, None)
  | Some cr =>
    let cr := set_condition Creating cr in
    if bool_decide (cr.(AtProvider).(co_Status) = ClusterStateProvisioning) then mret (no_creation, None, Some cr)
    else
      let cluster := GenerateCluster cr.(ExternalName) cr.(ForProvider) zero_apiCluster in
      let cluster :=
        if match cluster.(acl_Autopilot) with None => true | Some a => negb a.(aap_Enabled) end
        then AddNodePoolForCreate cluster else cluster in
      err ← call (ClustersCreate (GetFullyQualifiedParent projectID cr.(ForProvider)) cluster);
      mret (no_creation, errors_Wrap err errCreateCluster, Some cr)
  end.

Definition Update (mg : option Cluster) : prog ClusterE (option error * option Cluster) :=
  match mg with
  | None => mret (errors_New errNotCluster, None)
  | Some cr =>
    if bool_decide (cr.(AtProvider).(co_Status) = ClusterStateReconciling ∨
                    cr.(AtProvider).(co_Status) = ClusterStateProvisioning)
    then mret (None, Some cr)
    else
      r ← call (ClustersGet (cluster_name cr));
      match r with
      | inr err => mret (errors_Wrap (Some err) errGetCluster, Some cr)
      | inl existing =>
        '(u, fn, err) ← lift (IsUpToDate cr.(ExternalName) cr.(ForProvider) existing);
        match err with
        | Some err => mret (errors_Wrap (Some err) errCheckClusterUpToDate, Some cr)
        | None =>
          if (u : bool) then mret (None, Some cr)
          else
            err ← call_update fn (cluster_name cr);
            mret (errors_Wrap err errUpdateCluster, Some cr)
        end
      end
  end.

Definition Delete (mg : option Cluster) : prog ClusterE (option error * option Cluster) :=
  match mg with
  | None => mret (errors_New errNotCluster, None)
  | Some cr =>
    let cr := set_condition Deleting cr in
    if bool_decide (cr.(AtProvider).(co_Status) = ClusterStateStopping) then mret (None, Some cr)
    else
      err ← call (ClustersDelete (cluster_name cr));
      mret (errors_Wrap (resource_Ignore IsErrorNotFound err) errDeleteCluster, Some cr)
  end.
End controller.

(** ** Sections of a cluster *)

(** What IsUpToDate compares, in its order. *)
Inductive section :=
| SBootstrap | SAddons | SAutopilot | SAutoscaling | SBinary | SEncryption | SAbac | SLocations | SLogging
| SMaintenance | SAuthorized | SMonitoring | SIntraNode | SDatapath | SNetworkPolicy | SNotification | SPrivate
| SChannel | SLabels | SUsage | SVpa | SIdentity.
#[global] Instance section_eq_dec : EqDecision section.
Proof. solve_decision. Defined.
Definition sections : list section := [
  SBootstrap; SAddons; SAutopilot; SAutoscaling; SBinary; SEncryption; SAbac; SLocations; SLogging; SMaintenance;
  SAuthorized; SMonitoring; SIntraNode; SDatapath; SNetworkPolicy; SNotification; SPrivate; SChannel; SLabels; SUsage;
  SVpa; SIdentity].

(** What is compared of the network config, which may be missing. *)
Definition intra_node (c : apiCluster) : bool :=
  (default zero_apiNetworkConfig c.(acl_NetworkConfig)).(anc_EnableIntraNodeVisibility).
Definition datapath (c : apiCluster) : string :=
  (default zero_apiNetworkConfig c.(acl_NetworkConfig)).(anc_DatapathProvider).

(** The section of the cluster is not what the spec asks for. *)
Definition differs (i : ClusterParameters) (c : apiCluster) (s : section) : bool :=
  match s with
  | SBootstrap => checkForBootstrapNodePool c
  | SAddons => negb (bool_decide (view_addons <$> generate_ptr generate_addons zero_apiAddonsConfig
      i.(cp_AddonsConfig) c.(acl_AddonsConfig) = view_addons <$> c.(acl_AddonsConfig)))
  | SAutopilot => negb (bool_decide (generate_ptr generate_autopilot zero_apiAutopilot
      i.(cp_Autopilot) c.(acl_Autopilot) = c.(acl_Autopilot)))
  | SAutoscaling => negb (bool_decide (view_autoscaling <$> generate_ptr generate_autoscaling zero_apiClusterAutoscaling
      i.(cp_Autoscaling) c.(acl_Autoscaling) = view_autoscaling <$> c.(acl_Autoscaling)))
  | SBinary => negb (bool_decide (generate_ptr generate_binary zero_apiBinaryAuthorization
      i.(cp_BinaryAuthorization) c.(acl_BinaryAuthorization) = c.(acl_BinaryAuthorization)))
  | SEncryption => negb (bool_decide (generate_ptr generate_encryption zero_apiDatabaseEncryption
      i.(cp_DatabaseEncryption) c.(acl_DatabaseEncryption) = c.(acl_DatabaseEncryption)))
  | SAbac => negb (bool_decide (generate_ptr generate_abac zero_apiLegacyAbac
      i.(cp_LegacyAbac) c.(acl_LegacyAbac) = c.(acl_LegacyAbac)))
  | SLocations => negb (bool_decide (norm_slice i.(cp_Locations) = norm_slice c.(acl_Locations)))
  | SLogging => negb (bool_decide (StringValue i.(cp_LoggingService) = c.(acl_LoggingService)))
  | SMaintenance => negb (bool_decide (view_maintenance <$> generate_ptr generate_maintenance zero_apiMaintenancePolicy
      i.(cp_MaintenancePolicy) c.(acl_MaintenancePolicy) = view_maintenance <$> c.(acl_MaintenancePolicy)))
  | SAuthorized => negb (bool_decide (view_authorized <$> generate_ptr generate_authorized
      zero_apiMasterAuthorizedNetworksConfig i.(cp_MasterAuthorizedNetworksConfig) c.(acl_MasterAuthorizedNetworksConfig)
      = view_authorized <$> c.(acl_MasterAuthorizedNetworksConfig)))
  | SMonitoring => negb (bool_decide (StringValue i.(cp_MonitoringService) = c.(acl_MonitoringService)))
  | SIntraNode => match i.(cp_NetworkConfig) with
      | Some n => negb (bool_decide (BoolValue n.(ncs_EnableIntraNodeVisibility) = intra_node c)) | None => false end
  | SDatapath => match i.(cp_NetworkConfig) with
      | Some n => negb (bool_decide (StringValue n.(ncs_DatapathProvider) = datapath c)) | None => false end
  | SNetworkPolicy => negb (bool_decide (generate_ptr generate_network_policy zero_apiNetworkPolicy
      i.(cp_NetworkPolicy) c.(acl_NetworkPolicy) = c.(acl_NetworkPolicy)))
  | SNotification => negb (bool_decide (generate_ptr generate_notification zero_apiNotificationConfig
      i.(cp_NotificationConfig) c.(acl_NotificationConfig) = c.(acl_NotificationConfig)))
  | SPrivate => negb (bool_decide (generate_ptr generate_private zero_apiPrivateClusterConfig
      i.(cp_PrivateClusterConfig) c.(acl_PrivateClusterConfig) = c.(acl_PrivateClusterConfig)))
  | SChannel => negb (bool_decide (generate_ptr generate_channel zero_apiReleaseChannel
      i.(cp_ReleaseChannel) c.(acl_ReleaseChannel) = c.(acl_ReleaseChannel)))
  | SLabels => negb (bool_decide (norm_map i.(cp_ResourceLabels) = norm_map c.(acl_ResourceLabels)))
  | SUsage => negb (bool_decide (generate_ptr generate_usage zero_apiResourceUsageExportConfig
      i.(cp_ResourceUsageExportConfig) c.(acl_ResourceUsageExportConfig) = c.(acl_ResourceUsageExportConfig)))
  | SVpa => negb (bool_decide (generate_ptr generate_vpa zero_apiVerticalPodAutoscaling
      i.(cp_VerticalPodAutoscaling) c.(acl_VerticalPodAutoscaling) = c.(acl_VerticalPodAutoscaling)))
  | SIdentity => negb (bool_decide (generate_ptr generate_identity zero_apiWorkloadIdentityConfig
      i.(cp_WorkloadIdentityConfig) c.(acl_WorkloadIdentityConfig) = c.(acl_WorkloadIdentityConfig)))
  end.

(** The update for a section. *)
Definition update_for (i : ClusterParameters) (s : section) : UpdateFn :=
  match s with
  | SBootstrap => deleteBootstrapNodePoolFn
  | SAddons => newAddonsConfigUpdateFn i.(cp_AddonsConfig)
  | SAutopilot => newAutopilotUpdateFn i.(cp_Autopilot)
  | SAutoscaling => newAutoscalingUpdateFn i.(cp_Autoscaling)
  | SBinary => newBinaryAuthorizationUpdateFn i.(cp_BinaryAuthorization)
  | SEncryption => newDatabaseEncryptionUpdateFn i.(cp_DatabaseEncryption)
  | SAbac => newLegacyAbacUpdateFn i.(cp_LegacyAbac)
  | SLocations => newLocationsUpdateFn i.(cp_Locations)
  | SLogging => newLoggingServiceUpdateFn i.(cp_LoggingService)
  | SMaintenance => newMaintenancePolicyUpdateFn i.(cp_MaintenancePolicy)
  | SAuthorized => newMasterAuthorizedNetworksConfigUpdateFn i.(cp_MasterAuthorizedNetworksConfig)
  | SMonitoring => newMonitoringServiceUpdateFn i.(cp_MonitoringService)
  | SIntraNode => newIntraNodeVisibilityConfigUpdateFn (i.(cp_NetworkConfig) ≫= ncs_EnableIntraNodeVisibility)
  | SDatapath => newDatapathProviderUpdateFn (i.(cp_NetworkConfig) ≫= ncs_DatapathProvider)
  | SNetworkPolicy => newNetworkPolicyUpdateFn i.(cp_NetworkPolicy)
  | SNotification => newNotificationConfigUpdateFn i.(cp_NotificationConfig)
  | SPrivate => newPrivateClusterConfigUpdateFn i.(cp_PrivateClusterConfig)
  | SChannel => newReleaseChannelUpdateFn i.(cp_ReleaseChannel)
  | SLabels => newResourceLabelsUpdateFn i.(cp_ResourceLabels)
  | SUsage => newResourceUsageExportConfigUpdateFn i.(cp_ResourceUsageExportConfig)
  | SVpa => newVerticalPodAutoscalingUpdateFn i.(cp_VerticalPodAutoscaling)
  | SIdentity => newWorkloadIdentityConfigUpdateFn i.(cp_WorkloadIdentityConfig)
  end.

Definition first_difference (i : ClusterParameters) (c : apiCluster) : option section := find (differs i c) sections.

(** The network config is compared where the spec has one. *)
Lemma network_compared `{Libs} i c :
  match generate_ptr generate_network_config zero_apiNetworkConfig i.(cp_NetworkConfig) c.(acl_NetworkConfig) with
  | None => Returns None
  | Some d =>
    let o := default zero_apiNetworkConfig c.(acl_NetworkConfig) in
    if negb (cmp_Equal (=) d.(anc_EnableIntraNodeVisibility) o.(anc_EnableIntraNodeVisibility))
    then n ← deref i.(cp_NetworkConfig);
         Returns (Some (newIntraNodeVisibilityConfigUpdateFn n.(ncs_EnableIntraNodeVisibility)))
    else if negb (cmp_Equal (=) d.(anc_DatapathProvider) o.(anc_DatapathProvider))
    then n ← deref i.(cp_NetworkConfig); Returns (Some (newDatapathProviderUpdateFn n.(ncs_DatapathProvider)))
    else Returns None
  end = Returns (if differs i c SIntraNode then Some (update_for i SIntraNode)
                 else if differs i c SDatapath then Some (update_for i SDatapath) else None).
Proof.
  simpl. destruct (cp_NetworkConfig i) as [n|]; simpl.
  - rewrite !cmp_Equal_decides. unfold intra_node, datapath. repeat case_bool_decide; done.
  - destruct (acl_NetworkConfig c); simpl; [|done]. by rewrite !cmp_Equal_refl.
Qed.

Lemma cluster_IsUpToDate_spec `{Libs} `{!CopySucceeds} name i c :
  IsUpToDate name i c = Returns
    match first_difference i c with Some s => (false, update_for i s, None) | None => (true, noOpUpdate, None) end.
Proof.
  unfold IsUpToDate. rewrite copy_succeeds, !cmp_Equal_decides.
  change (acl_NetworkConfig (GenerateCluster name i c)) with
    (generate_ptr generate_network_config zero_apiNetworkConfig i.(cp_NetworkConfig) c.(acl_NetworkConfig)).
  rewrite network_compared. unfold first_difference, sections. cbn [find].
  repeat match goal with
  | |- (if ?b then _ else _) = Returns (match (if differs i c ?s then _ else _) with _ => _ end) =>
    change b with (differs i c s); destruct (differs i c s); [reflexivity|]
  end.
  cbn [mbind outcome_bind].
  do 2 (match goal with |- context [if differs i c ?s then _ else _] => destruct (differs i c s); [reflexivity|] end).
  repeat match goal with
  | |- (if ?b then _ else _) = Returns (match (if differs i c ?s then _ else _) with _ => _ end) =>
    change b with (differs i c s); destruct (differs i c s); [reflexivity|]
  end.
  reflexivity.
Qed.
