(* ===== verification/ClusterUpdates.v ===== *)
(** * GKE clusters: updating ends

    The GKE API changes one section of a cluster at a time. What its
    documentation says of such a change is a class here; against any service of
    the class the updates of the controller reach a cluster that is up to date,
    one section after the other. *)

From Stdlib Require Import Lia.
From S2P Require Import Prelude Libs Contract Gcp Nested ClusterTypes ContainerAPI ClusterGenerate ClusterLate Cluster.

(** ** What a request asks for *)

(** A part of a request that is nil is not sent, and nothing is known of what
    the service has there; a part that is sent is met by what the service has. *)
Definition asks {A B} (R : A → B → Prop) (r : ptr A) (g : ptr B) : Prop :=
  ∀ a, r = Some a → ∃ b, g = Some b ∧ R a b.
(** A string, number, list or map that is empty is not sent either: the service may keep
    what it has or fill in a default. *)
Definition given {A} (empty r g : A) : Prop := r ≠ empty → g = r.
Definition given_list {A} (r g : slice A) : Prop := slice_empty r = false → norm_slice g = norm_slice r.
Definition given_map {A} (r g : gomap A) : Prop := map_empty r = false → norm_map g = norm_map r.

(** What a section [g] of the cluster has in common with a request [r] that was
    carried out. A switch is always set, and so are the limits of an upgrade and
    the keys, for which the API has no default. *)
Definition met_cloud_run (r g : apiCloudRunConfig) : Prop :=
  g.(acrc_Disabled) = r.(acrc_Disabled) ∧ given "" r.(acrc_LoadBalancerType) g.(acrc_LoadBalancerType).
Definition same {A B} (f : A → B) (r g : A) : Prop := f g = f r.
Definition met_addons (r g : apiAddonsConfig) : Prop :=
  asks met_cloud_run r.(aac_CloudRunConfig) g.(aac_CloudRunConfig) ∧
  asks (same aconnector_Enabled) r.(aac_ConfigConnectorConfig) g.(aac_ConfigConnectorConfig) ∧
  asks (same adns_Enabled) r.(aac_DnsCacheConfig) g.(aac_DnsCacheConfig) ∧
  asks (same acsi_Enabled) r.(aac_GcePersistentDiskCsiDriverConfig) g.(aac_GcePersistentDiskCsiDriverConfig) ∧
  asks (same ahpa_Disabled) r.(aac_HorizontalPodAutoscaling) g.(aac_HorizontalPodAutoscaling) ∧
  asks (same ahlb_Disabled) r.(aac_HttpLoadBalancing) g.(aac_HttpLoadBalancing) ∧
  asks (same akd_Disabled) r.(aac_KubernetesDashboard) g.(aac_KubernetesDashboard) ∧
  asks (same anpc_Disabled) r.(aac_NetworkPolicyConfig) g.(aac_NetworkPolicyConfig).
Definition met_management (r g : apiNodeManagement) : Prop :=
  g.(anm_AutoRepair) = r.(anm_AutoRepair) ∧ g.(anm_AutoUpgrade) = r.(anm_AutoUpgrade).
Definition met_shielded (r g : apiShieldedInstanceConfig) : Prop :=
  g.(asic_EnableIntegrityMonitoring) = r.(asic_EnableIntegrityMonitoring) ∧
  g.(asic_EnableSecureBoot) = r.(asic_EnableSecureBoot).
Definition met_upgrade (r g : apiUpgradeSettings) : Prop :=
  g.(aus_MaxSurge) = r.(aus_MaxSurge) ∧ g.(aus_MaxUnavailable) = r.(aus_MaxUnavailable).
Definition met_defaults (r g : apiAutoprovisioningNodePoolDefaults) : Prop :=
  g.(aapd_BootDiskKmsKey) = r.(aapd_BootDiskKmsKey) ∧ given 0%Z r.(aapd_DiskSizeGb) g.(aapd_DiskSizeGb) ∧
  given "" r.(aapd_MinCpuPlatform) g.(aapd_MinCpuPlatform) ∧ given_list r.(aapd_OauthScopes) g.(aapd_OauthScopes) ∧
  given "" r.(aapd_ServiceAccount) g.(aapd_ServiceAccount) ∧
  asks met_management r.(aapd_Management) g.(aapd_Management) ∧
  asks met_shielded r.(aapd_ShieldedInstanceConfig) g.(aapd_ShieldedInstanceConfig) ∧
  asks met_upgrade r.(aapd_UpgradeSettings) g.(aapd_UpgradeSettings).
Definition met_autoscaling (r g : apiClusterAutoscaling) : Prop :=
  given_list r.(aca_AutoprovisioningLocations) g.(aca_AutoprovisioningLocations) ∧
  g.(aca_EnableNodeAutoprovisioning) = r.(aca_EnableNodeAutoprovisioning) ∧
  asks met_defaults r.(aca_AutoprovisioningNodePoolDefaults) g.(aca_AutoprovisioningNodePoolDefaults) ∧
  given_list r.(aca_ResourceLimits) g.(aca_ResourceLimits).
Definition met_encryption (r g : apiDatabaseEncryption) : Prop :=
  g.(ade_KeyName) = r.(ade_KeyName) ∧ given "" r.(ade_State) g.(ade_State).
Definition met_recurring (r g : apiRecurringTimeWindow) : Prop :=
  given "" r.(artw_Recurrence) g.(artw_Recurrence) ∧ asks eq r.(artw_Window) g.(artw_Window).
Definition met_window (r g : apiMaintenanceWindow) : Prop :=
  asks (λ r g, given "" r.(admw_StartTime) g.(admw_StartTime)) r.(amw_DailyMaintenanceWindow) g.(amw_DailyMaintenanceWindow) ∧
  given_map r.(amw_MaintenanceExclusions) g.(amw_MaintenanceExclusions) ∧
  asks met_recurring r.(amw_RecurringWindow) g.(amw_RecurringWindow).
Definition met_maintenance (r g : apiMaintenancePolicy) : Prop := asks met_window r.(amp_Window) g.(amp_Window).
Definition met_authorized (r g : apiMasterAuthorizedNetworksConfig) : Prop :=
  given_list r.(amanc_CidrBlocks) g.(amanc_CidrBlocks) ∧ g.(amanc_Enabled) = r.(amanc_Enabled).
Definition met_network_policy (r g : apiNetworkPolicy) : Prop :=
  g.(anetp_Enabled) = r.(anetp_Enabled) ∧ given "" r.(anetp_Provider) g.(anetp_Provider).
Definition met_notification (r g : apiNotificationConfig) : Prop :=
  asks (λ r g, g.(apubsub_Enabled) = r.(apubsub_Enabled) ∧ given "" r.(apubsub_Topic) g.(apubsub_Topic))
    r.(anotif_Pubsub) g.(anotif_Pubsub).
Definition met_private (r g : apiPrivateClusterConfig) : Prop :=
  g.(apcc_EnablePrivateEndpoint) = r.(apcc_EnablePrivateEndpoint) ∧ g.(apcc_EnablePrivateNodes) = r.(apcc_EnablePrivateNodes) ∧
  given "" r.(apcc_MasterIpv4CidrBlock) g.(apcc_MasterIpv4CidrBlock) ∧
  asks eq r.(apcc_MasterGlobalAccessConfig) g.(apcc_MasterGlobalAccessConfig).
Definition met_usage (r g : apiResourceUsageExportConfig) : Prop :=
  g.(aruec_EnableNetworkEgressMetering) = r.(aruec_EnableNetworkEgressMetering) ∧
  asks (λ r g, given "" r.(abqd_DatasetId) g.(abqd_DatasetId)) r.(aruec_BigqueryDestination) g.(aruec_BigqueryDestination) ∧
  asks (same acmc_Enabled) r.(aruec_ConsumptionMeteringConfig) g.(aruec_ConsumptionMeteringConfig).

(** The update asks for a change of the section; a field that is empty is not
    sent. *)
Definition requests (u : ClusterUpdate) (s : section) : bool :=
  match s with
  | SAddons => bool_decide (is_Some u.(DesiredAddonsConfig))
  | SAutopilot => bool_decide (is_Some u.(DesiredAutopilot))
  | SAutoscaling => bool_decide (is_Some u.(DesiredClusterAutoscaling))
  | SBinary => bool_decide (is_Some u.(DesiredBinaryAuthorization))
  | SEncryption => bool_decide (is_Some u.(DesiredDatabaseEncryption))
  | SLocations => negb (slice_empty u.(DesiredLocations))
  | SLogging => negb (bool_decide (u.(DesiredLoggingService) = ""))
  | SAuthorized => bool_decide (is_Some u.(DesiredMasterAuthorizedNetworksConfig))
  | SMonitoring => negb (bool_decide (u.(DesiredMonitoringService) = ""))
  | SIntraNode => bool_decide (is_Some u.(DesiredIntraNodeVisibilityConfig))
  | SDatapath => negb (bool_decide (u.(DesiredDatapathProvider) = ""))
  | SNotification => bool_decide (is_Some u.(DesiredNotificationConfig))
  | SPrivate => bool_decide (is_Some u.(DesiredPrivateClusterConfig))
  | SChannel => bool_decide (is_Some u.(DesiredReleaseChannel))
  | SUsage => bool_decide (is_Some u.(DesiredResourceUsageExportConfig))
  | SVpa => bool_decide (is_Some u.(DesiredVerticalPodAutoscaling))
  | SIdentity => bool_decide (is_Some u.(DesiredWorkloadIdentityConfig))
  | SBootstrap | SAbac | SMaintenance | SNetworkPolicy | SLabels => false
  end.

(** The section of the cluster has what the update asks for. *)
Definition met (u : ClusterUpdate) (c : apiCluster) (s : section) : Prop :=
  match s with
  | SAddons => asks met_addons u.(DesiredAddonsConfig) c.(acl_AddonsConfig)
  | SAutopilot => asks (same aap_Enabled) u.(DesiredAutopilot) c.(acl_Autopilot)
  | SAutoscaling => asks met_autoscaling u.(DesiredClusterAutoscaling) c.(acl_Autoscaling)
  | SBinary => asks (same aba_Enabled) u.(DesiredBinaryAuthorization) c.(acl_BinaryAuthorization)
  | SEncryption => asks met_encryption u.(DesiredDatabaseEncryption) c.(acl_DatabaseEncryption)
  | SLocations => given_list u.(DesiredLocations) c.(acl_Locations)
  | SLogging => given "" u.(DesiredLoggingService) c.(acl_LoggingService)
  | SAuthorized => asks met_authorized u.(DesiredMasterAuthorizedNetworksConfig) c.(acl_MasterAuthorizedNetworksConfig)
  | SMonitoring => given "" u.(DesiredMonitoringService) c.(acl_MonitoringService)
  | SIntraNode => ∀ v, u.(DesiredIntraNodeVisibilityConfig) = Some v → intra_node c = v.(aivc_Enabled)
  | SDatapath => given "" u.(DesiredDatapathProvider) (datapath c)
  | SNotification => asks met_notification u.(DesiredNotificationConfig) c.(acl_NotificationConfig)
  | SPrivate => asks met_private u.(DesiredPrivateClusterConfig) c.(acl_PrivateClusterConfig)
  | SChannel => asks (λ r g, given "" r.(arc_Channel) g.(arc_Channel)) u.(DesiredReleaseChannel) c.(acl_ReleaseChannel)
  | SUsage => asks met_usage u.(DesiredResourceUsageExportConfig) c.(acl_ResourceUsageExportConfig)
  | SVpa => asks (same avpa_Enabled) u.(DesiredVerticalPodAutoscaling) c.(acl_VerticalPodAutoscaling)
  | SIdentity => asks (λ r g, given "" r.(awic_WorkloadPool) g.(awic_WorkloadPool))
      u.(DesiredWorkloadIdentityConfig) c.(acl_WorkloadIdentityConfig)
  | SBootstrap | SAbac | SMaintenance | SNetworkPolicy | SLabels => True
  end.

(** The section is the same in both clusters. *)
Definition kept (c c' : apiCluster) (s : section) : Prop :=
  match s with
  | SBootstrap => c'.(acl_NodePools) = c.(acl_NodePools)
  | SAddons => c'.(acl_AddonsConfig) = c.(acl_AddonsConfig)
  | SAutopilot => c'.(acl_Autopilot) = c.(acl_Autopilot)
  | SAutoscaling => c'.(acl_Autoscaling) = c.(acl_Autoscaling)
  | SBinary => c'.(acl_BinaryAuthorization) = c.(acl_BinaryAuthorization)
  | SEncryption => c'.(acl_DatabaseEncryption) = c.(acl_DatabaseEncryption)
  | SAbac => c'.(acl_LegacyAbac) = c.(acl_LegacyAbac)
  | SLocations => c'.(acl_Locations) = c.(acl_Locations)
  | SLogging => c'.(acl_LoggingService) = c.(acl_LoggingService)
  | SMaintenance => c'.(acl_MaintenancePolicy) = c.(acl_MaintenancePolicy)
  | SAuthorized => c'.(acl_MasterAuthorizedNetworksConfig) = c.(acl_MasterAuthorizedNetworksConfig)
  | SMonitoring => c'.(acl_MonitoringService) = c.(acl_MonitoringService)
  | SIntraNode => intra_node c' = intra_node c
  | SDatapath => datapath c' = datapath c
  | SNetworkPolicy => c'.(acl_NetworkPolicy) = c.(acl_NetworkPolicy)
  | SNotification => c'.(acl_NotificationConfig) = c.(acl_NotificationConfig)
  | SPrivate => c'.(acl_PrivateClusterConfig) = c.(acl_PrivateClusterConfig)
  | SChannel => c'.(acl_ReleaseChannel) = c.(acl_ReleaseChannel)
  | SLabels => c'.(acl_ResourceLabels) = c.(acl_ResourceLabels)
  | SUsage => c'.(acl_ResourceUsageExportConfig) = c.(acl_ResourceUsageExportConfig)
  | SVpa => c'.(acl_VerticalPodAutoscaling) = c.(acl_VerticalPodAutoscaling)
  | SIdentity => c'.(acl_WorkloadIdentityConfig) = c.(acl_WorkloadIdentityConfig)
  end.
Definition kept_but (s : section) (c c' : apiCluster) : Prop := ∀ s', s' ≠ s → kept c c' s'.

(** ** The service *)

(** A call was made for a section: it leaves the others alone, and it has brought
    the section in line, or it failed and the section is as it was. A call may
    also fail after it was carried out. *)
Definition changed (s : section) (carried_out : Prop) (r : option error) (c c' : apiCluster) : Prop :=
  carried_out ∨ (r ≠ None ∧ kept c c' s).

(** A service that holds clusters by name. Any call may fail. A read changes
    nothing and answers with the cluster; an update changes the sections it asks
    for and no other, and so do the calls for a single section. The state after
    a call is the one in which the operation that the call started is done. *)
Class GKE {W : Type} (serve : ∀ X, ClusterE X → W → X * W) (cluster_of : W → string → option apiCluster) := {
  gke_get name w c r w' : cluster_of w name = Some c → serve _ (ClustersGet name) w = (r, w') →
    w' = w ∧ ∀ c', r = inl c' → c' = c;
  gke_update name u w c r w' : cluster_of w name = Some c → serve _ (ClustersUpdate name u) w = (r, w') →
    ∃ c', cluster_of w' name = Some c' ∧
      ∀ s, if requests u s then changed s (met u c' s) r c c' else kept c c' s;
  gke_abac name b w c r w' : cluster_of w name = Some c → serve _ (ClustersSetLegacyAbac name b) w = (r, w') →
    ∃ c', cluster_of w' name = Some c' ∧ kept_but SAbac c c' ∧
      changed SAbac (∃ a, c'.(acl_LegacyAbac) = Some a ∧ a.(ala_Enabled) = b) r c c';
  gke_maintenance name p w c r w' : cluster_of w name = Some c → serve _ (ClustersSetMaintenancePolicy name p) w = (r, w') →
    ∃ c', cluster_of w' name = Some c' ∧ kept_but SMaintenance c c' ∧
      changed SMaintenance (asks met_maintenance p c'.(acl_MaintenancePolicy)) r c c';
  gke_network_policy name p w c r w' : cluster_of w name = Some c → serve _ (ClustersSetNetworkPolicy name p) w = (r, w') →
    ∃ c', cluster_of w' name = Some c' ∧ kept_but SNetworkPolicy c c' ∧
      changed SNetworkPolicy (asks met_network_policy p c'.(acl_NetworkPolicy)) r c c';
  gke_labels name l w c r w' : cluster_of w name = Some c → serve _ (ClustersSetResourceLabels name l) w = (r, w') →
    ∃ c', cluster_of w' name = Some c' ∧ kept_but SLabels c c' ∧
      changed SLabels (norm_map c'.(acl_ResourceLabels) = norm_map l) r c c';
  gke_delete_pool name w c r w' : cluster_of w name = Some c →
    serve _ (NodePoolsDelete (GetFullyQualifiedBNP name)) w = (r, w') →
    ∃ c', cluster_of w' name = Some c' ∧ kept_but SBootstrap c c' ∧
      changed SBootstrap (checkForBootstrapNodePool c' = false) r c c'
}.

(** ** Specs that say what they ask for *)

(** A string, number, list or map of a section that the spec configures is
    spelled out where the service would otherwise choose. *)
Definition spelled (x : ptr string) : Prop := StringValue x ≠ "".
Definition explicit_cloud_run (i : CloudRunConfig) : Prop := spelled i.(crc_LoadBalancerType).
Definition explicit_addons (i : AddonsConfig) : Prop := ∀ c, i.(ac_CloudRunConfig) = Some c → explicit_cloud_run c.
Definition explicit_defaults (i : AutoprovisioningNodePoolDefaults) : Prop :=
  Int64Value i.(apd_DiskSizeGb) ≠ 0%Z ∧ spelled i.(apd_MinCPUPlatform) ∧ slice_empty i.(apd_OauthScopes) = false ∧
  spelled i.(apd_ServiceAccount).
Definition explicit_autoscaling (i : ClusterAutoscaling) : Prop :=
  slice_empty i.(ca_AutoprovisioningLocations) = false ∧
  ∀ d, i.(ca_AutoprovisioningNodePoolDefaults) = Some d → explicit_defaults d.
Definition explicit_recurring (i : RecurringTimeWindow) : Prop := i.(rtw_Recurrence) ≠ Some "".
Definition explicit_maintenance (i : MaintenancePolicySpec) : Prop :=
  let w := i.(mps_Window) in
  (∀ d, w.(mws_DailyMaintenanceWindow) = Some d → d.(dmws_StartTime) ≠ "") ∧
  w.(mws_MaintenanceExclusions) ≠ Some ∅ ∧
  (∀ r, w.(mws_RecurringWindow) = Some r → explicit_recurring r).
Definition explicit_usage (i : ResourceUsageExportConfig) : Prop :=
  ∀ b, i.(ruec_BigqueryDestination) = Some b → b.(bqd_DatasetID) ≠ "".
Definition explicit (i : ClusterParameters) : Prop :=
  (∀ a, i.(cp_AddonsConfig) = Some a → explicit_addons a) ∧
  (∀ a, i.(cp_Autoscaling) = Some a → explicit_autoscaling a) ∧
  (∀ d, i.(cp_DatabaseEncryption) = Some d → spelled d.(de_State)) ∧
  (∀ m, i.(cp_MaintenancePolicy) = Some m → explicit_maintenance m) ∧
  (∀ p, i.(cp_NetworkPolicy) = Some p → spelled p.(netp_Provider)) ∧
  (∀ p, i.(cp_PrivateClusterConfig) = Some p → spelled p.(pccs_MasterIpv4CidrBlock)) ∧
  (∀ r, i.(cp_ReleaseChannel) = Some r → r.(rc_Channel) ≠ "") ∧
  (∀ u, i.(cp_ResourceUsageExportConfig) = Some u → explicit_usage u) ∧
  (∀ w, i.(cp_WorkloadIdentityConfig) = Some w → w.(wic_WorkloadPool) ≠ "").

(** ** A section that has what was asked for does not differ *)

Lemma settled_ptr {A B C} (gen : A → B → B) (zero : B) (ok : A → Prop) (met : B → B → Prop) (view : B → C) x y :
  (∀ a b, ok a → met (gen a zero) b → view (gen a b) = view b) → (∀ a, x = Some a → ok a) →
  asks met (generate_ptr gen zero x None) y → view <$> generate_ptr gen zero x y = view <$> y.
Proof.
  intros Hs Hok Hm. destruct x as [a|]; [|done]. destruct (Hm _ eq_refl) as (b & -> & Hb).
  simpl. f_equal. apply Hs; auto.
Qed.
(** The same for structs compared as they are. *)
Lemma settled_id {A B} (gen : A → B → B) (zero : B) (ok : A → Prop) (met : B → B → Prop) x y :
  (∀ a b, ok a → met (gen a zero) b → gen a b = b) → (∀ a, x = Some a → ok a) →
  asks met (generate_ptr gen zero x None) y → generate_ptr gen zero x y = y.
Proof.
  intros Hs Hok Hm. rewrite <-(option_fmap_id y) at 2. rewrite <-(option_fmap_id (generate_ptr gen zero x y)).
  by eapply settled_ptr.
Qed.
(** And for those without a part that may be left out. *)
Lemma settled_always {A B} (gen : A → B → B) (zero : B) (met : B → B → Prop) x y :
  (∀ a b, met (gen a zero) b → gen a b = b) → asks met (generate_ptr gen zero x None) y → generate_ptr gen zero x y = y.
Proof. intros Hs. apply (settled_id _ _ (λ _, True)); auto. Qed.

Lemma settled_elems {A B} (f : A → B) x y :
  given_list (generate_elems f x None) y → norm_slice (generate_elems f x y) = norm_slice y.
Proof.
  unfold generate_elems, given_list. destruct (slice_empty x) eqn:Hx; [done|]. intros Hy. symmetry. apply Hy.
  unfold slice_empty, elems, each in *. simpl. by destruct x as [[|]|].
Qed.


Lemma settled_addons a b : explicit_addons a → met_addons (generate_addons a zero_apiAddonsConfig) b →
  view_addons (generate_addons a b) = view_addons b.
Proof.
  intros Ha (H1 & H2 & H3 & H4 & H5 & H6 & H7 & H8). destruct b. unfold view_addons. simpl in *. f_equal;
    [eapply settled_ptr; [|exact Ha|exact H1]; intros [] []; unfold explicit_cloud_run, spelled, met_cloud_run, given; simpl;
     intros Hs [-> Hl]; by rewrite Hl|..];
    (eapply (settled_ptr _ _ (λ _, True)); [|done|eassumption]; intros [] [] _; unfold same; simpl; by intros ->).
Qed.
Lemma settled_defaults a b :
  explicit_defaults a → met_defaults (generate_defaults a zero_apiAutoprovisioningNodePoolDefaults) b →
  view_defaults (generate_defaults a b) = view_defaults b.
Proof.
  intros (E1 & E2 & E3 & E4) (H1 & H2 & H3 & H4 & H5 & H6 & H7 & H8). destruct b.
  unfold view_defaults, generate_defaults, spelled, given, given_list in *. simpl in *. subst.
  rewrite (H2 E1), (H3 E2), (H5 E4). f_equal.
  - eapply settled_always, H6. intros [] []; unfold met_management; simpl. by intros [-> ->].
  - by rewrite H4.
  - eapply settled_always, H7. intros [] []; unfold met_shielded; simpl. by intros [-> ->].
  - eapply settled_always, H8. intros [] []; unfold met_upgrade; simpl. by intros [-> ->].
Qed.
Lemma settled_autoscaling a b :
  explicit_autoscaling a → met_autoscaling (generate_autoscaling a zero_apiClusterAutoscaling) b →
  view_autoscaling (generate_autoscaling a b) = view_autoscaling b.
Proof.
  intros [E1 E2] (H1 & H2 & H3 & H4). destruct b. unfold view_autoscaling, generate_autoscaling in *. simpl in *.
  subst. f_equal.
  - symmetry. by apply H1.
  - eapply settled_ptr, H3; [apply settled_defaults|done].
  - by apply settled_elems.
Qed.
Lemma settled_recurring a b :
  explicit_recurring a → met_recurring (generate_recurring a zero_apiRecurringTimeWindow) b → generate_recurring a b = b.
Proof.
  destruct a as [rec w], b. unfold explicit_recurring, met_recurring, given, generate_recurring. simpl. intros He [H1 H2].
  f_equal.
  - destruct rec as [rec|]; [|done]. symmetry. apply H1. congruence.
  - destruct w; [|done]. destruct (H2 _ eq_refl) as (? & -> & <-). done.
Qed.
Lemma settled_maintenance a b :
  explicit_maintenance a → met_maintenance (generate_maintenance a zero_apiMaintenancePolicy) b →
  view_maintenance (generate_maintenance a b) = view_maintenance b.
Proof.
  intros (E1 & E2 & E3) Hm. destruct (Hm _ eq_refl) as (w & Hw & H1 & H2 & H3). destruct b. simpl in *. subst.
  unfold view_maintenance. simpl. do 2 f_equal. destruct a as [[d m r]], w. unfold view_window, generate_window. simpl in *.
  f_equal.
  - eapply settled_id, H1; [|exact E1]. intros [] []; unfold given; simpl. intros Hd Hg. by rewrite Hg.
  - destruct m as [m|]; [|done]. symmetry. apply H2. unfold map_empty. simpl. apply bool_decide_eq_false.
    intros Hem. apply fmap_empty_iff in Hem. congruence.
  - eapply settled_id, H3; [apply settled_recurring|done].
Qed.
Lemma settled_authorized a b :
  met_authorized (generate_authorized a zero_apiMasterAuthorizedNetworksConfig) b →
  view_authorized (generate_authorized a b) = view_authorized b.
Proof.
  destruct b. unfold met_authorized, view_authorized, generate_authorized. simpl. intros [H1 ->]. f_equal.
  by apply settled_elems.
Qed.
Lemma settled_notification a b :
  met_notification (generate_notification a zero_apiNotificationConfig) b → generate_notification a b = b.
Proof.
  intros Hm. destruct (Hm _ eq_refl) as (q & Hq & _). unfold generate_notification. by rewrite Hq.
Qed.
Lemma settled_private a b :
  spelled a.(pccs_MasterIpv4CidrBlock) → met_private (generate_private a zero_apiPrivateClusterConfig) b →
  generate_private a b = b.
Proof.
  intros He (H1 & H2 & H3 & H4). destruct a as [? ? g ?], b. unfold generate_private, spelled, given in *. simpl in *.
  subst. rewrite H3 by done. f_equal. destruct g; [|done]. destruct (H4 _ eq_refl) as (? & -> & <-). done.
Qed.
Lemma settled_usage a b :
  explicit_usage a → met_usage (generate_usage a zero_apiResourceUsageExportConfig) b → generate_usage a b = b.
Proof.
  intros He (H1 & H2 & H3). destruct b. unfold generate_usage. simpl in *. subst. f_equal.
  - eapply settled_id, H2; [|exact He]. intros [] []; unfold given; simpl. intros Hd Hg. by rewrite Hg.
  - eapply settled_always, H3. intros [] []; unfold same; simpl. by intros ->.
Qed.

(** ** A step *)

(** Sections that the service leaves alone go on differing or not. *)
Lemma kept_differs i c c' s : kept c c' s → differs i c' s = differs i c s.
Proof. by destruct s; simpl; unfold checkForBootstrapNodePool; intros ->. Qed.

(** The spec leaves out nothing that a request could not take away: an empty list
    of locations, service or provider cannot be sent. *)
Definition updatable (i : ClusterParameters) (c : apiCluster) : Prop :=
  (slice_empty i.(cp_Locations) = true → slice_empty c.(acl_Locations) = true) ∧
  (StringValue i.(cp_LoggingService) = "" → c.(acl_LoggingService) = "") ∧
  (StringValue i.(cp_MonitoringService) = "" → c.(acl_MonitoringService) = "") ∧
  (∀ n, i.(cp_NetworkConfig) = Some n → StringValue n.(ncs_DatapathProvider) = "" → datapath c = "").

Lemma norm_slice_empty {A} (x y : slice A) : slice_empty x = true → slice_empty y = true → norm_slice x = norm_slice y.
Proof. unfold slice_empty, norm_slice. by destruct (elems x), (elems y). Qed.

(** The request of an update reaches the section it was made for: it asks for
    that section alone, and a section that meets it does not differ. *)
Definition update_of (i : ClusterParameters) (s : section) : ClusterUpdate :=
  match s with
  | SAddons => {| no_update with DesiredAddonsConfig :=
      generate_ptr generate_addons zero_apiAddonsConfig i.(cp_AddonsConfig) None |}
  | SAutopilot => {| no_update with DesiredAutopilot :=
      generate_ptr generate_autopilot zero_apiAutopilot i.(cp_Autopilot) None |}
  | SAutoscaling => {| no_update with DesiredClusterAutoscaling :=
      generate_ptr generate_autoscaling zero_apiClusterAutoscaling i.(cp_Autoscaling) None |}
  | SBinary => {| no_update with DesiredBinaryAuthorization :=
      generate_ptr generate_binary zero_apiBinaryAuthorization i.(cp_BinaryAuthorization) None |}
  | SEncryption => {| no_update with DesiredDatabaseEncryption :=
      generate_ptr generate_encryption zero_apiDatabaseEncryption i.(cp_DatabaseEncryption) None |}
  | SLocations => {| no_update with DesiredLocations := i.(cp_Locations) |}
  | SLogging => {| no_update with DesiredLoggingService := StringValue i.(cp_LoggingService) |}
  | SAuthorized => {| no_update with DesiredMasterAuthorizedNetworksConfig :=
      generate_ptr generate_authorized zero_apiMasterAuthorizedNetworksConfig i.(cp_MasterAuthorizedNetworksConfig) None |}
  | SMonitoring => {| no_update with DesiredMonitoringService := StringValue i.(cp_MonitoringService) |}
  | SIntraNode => {| no_update with DesiredIntraNodeVisibilityConfig :=
      Some {| aivc_Enabled := BoolValue (i.(cp_NetworkConfig) ≫= ncs_EnableIntraNodeVisibility) |} |}
  | SDatapath => {| no_update with DesiredDatapathProvider := StringValue (i.(cp_NetworkConfig) ≫= ncs_DatapathProvider) |}
  | SNotification => {| no_update with DesiredNotificationConfig :=
      generate_ptr generate_notification zero_apiNotificationConfig i.(cp_NotificationConfig) None |}
  | SPrivate => {| no_update with DesiredPrivateClusterConfig :=
      generate_ptr generate_private zero_apiPrivateClusterConfig i.(cp_PrivateClusterConfig) None |}
  | SChannel => {| no_update with DesiredReleaseChannel :=
      generate_ptr generate_channel zero_apiReleaseChannel i.(cp_ReleaseChannel) None |}
  | SUsage => {| no_update with DesiredResourceUsageExportConfig :=
      generate_ptr generate_usage zero_apiResourceUsageExportConfig i.(cp_ResourceUsageExportConfig) None |}
  | SVpa => {| no_update with DesiredVerticalPodAutoscaling :=
      generate_ptr generate_vpa zero_apiVerticalPodAutoscaling i.(cp_VerticalPodAutoscaling) None |}
  | SIdentity => {| no_update with DesiredWorkloadIdentityConfig :=
      generate_ptr generate_identity zero_apiWorkloadIdentityConfig i.(cp_WorkloadIdentityConfig) None |}
  | _ => no_update
  end.

Definition by_update (s : section) : bool :=
  match s with SBootstrap | SAbac | SMaintenance | SNetworkPolicy | SLabels => false | _ => true end.

Lemma call_update_of i s name : by_update s = true →
  call_update (update_for i s) name = call (ClustersUpdate name (update_of i s)).
Proof. by destruct s. Qed.

Lemma update_requests_only i s s' : s' ≠ s → requests (update_of i s) s' = false.
Proof. destruct s, s'; intros Hne; try done. Qed.

Lemma generate_ptr_some {A B} (gen : A → B → B) zero x y :
  generate_ptr gen zero x y ≠ y → is_Some (generate_ptr gen zero x None).
Proof. destruct x; simpl; [eauto|done]. Qed.

Lemma negb_bool_decide_true (P : Prop) `{!Decision P} : negb (bool_decide P) = true ↔ ¬ P.
Proof. by rewrite negb_true_iff, bool_decide_eq_false. Qed.

(** What differs is asked for. *)
Lemma update_requests i c s :
  by_update s = true → updatable i c → differs i c s = true → requests (update_of i s) s = true.
Proof.
  intros Hs (Hloc & Hlog & Hmon & Hdata). destruct s; try done; simpl;
    try (intros Hd%negb_bool_decide_true; apply bool_decide_eq_true;
         eapply generate_ptr_some; intros Heq; apply Hd; by rewrite Heq).
  - intros Hd%negb_bool_decide_true. apply negb_true_iff, not_true_is_false. intros He.
    apply Hd, norm_slice_empty; auto.
  - intros Hd%negb_bool_decide_true. apply negb_bool_decide_true. intros He. apply Hd. rewrite He. symmetry. auto.
  - intros Hd%negb_bool_decide_true. apply negb_bool_decide_true. intros He. apply Hd. rewrite He. symmetry. auto.
  - destruct (cp_NetworkConfig i) as [n|] eqn:Hn; [|done]. simpl.
    intros Hd%negb_bool_decide_true. apply negb_bool_decide_true. intros He. apply Hd. rewrite He. symmetry.
    by eapply Hdata.
Qed.

Lemma negb_bool_decide_false (P : Prop) `{!Decision P} : negb (bool_decide P) = false ↔ P.
Proof. by rewrite negb_false_iff, bool_decide_eq_true. Qed.

(** What was asked for does not differ any more. *)
Lemma met_settles i c s :
  by_update s = true → explicit i → requests (update_of i s) s = true → met (update_of i s) c s → differs i c s = false.
Proof.
  intros Hs (E1 & E2 & E3 & E4 & E5 & E6 & E7 & E8 & E9) Hr Hm.
  destruct s; try done; simpl in *; try apply negb_bool_decide_false.
  - eapply settled_ptr, Hm; [apply settled_addons|done].
  - eapply settled_always, Hm. intros [] []; unfold same; simpl; by intros ->.
  - eapply settled_ptr, Hm; [apply settled_autoscaling|done].
  - eapply settled_always, Hm. intros [] []; unfold same; simpl; by intros ->.
  - eapply settled_id, Hm; [|exact E3]. intros [] []; unfold spelled, met_encryption, given; simpl. intros Hne [-> Hst].
    by rewrite Hst.
  - symmetry. apply Hm. by apply negb_true_iff.
  - symmetry. apply Hm. by apply negb_bool_decide_true in Hr.
  - eapply (settled_ptr _ _ (λ _, True)), Hm; [intros ? ? _; apply settled_authorized|done].
  - symmetry. apply Hm. by apply negb_bool_decide_true in Hr.
  - destruct (cp_NetworkConfig i); simpl in *; [|done]. apply negb_bool_decide_false. by rewrite (Hm _ eq_refl).
  - destruct (cp_NetworkConfig i); simpl in *; [|done]. apply negb_bool_decide_false. symmetry. apply Hm.
    by apply negb_bool_decide_true in Hr.
  - eapply settled_always, Hm. apply settled_notification.
  - eapply settled_id, Hm; [apply settled_private|done].
  - eapply settled_id, Hm; [|exact E7]. intros [] []; unfold given; simpl. intros Hne Hg. by rewrite Hg.
  - eapply settled_id, Hm; [apply settled_usage|done].
  - eapply settled_always, Hm. intros [] []; unfold same; simpl; by intros ->.
  - eapply settled_id, Hm; [|exact E9]. intros [] []; unfold given; simpl. intros Hne Hg. by rewrite Hg.
Qed.

Section termination.
Context `{Libs} `{!CopySucceeds}.
Context {W : Type} (serve : ∀ X, ClusterE X → W → X * W) (cluster_of : W → string → option apiCluster).
Context `{!GKE serve cluster_of}.

(** What an update did to the cluster: it touched no section but the one it is
    for, and either settled that one or failed and left it. *)
Definition stepped (i : ClusterParameters) (s : section) (r : option error) (c c' : apiCluster) : Prop :=
  kept_but s c c' ∧ changed s (differs i c' s = false) r c c'.

Lemma changed_settles s (P Q : Prop) r c c' : (P → Q) → changed s P r c c' → changed s Q r c c'.
Proof. intros HPQ [HP|Hf]; [left; auto|by right]. Qed.

(** An update for a section that differs returns, and is such a step. *)
Lemma call_update_runs i s name w c :
  explicit i → cluster_of w name = Some c → updatable i c → differs i c s = true →
  ∃ r w' c', run serve (call_update (update_for i s) name) w = Returns (r, w') ∧ cluster_of w' name = Some c' ∧
    stepped i s r c c'.
Proof using Type*.
  intros Hex Hc Hup Hd. destruct (by_update s) eqn:Hs.
  - rewrite call_update_of by done. simpl. destruct (serve _ _ w) as [r w'] eqn:Hrun.
    destruct (gke_update _ _ _ _ _ _ Hc Hrun) as (c' & Hc' & Hu). exists r, w', c'. split_and!; [done|done|split].
    + intros s' Hne. specialize (Hu s'). by rewrite update_requests_only in Hu.
    + pose proof (update_requests i c s Hs Hup Hd) as Hr. specialize (Hu s). rewrite Hr in Hu.
      eapply changed_settles, Hu. by apply met_settles.
  - pose proof Hex as (_ & _ & _ & E4 & E5 & _). destruct s; try done; simpl in Hd |- *.
    + destruct (serve _ _ w) as [r w'] eqn:Hrun. destruct (gke_delete_pool _ _ _ _ _ Hc Hrun) as (c' & Hc' & Hk & Hb).
      by exists r, w', c'.
    + destruct (cp_LegacyAbac i) as [a|] eqn:Ha; simpl in Hd |- *; [|by rewrite bool_decide_eq_true_2 in Hd].
      destruct (serve _ _ w) as [r w'] eqn:Hrun. destruct (gke_abac _ _ _ _ _ _ Hc Hrun) as (c' & Hc' & Hk & Hb).
      exists r, w', c'. split_and!; [done..|split; [done|]]. eapply changed_settles, Hb.
      intros (o & Ho & Hen). simpl. rewrite Ha, Ho. apply negb_bool_decide_false. destruct o; simpl in *. by subst.
    + destruct (serve _ _ w) as [r w'] eqn:Hrun. destruct (gke_maintenance _ _ _ _ _ _ Hc Hrun) as (c' & Hc' & Hk & Hb).
      exists r, w', c'. split_and!; [done..|split; [done|]]. eapply changed_settles, Hb. intros Hm.
      apply negb_bool_decide_false. eapply settled_ptr, Hm; [apply settled_maintenance|done].
    + destruct (serve _ _ w) as [r w'] eqn:Hrun. destruct (gke_network_policy _ _ _ _ _ _ Hc Hrun) as (c' & Hc' & Hk & Hb).
      exists r, w', c'. split_and!; [done..|split; [done|]]. eapply changed_settles, Hb. intros Hm.
      apply negb_bool_decide_false. eapply settled_id, Hm; [|exact E5].
      intros [] []; unfold spelled, met_network_policy, given; simpl. intros Hne [-> Hp]. by rewrite Hp.
    + destruct (serve _ _ w) as [r w'] eqn:Hrun. destruct (gke_labels _ _ _ _ _ _ Hc Hrun) as (c' & Hc' & Hk & Hb).
      exists r, w', c'. split_and!; [done..|split; [done|]]. eapply changed_settles, Hb. intros Hm.
      by apply negb_bool_decide_false.
Qed.

(** How many sections differ. *)
Definition differences (i : ClusterParameters) (c : apiCluster) : nat :=
  List.length (List.filter (differs i c) sections).

Lemma first_difference_Some i c s : first_difference i c = Some s → differs i c s = true.
Proof. intros Hf. by apply find_some in Hf as [_ Hd]. Qed.
Lemma first_difference_None i c : first_difference i c = None ↔ differences i c = 0%nat.
Proof.
  unfold differences, first_difference. induction sections as [|s l IH]; [done|]. simpl.
  by destruct (differs i c s); [|apply IH].
Qed.

Lemma filter_one_less (P Q : section → bool) s (l : list section) :
  NoDup l → s ∈ l → P s = true → Q s = false → (∀ s', s' ≠ s → Q s' = P s') →
  List.length (List.filter P l) = S (List.length (List.filter Q l)).
Proof.
  intros Hnd Hin Hp Hq Hrest. induction Hnd as [|x l Hx Hnd IH]; [by apply elem_of_nil in Hin|].
  simpl. destruct (decide (x = s)) as [->|Hne].
  - rewrite Hp, Hq. simpl. do 2 f_equal. apply List.filter_ext_in. intros s' Hs'%list_elem_of_In.
    symmetry. apply Hrest. by intros ->.
  - rewrite (Hrest x Hne). apply elem_of_cons in Hin as [->|Hin]; [done|]. specialize (IH Hin).
    destruct (P x); simpl; lia.
Qed.
Lemma sections_all s : s ∈ sections.
Proof. apply (bool_decide_eq_true_1 _). by destruct s. Qed.
Lemma sections_nodup : NoDup sections.
Proof. by apply (bool_decide_eq_true_1 _). Qed.

Lemma updatable_kept i c c' s : updatable i c → kept_but s c c' → differs i c' s = false → updatable i c'.
Proof.
  intros (Hloc & Hlog & Hmon & Hdata) Hk Hd. split_and!.
  - destruct (decide (s = SLocations)) as [->|Hne].
    + simpl in Hd. apply negb_bool_decide_false in Hd. unfold norm_slice, slice_empty in *.
      by destruct (elems (cp_Locations i)), (elems (acl_Locations c')).
    + specialize (Hk SLocations (not_eq_sym Hne)). simpl in Hk. by rewrite Hk.
  - destruct (decide (s = SLogging)) as [->|Hne].
    + simpl in Hd. apply negb_bool_decide_false in Hd. congruence.
    + specialize (Hk SLogging (not_eq_sym Hne)). simpl in Hk. by rewrite Hk.
  - destruct (decide (s = SMonitoring)) as [->|Hne].
    + simpl in Hd. apply negb_bool_decide_false in Hd. congruence.
    + specialize (Hk SMonitoring (not_eq_sym Hne)). simpl in Hk. by rewrite Hk.
  - intros n Hn He. destruct (decide (s = SDatapath)) as [->|Hne].
    + simpl in Hd. rewrite Hn in Hd. apply negb_bool_decide_false in Hd. congruence.
    + specialize (Hk SDatapath (not_eq_sym Hne)). simpl in Hk. rewrite Hk. by eapply Hdata.
Qed.

Variable projectID : string.
Variable cr : Cluster.
Let name := cluster_name projectID cr.
Let i := cr.(ForProvider).

(** Updates in a row, of which [n] succeed. *)
Inductive updates : nat → W → W → Prop :=
| updates_none w : updates 0 w w
| updates_succeeds n w w1 w2 :
    run serve (Update projectID (Some cr)) w = Returns (None, Some cr, w1) → updates n w1 w2 → updates (S n) w w2
| updates_fails n w w1 w2 err :
    run serve (Update projectID (Some cr)) w = Returns (Some err, Some cr, w1) → updates n w1 w2 → updates n w w2.

Hypothesis idle : cr.(AtProvider).(co_Status) ≠ ClusterStateReconciling ∧ cr.(AtProvider).(co_Status) ≠ ClusterStateProvisioning.
Hypothesis Hexplicit : explicit i.

(** A step settles a section or changes nothing. *)
Lemma stepped_differences s r c c' :
  updatable i c → differs i c s = true → stepped i s r c c' →
  updatable i c' ∧ (differences i c = S (differences i c') ∨ (r ≠ None ∧ differences i c' = differences i c)).
Proof using Type*.
  intros Hup Hd [Hk [Hs|[Hr Hs]]].
  - split; [by eapply updatable_kept|]. left.
    apply (filter_one_less _ _ s); [apply sections_nodup|apply sections_all|done|done|].
    intros s' Hne. by apply kept_differs, Hk.
  - assert (∀ s', kept c c' s') as Hall by (intros s'; destruct (decide (s' = s)) as [->|]; auto). split.
    + destruct Hup as (Hloc & Hlog & Hmon & Hdata). pose proof (Hall SLocations) as H1. pose proof (Hall SLogging) as H2.
      pose proof (Hall SMonitoring) as H3. pose proof (Hall SDatapath) as H4. simpl in H1, H2, H3, H4.
      unfold updatable. by rewrite H1, H2, H3, H4.
    + right. split; [done|]. unfold differences. f_equal. apply List.filter_ext_in. intros s' _. by apply kept_differs.
Qed.

(** One update: it returns; if it succeeds, a section less differs or none did;
    if it fails, no more differ than before. *)
Lemma update_step w c :
  cluster_of w name = Some c → updatable i c →
  ∃ r w' c', run serve (Update projectID (Some cr)) w = Returns (r, Some cr, w') ∧ cluster_of w' name = Some c' ∧
    updatable i c' ∧ (differences i c' ≤ differences i c)%nat ∧
    (r = None → (differences i c' ≤ differences i c - 1)%nat).
Proof using Type*.
  intros Hc Hup. unfold Update. rewrite bool_decide_eq_false_2 by tauto. simpl. fold name.
  destruct (serve _ (ClustersGet name) w) as [got w0] eqn:Hget. destruct (gke_get _ _ _ _ _ Hc Hget) as [-> Hgot].
  destruct got as [c0|err].
  2:{ eexists _, w, c. split_and!; [done..|intros Hr; by apply errors_Wrap_None in Hr]. }
  rewrite (Hgot c0 eq_refl). clear Hgot Hget. fold i. rewrite cluster_IsUpToDate_spec.
  destruct (first_difference i c) as [s|] eqn:Hs; simpl.
  - pose proof (first_difference_Some _ _ _ Hs) as Hd.
    destruct (call_update_runs i s name w c Hexplicit Hc Hup Hd) as (r & w' & c' & Hrun & Hc' & Hst).
    destruct (stepped_differences s r c c' Hup Hd Hst) as [Hup' Hn].
    change (prog_bind_ ?f ?p) with (p ≫= f). rewrite run_bind, Hrun. simpl. eexists _, w', c'. split_and!; [done..|lia|].
    intros Hr. apply errors_Wrap_None in Hr. destruct Hn as [Hn|[Hn _]]; [lia|done].
  - apply first_difference_None in Hs. eexists _, w, c. split_and!; [done..|lia].
Qed.

Lemma updates_settle n w w' :
  updates n w w' → ∀ c, cluster_of w name = Some c → updatable i c →
  ∃ c', cluster_of w' name = Some c' ∧ updatable i c' ∧ (differences i c' ≤ differences i c - n)%nat.
Proof using Type*.
  induction 1 as [w|n w w1 w2 Hrun _ IH|n w w1 w2 err Hrun _ IH]; intros c Hc Hup; [exists c; split_and!; [done..|lia]|..];
    destruct (update_step w c Hc Hup) as (r & w1' & c1 & Hrun' & Hc1 & Hup1 & Hle & Hok); rewrite Hrun' in Hrun;
    injection Hrun as -> ->; destruct (IH c1 Hc1 Hup1) as (c2 & Hc2 & Hup2 & Hle2); exists c2; (split_and!; [done..|]).
  - specialize (Hok eq_refl). lia.
  - lia.
Qed.
End termination.

(** C2: updating a cluster ends. Take any service that may fail any call and
    otherwise changes the one section a call asks for; a cluster of which the
    last observed status is neither reconciling nor provisioning; and a spec that leaves out nothing a request could not
    take away ([updatable]) and nothing the service would choose ([explicit]). However many updates the
    controller has made, whichever of them failed: the next one returns, without a
    panic; each successful one settled one of the at most 22 sections that
    differed, and no failed one unsettled any; and once as many have succeeded as sections
    differed, the cluster is up to date. *)
Theorem cluster_updates_terminate `{Libs} `{!CopySucceeds} {W : Type}
    (serve : ∀ X, ClusterE X → W → X * W) (cluster_of : W → string → option apiCluster) `{!GKE serve cluster_of}
    projectID cr n w w' c
    (Hidle : cr.(AtProvider).(co_Status) ≠ ClusterStateReconciling ∧ cr.(AtProvider).(co_Status) ≠ ClusterStateProvisioning)
    (Hc : cluster_of w (cluster_name projectID cr) = Some c)
    (Hup : updatable cr.(ForProvider) c) (Hex : explicit cr.(ForProvider))
    (Hups : updates serve projectID cr n w w') :
  (differences cr.(ForProvider) c ≤ 22)%nat ∧
  (∃ r w'', run serve (Update projectID (Some cr)) w' = Returns (r, Some cr, w'')) ∧
  ∃ c', cluster_of w' (cluster_name projectID cr) = Some c' ∧
    (differences cr.(ForProvider) c' ≤ differences cr.(ForProvider) c - n)%nat ∧
    ((differences cr.(ForProvider) c ≤ n)%nat →
     IsUpToDate cr.(ExternalName) cr.(ForProvider) c' = Returns (true, noOpUpdate, None)).
Proof.
  destruct (updates_settle serve cluster_of projectID cr Hidle Hex n w w' Hups c Hc Hup) as (c' & Hc' & Hup' & Hle).
  split_and!.
  - unfold differences. etransitivity; [apply List.filter_length_le|]. done.
  - destruct (update_step serve cluster_of projectID cr Hidle Hex w' c' Hc' Hup') as (r & w'' & ? & Hrun & _). eauto.
  - exists c'. split_and!; [done..|]. intros Hn. rewrite cluster_IsUpToDate_spec.
    assert (differences cr.(ForProvider) c' = 0)%nat as Hd by lia. apply first_difference_None in Hd. by rewrite Hd.
Qed.

(** ** Where the hypothesis comes from *)

(** The user did not write an empty string where the API has a value. *)
Definition no_empty_strings (i : ClusterParameters) : Prop :=
  i.(cp_LoggingService) ≠ Some "" ∧ i.(cp_MonitoringService) ≠ Some "" ∧
  (∀ n, i.(cp_NetworkConfig) = Some n → n.(ncs_DatapathProvider) ≠ Some "").

Lemma late_string_value x from : x ≠ Some "" → StringValue (LateInitializeString x from) = "" → from = "".
Proof. rewrite StringValue_late. destruct x; simpl; congruence. Qed.

(** A spec that went through LateInitializeSpec with the cluster, and in which
    the user wrote no empty string, leaves out nothing that a request could not
    take away. *)
Theorem cluster_late_init_updatable i c i'
    (Hne : no_empty_strings i) (Hret : LateInitializeSpec i c = Returns i') : updatable i' c.
Proof.
  destruct Hne as (Hlog & Hmon & Hdata). unfold LateInitializeSpec in Hret.
  apply outcome_bind_returns in Hret as (? & _ & Hret). apply outcome_bind_returns in Hret as (? & _ & Hret).
  apply outcome_bind_returns in Hret as (? & _ & Hret). apply outcome_bind_returns in Hret as (? & _ & [= <-]).
  unfold updatable; simpl. split_and!.
  - unfold LateInitializeStringSlice. destruct (slice_empty (cp_Locations i)) eqn:H1, (slice_empty (acl_Locations c)) eqn:H2; simpl; congruence.
  - by apply late_string_value.
  - by apply late_string_value.
  - intros n Hn. unfold datapath. destruct (acl_NetworkConfig c) as [o|] eqn:Ho; simpl in *; [|done].
    injection Hn as <-. simpl. apply late_string_value.
    destruct (cp_NetworkConfig i) as [n|]; simpl; [by apply Hdata|done].
Qed.

(** ** A service in memory *)

Definition or_keep {A} (desired old : ptr A) : ptr A := match desired with Some _ => desired | None => old end.
Definition or_keep_string (desired old : string) : string := if bool_decide (desired = "") then old else desired.

Definition apply_update (u : ClusterUpdate) (c : apiCluster) : apiCluster :=
  let n := default zero_apiNetworkConfig c.(acl_NetworkConfig) in
  {| c with
     acl_AddonsConfig := or_keep u.(DesiredAddonsConfig) c.(acl_AddonsConfig);
     acl_Autopilot := or_keep u.(DesiredAutopilot) c.(acl_Autopilot);
     acl_Autoscaling := or_keep u.(DesiredClusterAutoscaling) c.(acl_Autoscaling);
     acl_BinaryAuthorization := or_keep u.(DesiredBinaryAuthorization) c.(acl_BinaryAuthorization);
     acl_DatabaseEncryption := or_keep u.(DesiredDatabaseEncryption) c.(acl_DatabaseEncryption);
     acl_Locations := if slice_empty u.(DesiredLocations) then c.(acl_Locations) else u.(DesiredLocations);
     acl_LoggingService := or_keep_string u.(DesiredLoggingService) c.(acl_LoggingService);
     acl_MasterAuthorizedNetworksConfig :=
       or_keep u.(DesiredMasterAuthorizedNetworksConfig) c.(acl_MasterAuthorizedNetworksConfig);
     acl_MonitoringService := or_keep_string u.(DesiredMonitoringService) c.(acl_MonitoringService);
     acl_NetworkConfig := Some {| n with
       anc_EnableIntraNodeVisibility := match u.(DesiredIntraNodeVisibilityConfig) with
         | Some v => v.(aivc_Enabled) | None => n.(anc_EnableIntraNodeVisibility) end;
       anc_DatapathProvider := or_keep_string u.(DesiredDatapathProvider) n.(anc_DatapathProvider) |};
     acl_NotificationConfig := or_keep u.(DesiredNotificationConfig) c.(acl_NotificationConfig);
     acl_PrivateClusterConfig := or_keep u.(DesiredPrivateClusterConfig) c.(acl_PrivateClusterConfig);
     acl_ReleaseChannel := or_keep u.(DesiredReleaseChannel) c.(acl_ReleaseChannel);
     acl_ResourceUsageExportConfig := or_keep u.(DesiredResourceUsageExportConfig) c.(acl_ResourceUsageExportConfig);
     acl_VerticalPodAutoscaling := or_keep u.(DesiredVerticalPodAutoscaling) c.(acl_VerticalPodAutoscaling);
     acl_WorkloadIdentityConfig := or_keep u.(DesiredWorkloadIdentityConfig) c.(acl_WorkloadIdentityConfig) |}.

Definition not_bootstrap (p : ptr apiNodePool) : bool :=
  match p with Some p => negb (bool_decide (p.(anp_Name) = BootstrapNodePoolName)) | None => true end.

(** One cluster, whatever it is called. *)
Definition memory_gke (X : Type) (e : ClusterE X) : apiCluster → X * apiCluster :=
  match e with
  | ClustersGet _ => λ c, (inl c, c)
  | ClustersCreate _ cluster => λ _, (None, cluster)
  | ClustersUpdate _ u => λ c, (None, apply_update u c)
  | ClustersSetLegacyAbac _ b => λ c, (None, {| c with acl_LegacyAbac := Some {| zero_apiLegacyAbac with ala_Enabled := b |} |})
  | ClustersSetMaintenancePolicy _ p => λ c, (None, {| c with acl_MaintenancePolicy := p |})
  | ClustersSetNetworkPolicy _ p => λ c, (None, {| c with acl_NetworkPolicy := p |})
  | ClustersSetResourceLabels _ l => λ c, (None, {| c with acl_ResourceLabels := l |})
  | ClustersDelete _ => λ c, (None, c)
  | NodePoolsDelete _ => λ c, (None, {| c with acl_NodePools := Some (List.filter not_bootstrap (elems c.(acl_NodePools))) |})
  | KubeUpdate cr => λ c, (inl cr, c)
  end.

Lemma asks_kept {A} (R : A → A → Prop) r : (∀ a, R a a) → asks R r r.
Proof. intros HR a ->. eauto. Qed.
Lemma asks_or_keep {A} (R : A → A → Prop) r g : (∀ a, R a a) → asks R r (or_keep r g).
Proof. intros HR a ->. simpl. eauto. Qed.
Ltac met_self := repeat (apply asks_kept || split || intros ?); done.

#[global] Instance memory_gke_api : GKE memory_gke (λ c _, Some c).
Proof.
  split; intros; simplify_eq/=; [by split; [|intros ? [= ->]]|..];
    (eexists; split; [done|]); try (split; [by intros []|left; simpl]).
  - intros s. destruct s; unfold kept, intra_node, datapath; simpl; try done;
      try (match goal with |- context [bool_decide (is_Some ?d)] => destruct d end; simpl; [left; unfold met; simpl|done];
           first [by met_self|by intros ? [= ->]]);
      unfold or_keep_string.
    { destruct (slice_empty (DesiredLocations u)); simpl; [done|]. left. by intros _. }
    3: { destruct (DesiredIntraNodeVisibilityConfig u) as [v|] eqn:Hv; simpl; [|done]. left. intros ? [= <-].
         unfold intra_node. simpl. by rewrite Hv. }
    all: case_bool_decide as He; simpl; [done|]; left; intros _; try done.
    unfold datapath. simpl. unfold or_keep_string. by rewrite bool_decide_eq_false_2.
  - by eexists.
  - apply asks_kept. met_self.
  - apply asks_kept. met_self.
  - done.
  - unfold checkForBootstrapNodePool. simpl.
    induction (elems (acl_NodePools c)) as [|[p|] l IH]; simpl; [done| |done]. case_bool_decide; simpl; [done|].
    by rewrite bool_decide_eq_false_2.
Qed.

(** ** Witnesses *)

Lemma cluster_late_init_updatable_witness : updatable example_complete example_cluster.
Proof.
  eapply (cluster_late_init_updatable example_parameters); [by split_and!|reflexivity].
Defined.

(** Four sections of the example differ; after four updates it is up to date. *)
Lemma cluster_updates_terminate_witness :
  let _ := reference_libs in
  let cr := fresh "c" example_complete (GenerateObservation example_cluster) in
  ∃ w', updates memory_gke "p" cr 4 example_cluster w' ∧ differences example_complete example_cluster = 4%nat ∧
    IsUpToDate "c" example_complete w' = Returns (true, noOpUpdate, None).
Proof.
  intros libs cr.
  assert (∃ w', updates memory_gke "p" cr 4 example_cluster w') as (w' & Hups).
  { eexists. do 4 (eapply updates_succeeds; [vm_compute; reflexivity|]). apply updates_none. }
  exists w'. split_and!; [exact Hups|reflexivity|].
  destruct (@cluster_updates_terminate libs reference_copy _ memory_gke (λ c _, Some c) _ "p" cr 4%nat example_cluster w'
    example_cluster) as (_ & _ & c' & [= <-] & _ & Hup);
    [by split|done|by unfold updatable; split_and!|split_and!; by intros ? [= <-]|exact Hups|].
  apply Hup. vm_compute. constructor.
Defined.
