(* ===== verification/ClusterController.v ===== *)
(** * GKE clusters: what the controller promises *)

From S2P Require Import Prelude GoBase64 Libs Contract Gcp Nested ClusterTypes ContainerAPI ClusterGenerate ClusterLate Cluster.

(** ** Errors *)

Definition cluster_fails (observing : bool) (X : Type) (e : ClusterE X) : X → bool :=
  match e with
  | ClustersGet _ => read_fails (if observing then IsErrorNotFound else no_excuse)
  | ClustersDelete _ => write_fails IsErrorNotFound
  | ClustersCreate _ _ | ClustersUpdate _ _ | ClustersSetLegacyAbac _ _ | ClustersSetMaintenancePolicy _ _
  | ClustersSetNetworkPolicy _ _ | ClustersSetResourceLabels _ _ | NodePoolsDelete _ => write_fails no_excuse
  | KubeUpdate _ => read_fails no_excuse
  end.

(** The API answers with a cluster that the spec can be late initialized from. *)
Definition late_initializable (cr : Cluster) (X : Type) (e : ClusterE X) : X → Prop :=
  match e with
  | ClustersGet _ => λ r, match r with inl c => LateInitializeSpec cr.(ForProvider) c ≠ Panics | inr _ => True end
  | _ => λ _, True
  end.

(** What Observe may do: read the cluster, and write back the resource with
    another spec, which keeps what the user set. *)
Definition cluster_observes (projectID : string) (cr : Cluster) (X : Type) (e : ClusterE X) : Prop :=
  match e with
  | ClustersGet name => name = cluster_name projectID cr
  | KubeUpdate cr' => keeps_cluster cr.(ForProvider) cr'.(ForProvider) ∧ cr'.(ForProvider) ≠ cr.(ForProvider) ∧
      cr' = {| cr with ForProvider := cr'.(ForProvider); AtProvider := cr'.(AtProvider) |}
  | _ => False
  end.

(** The config that was generated has an entry under the name of the cluster. *)
Lemma connectionDetails_spec write c :
  connectionDetails write c = Returns
    (auth ← c.(acl_MasterAuth); ca ← DecodeString auth.(ama_ClusterCaCertificate);
     cert ← DecodeString auth.(ama_ClientCertificate); key ← DecodeString auth.(ama_ClientKey);
     let server := String.append "https://" c.(acl_Endpoint) in
     match write {|
         kcfg_Clusters := {[ c.(acl_Name) := {| kc_Server := server; kc_CertificateAuthorityData := ca |} ]};
         kcfg_Contexts := {[ c.(acl_Name) := {| kx_Cluster := c.(acl_Name); kx_AuthInfo := c.(acl_Name) |} ]};
         kcfg_AuthInfos := {[ c.(acl_Name) := {| ka_Username := auth.(ama_Username); ka_Password := auth.(ama_Password);
           ka_ClientCertificateData := cert; ka_ClientKeyData := key |} ]};
         kcfg_CurrentContext := c.(acl_Name) |} with
     | inr _ => None
     | inl raw => Some (<["endpoint" := server]> (<["username" := auth.(ama_Username)]>
         (<["password" := auth.(ama_Password)]> (<["clusterCA" := ca]> (<["clientCert" := cert]>
         (<["clientKey" := key]> {[ "kubeconfig" := raw ]}))))))
     end).
Proof.
  unfold connectionDetails, GenerateClientConfig. destruct (acl_MasterAuth c) as [auth|]; simpl; [|done].
  destruct (DecodeString auth.(ama_ClusterCaCertificate)); simpl; [|done].
  destruct (DecodeString auth.(ama_ClientCertificate)); simpl; [|done].
  destruct (DecodeString auth.(ama_ClientKey)); simpl; [|done].
  destruct (write _); simpl; [|done]. by rewrite !lookup_singleton_eq.
Qed.

(** The update that IsUpToDate chose makes one call and does not panic. *)
Lemma call_update_errors i c s name :
  differs i c s = true →
  ∃ e : ClusterE (option error), call_update (update_for i s) name = Call e Done ∧ cluster_fails false _ e = write_fails no_excuse.
Proof.
  destruct s; simpl; try (by eexists). destruct (cp_LegacyAbac i); simpl; [by eexists|].
  by rewrite bool_decide_eq_true_2.
Qed.

(** What Observe does once the spec is complete cannot fail. *)
Ltac observe_tail :=
  rewrite cluster_IsUpToDate_spec; destruct (first_difference _ _); simpl; rewrite connectionDetails_spec; simpl.

(** ** Properties *)

Section handlers.
Context `{Libs} `{!CopySucceeds}.
Variable write : kubeConfig → string + error.
Variable projectID : string.
Variable cr : Cluster.

Lemma cluster_observe_errors :
  errors_given (late_initializable cr) (cluster_fails true) (Observe write projectID (Some cr)).
Proof using Type*.
  unfold errors_given, Observe. cbn [mbind prog_bind prog_bind_ call errors_from cluster_fails late_initializable].
  intros [c|err] Hlate; [|simpl; walk_done]. destruct (LateInitializeSpec _ c) as [i|]; [|done]. simpl.
  destruct (negb (cmp_Equal _ _ _)); simpl; [intros [cr'|err] _; simpl; [|walk_done]|]; observe_tail; walk_done.
Qed.
Lemma cluster_observe_calls :
  calls_only (cluster_observes projectID cr) (Observe write projectID (Some cr)).
Proof using Type*.
  simpl. split; [done|]. intros [c|err]; simpl; [|done]. destruct (LateInitializeSpec _ c) as [i|] eqn:Hl; [|done]. simpl.
  destruct (negb (cmp_Equal _ _ _)) eqn:Hne; simpl; [split; [|intros [cr'|err]; simpl; [|done]]|];
    try (by observe_tail).
  apply negb_true_iff, cmp_Equal_false in Hne.
  split_and!; [by eapply cluster_LateInitializeSpec_keeps|congruence|done].
Qed.
Lemma cluster_create_errors : errors_iff (cluster_fails false) (Create projectID (Some cr)).
Proof using Type*. unfold errors_iff, errors_given, Create. case_bool_decide; simpl; walk. Qed.
Lemma cluster_update_errors : errors_iff (cluster_fails false) (Update projectID (Some cr)).
Proof using Type*.
  unfold errors_iff, errors_given, Update. case_bool_decide; simpl; [walk_done|]. intros [c|err] _; simpl; [|walk_done].
  rewrite cluster_IsUpToDate_spec. destruct (first_difference _ c) as [s|] eqn:Hs; simpl; [|walk_done].
  apply find_some in Hs as [_ Hd]. destruct (call_update_errors _ _ _ (cluster_name projectID cr) Hd) as (e & He & Hf).
  rewrite He. simpl. rewrite Hf. walk.
Qed.
Lemma cluster_delete_errors : errors_iff (cluster_fails false) (Delete projectID (Some cr)).
Proof using Type*. unfold errors_iff, errors_given, Delete. case_bool_decide; simpl; walk. Qed.
End handlers.

(** C29: while the API answers with clusters the spec can be late initialized
    from, the handlers of the Cluster controller do not panic and return an error
    exactly when one of their calls failed, where NotFound is no failure of
    Observe's Get nor of Delete. Observe only reads the cluster and writes back a
    spec that keeps what the user set, but for the client certificate config of
    the master, which is overwritten. Nothing is created, updated or deleted
    while the status says that this is already under way. *)
Theorem cluster_controller_errors `{Libs} `{!CopySucceeds} write projectID cr :
  errors_given (late_initializable cr) (cluster_fails true) (Observe write projectID (Some cr)) ∧
  calls_only (cluster_observes projectID cr) (Observe write projectID (Some cr)) ∧
  errors_iff (cluster_fails false) (Create projectID (Some cr)) ∧
  errors_iff (cluster_fails false) (Update projectID (Some cr)) ∧
  errors_iff (cluster_fails false) (Delete projectID (Some cr)) ∧
  (cr.(AtProvider).(co_Status) = ClusterStateProvisioning →
     calls_only (λ _ _, False) (Create projectID (Some cr)) ∧ calls_only (λ _ _, False) (Update projectID (Some cr))) ∧
  (cr.(AtProvider).(co_Status) = ClusterStateReconciling → calls_only (λ _ _, False) (Update projectID (Some cr))) ∧
  (cr.(AtProvider).(co_Status) = ClusterStateStopping → calls_only (λ _ _, False) (Delete projectID (Some cr))).
Proof.
  split_and!; [apply cluster_observe_errors|apply cluster_observe_calls|apply cluster_create_errors
    |apply cluster_update_errors|apply cluster_delete_errors|..]; intros Hst; unfold Create, Update, Delete.
  - rewrite !bool_decide_eq_true_2; [done|by right|done].
  - rewrite bool_decide_eq_true_2; [done|by left].
  - rewrite bool_decide_eq_true_2; done.
Qed.

Definition example_resource : Cluster := fresh "c" example_parameters (GenerateObservation zero_apiCluster).

Lemma cluster_controller_errors_witness :
  errors_iff (cluster_fails false) (@Update reference_libs "p" (Some example_resource)) ∧
  calls_only (λ _ _, False) (@Delete reference_libs "p"
    (Some {| example_resource with AtProvider := GenerateObservation {| zero_apiCluster with acl_Status := "STOPPING" |} |})).
Proof.
  split.
  - apply (@cluster_controller_errors reference_libs reference_copy (λ _, inl "") "p" example_resource).
  - apply (@cluster_controller_errors reference_libs reference_copy (λ _, inl "") "p"). reflexivity.
Defined.

Definition autopilot (i : ClusterParameters) : bool :=
  match i.(cp_Autopilot) with Some a => a.(ap_Enabled) | None => false end.

(** The two fields of a generated cluster that decide about the pools. *)
Lemma with_bootstrap name i :
  let cluster := GenerateCluster name i zero_apiCluster in
  (if match cluster.(acl_Autopilot) with None => true | Some a => negb a.(aap_Enabled) end
   then AddNodePoolForCreate cluster else cluster) =
  {| cluster with acl_NodePools := if autopilot i then None
       else Some [Some {| zero_apiNodePool with anp_Name := BootstrapNodePoolName |}] |}.
Proof.
  intros cluster.
  assert (match cluster.(acl_Autopilot) with None => true | Some a => negb a.(aap_Enabled) end = negb (autopilot i)) as ->.
  { change (cluster.(acl_Autopilot)) with (generate_ptr generate_autopilot zero_apiAutopilot i.(cp_Autopilot) None).
    unfold autopilot. by destruct (cp_Autopilot i). }
  assert (cluster.(acl_NodePools) = None) as Hp by reflexivity.
  clearbody cluster. destruct cluster; simpl in Hp. subst. by destruct (autopilot i).
Qed.

Lemma bootstrap_pool_found c :
  checkForBootstrapNodePool c = true ↔
  ∃ pool, Some pool ∈ elems c.(acl_NodePools) ∧ pool.(anp_Name) = BootstrapNodePoolName.
Proof.
  unfold checkForBootstrapNodePool. rewrite existsb_exists. split.
  - intros ([pool|] & Hin%list_elem_of_In & Hb); [|done]. apply bool_decide_eq_true in Hb. eauto.
  - intros (pool & Hin%list_elem_of_In & Hname). exists (Some pool). by rewrite bool_decide_eq_true_2.
Qed.

(** C31: a cluster is created with the bootstrap node pool and nothing else as its
    pools, unless the spec enables autopilot, in which case it is created without
    pools; all else is what the spec generates. A cluster that has the
    bootstrap pool anywhere among its pools is out of date, and deleting that pool comes before every other
    update, whatever else differs; a cluster that does not have it is never asked to delete it. *)
Theorem cluster_bootstraps `{Libs} `{!CopySucceeds} projectID cr
    (Hst : cr.(AtProvider).(co_Status) ≠ ClusterStateProvisioning) :
  (∃ cluster kont,
     Create projectID (Some cr) = Call (ClustersCreate (GetFullyQualifiedParent projectID cr.(ForProvider)) cluster) kont ∧
     cluster = {| (GenerateCluster cr.(ExternalName) cr.(ForProvider) zero_apiCluster) with
       acl_NodePools := if autopilot cr.(ForProvider) then None
         else Some [Some {| zero_apiNodePool with anp_Name := BootstrapNodePoolName |}] |}) ∧
  (∀ i c,
     (∃ pool, Some pool ∈ elems c.(acl_NodePools) ∧ pool.(anp_Name) = BootstrapNodePoolName) ↔
     IsUpToDate cr.(ExternalName) i c = Returns (false, deleteBootstrapNodePoolFn, None)).
Proof.
  split.
  - unfold Create. rewrite bool_decide_eq_false_2 by done. do 2 eexists. split; [reflexivity|].
    cbn [set_condition ForProvider ExternalName].
    by apply with_bootstrap.
  - intros i c. rewrite <-bootstrap_pool_found, cluster_IsUpToDate_spec. split.
    + intros Hb. unfold first_difference, sections. cbn [find]. simpl (differs i c SBootstrap). by rewrite Hb.
    + destruct (first_difference i c) as [s|] eqn:Hs; [|done]. intros [= Hfn]. apply find_some in Hs as [_ Hd].
      by destruct s.
Qed.

(** The pool is the last of three here, after a nil one. *)
Definition example_pools : apiCluster := {| example_cluster with acl_NodePools :=
  Some [Some {| zero_apiNodePool with anp_Name := "workers" |}; None;
        Some {| zero_apiNodePool with anp_Name := BootstrapNodePoolName |}] |}.
Lemma cluster_bootstraps_witness :
  let _ := reference_libs in
  (∃ cluster kont, Create "p" (Some example_resource) = Call (ClustersCreate "projects/p/locations/us-central1" cluster) kont ∧
     cluster = {| (GenerateCluster "c" example_parameters zero_apiCluster) with
       acl_NodePools := Some [Some {| zero_apiNodePool with anp_Name := BootstrapNodePoolName |}] |}) ∧
  IsUpToDate "c" example_parameters example_pools = Returns (false, deleteBootstrapNodePoolFn, None).
Proof.
  intros libs.
  assert (example_resource.(AtProvider).(co_Status) ≠ ClusterStateProvisioning) as Hst by done.
  split; [exact (proj1 (@cluster_bootstraps libs reference_copy "p" example_resource Hst))|].
  apply (@cluster_bootstraps libs reference_copy "p" example_resource Hst).
  exists {| zero_apiNodePool with anp_Name := BootstrapNodePoolName |}. split; [|reflexivity].
  do 2 apply list_elem_of_further. apply list_elem_of_here.
Defined.

(** C30: the connection details of a cluster are complete or absent, and reading
    them never panics. They are published exactly when a client config could be
    generated and written; when the API sent the master's certificates and key in
    base64 this is so, and the details hold the endpoint as an https URL, the user
    name and password, the decoded certificates and key, and the kubeconfig. *)
Theorem cluster_connection_details (write : kubeConfig → string + error) c :
  (∃ d, connectionDetails write c = Returns d ∧
     (d ≠ None ↔ ∃ config raw, GenerateClientConfig c = inl config ∧ write config = inl raw)) ∧
  (∀ auth ca cert key, c.(acl_MasterAuth) = Some auth →
     auth.(ama_ClusterCaCertificate) = EncodeToString ca → auth.(ama_ClientCertificate) = EncodeToString cert →
     auth.(ama_ClientKey) = EncodeToString key →
     ∃ config, GenerateClientConfig c = inl config ∧ ∀ raw, write config = inl raw →
     ∃ m, connectionDetails write c = Returns (Some m) ∧
       m !! "endpoint" = Some (String.append "https://" c.(acl_Endpoint)) ∧
       m !! "username" = Some auth.(ama_Username) ∧ m !! "password" = Some auth.(ama_Password) ∧
       m !! "clusterCA" = Some ca ∧ m !! "clientCert" = Some cert ∧ m !! "clientKey" = Some key ∧
       m !! "kubeconfig" = Some raw).
Proof.
  rewrite connectionDetails_spec. unfold GenerateClientConfig. split.
  - eexists; split; [done|].
    destruct (acl_MasterAuth c) as [auth|]; simpl; [|by split; [|intros (? & ? & ? & _)]].
    destruct (DecodeString auth.(ama_ClusterCaCertificate)); simpl; [|by split; [|intros (? & ? & ? & _)]].
    destruct (DecodeString auth.(ama_ClientCertificate)); simpl; [|by split; [|intros (? & ? & ? & _)]].
    destruct (DecodeString auth.(ama_ClientKey)); simpl; [|by split; [|intros (? & ? & ? & _)]].
    destruct (write _) eqn:Hw; [by split; [eauto|]|]. split; [done|]. intros (config & raw & [= <-] & Hraw). congruence.
  - intros auth ca cert key -> Hca Hcert Hkey. simpl. rewrite Hca, Hcert, Hkey, !DecodeString_Encode. simpl.
    eexists; split; [done|]. intros raw Hraw. rewrite Hraw. eexists; split; [done|]. split_and!;
      by repeat (rewrite lookup_insert_ne by done || rewrite lookup_insert_eq || rewrite lookup_singleton_eq).
Qed.

Definition example_auth : apiMasterAuth := {| zero_apiMasterAuth with
  ama_ClusterCaCertificate := EncodeToString "ca"; ama_ClientCertificate := EncodeToString "cert";
  ama_ClientKey := EncodeToString "key" |}.
Definition example_running : apiCluster := {| zero_apiCluster with
  acl_Endpoint := "1.2.3.4"; acl_MasterAuth := Some example_auth |}.

Lemma cluster_connection_details_witness :
  ∃ config, GenerateClientConfig example_running = inl config ∧ ∀ raw, @inl string error "kubeconfig" = inl raw →
    ∃ m, connectionDetails (λ _, inl "kubeconfig") example_running = Returns (Some m) ∧
    m !! "endpoint" = Some "https://1.2.3.4" ∧ m !! "username" = Some "" ∧ m !! "password" = Some "" ∧
    m !! "clusterCA" = Some "ca" ∧ m !! "clientCert" = Some "cert" ∧ m !! "clientKey" = Some "key" ∧
    m !! "kubeconfig" = Some raw.
Proof.
  by apply (cluster_connection_details (λ _, inl "kubeconfig") example_running) with (auth := example_auth).
Defined.

(** C32: two changes of the spec are lost without a trace. When the cluster
    already notifies a topic, no notification config the user writes makes it out
    of date, whatever the topic; and the disk type of the autoprovisioning defaults
    is never part of what is generated, so neither Create nor Update sends it. *)
Theorem cluster_changes_lost `{Libs} `{!CopySucceeds} name i c :
  (∀ notification old topic, c.(acl_NotificationConfig) = Some old → old.(anotif_Pubsub) = Some topic →
     IsUpToDate name {| i with cp_NotificationConfig := notification |} c =
     IsUpToDate name {| i with cp_NotificationConfig := None |} c) ∧
  (∀ a d disk, GenerateAutoscaling (Some {| a with ca_AutoprovisioningNodePoolDefaults :=
       Some {| d with apd_DiskType := disk |} |}) c =
     GenerateAutoscaling (Some {| a with ca_AutoprovisioningNodePoolDefaults := Some {| d with apd_DiskType := None |} |}) c).
Proof.
  split; [|done]. intros notification old topic Hold Htopic. rewrite !cluster_IsUpToDate_spec.
  set (i1 := {| i with cp_NotificationConfig := notification |}).
  set (i2 := {| i with cp_NotificationConfig := None |}).
  assert (∀ s, differs i1 c s = differs i2 c s) as Hd.
  { intros s. destruct s; try reflexivity. unfold i1, i2. simpl. rewrite Hold.
    destruct notification as [n|]; [|done]. unfold generate_ptr, generate_notification; simpl. rewrite Htopic.
    by rewrite !bool_decide_eq_true_2. }
  assert (first_difference i1 c = first_difference i2 c) as ->.
  { unfold first_difference. induction sections as [|s l IH]; [done|]. simpl. by rewrite Hd, IH. }
  destruct (first_difference i2 c) as [s|] eqn:Hs; [|done]. apply find_some in Hs as [_ Hs].
  destruct s; try reflexivity. simpl in Hs. by rewrite bool_decide_eq_true_2 in Hs.
Qed.

Lemma cluster_changes_lost_witness :
  let _ := reference_libs in
  let topic := Some {| zero_apiPubSub with apubsub_Enabled := true; apubsub_Topic := "old" |} in
  IsUpToDate "c" {| example_parameters with cp_NotificationConfig :=
      Some {| notif_Pubsub := {| pubsub_Enabled := true; pubsub_Topic := "new" |} |} |}
    {| zero_apiCluster with acl_NotificationConfig := Some {| zero_apiNotificationConfig with anotif_Pubsub := topic |} |} =
  IsUpToDate "c" {| example_parameters with cp_NotificationConfig := None |}
    {| zero_apiCluster with acl_NotificationConfig := Some {| zero_apiNotificationConfig with anotif_Pubsub := topic |} |}.
Proof. intros libs topic. by eapply (@cluster_changes_lost libs reference_copy). Defined.
