(* ===== verification/NodePool.v ===== *)
(** * GKE node pools

    apis/container/v1beta1/nodepool_types.go, pkg/clients/nodepool/nodepool.go and
    pkg/controller/container/nodepool.go. *)

From Stdlib Require Import Lia.
From S2P Require Import Prelude GoStrings Libs Contract Gcp Nested ClusterTypes ContainerAPI.

(** ** Types *)

Definition NodePoolStateUnspecified : string := "STATUS_UNSPECIFIED".
Definition NodePoolStateProvisioning : string := "PROVISIONING".
Definition NodePoolStateRunning : string := "RUNNING".
Definition NodePoolStateRunningError : string := "RUNNING_WITH_ERROR".
Definition NodePoolStateReconciling : string := "RECONCILING".
Definition NodePoolStateStopping : string := "STOPPING".
Definition NodePoolStateError : string := "ERROR".

Record AutoUpgradeOptions := { auo_AutoUpgradeStartTime : string; auo_Description : string }.
Record NodeManagementStatus := { nmst_UpgradeOptions : ptr AutoUpgradeOptions }.
Record NodePoolObservation := {
  npo_Conditions : slice (ptr StatusCondition);
  npo_InstanceGroupUrls : slice string;
  npo_PodIpv4CidrSize : Z;
  npo_Management : ptr NodeManagementStatus;
  npo_SelfLink : string;
  npo_Status : string;
  npo_StatusMessage : string
}.
Record NodePoolAutoscaling := {
  npas_Autoprovisioned : ptr bool;
  npas_Enabled : ptr bool;
  npas_MaxNodeCount : ptr Z;
  npas_MinNodeCount : ptr Z
}.
#[global] Instance NodePoolAutoscaling_eq_dec : EqDecision NodePoolAutoscaling.
Proof. solve_decision. Defined.
Record AcceleratorConfig := { acc_AcceleratorCount : Z; acc_AcceleratorType : string }.
#[global] Instance AcceleratorConfig_eq_dec : EqDecision AcceleratorConfig.
Proof. solve_decision. Defined.
Record NodeKubeletConfig := {
  nkc_CpuCfsQuota : ptr bool;
  nkc_CpuCfsQuotaPeriod : ptr string;
  nkc_CpuManagerPolicy : ptr string
}.
#[global] Instance NodeKubeletConfig_eq_dec : EqDecision NodeKubeletConfig.
Proof. solve_decision. Defined.
Record LinuxNodeConfig := { lnc_Sysctls : gomap string }.
#[global] Instance LinuxNodeConfig_eq_dec : EqDecision LinuxNodeConfig.
Proof. solve_decision. Defined.
Record ReservationAffinity := {
  ra_ConsumeReservationType : ptr string;
  ra_Key : ptr string;
  ra_Values : slice string
}.
#[global] Instance ReservationAffinity_eq_dec : EqDecision ReservationAffinity.
Proof. solve_decision. Defined.
Record SandboxConfig := { sandbox_Type : string }.
#[global] Instance SandboxConfig_eq_dec : EqDecision SandboxConfig.
Proof. solve_decision. Defined.
Record ShieldedInstanceConfig := {
  npsic_EnableIntegrityMonitoring : ptr bool;
  npsic_EnableSecureBoot : ptr bool
}.
#[global] Instance ShieldedInstanceConfig_eq_dec : EqDecision ShieldedInstanceConfig.
Proof. solve_decision. Defined.
Record NodeTaint := { taint_Effect : string; taint_Key : string; taint_Value : string }.
#[global] Instance NodeTaint_eq_dec : EqDecision NodeTaint.
Proof. solve_decision. Defined.
Record WorkloadMetadataConfig := { wmc_Mode : string }.
#[global] Instance WorkloadMetadataConfig_eq_dec : EqDecision WorkloadMetadataConfig.
Proof. solve_decision. Defined.
Record NodeConfig := {
  nodec_Accelerators : slice (ptr AcceleratorConfig);
  nodec_BootDiskKmsKey : ptr string;
  nodec_DiskSizeGb : ptr Z;
  nodec_DiskType : ptr string;
  nodec_ImageType : ptr string;
  nodec_KubeletConfig : ptr NodeKubeletConfig;
  nodec_Labels : gomap string;
  nodec_LinuxNodeConfig : ptr LinuxNodeConfig;
  nodec_LocalSsdCount : ptr Z;
  nodec_MachineType : ptr string;
  nodec_Metadata : gomap string;
  nodec_MinCPUPlatform : ptr string;
  nodec_NodeGroup : ptr string;
  nodec_OauthScopes : slice string;
  nodec_Preemptible : ptr bool;
  nodec_ReservationAffinity : ptr ReservationAffinity;
  nodec_SandboxConfig : ptr SandboxConfig;
  nodec_ServiceAccount : ptr string;
  nodec_ShieldedInstanceConfig : ptr ShieldedInstanceConfig;
  nodec_Tags : slice string;
  nodec_Taints : slice (ptr NodeTaint);
  nodec_WorkloadMetadataConfig : ptr WorkloadMetadataConfig
}.
#[global] Instance NodeConfig_eq_dec : EqDecision NodeConfig.
Proof. solve_decision. Defined.
Record NodeManagementSpec := { nms_AutoRepair : ptr bool; nms_AutoUpgrade : ptr bool }.
#[global] Instance NodeManagementSpec_eq_dec : EqDecision NodeManagementSpec.
Proof. solve_decision. Defined.
Record NodePoolParameters := {
  npp_Cluster : string;
  npp_ClusterRef : ptr Reference;
  npp_ClusterSelector : ptr Selector;
  npp_Autoscaling : ptr NodePoolAutoscaling;
  npp_Config : ptr NodeConfig;
  npp_InitialNodeCount : ptr Z;
  npp_Locations : slice string;
  npp_Management : ptr NodeManagementSpec;
  npp_MaxPodsConstraint : ptr MaxPodsConstraint;
  npp_UpgradeSettings : ptr UpgradeSettings;
  npp_Version : ptr string
}.
#[global] Instance NodePoolParameters_eq_dec : EqDecision NodePoolParameters.
Proof. solve_decision. Defined.

Definition NodePool : Type := Managed NodePoolParameters NodePoolObservation.

(** container.UpdateNodePoolRequest. *)
Record UpdateNodePoolRequest := {
  unpr_ImageType : string;
  unpr_Locations : slice string;
  unpr_NodeVersion : string;
  unpr_UpgradeSettings : ptr apiUpgradeSettings;
  unpr_WorkloadMetadataConfig : ptr apiWorkloadMetadataConfig
}.

(** ** Generating the API's node pool *)

Definition isAutoUpgradeEnabled (i : NodePoolParameters) : bool :=
  match i.(npp_Management) with Some m => BoolValue m.(nms_AutoUpgrade) | None => false end.

Definition generate_autoscaling (i : NodePoolAutoscaling) (p : apiNodePoolAutoscaling) : apiNodePoolAutoscaling :=
  {| p with
     anpas_Autoprovisioned := BoolValue i.(npas_Autoprovisioned);
     anpas_Enabled := BoolValue i.(npas_Enabled);
     anpas_MaxNodeCount := Int64Value i.(npas_MaxNodeCount);
     anpas_MinNodeCount := Int64Value i.(npas_MinNodeCount) |}.
Definition GenerateAutoscaling (i : ptr NodePoolAutoscaling) (pool : apiNodePool) : apiNodePool :=
  {| pool with anp_Autoscaling := generate_ptr generate_autoscaling zero_apiNodePoolAutoscaling i pool.(anp_Autoscaling) |}.

Definition generate_accelerator (a : AcceleratorConfig) : apiAcceleratorConfig :=
  {| zero_apiAcceleratorConfig with
     aacc_AcceleratorCount := a.(acc_AcceleratorCount); aacc_AcceleratorType := a.(acc_AcceleratorType) |}.
Definition generate_kubelet (i : NodeKubeletConfig) (c : apiNodeKubeletConfig) : apiNodeKubeletConfig :=
  {| c with
     ankc_CpuCfsQuota := BoolValue i.(nkc_CpuCfsQuota);
     ankc_CpuCfsQuotaPeriod := StringValue i.(nkc_CpuCfsQuotaPeriod);
     ankc_CpuManagerPolicy := StringValue i.(nkc_CpuManagerPolicy) |}.
Definition generate_linux (i : LinuxNodeConfig) (c : apiLinuxNodeConfig) : apiLinuxNodeConfig :=
  {| c with alnc_Sysctls := i.(lnc_Sysctls) |}.
Definition generate_affinity (i : ReservationAffinity) (c : apiReservationAffinity) : apiReservationAffinity :=
  {| c with
     ara_ConsumeReservationType := StringValue i.(ra_ConsumeReservationType);
     ara_Key := StringValue i.(ra_Key);
     ara_Values := i.(ra_Values) |}.
Definition generate_sandbox (i : SandboxConfig) (c : apiSandboxConfig) : apiSandboxConfig :=
  {| c with asandbox_Type := i.(sandbox_Type) |}.
Definition generate_shielded (i : ShieldedInstanceConfig) (c : apiShieldedInstanceConfig) : apiShieldedInstanceConfig :=
  {| c with
     asic_EnableIntegrityMonitoring := BoolValue i.(npsic_EnableIntegrityMonitoring);
     asic_EnableSecureBoot := BoolValue i.(npsic_EnableSecureBoot) |}.
Definition generate_taint (t : NodeTaint) : apiNodeTaint :=
  {| zero_apiNodeTaint with ataint_Effect := t.(taint_Effect); ataint_Key := t.(taint_Key); ataint_Value := t.(taint_Value) |}.
Definition generate_metadata (i : WorkloadMetadataConfig) (c : apiWorkloadMetadataConfig) : apiWorkloadMetadataConfig :=
  {| c with awmc_Mode := i.(wmc_Mode) |}.
Definition generate_config (i : NodeConfig) (c : apiNodeConfig) : apiNodeConfig :=
  {| c with
     anodec_BootDiskKmsKey := StringValue i.(nodec_BootDiskKmsKey);
     anodec_DiskSizeGb := Int64Value i.(nodec_DiskSizeGb);
     anodec_DiskType := StringValue i.(nodec_DiskType);
     anodec_ImageType := StringValue i.(nodec_ImageType);
     anodec_Labels := i.(nodec_Labels);
     anodec_LocalSsdCount := Int64Value i.(nodec_LocalSsdCount);
     anodec_MachineType := StringValue i.(nodec_MachineType);
     anodec_Metadata := i.(nodec_Metadata);
     anodec_MinCpuPlatform := StringValue i.(nodec_MinCPUPlatform);
     anodec_NodeGroup := StringValue i.(nodec_NodeGroup);
     anodec_OauthScopes := i.(nodec_OauthScopes);
     anodec_Preemptible := BoolValue i.(nodec_Preemptible);
     anodec_ServiceAccount := StringValue i.(nodec_ServiceAccount);
     anodec_Tags := i.(nodec_Tags);
     anodec_Accelerators := generate_elems generate_accelerator i.(nodec_Accelerators) c.(anodec_Accelerators);
     anodec_KubeletConfig := generate_ptr generate_kubelet zero_apiNodeKubeletConfig i.(nodec_KubeletConfig) c.(anodec_KubeletConfig);
     anodec_LinuxNodeConfig := generate_ptr generate_linux zero_apiLinuxNodeConfig
       i.(nodec_LinuxNodeConfig) c.(anodec_LinuxNodeConfig);
     anodec_ReservationAffinity := generate_ptr generate_affinity zero_apiReservationAffinity
       i.(nodec_ReservationAffinity) c.(anodec_ReservationAffinity);
     anodec_SandboxConfig := generate_ptr generate_sandbox zero_apiSandboxConfig i.(nodec_SandboxConfig) c.(anodec_SandboxConfig);
     anodec_ShieldedInstanceConfig := generate_ptr generate_shielded zero_apiShieldedInstanceConfig
       i.(nodec_ShieldedInstanceConfig) c.(anodec_ShieldedInstanceConfig);
     anodec_Taints := generate_elems generate_taint i.(nodec_Taints) c.(anodec_Taints);
     anodec_WorkloadMetadataConfig := generate_ptr generate_metadata zero_apiWorkloadMetadataConfig
       i.(nodec_WorkloadMetadataConfig) c.(anodec_WorkloadMetadataConfig) |}.
Definition GenerateConfig (i : ptr NodeConfig) (pool : apiNodePool) : apiNodePool :=
  {| pool with anp_Config := generate_ptr generate_config zero_apiNodeConfig i pool.(anp_Config) |}.

Definition generate_management (i : NodeManagementSpec) (m : apiNodeManagement) : apiNodeManagement :=
  {| m with anm_AutoRepair := BoolValue i.(nms_AutoRepair); anm_AutoUpgrade := BoolValue i.(nms_AutoUpgrade) |}.
Definition GenerateManagement (i : ptr NodeManagementSpec) (pool : apiNodePool) : apiNodePool :=
  {| pool with anp_Management := generate_ptr generate_management zero_apiNodeManagement i pool.(anp_Management) |}.

Definition generate_max_pods (i : MaxPodsConstraint) (m : apiMaxPodsConstraint) : apiMaxPodsConstraint :=
  {| m with ampc_MaxPodsPerNode := i.(mpc_MaxPodsPerNode) |}.
Definition GenerateMaxPodsConstraint (i : ptr MaxPodsConstraint) (pool : apiNodePool) : apiNodePool :=
  {| pool with anp_MaxPodsConstraint := generate_ptr generate_max_pods zero_apiMaxPodsConstraint i pool.(anp_MaxPodsConstraint) |}.

Definition generate_upgrade (i : UpgradeSettings) (u : apiUpgradeSettings) : apiUpgradeSettings :=
  {| u with aus_MaxSurge := Int64Value i.(us_MaxSurge); aus_MaxUnavailable := Int64Value i.(us_MaxUnavailable) |}.
Definition GenerateUpgradeSettings (i : ptr UpgradeSettings) (pool : apiNodePool) : apiNodePool :=
  {| pool with anp_UpgradeSettings := generate_ptr generate_upgrade zero_apiUpgradeSettings i pool.(anp_UpgradeSettings) |}.

Definition GenerateNodePool (name : string) (i : NodePoolParameters) (pool : apiNodePool) : apiNodePool :=
  let pool := {| pool with
    anp_InitialNodeCount := Int64Value i.(npp_InitialNodeCount);
    anp_Locations := i.(npp_Locations);
    anp_Name := name |} in
  let pool := if bool_decide (pool.(anp_Version) = "") || negb (isAutoUpgradeEnabled i)
              then {| pool with anp_Version := StringValue i.(npp_Version) |} else pool in
  let pool := GenerateAutoscaling i.(npp_Autoscaling) pool in
  let pool := GenerateConfig i.(npp_Config) pool in
  let pool := GenerateManagement i.(npp_Management) pool in
  let pool := GenerateMaxPodsConstraint i.(npp_MaxPodsConstraint) pool in
  GenerateUpgradeSettings i.(npp_UpgradeSettings) pool.

(** ** Observation *)

Definition GenerateObservation (p : apiNodePool) : NodePoolObservation := {|
  npo_Conditions := collect (λ c, {| sc_Code := c.(asc_Code); sc_Message := c.(asc_Message) |}) p.(anp_Conditions);
  npo_InstanceGroupUrls := p.(anp_InstanceGroupUrls);
  npo_PodIpv4CidrSize := p.(anp_PodIpv4CidrSize);
  npo_Management :=
    m ← p.(anp_Management); o ← m.(anm_UpgradeOptions);
    Some {| nmst_UpgradeOptions := Some {|
      auo_AutoUpgradeStartTime := o.(aauo_AutoUpgradeStartTime); auo_Description := o.(aauo_Description) |} |};
  npo_SelfLink := p.(anp_SelfLink);
  npo_Status := p.(anp_Status);
  npo_StatusMessage := p.(anp_StatusMessage) |}.

Definition GenerateNodePoolUpdate (i : NodePoolParameters) : UpdateNodePoolRequest :=
  let o := {| unpr_Locations := i.(npp_Locations); unpr_NodeVersion := StringValue i.(npp_Version);
              unpr_ImageType := ""; unpr_UpgradeSettings := None; unpr_WorkloadMetadataConfig := None |} in
  match i.(npp_Config) with
  | None => o
  | Some c =>
    {| o with
       unpr_ImageType := StringValue c.(nodec_ImageType);
       unpr_WorkloadMetadataConfig :=
         (λ w, {| zero_apiWorkloadMetadataConfig with awmc_Mode := w.(wmc_Mode) |}) <$> c.(nodec_WorkloadMetadataConfig) |}
  end.

(** ** Late initialization *)

Definition late_autoscaling (p : apiNodePoolAutoscaling) (s : NodePoolAutoscaling) : NodePoolAutoscaling := {|
  npas_Autoprovisioned := LateInitializeBool s.(npas_Autoprovisioned) p.(anpas_Autoprovisioned);
  npas_Enabled := LateInitializeBool s.(npas_Enabled) p.(anpas_Enabled);
  npas_MaxNodeCount := LateInitializeInt64 s.(npas_MaxNodeCount) p.(anpas_MaxNodeCount);
  npas_MinNodeCount := LateInitializeInt64 s.(npas_MinNodeCount) p.(anpas_MinNodeCount) |}.
Definition no_autoscaling : NodePoolAutoscaling := {|
  npas_Autoprovisioned := None; npas_Enabled := None; npas_MaxNodeCount := None; npas_MinNodeCount := None |}.

Definition late_kubelet (c : apiNodeKubeletConfig) (s : NodeKubeletConfig) : NodeKubeletConfig := {|
  nkc_CpuCfsQuota := LateInitializeBool s.(nkc_CpuCfsQuota) c.(ankc_CpuCfsQuota);
  nkc_CpuCfsQuotaPeriod := LateInitializeString s.(nkc_CpuCfsQuotaPeriod) c.(ankc_CpuCfsQuotaPeriod);
  nkc_CpuManagerPolicy := LateInitializeString s.(nkc_CpuManagerPolicy) c.(ankc_CpuManagerPolicy) |}.
Definition late_affinity (c : apiReservationAffinity) (s : ReservationAffinity) : ReservationAffinity := {|
  ra_ConsumeReservationType := LateInitializeString s.(ra_ConsumeReservationType) c.(ara_ConsumeReservationType);
  ra_Key := LateInitializeString s.(ra_Key) c.(ara_Key);
  ra_Values := LateInitializeStringSlice s.(ra_Values) c.(ara_Values) |}.
Definition late_shielded (c : apiShieldedInstanceConfig) (s : ShieldedInstanceConfig) : ShieldedInstanceConfig := {|
  npsic_EnableIntegrityMonitoring := LateInitializeBool s.(npsic_EnableIntegrityMonitoring) c.(asic_EnableIntegrityMonitoring);
  npsic_EnableSecureBoot := LateInitializeBool s.(npsic_EnableSecureBoot) c.(asic_EnableSecureBoot) |}.
Definition late_config (c : apiNodeConfig) (s : NodeConfig) : outcome NodeConfig :=
  accelerators ← late_elems (λ a, {|
    acc_AcceleratorCount := a.(aacc_AcceleratorCount); acc_AcceleratorType := a.(aacc_AcceleratorType) |})
    s.(nodec_Accelerators) c.(anodec_Accelerators);
  taints ← late_elems (λ t, {|
    taint_Effect := t.(ataint_Effect); taint_Key := t.(ataint_Key); taint_Value := t.(ataint_Value) |})
    s.(nodec_Taints) c.(anodec_Taints);
  Returns {|
    nodec_Accelerators := accelerators;
    nodec_BootDiskKmsKey := LateInitializeString s.(nodec_BootDiskKmsKey) c.(anodec_BootDiskKmsKey);
    nodec_DiskSizeGb := LateInitializeInt64 s.(nodec_DiskSizeGb) c.(anodec_DiskSizeGb);
    nodec_DiskType := LateInitializeString s.(nodec_DiskType) c.(anodec_DiskType);
    nodec_ImageType := LateInitializeString s.(nodec_ImageType) c.(anodec_ImageType);
    nodec_KubeletConfig := late_ptr late_kubelet
      {| nkc_CpuCfsQuota := None; nkc_CpuCfsQuotaPeriod := None; nkc_CpuManagerPolicy := None |}
      s.(nodec_KubeletConfig) c.(anodec_KubeletConfig);
    nodec_Labels := LateInitializeStringMap s.(nodec_Labels) c.(anodec_Labels);
    nodec_LinuxNodeConfig := late_new (λ l, {| lnc_Sysctls := l.(alnc_Sysctls) |})
      s.(nodec_LinuxNodeConfig) c.(anodec_LinuxNodeConfig);
    nodec_LocalSsdCount := LateInitializeInt64 s.(nodec_LocalSsdCount) c.(anodec_LocalSsdCount);
    nodec_MachineType := LateInitializeString s.(nodec_MachineType) c.(anodec_MachineType);
    nodec_Metadata := LateInitializeStringMap s.(nodec_Metadata) c.(anodec_Metadata);
    nodec_MinCPUPlatform := LateInitializeString s.(nodec_MinCPUPlatform) c.(anodec_MinCpuPlatform);
    nodec_NodeGroup := LateInitializeString s.(nodec_NodeGroup) c.(anodec_NodeGroup);
    nodec_OauthScopes := LateInitializeStringSlice s.(nodec_OauthScopes) c.(anodec_OauthScopes);
    nodec_Preemptible := LateInitializeBool s.(nodec_Preemptible) c.(anodec_Preemptible);
    nodec_ReservationAffinity := late_ptr late_affinity
      {| ra_ConsumeReservationType := None; ra_Key := None; ra_Values := None |}
      s.(nodec_ReservationAffinity) c.(anodec_ReservationAffinity);
    nodec_SandboxConfig := late_new (λ b, {| sandbox_Type := b.(asandbox_Type) |}) s.(nodec_SandboxConfig) c.(anodec_SandboxConfig);
    nodec_ServiceAccount := LateInitializeString s.(nodec_ServiceAccount) c.(anodec_ServiceAccount);
    nodec_ShieldedInstanceConfig := late_ptr late_shielded
      {| npsic_EnableIntegrityMonitoring := None; npsic_EnableSecureBoot := None |}
      s.(nodec_ShieldedInstanceConfig) c.(anodec_ShieldedInstanceConfig);
    nodec_Tags := LateInitializeStringSlice s.(nodec_Tags) c.(anodec_Tags);
    nodec_Taints := taints;
    nodec_WorkloadMetadataConfig := late_new (λ w, {| wmc_Mode := w.(awmc_Mode) |})
      s.(nodec_WorkloadMetadataConfig) c.(anodec_WorkloadMetadataConfig) |}.
Definition no_config : NodeConfig := {|
  nodec_Accelerators := None; nodec_BootDiskKmsKey := None; nodec_DiskSizeGb := None; nodec_DiskType := None;
  nodec_ImageType := None; nodec_KubeletConfig := None; nodec_Labels := None; nodec_LinuxNodeConfig := None;
  nodec_LocalSsdCount := None; nodec_MachineType := None; nodec_Metadata := None; nodec_MinCPUPlatform := None;
  nodec_NodeGroup := None; nodec_OauthScopes := None; nodec_Preemptible := None; nodec_ReservationAffinity := None;
  nodec_SandboxConfig := None; nodec_ServiceAccount := None; nodec_ShieldedInstanceConfig := None; nodec_Tags := None;
  nodec_Taints := None; nodec_WorkloadMetadataConfig := None |}.

Definition late_management (m : apiNodeManagement) (s : NodeManagementSpec) : NodeManagementSpec := {|
  nms_AutoRepair := LateInitializeBool s.(nms_AutoRepair) m.(anm_AutoRepair);
  nms_AutoUpgrade := LateInitializeBool s.(nms_AutoUpgrade) m.(anm_AutoUpgrade) |}.
Definition late_upgrade (u : apiUpgradeSettings) (s : UpgradeSettings) : UpgradeSettings := {|
  us_MaxSurge := LateInitializeInt64 s.(us_MaxSurge) u.(aus_MaxSurge);
  us_MaxUnavailable := LateInitializeInt64 s.(us_MaxUnavailable) u.(aus_MaxUnavailable) |}.

Definition LateInitializeSpec (spec : NodePoolParameters) (p : apiNodePool) : outcome NodePoolParameters :=
  config ← late_ptr_try late_config no_config spec.(npp_Config) p.(anp_Config);
  Returns {| spec with
    npp_Autoscaling := late_ptr late_autoscaling no_autoscaling spec.(npp_Autoscaling) p.(anp_Autoscaling);
    npp_Config := config;
    npp_InitialNodeCount := LateInitializeInt64 spec.(npp_InitialNodeCount) p.(anp_InitialNodeCount);
    npp_Locations := LateInitializeStringSlice spec.(npp_Locations) p.(anp_Locations);
    npp_Management := late_ptr late_management {| nms_AutoRepair := None; nms_AutoUpgrade := None |}
      spec.(npp_Management) p.(anp_Management);
    npp_MaxPodsConstraint := late_new (λ m, {| mpc_MaxPodsPerNode := m.(ampc_MaxPodsPerNode) |})
      spec.(npp_MaxPodsConstraint) p.(anp_MaxPodsConstraint);
    npp_UpgradeSettings := late_ptr late_upgrade {| us_MaxSurge := None; us_MaxUnavailable := None |}
      spec.(npp_UpgradeSettings) p.(anp_UpgradeSettings);
    npp_Version := LateInitializeString spec.(npp_Version) p.(anp_Version) |}.

(** ** Comparing pools *)

Definition runtimeKey : string := "sandbox.gke.io/runtime".

(** strings.EqualFold on ASCII text. *)
Definition EqualFold (s t : string) : bool := bool_decide (ToLower s = ToLower t).

(** cmp.Equal with EquateEmpty, IgnoreSliceElements and IgnoreMapEntries on
    [runtimeKey] and strings compared by EqualFold, on each shape of value. Two
    slices or maps without elements are equal; of two others neither may be nil,
    even when all the elements of the other are ignored. *)
Definition equal_ptr {A} (eq : A → A → bool) (x y : ptr A) : bool :=
  match x, y with Some a, Some b => eq a b | None, None => true | _, _ => false end.
Fixpoint equal_list {A} (eq : A → A → bool) (x y : list A) : bool :=
  match x, y with
  | [], [] => true
  | a :: x, b :: y => eq a b && equal_list eq x y
  | _, _ => false
  end.
Definition equal_slice {A} (eq : A → A → bool) (ignored : A → bool) (x y : slice A) : bool :=
  (slice_empty x && slice_empty y) ||
  match x, y with
  | Some l, Some k => equal_list eq (List.filter (λ a, negb (ignored a)) l) (List.filter (λ a, negb (ignored a)) k)
  | _, _ => false
  end.
Definition equal_map (x y : gomap string) : bool :=
  (map_empty x && map_empty y) ||
  match x, y with
  | Some m, Some n => bool_decide (ToLower <$> delete runtimeKey m = ToLower <$> delete runtimeKey n)
  | _, _ => false
  end.
Definition none_ignored {A} (a : A) : bool := false.
Definition equal_strings (x y : slice string) : bool := equal_slice EqualFold none_ignored x y.
Definition runtime_taint (t : ptr apiNodeTaint) : bool :=
  match t with Some t => bool_decide (t.(ataint_Key) = runtimeKey) | None => false end.

(** The structs, field by field; the fields that this repository does not know are
    the same in both when they were copied. *)
Definition equal_condition (x y : apiStatusCondition) : bool :=
  EqualFold x.(asc_Code) y.(asc_Code) && EqualFold x.(asc_Message) y.(asc_Message) && bool_decide (x.(asc_rest) = y.(asc_rest)).
Definition equal_accelerator (x y : apiAcceleratorConfig) : bool :=
  bool_decide (x.(aacc_AcceleratorCount) = y.(aacc_AcceleratorCount)) &&
  EqualFold x.(aacc_AcceleratorType) y.(aacc_AcceleratorType) && bool_decide (x.(aacc_rest) = y.(aacc_rest)).
Definition equal_kubelet (x y : apiNodeKubeletConfig) : bool :=
  bool_decide (x.(ankc_CpuCfsQuota) = y.(ankc_CpuCfsQuota)) && EqualFold x.(ankc_CpuCfsQuotaPeriod) y.(ankc_CpuCfsQuotaPeriod) &&
  EqualFold x.(ankc_CpuManagerPolicy) y.(ankc_CpuManagerPolicy) && bool_decide (x.(ankc_rest) = y.(ankc_rest)).
Definition equal_linux (x y : apiLinuxNodeConfig) : bool :=
  equal_map x.(alnc_Sysctls) y.(alnc_Sysctls) && bool_decide (x.(alnc_rest) = y.(alnc_rest)).
Definition equal_affinity (x y : apiReservationAffinity) : bool :=
  EqualFold x.(ara_ConsumeReservationType) y.(ara_ConsumeReservationType) && EqualFold x.(ara_Key) y.(ara_Key) &&
  equal_strings x.(ara_Values) y.(ara_Values) && bool_decide (x.(ara_rest) = y.(ara_rest)).
Definition equal_sandbox (x y : apiSandboxConfig) : bool :=
  EqualFold x.(asandbox_Type) y.(asandbox_Type) && bool_decide (x.(asandbox_rest) = y.(asandbox_rest)).
Definition equal_taint (x y : apiNodeTaint) : bool :=
  EqualFold x.(ataint_Effect) y.(ataint_Effect) && EqualFold x.(ataint_Key) y.(ataint_Key) &&
  EqualFold x.(ataint_Value) y.(ataint_Value) && bool_decide (x.(ataint_rest) = y.(ataint_rest)).
Definition equal_metadata (x y : apiWorkloadMetadataConfig) : bool :=
  EqualFold x.(awmc_Mode) y.(awmc_Mode) && bool_decide (x.(awmc_rest) = y.(awmc_rest)).
Definition equal_config (x y : apiNodeConfig) : bool :=
  equal_slice (equal_ptr equal_accelerator) none_ignored x.(anodec_Accelerators) y.(anodec_Accelerators) &&
  EqualFold x.(anodec_BootDiskKmsKey) y.(anodec_BootDiskKmsKey) && bool_decide (x.(anodec_DiskSizeGb) = y.(anodec_DiskSizeGb)) &&
  EqualFold x.(anodec_DiskType) y.(anodec_DiskType) && EqualFold x.(anodec_ImageType) y.(anodec_ImageType) &&
  equal_ptr equal_kubelet x.(anodec_KubeletConfig) y.(anodec_KubeletConfig) && equal_map x.(anodec_Labels) y.(anodec_Labels) &&
  equal_ptr equal_linux x.(anodec_LinuxNodeConfig) y.(anodec_LinuxNodeConfig) &&
  bool_decide (x.(anodec_LocalSsdCount) = y.(anodec_LocalSsdCount)) && EqualFold x.(anodec_MachineType) y.(anodec_MachineType) &&
  equal_map x.(anodec_Metadata) y.(anodec_Metadata) && EqualFold x.(anodec_MinCpuPlatform) y.(anodec_MinCpuPlatform) &&
  EqualFold x.(anodec_NodeGroup) y.(anodec_NodeGroup) && equal_strings x.(anodec_OauthScopes) y.(anodec_OauthScopes) &&
  bool_decide (x.(anodec_Preemptible) = y.(anodec_Preemptible)) &&
  equal_ptr equal_affinity x.(anodec_ReservationAffinity) y.(anodec_ReservationAffinity) &&
  equal_ptr equal_sandbox x.(anodec_SandboxConfig) y.(anodec_SandboxConfig) &&
  EqualFold x.(anodec_ServiceAccount) y.(anodec_ServiceAccount) &&
  bool_decide (x.(anodec_ShieldedInstanceConfig) = y.(anodec_ShieldedInstanceConfig)) &&
  equal_strings x.(anodec_Tags) y.(anodec_Tags) &&
  equal_slice (equal_ptr equal_taint) runtime_taint x.(anodec_Taints) y.(anodec_Taints) &&
  equal_ptr equal_metadata x.(anodec_WorkloadMetadataConfig) y.(anodec_WorkloadMetadataConfig) &&
  bool_decide (x.(anodec_rest) = y.(anodec_rest)).
Definition equal_options (x y : apiAutoUpgradeOptions) : bool :=
  EqualFold x.(aauo_AutoUpgradeStartTime) y.(aauo_AutoUpgradeStartTime) && EqualFold x.(aauo_Description) y.(aauo_Description) &&
  bool_decide (x.(aauo_rest) = y.(aauo_rest)).
Definition equal_management (x y : apiNodeManagement) : bool :=
  bool_decide (x.(anm_AutoRepair) = y.(anm_AutoRepair)) && bool_decide (x.(anm_AutoUpgrade) = y.(anm_AutoUpgrade)) &&
  equal_ptr equal_options x.(anm_UpgradeOptions) y.(anm_UpgradeOptions) && bool_decide (x.(anm_rest) = y.(anm_rest)).
Definition equal_pool (x y : apiNodePool) : bool :=
  bool_decide (x.(anp_Autoscaling) = y.(anp_Autoscaling)) &&
  equal_slice (equal_ptr equal_condition) none_ignored x.(anp_Conditions) y.(anp_Conditions) &&
  equal_ptr equal_config x.(anp_Config) y.(anp_Config) && bool_decide (x.(anp_InitialNodeCount) = y.(anp_InitialNodeCount)) &&
  equal_strings x.(anp_InstanceGroupUrls) y.(anp_InstanceGroupUrls) && equal_strings x.(anp_Locations) y.(anp_Locations) &&
  equal_ptr equal_management x.(anp_Management) y.(anp_Management) &&
  bool_decide (x.(anp_MaxPodsConstraint) = y.(anp_MaxPodsConstraint)) && EqualFold x.(anp_Name) y.(anp_Name) &&
  bool_decide (x.(anp_PodIpv4CidrSize) = y.(anp_PodIpv4CidrSize)) && EqualFold x.(anp_SelfLink) y.(anp_SelfLink) &&
  EqualFold x.(anp_Status) y.(anp_Status) && EqualFold x.(anp_StatusMessage) y.(anp_StatusMessage) &&
  bool_decide (x.(anp_UpgradeSettings) = y.(anp_UpgradeSettings)) && EqualFold x.(anp_Version) y.(anp_Version) &&
  bool_decide (x.(anp_rest) = y.(anp_rest)).
Definition same_pool : relation apiNodePool := λ x y, equal_pool x y = true.
#[global] Instance same_pool_dec : RelDecision same_pool.
Proof. intros x y. unfold same_pool. apply _. Defined.

(** Asking a nil taint for its key panics: the filter runs over the elements of
    two slices neither of which is nil. *)
Definition filters_nil_taint (x y : apiNodePool) : bool :=
  match anodec_Taints <$> x.(anp_Config), anodec_Taints <$> y.(anp_Config) with
  | Some (Some l), Some (Some k) =>
    negb (slice_empty (Some l) && slice_empty (Some k)) && existsb (λ t, bool_decide (t = None)) (l ++ k)
  | _, _ => false
  end.

(** ** Is the pool up to date *)

Definition errCheckUpToDate : string := "unable to determine if external resource is up to date".

Inductive NodePoolE : Type → Type :=
| NodePoolsGet (name : string) : NodePoolE (apiNodePool + error)
| NodePoolsCreate (parent : string) (pool : apiNodePool) : NodePoolE (option error)
| NodePoolsSetAutoscaling (name : string) (a : ptr apiNodePoolAutoscaling) : NodePoolE (option error)
| NodePoolsSetManagement (name : string) (m : ptr apiNodeManagement) : NodePoolE (option error)
| NodePoolsUpdate (name : string) (update : UpdateNodePoolRequest) : NodePoolE (option error)
| NodePoolsDelete (name : string) : NodePoolE (option error)
| KubeUpdate (cr : NodePool) : NodePoolE (NodePool + error).

(** The closures that IsUpToDate returns, by the function that makes them and
    what they capture. *)
Inductive UpdateFn :=
| noOpUpdate
| newAutoscalingUpdateFn (i : ptr NodePoolAutoscaling)
| newManagementUpdateFn (i : ptr NodeManagementSpec)
| newGeneralUpdateFn (i : NodePoolParameters).

Definition call_update (fn : UpdateFn) (name : string) : prog NodePoolE (option error) :=
  match fn with
  | noOpUpdate => mret None
  | newAutoscalingUpdateFn i =>
    let out := GenerateAutoscaling i zero_apiNodePool in
    call (NodePoolsSetAutoscaling name out.(anp_Autoscaling))
  | newManagementUpdateFn i =>
    let out := GenerateManagement i zero_apiNodePool in
    call (NodePoolsSetManagement name out.(anp_Management))
  | newGeneralUpdateFn i => call (NodePoolsUpdate name (GenerateNodePoolUpdate i))
  end.

Section client.
Context `{Libs}.

Definition IsUpToDate (name : string) (i : NodePoolParameters) (observed : apiNodePool)
  : outcome (bool * UpdateFn * option error) :=
  match copystructure_Copy observed with
  | CopyFails err => Returns (true, noOpUpdate, errors_Wrap (Some err) errCheckUpToDate)
  | CopyOtherType => Returns (true, noOpUpdate, errors_New errCheckUpToDate)
  | Copied desired =>
    let desired := GenerateNodePool name i desired in
    if negb (cmp_Equal (=) desired.(anp_Autoscaling) observed.(anp_Autoscaling))
    then Returns (false, newAutoscalingUpdateFn i.(npp_Autoscaling), None)
    else if negb (cmp_Equal (=) desired.(anp_Management) observed.(anp_Management))
    then Returns (false, newManagementUpdateFn i.(npp_Management), None)
    else if filters_nil_taint desired observed then Panics
    else if negb (cmp_Equal same_pool desired observed)
    then Returns (false, newGeneralUpdateFn i, None)
    else Returns (true, noOpUpdate, None)
  end.
End client.

Definition GetFullyQualifiedName (p : NodePoolParameters) (name : string) : string :=
  ReplaceAll (String.append p.(npp_Cluster) (String.append "/nodePools/" name)) "/zones/" "/locations/".

(** ** The controller *)

Definition errManagedNodePoolUpdateFailed : string := "cannot update NodePool custom resource".
Definition errNotNodePool : string := "managed resource is not a NodePool".
Definition errGetNodePool : string := "cannot get GKE node pool".
Definition errCreateNodePool : string := "cannot create GKE node pool".
Definition errUpdateNodePool : string := "cannot update GKE node pool".
Definition errDeleteNodePool : string := "cannot delete GKE node pool".
Definition errCheckNodePoolUpToDate : string := "cannot determine if GKE node pool is up to date".

Definition pool_name (cr : NodePool) : string := GetFullyQualifiedName cr.(ForProvider) cr.(ExternalName).

Section controller.
Context `{Libs}.

(** The switch on the status of the pool. *)
Definition set_pool_condition (cr : NodePool) : NodePool :=
  let status := cr.(AtProvider).(npo_Status) in
  if bool_decide (status = NodePoolStateRunning ∨ status = NodePoolStateReconciling) then set_condition Available cr
  else if bool_decide (status = NodePoolStateProvisioning) then set_condition Creating cr
  else if bool_decide (status = NodePoolStateUnspecified ∨ status = NodePoolStateRunningError ∨ status = NodePoolStateError)
  then set_condition Unavailable cr
  else cr.

Definition Observe (mg : option NodePool)
  : prog NodePoolE (ExternalObservation * option error * option NodePool) :=
  match mg with
  | None => mret (no_observation, errors_New errNotNodePool, None)
  | Some cr =>
    r ← call (NodePoolsGet (pool_name cr));
    match r with
    | inr err => mret (no_observation, errors_Wrap (resource_Ignore IsErrorNotFound (Some err)) errGetNodePool, Some cr)
    | inl existing =>
      let cr := {| cr with AtProvider := GenerateObservation existing |} in
      let currentSpec := cr.(ForProvider) in
      i ← lift (LateInitializeSpec cr.(ForProvider) existing);
      let cr := {| cr with ForProvider := i |} in
      u ← (if negb (cmp_Equal (=) currentSpec cr.(ForProvider)) then call (KubeUpdate cr) else mret (inl cr));
      match u with
      | inr err => mret (no_observation, errors_Wrap (Some err) errManagedNodePoolUpdateFailed, Some cr)
      | inl cr =>
        let cr := set_pool_condition cr in
        '(u, _, err) ← lift (IsUpToDate cr.(ExternalName) cr.(ForProvider) existing);
        match err with
        | Some err => mret (no_observation, errors_Wrap (Some err) errCheckNodePoolUpToDate, Some cr)
        | None =>
          mret ({| ResourceExists := true; ResourceUpToDate := u; ResourceLateInitialized := false;
                   ConnectionDetails := None |}, None, Some cr)
        end
      end
    end
  end.

Definition Create (mg : option NodePool)
  : prog NodePoolE (ExternalCreation * option error * option NodePool) :=
  match mg with
  | None => mret (no_creation, errors_New errNotNodePool, None)
  | Some cr =>
    let cr := set_condition Creating cr in
    if bool_decide (cr.(AtProvider).(npo_Status) = NodePoolStateProvisioning) then mret (no_creation, None, Some cr)
    else
      let pool := GenerateNodePool cr.(ExternalName) cr.(ForProvider) zero_apiNodePool in
      err ← call (NodePoolsCreate cr.(ForProvider).(npp_Cluster) pool);
      mret (no_creation, errors_Wrap err errCreateNodePool, Some cr)
  end.

Definition Update (mg : option NodePool) : prog NodePoolE (option error * option NodePool) :=
  match mg with
  | None => mret (errors_New errNotNodePool, None)
  | Some cr =>
    if bool_decide (cr.(AtProvider).(npo_Status) = NodePoolStateReconciling ∨
                    cr.(AtProvider).(npo_Status) = NodePoolStateProvisioning)
    then mret (None, Some cr)
    else
      r ← call (NodePoolsGet (pool_name cr));
      match r with
      | inr err => mret (errors_Wrap (Some err) errGetNodePool, Some cr)
      | inl existing =>
        '(u, fn, err) ← lift (IsUpToDate cr.(ExternalName) cr.(ForProvider) existing);
        match err with
        | Some err => mret (errors_Wrap (Some err) errCheckNodePoolUpToDate, Some cr)
        | None =>
          if (u : bool) then mret (None, Some cr)
          else
            err ← call_update fn (pool_name cr);
            mret (errors_Wrap err errUpdateNodePool, Some cr)
        end
      end
  end.

Definition Delete (mg : option NodePool) : prog NodePoolE (option error * option NodePool) :=
  match mg with
  | None => mret (errors_New errNotNodePool, None)
  | Some cr =>
    let cr := set_condition Deleting cr in
    if bool_decide (cr.(AtProvider).(npo_Status) = NodePoolStateStopping) then mret (None, Some cr)
    else
      err ← call (NodePoolsDelete (pool_name cr));
      mret (errors_Wrap (resource_Ignore IsErrorNotFound err) errDeleteNodePool, Some cr)
  end.
End controller.
