(* ===== verification/NodePoolController.v ===== *)
(** * GKE node pools: what the client and the controller promise *)

From Stdlib Require Import Lia.
From S2P Require Import Prelude GoStrings Libs Contract Gcp Nested ClusterTypes ContainerAPI ClusterLate Cluster NodePool.

(** ** IsUpToDate, section by section *)

Definition autoscaling_differs (i : NodePoolParameters) (o : apiNodePool) : bool :=
  negb (bool_decide (generate_ptr generate_autoscaling zero_apiNodePoolAutoscaling i.(npp_Autoscaling) o.(anp_Autoscaling)
    = o.(anp_Autoscaling))).
Definition management_differs (i : NodePoolParameters) (o : apiNodePool) : bool :=
  negb (bool_decide (generate_ptr generate_management zero_apiNodeManagement i.(npp_Management) o.(anp_Management)
    = o.(anp_Management))).

(** What GenerateNodePool makes of the fields that have a comparison of their own
    or a special case. *)
Lemma generated_autoscaling name i o :
  (GenerateNodePool name i o).(anp_Autoscaling) =
  generate_ptr generate_autoscaling zero_apiNodePoolAutoscaling i.(npp_Autoscaling) o.(anp_Autoscaling).
Proof. unfold GenerateNodePool. by destruct (_ || _). Qed.
Lemma generated_management name i o :
  (GenerateNodePool name i o).(anp_Management) =
  generate_ptr generate_management zero_apiNodeManagement i.(npp_Management) o.(anp_Management).
Proof. unfold GenerateNodePool. by destruct (_ || _). Qed.
Lemma generated_upgrade name i o :
  (GenerateNodePool name i o).(anp_UpgradeSettings) =
  generate_ptr generate_upgrade zero_apiUpgradeSettings i.(npp_UpgradeSettings) o.(anp_UpgradeSettings).
Proof. unfold GenerateNodePool. by destruct (_ || _). Qed.
Lemma generated_version name i o :
  (GenerateNodePool name i o).(anp_Version) =
  if bool_decide (o.(anp_Version) = "") || negb (isAutoUpgradeEnabled i) then StringValue i.(npp_Version) else o.(anp_Version).
Proof. unfold GenerateNodePool. simpl. by destruct (_ || _). Qed.

(** The other fields: generated, or copied from the observed pool. *)
Lemma generated_others name i o :
  let p := GenerateNodePool name i o in
  p.(anp_Conditions) = o.(anp_Conditions) ∧ p.(anp_InstanceGroupUrls) = o.(anp_InstanceGroupUrls) ∧
  p.(anp_PodIpv4CidrSize) = o.(anp_PodIpv4CidrSize) ∧ p.(anp_SelfLink) = o.(anp_SelfLink) ∧
  p.(anp_Status) = o.(anp_Status) ∧ p.(anp_StatusMessage) = o.(anp_StatusMessage) ∧ p.(anp_rest) = o.(anp_rest) ∧
  p.(anp_Name) = name ∧ p.(anp_InitialNodeCount) = Int64Value i.(npp_InitialNodeCount) ∧
  p.(anp_Locations) = i.(npp_Locations) ∧
  p.(anp_MaxPodsConstraint) = generate_ptr generate_max_pods zero_apiMaxPodsConstraint
    i.(npp_MaxPodsConstraint) o.(anp_MaxPodsConstraint) ∧
  p.(anp_Config) = generate_ptr generate_config zero_apiNodeConfig i.(npp_Config) o.(anp_Config).
Proof. unfold GenerateNodePool. by destruct (_ || _). Qed.

Lemma nodepool_IsUpToDate_spec `{Libs} `{!CopySucceeds} name i o :
  IsUpToDate name i o =
    if autoscaling_differs i o then Returns (false, newAutoscalingUpdateFn i.(npp_Autoscaling), None)
    else if management_differs i o then Returns (false, newManagementUpdateFn i.(npp_Management), None)
    else if filters_nil_taint (GenerateNodePool name i o) o then Panics
    else if equal_pool (GenerateNodePool name i o) o then Returns (true, noOpUpdate, None)
    else Returns (false, newGeneralUpdateFn i, None).
Proof.
  unfold IsUpToDate. rewrite copy_succeeds, !cmp_Equal_decides, generated_autoscaling, generated_management.
  unfold autoscaling_differs, management_differs. destruct (negb _); [done|]. destruct (negb _); [done|].
  destruct (filters_nil_taint _ _); [done|]. case_bool_decide as Hsame; unfold same_pool in Hsame.
  - by rewrite Hsame.
  - by apply not_true_is_false in Hsame as ->.
Qed.

(** Two pools that are equal have the same upgrade settings. *)
Lemma equal_pool_upgrade x y : equal_pool x y = true → x.(anp_UpgradeSettings) = y.(anp_UpgradeSettings).
Proof.
  unfold equal_pool. rewrite !andb_true_iff. intros [[[? Hu] ?] ?]. by apply bool_decide_eq_true in Hu.
Qed.

(** ** The comparison is reflexive *)

Lemma EqualFold_refl s : EqualFold s s = true.
Proof. by apply bool_decide_eq_true. Qed.
Lemma equal_ptr_refl {A} (eq : A → A → bool) x : (∀ a, eq a a = true) → equal_ptr eq x x = true.
Proof. by destruct x; simpl. Qed.
Lemma equal_slice_refl {A} (eq : A → A → bool) ignored x : (∀ a, eq a a = true) → equal_slice eq ignored x x = true.
Proof.
  intros Heq. unfold equal_slice. destruct x as [l|]; [|done]. apply orb_true_iff. right.
  induction (List.filter _ l); simpl; [done|]. by rewrite Heq.
Qed.
Lemma equal_strings_refl x : equal_strings x x = true.
Proof. apply equal_slice_refl, EqualFold_refl. Qed.
Lemma equal_map_refl x : equal_map x x = true.
Proof. unfold equal_map. destruct x; [|done]. apply orb_true_iff. right. by apply bool_decide_eq_true. Qed.

Ltac refl_fields :=
  repeat first [apply andb_true_iff; split | apply EqualFold_refl | apply equal_strings_refl | apply equal_map_refl
    | by apply bool_decide_eq_true | apply equal_ptr_refl; intros ? | apply equal_slice_refl; intros ?].

Lemma equal_pool_refl x : equal_pool x x = true.
Proof. refl_fields. Qed.

(** A spec that generates the observed pool is up to date, unless a taint is nil. *)
Lemma generated_same_up_to_date `{Libs} `{!CopySucceeds} name i o :
  filters_nil_taint o o = false → GenerateNodePool name i o = o → IsUpToDate name i o = Returns (true, noOpUpdate, None).
Proof.
  intros Hnil Hgen. rewrite nodepool_IsUpToDate_spec. unfold autoscaling_differs, management_differs.
  rewrite <-generated_autoscaling with (name := name), <-generated_management with (name := name), Hgen, Hnil, equal_pool_refl.
  by rewrite !bool_decide_eq_true_2.
Qed.

(** ** Adopting an existing pool *)

(** A spec that only says which cluster the pool belongs to. *)
Definition adopting (cluster : string) (ref : ptr Reference) (sel : ptr Selector) : NodePoolParameters := {|
  npp_Cluster := cluster; npp_ClusterRef := ref; npp_ClusterSelector := sel; npp_Autoscaling := None; npp_Config := None;
  npp_InitialNodeCount := None; npp_Locations := None; npp_Management := None; npp_MaxPodsConstraint := None;
  npp_UpgradeSettings := None; npp_Version := None |}.

(** The elements of a slice are structs whose fields the spec knows. *)
Definition known {A} (unknown : A → rest) (x : slice (ptr A)) : Prop :=
  Forall (λ p, ∃ a, p = Some a ∧ unknown a = ∅) (elems x).
Definition known_config (c : apiNodeConfig) : Prop :=
  known aacc_rest c.(anodec_Accelerators) ∧ known ataint_rest c.(anodec_Taints).

(** Late initialization of a list followed by generation gives the list back. *)
Lemma late_elems_known {A B} (f : B → A) (g : A → B) (unknown : B → rest) y :
  (∀ b, unknown b = ∅ → g (f b) = b) → known unknown y →
  ∃ x, late_elems f None y = Returns x ∧ generate_elems g x y = y.
Proof.
  intros Hgf Hy. rewrite late_elems_spec. cbn [slice_empty elems default]. rewrite andb_true_r.
  destruct (slice_empty y) eqn:He; simpl; [by eexists|].
  assert (existsb (λ p : option B, bool_decide (p = None)) (elems y) = false) as ->.
  { apply not_true_is_false. intros (p & Hin & Hp)%existsb_exists. apply list_elem_of_In in Hin.
    unfold known in Hy. rewrite Forall_forall in Hy. destruct (Hy _ Hin) as (b & -> & _). by apply bool_decide_eq_true in Hp. }
  eexists; split; [done|]. unfold generate_elems.
  assert (slice_empty (Some (each f (elems y))) = false) as ->.
  { unfold slice_empty in *. simpl. by destruct (elems y). }
  destruct y as [l|]; [|done]. simpl. f_equal. unfold known in Hy. simpl in Hy. clear He.
  induction Hy as [|p l (b & -> & Hb) _ IH]; [done|].
  change (Some (g (f b)) :: each g (each f l) = Some b :: l). by rewrite Hgf, IH.
Qed.

Lemma late_strings_equal y : equal_strings (LateInitializeStringSlice None y) y = true.
Proof.
  unfold LateInitializeStringSlice. cbn [slice_empty elems default negb orb].
  destruct (slice_empty y) eqn:He; [|apply equal_strings_refl]. unfold equal_strings, equal_slice. by rewrite He.
Qed.
Lemma late_map_equal y : equal_map (LateInitializeStringMap None y) y = true.
Proof.
  unfold LateInitializeStringMap. cbn [map_empty entries default negb orb].
  destruct (map_empty y) eqn:He; simpl; [|apply equal_map_refl]. unfold equal_map. by rewrite He.
Qed.

#[local] Arguments EqualFold : simpl never.
#[local] Arguments equal_map : simpl never.
#[local] Arguments equal_slice : simpl never.
#[local] Arguments equal_strings : simpl never.
#[local] Arguments LateInitializeString : simpl never.
#[local] Arguments LateInitializeInt64 : simpl never.
#[local] Arguments LateInitializeBool : simpl never.
#[local] Arguments LateInitializeStringSlice : simpl never.
#[local] Arguments LateInitializeStringMap : simpl never.
#[local] Arguments bool_decide : simpl never.

(** The fields of a generated node config. *)
Ltac config_fields := cbn [no_config generate_config
    nodec_Accelerators nodec_BootDiskKmsKey nodec_DiskSizeGb nodec_DiskType nodec_ImageType nodec_KubeletConfig
    nodec_Labels nodec_LinuxNodeConfig nodec_LocalSsdCount nodec_MachineType nodec_Metadata
    nodec_MinCPUPlatform nodec_NodeGroup nodec_OauthScopes nodec_Preemptible nodec_ReservationAffinity
    nodec_SandboxConfig nodec_ServiceAccount nodec_ShieldedInstanceConfig nodec_Tags nodec_Taints
    nodec_WorkloadMetadataConfig anodec_Accelerators anodec_BootDiskKmsKey anodec_DiskSizeGb anodec_DiskType
    anodec_ImageType anodec_KubeletConfig anodec_Labels anodec_LinuxNodeConfig anodec_LocalSsdCount
    anodec_MachineType anodec_Metadata anodec_MinCpuPlatform anodec_NodeGroup anodec_OauthScopes
    anodec_Preemptible anodec_ReservationAffinity anodec_SandboxConfig anodec_ServiceAccount
    anodec_ShieldedInstanceConfig anodec_Tags anodec_Taints anodec_WorkloadMetadataConfig anodec_rest].

Lemma adopt_config c : known_config c →
  ∃ s, late_config c no_config = Returns s ∧ equal_config (generate_config s c) c = true ∧
    (generate_config s c).(anodec_Taints) = c.(anodec_Taints).
Proof.
  intros [Ha Ht]. unfold late_config. cbn [no_config nodec_Accelerators nodec_Taints].
  destruct (late_elems_known (λ a, {| acc_AcceleratorCount := a.(aacc_AcceleratorCount);
    acc_AcceleratorType := a.(aacc_AcceleratorType) |}) generate_accelerator aacc_rest c.(anodec_Accelerators))
    as (accs & -> & Haccs); [by intros [??? ] ?; simplify_eq/=|done|].
  destruct (late_elems_known (λ t, {| taint_Effect := t.(ataint_Effect); taint_Key := t.(ataint_Key);
    taint_Value := t.(ataint_Value) |}) generate_taint ataint_rest c.(anodec_Taints))
    as (taints & -> & Htaints); [by intros [????] ?; simplify_eq/=|done|].
  eexists; split; [done|]. split; [|done]. unfold equal_config. config_fields. rewrite Haccs, Htaints.
  autorewrite with late. cbn [default]. rewrite !andb_true_iff. split_and!.
  all: try first [apply EqualFold_refl | apply late_strings_equal | apply late_map_equal | by apply bool_decide_eq_true
    | by apply equal_slice_refl; intros ?; refl_fields].
  - destruct (anodec_KubeletConfig c) as [k|]; simpl; [|done]. unfold equal_kubelet; simpl. autorewrite with late. refl_fields.
  - destruct (anodec_LinuxNodeConfig c) as [k|]; simpl; [|done]. unfold equal_linux; simpl. refl_fields.
  - destruct (anodec_ReservationAffinity c) as [k|]; simpl; [|done]. unfold equal_affinity; simpl. autorewrite with late.
    rewrite !andb_true_iff. split_and!; [apply EqualFold_refl..|apply late_strings_equal|by apply bool_decide_eq_true].
  - destruct (anodec_SandboxConfig c) as [k|]; simpl; [|done]. unfold equal_sandbox; simpl. refl_fields.
  - destruct (anodec_ShieldedInstanceConfig c) as [[]|]; simpl; [|done]. unfold generate_shielded; simpl.
    autorewrite with late. by apply bool_decide_eq_true.
  - destruct (anodec_WorkloadMetadataConfig c) as [k|]; simpl; [|done]. unfold equal_metadata; simpl. refl_fields.
Qed.

(** The optional structs of a pool without lists are given back exactly. *)
Lemma adopt_autoscaling y : generate_ptr generate_autoscaling zero_apiNodePoolAutoscaling
  (late_ptr late_autoscaling no_autoscaling None y) y = y.
Proof. destruct y as [[]|]; [|done]. unfold generate_ptr, generate_autoscaling; simpl. by autorewrite with late. Qed.
Lemma adopt_management y : generate_ptr generate_management zero_apiNodeManagement
  (late_ptr late_management {| nms_AutoRepair := None; nms_AutoUpgrade := None |} None y) y = y.
Proof. destruct y as [[]|]; [|done]. unfold generate_ptr, generate_management; simpl. by autorewrite with late. Qed.
Lemma adopt_upgrade y : generate_ptr generate_upgrade zero_apiUpgradeSettings
  (late_ptr late_upgrade {| us_MaxSurge := None; us_MaxUnavailable := None |} None y) y = y.
Proof. destruct y as [[]|]; [|done]. unfold generate_ptr, generate_upgrade; simpl. by autorewrite with late. Qed.
Lemma adopt_max_pods y : generate_ptr generate_max_pods zero_apiMaxPodsConstraint
  (late_new (λ m, {| mpc_MaxPodsPerNode := m.(ampc_MaxPodsPerNode) |}) None y) y = y.
Proof. by destruct y as [[]|]. Qed.

Lemma known_no_nil {A} (unknown : A → rest) (l : list (ptr A)) :
  known unknown (Some l) → existsb (λ t, bool_decide (t = None)) (l ++ l) = false.
Proof.
  intros Hl. apply not_true_is_false. intros (p & Hin & Hp)%existsb_exists. apply list_elem_of_In in Hin.
  unfold known in Hl. rewrite Forall_forall in Hl. assert (p ∈ l) as Hin' by (apply elem_of_app in Hin; tauto).
  destruct (Hl _ Hin') as (b & -> & _). by apply bool_decide_eq_true in Hp.
Qed.
Lemma adopt_ptr_config y : (∀ c, y = Some c → known_config c) →
  ∃ config, late_ptr_try late_config no_config None y = Returns config ∧
    equal_ptr equal_config (generate_ptr generate_config zero_apiNodeConfig config y) y = true ∧
    anodec_Taints <$> generate_ptr generate_config zero_apiNodeConfig config y = anodec_Taints <$> y.
Proof.
  intros Hknown. destruct y as [c|]; [|by exists None].
  destruct (adopt_config c (Hknown c eq_refl)) as (s & Hs & He & Ht). exists (Some s).
  cbn [late_ptr_try default]. rewrite Hs. split_and!; [done|exact He|]. simpl. by f_equal.
Qed.

(** C21: adopting a node pool changes nothing. When the spec says no more than
    which cluster the pool belongs to, and the observed pool has no nil taint or
    accelerator and none with fields the spec does not know, LateInitializeSpec does not
    panic, and with the spec it returns the pool is up to date: no update is made. *)
Theorem nodepool_adoption `{Libs} `{!CopySucceeds} cluster ref sel o
    (Hknown : ∀ c, o.(anp_Config) = Some c → known_config c) :
  ∃ i, LateInitializeSpec (adopting cluster ref sel) o = Returns i ∧
    IsUpToDate o.(anp_Name) i o = Returns (true, noOpUpdate, None).
Proof.
  destruct (adopt_ptr_config o.(anp_Config) Hknown) as (config & Hconfig & Hequal & Htaints).
  unfold LateInitializeSpec. cbn [npp_Config adopting]. rewrite Hconfig. eexists; split; [done|].
  rewrite nodepool_IsUpToDate_spec. unfold autoscaling_differs, management_differs.
  cbn [npp_Autoscaling npp_Management adopting]. rewrite adopt_autoscaling, adopt_management, !bool_decide_eq_true_2 by done.
  cbn [negb]. set (i := Build_NodePoolParameters _ _ _ _ _ _ _ _ _ _ _).
  destruct (generated_others o.(anp_Name) i o) as (H1 & H2 & H3 & H4 & H5 & H6 & H7 & H8 & H9 & H10 & H11 & H12).
  assert (filters_nil_taint (GenerateNodePool o.(anp_Name) i o) o = false) as ->.
  { unfold filters_nil_taint. rewrite H12. cbn [i npp_Config]. rewrite Htaints.
    destruct (anp_Config o) as [c|] eqn:Hc; simpl; [|done].
    destruct (Hknown c eq_refl) as [_ Ht]. destruct (anodec_Taints c) as [l|]; [|done].
    by rewrite (known_no_nil ataint_rest l Ht), andb_false_r. }
  assert (equal_pool (GenerateNodePool o.(anp_Name) i o) o = true) as ->; [|done].
  unfold equal_pool. rewrite generated_autoscaling, generated_management, generated_upgrade, generated_version,
    H1, H2, H3, H4, H5, H6, H7, H8, H9, H10, H11, H12.
  subst i. cbn [npp_Autoscaling npp_Management npp_UpgradeSettings npp_Version npp_Config npp_InitialNodeCount
    npp_Locations npp_MaxPodsConstraint adopting].
  rewrite adopt_autoscaling, adopt_management, adopt_upgrade, adopt_max_pods, Hequal, late_strings_equal.
  autorewrite with late. cbn [default]. rewrite !bool_decide_eq_true_2 by done.
  rewrite !EqualFold_refl, equal_strings_refl, equal_slice_refl by (intros ?; refl_fields).
  rewrite equal_ptr_refl by (intros ?; refl_fields). 
  match goal with |- context [if ?b then anp_Version o else _] => destruct b end;
    rewrite EqualFold_refl, bool_decide_eq_true_2; done.
Qed.

Definition example_pool : apiNodePool := {| zero_apiNodePool with
  anp_Name := "pool"; anp_Version := "1.20"; anp_Locations := Some ["us-central1-a"];
  anp_UpgradeSettings := Some {| zero_apiUpgradeSettings with aus_MaxSurge := 1%Z |};
  anp_Management := Some {| zero_apiNodeManagement with anm_AutoUpgrade := true |};
  anp_Config := Some {| zero_apiNodeConfig with anodec_DiskType := "pd-standard"; anodec_ImageType := "COS";
    anodec_Taints := Some [Some {| zero_apiNodeTaint with ataint_Effect := "NO_SCHEDULE"; ataint_Key := "k" |}] |} |}.
Definition example_adopting : NodePoolParameters := adopting "projects/p/zones/z/clusters/c" None None.

Lemma nodepool_adoption_witness :
  let _ := reference_libs in
  ∃ i, LateInitializeSpec example_adopting example_pool = Returns i ∧
    IsUpToDate "pool" i example_pool = Returns (true, noOpUpdate, None).
Proof.
  intros libs. apply (@nodepool_adoption libs reference_copy "projects/p/zones/z/clusters/c" None None example_pool).
  intros c [= <-]. split; unfold known; simpl; [constructor|]. constructor; [|constructor]. by eexists.
Defined.

(** ** Updates that reach the pool, and updates that do not *)

(** What the API documents of its ways to change a pool. Any call may fail. A read
    changes nothing and answers with the pool. Setting autoscaling or management
    leaves the upgrade settings as they are. An update changes the upgrade settings
    only to those the request carries, if it carries any, and has done so once
    it is answered without an error. *)
Class NodePools {W : Type} (serve : ∀ X, NodePoolE X → W → X * W) (pool_of : W → string → option apiNodePool) := {
  pools_get name w o r w' : pool_of w name = Some o → serve _ (NodePoolsGet name) w = (r, w') →
    w' = w ∧ ∀ o', r = inl o' → o' = o;
  pools_autoscaling name a w o r w' :
    pool_of w name = Some o → serve _ (NodePoolsSetAutoscaling name a) w = (r, w') →
    ∃ o', pool_of w' name = Some o' ∧ o'.(anp_UpgradeSettings) = o.(anp_UpgradeSettings);
  pools_management name m w o r w' :
    pool_of w name = Some o → serve _ (NodePoolsSetManagement name m) w = (r, w') →
    ∃ o', pool_of w' name = Some o' ∧ o'.(anp_UpgradeSettings) = o.(anp_UpgradeSettings);
  pools_update name u w o r w' : pool_of w name = Some o → serve _ (NodePoolsUpdate name u) w = (r, w') →
    ∃ o', pool_of w' name = Some o' ∧
      (o'.(anp_UpgradeSettings) = o.(anp_UpgradeSettings) ∨
       ∃ us, u.(unpr_UpgradeSettings) = Some us ∧ o'.(anp_UpgradeSettings) = Some us);
  pools_updated name u w o w' us : pool_of w name = Some o → serve _ (NodePoolsUpdate name u) w = (None, w') →
    u.(unpr_UpgradeSettings) = Some us → ∃ o', pool_of w' name = Some o' ∧ o'.(anp_UpgradeSettings) = Some us
}.

#[local] Arguments GenerateNodePool : simpl never.
#[local] Arguments GenerateNodePoolUpdate : simpl never.
#[local] Arguments filters_nil_taint : simpl never.
#[local] Arguments equal_pool : simpl never.
#[local] Arguments autoscaling_differs : simpl never.
#[local] Arguments management_differs : simpl never.

Section updates.
Context `{Libs} `{!CopySucceeds}.
Context {W : Type} (serve : ∀ X, NodePoolE X → W → X * W) (pool_of : W → string → option apiNodePool).
Context `{!NodePools serve pool_of}.
Variable cr : NodePool.

(** Any number of updates, whether or not they fail. *)
Inductive updates : W → W → Prop :=
| updates_none w : updates w w
| updates_more w w1 w2 r : run serve (Update (Some cr)) w = Returns (r, w1) → updates w1 w2 → updates w w2.

Definition keeps_upgrade (name : string) (w w' : W) : Prop :=
  ∀ o, pool_of w name = Some o →
  ∃ o', pool_of w' name = Some o' ∧ o'.(anp_UpgradeSettings) = o.(anp_UpgradeSettings).
#[local] Instance keeps_upgrade_preorder name : PreOrder (keeps_upgrade name).
Proof.
  split; [intros w o; eauto|]. intros w1 w2 w3 H12 H23 o Ho.
  destruct (H12 o Ho) as (o2 & Ho2 & Hu2). destruct (H23 o2 Ho2) as (o3 & Ho3 & Hu3). exists o3. split; [done|congruence].
Qed.

(** The generated request carries none, so no call that an update makes touches
    the upgrade settings. *)
Lemma generated_request_upgrade i : (GenerateNodePoolUpdate i).(unpr_UpgradeSettings) = None.
Proof. unfold GenerateNodePoolUpdate. by destruct (npp_Config i). Qed.
Lemma call_update_keeps_upgrade fn name w r w' :
  run serve (call_update fn name) w = Returns (r, w') → keeps_upgrade name w w'.
Proof using Type*.
  intros Hrun o Ho. revert Hrun. destruct fn as [|a|m|i]; unfold call_update, call; cbn [run].
  - intros [= _ <-]. eauto.
  - destruct (serve _ _ w) as [? w1] eqn:Hs. intros [= _ <-]. by eapply pools_autoscaling.
  - destruct (serve _ _ w) as [? w1] eqn:Hs. intros [= _ <-]. by eapply pools_management.
  - destruct (serve _ _ w) as [? w1] eqn:Hs. intros [= _ <-].
    destruct (pools_update _ _ _ _ _ _ Ho Hs) as (o' & Ho' & [Hu|(us & Hus & _)]); [eauto|].
    by rewrite generated_request_upgrade in Hus.
Qed.

Lemma update_keeps_upgrade w r w' :
  run serve (Update (Some cr)) w = Returns (r, w') → keeps_upgrade (pool_name cr) w w'.
Proof using Type*.
  intros Hrun o Ho. revert Hrun. unfold Update. case_bool_decide; [intros [= _ <-]; eauto|].
  rewrite run_bind. unfold call at 1. cbn [run]. destruct (serve _ _ w) as [got w0] eqn:Hget.
  destruct (pools_get _ _ _ _ _ Ho Hget) as [-> _].
  cbn [mbind outcome_bind]. destruct got as [o1|err]; [|intros [= _ <-]; eauto]. rewrite run_bind.
  destruct (IsUpToDate _ _ o1) as [[[u fn] err]|]; [|done]. cbn [lift run mbind outcome_bind].
  destruct err as [err|]; [intros [= _ <-]; eauto|]. destruct u; [intros [= _ <-]; eauto|].
  rewrite run_bind. destruct (run serve (call_update _ _) w) as [[r1 w1]|] eqn:Hcall; [|done].
  intros [= _ <-]. by apply (call_update_keeps_upgrade _ _ _ _ _ Hcall).
Qed.

Lemma updates_keep_upgrade w w' : updates w w' → keeps_upgrade (pool_name cr) w w'.
Proof using Type*.
  induction 1 as [w|w w1 w2 r Hrun _ IH]; [done|]. etrans; [by eapply update_keeps_upgrade|done].
Qed.
End updates.

(** C33: a change of the upgrade settings never arrives. Once the upgrade settings
    of the spec and of the pool differ, no number of updates, failing or not, makes the pool up to
    date, against any service that changes the upgrade settings only to what it is
    asked for, although a single request that carried the upgrade settings GenerateNodePool makes would set them. *)
Theorem nodepool_upgrade_settings_stuck `{Libs} `{!CopySucceeds} {W : Type}
    (serve : ∀ X, NodePoolE X → W → X * W) (pool_of : W → string → option apiNodePool) `{!NodePools serve pool_of}
    cr w w' o
    (Ho : pool_of w (pool_name cr) = Some o)
    (Hdiff : (GenerateNodePool cr.(ExternalName) cr.(ForProvider) o).(anp_UpgradeSettings) ≠ o.(anp_UpgradeSettings))
    (Hups : updates serve cr w w') :
  (∃ o', pool_of w' (pool_name cr) = Some o' ∧
    ∀ fn err, IsUpToDate cr.(ExternalName) cr.(ForProvider) o' ≠ Returns (true, fn, err)) ∧
  (∀ u w1,
    u.(unpr_UpgradeSettings) = (GenerateNodePool cr.(ExternalName) cr.(ForProvider) o).(anp_UpgradeSettings) →
    serve _ (NodePoolsUpdate (pool_name cr) u) w' = (None, w1) →
    ∃ o1, pool_of w1 (pool_name cr) = Some o1 ∧
      (GenerateNodePool cr.(ExternalName) cr.(ForProvider) o1).(anp_UpgradeSettings) = o1.(anp_UpgradeSettings)).
Proof.
  destruct (updates_keep_upgrade serve pool_of cr w w' Hups o Ho) as (o' & Ho' & Hu).
  rewrite generated_upgrade in *. split.
  - exists o'. split; [done|]. intros fn err. rewrite nodepool_IsUpToDate_spec.
    destruct (autoscaling_differs _ _); [done|]. destruct (management_differs _ _); [done|].
    destruct (filters_nil_taint _ _); [done|]. destruct (equal_pool _ _) eqn:Heq; [|done].
    apply equal_pool_upgrade in Heq. rewrite generated_upgrade in Heq. congruence.
  - intros u w1 Hreq Hs. unfold generate_ptr in Hreq, Hdiff.
    destruct (npp_UpgradeSettings (ForProvider cr)) as [x|] eqn:Hx; [|done].
    destruct (pools_updated _ _ _ _ _ _ Ho' Hs Hreq) as (o1 & Ho1 & Hu1). exists o1. split; [done|].
    by rewrite generated_upgrade, Hx, Hu1.
Qed.

(** A service in memory that carries out the changes. *)
Definition memory_pool (X : Type) (e : NodePoolE X) : apiNodePool → X * apiNodePool :=
  match e with
  | NodePoolsGet _ => λ o, (inl o, o)
  | NodePoolsCreate _ pool => λ _, (None, pool)
  | NodePoolsSetAutoscaling _ a => λ o, (None, {| o with anp_Autoscaling := a |})
  | NodePoolsSetManagement _ m => λ o, (None, {| o with anp_Management := m |})
  | NodePoolsUpdate _ u => λ o, (None, {| o with
      anp_Locations := if slice_empty u.(unpr_Locations) then o.(anp_Locations) else u.(unpr_Locations);
      anp_UpgradeSettings := match u.(unpr_UpgradeSettings) with Some us => Some us | None => o.(anp_UpgradeSettings) end;
      anp_Version := if bool_decide (u.(unpr_NodeVersion) = "") then o.(anp_Version) else u.(unpr_NodeVersion) |})
  | NodePoolsDelete _ => λ o, (None, o)
  | KubeUpdate cr => λ o, (inl cr, o)
  end.
#[global] Instance memory_pool_api : NodePools memory_pool (λ o _, Some o).
Proof.
  split; intros; simplify_eq/=; [by split; [|intros ? [= ->]]|by eexists|by eexists|..];
    (eexists; split; [done|]); simpl; [destruct (unpr_UpgradeSettings u); eauto|by case_match; simplify_eq].
Qed.

Definition example_surge : NodePool := fresh "pool"
  {| example_adopting with npp_UpgradeSettings := Some {| us_MaxSurge := Some 3%Z; us_MaxUnavailable := None |} |}
  (GenerateObservation example_pool).

(** The pool after one update, which asks for locations and a version. *)
Lemma nodepool_upgrade_settings_stuck_witness :
  let _ := reference_libs in
  ∃ w' : apiNodePool, updates memory_pool example_surge example_pool w' ∧
    ∀ fn err, IsUpToDate "pool" example_surge.(ForProvider) w' ≠ Returns (true, fn, err).
Proof.
  intros libs.
  assert (∃ r w1, run memory_pool (Update (Some example_surge)) example_pool = Returns (r, w1)) as (r & w1 & Hrun)
    by (eexists _, _; vm_compute; reflexivity).
  assert (updates memory_pool example_surge example_pool w1) as Hups by (econstructor; [exact Hrun|constructor]).
  exists w1. split; [exact Hups|].
  destruct (@nodepool_upgrade_settings_stuck libs reference_copy _ memory_pool (λ o _, Some o) _
    example_surge example_pool w1 example_pool) as [(o' & [= <-] & Hup) _]; [done|done|exact Hups|exact Hup].
Defined.

(** ** Errors *)

Definition pool_without_nil (o : apiNodePool) : Prop :=
  ∀ c, o.(anp_Config) = Some c → no_nil c.(anodec_Accelerators) ∧ no_nil c.(anodec_Taints).
Definition spec_without_nil (i : NodePoolParameters) : Prop :=
  ∀ c, i.(npp_Config) = Some c → no_nil c.(nodec_Taints).

(** Late initialization of a spec from a pool without nil elements returns. *)
Lemma late_returns i o : pool_without_nil o → ∃ i', LateInitializeSpec i o = Returns i'.
Proof.
  intros Ho. unfold LateInitializeSpec, late_ptr_try. destruct (anp_Config o) as [c|] eqn:Hc; [|by eexists].
  destruct (Ho c Hc) as [Ha Ht]. unfold late_config. rewrite !late_elems_spec.
  rewrite (no_nil_existsb _ Ha), (no_nil_existsb _ Ht).
  destruct (negb (slice_empty (anodec_Accelerators c)) && _), (negb (slice_empty (anodec_Taints c)) && _); by eexists.
Qed.
(** And then comparing the two does not ask a nil taint for its key. *)
Lemma compare_returns name i o :
  spec_without_nil i → pool_without_nil o → filters_nil_taint (GenerateNodePool name i o) o = false.
Proof.
  intros Hi Ho. unfold filters_nil_taint.
  destruct (generated_others name i o) as (_ & _ & _ & _ & _ & _ & _ & _ & _ & _ & _ & ->).
  destruct (anp_Config o) as [c|] eqn:Hc; [|by destruct (fmap _ _) as [[]|]].
  destruct (Ho c Hc) as [_ Ht]. set (g := generate_ptr _ _ _ _).
  assert (∀ d, g = Some d → no_nil d.(anodec_Taints)) as Hg.
  { intros d. unfold g, generate_ptr. destruct (npp_Config i) as [ci|] eqn:Hci; [|by intros [= <-]].
    intros [= <-]. cbn [default generate_config anodec_Taints]. apply no_nil_generate; [by apply Hi|done]. }
  clearbody g. destruct g as [d|]; [|done]. specialize (Hg d eq_refl).
  cbn [fmap option_fmap option_map]. destruct (anodec_Taints d) as [l|]; [|done].
  destruct (anodec_Taints c) as [k|]; [|done]. unfold no_nil in Hg, Ht. simpl in Hg, Ht.
  rewrite no_nil_existsb by (by apply Forall_app). apply andb_false_r.
Qed.
Lemma is_up_to_date_returns `{Libs} `{!CopySucceeds} name i o :
  spec_without_nil i → pool_without_nil o → ∃ u fn, IsUpToDate name i o = Returns (u, fn, None).
Proof.
  intros Hi Ho. rewrite nodepool_IsUpToDate_spec, compare_returns by done.
  destruct (autoscaling_differs _ _); [by do 2 eexists|]. destruct (management_differs _ _); [by do 2 eexists|].
  destruct (equal_pool _ _); by do 2 eexists.
Qed.

Definition nodepool_fails (observing : bool) (X : Type) (e : NodePoolE X) : X → bool :=
  match e with
  | NodePoolsGet _ => read_fails (if observing then IsErrorNotFound else no_excuse)
  | NodePoolsDelete _ => write_fails IsErrorNotFound
  | NodePoolsCreate _ _ | NodePoolsSetAutoscaling _ _ | NodePoolsSetManagement _ _ | NodePoolsUpdate _ _ =>
    write_fails no_excuse
  | KubeUpdate _ => read_fails no_excuse
  end.
(** The services answer with pools and resources without nil elements. *)
Definition answers_without_nil (X : Type) (e : NodePoolE X) : X → Prop :=
  match e with
  | NodePoolsGet _ => λ r, match r with inl o => pool_without_nil o | inr _ => True end
  | KubeUpdate _ => λ r, match r with inl cr => spec_without_nil cr.(ForProvider) | inr _ => True end
  | _ => λ _, True
  end.

Section handlers.
Context `{Libs} `{!CopySucceeds}.
Variable cr : NodePool.
Hypothesis Hcr : spec_without_nil cr.(ForProvider).

Lemma nodepool_observe_errors : errors_given answers_without_nil (nodepool_fails true) (Observe (Some cr)).
Proof using Type*.
  unfold errors_given, Observe. cbn [mbind prog_bind prog_bind_ call errors_from nodepool_fails answers_without_nil].
  intros [o|err] Ho; [|simpl; walk_done]. cbn [ForProvider].
  destruct (late_returns cr.(ForProvider) o Ho) as [i Hi]. rewrite Hi.
  cbn [lift mbind prog_bind prog_bind_ ForProvider].
  assert (∀ cr', spec_without_nil cr'.(ForProvider) → ∃ u fn,
    IsUpToDate (set_pool_condition cr').(ExternalName) (set_pool_condition cr').(ForProvider) o = Returns (u, fn, None)) as Hup.
  { intros cr' Hcr'. apply is_up_to_date_returns; [|done]. unfold set_pool_condition, set_condition.
    repeat case_match; exact Hcr'. }
  destruct (negb (cmp_Equal (=) cr.(ForProvider) i)) eqn:Hne.
  - cbn [call prog_bind_ errors_from nodepool_fails answers_without_nil]. intros [cr'|err] Hans; [|simpl; walk_done].
    cbn [prog_bind prog_bind_]. destruct (Hup cr' Hans) as (u & fn & ->). simpl. walk_done.
  - apply negb_false_iff in Hne. rewrite cmp_Equal_decides in Hne. apply bool_decide_eq_true in Hne. subst i.
    match goal with |- context [mbind ?f (mret (inl ?c))] => change (mbind f (mret (inl c))) with (f (inl c)) end.
    cbv beta iota. match goal with |- context [set_pool_condition ?c] => destruct (Hup c Hcr) as (u & fn & ->) end. simpl. walk_done.
Qed.
Lemma nodepool_create_errors : errors_iff (nodepool_fails false) (Create (Some cr)).
Proof using Type*.
  unfold errors_iff, errors_given, Create. case_bool_decide; [simpl; walk_done|].
  cbn [call mbind prog_bind prog_bind_ errors_from nodepool_fails]. intros [err|] _; simpl; walk_done.
Qed.
Lemma nodepool_update_errors : errors_given answers_without_nil (nodepool_fails false) (Update (Some cr)).
Proof using Type*.
  unfold errors_given, Update. case_bool_decide; [simpl; walk_done|].
  cbn [call mbind prog_bind prog_bind_ errors_from nodepool_fails answers_without_nil].
  intros [o|err] Ho; [|simpl; walk_done].
  destruct (is_up_to_date_returns cr.(ExternalName) cr.(ForProvider) o Hcr Ho) as (u & fn & ->).
  cbn [lift mbind prog_bind prog_bind_]. destruct u; [simpl; walk_done|].
  destruct fn; unfold call_update; cbn [call mret prog_ret mbind prog_bind prog_bind_ errors_from nodepool_fails answers_without_nil];
    [simpl; walk_done|intros [err|] _; simpl; walk_done..].
Qed.
Lemma nodepool_delete_errors : errors_iff (nodepool_fails false) (Delete (Some cr)).
Proof using Type*. unfold errors_iff, errors_given, Delete. case_bool_decide; simpl; walk. Qed.
End handlers.

(** While the spec has no nil taint and the services answer with pools and
    resources that have no nil taint or accelerator, the handlers of the NodePool
    controller do not panic and return an error exactly when one of their calls
    failed, where NotFound is no failure of Observe's Get nor of Delete. Nothing
    is created, updated or deleted while the status says that this is already
    under way. *)
Theorem nodepool_controller_errors `{Libs} `{!CopySucceeds} cr (Hcr : spec_without_nil cr.(ForProvider)) :
  errors_given answers_without_nil (nodepool_fails true) (Observe (Some cr)) ∧
  errors_iff (nodepool_fails false) (Create (Some cr)) ∧
  errors_given answers_without_nil (nodepool_fails false) (Update (Some cr)) ∧
  errors_iff (nodepool_fails false) (Delete (Some cr)) ∧
  (cr.(AtProvider).(npo_Status) = NodePoolStateProvisioning →
     calls_only (λ _ _, False) (Create (Some cr)) ∧ calls_only (λ _ _, False) (Update (Some cr))) ∧
  (cr.(AtProvider).(npo_Status) = NodePoolStateReconciling → calls_only (λ _ _, False) (Update (Some cr))) ∧
  (cr.(AtProvider).(npo_Status) = NodePoolStateStopping → calls_only (λ _ _, False) (Delete (Some cr))).
Proof.
  split_and!; [by apply nodepool_observe_errors|by apply nodepool_create_errors|by apply nodepool_update_errors
    |by apply nodepool_delete_errors|..]; intros Hst; unfold Create, Update, Delete.
  - rewrite !bool_decide_eq_true_2; [done|by right|done].
  - rewrite bool_decide_eq_true_2; [done|by left].
  - rewrite bool_decide_eq_true_2; done.
Qed.

Lemma nodepool_controller_errors_witness :
  errors_given answers_without_nil (nodepool_fails true) (@Observe reference_libs (Some example_surge)).
Proof. apply (@nodepool_controller_errors reference_libs reference_copy example_surge). by intros c [=]. Defined.

(** ** Names *)

Section names.
Variables (project location cluster pool : string).
Hypotheses (Hproject : no_slash project) (Hlocation : no_slash location) (Hcluster : no_slash cluster) (Hpool : no_slash pool).
Hypotheses (Hproject' : project ≠ "zones") (Hcluster' : cluster ≠ "zones").

(** An element of a path that is not "zones", and the slash before it, stay. *)
Lemma keep_element n a t :
  no_slash a → a ≠ "zones" → (String.length (String "/" (String.append a (String "/" t))) ≤ n)%nat →
  ∃ m, (String.length (String "/" t) ≤ m)%nat ∧
    replace_fuel n (String "/" (String.append a (String "/" t))) "/zones/" "/locations/" =
    String "/" (String.append a (replace_fuel m (String "/" t) "/zones/" "/locations/")).
Proof.
  intros Ha Hne Hn.
  destruct (replace_slash n (String.append a (String "/" t)) "zones/" "/locations/") as (m & Hm & ->);
    [apply (other_element a "zones"); [done|by repeat constructor|done]|done|].
  destruct (replace_element m a (String "/" t) "zones/" "/locations/" Ha Hm) as (m' & Hm' & ->). by exists m'.
Qed.

Lemma keep_cluster n :
  (String.length (String.append "/clusters/" (String.append cluster (String.append "/nodePools/" pool))) ≤ n)%nat →
  replace_fuel n (String.append "/clusters/" (String.append cluster (String.append "/nodePools/" pool))) "/zones/" "/locations/" =
  String.append "/clusters/" (String.append cluster (String.append "/nodePools/" pool)).
Proof using Hcluster Hcluster' Hpool.
  intros Hn. destruct (keep_element n "clusters" (String.append cluster (String.append "/nodePools/" pool)))
    as (m & Hm & H1); [by repeat constructor|done|done|].
  destruct (keep_element m cluster (String.append "nodePools/" pool)) as (m' & Hm' & H2); [done|done|done|].
  destruct (keep_element m' "nodePools" pool) as (k & Hk & H3); [by repeat constructor|done|done|].
  destruct (replace_slash k pool "zones/" "/locations/") as (k' & Hk' & H4);
    [apply (last_element pool "zones"); [done|by repeat constructor]|done|].
  rewrite (replace_no_slash k' pool "zones/" "/locations/" Hpool Hk') in H4.
  change (String.append "/clusters/" ?x) with (String "/" (String.append "clusters" (String "/" x))).
  change (String.append "/nodePools/" pool) with (String "/" (String.append "nodePools" (String "/" pool))) in *.
  rewrite H1. do 2 f_equal.
  change (String.append "nodePools/" pool) with (String.append "nodePools" (String "/" pool)) in *.
  rewrite H2. do 2 f_equal. by rewrite H3, H4.
Qed.

(** The whole name, for either kind of reference. *)
Lemma pool_path_replaced kind n :
  kind = "zones" ∨ kind = "locations" ∧ location ≠ "zones" →
  let tail := String.append "/clusters/" (String.append cluster (String.append "/nodePools/" pool)) in
  let path := String "/" (String.append project (String "/" (String.append kind (String "/" (String.append location tail))))) in
  (String.length path ≤ n)%nat →
  replace_fuel n path "/zones/" "/locations/" =
  String "/" (String.append project (String.append "/locations/" (String.append location tail))).
Proof using Type*.
  intros Hkind tail path Hn. unfold path in *.
  destruct (keep_element n project _ Hproject Hproject' Hn) as (m & Hm & ->). do 2 f_equal.
  destruct Hkind as [->|[-> Hloc]].
  - destruct (replace_here m (String.append location tail) "/zones/" "/locations/") as (k & Hk & H1); [exact Hm|done|].
    change (String "/" (String.append "zones" (String "/" ?x))) with (String.append "/zones/" x). rewrite H1. f_equal.
    destruct (replace_element k location tail "zones/" "/locations/" Hlocation Hk) as (k' & Hk' & ->). f_equal.
    by apply keep_cluster.
  - destruct (keep_element m "locations" _ ltac:(by repeat constructor) ltac:(done) Hm) as (k & Hk & ->).
    destruct (keep_element k location _ Hlocation Hloc Hk) as (k' & Hk' & H1).
    change (String.append "/locations/" ?x) with (String "/" (String.append "locations" (String "/" x))). do 2 f_equal.
    etrans; [exact H1|]. do 2 f_equal. by apply keep_cluster.
Qed.
End names.

(** The name of a pool of a cluster, unless the project, the location or the
    cluster is itself called "zones". *)
Lemma full_pool_name kind project location cluster pool c p
    (Hkind : kind = "zones" ∨ kind = "locations")
    (Hslash : Forall no_slash [project; location; cluster; pool])
    (Hzones : Forall (λ e, e ≠ "zones") [project; location; cluster])
    (Hp : p.(npp_Cluster) = String.append "projects/" (String.append project (String.append "/" (String.append kind
      (String.append "/" (String.append location (String.append "/clusters/" cluster)))))))
    (Hc : c.(cp_Location) = location) :
  GetFullyQualifiedName p pool =
  String.append (Cluster.GetFullyQualifiedName project c cluster) (String.append "/nodePools/" pool).
Proof.
  repeat setoid_rewrite Forall_cons in Hslash. repeat setoid_rewrite Forall_cons in Hzones. destruct Hslash as (Hs1 & Hs2 & Hs3 & Hs4 & _), Hzones as (Hz1 & Hz2 & Hz3 & _).
  unfold GetFullyQualifiedName, ReplaceAll, Cluster.GetFullyQualifiedName. rewrite Hp, Hc, !append_append.
  set (tail := String.append "/clusters/" _).
  set (path := String.append "/" (String.append project (String.append "/" (String.append kind (String.append "/"
    (String.append location tail)))))).
  change (String.append "projects/" (String.append project (String.append "/" ?x)))
    with (String.append "projects" (String.append "/" (String.append project (String.append "/" x)))).
  fold path. set (n := String.length _).
  destruct (replace_element n "projects" path "zones/" "/locations/") as (m & Hm & ->); [by repeat constructor|done|].
  assert (kind = "zones" ∨ kind = "locations" ∧ location ≠ "zones") as Hkind' by (destruct Hkind; tauto).
  exact (f_equal (String.append "projects")
    (pool_path_replaced project location cluster pool Hs1 Hs2 Hs3 Hs4 Hz1 Hz3 kind m Hkind' Hm)).
Qed.
