(* ===== verification/References.v ===== *)
(** * References between resources

    The referencers.go files of apis/: the functions that extract the value of
    a reference from the resource it points at, and ResolveReferences of every
    resource that refers to others. The resolver is crossplane-runtime's: its
    two operations are calls, its conversions of optional strings a class. *)

From S2P Require Import Prelude GoStrings Libs Contract Gcp Nested IamPolicy BucketPolicy.
From S2P Require Import BucketPolicyMember ServiceAccountPolicy CryptoKeyPolicy ServiceAccount ServiceAccountKey Network Subnetwork GlobalAddress.
From S2P Require Import KeyRing CryptoKey CloudSQL Connection ClusterTypes ContainerAPI ClusterGenerate ClusterLate.
From S2P Require Import Cluster NodePool NodePoolController.

(** ** The resolver *)

(** The kind of the resource referred to, and the function that extracts the
    value from it. *)
Inductive Kind := ToNetwork | ToSubnetwork | ToGlobalAddress | ToCluster | ToKeyRing | ToCryptoKey | ToServiceAccount | ToBucket.
Inductive ExtractValueFn :=
| FnNetworkURL | FnSubnetworkURL | FnClusterURL | FnKeyRingRRN | FnCryptoKeyRRN | FnServiceAccountRRN
| FnServiceAccountMemberName | FnExternalName.

Record ResolutionRequest := {
  CurrentValue : string; RequestReference : ptr Reference; RequestSelector : ptr Selector; To : Kind; Extract : ExtractValueFn }.
Record ResolutionResponse := { ResolvedValue : string; ResolvedReference : ptr Reference }.
Record MultiResolutionRequest := {
  CurrentValues : slice string; RequestReferences : slice Reference; MultiSelector : ptr Selector;
  MultiTo : Kind; MultiExtract : ExtractValueFn }.
Record MultiResolutionResponse := { ResolvedValues : slice string; ResolvedReferences : slice Reference }.

Inductive ResolveE : Type → Type :=
| Resolve (req : ResolutionRequest) : ResolveE (ResolutionResponse + error)
| ResolveMultiple (req : MultiResolutionRequest) : ResolveE (MultiResolutionResponse + error).

(** reference.FromPtrValue and reference.ToPtrValue: the empty string stands for
    a nil pointer. *)
Class PtrValues := {
  FromPtrValue : ptr string → string;
  ToPtrValue : string → ptr string;
  FromPtrValue_spec p : FromPtrValue p = default "" p;
  ToPtrValue_spec s : ToPtrValue s = if bool_decide (s = "") then None else Some s
}.

(** ** Extracting values *)

Definition ContainerURIPrefix : string := "https://container.googleapis.com/v1/".

Definition NetworkURL (mg : option Network) : string :=
  match mg with None => "" | Some n => TrimPrefix n.(AtProvider).(no_SelfLink) ComputeURIPrefix end.
Definition SubnetworkURL (mg : option Subnetwork) : string :=
  match mg with None => "" | Some sn => TrimPrefix sn.(AtProvider).(so_SelfLink) ComputeURIPrefix end.
Definition ClusterURL (mg : option Cluster) : string :=
  match mg with None => "" | Some c => TrimPrefix c.(AtProvider).(co_SelfLink) ContainerURIPrefix end.
Definition KeyRingRRN (mg : option KeyRing) : string :=
  match mg with None => "" | Some n => n.(AtProvider).(kro_Name) end.
Definition CryptoKeyRRN (mg : option CryptoKey) : string :=
  match mg with None => "" | Some n => n.(AtProvider).(cko_Name) end.
Definition ServiceAccountRRN (mg : option ServiceAccount.ServiceAccount) : string :=
  match mg with None => "" | Some n => n.(AtProvider).(sao_Name) end.
Definition ServiceAccountMemberName (mg : option ServiceAccount.ServiceAccount) : string :=
  match mg with
  | None => ""
  | Some n =>
    if bool_decide (n.(AtProvider).(sao_Email) = "") then ""
    else String.append "serviceAccount:" n.(AtProvider).(sao_Email)
  end.

(** ** Resolving the references of a resource *)

Section resolve.
Context `{Libs} `{PtrValues}.

(** One reference: the request is made of the spec, the response is stored in
    it, an error is returned with the path of the field. *)
Definition resolve_field {A} (request : A → ResolutionRequest) (path : A → string)
  (store : ResolutionResponse → A → A) (x : A) : prog ResolveE (option error * A) :=
  r ← call (Resolve (request x));
  match r with
  | inr err => mret (errors_Wrap (Some err) (path x), x)
  | inl rsp => mret (None, store rsp x)
  end.
Definition resolve_list {A} (request : A → MultiResolutionRequest) (path : A → string)
  (store : MultiResolutionResponse → A → A) (x : A) : prog ResolveE (option error * A) :=
  r ← call (ResolveMultiple (request x));
  match r with
  | inr err => mret (errors_Wrap (Some err) (path x), x)
  | inl rsp => mret (None, store rsp x)
  end.
(** [if err != nil { return err }], with what was stored before. *)
Definition and_then {A} (f g : A → prog ResolveE (option error * A)) (x : A) : prog ResolveE (option error * A) :=
  '(err, x) ← f x;
  match err with Some _ => mret (err, x) | None => g x end.
(** What changes one part of a resource only; its spec, most of the time. *)
Definition on_part {A B} (get : A → B) (set : B → A → A) (f : B → prog ResolveE (option error * B)) (x : A)
  : prog ResolveE (option error * A) :=
  '(err, y) ← f (get x);
  mret (err, set y x).
Definition on_spec {P O} : (P → prog ResolveE (option error * P)) → Managed P O → prog ResolveE (option error * Managed P O) :=
  on_part ForProvider (λ i mg, {| mg with ForProvider := i |}).

Definition resolve_address_network : GlobalAddressParameters → prog ResolveE (option error * GlobalAddressParameters) :=
  resolve_field
    (λ i, {| CurrentValue := FromPtrValue i.(g_Network); RequestReference := i.(g_NetworkRef);
             RequestSelector := i.(g_NetworkSelector); To := ToNetwork; Extract := FnNetworkURL |})
    (λ _, "spec.forProvider.network")
    (λ rsp i, {| i with g_Network := ToPtrValue rsp.(ResolvedValue); g_NetworkRef := rsp.(ResolvedReference) |}).
Definition GlobalAddress_ResolveReferences : GlobalAddress → prog ResolveE (option error * GlobalAddress) :=
  on_spec resolve_address_network.

Definition resolve_subnetwork_network : SubnetworkParameters → prog ResolveE (option error * SubnetworkParameters) :=
  resolve_field
    (λ i, {| CurrentValue := FromPtrValue i.(s_Network); RequestReference := i.(s_NetworkRef);
             RequestSelector := i.(s_NetworkSelector); To := ToNetwork; Extract := FnNetworkURL |})
    (λ _, "spec.forProvider.network")
    (λ rsp i, {| i with s_Network := ToPtrValue rsp.(ResolvedValue); s_NetworkRef := rsp.(ResolvedReference) |}).
Definition Subnetwork_ResolveReferences : Subnetwork → prog ResolveE (option error * Subnetwork) :=
  on_spec resolve_subnetwork_network.

Definition resolve_private_network : IPConfiguration → prog ResolveE (option error * IPConfiguration) :=
  resolve_field
    (λ i, {| CurrentValue := FromPtrValue i.(ic_PrivateNetwork); RequestReference := i.(ic_PrivateNetworkRef);
             RequestSelector := i.(ic_PrivateNetworkSelector); To := ToNetwork; Extract := FnNetworkURL |})
    (λ _, "spec.forProvider.settings.ipConfiguration.privateNetwork")
    (λ rsp i, {| i with ic_PrivateNetwork := ToPtrValue rsp.(ResolvedValue); ic_PrivateNetworkRef := rsp.(ResolvedReference) |}).
Definition CloudSQLInstance_ResolveReferences (mg : CloudSQLInstance) : prog ResolveE (option error * CloudSQLInstance) :=
  match mg.(ForProvider).(p_Settings).(st_IPConfiguration) with
  | None => mret (None, mg)
  | Some c =>
    '(err, c) ← resolve_private_network c;
    let i := mg.(ForProvider) in
    mret (err, {| mg with ForProvider :=
      {| i with p_Settings := {| i.(p_Settings) with st_IPConfiguration := Some c |} |} |})
  end.

Definition resolve_connection_network : ConnectionParameters → prog ResolveE (option error * ConnectionParameters) :=
  resolve_field
    (λ i, {| CurrentValue := FromPtrValue i.(Connection.cp_Network); RequestReference := i.(Connection.cp_NetworkRef);
             RequestSelector := i.(Connection.cp_NetworkSelector); To := ToNetwork; Extract := FnNetworkURL |})
    (λ _, "spec.forProvider.network")
    (λ rsp i, {| i with Connection.cp_Network := ToPtrValue rsp.(ResolvedValue);
                        Connection.cp_NetworkRef := rsp.(ResolvedReference) |}).
Definition resolve_peering_ranges : ConnectionParameters → prog ResolveE (option error * ConnectionParameters) :=
  resolve_list
    (λ i, {| CurrentValues := i.(cp_ReservedPeeringRanges); RequestReferences := i.(cp_ReservedPeeringRangeRefs);
             MultiSelector := Some i.(cp_ReservedPeeringRangeSelector);
             MultiTo := ToGlobalAddress; MultiExtract := FnExternalName |})
    (λ _, "spec.forProvider.reservedPeeringRanges")
    (λ rsp i, {| i with cp_ReservedPeeringRanges := rsp.(ResolvedValues);
                        cp_ReservedPeeringRangeRefs := rsp.(ResolvedReferences) |}).
Definition Connection_ResolveReferences : Connection.Connection → prog ResolveE (option error * Connection.Connection) :=
  on_spec (and_then resolve_connection_network resolve_peering_ranges).

Definition resolve_cluster_network : ClusterParameters → prog ResolveE (option error * ClusterParameters) :=
  resolve_field
    (λ i, {| CurrentValue := FromPtrValue i.(cp_Network); RequestReference := i.(cp_NetworkRef);
             RequestSelector := i.(cp_NetworkSelector); To := ToNetwork; Extract := FnNetworkURL |})
    (λ _, "spec.forProvider.network")
    (λ rsp i, {| i with cp_Network := ToPtrValue rsp.(ResolvedValue); cp_NetworkRef := rsp.(ResolvedReference) |}).
Definition resolve_cluster_subnetwork : ClusterParameters → prog ResolveE (option error * ClusterParameters) :=
  resolve_field
    (λ i, {| CurrentValue := FromPtrValue i.(cp_Subnetwork); RequestReference := i.(cp_SubnetworkRef);
             RequestSelector := i.(cp_SubnetworkSelector); To := ToSubnetwork; Extract := FnSubnetworkURL |})
    (λ _, "spec.forProvider.subnetwork")
    (λ rsp i, {| i with cp_Subnetwork := ToPtrValue rsp.(ResolvedValue); cp_SubnetworkRef := rsp.(ResolvedReference) |}).
Definition Cluster_ResolveReferences : Cluster → prog ResolveE (option error * Cluster) :=
  on_spec (and_then resolve_cluster_network resolve_cluster_subnetwork).

Definition resolve_pool_cluster : NodePoolParameters → prog ResolveE (option error * NodePoolParameters) :=
  resolve_field
    (λ i, {| CurrentValue := i.(npp_Cluster); RequestReference := i.(npp_ClusterRef);
             RequestSelector := i.(npp_ClusterSelector); To := ToCluster; Extract := FnClusterURL |})
    (λ _, "spec.forProvider.cluster")
    (λ rsp i, {| i with npp_Cluster := rsp.(ResolvedValue); npp_ClusterRef := rsp.(ResolvedReference) |}).
Definition NodePool_ResolveReferences : NodePool → prog ResolveE (option error * NodePool) := on_spec resolve_pool_cluster.

Definition resolve_key_ring : CryptoKeyParameters → prog ResolveE (option error * CryptoKeyParameters) :=
  resolve_field
    (λ i, {| CurrentValue := FromPtrValue i.(ck_KeyRing); RequestReference := i.(ck_KeyRingRef);
             RequestSelector := i.(ck_KeyRingSelector); To := ToKeyRing; Extract := FnKeyRingRRN |})
    (λ _, "spec.forProvider.keyRing")
    (λ rsp i, {| i with ck_KeyRing := ToPtrValue rsp.(ResolvedValue); ck_KeyRingRef := rsp.(ResolvedReference) |}).
Definition CryptoKey_ResolveReferences : CryptoKey → prog ResolveE (option error * CryptoKey) := on_spec resolve_key_ring.

(** The loop over the bindings of a policy, from index [i] on. *)
Definition resolve_members (i : nat) : Binding → prog ResolveE (option error * Binding) :=
  resolve_list
    (λ b, {| CurrentValues := b.(Members); RequestReferences := b.(ServiceAccountMemberRefs);
             MultiSelector := b.(ServiceAccountMemberSelector);
             MultiTo := ToServiceAccount; MultiExtract := FnServiceAccountMemberName |})
    (λ _, String.append "spec.forProvider.Policy.Bindings[" (String.append (pretty i) "].Members"))
    (λ rsp b, {| b with Members := rsp.(ResolvedValues); ServiceAccountMemberRefs := rsp.(ResolvedReferences) |}).
Fixpoint resolve_bindings (i : nat) (bs : list (ptr Binding)) : prog ResolveE (option error * list (ptr Binding)) :=
  match bs with
  | [] => mret (None, [])
  | p :: bs =>
    b ← lift (deref p);
    '(err, b) ← resolve_members i b;
    match err with
    | Some _ => mret (err, Some b :: bs)
    | None =>
      '(err, bs) ← resolve_bindings (S i) bs;
      mret (err, Some b :: bs)
    end
  end.
Definition resolve_policy (p : Policy) : prog ResolveE (option error * Policy) :=
  match p.(Bindings) with
  | None => mret (None, p)
  | Some bs => '(err, bs) ← resolve_bindings 0 bs; mret (err, {| p with Bindings := Some bs |})
  end.

Definition resolve_policy_key : CryptoKeyPolicyParameters → prog ResolveE (option error * CryptoKeyPolicyParameters) :=
  resolve_field
    (λ i, {| CurrentValue := FromPtrValue i.(ckp_CryptoKey); RequestReference := i.(ckp_CryptoKeyRef);
             RequestSelector := i.(ckp_CryptoKeySelector); To := ToCryptoKey; Extract := FnCryptoKeyRRN |})
    (λ _, "spec.forProvider.cryptoKey")
    (λ rsp i, {| i with ckp_CryptoKey := ToPtrValue rsp.(ResolvedValue); ckp_CryptoKeyRef := rsp.(ResolvedReference) |}).
Definition CryptoKeyPolicy_ResolveReferences : CryptoKeyPolicy → prog ResolveE (option error * CryptoKeyPolicy) :=
  on_spec (and_then resolve_policy_key
    (on_part ckp_Policy (λ p i, {| i with ckp_Policy := p |}) resolve_policy)).

Definition resolve_policy_bucket : BucketPolicyParameters → prog ResolveE (option error * BucketPolicyParameters) :=
  resolve_field
    (λ i, {| CurrentValue := FromPtrValue i.(bp_Bucket); RequestReference := i.(bp_BucketRef);
             RequestSelector := i.(bp_BucketSelector); To := ToBucket; Extract := FnExternalName |})
    (λ _, "spec.forProvider.bucket")
    (λ rsp i, {| i with bp_Bucket := ToPtrValue rsp.(ResolvedValue); bp_BucketRef := rsp.(ResolvedReference) |}).
Definition BucketPolicy_ResolveReferences : BucketPolicy → prog ResolveE (option error * BucketPolicy) :=
  on_spec (and_then resolve_policy_bucket
    (on_part bp_Policy (λ p i, {| i with bp_Policy := p |}) resolve_policy)).

Definition resolve_member_bucket : BucketPolicyMemberParameters → prog ResolveE (option error * BucketPolicyMemberParameters) :=
  resolve_field
    (λ i, {| CurrentValue := FromPtrValue i.(bpm_Bucket); RequestReference := i.(bpm_BucketRef);
             RequestSelector := i.(bpm_BucketSelector); To := ToBucket; Extract := FnExternalName |})
    (λ _, "spec.forProvider.bucket")
    (λ rsp i, {| i with bpm_Bucket := ToPtrValue rsp.(ResolvedValue); bpm_BucketRef := rsp.(ResolvedReference) |}).
Definition resolve_member_member : BucketPolicyMemberParameters → prog ResolveE (option error * BucketPolicyMemberParameters) :=
  resolve_field
    (λ i, {| CurrentValue := FromPtrValue i.(bpm_Member); RequestReference := i.(bpm_ServiceAccountMemberRef);
             RequestSelector := i.(bpm_ServiceAccountMemberSelector); To := ToServiceAccount; Extract := FnServiceAccountMemberName |})
    (λ _, "spec.forProvider.member")
    (λ rsp i, {| i with bpm_Member := ToPtrValue rsp.(ResolvedValue); bpm_ServiceAccountMemberRef := rsp.(ResolvedReference) |}).
Definition BucketPolicyMember_ResolveReferences
  : BucketPolicyMember → prog ResolveE (option error * BucketPolicyMember) :=
  on_spec (and_then resolve_member_bucket resolve_member_member).

(** fmt.Sprintf of the struct with the verb v prints its pointers. *)
Variable format_referer : ServiceAccountReferer → string.

Definition resolveReferences : ServiceAccountReferer → prog ResolveE (option error * ServiceAccountReferer) :=
  resolve_field
    (λ sar, {| CurrentValue := FromPtrValue sar.(ServiceAccountPolicy.ServiceAccount); RequestReference := sar.(ServiceAccountRef);
             RequestSelector := sar.(ServiceAccountSelector); To := ToServiceAccount; Extract := FnServiceAccountRRN |})
    (λ sar, String.append "could not resolve ServiceAccount reference: " (format_referer sar))
    (λ rsp sar, {| sar with ServiceAccountPolicy.ServiceAccount := ToPtrValue rsp.(ResolvedValue);
                            ServiceAccountRef := rsp.(ResolvedReference) |}).
Definition ServiceAccountKey_ResolveReferences : ServiceAccountKey → prog ResolveE (option error * ServiceAccountKey) :=
  on_spec (λ i, '(err, i) ← on_part sak_ServiceAccountReferer (λ r i, {| i with sak_ServiceAccountReferer := r |}) resolveReferences i;
    mret (errors_Wrap err "spec.forProvider.serviceAccount", i)).
Definition ServiceAccountPolicy_ResolveReferences
  : ServiceAccountPolicy → prog ResolveE (option error * ServiceAccountPolicy) :=
  on_spec (and_then
    (on_part sap_ServiceAccountReferer (λ r i, {| i with sap_ServiceAccountReferer := r |}) resolveReferences)
    (on_part sap_Policy (λ p i, {| i with sap_Policy := p |}) resolve_policy)).
End resolve.

(** ** What resolution promises *)

Section promises.
Context `{Libs} `{PtrValues} {W : Type} (serve : ∀ X, ResolveE X → W → X * W).

(** What crossplane-runtime documents of its resolver. A value that is set is
    not resolved again, and without reference and selector there is nothing to
    resolve: the response is what the request holds. Otherwise a response has valid
    values unless there is an error. *)
Class Resolver := {
  resolver_cached req w : req.(CurrentValue) ≠ "" →
    serve _ (Resolve req) w = (inl {| ResolvedValue := req.(CurrentValue); ResolvedReference := req.(RequestReference) |}, w);
  resolver_nothing req w : req.(RequestReference) = None → req.(RequestSelector) = None →
    serve _ (Resolve req) w = (inl {| ResolvedValue := req.(CurrentValue); ResolvedReference := None |}, w);
  resolver_valid req w rsp w' : serve _ (Resolve req) w = (inl rsp, w') →
    req.(RequestReference) ≠ None ∨ req.(RequestSelector) ≠ None → rsp.(ResolvedValue) ≠ "";
  multi_cached req w : elems req.(CurrentValues) ≠ [] →
    serve _ (ResolveMultiple req) w =
      (inl {| ResolvedValues := req.(CurrentValues); ResolvedReferences := req.(RequestReferences) |}, w);
  multi_nothing req w : elems req.(RequestReferences) = [] → req.(MultiSelector) = None →
    serve _ (ResolveMultiple req) w =
      (inl {| ResolvedValues := req.(CurrentValues); ResolvedReferences := req.(RequestReferences) |}, w);
  multi_valid req w rsp w' : serve _ (ResolveMultiple req) w = (inl rsp, w') →
    elems req.(RequestReferences) ≠ [] ∨ req.(MultiSelector) ≠ None → elems rsp.(ResolvedValues) ≠ []
}.
Context `{!Resolver}.

(** Resolving [x] changes nothing; once resolved, a resource stays as it is. *)
Definition settled {A} (f : A → prog ResolveE (option error * A)) (x : A) : Prop :=
  ∀ w, run serve (f x) w = Returns ((None, x), w).
Definition settles {A} (f : A → prog ResolveE (option error * A)) : Prop :=
  ∀ x w x' w', run serve (f x) w = Returns ((None, x'), w') → settled f x'.

(** A request that holds a former response gets it again. *)
Lemma resolved_again req req' rsp w w' :
  serve _ (Resolve req) w = (inl rsp, w') →
  req'.(CurrentValue) = rsp.(ResolvedValue) → req'.(RequestReference) = rsp.(ResolvedReference) →
  req'.(RequestSelector) = req.(RequestSelector) →
  ∀ w2, serve _ (Resolve req') w2 = (inl rsp, w2).
Proof using Type*.
  intros Hs Hv Hr Hsel w2. destruct rsp as [v r]; simpl in *.
  destruct (decide (v = "")) as [->|Hne]; [|rewrite resolver_cached by congruence; by rewrite Hv, Hr].
  destruct (decide (req.(RequestReference) = None)) as [Hn1|Hn1];
    [|by destruct (resolver_valid _ _ _ _ Hs (or_introl Hn1))].
  destruct (RequestSelector req) as [sel|] eqn:Hn2.
  { exfalso. apply (resolver_valid _ _ _ _ Hs); [right; congruence|done]. }
  rewrite resolver_nothing in Hs by done. injection Hs as Hv' <- <-.
  rewrite resolver_nothing by congruence. by rewrite Hv.
Qed.
Lemma multi_again req req' rsp w w' :
  serve _ (ResolveMultiple req) w = (inl rsp, w') →
  req'.(CurrentValues) = rsp.(ResolvedValues) → req'.(RequestReferences) = rsp.(ResolvedReferences) →
  req'.(MultiSelector) = req.(MultiSelector) →
  ∀ w2, serve _ (ResolveMultiple req') w2 = (inl rsp, w2).
Proof using Type*.
  intros Hs Hv Hr Hsel w2. destruct rsp as [v r]; simpl in *.
  destruct (decide (elems v = [])) as [Hnil|Hne]; [|rewrite multi_cached by congruence; by rewrite Hv, Hr].
  destruct (decide (elems req.(RequestReferences) = [])) as [Hn1|Hn1];
    [|by destruct (multi_valid _ _ _ _ Hs (or_introl Hn1))].
  destruct (MultiSelector req) as [sel|] eqn:Hn2.
  { exfalso. apply (multi_valid _ _ _ _ Hs); [right; congruence|done]. }
  rewrite multi_nothing in Hs by done. injection Hs as Hv' Hr' <-.
  rewrite multi_nothing by congruence. by rewrite Hv, Hr.
Qed.

Section fields.
Context {A : Type}.

(** A reference that was resolved stays resolved: what was stored is what the
    next request holds. *)
Lemma field_success request path store (x x' : A) w w' :
  run serve (resolve_field request path store x) w = Returns ((None, x'), w') →
  ∃ rsp, serve _ (Resolve (request x)) w = (inl rsp, w') ∧ x' = store rsp x.
Proof using Type.
  unfold resolve_field. cbn. destruct (serve _ _ w) as [[rsp|err] w1] eqn:Hs; cbn.
  - intros [= <- <-]. by exists rsp.
  - by rewrite errors_Wrap_some.
Qed.
Lemma field_settles request path store :
  (∀ rsp (x : A), CurrentValue (request (store rsp x)) = rsp.(ResolvedValue) ∧
     RequestReference (request (store rsp x)) = rsp.(ResolvedReference) ∧
     RequestSelector (request (store rsp x)) = RequestSelector (request x) ∧ store rsp (store rsp x) = store rsp x) →
  settles (resolve_field request path store).
Proof using Type*.
  intros Hlaws x w x' w' (rsp & Hs & ->)%field_success w2.
  destruct (Hlaws rsp x) as (Hv & Hr & Hsel & Hst). unfold resolve_field. cbn.
  rewrite (resolved_again _ _ _ _ _ Hs Hv Hr Hsel). cbn. by rewrite Hst.
Qed.
Lemma list_settles request path store :
  (∀ rsp (x : A), CurrentValues (request (store rsp x)) = rsp.(ResolvedValues) ∧
     RequestReferences (request (store rsp x)) = rsp.(ResolvedReferences) ∧
     MultiSelector (request (store rsp x)) = MultiSelector (request x) ∧ store rsp (store rsp x) = store rsp x) →
  settles (resolve_list request path store).
Proof using Type*.
  intros Hlaws x w x' w'. unfold resolve_list. cbn. destruct (serve _ _ w) as [[rsp|err] w1] eqn:Hs; cbn;
    [|by rewrite errors_Wrap_some]. intros [= <- <-] w2.
  destruct (Hlaws rsp x) as (Hv & Hr & Hsel & Hst). cbn.
  rewrite (multi_again _ _ _ _ _ Hs Hv Hr Hsel). cbn. by rewrite Hst.
Qed.

(** It also stays resolved when another part of the resource changes. *)
Lemma field_keeps request path store (upd : A → A) :
  (∀ x, request (upd x) = request x) → (∀ rsp x, store rsp (upd x) = upd (store rsp x)) →
  ∀ x, settled (resolve_field request path store) x → settled (resolve_field request path store) (upd x).
Proof using Type*.
  intros Hreq Hstore x Hx w. destruct (field_success _ _ _ _ _ _ _ (Hx w)) as (rsp & Hs & Heq).
  unfold resolve_field. cbn. rewrite Hreq, Hs. cbn. by rewrite Hstore, <-Heq.
Qed.
Lemma part_keeps {B} (get : A → B) set f (upd : A → A) :
  (∀ x, get (upd x) = get x) → (∀ y x, set y (upd x) = upd (set y x)) →
  ∀ x, settled (on_part get set f) x → settled (on_part get set f) (upd x).
Proof using Type*.
  intros Hget Hset x Hx w. specialize (Hx w). unfold on_part in *. rewrite run_bind in *. rewrite Hget.
  destruct (run serve (f (get x)) w) as [[[err y] w1]|]; [|done]. cbn in *. injection Hx as -> Hx <-.
  by rewrite Hset, Hx.
Qed.

Lemma part_settles {B} (get : A → B) set f :
  (∀ y x, get (set y x) = y) → (∀ y y' x, set y (set y' x) = set y x) → settles f → settles (on_part get set f).
Proof using Type*.
  intros Hget Hset Hf x w x' w' Hrun w2. unfold on_part in *. rewrite run_bind in *.
  destruct (run serve (f (get x)) w) as [[[err y] w1]|] eqn:Hr; [|done]. cbn in Hrun. injection Hrun as -> <- <-.
  rewrite Hget, (Hf _ _ _ _ Hr w2). cbn. by rewrite Hset.
Qed.
(** One after the other, when the second leaves the first resolved. *)
Lemma then_settles (f g : A → prog ResolveE (option error * A)) :
  settles f → settles g →
  (∀ x w x' w', settled f x → run serve (g x) w = Returns ((None, x'), w') → settled f x') → settles (and_then f g).
Proof using Type*.
  intros Hf Hg Hkeep x w x' w' Hrun w2. unfold and_then in *. rewrite run_bind in *.
  destruct (run serve (f x) w) as [[[[err|] y] w1]|] eqn:Hr; [done| |done]. cbn in Hrun.
  assert (settled f x') as Hfx by (eapply Hkeep; [by eapply Hf|done]).
  rewrite (Hfx w2). cbn. by eapply Hg.
Qed.
Lemma list_success request path store (x x' : A) w w' :
  run serve (resolve_list request path store x) w = Returns ((None, x'), w') → ∃ rsp, x' = store rsp x.
Proof using Type.
  unfold resolve_list. cbn. destruct (serve _ _ w) as [[rsp|err] w1]; cbn; [|by rewrite errors_Wrap_some].
  intros [= <- <-]. by exists rsp.
Qed.
Lemma part_success {B} (get : A → B) set f (x x' : A) w w' :
  run serve (on_part get set f x) w = Returns ((None, x'), w') → ∃ y, x' = set y x.
Proof using Type.
  unfold on_part. rewrite run_bind. destruct (run serve (f (get x)) w) as [[[err y] w1]|]; [|done].
  cbn. intros [= _ <- _]. by exists y.
Qed.
End fields.

Lemma ptr_roundtrip v : FromPtrValue (ToPtrValue v) = v.
Proof using Type. rewrite FromPtrValue_spec, ToPtrValue_spec. by case_bool_decide. Qed.
Lemma spec_settles {P O} (f : P → prog ResolveE (option error * P)) : settles f → settles (on_spec (O := O) f).
Proof using Type*. by apply part_settles. Qed.

(** The bindings of a policy. *)
Lemma members_settle i : settles (resolve_members i).
Proof using Type*. by apply list_settles. Qed.
Lemma bindings_settle i : settles (resolve_bindings i).
Proof using Type*.
  intros bs. revert i. induction bs as [|[b|] bs IH]; intros i w bs' w' Hrun w2; [..|done].
  { simpl in Hrun. injection Hrun as <- <-. done. }
  change (run serve (resolve_members i b ≫= λ '(err, b), match err with Some _ => mret (err, Some b :: bs)
    | None => '(err, bs) ← resolve_bindings (S i) bs; mret (err, Some b :: bs) end) w = Returns ((None, bs'), w')) in Hrun.
  rewrite run_bind in Hrun.
  destruct (run serve (resolve_members i b) w) as [[[[err|] b1] w1]|] eqn:Hb; [done| |done]. cbn in Hrun.
  rewrite run_bind in Hrun.
  destruct (run serve (resolve_bindings (S i) bs) w1) as [[[err bs1] w3]|] eqn:Hbs; [|done]. cbn in Hrun.
  injection Hrun as -> <- <-.
  change (run serve (resolve_members i b1 ≫= λ '(err, b), match err with Some _ => mret (err, Some b :: bs1)
    | None => '(err, bs) ← resolve_bindings (S i) bs1; mret (err, Some b :: bs) end) w2 = Returns ((None, Some b1 :: bs1), w2)).
  rewrite run_bind, (members_settle i _ _ _ _ Hb w2). cbn.
  rewrite run_bind, (IH _ _ _ _ Hbs w2). done.
Qed.
Lemma policy_settles : settles resolve_policy.
Proof using Type*.
  intros p w p' w' Hrun w2. unfold resolve_policy in Hrun. destruct (Bindings p) as [bs|] eqn:Hbs.
  - rewrite run_bind in Hrun. destruct (run serve (resolve_bindings 0 bs) w) as [[[err bs1] w1]|] eqn:Hr; [|done].
    cbn in Hrun. injection Hrun as -> <- <-. unfold resolve_policy. cbn [Bindings].
    rewrite run_bind, (bindings_settle _ _ _ _ _ Hr w2). done.
  - cbn in Hrun. injection Hrun as <- <-. unfold resolve_policy. by rewrite Hbs.
Qed.

Ltac settle_field := apply field_settles; intros ??; split_and!; [first [done | apply ptr_roundtrip]|done..].
Ltac settle_then :=
  intros ???? Hf Hg; first
    [ apply field_success in Hg as (rsp & _ & ->); revert Hf
    | apply list_success in Hg as [rsp ->]; revert Hf
    | apply part_success in Hg as [rsp ->]; revert Hf ].

Lemma address_settles : settles GlobalAddress_ResolveReferences.
Proof using Type*. apply spec_settles. settle_field. Qed.
Lemma subnetwork_settles : settles Subnetwork_ResolveReferences.
Proof using Type*. apply spec_settles. settle_field. Qed.
Lemma private_network_settles : settles resolve_private_network.
Proof using Type*. settle_field. Qed.
Lemma cloudsql_settles : settles CloudSQLInstance_ResolveReferences.
Proof using Type*.
  intros x w x' w' Hrun w2. unfold CloudSQLInstance_ResolveReferences in Hrun.
  destruct (st_IPConfiguration _) as [c|] eqn:Hc.
  - rewrite run_bind in Hrun. destruct (run serve (resolve_private_network c) w) as [[[err c1] w1]|] eqn:Hr; [|done].
    cbn in Hrun. injection Hrun as -> <- <-. unfold CloudSQLInstance_ResolveReferences.
    cbn [ForProvider p_Settings st_IPConfiguration]. by rewrite run_bind, (private_network_settles _ _ _ _ Hr w2).
  - cbn in Hrun. injection Hrun as <- <-. unfold CloudSQLInstance_ResolveReferences. by rewrite Hc.
Qed.
Lemma connection_settles : settles Connection_ResolveReferences.
Proof using Type*.
  apply spec_settles, then_settles; [settle_field|by apply list_settles|]. settle_then.
  by apply (field_keeps _ _ _ (λ i, {| i with cp_ReservedPeeringRanges := _; cp_ReservedPeeringRangeRefs := _ |})).
Qed.
Lemma cluster_settles : settles Cluster_ResolveReferences.
Proof using Type*.
  apply spec_settles, then_settles; [settle_field|settle_field|]. settle_then.
  by apply (field_keeps _ _ _ (λ i, {| i with cp_Subnetwork := _; cp_SubnetworkRef := _ |})).
Qed.
Lemma pool_settles : settles NodePool_ResolveReferences.
Proof using Type*. apply spec_settles. settle_field. Qed.
Lemma key_settles : settles CryptoKey_ResolveReferences.
Proof using Type*. apply spec_settles. settle_field. Qed.
Lemma key_policy_settles : settles CryptoKeyPolicy_ResolveReferences.
Proof using Type*.
  apply spec_settles, then_settles; [settle_field|apply part_settles; [done|done|apply policy_settles]|]. settle_then.
  by apply (field_keeps _ _ _ (λ i, {| i with ckp_Policy := _ |})).
Qed.
Lemma bucket_policy_settles : settles BucketPolicy_ResolveReferences.
Proof using Type*.
  apply spec_settles, then_settles; [settle_field|apply part_settles; [done|done|apply policy_settles]|]. settle_then.
  by apply (field_keeps _ _ _ (λ i, {| i with bp_Policy := _ |})).
Qed.
Lemma bucket_member_settles : settles BucketPolicyMember_ResolveReferences.
Proof using Type*.
  apply spec_settles, then_settles; [settle_field|settle_field|]. settle_then.
  by apply (field_keeps _ _ _ (λ i, {| i with bpm_Member := _; bpm_ServiceAccountMemberRef := _ |})).
Qed.

Variable format_referer : ServiceAccountReferer → string.
Lemma referer_settles : settles (resolveReferences format_referer).
Proof using Type*. settle_field. Qed.
Lemma account_key_settles : settles (ServiceAccountKey_ResolveReferences format_referer).
Proof using Type*.
  apply spec_settles. intros x w x' w' Hrun w2. rewrite run_bind in Hrun.
  destruct (run serve (on_part _ _ _ x) w) as [[[err x1] w1]|] eqn:Hr; [|done]. cbn in Hrun.
  destruct err as [err|]; [by rewrite errors_Wrap_some in Hrun|]. rewrite errors_Wrap_nil in Hrun. injection Hrun as <- <-.
  rewrite run_bind. erewrite (part_settles _ _ _ _ _ referer_settles _ _ _ _ Hr w2). cbn. by rewrite errors_Wrap_nil.
  Unshelve. all: done.
Qed.
Lemma account_policy_settles : settles (ServiceAccountPolicy_ResolveReferences format_referer).
Proof using Type*.
  apply spec_settles, then_settles;
    [apply part_settles; [done|done|apply referer_settles]|apply part_settles; [done|done|apply policy_settles]|].
  settle_then. by apply (part_keeps _ _ _ (λ i, {| i with sap_Policy := _ |})).
Qed.
End promises.

(** C9: resolving references settles. Once ResolveReferences of a resource has
    returned without error, calling it again, whatever has happened to the
    resources it refers to, makes no change and no error: for each of the twelve kinds of
    resources that refer to others, against any resolver that keeps to its
    documentation. *)
Theorem references_settle `{Libs} `{PtrValues} {W : Type} (serve : ∀ X, ResolveE X → W → X * W) `{!Resolver serve} format :
  settles serve GlobalAddress_ResolveReferences ∧ settles serve Subnetwork_ResolveReferences ∧
  settles serve CloudSQLInstance_ResolveReferences ∧ settles serve Connection_ResolveReferences ∧
  settles serve Cluster_ResolveReferences ∧ settles serve NodePool_ResolveReferences ∧
  settles serve CryptoKey_ResolveReferences ∧ settles serve CryptoKeyPolicy_ResolveReferences ∧
  settles serve BucketPolicy_ResolveReferences ∧ settles serve BucketPolicyMember_ResolveReferences ∧
  settles serve (ServiceAccountKey_ResolveReferences format) ∧ settles serve (ServiceAccountPolicy_ResolveReferences format).
Proof.
  split_and!; [by apply address_settles|by apply subnetwork_settles|by apply cloudsql_settles|by apply connection_settles
    |by apply cluster_settles|by apply pool_settles|by apply key_settles|by apply key_policy_settles
    |by apply bucket_policy_settles|by apply bucket_member_settles|by apply account_key_settles|by apply account_policy_settles].
Qed.

(** A resolver for which every reference points at the one resource there is,
    whose value is the state; the value may change between calls. *)
Definition memory_resolver (X : Type) (e : ResolveE X) : string → X * string :=
  match e with
  | Resolve req => λ w,
    if bool_decide (req.(CurrentValue) ≠ "" ∨ req.(RequestReference) = None ∧ req.(RequestSelector) = None)
    then (inl {| ResolvedValue := req.(CurrentValue); ResolvedReference := req.(RequestReference) |}, w)
    else if bool_decide (w = "") then (inr (FundamentalError "referenced field was empty"), w)
    else (inl {| ResolvedValue := w; ResolvedReference := Some {| refName := "it" |} |}, w)
  | ResolveMultiple req => λ w,
    if bool_decide (elems req.(CurrentValues) ≠ [] ∨ elems req.(RequestReferences) = [] ∧ req.(MultiSelector) = None)
    then (inl {| ResolvedValues := req.(CurrentValues); ResolvedReferences := req.(RequestReferences) |}, w)
    else (inl {| ResolvedValues := Some [w]; ResolvedReferences := Some [{| refName := "it" |}] |}, w)
  end.
#[global] Instance memory_resolver_ok : Resolver memory_resolver.
Proof.
  split; simpl; intros.
  - by rewrite bool_decide_eq_true_2 by (by left).
  - rewrite bool_decide_eq_true_2 by (by right). by f_equal; f_equal; f_equal.
  - repeat case_bool_decide; simplify_eq/=; naive_solver.
  - by rewrite bool_decide_eq_true_2 by (by left).
  - by rewrite bool_decide_eq_true_2 by (by right).
  - repeat case_bool_decide; simplify_eq/=; naive_solver.
Qed.
#[global] Instance reference_values : PtrValues := {|
  FromPtrValue := default ""; ToPtrValue s := if bool_decide (s = "") then None else Some s;
  FromPtrValue_spec p := eq_refl; ToPtrValue_spec s := eq_refl |}.

Definition example_pool_resource : NodePool := fresh "pool"
  (adopting "" (Some {| refName := "it" |}) None) (GenerateObservation zero_apiNodePool).

Lemma references_settle_witness :
  let _ := reference_libs in
  ∃ x', run memory_resolver (NodePool_ResolveReferences example_pool_resource) "projects/p/zones/z/clusters/c" =
      Returns ((None, x'), "projects/p/zones/z/clusters/c") ∧
    settled memory_resolver NodePool_ResolveReferences x'.
Proof.
  intros libs. eexists. split; [reflexivity|].
  destruct (@references_settle libs reference_values _ memory_resolver _ (λ _, "")) as (_ & _ & _ & _ & _ & Hpool & _).
  eapply (Hpool example_pool_resource "projects/p/zones/z/clusters/c"). reflexivity.
Defined.

(** C22: a node pool that refers to a cluster is addressed below it. When the
    self link of the cluster is one of the container API, zonal or regional, and the
    pool's cluster is what ClusterURL extracts from it, the pool is addressed as the
    cluster's own name, "/nodePools/" and the name of the pool, always in the
    locations API. Names have no slashes and none but the pool's is "zones". *)
Theorem nodepool_addressed_below_cluster (c : Cluster) kind project location name p pool
    (Hkind : kind = "zones" ∨ kind = "locations")
    (Hslash : Forall no_slash [project; location; name; pool])
    (Hzones : Forall (λ e, e ≠ "zones") [project; location; name])
    (Hlink : c.(AtProvider).(co_SelfLink) = String.append ContainerURIPrefix (String.append "projects/"
       (String.append project (String.append "/" (String.append kind (String.append "/" (String.append location
       (String.append "/clusters/" name))))))))
    (Hlocation : c.(ForProvider).(cp_Location) = location)
    (Hp : p.(npp_Cluster) = ClusterURL (Some c)) :
  NodePool.GetFullyQualifiedName p pool =
  String.append (Cluster.GetFullyQualifiedName project c.(ForProvider) name) (String.append "/nodePools/" pool).
Proof.
  unfold ClusterURL in Hp. rewrite Hlink, TrimPrefix_app in Hp. by eapply full_pool_name.
Qed.

Lemma nodepool_addressed_below_cluster_witness :
  let c : Cluster := fresh "c" {| empty_parameters with cp_Location := "us-east1-b" |} (ClusterGenerate.GenerateObservation
    {| zero_apiCluster with acl_SelfLink := "https://container.googleapis.com/v1/projects/p/zones/us-east1-b/clusters/c" |}) in
  NodePool.GetFullyQualifiedName (adopting (ClusterURL (Some c)) None None) "np" =
  "projects/p/locations/us-east1-b/clusters/c/nodePools/np".
Proof.
  intros c. apply (nodepool_addressed_below_cluster c "zones" "p" "us-east1-b" "c" _ "np");
    [by left|by repeat constructor|by repeat constructor|done|done|done].
Defined.
