(* ===== verification/Connect.v ===== *)
(** * Connecting to the APIs

    The Connect method of every controller under pkg/controller: the credentials
    of the resource's provider, then a client of the Google API. The clients are
    made by Google's libraries: making one is a call, what it returns is of an
    arbitrary type [Service]. *)

From S2P Require Import Prelude Libs Contract Gcp KeyRing ServiceAccount.

Inductive API := Compute | SQLAdmin | Redis | PubSub | KMS | Storage | StorageClient | ServiceNetworking | IAM | Container.

Section connect.
Context `{Libs} {Service : Type}.

Inductive ConnectE : Type → Type :=
| Authenticate {X : Type} (e : AuthE X) : ConnectE X
| NewService (api : API) (opts : ptr ClientOption) : ConnectE (Service + error).

(** The calls of authentication, as part of connecting. *)
Fixpoint authenticate {A} (p : prog AuthE A) : prog ConnectE A :=
  match p with
  | Done a => Done a
  | Crash => Crash
  | Call e k => Call (Authenticate e) (λ r, authenticate (k r))
  end.

(** What Connect returns: an external client, or nil, and an error. Of the
    client the API clients and the names it is made of are kept; the client of
    the API server, which they all have, is not. *)
Record ProjectExternal := { pe_service : Service; pe_projectID : string }.
Record ServiceExternal := { se_service : Service }.
Record KeyRingExternal := { ke_keyrings : Service; ke_rrn : RelativeResourceNamerKeyRing }.
Record ServiceAccountExternal := { sae_serviceAccounts : Service; sae_rrn : RelativeResourceNamer }.
Record ConnectionExternal := { ce_sn : ptr Service; ce_compute : Service; ce_projectID : string }.

Context {P O : Type}.
Implicit Types mg : Managed P O.

(** The controllers that keep the project. *)
Definition connect_project (api : API) (errNewClient : string) mg : prog ConnectE (option error * ptr ProjectExternal) :=
  '(projectID, opts, err) ← authenticate (GetAuthInfo mg);
  match err with
  | Some err => mret (Some err, None)
  | None =>
    s ← call (NewService api opts);
    match s with
    | inr err => mret (errors_Wrap (Some err) errNewClient, None)
    | inl s => mret (None, Some {| pe_service := s; pe_projectID := projectID |})
    end
  end.
(** The controllers that do not: their resources carry full names. *)
Definition connect_service (api : API) (errNewClient : string) mg : prog ConnectE (option error * ptr ServiceExternal) :=
  '(_, opts, err) ← authenticate (GetAuthInfo mg);
  match err with
  | Some err => mret (Some err, None)
  | None =>
    s ← call (NewService api opts);
    match s with
    | inr err => mret (errors_Wrap (Some err) errNewClient, None)
    | inl s => mret (None, Some {| se_service := s |})
    end
  end.

Definition errNewCompute : string := "cannot create new Compute Service".
Definition errNewKMS : string := "cannot create new GCP KMS API client".
Definition errNewStorage : string := "cannot create new GCP storage client".
Definition errNewIAM : string := "cannot create new GCP IAM API client".
Definition errNewContainer : string := "cannot create new GKE container client".

Definition network_Connect := connect_project Compute errNewCompute.
Definition subnetwork_Connect := connect_project Compute errNewCompute.
Definition ga_Connect := connect_project Compute errNewCompute.
Definition cloudsql_Connect := connect_project SQLAdmin "cannot create new Sqladmin Service".
Definition redis_Connect := connect_project Redis "cannot create new CloudMemorystore client".
Definition topic_Connect := connect_project PubSub "cannot create client".
Definition cluster_Connect := connect_project Container errNewContainer.
Definition nodePool_Connect := connect_project Container errNewContainer.

Definition cryptoKey_Connect := connect_service KMS errNewKMS.
Definition cryptoKeyPolicy_Connect := connect_service KMS errNewKMS.
Definition bucketPolicy_Connect := connect_service Storage errNewStorage.
Definition bucketPolicyMember_Connect := connect_service Storage errNewStorage.
Definition serviceAccountPolicy_Connect := connect_service IAM errNewIAM.
Definition serviceAccountKey_Connect := connect_service IAM errNewIAM.

(** The client library of Cloud Storage; its error is returned as it is. *)
Definition bucket_Connect mg : prog ConnectE (option error * ptr ProjectExternal) :=
  '(projectID, opts, err) ← authenticate (GetAuthInfo mg);
  match err with
  | Some err => mret (Some err, None)
  | None =>
    s ← call (NewService StorageClient opts);
    match s with
    | inr err => mret (Some err, None)
    | inl s => mret (None, Some {| pe_service := s; pe_projectID := projectID |})
    end
  end.

Definition serviceAccount_Connect mg : prog ConnectE (option error * ptr ServiceAccountExternal) :=
  '(projectID, opts, err) ← authenticate (GetAuthInfo mg);
  match err with
  | Some err => mret (Some err, None)
  | None =>
    s ← call (NewService IAM opts);
    match s with
    | inr err => mret (errors_Wrap (Some err) errNewIAM, None)
    | inl s => mret (None, Some {| sae_serviceAccounts := s; sae_rrn := NewRelativeResourceNamer projectID |})
    end
  end.

(** Two clients. When only the second cannot be made, a client without it is
    returned along with the error. *)
Definition connection_Connect mg : prog ConnectE (option error * ptr ConnectionExternal) :=
  '(projectID, opts, err) ← authenticate (GetAuthInfo mg);
  match err with
  | Some err => mret (Some err, None)
  | None =>
    cmp ← call (NewService Compute opts);
    match cmp with
    | inr err => mret (errors_Wrap (Some err) errNewCompute, None)
    | inl cmp =>
      sn ← call (NewService ServiceNetworking opts);
      let err := match sn with inl _ => None | inr err => Some err end in
      let sn := match sn with inl s => Some s | inr _ => None end in
      mret (errors_Wrap err errNewCompute,
            Some {| ce_sn := sn; ce_compute := cmp; ce_projectID := projectID |})
    end
  end.

Definition keyRing_Connect (mg : option KeyRing) : prog ConnectE (option error * ptr KeyRingExternal) :=
  match mg with
  | None => mret (errors_New errNotKeyRing, None)
  | Some cr =>
    '(projectID, opts, err) ← authenticate (GetAuthInfo cr);
    match err with
    | Some err => mret (Some err, None)
    | None =>
      s ← call (NewService KMS opts);
      match s with
      | inr err => mret (errors_Wrap (Some err) errNewKMS, None)
      | inl s =>
        let rrn := NewRelativeResourceNamerKeyRing projectID cr.(ForProvider).(kr_Location) in
        mret (None, Some {| ke_keyrings := s; ke_rrn := rrn |})
      end
    end
  end.
End connect.
Arguments ConnectE : clear implicits.

(** ** What connecting promises *)

Definition auth_fails (X : Type) (e : AuthE X) : X → bool :=
  match e with
  | TrackUsage => write_fails no_excuse
  | GetProviderConfig _ | CommonCredentialExtractor _ | GetProvider _ | GetSecret _ _ => read_fails no_excuse
  end.
Definition connect_fails {Service : Type} (X : Type) (e : ConnectE Service X) : X → bool :=
  match e with
  | Authenticate e => auth_fails _ e
  | NewService _ _ => read_fails no_excuse
  end.
(** No client is made without the option that carries the credentials. *)
Definition with_credentials {Service : Type} (X : Type) (e : ConnectE Service X) : Prop :=
  match e with
  | Authenticate _ => True
  | NewService _ opts => opts ≠ None
  end.

Definition names_provider {P O} (mg : Managed P O) : Prop :=
  mg.(ProviderConfigReference) ≠ None ∨ mg.(ProviderReference) ≠ None.

Record connects {Service X P O : Type} (mg : Managed P O) (p : prog (ConnectE Service) (option error * ptr X)) : Prop := {
  connects_errors : names_provider mg → errors_iff connect_fails p;
  connects_unnamed : ¬ names_provider mg → ∃ err, p = Done (Some err, None);
  connects_safely : calls_only with_credentials p
}.

Section promises.
Context `{Libs} {Service X P O : Type}.
Implicit Types mg : Managed P O.

(** A handler that authenticates and goes on as [k] makes good on its promises
    when [k] does, given an option or an error. *)
Lemma authenticated mg (k : AuthInfo → prog (ConnectE Service) (option error * ptr X)) :
  (∀ project err, k (project, None, Some err) = Done (Some err, None)) →
  (∀ project opts, errors_from (λ _ _ _, True) connect_fails false (k (project, Some opts, None)) ∧
     calls_only with_credentials (k (project, Some opts, None))) →
  connects mg (authenticate (GetAuthInfo mg) ≫= k).
Proof using Type*.
  intros Herr Hok. split.
  - unfold names_provider, errors_iff, errors_given, GetAuthInfo, UseProviderConfig, UseProvider. intros Hmg.
    destruct (ProviderConfigReference mg), (ProviderReference mg); simpl; [..|naive_solver].
    1,2: intros [err|] _; simpl; [rewrite Herr; simpl; walk_done|]; intros [spec|err] _; simpl; [|rewrite Herr; simpl; walk_done];
      intros [data|err] _; simpl; [apply Hok|rewrite errors_Wrap_some, Herr; simpl; walk_done].
    intros [spec|err] _; simpl; [|rewrite Herr; simpl; walk_done]; intros [data|err] _; simpl; [apply Hok|rewrite Herr; simpl; walk_done].
  - unfold names_provider, GetAuthInfo. intros Hmg.
    destruct (ProviderConfigReference mg), (ProviderReference mg); [naive_solver..|]. simpl. unfold errors_New. rewrite Herr. by eexists.
  - unfold GetAuthInfo, UseProviderConfig, UseProvider.
    destruct (ProviderConfigReference mg), (ProviderReference mg); simpl; [..|unfold errors_New; by rewrite Herr].
    1,2: split; [done|]; intros [err|]; simpl; [by rewrite Herr|]; split; [done|]; intros [spec|err]; simpl; [|by rewrite Herr];
      split; [done|]; intros [data|err]; simpl; [apply Hok|by rewrite errors_Wrap_some, Herr].
    split; [done|]; intros [spec|err]; simpl; [|by rewrite Herr]; split; [done|]; intros [data|err]; simpl; [apply Hok|by rewrite Herr].
Qed.
(** A client comes exactly when there is no error. *)
Lemma authenticated_client mg (k : AuthInfo → prog (ConnectE Service) (option error * ptr X)) :
  (∀ project err, k (project, None, Some err) = Done (Some err, None)) →
  (∀ project opts, always (λ '(err, c), err = None ↔ c ≠ None) (k (project, Some opts, None))) →
  always (λ '(err, c), err = None ↔ c ≠ None) (authenticate (GetAuthInfo mg) ≫= k).
Proof using Type*.
  intros Herr Hok. unfold GetAuthInfo, UseProviderConfig, UseProvider.
  destruct (ProviderConfigReference mg), (ProviderReference mg); simpl; [..|unfold errors_New; by rewrite Herr].
  1,2: intros [err|]; simpl; [by rewrite Herr|]; intros [spec|err]; simpl; [|by rewrite Herr];
    intros [data|err]; simpl; [apply Hok|by rewrite errors_Wrap_some, Herr].
  intros [spec|err]; simpl; [|by rewrite Herr]; intros [data|err]; simpl; [apply Hok|by rewrite Herr].
Qed.
End promises.

Ltac connect_walk := intros; cbn; first [done | split; [intros [s|err] _; simpl; walk_done | split; [done|]; by intros [s|err]]].

Section handlers.
Context `{Libs} {Service P O : Type}.
Implicit Types mg : Managed P O.

Lemma connect_project_connects api msg mg : connects mg (connect_project (Service := Service) api msg mg).
Proof using Type. apply authenticated; connect_walk. Qed.
Lemma connect_project_client api msg mg :
  always (λ '(err, c), err = None ↔ c ≠ None) (connect_project (Service := Service) api msg mg).
Proof using Type.
  apply authenticated_client; [done|]. intros project opts. cbn. intros [s|err]; cbn; [done|]. by rewrite errors_Wrap_some.
Qed.
Lemma connect_service_connects api msg mg : connects mg (connect_service (Service := Service) api msg mg).
Proof using Type. apply authenticated; connect_walk. Qed.
Lemma connect_service_client api msg mg :
  always (λ '(err, c), err = None ↔ c ≠ None) (connect_service (Service := Service) api msg mg).
Proof using Type.
  apply authenticated_client; [done|]. intros project opts. cbn. intros [s|err]; cbn; [done|]. by rewrite errors_Wrap_some.
Qed.
End handlers.

(** C34: every controller connects or reports why it did not. When the resource
    names its provider, Connect returns an error exactly when reading the
    credentials or making a client of the API failed; when it names none, Connect
    returns an error without a call. No client is made without credentials. Apart from
    the Connection controller, an external client is returned exactly when there is no
    error. *)
Theorem connect_or_error `{Libs} {Service P O : Type} (mg : Managed P O) (kr : KeyRing) :
  Forall (λ f : Managed P O → prog (ConnectE Service) (option error * ptr ProjectExternal),
      connects mg (f mg) ∧ always (λ '(err, c), err = None ↔ c ≠ None) (f mg))
    [network_Connect; subnetwork_Connect; ga_Connect; cloudsql_Connect; redis_Connect; topic_Connect; cluster_Connect;
     nodePool_Connect; bucket_Connect] ∧
  Forall (λ f : Managed P O → prog (ConnectE Service) (option error * ptr ServiceExternal),
      connects mg (f mg) ∧ always (λ '(err, c), err = None ↔ c ≠ None) (f mg))
    [cryptoKey_Connect; cryptoKeyPolicy_Connect; bucketPolicy_Connect; bucketPolicyMember_Connect;
     serviceAccountPolicy_Connect; serviceAccountKey_Connect] ∧
  (connects mg (serviceAccount_Connect (Service := Service) mg) ∧
   always (λ '(err, c), err = None ↔ c ≠ None) (serviceAccount_Connect (Service := Service) mg)) ∧
  (connects kr (keyRing_Connect (Service := Service) (Some kr)) ∧
   always (λ '(err, c), err = None ↔ c ≠ None) (keyRing_Connect (Service := Service) (Some kr))) ∧
  connects mg (connection_Connect (Service := Service) mg).
Proof.
  split_and!.
  - repeat (apply Forall_cons_2; [split; first [apply connect_project_connects|apply connect_project_client]|]).
    apply Forall_cons_2; [split|apply Forall_nil_2].
    + apply authenticated; connect_walk.
    + apply authenticated_client; [done|]. intros project opts. cbn. by intros [s|err].
  - repeat (apply Forall_cons_2; [split; first [apply connect_service_connects|apply connect_service_client]|]).
    apply Forall_nil_2.
  - apply authenticated; connect_walk.
  - apply authenticated_client; [done|]. intros project opts. cbn. intros [s|err]; cbn; [done|]. by rewrite errors_Wrap_some.
  - apply authenticated; connect_walk.
  - apply authenticated_client; [done|]. intros project opts. cbn. intros [s|err]; cbn; [done|]. by rewrite errors_Wrap_some.
  - apply authenticated; [done|]. intros project opts. cbn. split.
    + intros [cmp|err] _; simpl; [|walk_done]. intros [sn|err] _; simpl; walk_done.
    + split; [done|]. intros [cmp|err]; simpl; [|done]. split; [done|]. by intros [sn|err].
Qed.

(** A key ring without a provider: nothing is called. *)
Definition example_keyring : KeyRing := {|
  ExternalName := "ring"; WasDeleted := false; ProviderConfigReference := None; ProviderReference := None;
  ForProvider := {| kr_Location := "us" |}; AtProvider := {| kro_CreateTime := ""; kro_Name := "" |}; Conditions := [] |}.
Lemma connect_or_error_witness :
  ∃ err, @keyRing_Connect reference_libs unit (Some example_keyring) = Done (Some err, None).
Proof.
  destruct (@connect_or_error reference_libs unit _ _ example_keyring example_keyring) as (_ & _ & _ & [Hk _] & _).
  apply (connects_unnamed _ _ Hk). by intros [[]|[]].
Defined.
