(* ===== verification/GoMemory.v ===== *)
(** * Memory, and copying out of it

    Apart from this file and the ones on DeepCopy, a Go value is modelled as the
    tree of what can be reached from it. That is sound only where two objects
    share no memory that one of them changes. The Observe methods take
    [currentSpec := cr.Spec.ForProvider.DeepCopy()], change the spec in place and
    compare the two: whether they share memory is exactly what decides whether a
    change is noticed. Here memory is explicit: locations, cells, the types
    of the values in them, and the statements that
    apis/.../zz_generated.deepcopy.go is written in. *)

From S2P Require Import Prelude.

#[local] Set Warnings "-register-all".

(** ** Types and values *)

Inductive basic_ty := String_t | Bool_t | Int_t.
(** A struct is the list of its fields; an embedded struct is a field named by
    its type. The types of the API are not recursive. *)
Inductive ty :=
| TBasic (b : basic_ty)
| TPtr (t : ty)
| TSlice (t : ty)
| TMap (t : ty)
| TStruct (fs : list (string * ty)).

Abbreviation TString := (TBasic String_t).
Abbreviation TBool := (TBasic Bool_t).
Abbreviation TInt := (TBasic Int_t).

Definition loc := positive.
Inductive basic := BString (s : string) | BBool (b : bool) | BInt (z : Z).
Inductive value :=
| VBasic (b : basic)
| VPtr (l : option loc)
| VSlice (l : option loc)
| VMap (l : option loc)
| VStruct (fs : list (string * value)).
(** A pointer leads to a value, a slice to its elements, a map to its entries;
    every slice is the whole of its array. *)
Inductive cell :=
| CValue (v : value)
| CArray (vs : list value)
| CMap (m : gmap string value).
Abbreviation heap := (gmap loc cell) (only parsing).

Definition has_basic_ty (b : basic_ty) (x : basic) : Prop :=
  match b, x with
  | String_t, BString _ | Bool_t, BBool _ | Int_t, BInt _ => True
  | _, _ => False
  end.

(** Nothing is reached through a value of a flat type. *)
Fixpoint flat (t : ty) : bool :=
  match t with
  | TBasic _ => true
  | TPtr _ | TSlice _ | TMap _ => false
  | TStruct fs => forallb (λ f, flat f.2) fs
  end.

(** What a value amounts to when all of its pointers are followed. *)
Inductive tree :=
| RBasic (b : basic)
| RNil
| RPtr (r : tree)
| RSlice (rs : list tree)
| RMap (m : gmap string tree)
| RStruct (fs : list (string * tree)).

#[global] Instance RPtr_inj : Inj (=) (=) RPtr.
Proof. by intros ?? [=]. Qed.

(** In the heap [h] the value [v] is one of type [t], every pointer of it leads to a cell of the
    right shape, and it amounts to [r]. *)
Fixpoint reads (h : heap) (t : ty) (v : value) (r : tree) {struct t} : Prop :=
  match t, v, r with
  | TBasic b, VBasic x, RBasic y => has_basic_ty b x ∧ x = y
  | TPtr _, VPtr None, RNil | TSlice _, VSlice None, RNil | TMap _, VMap None, RNil => True
  | TPtr t, VPtr (Some l), RPtr r => ∃ x, h !! l = Some (CValue x) ∧ reads h t x r
  | TSlice t, VSlice (Some l), RSlice rs => ∃ xs, h !! l = Some (CArray xs) ∧ Forall2 (reads h t) xs rs
  | TMap t, VMap (Some l), RMap rs =>
    ∃ m, h !! l = Some (CMap m) ∧ ∀ k, option_Forall2 (reads h t) (m !! k) (rs !! k)
  | TStruct fs, VStruct vs, RStruct rs =>
    (fix go (fs : list (string * ty)) vs rs {struct fs} :=
       match fs, vs, rs with
       | [], [], [] => True
       | (n, t) :: fs, (n1, v) :: vs, (n2, r) :: rs => n1 = n ∧ n2 = n ∧ reads h t v r ∧ go fs vs rs
       | _, _, _ => False
       end) fs vs rs
  | _, _, _ => False
  end.

(** ** The statements of DeepCopyInto *)

(** What a statement makes of a value it reads: another one, in a heap that may
    have more cells. *)
Definition copier := heap → value → outcome (heap * value).

Definition alloc (h : heap) (c : cell) : heap * loc :=
  let l := fresh (dom h) in (<[l := c]> h, l).

(** [out.F = in.F], [**out = **in], [( *out)[i] = ( *in)[i]]: the value itself,
    with the pointers that are in it. *)
Definition assign : copier := λ h v, Returns (h, v).

(** [if in.F != nil { ... }]: [out.F] is nil too, by [*out = *in]. *)
Definition if_non_nil (f : copier) : copier := λ h v,
  match v with
  | VPtr None | VSlice None | VMap None => Returns (h, v)
  | _ => f h v
  end.

(** [*out = new(T)], then [f] from [*in] into [*out]. *)
Definition new_into (f : copier) : copier := λ h v,
  match v with
  | VPtr (Some l) =>
    match h !! l with
    | Some (CValue x) =>
      '(h, y) ← f h x;
      let '(h, l') := alloc h (CValue y) in
      Returns (h, VPtr (Some l'))
    | _ => Panics
    end
  | _ => Panics
  end.
Definition new_copy : copier := new_into assign.

(** [f] from [( *in)[i]] into [( *out)[i]], for every [i] in turn. *)
Fixpoint each (f : copier) (h : heap) (vs : list value) : outcome (heap * list value) :=
  match vs with
  | [] => Returns (h, [])
  | v :: vs =>
    '(h, w) ← f h v;
    '(h, ws) ← each f h vs;
    Returns (h, w :: ws)
  end.
(** [*out = make([]T, len( *in))], then [f] on every element; with [assign], the builtin
    [copy( *out, *in)]. *)
Definition make_each (f : copier) : copier := λ h v,
  match v with
  | VSlice (Some l) =>
    match h !! l with
    | Some (CArray xs) =>
      '(h, ys) ← each f h xs;
      let '(h, l') := alloc h (CArray ys) in
      Returns (h, VSlice (Some l'))
    | _ => Panics
    end
  | _ => Panics
  end.
Definition make_copy : copier := make_each assign.

(** [*out = make(map[string]T, len( *in))], then [( *out)[key] = val] for every
    entry. *)
Definition make_map : copier := λ h v,
  match v with
  | VMap (Some l) =>
    match h !! l with
    | Some (CMap m) =>
      let m' := foldr (λ '(key, val) out, <[key := val]> out) ∅ (map_to_list m) in
      let '(h, l') := alloc h (CMap m') in
      Returns (h, VMap (Some l'))
    | _ => Panics
    end
  | _ => Panics
  end.

Fixpoint field {A} (n : string) (fs : list (string * A)) : option A :=
  match fs with
  | [] => None
  | (m, x) :: fs => if String.eqb m n then Some x else field n fs
  end.
Definition set_field {A} (n : string) (x : A) (fs : list (string * A)) : list (string * A) :=
  (λ '(m, y), (m, if String.eqb m n then x else y)) <$> fs.

(** The statements of a body, each of which reads a field of [in] and sets the
    field of [out] of that name. *)
Fixpoint statements (ss : list (string * copier)) (h : heap) (inn out : list (string * value)) :
    outcome (heap * list (string * value)) :=
  match ss with
  | [] => Returns (h, out)
  | (n, f) :: ss =>
    match field n inn with
    | Some x => '(h, y) ← f h x; statements ss h inn (set_field n y out)
    | None => Panics
    end
  end.
(** [*out = *in], and then the statements. *)
Definition copy_struct (ss : list (string * copier)) : copier := λ h v,
  match v with
  | VStruct fs => '(h, out) ← statements ss h fs fs; Returns (h, VStruct out)
  | _ => Panics
  end.

(** [DeepCopy]: nil for nil, or a new object that DeepCopyInto is called on. *)
Definition deep_copy (into : copier) : copier := if_non_nil (new_into into).

(** [DeepCopyObject] returns an interface, which is nil or holds a pointer; one
    that holds a nil pointer is not nil. *)
Inductive object := NilObject | Object (p : value).
Definition deep_copy_object (dc : copier) (h : heap) (v : value) : outcome (heap * object) :=
  '(h, c) ← dc h v;
  match c with
  | VPtr None => Returns (h, NilObject)
  | _ => Returns (h, Object c)
  end.

(** ** What a copy is *)

(** Whatever heap a well-typed value is in, the copy is made without touching
    the cells there are, and can be read, as the same tree of the same type,
    from the new cells alone. *)
Definition copies (t : ty) (f : copier) : Prop :=
  ∀ h v r, reads h t v r →
    ∃ d w, f h v = Returns (h ∪ d, w) ∧ h ##ₘ d ∧ reads d t w r.

(** ** Reading *)

(** Induction over a type, with the hypothesis for every field of a struct. *)
Lemma ty_nested_ind (P : ty → Prop) :
  (∀ b, P (TBasic b)) → (∀ t, P t → P (TPtr t)) → (∀ t, P t → P (TSlice t)) → (∀ t, P t → P (TMap t)) →
  (∀ fs, Forall (λ f, P f.2) fs → P (TStruct fs)) → ∀ t, P t.
Proof.
  intros Hb Hp Hs Hm Hf. fix IH 1. intros [b|t|t|t|fs]; [apply Hb|apply Hp, IH|apply Hs, IH|apply Hm, IH|].
  apply Hf. induction fs as [|[n t] fs IHfs]; constructor; [apply IH|exact IHfs].
Qed.

(** The fields of a struct, read one by one. *)
Inductive fields_read (h : heap) : list (string * ty) → list (string * value) → list (string * tree) → Prop :=
| fields_read_nil : fields_read h [] [] []
| fields_read_cons n t v r fs vs rs :
    reads h t v r → fields_read h fs vs rs → fields_read h ((n, t) :: fs) ((n, v) :: vs) ((n, r) :: rs).

Lemma reads_struct h fs vs rs : reads h (TStruct fs) (VStruct vs) (RStruct rs) ↔ fields_read h fs vs rs.
Proof.
  split.
  - revert vs rs. induction fs as [|[n t] fs IH]; intros [|[n1 v] vs] [|[n2 r] rs]; try done; [constructor|].
    intros (-> & -> & Hr & Hrs). constructor; [done|by apply IH].
  - induction 1 as [|n t v r fs vs rs Hr _ IH]; [done|]. by split_and!.
Qed.
Lemma reads_struct_inv h fs v r :
  reads h (TStruct fs) v r → ∃ vs rs, v = VStruct vs ∧ r = RStruct rs ∧ fields_read h fs vs rs.
Proof. destruct v, r; try done. intros Hr%reads_struct. by eauto. Qed.

(** More cells do not change what is read. *)
Lemma reads_mono h h' t v r : h ⊆ h' → reads h t v r → reads h' t v r.
Proof.
  intros Hh. revert v r. induction t as [b|t IH|t IH|t IH|fs IH] using ty_nested_ind; intros v r.
  - done.
  - destruct v as [|[l|]|[l|]|[l|]|], r; try done. intros (x & Hx & Hr). exists x. eauto using lookup_weaken.
  - destruct v as [|[l|]|[l|]|[l|]|], r; try done. intros (xs & Hx & Hr). exists xs.
    eauto using lookup_weaken, Forall2_impl.
  - destruct v as [|[l|]|[l|]|[l|]|], r; try done. intros (m' & Hx & Hr). exists m'. split; [eauto using lookup_weaken|].
    intros k. specialize (Hr k). destruct Hr; constructor; auto.
  - intros (vs & rs & -> & -> & Hr)%reads_struct_inv. apply reads_struct.
    induction Hr as [|n t v r fs vs rs Hr _ IHr]; inversion IH; constructor; auto.
Qed.

(** What a value amounts to is determined by the heap. *)
Lemma reads_det h t v r1 r2 : reads h t v r1 → reads h t v r2 → r1 = r2.
Proof.
  revert v r1 r2. induction t as [b|t IH|t IH|t IH|fs IH] using ty_nested_ind; intros v r1 r2.
  - destruct v, r1, r2; try done. intros [_ ->] [_ ->]. done.
  - destruct v as [|[l|]|[l|]|[l|]|], r1, r2; try done. intros (x & Hx & Hr1) (y & Hy & Hr2). simplify_eq. f_equal. by eapply IH.
  - destruct v as [|[l|]|[l|]|[l|]|], r1 as [| | |rs1| |], r2 as [| | |rs2| |]; try done.
    intros (xs & Hx & Hr1) (ys & Hy & Hr2). simplify_eq. f_equal.
    clear Hx. revert rs2 Hr2. induction Hr1 as [|x r xs rs Hr _ IHr]; inversion 1; simplify_eq; f_equal; [by eapply IH|by apply IHr].
  - destruct v as [|[l|]|[l|]|[l|]|], r1 as [| | | |m1|], r2 as [| | | |m2|]; try done.
    intros (x & Hx & Hr1) (y & Hy & Hr2). simplify_eq. f_equal. apply map_eq. intros k.
    specialize (Hr1 k). specialize (Hr2 k). destruct (x !! k); inversion Hr1; inversion Hr2; simplify_eq; f_equal; eauto.
  - intros (vs & rs1 & -> & -> & Hr1)%reads_struct_inv (vs2 & rs2 & [= <-] & -> & Hr2)%reads_struct_inv. f_equal.
    revert rs2 Hr2. induction Hr1 as [|n t v r fs vs rs Hr _ IHr]; inversion 1; inversion IH; simplify_eq; f_equal;
      [f_equal; eauto|by apply IHr].
Qed.

(** A flat value is read without the heap. *)
Lemma reads_flat h h' t v r : flat t = true → reads h t v r → reads h' t v r.
Proof.
  revert v r. induction t as [b|t IH|t IH|t IH|fs IH] using ty_nested_ind; intros v r Hf; try done.
  intros (vs & rs & -> & -> & Hr)%reads_struct_inv. apply reads_struct. simpl in Hf.
  induction Hr as [|n t v r fs vs rs Hr _ IHr]; simpl in Hf; [constructor|].
  apply andb_true_iff in Hf as [Hf Hfs]. inversion IH. constructor; auto.
Qed.

(** ** Every kind of statement copies *)

Lemma fresh_lookup (h : heap) : h !! fresh (dom h) = None.
Proof. apply not_elem_of_dom, is_fresh. Qed.

(** A cell allocated next to a copy: the copy grows by it. *)
Lemma alloc_copy (h d : heap) c (l := fresh (dom (h ∪ d))) :
  h ##ₘ d → <[l := c]> (h ∪ d) = h ∪ <[l := c]> d ∧ h ##ₘ <[l := c]> d ∧ d ⊆ <[l := c]> d.
Proof.
  intros Hd. pose proof (fresh_lookup (h ∪ d)) as Hl. fold l in Hl. clearbody l.
  apply lookup_union_None in Hl as [Hh Hdl].
  rewrite insert_union_r by done. split_and!; [done|by apply map_disjoint_insert_r|by apply insert_subseteq].
Qed.

Lemma copies_assign t : flat t = true → copies t assign.
Proof.
  intros Hf h v r Hr. exists ∅, v. unfold assign. rewrite map_union_empty.
  split_and!; [done|apply map_disjoint_empty_r|by eapply reads_flat].
Qed.

Lemma copies_if_non_nil t f :
  (∀ h v r, reads h t v r → r ≠ RNil → ∃ d w, f h v = Returns (h ∪ d, w) ∧ h ##ₘ d ∧ reads d t w r) →
  copies t (if_non_nil f).
Proof.
  intros Hf h v r Hr.
  assert (r = RNil ∧ (∀ h, reads h t v r) ∧ if_non_nil f h v = Returns (h, v) ∨ r ≠ RNil ∧ if_non_nil f h v = f h v)
    as [(_ & Hnil & ->)|[Hne ->]].
  { destruct t, v as [|[l|]|[l|]|[l|]|], r; try done; by auto. }
  - exists ∅, v. rewrite map_union_empty. split_and!; [done|apply map_disjoint_empty_r|done].
  - by apply Hf.
Qed.

Lemma copies_new t f : copies t f → copies (TPtr t) (if_non_nil (new_into f)).
Proof.
  intros Hf. apply copies_if_non_nil. intros h v r Hr Hne.
  destruct v as [|[l|]|[l|]|[l|]|], r; try done. destruct Hr as (x & Hx & Hr).
  destruct (Hf _ _ _ Hr) as (d & y & Hy & Hd & Hry). simpl. rewrite Hx, Hy. simpl.
  destruct (alloc_copy h d (CValue y) Hd) as (-> & Hd' & Hsub).
  eexists _, _. split_and!; [done..|]. exists y. split; [by rewrite lookup_insert_eq|by eapply reads_mono].
Qed.

(** Each element is copied next to the copies of the ones before it. *)
Lemma copies_each t f h d vs rs :
  copies t f → h ##ₘ d → Forall2 (reads h t) vs rs →
  ∃ d' ws, each f (h ∪ d) vs = Returns (h ∪ d', ws) ∧ h ##ₘ d' ∧ d ⊆ d' ∧ Forall2 (reads d' t) ws rs.
Proof.
  intros Hf Hd Hrs. revert d Hd. induction Hrs as [|v r vs rs Hr _ IH]; intros d Hd; simpl.
  { exists d, []. split_and!; [done..|constructor]. }
  destruct (Hf (h ∪ d) v r) as (d1 & w & Hw & Hd1 & Hrw); [eapply reads_mono, Hr; apply map_union_subseteq_l|].
  apply map_disjoint_union_l in Hd1 as [Hhd1 Hdd1]. rewrite Hw, <- (assoc_L (∪)). simpl.
  destruct (IH (d ∪ d1)) as (d' & ws & Hws & Hd' & Hsub & Hrws); [by apply map_disjoint_union_r|].
  rewrite Hws. simpl. exists d', (w :: ws). split_and!; [done..| |].
  - etrans; [apply map_union_subseteq_l|done].
  - constructor; [|done]. eapply reads_mono; [|done]. etrans; [by apply map_union_subseteq_r|done].
Qed.
Lemma copies_make t f : copies t f → copies (TSlice t) (if_non_nil (make_each f)).
Proof.
  intros Hf. apply copies_if_non_nil. intros h v r Hr Hne.
  destruct v as [|[l|]|[l|]|[l|]|], r; try done. destruct Hr as (xs & Hx & Hr).
  destruct (copies_each t f h ∅ xs rs) as (d & ys & Hy & Hd & _ & Hry); [done|apply map_disjoint_empty_r|done|].
  rewrite map_union_empty in Hy. simpl. rewrite Hx, Hy. simpl.
  destruct (alloc_copy h d (CArray ys) Hd) as (-> & Hd' & Hsub).
  eexists _, _. split_and!; [done..|]. exists ys. split; [by rewrite lookup_insert_eq|].
  eapply Forall2_impl; [done|]. intros. by eapply reads_mono.
Qed.

Lemma entries_again {A} (m : gmap string A) : foldr (λ '(key, val) out, <[key := val]> out) ∅ (map_to_list m) = m.
Proof.
  rewrite <- (list_to_map_to_list m) at 2. unfold list_to_map.
  induction (map_to_list m) as [|[k v] l IH]; simpl; [done|]. by f_equal.
Qed.
Lemma copies_make_map t : flat t = true → copies (TMap t) (if_non_nil make_map).
Proof.
  intros Hf. apply copies_if_non_nil. intros h v r Hr Hne.
  destruct v as [|[l|]|[l|]|[l|]|], r; try done. destruct Hr as (m' & Hx & Hr). simpl. rewrite Hx, entries_again.
  destruct (alloc_copy h ∅ (CMap m')) as (Ha & Hd' & _); [apply map_disjoint_empty_r|].
  rewrite map_union_empty in Ha, Hd'. rewrite Ha.
  eexists _, _. split_and!; [done..|]. exists m'. split; [by rewrite lookup_insert_eq|].
  intros k. destruct (Hr k); constructor. by eapply reads_flat.
Qed.

(** ** Structs *)

(** While the statements run: the fields of [out] that a statement has set are
    copies, the others are still the ones of [in]. *)
Inductive half_copied (set : list string) (h d : heap) :
    list (string * ty) → list (string * value) → list (string * value) → list (string * tree) → Prop :=
| half_nil : half_copied set h d [] [] [] []
| half_cons n t v w r fs vs ws rs :
    reads h t v r → (if existsb (String.eqb n) set then reads d t w r else w = v) →
    half_copied set h d fs vs ws rs →
    half_copied set h d ((n, t) :: fs) ((n, v) :: vs) ((n, w) :: ws) ((n, r) :: rs).

Lemma half_start h fs vs rs : fields_read h fs vs rs → half_copied [] h ∅ fs vs vs rs.
Proof. induction 1; by constructor. Qed.

Lemma half_field set h d n t fs vs ws rs :
  half_copied set h d fs vs ws rs → field n fs = Some t → ∃ v r, field n vs = Some v ∧ field n rs = Some r ∧ reads h t v r.
Proof.
  induction 1 as [|m t' v w r fs vs ws rs Hr _ _ IH]; simpl; [done|].
  destruct (String.eqb m n); [|done]. intros [= <-]. by eauto.
Qed.

Lemma set_field_notin {A} n (x : A) fs : n ∉ fs.*1 → set_field n x fs = fs.
Proof.
  induction fs as [|[m y] fs IH]; simpl; [done|]. intros [Hne Hn]%not_elem_of_cons.
  destruct (String.eqb_spec m n) as [->|_]; [done|]. f_equal. by apply IH.
Qed.
Lemma half_names set h d fs vs ws rs : half_copied set h d fs vs ws rs → ws.*1 = fs.*1.
Proof. induction 1; csimpl; congruence. Qed.
Lemma field_in {A} n (fs : list (string * A)) x : field n fs = Some x → n ∈ fs.*1.
Proof.
  induction fs as [|[m y] fs IH]; simpl; [done|].
  destruct (String.eqb_spec m n) as [->|_]; [left|right; by apply IH].
Qed.

(** More cells, and another name that no field has. *)
Lemma half_weaken set h d d' n fs vs ws rs :
  d ⊆ d' → n ∉ fs.*1 → half_copied set h d fs vs ws rs → half_copied (n :: set) h d' fs vs ws rs.
Proof.
  intros Hd Hn. induction 1 as [|m t v w r fs vs ws rs Hr Hw _ IH]; [constructor|].
  apply not_elem_of_cons in Hn as [Hne Hn]. constructor; [done| |by apply IH].
  simpl. destruct (String.eqb_spec m n) as [->|_]; [done|]. simpl.
  destruct (existsb _ _); [by eapply reads_mono|done].
Qed.
Lemma half_set set h d d' n t w r fs vs ws rs :
  NoDup fs.*1 → d ⊆ d' → half_copied set h d fs vs ws rs → field n fs = Some t → field n rs = Some r → reads d' t w r →
  half_copied (n :: set) h d' fs vs (set_field n w ws) rs.
Proof.
  intros Hnd Hd Hhalf. revert Hnd. induction Hhalf as [|m t' v w' r' fs vs ws rs Hr Hw Hhalf IH]; simpl; [done|].
  intros [Hm Hnd]%NoDup_cons. destruct (String.eqb_spec m n) as [->|Hne].
  - intros [= ->] [= ->] Hrw. constructor; [done|simpl; by rewrite String.eqb_refl|].
    fold (set_field n w ws). rewrite set_field_notin by (by erewrite half_names). by apply (half_weaken _ _ d).
  - intros Ht Hr' Hrw. constructor; [done| |by apply IH]. simpl.
    destruct (String.eqb_spec m n); [done|]. simpl. destruct (existsb _ _); [by eapply reads_mono|done].
Qed.

(** Each statement copies the field it is about. *)
Fixpoint statements_copy (fs : list (string * ty)) (ss : list (string * copier)) : Prop :=
  match ss with
  | [] => True
  | (n, f) :: ss => match field n fs with Some t => copies t f | None => False end ∧ statements_copy fs ss
  end.
(** No field that leads anywhere is without a statement. *)
Definition covered (fs : list (string * ty)) (names : list string) : bool :=
  forallb (λ f, existsb (String.eqb f.1) names || flat f.2) fs.

Lemma half_statements ss set h d fs vs ws rs :
  NoDup fs.*1 → statements_copy fs ss → h ##ₘ d → half_copied set h d fs vs ws rs →
  ∃ d' ws', statements ss (h ∪ d) vs ws = Returns (h ∪ d', ws') ∧ h ##ₘ d' ∧
    half_copied (rev_append ss.*1 set) h d' fs vs ws' rs.
Proof.
  intros Hnd. revert set d ws. induction ss as [|[n f] ss IH]; intros set d ws Hss Hd Hhalf; simpl in *; [by eauto|].
  destruct Hss as [Hf Hss]. destruct (field n fs) as [t|] eqn:Ht; [|done].
  destruct (half_field _ _ _ _ _ _ _ _ _ Hhalf Ht) as (v & r & Hv & Hfr & Hr). rewrite Hv.
  destruct (Hf (h ∪ d) v r) as (d1 & w & Hw & Hd1 & Hrw); [eapply reads_mono, Hr; apply map_union_subseteq_l|].
  apply map_disjoint_union_l in Hd1 as [Hhd1 Hdd1]. rewrite Hw, <- (assoc_L (∪)). simpl.
  apply IH; [done|by apply map_disjoint_union_r|].
  eapply (half_set set h d); [done|apply map_union_subseteq_l|done..|].
  eapply reads_mono, Hrw. by apply map_union_subseteq_r.
Qed.
Lemma half_done names set h d fs vs ws rs :
  covered fs names = true → (∀ n, existsb (String.eqb n) names = true → existsb (String.eqb n) set = true) →
  half_copied set h d fs vs ws rs → fields_read d fs ws rs.
Proof.
  intros Hc Hn. induction 1 as [|n t v w r fs vs ws rs Hr Hw _ IH]; [constructor|].
  simpl in Hc. apply andb_true_iff in Hc as [Hc Hcs]. constructor; [|by apply IH].
  destruct (existsb (String.eqb n) set) eqn:Hset; [done|]. subst w.
  apply orb_true_iff in Hc as [Hc%Hn|Hc]; [congruence|]. by eapply reads_flat.
Qed.

Lemma copies_struct fs ss :
  NoDup fs.*1 → covered fs ss.*1 = true → statements_copy fs ss → copies (TStruct fs) (copy_struct ss).
Proof.
  intros Hnd Hc Hss h v r (vs & rs & -> & -> & Hr)%reads_struct_inv.
  destruct (half_statements ss [] h ∅ fs vs vs rs) as (d & ws & Hws & Hd & Hhalf); [done..|apply map_disjoint_empty_r|by apply half_start|].
  rewrite map_union_empty in Hws. simpl. rewrite Hws. simpl. exists d, (VStruct ws). split_and!; [done..|].
  apply reads_struct. eapply half_done; [done| |done]. intros n. rewrite rev_append_rev, app_nil_r, !existsb_exists.
  intros (m & Hm & Heq). exists m. by rewrite <- in_rev.
Qed.

(** ** DeepCopy and DeepCopyObject *)

Lemma copies_deep_copy t f : copies t f → copies (TPtr t) (deep_copy f).
Proof. apply copies_new. Qed.

(** A nil pointer gives the nil interface, any other one an interface that
    holds a copy. *)
Definition copies_object (t : ty) (f : heap → value → outcome (heap * object)) : Prop :=
  ∀ h v r, reads h (TPtr t) v r →
    ∃ d o, f h v = Returns (h ∪ d, o) ∧ h ##ₘ d ∧
      match o with
      | NilObject => v = VPtr None
      | Object w => v ≠ VPtr None ∧ reads d (TPtr t) w r
      end.
Lemma copies_deep_copy_object t f : copies (TPtr t) f → copies_object t (deep_copy_object f).
Proof.
  intros Hf h v r Hr. destruct (Hf _ _ _ Hr) as (d & w & Hw & Hd & Hrw). unfold deep_copy_object. rewrite Hw. simpl.
  destruct w as [|[l|]| | |], r; try done.
  - exists d, (Object (VPtr (Some l))). split_and!; [done..| |done]. by destruct v as [|[|]| | |].
  - exists d, NilObject. split_and!; [done..|]. by destruct v as [|[|]| | |].
Qed.

(** A type of the API with the functions that are generated for it; only a kind
    and the list of a kind have a DeepCopyObject. *)
Record api_type := {
  go_name : string;
  go_type : ty;
  go_into : copier;
  go_copy : copier;
  go_object : option (heap → value → outcome (heap * object))
}.
Definition deep_copied (a : api_type) : Prop :=
  copies a.(go_type) a.(go_into) ∧ copies (TPtr a.(go_type)) a.(go_copy) ∧
  match a.(go_object) with Some f => copies_object a.(go_type) f | None => True end.

Lemma deep_copied_kind n t f :
  copies t f → deep_copied (Build_api_type n t f (deep_copy f) (Some (deep_copy_object (deep_copy f)))).
Proof. intros Hf. split_and!; [done|by apply copies_deep_copy|by apply copies_deep_copy_object, copies_deep_copy]. Qed.
Lemma deep_copied_part n t f : copies t f → deep_copied (Build_api_type n t f (deep_copy f) None).
Proof. intros Hf. split_and!; [done|by apply copies_deep_copy|done]. Qed.

(** ** The types of the libraries *)

(** Types of k8s.io/apimachinery and of crossplane-runtime that the API is made
    of, and their own DeepCopy functions. Of a type that is assigned, here and in
    the code, only that nothing is reached through it is known. A time is a value:
    its location is never written. *)
Class KubeTypes := {
  TypeMeta : ty;
  TypeMeta_flat : flat TypeMeta = true;
  Duration : ty;
  Duration_flat : flat Duration = true;
  Reference : ty;
  Reference_flat : flat Reference = true;
  SecretKeySelector : ty;
  SecretKeySelector_flat : flat SecretKeySelector = true;
  XpProviderConfigUsage : ty;
  XpProviderConfigUsage_flat : flat XpProviderConfigUsage = true;
  ObjectMeta : ty;
  ObjectMeta_DeepCopyInto : copier;
  ObjectMeta_copies : copies ObjectMeta ObjectMeta_DeepCopyInto;
  ListMeta : ty;
  ListMeta_DeepCopyInto : copier;
  ListMeta_copies : copies ListMeta ListMeta_DeepCopyInto;
  Time : ty;
  Time_DeepCopyInto : copier;
  Time_copies : copies Time Time_DeepCopyInto;
  Time_DeepCopy : copier;
  Time_copied : copies (TPtr Time) Time_DeepCopy;
  Selector : ty;
  Selector_DeepCopyInto : copier;
  Selector_copies : copies Selector Selector_DeepCopyInto;
  ResourceSpec : ty;
  ResourceSpec_DeepCopyInto : copier;
  ResourceSpec_copies : copies ResourceSpec ResourceSpec_DeepCopyInto;
  ResourceStatus : ty;
  ResourceStatus_DeepCopyInto : copier;
  ResourceStatus_copies : copies ResourceStatus ResourceStatus_DeepCopyInto;
  XpProviderConfigStatus : ty;
  XpProviderConfigStatus_DeepCopyInto : copier;
  XpProviderConfigStatus_copies : copies XpProviderConfigStatus XpProviderConfigStatus_DeepCopyInto;
  CommonCredentialSelectors : ty;
  CommonCredentialSelectors_DeepCopyInto : copier;
  CommonCredentialSelectors_copies : copies CommonCredentialSelectors CommonCredentialSelectors_DeepCopyInto
}.

Create HintDb deepcopy.
#[export] Hint Resolve ObjectMeta_copies ListMeta_copies Time_copies Time_copied Selector_copies
  ResourceSpec_copies ResourceStatus_copies XpProviderConfigStatus_copies CommonCredentialSelectors_copies : deepcopy.
Create Rewrite HintDb flat.
#[export] Hint Rewrite @TypeMeta_flat @Duration_flat @Reference_flat @SecretKeySelector_flat @XpProviderConfigUsage_flat : flat.

(** A goal [flat t = true], and one [copies t f] where [f] is made of the
    statements above. *)
Ltac solve_flat := cbn; autorewrite with flat; reflexivity.
Ltac solve_copies :=
  lazymatch goal with
  | |- copies (TPtr _) (if_non_nil (new_into _)) => apply copies_new; solve_copies
  | |- copies (TPtr _) (if_non_nil new_copy) => apply copies_new; solve_copies
  | |- copies (TPtr _) (if_non_nil Time_DeepCopy) =>
    apply copies_if_non_nil; intros; by apply Time_copied
  | |- copies (TSlice _) (if_non_nil (make_each _)) => apply copies_make; solve_copies
  | |- copies (TSlice _) (if_non_nil make_copy) => apply copies_make; solve_copies
  | |- copies (TMap _) (if_non_nil make_map) => apply copies_make_map; solve_flat
  | |- copies _ assign => apply copies_assign; solve_flat
  | |- copies _ _ =>
    first
      [ solve [auto 1 with deepcopy]
      | apply copies_struct;
        [ apply (bool_decide_unpack _); vm_compute; exact I
        | vm_compute; reflexivity
        | cbn [statements_copy field String.eqb Ascii.eqb Bool.eqb]; repeat apply conj; try exact I; solve_copies ] ]
  end.
Ltac solve_api_types :=
  lazymatch goal with |- Forall _ ?l => unfold l end;
  repeat (apply Forall_cons_2;
    [first [apply deep_copied_kind | apply deep_copied_part]; solve_copies|]);
  apply Forall_nil_2.
