(* ===== verification/DeepCopyProvider.v ===== *)
(** * DeepCopy of Provider, ProviderConfig and ProviderConfigUsage

    The structs of apis/v1alpha3 and apis/v1beta1 and the functions that controller-gen
    generated for them. *)

From S2P Require Import Prelude GoMemory.

Section types.
Context `{KubeTypes}.

Definition ProviderSpec : ty := TStruct [("CredentialsSecretRef", SecretKeySelector); ("ProjectID", TString)].
Definition ProviderSpec_DeepCopyInto : copier := copy_struct [("CredentialsSecretRef", assign)].
Definition ProviderSpec_DeepCopy : copier := deep_copy ProviderSpec_DeepCopyInto.

Definition Provider : ty := TStruct [("TypeMeta", TypeMeta); ("ObjectMeta", ObjectMeta); ("Spec", ProviderSpec)].
Definition Provider_DeepCopyInto : copier := copy_struct [
  ("TypeMeta", assign); ("ObjectMeta", ObjectMeta_DeepCopyInto); ("Spec", assign)].
Definition Provider_DeepCopy : copier := deep_copy Provider_DeepCopyInto.
Definition Provider_DeepCopyObject := deep_copy_object Provider_DeepCopy.

Definition ProviderList : ty := TStruct [("TypeMeta", TypeMeta); ("ListMeta", ListMeta); ("Items", TSlice Provider)].
Definition ProviderList_DeepCopyInto : copier := copy_struct [
  ("TypeMeta", assign); ("ListMeta", ListMeta_DeepCopyInto); ("Items", if_non_nil (make_each Provider_DeepCopyInto))].
Definition ProviderList_DeepCopy : copier := deep_copy ProviderList_DeepCopyInto.
Definition ProviderList_DeepCopyObject := deep_copy_object ProviderList_DeepCopy.

Definition ProviderCredentials : ty := TStruct [
  ("Source", TString); ("CommonCredentialSelectors", CommonCredentialSelectors)].
Definition ProviderCredentials_DeepCopyInto : copier := copy_struct [
  ("CommonCredentialSelectors", CommonCredentialSelectors_DeepCopyInto)].
Definition ProviderCredentials_DeepCopy : copier := deep_copy ProviderCredentials_DeepCopyInto.

Definition ProviderConfigSpec : ty := TStruct [("Credentials", ProviderCredentials); ("ProjectID", TString)].
Definition ProviderConfigSpec_DeepCopyInto : copier := copy_struct [
  ("Credentials", ProviderCredentials_DeepCopyInto)].
Definition ProviderConfigSpec_DeepCopy : copier := deep_copy ProviderConfigSpec_DeepCopyInto.

Definition ProviderConfigStatus : ty := TStruct [("ProviderConfigStatus", XpProviderConfigStatus)].
Definition ProviderConfigStatus_DeepCopyInto : copier := copy_struct [
  ("ProviderConfigStatus", XpProviderConfigStatus_DeepCopyInto)].
Definition ProviderConfigStatus_DeepCopy : copier := deep_copy ProviderConfigStatus_DeepCopyInto.

Definition ProviderConfig : ty := TStruct [
  ("TypeMeta", TypeMeta); ("ObjectMeta", ObjectMeta); ("Spec", ProviderConfigSpec); ("Status", ProviderConfigStatus)].
Definition ProviderConfig_DeepCopyInto : copier := copy_struct [
  ("TypeMeta", assign); ("ObjectMeta", ObjectMeta_DeepCopyInto); ("Spec", ProviderConfigSpec_DeepCopyInto);
  ("Status", ProviderConfigStatus_DeepCopyInto)].
Definition ProviderConfig_DeepCopy : copier := deep_copy ProviderConfig_DeepCopyInto.
Definition ProviderConfig_DeepCopyObject := deep_copy_object ProviderConfig_DeepCopy.

Definition ProviderConfigList : ty := TStruct [
  ("TypeMeta", TypeMeta); ("ListMeta", ListMeta); ("Items", TSlice ProviderConfig)].
Definition ProviderConfigList_DeepCopyInto : copier := copy_struct [
  ("TypeMeta", assign); ("ListMeta", ListMeta_DeepCopyInto);
  ("Items", if_non_nil (make_each ProviderConfig_DeepCopyInto))].
Definition ProviderConfigList_DeepCopy : copier := deep_copy ProviderConfigList_DeepCopyInto.
Definition ProviderConfigList_DeepCopyObject := deep_copy_object ProviderConfigList_DeepCopy.

Definition ProviderConfigUsage : ty := TStruct [
  ("TypeMeta", TypeMeta); ("ObjectMeta", ObjectMeta); ("ProviderConfigUsage", XpProviderConfigUsage)].
Definition ProviderConfigUsage_DeepCopyInto : copier := copy_struct [
  ("TypeMeta", assign); ("ObjectMeta", ObjectMeta_DeepCopyInto); ("ProviderConfigUsage", assign)].
Definition ProviderConfigUsage_DeepCopy : copier := deep_copy ProviderConfigUsage_DeepCopyInto.
Definition ProviderConfigUsage_DeepCopyObject := deep_copy_object ProviderConfigUsage_DeepCopy.

Definition ProviderConfigUsageList : ty := TStruct [
  ("TypeMeta", TypeMeta); ("ListMeta", ListMeta); ("Items", TSlice ProviderConfigUsage)].
Definition ProviderConfigUsageList_DeepCopyInto : copier := copy_struct [
  ("TypeMeta", assign); ("ListMeta", ListMeta_DeepCopyInto);
  ("Items", if_non_nil (make_each ProviderConfigUsage_DeepCopyInto))].
Definition ProviderConfigUsageList_DeepCopy : copier := deep_copy ProviderConfigUsageList_DeepCopyInto.
Definition ProviderConfigUsageList_DeepCopyObject := deep_copy_object ProviderConfigUsageList_DeepCopy.

Definition api_types : list api_type := [
  Build_api_type "ProviderSpec" ProviderSpec ProviderSpec_DeepCopyInto ProviderSpec_DeepCopy None;
  Build_api_type "Provider" Provider Provider_DeepCopyInto Provider_DeepCopy (Some Provider_DeepCopyObject);
  Build_api_type "ProviderList" ProviderList ProviderList_DeepCopyInto ProviderList_DeepCopy (Some ProviderList_DeepCopyObject);
  Build_api_type "ProviderCredentials" ProviderCredentials ProviderCredentials_DeepCopyInto ProviderCredentials_DeepCopy None;
  Build_api_type "ProviderConfigSpec" ProviderConfigSpec ProviderConfigSpec_DeepCopyInto ProviderConfigSpec_DeepCopy None;
  Build_api_type "ProviderConfigStatus" ProviderConfigStatus ProviderConfigStatus_DeepCopyInto ProviderConfigStatus_DeepCopy None;
  Build_api_type "ProviderConfig" ProviderConfig ProviderConfig_DeepCopyInto ProviderConfig_DeepCopy (Some ProviderConfig_DeepCopyObject);
  Build_api_type "ProviderConfigList" ProviderConfigList ProviderConfigList_DeepCopyInto ProviderConfigList_DeepCopy (Some ProviderConfigList_DeepCopyObject);
  Build_api_type "ProviderConfigUsage" ProviderConfigUsage ProviderConfigUsage_DeepCopyInto ProviderConfigUsage_DeepCopy (Some ProviderConfigUsage_DeepCopyObject);
  Build_api_type "ProviderConfigUsageList" ProviderConfigUsageList ProviderConfigUsageList_DeepCopyInto ProviderConfigUsageList_DeepCopy (Some ProviderConfigUsageList_DeepCopyObject)].

Lemma Provider_deep_copied : Forall deep_copied api_types.
Proof using Type. solve_api_types. Qed.
End types.
