(* ===== verification/DeepCopyCache.v ===== *)
(** * DeepCopy of the Cloud Memorystore API

    The structs of apis/cache/v1beta1 and the functions that controller-gen
    generated for them. *)

From S2P Require Import Prelude GoMemory.

Section types.
Context `{KubeTypes}.

Definition CloudMemorystoreInstanceParameters : ty := TStruct [
  ("Region", TString); ("Tier", TString); ("MemorySizeGB", TInt); ("DisplayName", TPtr TString);
  ("Labels", TMap TString); ("LocationID", TPtr TString); ("AlternativeLocationID", TPtr TString);
  ("RedisVersion", TPtr TString); ("ReservedIPRange", TPtr TString); ("RedisConfigs", TMap TString);
  ("AuthorizedNetwork", TPtr TString); ("ConnectMode", TPtr TString)].
Definition CloudMemorystoreInstanceParameters_DeepCopyInto : copier := copy_struct [
  ("DisplayName", if_non_nil new_copy); ("Labels", if_non_nil make_map); ("LocationID", if_non_nil new_copy);
  ("AlternativeLocationID", if_non_nil new_copy); ("RedisVersion", if_non_nil new_copy);
  ("ReservedIPRange", if_non_nil new_copy); ("RedisConfigs", if_non_nil make_map);
  ("AuthorizedNetwork", if_non_nil new_copy); ("ConnectMode", if_non_nil new_copy)].
Definition CloudMemorystoreInstanceParameters_DeepCopy : copier := deep_copy CloudMemorystoreInstanceParameters_DeepCopyInto.

Definition CloudMemorystoreInstanceObservation : ty := TStruct [
  ("Name", TString); ("Host", TString); ("Port", TInt); ("CurrentLocationID", TString); ("CreateTime", TPtr Time);
  ("State", TString); ("StatusMessage", TString); ("PersistenceIAMIdentity", TString)].
Definition CloudMemorystoreInstanceObservation_DeepCopyInto : copier := copy_struct [
  ("CreateTime", if_non_nil Time_DeepCopy)].
Definition CloudMemorystoreInstanceObservation_DeepCopy : copier := deep_copy CloudMemorystoreInstanceObservation_DeepCopyInto.

Definition CloudMemorystoreInstanceSpec : ty := TStruct [
  ("ResourceSpec", ResourceSpec); ("ForProvider", CloudMemorystoreInstanceParameters)].
Definition CloudMemorystoreInstanceSpec_DeepCopyInto : copier := copy_struct [
  ("ResourceSpec", ResourceSpec_DeepCopyInto); ("ForProvider", CloudMemorystoreInstanceParameters_DeepCopyInto)].
Definition CloudMemorystoreInstanceSpec_DeepCopy : copier := deep_copy CloudMemorystoreInstanceSpec_DeepCopyInto.

Definition CloudMemorystoreInstanceStatus : ty := TStruct [
  ("ResourceStatus", ResourceStatus); ("AtProvider", CloudMemorystoreInstanceObservation)].
Definition CloudMemorystoreInstanceStatus_DeepCopyInto : copier := copy_struct [
  ("ResourceStatus", ResourceStatus_DeepCopyInto); ("AtProvider", CloudMemorystoreInstanceObservation_DeepCopyInto)].
Definition CloudMemorystoreInstanceStatus_DeepCopy : copier := deep_copy CloudMemorystoreInstanceStatus_DeepCopyInto.

Definition CloudMemorystoreInstance : ty := TStruct [
  ("TypeMeta", TypeMeta); ("ObjectMeta", ObjectMeta); ("Spec", CloudMemorystoreInstanceSpec);
  ("Status", CloudMemorystoreInstanceStatus)].
Definition CloudMemorystoreInstance_DeepCopyInto : copier := copy_struct [
  ("TypeMeta", assign); ("ObjectMeta", ObjectMeta_DeepCopyInto); ("Spec", CloudMemorystoreInstanceSpec_DeepCopyInto);
  ("Status", CloudMemorystoreInstanceStatus_DeepCopyInto)].
Definition CloudMemorystoreInstance_DeepCopy : copier := deep_copy CloudMemorystoreInstance_DeepCopyInto.
Definition CloudMemorystoreInstance_DeepCopyObject := deep_copy_object CloudMemorystoreInstance_DeepCopy.

Definition CloudMemorystoreInstanceList : ty := TStruct [
  ("TypeMeta", TypeMeta); ("ListMeta", ListMeta); ("Items", TSlice CloudMemorystoreInstance)].
Definition CloudMemorystoreInstanceList_DeepCopyInto : copier := copy_struct [
  ("TypeMeta", assign); ("ListMeta", ListMeta_DeepCopyInto);
  ("Items", if_non_nil (make_each CloudMemorystoreInstance_DeepCopyInto))].
Definition CloudMemorystoreInstanceList_DeepCopy : copier := deep_copy CloudMemorystoreInstanceList_DeepCopyInto.
Definition CloudMemorystoreInstanceList_DeepCopyObject := deep_copy_object CloudMemorystoreInstanceList_DeepCopy.

Definition api_types : list api_type := [
  Build_api_type "CloudMemorystoreInstanceParameters" CloudMemorystoreInstanceParameters CloudMemorystoreInstanceParameters_DeepCopyInto CloudMemorystoreInstanceParameters_DeepCopy None;
  Build_api_type "CloudMemorystoreInstanceObservation" CloudMemorystoreInstanceObservation CloudMemorystoreInstanceObservation_DeepCopyInto CloudMemorystoreInstanceObservation_DeepCopy None;
  Build_api_type "CloudMemorystoreInstanceSpec" CloudMemorystoreInstanceSpec CloudMemorystoreInstanceSpec_DeepCopyInto CloudMemorystoreInstanceSpec_DeepCopy None;
  Build_api_type "CloudMemorystoreInstanceStatus" CloudMemorystoreInstanceStatus CloudMemorystoreInstanceStatus_DeepCopyInto CloudMemorystoreInstanceStatus_DeepCopy None;
  Build_api_type "CloudMemorystoreInstance" CloudMemorystoreInstance CloudMemorystoreInstance_DeepCopyInto CloudMemorystoreInstance_DeepCopy (Some CloudMemorystoreInstance_DeepCopyObject);
  Build_api_type "CloudMemorystoreInstanceList" CloudMemorystoreInstanceList CloudMemorystoreInstanceList_DeepCopyInto CloudMemorystoreInstanceList_DeepCopy (Some CloudMemorystoreInstanceList_DeepCopyObject)].

Lemma Cache_deep_copied : Forall deep_copied api_types.
Proof using Type. solve_api_types. Qed.
End types.
