(* ===== verification/DeepCopyCompute.v ===== *)
(** * DeepCopy of the compute API: Network, Subnetwork and GlobalAddress

    The structs of apis/compute/v1beta1 and the functions that controller-gen
    generated for them. *)

From S2P Require Import Prelude GoMemory.

Section types.
Context `{KubeTypes}.

Definition GlobalAddressParameters : ty := TStruct [
  ("Address", TPtr TString); ("AddressType", TPtr TString); ("Description", TPtr TString);
  ("IPVersion", TPtr TString); ("Network", TPtr TString); ("NetworkRef", TPtr Reference);
  ("NetworkSelector", TPtr Selector); ("PrefixLength", TPtr TInt); ("Purpose", TPtr TString);
  ("Subnetwork", TPtr TString); ("SubnetworkRef", TPtr Reference); ("SubnetworkSelector", TPtr Selector)].
Definition GlobalAddressParameters_DeepCopyInto : copier := copy_struct [
  ("Address", if_non_nil new_copy); ("AddressType", if_non_nil new_copy); ("Description", if_non_nil new_copy);
  ("IPVersion", if_non_nil new_copy); ("Network", if_non_nil new_copy); ("NetworkRef", if_non_nil new_copy);
  ("NetworkSelector", if_non_nil (new_into Selector_DeepCopyInto)); ("PrefixLength", if_non_nil new_copy);
  ("Purpose", if_non_nil new_copy); ("Subnetwork", if_non_nil new_copy); ("SubnetworkRef", if_non_nil new_copy);
  ("SubnetworkSelector", if_non_nil (new_into Selector_DeepCopyInto))].
Definition GlobalAddressParameters_DeepCopy : copier := deep_copy GlobalAddressParameters_DeepCopyInto.

Definition GlobalAddressObservation : ty := TStruct [
  ("CreationTimestamp", TString); ("ID", TInt); ("SelfLink", TString); ("Status", TString); ("Users", TSlice TString)].
Definition GlobalAddressObservation_DeepCopyInto : copier := copy_struct [("Users", if_non_nil make_copy)].
Definition GlobalAddressObservation_DeepCopy : copier := deep_copy GlobalAddressObservation_DeepCopyInto.

Definition GlobalAddressSpec : ty := TStruct [
  ("ResourceSpec", ResourceSpec); ("ForProvider", GlobalAddressParameters)].
Definition GlobalAddressSpec_DeepCopyInto : copier := copy_struct [
  ("ResourceSpec", ResourceSpec_DeepCopyInto); ("ForProvider", GlobalAddressParameters_DeepCopyInto)].
Definition GlobalAddressSpec_DeepCopy : copier := deep_copy GlobalAddressSpec_DeepCopyInto.

Definition GlobalAddressStatus : ty := TStruct [
  ("ResourceStatus", ResourceStatus); ("AtProvider", GlobalAddressObservation)].
Definition GlobalAddressStatus_DeepCopyInto : copier := copy_struct [
  ("ResourceStatus", ResourceStatus_DeepCopyInto); ("AtProvider", GlobalAddressObservation_DeepCopyInto)].
Definition GlobalAddressStatus_DeepCopy : copier := deep_copy GlobalAddressStatus_DeepCopyInto.

Definition GlobalAddress : ty := TStruct [
  ("TypeMeta", TypeMeta); ("ObjectMeta", ObjectMeta); ("Spec", GlobalAddressSpec); ("Status", GlobalAddressStatus)].
Definition GlobalAddress_DeepCopyInto : copier := copy_struct [
  ("TypeMeta", assign); ("ObjectMeta", ObjectMeta_DeepCopyInto); ("Spec", GlobalAddressSpec_DeepCopyInto);
  ("Status", GlobalAddressStatus_DeepCopyInto)].
Definition GlobalAddress_DeepCopy : copier := deep_copy GlobalAddress_DeepCopyInto.
Definition GlobalAddress_DeepCopyObject := deep_copy_object GlobalAddress_DeepCopy.

Definition GlobalAddressList : ty := TStruct [
  ("TypeMeta", TypeMeta); ("ListMeta", ListMeta); ("Items", TSlice GlobalAddress)].
Definition GlobalAddressList_DeepCopyInto : copier := copy_struct [
  ("TypeMeta", assign); ("ListMeta", ListMeta_DeepCopyInto);
  ("Items", if_non_nil (make_each GlobalAddress_DeepCopyInto))].
Definition GlobalAddressList_DeepCopy : copier := deep_copy GlobalAddressList_DeepCopyInto.
Definition GlobalAddressList_DeepCopyObject := deep_copy_object GlobalAddressList_DeepCopy.

Definition NetworkRoutingConfig : ty := TStruct [("RoutingMode", TString)].
Definition NetworkRoutingConfig_DeepCopyInto : copier := copy_struct [].
Definition NetworkRoutingConfig_DeepCopy : copier := deep_copy NetworkRoutingConfig_DeepCopyInto.

Definition NetworkParameters : ty := TStruct [
  ("AutoCreateSubnetworks", TPtr TBool); ("Description", TPtr TString); ("RoutingConfig", TPtr NetworkRoutingConfig)].
Definition NetworkParameters_DeepCopyInto : copier := copy_struct [
  ("AutoCreateSubnetworks", if_non_nil new_copy); ("Description", if_non_nil new_copy);
  ("RoutingConfig", if_non_nil new_copy)].
Definition NetworkParameters_DeepCopy : copier := deep_copy NetworkParameters_DeepCopyInto.

Definition NetworkPeering : ty := TStruct [
  ("AutoCreateRoutes", TBool); ("ExchangeSubnetRoutes", TBool); ("Name", TString); ("Network", TString);
  ("State", TString); ("StateDetails", TString)].
Definition NetworkPeering_DeepCopyInto : copier := copy_struct [].
Definition NetworkPeering_DeepCopy : copier := deep_copy NetworkPeering_DeepCopyInto.

Definition NetworkObservation : ty := TStruct [
  ("CreationTimestamp", TString); ("GatewayIPv4", TString); ("ID", TInt); ("Peerings", TSlice (TPtr NetworkPeering));
  ("SelfLink", TString); ("Subnetworks", TSlice TString)].
Definition NetworkObservation_DeepCopyInto : copier := copy_struct [
  ("Peerings", if_non_nil (make_each (if_non_nil new_copy))); ("Subnetworks", if_non_nil make_copy)].
Definition NetworkObservation_DeepCopy : copier := deep_copy NetworkObservation_DeepCopyInto.

Definition NetworkSpec : ty := TStruct [("ResourceSpec", ResourceSpec); ("ForProvider", NetworkParameters)].
Definition NetworkSpec_DeepCopyInto : copier := copy_struct [
  ("ResourceSpec", ResourceSpec_DeepCopyInto); ("ForProvider", NetworkParameters_DeepCopyInto)].
Definition NetworkSpec_DeepCopy : copier := deep_copy NetworkSpec_DeepCopyInto.

Definition NetworkStatus : ty := TStruct [("ResourceStatus", ResourceStatus); ("AtProvider", NetworkObservation)].
Definition NetworkStatus_DeepCopyInto : copier := copy_struct [
  ("ResourceStatus", ResourceStatus_DeepCopyInto); ("AtProvider", NetworkObservation_DeepCopyInto)].
Definition NetworkStatus_DeepCopy : copier := deep_copy NetworkStatus_DeepCopyInto.

Definition Network : ty := TStruct [
  ("TypeMeta", TypeMeta); ("ObjectMeta", ObjectMeta); ("Spec", NetworkSpec); ("Status", NetworkStatus)].
Definition Network_DeepCopyInto : copier := copy_struct [
  ("TypeMeta", assign); ("ObjectMeta", ObjectMeta_DeepCopyInto); ("Spec", NetworkSpec_DeepCopyInto);
  ("Status", NetworkStatus_DeepCopyInto)].
Definition Network_DeepCopy : copier := deep_copy Network_DeepCopyInto.
Definition Network_DeepCopyObject := deep_copy_object Network_DeepCopy.

Definition NetworkList : ty := TStruct [("TypeMeta", TypeMeta); ("ListMeta", ListMeta); ("Items", TSlice Network)].
Definition NetworkList_DeepCopyInto : copier := copy_struct [
  ("TypeMeta", assign); ("ListMeta", ListMeta_DeepCopyInto); ("Items", if_non_nil (make_each Network_DeepCopyInto))].
Definition NetworkList_DeepCopy : copier := deep_copy NetworkList_DeepCopyInto.
Definition NetworkList_DeepCopyObject := deep_copy_object NetworkList_DeepCopy.

Definition SubnetworkSecondaryRange : ty := TStruct [("IPCidrRange", TString); ("RangeName", TString)].
Definition SubnetworkSecondaryRange_DeepCopyInto : copier := copy_struct [].
Definition SubnetworkSecondaryRange_DeepCopy : copier := deep_copy SubnetworkSecondaryRange_DeepCopyInto.

Definition SubnetworkParameters : ty := TStruct [
  ("IPCidrRange", TString); ("Network", TPtr TString); ("NetworkRef", TPtr Reference);
  ("NetworkSelector", TPtr Selector); ("Region", TString); ("Description", TPtr TString);
  ("EnableFlowLogs", TPtr TBool); ("PrivateIPGoogleAccess", TPtr TBool);
  ("SecondaryIPRanges", TSlice (TPtr SubnetworkSecondaryRange))].
Definition SubnetworkParameters_DeepCopyInto : copier := copy_struct [
  ("Network", if_non_nil new_copy); ("NetworkRef", if_non_nil new_copy);
  ("NetworkSelector", if_non_nil (new_into Selector_DeepCopyInto)); ("Description", if_non_nil new_copy);
  ("EnableFlowLogs", if_non_nil new_copy); ("PrivateIPGoogleAccess", if_non_nil new_copy);
  ("SecondaryIPRanges", if_non_nil (make_each (if_non_nil new_copy)))].
Definition SubnetworkParameters_DeepCopy : copier := deep_copy SubnetworkParameters_DeepCopyInto.

Definition SubnetworkObservation : ty := TStruct [
  ("CreationTimestamp", TString); ("Fingerprint", TString); ("GatewayAddress", TString); ("ID", TInt);
  ("SelfLink", TString)].
Definition SubnetworkObservation_DeepCopyInto : copier := copy_struct [].
Definition SubnetworkObservation_DeepCopy : copier := deep_copy SubnetworkObservation_DeepCopyInto.

Definition SubnetworkSpec : ty := TStruct [("ResourceSpec", ResourceSpec); ("ForProvider", SubnetworkParameters)].
Definition SubnetworkSpec_DeepCopyInto : copier := copy_struct [
  ("ResourceSpec", ResourceSpec_DeepCopyInto); ("ForProvider", SubnetworkParameters_DeepCopyInto)].
Definition SubnetworkSpec_DeepCopy : copier := deep_copy SubnetworkSpec_DeepCopyInto.

Definition SubnetworkStatus : ty := TStruct [
  ("ResourceStatus", ResourceStatus); ("AtProvider", SubnetworkObservation)].
Definition SubnetworkStatus_DeepCopyInto : copier := copy_struct [
  ("ResourceStatus", ResourceStatus_DeepCopyInto); ("AtProvider", assign)].
Definition SubnetworkStatus_DeepCopy : copier := deep_copy SubnetworkStatus_DeepCopyInto.

Definition Subnetwork : ty := TStruct [
  ("TypeMeta", TypeMeta); ("ObjectMeta", ObjectMeta); ("Spec", SubnetworkSpec); ("Status", SubnetworkStatus)].
Definition Subnetwork_DeepCopyInto : copier := copy_struct [
  ("TypeMeta", assign); ("ObjectMeta", ObjectMeta_DeepCopyInto); ("Spec", SubnetworkSpec_DeepCopyInto);
  ("Status", SubnetworkStatus_DeepCopyInto)].
Definition Subnetwork_DeepCopy : copier := deep_copy Subnetwork_DeepCopyInto.
Definition Subnetwork_DeepCopyObject := deep_copy_object Subnetwork_DeepCopy.

Definition SubnetworkList : ty := TStruct [
  ("TypeMeta", TypeMeta); ("ListMeta", ListMeta); ("Items", TSlice Subnetwork)].
Definition SubnetworkList_DeepCopyInto : copier := copy_struct [
  ("TypeMeta", assign); ("ListMeta", ListMeta_DeepCopyInto); ("Items", if_non_nil (make_each Subnetwork_DeepCopyInto))].
Definition SubnetworkList_DeepCopy : copier := deep_copy SubnetworkList_DeepCopyInto.
Definition SubnetworkList_DeepCopyObject := deep_copy_object SubnetworkList_DeepCopy.

Definition api_types : list api_type := [
  Build_api_type "GlobalAddressParameters" GlobalAddressParameters GlobalAddressParameters_DeepCopyInto GlobalAddressParameters_DeepCopy None;
  Build_api_type "GlobalAddressObservation" GlobalAddressObservation GlobalAddressObservation_DeepCopyInto GlobalAddressObservation_DeepCopy None;
  Build_api_type "GlobalAddressSpec" GlobalAddressSpec GlobalAddressSpec_DeepCopyInto GlobalAddressSpec_DeepCopy None;
  Build_api_type "GlobalAddressStatus" GlobalAddressStatus GlobalAddressStatus_DeepCopyInto GlobalAddressStatus_DeepCopy None;
  Build_api_type "GlobalAddress" GlobalAddress GlobalAddress_DeepCopyInto GlobalAddress_DeepCopy (Some GlobalAddress_DeepCopyObject);
  Build_api_type "GlobalAddressList" GlobalAddressList GlobalAddressList_DeepCopyInto GlobalAddressList_DeepCopy (Some GlobalAddressList_DeepCopyObject);
  Build_api_type "NetworkRoutingConfig" NetworkRoutingConfig NetworkRoutingConfig_DeepCopyInto NetworkRoutingConfig_DeepCopy None;
  Build_api_type "NetworkParameters" NetworkParameters NetworkParameters_DeepCopyInto NetworkParameters_DeepCopy None;
  Build_api_type "NetworkPeering" NetworkPeering NetworkPeering_DeepCopyInto NetworkPeering_DeepCopy None;
  Build_api_type "NetworkObservation" NetworkObservation NetworkObservation_DeepCopyInto NetworkObservation_DeepCopy None;
  Build_api_type "NetworkSpec" NetworkSpec NetworkSpec_DeepCopyInto NetworkSpec_DeepCopy None;
  Build_api_type "NetworkStatus" NetworkStatus NetworkStatus_DeepCopyInto NetworkStatus_DeepCopy None;
  Build_api_type "Network" Network Network_DeepCopyInto Network_DeepCopy (Some Network_DeepCopyObject);
  Build_api_type "NetworkList" NetworkList NetworkList_DeepCopyInto NetworkList_DeepCopy (Some NetworkList_DeepCopyObject);
  Build_api_type "SubnetworkSecondaryRange" SubnetworkSecondaryRange SubnetworkSecondaryRange_DeepCopyInto SubnetworkSecondaryRange_DeepCopy None;
  Build_api_type "SubnetworkParameters" SubnetworkParameters SubnetworkParameters_DeepCopyInto SubnetworkParameters_DeepCopy None;
  Build_api_type "SubnetworkObservation" SubnetworkObservation SubnetworkObservation_DeepCopyInto SubnetworkObservation_DeepCopy None;
  Build_api_type "SubnetworkSpec" SubnetworkSpec SubnetworkSpec_DeepCopyInto SubnetworkSpec_DeepCopy None;
  Build_api_type "SubnetworkStatus" SubnetworkStatus SubnetworkStatus_DeepCopyInto SubnetworkStatus_DeepCopy None;
  Build_api_type "Subnetwork" Subnetwork Subnetwork_DeepCopyInto Subnetwork_DeepCopy (Some Subnetwork_DeepCopyObject);
  Build_api_type "SubnetworkList" SubnetworkList SubnetworkList_DeepCopyInto SubnetworkList_DeepCopy (Some SubnetworkList_DeepCopyObject)].

Lemma Compute_deep_copied : Forall deep_copied api_types.
Proof using Type. solve_api_types. Qed.
End types.
