(* ===== verification/DeepCopyCluster.v ===== *)
(** * DeepCopy of the container API: Cluster

    The structs of apis/container/v1beta2 and the functions that controller-gen
    generated for them. *)

From S2P Require Import Prelude GoMemory.

Section types.
Context `{KubeTypes}.

Definition CloudRunConfig : ty := TStruct [("Disabled", TBool); ("LoadBalancerType", TPtr TString)].
Definition CloudRunConfig_DeepCopyInto : copier := copy_struct [("LoadBalancerType", if_non_nil new_copy)].
Definition CloudRunConfig_DeepCopy : copier := deep_copy CloudRunConfig_DeepCopyInto.

Definition ConfigConnectorConfig : ty := TStruct [("Enabled", TBool)].
Definition ConfigConnectorConfig_DeepCopyInto : copier := copy_struct [].
Definition ConfigConnectorConfig_DeepCopy : copier := deep_copy ConfigConnectorConfig_DeepCopyInto.

Definition DNSCacheConfig : ty := TStruct [("Enabled", TBool)].
Definition DNSCacheConfig_DeepCopyInto : copier := copy_struct [].
Definition DNSCacheConfig_DeepCopy : copier := deep_copy DNSCacheConfig_DeepCopyInto.

Definition GCEPersistentDiskCSIDriverConfig : ty := TStruct [("Enabled", TBool)].
Definition GCEPersistentDiskCSIDriverConfig_DeepCopyInto : copier := copy_struct [].
Definition GCEPersistentDiskCSIDriverConfig_DeepCopy : copier := deep_copy GCEPersistentDiskCSIDriverConfig_DeepCopyInto.

Definition HTTPLoadBalancing : ty := TStruct [("Disabled", TBool)].
Definition HTTPLoadBalancing_DeepCopyInto : copier := copy_struct [].
Definition HTTPLoadBalancing_DeepCopy : copier := deep_copy HTTPLoadBalancing_DeepCopyInto.

Definition HorizontalPodAutoscaling : ty := TStruct [("Disabled", TBool)].
Definition HorizontalPodAutoscaling_DeepCopyInto : copier := copy_struct [].
Definition HorizontalPodAutoscaling_DeepCopy : copier := deep_copy HorizontalPodAutoscaling_DeepCopyInto.

Definition KubernetesDashboard : ty := TStruct [("Disabled", TBool)].
Definition KubernetesDashboard_DeepCopyInto : copier := copy_struct [].
Definition KubernetesDashboard_DeepCopy : copier := deep_copy KubernetesDashboard_DeepCopyInto.

Definition NetworkPolicyConfig : ty := TStruct [("Disabled", TBool)].
Definition NetworkPolicyConfig_DeepCopyInto : copier := copy_struct [].
Definition NetworkPolicyConfig_DeepCopy : copier := deep_copy NetworkPolicyConfig_DeepCopyInto.

Definition AddonsConfig : ty := TStruct [
  ("CloudRunConfig", TPtr CloudRunConfig); ("ConfigConnectorConfig", TPtr ConfigConnectorConfig);
  ("DNSCacheConfig", TPtr DNSCacheConfig);
  ("GCEPersistentDiskCSIDriverConfig", TPtr GCEPersistentDiskCSIDriverConfig);
  ("HorizontalPodAutoscaling", TPtr HorizontalPodAutoscaling); ("HTTPLoadBalancing", TPtr HTTPLoadBalancing);
  ("KubernetesDashboard", TPtr KubernetesDashboard); ("NetworkPolicyConfig", TPtr NetworkPolicyConfig)].
Definition AddonsConfig_DeepCopyInto : copier := copy_struct [
  ("CloudRunConfig", if_non_nil (new_into CloudRunConfig_DeepCopyInto));
  ("ConfigConnectorConfig", if_non_nil new_copy); ("DNSCacheConfig", if_non_nil new_copy);
  ("GCEPersistentDiskCSIDriverConfig", if_non_nil new_copy); ("HorizontalPodAutoscaling", if_non_nil new_copy);
  ("HTTPLoadBalancing", if_non_nil new_copy); ("KubernetesDashboard", if_non_nil new_copy);
  ("NetworkPolicyConfig", if_non_nil new_copy)].
Definition AddonsConfig_DeepCopy : copier := deep_copy AddonsConfig_DeepCopyInto.

Definition AuthenticatorGroupsConfig : ty := TStruct [("Enabled", TPtr TBool); ("SecurityGroup", TPtr TString)].
Definition AuthenticatorGroupsConfig_DeepCopyInto : copier := copy_struct [
  ("Enabled", if_non_nil new_copy); ("SecurityGroup", if_non_nil new_copy)].
Definition AuthenticatorGroupsConfig_DeepCopy : copier := deep_copy AuthenticatorGroupsConfig_DeepCopyInto.

Definition Autopilot : ty := TStruct [("Enabled", TBool)].
Definition Autopilot_DeepCopyInto : copier := copy_struct [].
Definition Autopilot_DeepCopy : copier := deep_copy Autopilot_DeepCopyInto.

Definition BinaryAuthorization : ty := TStruct [("Enabled", TBool)].
Definition BinaryAuthorization_DeepCopyInto : copier := copy_struct [].
Definition BinaryAuthorization_DeepCopy : copier := deep_copy BinaryAuthorization_DeepCopyInto.

Definition NodeManagement : ty := TStruct [("AutoRepair", TPtr TBool); ("AutoUpgrade", TPtr TBool)].
Definition NodeManagement_DeepCopyInto : copier := copy_struct [
  ("AutoRepair", if_non_nil new_copy); ("AutoUpgrade", if_non_nil new_copy)].
Definition NodeManagement_DeepCopy : copier := deep_copy NodeManagement_DeepCopyInto.

Definition ShieldedInstanceConfig : ty := TStruct [
  ("EnableIntegrityMonitoring", TPtr TBool); ("EnableSecureBoot", TPtr TBool)].
Definition ShieldedInstanceConfig_DeepCopyInto : copier := copy_struct [
  ("EnableIntegrityMonitoring", if_non_nil new_copy); ("EnableSecureBoot", if_non_nil new_copy)].
Definition ShieldedInstanceConfig_DeepCopy : copier := deep_copy ShieldedInstanceConfig_DeepCopyInto.

Definition UpgradeSettings : ty := TStruct [("MaxSurge", TPtr TInt); ("MaxUnavailable", TPtr TInt)].
Definition UpgradeSettings_DeepCopyInto : copier := copy_struct [
  ("MaxSurge", if_non_nil new_copy); ("MaxUnavailable", if_non_nil new_copy)].
Definition UpgradeSettings_DeepCopy : copier := deep_copy UpgradeSettings_DeepCopyInto.

Definition AutoprovisioningNodePoolDefaults : ty := TStruct [
  ("BootDiskKMSKey", TPtr TString); ("DiskSizeGb", TPtr TInt); ("DiskType", TPtr TString);
  ("Management", TPtr NodeManagement); ("MinCPUPlatform", TPtr TString); ("OauthScopes", TSlice TString);
  ("ServiceAccount", TPtr TString); ("ShieldedInstanceConfig", TPtr ShieldedInstanceConfig);
  ("UpgradeSettings", TPtr UpgradeSettings)].
Definition AutoprovisioningNodePoolDefaults_DeepCopyInto : copier := copy_struct [
  ("BootDiskKMSKey", if_non_nil new_copy); ("DiskSizeGb", if_non_nil new_copy); ("DiskType", if_non_nil new_copy);
  ("Management", if_non_nil (new_into NodeManagement_DeepCopyInto)); ("MinCPUPlatform", if_non_nil new_copy);
  ("OauthScopes", if_non_nil make_copy); ("ServiceAccount", if_non_nil new_copy);
  ("ShieldedInstanceConfig", if_non_nil (new_into ShieldedInstanceConfig_DeepCopyInto));
  ("UpgradeSettings", if_non_nil (new_into UpgradeSettings_DeepCopyInto))].
Definition AutoprovisioningNodePoolDefaults_DeepCopy : copier := deep_copy AutoprovisioningNodePoolDefaults_DeepCopyInto.

Definition ResourceLimit : ty := TStruct [
  ("Maximum", TPtr TInt); ("Minimum", TPtr TInt); ("ResourceType", TPtr TString)].
Definition ResourceLimit_DeepCopyInto : copier := copy_struct [
  ("Maximum", if_non_nil new_copy); ("Minimum", if_non_nil new_copy); ("ResourceType", if_non_nil new_copy)].
Definition ResourceLimit_DeepCopy : copier := deep_copy ResourceLimit_DeepCopyInto.

Definition ClusterAutoscaling : ty := TStruct [
  ("AutoprovisioningLocations", TSlice TString);
  ("AutoprovisioningNodePoolDefaults", TPtr AutoprovisioningNodePoolDefaults);
  ("EnableNodeAutoprovisioning", TPtr TBool); ("ResourceLimits", TSlice (TPtr ResourceLimit))].
Definition ClusterAutoscaling_DeepCopyInto : copier := copy_struct [
  ("AutoprovisioningLocations", if_non_nil make_copy);
  ("AutoprovisioningNodePoolDefaults", if_non_nil (new_into AutoprovisioningNodePoolDefaults_DeepCopyInto));
  ("EnableNodeAutoprovisioning", if_non_nil new_copy);
  ("ResourceLimits", if_non_nil (make_each (if_non_nil (new_into ResourceLimit_DeepCopyInto))))].
Definition ClusterAutoscaling_DeepCopy : copier := deep_copy ClusterAutoscaling_DeepCopyInto.

Definition ConfidentialNodes : ty := TStruct [("Enabled", TBool)].
Definition ConfidentialNodes_DeepCopyInto : copier := copy_struct [].
Definition ConfidentialNodes_DeepCopy : copier := deep_copy ConfidentialNodes_DeepCopyInto.

Definition DatabaseEncryption : ty := TStruct [("KeyName", TPtr TString); ("State", TPtr TString)].
Definition DatabaseEncryption_DeepCopyInto : copier := copy_struct [
  ("KeyName", if_non_nil new_copy); ("State", if_non_nil new_copy)].
Definition DatabaseEncryption_DeepCopy : copier := deep_copy DatabaseEncryption_DeepCopyInto.

Definition IPAllocationPolicy : ty := TStruct [
  ("ClusterIpv4CidrBlock", TPtr TString); ("ClusterSecondaryRangeName", TPtr TString);
  ("CreateSubnetwork", TPtr TBool); ("NodeIpv4CidrBlock", TPtr TString); ("ServicesIpv4CidrBlock", TPtr TString);
  ("ServicesSecondaryRangeName", TPtr TString); ("SubnetworkName", TPtr TString); ("TpuIpv4CidrBlock", TPtr TString);
  ("UseIPAliases", TPtr TBool); ("UseRoutes", TPtr TBool)].
Definition IPAllocationPolicy_DeepCopyInto : copier := copy_struct [
  ("ClusterIpv4CidrBlock", if_non_nil new_copy); ("ClusterSecondaryRangeName", if_non_nil new_copy);
  ("CreateSubnetwork", if_non_nil new_copy); ("NodeIpv4CidrBlock", if_non_nil new_copy);
  ("ServicesIpv4CidrBlock", if_non_nil new_copy); ("ServicesSecondaryRangeName", if_non_nil new_copy);
  ("SubnetworkName", if_non_nil new_copy); ("TpuIpv4CidrBlock", if_non_nil new_copy);
  ("UseIPAliases", if_non_nil new_copy); ("UseRoutes", if_non_nil new_copy)].
Definition IPAllocationPolicy_DeepCopy : copier := deep_copy IPAllocationPolicy_DeepCopyInto.

Definition LegacyAbac : ty := TStruct [("Enabled", TBool)].
Definition LegacyAbac_DeepCopyInto : copier := copy_struct [].
Definition LegacyAbac_DeepCopy : copier := deep_copy LegacyAbac_DeepCopyInto.

Definition DailyMaintenanceWindowSpec : ty := TStruct [("StartTime", TString)].
Definition DailyMaintenanceWindowSpec_DeepCopyInto : copier := copy_struct [].
Definition DailyMaintenanceWindowSpec_DeepCopy : copier := deep_copy DailyMaintenanceWindowSpec_DeepCopyInto.

Definition TimeWindow : ty := TStruct [("EndTime", TString); ("StartTime", TString)].
Definition TimeWindow_DeepCopyInto : copier := copy_struct [].
Definition TimeWindow_DeepCopy : copier := deep_copy TimeWindow_DeepCopyInto.

Definition RecurringTimeWindow : ty := TStruct [("Recurrence", TPtr TString); ("Window", TPtr TimeWindow)].
Definition RecurringTimeWindow_DeepCopyInto : copier := copy_struct [
  ("Recurrence", if_non_nil new_copy); ("Window", if_non_nil new_copy)].
Definition RecurringTimeWindow_DeepCopy : copier := deep_copy RecurringTimeWindow_DeepCopyInto.

Definition MaintenanceWindowSpec : ty := TStruct [
  ("DailyMaintenanceWindow", TPtr DailyMaintenanceWindowSpec); ("MaintenanceExclusions", TMap TimeWindow);
  ("RecurringWindow", TPtr RecurringTimeWindow)].
Definition MaintenanceWindowSpec_DeepCopyInto : copier := copy_struct [
  ("DailyMaintenanceWindow", if_non_nil new_copy); ("MaintenanceExclusions", if_non_nil make_map);
  ("RecurringWindow", if_non_nil (new_into RecurringTimeWindow_DeepCopyInto))].
Definition MaintenanceWindowSpec_DeepCopy : copier := deep_copy MaintenanceWindowSpec_DeepCopyInto.

Definition MaintenancePolicySpec : ty := TStruct [("Window", MaintenanceWindowSpec)].
Definition MaintenancePolicySpec_DeepCopyInto : copier := copy_struct [
  ("Window", MaintenanceWindowSpec_DeepCopyInto)].
Definition MaintenancePolicySpec_DeepCopy : copier := deep_copy MaintenancePolicySpec_DeepCopyInto.

Definition ClientCertificateConfig : ty := TStruct [("IssueClientCertificate", TBool)].
Definition ClientCertificateConfig_DeepCopyInto : copier := copy_struct [].
Definition ClientCertificateConfig_DeepCopy : copier := deep_copy ClientCertificateConfig_DeepCopyInto.

Definition MasterAuth : ty := TStruct [
  ("ClientCertificateConfig", TPtr ClientCertificateConfig); ("Username", TPtr TString)].
Definition MasterAuth_DeepCopyInto : copier := copy_struct [
  ("ClientCertificateConfig", if_non_nil new_copy); ("Username", if_non_nil new_copy)].
Definition MasterAuth_DeepCopy : copier := deep_copy MasterAuth_DeepCopyInto.

Definition CidrBlock : ty := TStruct [("CidrBlock", TString); ("DisplayName", TPtr TString)].
Definition CidrBlock_DeepCopyInto : copier := copy_struct [("DisplayName", if_non_nil new_copy)].
Definition CidrBlock_DeepCopy : copier := deep_copy CidrBlock_DeepCopyInto.

Definition MasterAuthorizedNetworksConfig : ty := TStruct [
  ("CidrBlocks", TSlice (TPtr CidrBlock)); ("Enabled", TPtr TBool)].
Definition MasterAuthorizedNetworksConfig_DeepCopyInto : copier := copy_struct [
  ("CidrBlocks", if_non_nil (make_each (if_non_nil (new_into CidrBlock_DeepCopyInto))));
  ("Enabled", if_non_nil new_copy)].
Definition MasterAuthorizedNetworksConfig_DeepCopy : copier := deep_copy MasterAuthorizedNetworksConfig_DeepCopyInto.

Definition MaxPodsConstraint : ty := TStruct [("MaxPodsPerNode", TInt)].
Definition MaxPodsConstraint_DeepCopyInto : copier := copy_struct [].
Definition MaxPodsConstraint_DeepCopy : copier := deep_copy MaxPodsConstraint_DeepCopyInto.

Definition DefaultSnatStatus : ty := TStruct [("Disabled", TBool)].
Definition DefaultSnatStatus_DeepCopyInto : copier := copy_struct [].
Definition DefaultSnatStatus_DeepCopy : copier := deep_copy DefaultSnatStatus_DeepCopyInto.

Definition NetworkConfigSpec : ty := TStruct [
  ("DatapathProvider", TPtr TString); ("DefaultSnatStatus", TPtr DefaultSnatStatus);
  ("EnableIntraNodeVisibility", TPtr TBool); ("PrivateIpv6GoogleAccess", TPtr TString)].
Definition NetworkConfigSpec_DeepCopyInto : copier := copy_struct [
  ("DatapathProvider", if_non_nil new_copy); ("DefaultSnatStatus", if_non_nil new_copy);
  ("EnableIntraNodeVisibility", if_non_nil new_copy); ("PrivateIpv6GoogleAccess", if_non_nil new_copy)].
Definition NetworkConfigSpec_DeepCopy : copier := deep_copy NetworkConfigSpec_DeepCopyInto.

Definition NetworkPolicy : ty := TStruct [("Enabled", TPtr TBool); ("Provider", TPtr TString)].
Definition NetworkPolicy_DeepCopyInto : copier := copy_struct [
  ("Enabled", if_non_nil new_copy); ("Provider", if_non_nil new_copy)].
Definition NetworkPolicy_DeepCopy : copier := deep_copy NetworkPolicy_DeepCopyInto.

Definition PubSub : ty := TStruct [("Enabled", TBool); ("Topic", TString)].
Definition PubSub_DeepCopyInto : copier := copy_struct [].
Definition PubSub_DeepCopy : copier := deep_copy PubSub_DeepCopyInto.

Definition NotificationConfig : ty := TStruct [("Pubsub", PubSub)].
Definition NotificationConfig_DeepCopyInto : copier := copy_struct [("Pubsub", assign)].
Definition NotificationConfig_DeepCopy : copier := deep_copy NotificationConfig_DeepCopyInto.

Definition PrivateClusterMasterGlobalAccessConfig : ty := TStruct [("Enabled", TBool)].
Definition PrivateClusterMasterGlobalAccessConfig_DeepCopyInto : copier := copy_struct [].
Definition PrivateClusterMasterGlobalAccessConfig_DeepCopy : copier := deep_copy PrivateClusterMasterGlobalAccessConfig_DeepCopyInto.

Definition PrivateClusterConfigSpec : ty := TStruct [
  ("EnablePrivateEndpoint", TPtr TBool); ("EnablePrivateNodes", TPtr TBool);
  ("MasterGlobalAccessConfig", TPtr PrivateClusterMasterGlobalAccessConfig); ("MasterIpv4CidrBlock", TPtr TString)].
Definition PrivateClusterConfigSpec_DeepCopyInto : copier := copy_struct [
  ("EnablePrivateEndpoint", if_non_nil new_copy); ("EnablePrivateNodes", if_non_nil new_copy);
  ("MasterGlobalAccessConfig", if_non_nil new_copy); ("MasterIpv4CidrBlock", if_non_nil new_copy)].
Definition PrivateClusterConfigSpec_DeepCopy : copier := deep_copy PrivateClusterConfigSpec_DeepCopyInto.

Definition ReleaseChannel : ty := TStruct [("Channel", TString)].
Definition ReleaseChannel_DeepCopyInto : copier := copy_struct [].
Definition ReleaseChannel_DeepCopy : copier := deep_copy ReleaseChannel_DeepCopyInto.

Definition BigQueryDestination : ty := TStruct [("DatasetID", TString)].
Definition BigQueryDestination_DeepCopyInto : copier := copy_struct [].
Definition BigQueryDestination_DeepCopy : copier := deep_copy BigQueryDestination_DeepCopyInto.

Definition ConsumptionMeteringConfig : ty := TStruct [("Enabled", TBool)].
Definition ConsumptionMeteringConfig_DeepCopyInto : copier := copy_struct [].
Definition ConsumptionMeteringConfig_DeepCopy : copier := deep_copy ConsumptionMeteringConfig_DeepCopyInto.

Definition ResourceUsageExportConfig : ty := TStruct [
  ("BigqueryDestination", TPtr BigQueryDestination); ("ConsumptionMeteringConfig", TPtr ConsumptionMeteringConfig);
  ("EnableNetworkEgressMetering", TPtr TBool)].
Definition ResourceUsageExportConfig_DeepCopyInto : copier := copy_struct [
  ("BigqueryDestination", if_non_nil new_copy); ("ConsumptionMeteringConfig", if_non_nil new_copy);
  ("EnableNetworkEgressMetering", if_non_nil new_copy)].
Definition ResourceUsageExportConfig_DeepCopy : copier := deep_copy ResourceUsageExportConfig_DeepCopyInto.

Definition VerticalPodAutoscaling : ty := TStruct [("Enabled", TBool)].
Definition VerticalPodAutoscaling_DeepCopyInto : copier := copy_struct [].
Definition VerticalPodAutoscaling_DeepCopy : copier := deep_copy VerticalPodAutoscaling_DeepCopyInto.

Definition WorkloadIdentityConfig : ty := TStruct [("WorkloadPool", TString)].
Definition WorkloadIdentityConfig_DeepCopyInto : copier := copy_struct [].
Definition WorkloadIdentityConfig_DeepCopy : copier := deep_copy WorkloadIdentityConfig_DeepCopyInto.

Definition ClusterParameters : ty := TStruct [
  ("Location", TString); ("AddonsConfig", TPtr AddonsConfig);
  ("AuthenticatorGroupsConfig", TPtr AuthenticatorGroupsConfig); ("Autopilot", TPtr Autopilot);
  ("Autoscaling", TPtr ClusterAutoscaling); ("BinaryAuthorization", TPtr BinaryAuthorization);
  ("ClusterIpv4Cidr", TPtr TString); ("ConfidentialNodes", TPtr ConfidentialNodes);
  ("DatabaseEncryption", TPtr DatabaseEncryption); ("DefaultMaxPodsConstraint", TPtr MaxPodsConstraint);
  ("Description", TPtr TString); ("EnableKubernetesAlpha", TPtr TBool); ("EnableTpu", TPtr TBool);
  ("InitialClusterVersion", TPtr TString); ("IPAllocationPolicy", TPtr IPAllocationPolicy);
  ("LabelFingerprint", TPtr TString); ("LegacyAbac", TPtr LegacyAbac); ("Locations", TSlice TString);
  ("LoggingService", TPtr TString); ("MaintenancePolicy", TPtr MaintenancePolicySpec);
  ("MasterAuth", TPtr MasterAuth); ("MasterAuthorizedNetworksConfig", TPtr MasterAuthorizedNetworksConfig);
  ("MonitoringService", TPtr TString); ("Network", TPtr TString); ("NetworkRef", TPtr Reference);
  ("NetworkSelector", TPtr Selector); ("NetworkConfig", TPtr NetworkConfigSpec);
  ("NetworkPolicy", TPtr NetworkPolicy); ("NotificationConfig", TPtr NotificationConfig);
  ("PrivateClusterConfig", TPtr PrivateClusterConfigSpec); ("ReleaseChannel", TPtr ReleaseChannel);
  ("ResourceLabels", TMap TString); ("ResourceUsageExportConfig", TPtr ResourceUsageExportConfig);
  ("Subnetwork", TPtr TString); ("SubnetworkRef", TPtr Reference); ("SubnetworkSelector", TPtr Selector);
  ("VerticalPodAutoscaling", TPtr VerticalPodAutoscaling); ("WorkloadIdentityConfig", TPtr WorkloadIdentityConfig)].
Definition ClusterParameters_DeepCopyInto : copier := copy_struct [
  ("AddonsConfig", if_non_nil (new_into AddonsConfig_DeepCopyInto));
  ("AuthenticatorGroupsConfig", if_non_nil (new_into AuthenticatorGroupsConfig_DeepCopyInto));
  ("Autopilot", if_non_nil new_copy); ("Autoscaling", if_non_nil (new_into ClusterAutoscaling_DeepCopyInto));
  ("BinaryAuthorization", if_non_nil new_copy); ("ClusterIpv4Cidr", if_non_nil new_copy);
  ("ConfidentialNodes", if_non_nil new_copy);
  ("DatabaseEncryption", if_non_nil (new_into DatabaseEncryption_DeepCopyInto));
  ("DefaultMaxPodsConstraint", if_non_nil new_copy); ("Description", if_non_nil new_copy);
  ("EnableKubernetesAlpha", if_non_nil new_copy); ("EnableTpu", if_non_nil new_copy);
  ("InitialClusterVersion", if_non_nil new_copy);
  ("IPAllocationPolicy", if_non_nil (new_into IPAllocationPolicy_DeepCopyInto));
  ("LabelFingerprint", if_non_nil new_copy); ("LegacyAbac", if_non_nil new_copy);
  ("Locations", if_non_nil make_copy); ("LoggingService", if_non_nil new_copy);
  ("MaintenancePolicy", if_non_nil (new_into MaintenancePolicySpec_DeepCopyInto));
  ("MasterAuth", if_non_nil (new_into MasterAuth_DeepCopyInto));
  ("MasterAuthorizedNetworksConfig", if_non_nil (new_into MasterAuthorizedNetworksConfig_DeepCopyInto));
  ("MonitoringService", if_non_nil new_copy); ("Network", if_non_nil new_copy); ("NetworkRef", if_non_nil new_copy);
  ("NetworkSelector", if_non_nil (new_into Selector_DeepCopyInto));
  ("NetworkConfig", if_non_nil (new_into NetworkConfigSpec_DeepCopyInto));
  ("NetworkPolicy", if_non_nil (new_into NetworkPolicy_DeepCopyInto)); ("NotificationConfig", if_non_nil new_copy);
  ("PrivateClusterConfig", if_non_nil (new_into PrivateClusterConfigSpec_DeepCopyInto));
  ("ReleaseChannel", if_non_nil new_copy); ("ResourceLabels", if_non_nil make_map);
  ("ResourceUsageExportConfig", if_non_nil (new_into ResourceUsageExportConfig_DeepCopyInto));
  ("Subnetwork", if_non_nil new_copy); ("SubnetworkRef", if_non_nil new_copy);
  ("SubnetworkSelector", if_non_nil (new_into Selector_DeepCopyInto));
  ("VerticalPodAutoscaling", if_non_nil new_copy); ("WorkloadIdentityConfig", if_non_nil new_copy)].
Definition ClusterParameters_DeepCopy : copier := deep_copy ClusterParameters_DeepCopyInto.

Definition DailyMaintenanceWindowStatus : ty := TStruct [("Duration", TString)].
Definition DailyMaintenanceWindowStatus_DeepCopyInto : copier := copy_struct [].
Definition DailyMaintenanceWindowStatus_DeepCopy : copier := deep_copy DailyMaintenanceWindowStatus_DeepCopyInto.

Definition MaintenanceWindowStatus : ty := TStruct [("DailyMaintenanceWindow", DailyMaintenanceWindowStatus)].
Definition MaintenanceWindowStatus_DeepCopyInto : copier := copy_struct [("DailyMaintenanceWindow", assign)].
Definition MaintenanceWindowStatus_DeepCopy : copier := deep_copy MaintenanceWindowStatus_DeepCopyInto.

Definition MaintenancePolicyStatus : ty := TStruct [("Window", MaintenanceWindowStatus)].
Definition MaintenancePolicyStatus_DeepCopyInto : copier := copy_struct [("Window", assign)].
Definition MaintenancePolicyStatus_DeepCopy : copier := deep_copy MaintenancePolicyStatus_DeepCopyInto.

Definition NetworkConfigStatus : ty := TStruct [("Network", TString); ("Subnetwork", TString)].
Definition NetworkConfigStatus_DeepCopyInto : copier := copy_struct [].
Definition NetworkConfigStatus_DeepCopy : copier := deep_copy NetworkConfigStatus_DeepCopyInto.

Definition AcceleratorConfigClusterStatus : ty := TStruct [("AcceleratorCount", TInt); ("AcceleratorType", TString)].
Definition AcceleratorConfigClusterStatus_DeepCopyInto : copier := copy_struct [].
Definition AcceleratorConfigClusterStatus_DeepCopy : copier := deep_copy AcceleratorConfigClusterStatus_DeepCopyInto.

Definition NodeTaintClusterStatus : ty := TStruct [("Effect", TString); ("Key", TString); ("Value", TString)].
Definition NodeTaintClusterStatus_DeepCopyInto : copier := copy_struct [].
Definition NodeTaintClusterStatus_DeepCopy : copier := deep_copy NodeTaintClusterStatus_DeepCopyInto.

Definition SandboxConfigClusterStatus : ty := TStruct [("Type", TString)].
Definition SandboxConfigClusterStatus_DeepCopyInto : copier := copy_struct [].
Definition SandboxConfigClusterStatus_DeepCopy : copier := deep_copy SandboxConfigClusterStatus_DeepCopyInto.

Definition ShieldedInstanceConfigClusterStatus : ty := TStruct [
  ("EnableIntegrityMonitoring", TBool); ("EnableSecureBoot", TBool)].
Definition ShieldedInstanceConfigClusterStatus_DeepCopyInto : copier := copy_struct [].
Definition ShieldedInstanceConfigClusterStatus_DeepCopy : copier := deep_copy ShieldedInstanceConfigClusterStatus_DeepCopyInto.

Definition NodeConfigClusterStatus : ty := TStruct [
  ("Accelerators", TSlice (TPtr AcceleratorConfigClusterStatus)); ("DiskSizeGb", TInt); ("DiskType", TString);
  ("ImageType", TString); ("Labels", TMap TString); ("LocalSsdCount", TInt); ("MachineType", TString);
  ("Metadata", TMap TString); ("MinCPUPlatform", TString); ("OauthScopes", TSlice TString); ("Preemptible", TBool);
  ("SandboxConfig", TPtr SandboxConfigClusterStatus); ("ServiceAccount", TString);
  ("ShieldedInstanceConfig", TPtr ShieldedInstanceConfigClusterStatus); ("Tags", TSlice TString);
  ("Taints", TSlice (TPtr NodeTaintClusterStatus))].
Definition NodeConfigClusterStatus_DeepCopyInto : copier := copy_struct [
  ("Accelerators", if_non_nil (make_each (if_non_nil new_copy))); ("Labels", if_non_nil make_map);
  ("Metadata", if_non_nil make_map); ("OauthScopes", if_non_nil make_copy); ("SandboxConfig", if_non_nil new_copy);
  ("ShieldedInstanceConfig", if_non_nil new_copy); ("Tags", if_non_nil make_copy);
  ("Taints", if_non_nil (make_each (if_non_nil new_copy)))].
Definition NodeConfigClusterStatus_DeepCopy : copier := deep_copy NodeConfigClusterStatus_DeepCopyInto.

Definition AutoUpgradeOptionsClusterStatus : ty := TStruct [
  ("AutoUpgradeStartTime", TString); ("Description", TString)].
Definition AutoUpgradeOptionsClusterStatus_DeepCopyInto : copier := copy_struct [].
Definition AutoUpgradeOptionsClusterStatus_DeepCopy : copier := deep_copy AutoUpgradeOptionsClusterStatus_DeepCopyInto.

Definition NodeManagementClusterStatus : ty := TStruct [
  ("AutoRepair", TBool); ("AutoUpgrade", TBool); ("UpgradeOptions", TPtr AutoUpgradeOptionsClusterStatus)].
Definition NodeManagementClusterStatus_DeepCopyInto : copier := copy_struct [("UpgradeOptions", if_non_nil new_copy)].
Definition NodeManagementClusterStatus_DeepCopy : copier := deep_copy NodeManagementClusterStatus_DeepCopyInto.

Definition NodePoolAutoscalingClusterStatus : ty := TStruct [
  ("Autoprovisioned", TBool); ("Enabled", TBool); ("MaxNodeCount", TInt); ("MinNodeCount", TInt)].
Definition NodePoolAutoscalingClusterStatus_DeepCopyInto : copier := copy_struct [].
Definition NodePoolAutoscalingClusterStatus_DeepCopy : copier := deep_copy NodePoolAutoscalingClusterStatus_DeepCopyInto.

Definition StatusCondition : ty := TStruct [("Code", TString); ("Message", TString)].
Definition StatusCondition_DeepCopyInto : copier := copy_struct [].
Definition StatusCondition_DeepCopy : copier := deep_copy StatusCondition_DeepCopyInto.

Definition NodePoolClusterStatus : ty := TStruct [
  ("Autoscaling", TPtr NodePoolAutoscalingClusterStatus); ("Conditions", TSlice (TPtr StatusCondition));
  ("Config", TPtr NodeConfigClusterStatus); ("InitialNodeCount", TInt); ("InstanceGroupUrls", TSlice TString);
  ("Locations", TSlice TString); ("Management", TPtr NodeManagementClusterStatus);
  ("MaxPodsConstraint", TPtr MaxPodsConstraint); ("Name", TString); ("PodIpv4CidrSize", TInt); ("SelfLink", TString);
  ("Status", TString); ("StatusMessage", TString); ("Version", TString)].
Definition NodePoolClusterStatus_DeepCopyInto : copier := copy_struct [
  ("Autoscaling", if_non_nil new_copy); ("Conditions", if_non_nil (make_each (if_non_nil new_copy)));
  ("Config", if_non_nil (new_into NodeConfigClusterStatus_DeepCopyInto));
  ("InstanceGroupUrls", if_non_nil make_copy); ("Locations", if_non_nil make_copy);
  ("Management", if_non_nil (new_into NodeManagementClusterStatus_DeepCopyInto));
  ("MaxPodsConstraint", if_non_nil new_copy)].
Definition NodePoolClusterStatus_DeepCopy : copier := deep_copy NodePoolClusterStatus_DeepCopyInto.

Definition PrivateClusterConfigStatus : ty := TStruct [("PrivateEndpoint", TString); ("PublicEndpoint", TString)].
Definition PrivateClusterConfigStatus_DeepCopyInto : copier := copy_struct [].
Definition PrivateClusterConfigStatus_DeepCopy : copier := deep_copy PrivateClusterConfigStatus_DeepCopyInto.

Definition ClusterObservation : ty := TStruct [
  ("Conditions", TSlice (TPtr StatusCondition)); ("CreateTime", TString); ("CurrentMasterVersion", TString);
  ("CurrentNodeCount", TInt); ("CurrentNodeVersion", TString); ("Endpoint", TString); ("ExpireTime", TString);
  ("Location", TString); ("MaintenancePolicy", TPtr MaintenancePolicyStatus);
  ("NetworkConfig", TPtr NetworkConfigStatus); ("NodeIpv4CidrSize", TInt);
  ("PrivateClusterConfig", TPtr PrivateClusterConfigStatus); ("NodePools", TSlice (TPtr NodePoolClusterStatus));
  ("SelfLink", TString); ("ServicesIpv4Cidr", TString); ("Status", TString); ("StatusMessage", TString);
  ("TpuIpv4CidrBlock", TString); ("Zone", TString)].
Definition ClusterObservation_DeepCopyInto : copier := copy_struct [
  ("Conditions", if_non_nil (make_each (if_non_nil new_copy))); ("MaintenancePolicy", if_non_nil new_copy);
  ("NetworkConfig", if_non_nil new_copy); ("PrivateClusterConfig", if_non_nil new_copy);
  ("NodePools", if_non_nil (make_each (if_non_nil (new_into NodePoolClusterStatus_DeepCopyInto))))].
Definition ClusterObservation_DeepCopy : copier := deep_copy ClusterObservation_DeepCopyInto.

Definition ClusterSpec : ty := TStruct [("ResourceSpec", ResourceSpec); ("ForProvider", ClusterParameters)].
Definition ClusterSpec_DeepCopyInto : copier := copy_struct [
  ("ResourceSpec", ResourceSpec_DeepCopyInto); ("ForProvider", ClusterParameters_DeepCopyInto)].
Definition ClusterSpec_DeepCopy : copier := deep_copy ClusterSpec_DeepCopyInto.

Definition ClusterStatus : ty := TStruct [("ResourceStatus", ResourceStatus); ("AtProvider", ClusterObservation)].
Definition ClusterStatus_DeepCopyInto : copier := copy_struct [
  ("ResourceStatus", ResourceStatus_DeepCopyInto); ("AtProvider", ClusterObservation_DeepCopyInto)].
Definition ClusterStatus_DeepCopy : copier := deep_copy ClusterStatus_DeepCopyInto.

Definition Cluster : ty := TStruct [
  ("TypeMeta", TypeMeta); ("ObjectMeta", ObjectMeta); ("Spec", ClusterSpec); ("Status", ClusterStatus)].
Definition Cluster_DeepCopyInto : copier := copy_struct [
  ("TypeMeta", assign); ("ObjectMeta", ObjectMeta_DeepCopyInto); ("Spec", ClusterSpec_DeepCopyInto);
  ("Status", ClusterStatus_DeepCopyInto)].
Definition Cluster_DeepCopy : copier := deep_copy Cluster_DeepCopyInto.
Definition Cluster_DeepCopyObject := deep_copy_object Cluster_DeepCopy.

Definition ClusterList : ty := TStruct [("TypeMeta", TypeMeta); ("ListMeta", ListMeta); ("Items", TSlice Cluster)].
Definition ClusterList_DeepCopyInto : copier := copy_struct [
  ("TypeMeta", assign); ("ListMeta", ListMeta_DeepCopyInto); ("Items", if_non_nil (make_each Cluster_DeepCopyInto))].
Definition ClusterList_DeepCopy : copier := deep_copy ClusterList_DeepCopyInto.
Definition ClusterList_DeepCopyObject := deep_copy_object ClusterList_DeepCopy.

Definition api_types : list api_type := [
  Build_api_type "CloudRunConfig" CloudRunConfig CloudRunConfig_DeepCopyInto CloudRunConfig_DeepCopy None;
  Build_api_type "ConfigConnectorConfig" ConfigConnectorConfig ConfigConnectorConfig_DeepCopyInto ConfigConnectorConfig_DeepCopy None;
  Build_api_type "DNSCacheConfig" DNSCacheConfig DNSCacheConfig_DeepCopyInto DNSCacheConfig_DeepCopy None;
  Build_api_type "GCEPersistentDiskCSIDriverConfig" GCEPersistentDiskCSIDriverConfig GCEPersistentDiskCSIDriverConfig_DeepCopyInto GCEPersistentDiskCSIDriverConfig_DeepCopy None;
  Build_api_type "HTTPLoadBalancing" HTTPLoadBalancing HTTPLoadBalancing_DeepCopyInto HTTPLoadBalancing_DeepCopy None;
  Build_api_type "HorizontalPodAutoscaling" HorizontalPodAutoscaling HorizontalPodAutoscaling_DeepCopyInto HorizontalPodAutoscaling_DeepCopy None;
  Build_api_type "KubernetesDashboard" KubernetesDashboard KubernetesDashboard_DeepCopyInto KubernetesDashboard_DeepCopy None;
  Build_api_type "NetworkPolicyConfig" NetworkPolicyConfig NetworkPolicyConfig_DeepCopyInto NetworkPolicyConfig_DeepCopy None;
  Build_api_type "AddonsConfig" AddonsConfig AddonsConfig_DeepCopyInto AddonsConfig_DeepCopy None;
  Build_api_type "AuthenticatorGroupsConfig" AuthenticatorGroupsConfig AuthenticatorGroupsConfig_DeepCopyInto AuthenticatorGroupsConfig_DeepCopy None;
  Build_api_type "Autopilot" Autopilot Autopilot_DeepCopyInto Autopilot_DeepCopy None;
  Build_api_type "BinaryAuthorization" BinaryAuthorization BinaryAuthorization_DeepCopyInto BinaryAuthorization_DeepCopy None;
  Build_api_type "NodeManagement" NodeManagement NodeManagement_DeepCopyInto NodeManagement_DeepCopy None;
  Build_api_type "ShieldedInstanceConfig" ShieldedInstanceConfig ShieldedInstanceConfig_DeepCopyInto ShieldedInstanceConfig_DeepCopy None;
  Build_api_type "UpgradeSettings" UpgradeSettings UpgradeSettings_DeepCopyInto UpgradeSettings_DeepCopy None;
  Build_api_type "AutoprovisioningNodePoolDefaults" AutoprovisioningNodePoolDefaults AutoprovisioningNodePoolDefaults_DeepCopyInto AutoprovisioningNodePoolDefaults_DeepCopy None;
  Build_api_type "ResourceLimit" ResourceLimit ResourceLimit_DeepCopyInto ResourceLimit_DeepCopy None;
  Build_api_type "ClusterAutoscaling" ClusterAutoscaling ClusterAutoscaling_DeepCopyInto ClusterAutoscaling_DeepCopy None;
  Build_api_type "ConfidentialNodes" ConfidentialNodes ConfidentialNodes_DeepCopyInto ConfidentialNodes_DeepCopy None;
  Build_api_type "DatabaseEncryption" DatabaseEncryption DatabaseEncryption_DeepCopyInto DatabaseEncryption_DeepCopy None;
  Build_api_type "IPAllocationPolicy" IPAllocationPolicy IPAllocationPolicy_DeepCopyInto IPAllocationPolicy_DeepCopy None;
  Build_api_type "LegacyAbac" LegacyAbac LegacyAbac_DeepCopyInto LegacyAbac_DeepCopy None;
  Build_api_type "DailyMaintenanceWindowSpec" DailyMaintenanceWindowSpec DailyMaintenanceWindowSpec_DeepCopyInto DailyMaintenanceWindowSpec_DeepCopy None;
  Build_api_type "TimeWindow" TimeWindow TimeWindow_DeepCopyInto TimeWindow_DeepCopy None;
  Build_api_type "RecurringTimeWindow" RecurringTimeWindow RecurringTimeWindow_DeepCopyInto RecurringTimeWindow_DeepCopy None;
  Build_api_type "MaintenanceWindowSpec" MaintenanceWindowSpec MaintenanceWindowSpec_DeepCopyInto MaintenanceWindowSpec_DeepCopy None;
  Build_api_type "MaintenancePolicySpec" MaintenancePolicySpec MaintenancePolicySpec_DeepCopyInto MaintenancePolicySpec_DeepCopy None;
  Build_api_type "ClientCertificateConfig" ClientCertificateConfig ClientCertificateConfig_DeepCopyInto ClientCertificateConfig_DeepCopy None;
  Build_api_type "MasterAuth" MasterAuth MasterAuth_DeepCopyInto MasterAuth_DeepCopy None;
  Build_api_type "CidrBlock" CidrBlock CidrBlock_DeepCopyInto CidrBlock_DeepCopy None;
  Build_api_type "MasterAuthorizedNetworksConfig" MasterAuthorizedNetworksConfig MasterAuthorizedNetworksConfig_DeepCopyInto MasterAuthorizedNetworksConfig_DeepCopy None;
  Build_api_type "MaxPodsConstraint" MaxPodsConstraint MaxPodsConstraint_DeepCopyInto MaxPodsConstraint_DeepCopy None;
  Build_api_type "DefaultSnatStatus" DefaultSnatStatus DefaultSnatStatus_DeepCopyInto DefaultSnatStatus_DeepCopy None;
  Build_api_type "NetworkConfigSpec" NetworkConfigSpec NetworkConfigSpec_DeepCopyInto NetworkConfigSpec_DeepCopy None;
  Build_api_type "NetworkPolicy" NetworkPolicy NetworkPolicy_DeepCopyInto NetworkPolicy_DeepCopy None;
  Build_api_type "PubSub" PubSub PubSub_DeepCopyInto PubSub_DeepCopy None;
  Build_api_type "NotificationConfig" NotificationConfig NotificationConfig_DeepCopyInto NotificationConfig_DeepCopy None;
  Build_api_type "PrivateClusterMasterGlobalAccessConfig" PrivateClusterMasterGlobalAccessConfig PrivateClusterMasterGlobalAccessConfig_DeepCopyInto PrivateClusterMasterGlobalAccessConfig_DeepCopy None;
  Build_api_type "PrivateClusterConfigSpec" PrivateClusterConfigSpec PrivateClusterConfigSpec_DeepCopyInto PrivateClusterConfigSpec_DeepCopy None;
  Build_api_type "ReleaseChannel" ReleaseChannel ReleaseChannel_DeepCopyInto ReleaseChannel_DeepCopy None;
  Build_api_type "BigQueryDestination" BigQueryDestination BigQueryDestination_DeepCopyInto BigQueryDestination_DeepCopy None;
  Build_api_type "ConsumptionMeteringConfig" ConsumptionMeteringConfig ConsumptionMeteringConfig_DeepCopyInto ConsumptionMeteringConfig_DeepCopy None;
  Build_api_type "ResourceUsageExportConfig" ResourceUsageExportConfig ResourceUsageExportConfig_DeepCopyInto ResourceUsageExportConfig_DeepCopy None;
  Build_api_type "VerticalPodAutoscaling" VerticalPodAutoscaling VerticalPodAutoscaling_DeepCopyInto VerticalPodAutoscaling_DeepCopy None;
  Build_api_type "WorkloadIdentityConfig" WorkloadIdentityConfig WorkloadIdentityConfig_DeepCopyInto WorkloadIdentityConfig_DeepCopy None;
  Build_api_type "ClusterParameters" ClusterParameters ClusterParameters_DeepCopyInto ClusterParameters_DeepCopy None;
  Build_api_type "DailyMaintenanceWindowStatus" DailyMaintenanceWindowStatus DailyMaintenanceWindowStatus_DeepCopyInto DailyMaintenanceWindowStatus_DeepCopy None;
  Build_api_type "MaintenanceWindowStatus" MaintenanceWindowStatus MaintenanceWindowStatus_DeepCopyInto MaintenanceWindowStatus_DeepCopy None;
  Build_api_type "MaintenancePolicyStatus" MaintenancePolicyStatus MaintenancePolicyStatus_DeepCopyInto MaintenancePolicyStatus_DeepCopy None;
  Build_api_type "NetworkConfigStatus" NetworkConfigStatus NetworkConfigStatus_DeepCopyInto NetworkConfigStatus_DeepCopy None;
  Build_api_type "AcceleratorConfigClusterStatus" AcceleratorConfigClusterStatus AcceleratorConfigClusterStatus_DeepCopyInto AcceleratorConfigClusterStatus_DeepCopy None;
  Build_api_type "NodeTaintClusterStatus" NodeTaintClusterStatus NodeTaintClusterStatus_DeepCopyInto NodeTaintClusterStatus_DeepCopy None;
  Build_api_type "SandboxConfigClusterStatus" SandboxConfigClusterStatus SandboxConfigClusterStatus_DeepCopyInto SandboxConfigClusterStatus_DeepCopy None;
  Build_api_type "ShieldedInstanceConfigClusterStatus" ShieldedInstanceConfigClusterStatus ShieldedInstanceConfigClusterStatus_DeepCopyInto ShieldedInstanceConfigClusterStatus_DeepCopy None;
  Build_api_type "NodeConfigClusterStatus" NodeConfigClusterStatus NodeConfigClusterStatus_DeepCopyInto NodeConfigClusterStatus_DeepCopy None;
  Build_api_type "AutoUpgradeOptionsClusterStatus" AutoUpgradeOptionsClusterStatus AutoUpgradeOptionsClusterStatus_DeepCopyInto AutoUpgradeOptionsClusterStatus_DeepCopy None;
  Build_api_type "NodeManagementClusterStatus" NodeManagementClusterStatus NodeManagementClusterStatus_DeepCopyInto NodeManagementClusterStatus_DeepCopy None;
  Build_api_type "NodePoolAutoscalingClusterStatus" NodePoolAutoscalingClusterStatus NodePoolAutoscalingClusterStatus_DeepCopyInto NodePoolAutoscalingClusterStatus_DeepCopy None;
  Build_api_type "StatusCondition" StatusCondition StatusCondition_DeepCopyInto StatusCondition_DeepCopy None;
  Build_api_type "NodePoolClusterStatus" NodePoolClusterStatus NodePoolClusterStatus_DeepCopyInto NodePoolClusterStatus_DeepCopy None;
  Build_api_type "PrivateClusterConfigStatus" PrivateClusterConfigStatus PrivateClusterConfigStatus_DeepCopyInto PrivateClusterConfigStatus_DeepCopy None;
  Build_api_type "ClusterObservation" ClusterObservation ClusterObservation_DeepCopyInto ClusterObservation_DeepCopy None;
  Build_api_type "ClusterSpec" ClusterSpec ClusterSpec_DeepCopyInto ClusterSpec_DeepCopy None;
  Build_api_type "ClusterStatus" ClusterStatus ClusterStatus_DeepCopyInto ClusterStatus_DeepCopy None;
  Build_api_type "Cluster" Cluster Cluster_DeepCopyInto Cluster_DeepCopy (Some Cluster_DeepCopyObject);
  Build_api_type "ClusterList" ClusterList ClusterList_DeepCopyInto ClusterList_DeepCopy (Some ClusterList_DeepCopyObject)].

Lemma Cluster_deep_copied : Forall deep_copied api_types.
Proof using Type. solve_api_types. Qed.
End types.
