(* ===== verification/DeepCopyNodePool.v ===== *)
(** * DeepCopy of the container API: NodePool

    The structs of apis/container/v1beta1 and the functions that controller-gen
    generated for them. *)

From S2P Require Import Prelude GoMemory.
From S2P Require Import DeepCopyCluster.

Section types.
Context `{KubeTypes}.

Definition AutoUpgradeOptions : ty := TStruct [("AutoUpgradeStartTime", TString); ("Description", TString)].
Definition AutoUpgradeOptions_DeepCopyInto : copier := copy_struct [].
Definition AutoUpgradeOptions_DeepCopy : copier := deep_copy AutoUpgradeOptions_DeepCopyInto.

Definition NodeManagementStatus : ty := TStruct [("UpgradeOptions", TPtr AutoUpgradeOptions)].
Definition NodeManagementStatus_DeepCopyInto : copier := copy_struct [("UpgradeOptions", if_non_nil new_copy)].
Definition NodeManagementStatus_DeepCopy : copier := deep_copy NodeManagementStatus_DeepCopyInto.

Definition NodePoolObservation : ty := TStruct [
  ("Conditions", TSlice (TPtr DeepCopyCluster.StatusCondition)); ("InstanceGroupUrls", TSlice TString);
  ("PodIpv4CidrSize", TInt); ("Management", TPtr NodeManagementStatus); ("SelfLink", TString); ("Status", TString);
  ("StatusMessage", TString)].
Definition NodePoolObservation_DeepCopyInto : copier := copy_struct [
  ("Conditions", if_non_nil (make_each (if_non_nil new_copy))); ("InstanceGroupUrls", if_non_nil make_copy);
  ("Management", if_non_nil (new_into NodeManagementStatus_DeepCopyInto))].
Definition NodePoolObservation_DeepCopy : copier := deep_copy NodePoolObservation_DeepCopyInto.

Definition AcceleratorConfig : ty := TStruct [("AcceleratorCount", TInt); ("AcceleratorType", TString)].
Definition AcceleratorConfig_DeepCopyInto : copier := copy_struct [].
Definition AcceleratorConfig_DeepCopy : copier := deep_copy AcceleratorConfig_DeepCopyInto.

Definition LinuxNodeConfig : ty := TStruct [("Sysctls", TMap TString)].
Definition LinuxNodeConfig_DeepCopyInto : copier := copy_struct [("Sysctls", if_non_nil make_map)].
Definition LinuxNodeConfig_DeepCopy : copier := deep_copy LinuxNodeConfig_DeepCopyInto.

Definition NodeKubeletConfig : ty := TStruct [
  ("CpuCfsQuota", TPtr TBool); ("CpuCfsQuotaPeriod", TPtr TString); ("CpuManagerPolicy", TPtr TString)].
Definition NodeKubeletConfig_DeepCopyInto : copier := copy_struct [
  ("CpuCfsQuota", if_non_nil new_copy); ("CpuCfsQuotaPeriod", if_non_nil new_copy);
  ("CpuManagerPolicy", if_non_nil new_copy)].
Definition NodeKubeletConfig_DeepCopy : copier := deep_copy NodeKubeletConfig_DeepCopyInto.

Definition NodeTaint : ty := TStruct [("Effect", TString); ("Key", TString); ("Value", TString)].
Definition NodeTaint_DeepCopyInto : copier := copy_struct [].
Definition NodeTaint_DeepCopy : copier := deep_copy NodeTaint_DeepCopyInto.

Definition ReservationAffinity : ty := TStruct [
  ("ConsumeReservationType", TPtr TString); ("Key", TPtr TString); ("Values", TSlice TString)].
Definition ReservationAffinity_DeepCopyInto : copier := copy_struct [
  ("ConsumeReservationType", if_non_nil new_copy); ("Key", if_non_nil new_copy); ("Values", if_non_nil make_copy)].
Definition ReservationAffinity_DeepCopy : copier := deep_copy ReservationAffinity_DeepCopyInto.

Definition SandboxConfig : ty := TStruct [("Type", TString)].
Definition SandboxConfig_DeepCopyInto : copier := copy_struct [].
Definition SandboxConfig_DeepCopy : copier := deep_copy SandboxConfig_DeepCopyInto.

Definition ShieldedInstanceConfig : ty := TStruct [
  ("EnableIntegrityMonitoring", TPtr TBool); ("EnableSecureBoot", TPtr TBool)].
Definition ShieldedInstanceConfig_DeepCopyInto : copier := copy_struct [
  ("EnableIntegrityMonitoring", if_non_nil new_copy); ("EnableSecureBoot", if_non_nil new_copy)].
Definition ShieldedInstanceConfig_DeepCopy : copier := deep_copy ShieldedInstanceConfig_DeepCopyInto.

Definition WorkloadMetadataConfig : ty := TStruct [("Mode", TString)].
Definition WorkloadMetadataConfig_DeepCopyInto : copier := copy_struct [].
Definition WorkloadMetadataConfig_DeepCopy : copier := deep_copy WorkloadMetadataConfig_DeepCopyInto.

Definition NodeConfig : ty := TStruct [
  ("Accelerators", TSlice (TPtr AcceleratorConfig)); ("BootDiskKmsKey", TPtr TString); ("DiskSizeGb", TPtr TInt);
  ("DiskType", TPtr TString); ("ImageType", TPtr TString); ("KubeletConfig", TPtr NodeKubeletConfig);
  ("Labels", TMap TString); ("LinuxNodeConfig", TPtr LinuxNodeConfig); ("LocalSsdCount", TPtr TInt);
  ("MachineType", TPtr TString); ("Metadata", TMap TString); ("MinCPUPlatform", TPtr TString);
  ("NodeGroup", TPtr TString); ("OauthScopes", TSlice TString); ("Preemptible", TPtr TBool);
  ("ReservationAffinity", TPtr ReservationAffinity); ("SandboxConfig", TPtr SandboxConfig);
  ("ServiceAccount", TPtr TString); ("ShieldedInstanceConfig", TPtr ShieldedInstanceConfig);
  ("Tags", TSlice TString); ("Taints", TSlice (TPtr NodeTaint));
  ("WorkloadMetadataConfig", TPtr WorkloadMetadataConfig)].
Definition NodeConfig_DeepCopyInto : copier := copy_struct [
  ("Accelerators", if_non_nil (make_each (if_non_nil new_copy))); ("BootDiskKmsKey", if_non_nil new_copy);
  ("DiskSizeGb", if_non_nil new_copy); ("DiskType", if_non_nil new_copy); ("ImageType", if_non_nil new_copy);
  ("KubeletConfig", if_non_nil (new_into NodeKubeletConfig_DeepCopyInto)); ("Labels", if_non_nil make_map);
  ("LinuxNodeConfig", if_non_nil (new_into LinuxNodeConfig_DeepCopyInto)); ("LocalSsdCount", if_non_nil new_copy);
  ("MachineType", if_non_nil new_copy); ("Metadata", if_non_nil make_map); ("MinCPUPlatform", if_non_nil new_copy);
  ("NodeGroup", if_non_nil new_copy); ("OauthScopes", if_non_nil make_copy); ("Preemptible", if_non_nil new_copy);
  ("ReservationAffinity", if_non_nil (new_into ReservationAffinity_DeepCopyInto));
  ("SandboxConfig", if_non_nil new_copy); ("ServiceAccount", if_non_nil new_copy);
  ("ShieldedInstanceConfig", if_non_nil (new_into ShieldedInstanceConfig_DeepCopyInto));
  ("Tags", if_non_nil make_copy); ("Taints", if_non_nil (make_each (if_non_nil new_copy)));
  ("WorkloadMetadataConfig", if_non_nil new_copy)].
Definition NodeConfig_DeepCopy : copier := deep_copy NodeConfig_DeepCopyInto.

Definition NodeManagementSpec : ty := TStruct [("AutoRepair", TPtr TBool); ("AutoUpgrade", TPtr TBool)].
Definition NodeManagementSpec_DeepCopyInto : copier := copy_struct [
  ("AutoRepair", if_non_nil new_copy); ("AutoUpgrade", if_non_nil new_copy)].
Definition NodeManagementSpec_DeepCopy : copier := deep_copy NodeManagementSpec_DeepCopyInto.

Definition NodePoolAutoscaling : ty := TStruct [
  ("Autoprovisioned", TPtr TBool); ("Enabled", TPtr TBool); ("MaxNodeCount", TPtr TInt); ("MinNodeCount", TPtr TInt)].
Definition NodePoolAutoscaling_DeepCopyInto : copier := copy_struct [
  ("Autoprovisioned", if_non_nil new_copy); ("Enabled", if_non_nil new_copy); ("MaxNodeCount", if_non_nil new_copy);
  ("MinNodeCount", if_non_nil new_copy)].
Definition NodePoolAutoscaling_DeepCopy : copier := deep_copy NodePoolAutoscaling_DeepCopyInto.

Definition NodePoolParameters : ty := TStruct [
  ("Cluster", TString); ("ClusterRef", TPtr Reference); ("ClusterSelector", TPtr Selector);
  ("Autoscaling", TPtr NodePoolAutoscaling); ("Config", TPtr NodeConfig); ("InitialNodeCount", TPtr TInt);
  ("Locations", TSlice TString); ("Management", TPtr NodeManagementSpec);
  ("MaxPodsConstraint", TPtr DeepCopyCluster.MaxPodsConstraint);
  ("UpgradeSettings", TPtr DeepCopyCluster.UpgradeSettings); ("Version", TPtr TString)].
Definition NodePoolParameters_DeepCopyInto : copier := copy_struct [
  ("ClusterRef", if_non_nil new_copy); ("ClusterSelector", if_non_nil (new_into Selector_DeepCopyInto));
  ("Autoscaling", if_non_nil (new_into NodePoolAutoscaling_DeepCopyInto));
  ("Config", if_non_nil (new_into NodeConfig_DeepCopyInto)); ("InitialNodeCount", if_non_nil new_copy);
  ("Locations", if_non_nil make_copy); ("Management", if_non_nil (new_into NodeManagementSpec_DeepCopyInto));
  ("MaxPodsConstraint", if_non_nil new_copy);
  ("UpgradeSettings", if_non_nil (new_into DeepCopyCluster.UpgradeSettings_DeepCopyInto));
  ("Version", if_non_nil new_copy)].
Definition NodePoolParameters_DeepCopy : copier := deep_copy NodePoolParameters_DeepCopyInto.

Definition NodePoolSpec : ty := TStruct [("ResourceSpec", ResourceSpec); ("ForProvider", NodePoolParameters)].
Definition NodePoolSpec_DeepCopyInto : copier := copy_struct [
  ("ResourceSpec", ResourceSpec_DeepCopyInto); ("ForProvider", NodePoolParameters_DeepCopyInto)].
Definition NodePoolSpec_DeepCopy : copier := deep_copy NodePoolSpec_DeepCopyInto.

Definition NodePoolStatus : ty := TStruct [("ResourceStatus", ResourceStatus); ("AtProvider", NodePoolObservation)].
Definition NodePoolStatus_DeepCopyInto : copier := copy_struct [
  ("ResourceStatus", ResourceStatus_DeepCopyInto); ("AtProvider", NodePoolObservation_DeepCopyInto)].
Definition NodePoolStatus_DeepCopy : copier := deep_copy NodePoolStatus_DeepCopyInto.

Definition NodePool : ty := TStruct [
  ("TypeMeta", TypeMeta); ("ObjectMeta", ObjectMeta); ("Spec", NodePoolSpec); ("Status", NodePoolStatus)].
Definition NodePool_DeepCopyInto : copier := copy_struct [
  ("TypeMeta", assign); ("ObjectMeta", ObjectMeta_DeepCopyInto); ("Spec", NodePoolSpec_DeepCopyInto);
  ("Status", NodePoolStatus_DeepCopyInto)].
Definition NodePool_DeepCopy : copier := deep_copy NodePool_DeepCopyInto.
Definition NodePool_DeepCopyObject := deep_copy_object NodePool_DeepCopy.

Definition NodePoolList : ty := TStruct [("TypeMeta", TypeMeta); ("ListMeta", ListMeta); ("Items", TSlice NodePool)].
Definition NodePoolList_DeepCopyInto : copier := copy_struct [
  ("TypeMeta", assign); ("ListMeta", ListMeta_DeepCopyInto); ("Items", if_non_nil (make_each NodePool_DeepCopyInto))].
Definition NodePoolList_DeepCopy : copier := deep_copy NodePoolList_DeepCopyInto.
Definition NodePoolList_DeepCopyObject := deep_copy_object NodePoolList_DeepCopy.

Definition api_types : list api_type := [
  Build_api_type "AutoUpgradeOptions" AutoUpgradeOptions AutoUpgradeOptions_DeepCopyInto AutoUpgradeOptions_DeepCopy None;
  Build_api_type "NodeManagementStatus" NodeManagementStatus NodeManagementStatus_DeepCopyInto NodeManagementStatus_DeepCopy None;
  Build_api_type "NodePoolObservation" NodePoolObservation NodePoolObservation_DeepCopyInto NodePoolObservation_DeepCopy None;
  Build_api_type "AcceleratorConfig" AcceleratorConfig AcceleratorConfig_DeepCopyInto AcceleratorConfig_DeepCopy None;
  Build_api_type "LinuxNodeConfig" LinuxNodeConfig LinuxNodeConfig_DeepCopyInto LinuxNodeConfig_DeepCopy None;
  Build_api_type "NodeKubeletConfig" NodeKubeletConfig NodeKubeletConfig_DeepCopyInto NodeKubeletConfig_DeepCopy None;
  Build_api_type "NodeTaint" NodeTaint NodeTaint_DeepCopyInto NodeTaint_DeepCopy None;
  Build_api_type "ReservationAffinity" ReservationAffinity ReservationAffinity_DeepCopyInto ReservationAffinity_DeepCopy None;
  Build_api_type "SandboxConfig" SandboxConfig SandboxConfig_DeepCopyInto SandboxConfig_DeepCopy None;
  Build_api_type "ShieldedInstanceConfig" ShieldedInstanceConfig ShieldedInstanceConfig_DeepCopyInto ShieldedInstanceConfig_DeepCopy None;
  Build_api_type "WorkloadMetadataConfig" WorkloadMetadataConfig WorkloadMetadataConfig_DeepCopyInto WorkloadMetadataConfig_DeepCopy None;
  Build_api_type "NodeConfig" NodeConfig NodeConfig_DeepCopyInto NodeConfig_DeepCopy None;
  Build_api_type "NodeManagementSpec" NodeManagementSpec NodeManagementSpec_DeepCopyInto NodeManagementSpec_DeepCopy None;
  Build_api_type "NodePoolAutoscaling" NodePoolAutoscaling NodePoolAutoscaling_DeepCopyInto NodePoolAutoscaling_DeepCopy None;
  Build_api_type "NodePoolParameters" NodePoolParameters NodePoolParameters_DeepCopyInto NodePoolParameters_DeepCopy None;
  Build_api_type "NodePoolSpec" NodePoolSpec NodePoolSpec_DeepCopyInto NodePoolSpec_DeepCopy None;
  Build_api_type "NodePoolStatus" NodePoolStatus NodePoolStatus_DeepCopyInto NodePoolStatus_DeepCopy None;
  Build_api_type "NodePool" NodePool NodePool_DeepCopyInto NodePool_DeepCopy (Some NodePool_DeepCopyObject);
  Build_api_type "NodePoolList" NodePoolList NodePoolList_DeepCopyInto NodePoolList_DeepCopy (Some NodePoolList_DeepCopyObject)].

Lemma NodePool_deep_copied : Forall deep_copied api_types.
Proof using Type. solve_api_types. Qed.
End types.
