(* ===== verification/DeepCopyDatabase.v ===== *)
(** * DeepCopy of the Cloud SQL API

    The structs of apis/database/v1beta1 and the functions that controller-gen
    generated for them. *)

From S2P Require Import Prelude GoMemory.

Section types.
Context `{KubeTypes}.

Definition DatabaseInstanceFailoverReplicaSpec : ty := TStruct [("Name", TString)].
Definition DatabaseInstanceFailoverReplicaSpec_DeepCopyInto : copier := copy_struct [].
Definition DatabaseInstanceFailoverReplicaSpec_DeepCopy : copier := deep_copy DatabaseInstanceFailoverReplicaSpec_DeepCopyInto.

Definition DiskEncryptionConfiguration : ty := TStruct [("KmsKeyName", TString)].
Definition DiskEncryptionConfiguration_DeepCopyInto : copier := copy_struct [].
Definition DiskEncryptionConfiguration_DeepCopy : copier := deep_copy DiskEncryptionConfiguration_DeepCopyInto.

Definition OnPremisesConfiguration : ty := TStruct [("HostPort", TString)].
Definition OnPremisesConfiguration_DeepCopyInto : copier := copy_struct [].
Definition OnPremisesConfiguration_DeepCopy : copier := deep_copy OnPremisesConfiguration_DeepCopyInto.

Definition BackupConfiguration : ty := TStruct [
  ("BinaryLogEnabled", TPtr TBool); ("Enabled", TPtr TBool); ("Location", TPtr TString);
  ("ReplicationLogArchivingEnabled", TPtr TBool); ("StartTime", TPtr TString)].
Definition BackupConfiguration_DeepCopyInto : copier := copy_struct [
  ("BinaryLogEnabled", if_non_nil new_copy); ("Enabled", if_non_nil new_copy); ("Location", if_non_nil new_copy);
  ("ReplicationLogArchivingEnabled", if_non_nil new_copy); ("StartTime", if_non_nil new_copy)].
Definition BackupConfiguration_DeepCopy : copier := deep_copy BackupConfiguration_DeepCopyInto.

Definition DatabaseFlags : ty := TStruct [("Name", TString); ("Value", TString)].
Definition DatabaseFlags_DeepCopyInto : copier := copy_struct [].
Definition DatabaseFlags_DeepCopy : copier := deep_copy DatabaseFlags_DeepCopyInto.

Definition ACLEntry : ty := TStruct [
  ("ExpirationTime", TPtr TString); ("Name", TPtr TString); ("Value", TPtr TString)].
Definition ACLEntry_DeepCopyInto : copier := copy_struct [
  ("ExpirationTime", if_non_nil new_copy); ("Name", if_non_nil new_copy); ("Value", if_non_nil new_copy)].
Definition ACLEntry_DeepCopy : copier := deep_copy ACLEntry_DeepCopyInto.

Definition IPConfiguration : ty := TStruct [
  ("AuthorizedNetworks", TSlice (TPtr ACLEntry)); ("Ipv4Enabled", TPtr TBool); ("PrivateNetwork", TPtr TString);
  ("PrivateNetworkRef", TPtr Reference); ("PrivateNetworkSelector", TPtr Selector); ("RequireSsl", TPtr TBool)].
Definition IPConfiguration_DeepCopyInto : copier := copy_struct [
  ("AuthorizedNetworks", if_non_nil (make_each (if_non_nil (new_into ACLEntry_DeepCopyInto))));
  ("Ipv4Enabled", if_non_nil new_copy); ("PrivateNetwork", if_non_nil new_copy);
  ("PrivateNetworkRef", if_non_nil new_copy);
  ("PrivateNetworkSelector", if_non_nil (new_into Selector_DeepCopyInto)); ("RequireSsl", if_non_nil new_copy)].
Definition IPConfiguration_DeepCopy : copier := deep_copy IPConfiguration_DeepCopyInto.

Definition LocationPreference : ty := TStruct [("FollowGaeApplication", TPtr TString); ("Zone", TPtr TString)].
Definition LocationPreference_DeepCopyInto : copier := copy_struct [
  ("FollowGaeApplication", if_non_nil new_copy); ("Zone", if_non_nil new_copy)].
Definition LocationPreference_DeepCopy : copier := deep_copy LocationPreference_DeepCopyInto.

Definition MaintenanceWindow : ty := TStruct [("Day", TPtr TInt); ("Hour", TPtr TInt); ("UpdateTrack", TPtr TString)].
Definition MaintenanceWindow_DeepCopyInto : copier := copy_struct [
  ("Day", if_non_nil new_copy); ("Hour", if_non_nil new_copy); ("UpdateTrack", if_non_nil new_copy)].
Definition MaintenanceWindow_DeepCopy : copier := deep_copy MaintenanceWindow_DeepCopyInto.

Definition Settings : ty := TStruct [
  ("Tier", TString); ("ActivationPolicy", TPtr TString); ("AuthorizedGaeApplications", TSlice TString);
  ("AvailabilityType", TPtr TString); ("CrashSafeReplicationEnabled", TPtr TBool); ("StorageAutoResize", TPtr TBool);
  ("DataDiskType", TPtr TString); ("PricingPlan", TPtr TString); ("ReplicationType", TPtr TString);
  ("UserLabels", TMap TString); ("DatabaseFlags", TSlice (TPtr DatabaseFlags));
  ("BackupConfiguration", TPtr BackupConfiguration); ("IPConfiguration", TPtr IPConfiguration);
  ("LocationPreference", TPtr LocationPreference); ("MaintenanceWindow", TPtr MaintenanceWindow);
  ("DataDiskSizeGb", TPtr TInt); ("DatabaseReplicationEnabled", TPtr TBool); ("StorageAutoResizeLimit", TPtr TInt)].
Definition Settings_DeepCopyInto : copier := copy_struct [
  ("ActivationPolicy", if_non_nil new_copy); ("AuthorizedGaeApplications", if_non_nil make_copy);
  ("AvailabilityType", if_non_nil new_copy); ("CrashSafeReplicationEnabled", if_non_nil new_copy);
  ("StorageAutoResize", if_non_nil new_copy); ("DataDiskType", if_non_nil new_copy);
  ("PricingPlan", if_non_nil new_copy); ("ReplicationType", if_non_nil new_copy);
  ("UserLabels", if_non_nil make_map); ("DatabaseFlags", if_non_nil (make_each (if_non_nil new_copy)));
  ("BackupConfiguration", if_non_nil (new_into BackupConfiguration_DeepCopyInto));
  ("IPConfiguration", if_non_nil (new_into IPConfiguration_DeepCopyInto));
  ("LocationPreference", if_non_nil (new_into LocationPreference_DeepCopyInto));
  ("MaintenanceWindow", if_non_nil (new_into MaintenanceWindow_DeepCopyInto));
  ("DataDiskSizeGb", if_non_nil new_copy); ("DatabaseReplicationEnabled", if_non_nil new_copy);
  ("StorageAutoResizeLimit", if_non_nil new_copy)].
Definition Settings_DeepCopy : copier := deep_copy Settings_DeepCopyInto.

Definition CloudSQLInstanceParameters : ty := TStruct [
  ("Region", TString); ("Settings", Settings); ("DatabaseVersion", TPtr TString);
  ("MasterInstanceName", TPtr TString); ("DiskEncryptionConfiguration", TPtr DiskEncryptionConfiguration);
  ("FailoverReplica", TPtr DatabaseInstanceFailoverReplicaSpec); ("GceZone", TPtr TString);
  ("InstanceType", TPtr TString); ("MaxDiskSize", TPtr TInt);
  ("OnPremisesConfiguration", TPtr OnPremisesConfiguration); ("ReplicaNames", TSlice TString);
  ("SuspensionReason", TSlice TString)].
Definition CloudSQLInstanceParameters_DeepCopyInto : copier := copy_struct [
  ("Settings", Settings_DeepCopyInto); ("DatabaseVersion", if_non_nil new_copy);
  ("MasterInstanceName", if_non_nil new_copy); ("DiskEncryptionConfiguration", if_non_nil new_copy);
  ("FailoverReplica", if_non_nil new_copy); ("GceZone", if_non_nil new_copy); ("InstanceType", if_non_nil new_copy);
  ("MaxDiskSize", if_non_nil new_copy); ("OnPremisesConfiguration", if_non_nil new_copy);
  ("ReplicaNames", if_non_nil make_copy); ("SuspensionReason", if_non_nil make_copy)].
Definition CloudSQLInstanceParameters_DeepCopy : copier := deep_copy CloudSQLInstanceParameters_DeepCopyInto.

Definition DatabaseInstanceFailoverReplicaStatus : ty := TStruct [("Available", TBool)].
Definition DatabaseInstanceFailoverReplicaStatus_DeepCopyInto : copier := copy_struct [].
Definition DatabaseInstanceFailoverReplicaStatus_DeepCopy : copier := deep_copy DatabaseInstanceFailoverReplicaStatus_DeepCopyInto.

Definition DiskEncryptionStatus : ty := TStruct [("KmsKeyVersionName", TString)].
Definition DiskEncryptionStatus_DeepCopyInto : copier := copy_struct [].
Definition DiskEncryptionStatus_DeepCopy : copier := deep_copy DiskEncryptionStatus_DeepCopyInto.

Definition IPMapping : ty := TStruct [("IPAddress", TString); ("TimeToRetire", TString); ("Type", TString)].
Definition IPMapping_DeepCopyInto : copier := copy_struct [].
Definition IPMapping_DeepCopy : copier := deep_copy IPMapping_DeepCopyInto.

Definition CloudSQLInstanceObservation : ty := TStruct [
  ("BackendType", TString); ("CurrentDiskSize", TInt); ("ConnectionName", TString);
  ("DiskEncryptionStatus", TPtr DiskEncryptionStatus);
  ("FailoverReplica", TPtr DatabaseInstanceFailoverReplicaStatus); ("GceZone", TString);
  ("IPAddresses", TSlice (TPtr IPMapping)); ("IPv6Address", TString); ("Project", TString); ("SelfLink", TString);
  ("ServiceAccountEmailAddress", TString); ("State", TString); ("SettingsVersion", TInt)].
Definition CloudSQLInstanceObservation_DeepCopyInto : copier := copy_struct [
  ("DiskEncryptionStatus", if_non_nil new_copy); ("FailoverReplica", if_non_nil new_copy);
  ("IPAddresses", if_non_nil (make_each (if_non_nil new_copy)))].
Definition CloudSQLInstanceObservation_DeepCopy : copier := deep_copy CloudSQLInstanceObservation_DeepCopyInto.

Definition CloudSQLInstanceSpec : ty := TStruct [
  ("ResourceSpec", ResourceSpec); ("ForProvider", CloudSQLInstanceParameters)].
Definition CloudSQLInstanceSpec_DeepCopyInto : copier := copy_struct [
  ("ResourceSpec", ResourceSpec_DeepCopyInto); ("ForProvider", CloudSQLInstanceParameters_DeepCopyInto)].
Definition CloudSQLInstanceSpec_DeepCopy : copier := deep_copy CloudSQLInstanceSpec_DeepCopyInto.

Definition CloudSQLInstanceStatus : ty := TStruct [
  ("ResourceStatus", ResourceStatus); ("AtProvider", CloudSQLInstanceObservation)].
Definition CloudSQLInstanceStatus_DeepCopyInto : copier := copy_struct [
  ("ResourceStatus", ResourceStatus_DeepCopyInto); ("AtProvider", CloudSQLInstanceObservation_DeepCopyInto)].
Definition CloudSQLInstanceStatus_DeepCopy : copier := deep_copy CloudSQLInstanceStatus_DeepCopyInto.

Definition CloudSQLInstance : ty := TStruct [
  ("TypeMeta", TypeMeta); ("ObjectMeta", ObjectMeta); ("Spec", CloudSQLInstanceSpec);
  ("Status", CloudSQLInstanceStatus)].
Definition CloudSQLInstance_DeepCopyInto : copier := copy_struct [
  ("TypeMeta", assign); ("ObjectMeta", ObjectMeta_DeepCopyInto); ("Spec", CloudSQLInstanceSpec_DeepCopyInto);
  ("Status", CloudSQLInstanceStatus_DeepCopyInto)].
Definition CloudSQLInstance_DeepCopy : copier := deep_copy CloudSQLInstance_DeepCopyInto.
Definition CloudSQLInstance_DeepCopyObject := deep_copy_object CloudSQLInstance_DeepCopy.

Definition CloudSQLInstanceList : ty := TStruct [
  ("TypeMeta", TypeMeta); ("ListMeta", ListMeta); ("Items", TSlice CloudSQLInstance)].
Definition CloudSQLInstanceList_DeepCopyInto : copier := copy_struct [
  ("TypeMeta", assign); ("ListMeta", ListMeta_DeepCopyInto);
  ("Items", if_non_nil (make_each CloudSQLInstance_DeepCopyInto))].
Definition CloudSQLInstanceList_DeepCopy : copier := deep_copy CloudSQLInstanceList_DeepCopyInto.
Definition CloudSQLInstanceList_DeepCopyObject := deep_copy_object CloudSQLInstanceList_DeepCopy.

Definition api_types : list api_type := [
  Build_api_type "DatabaseInstanceFailoverReplicaSpec" DatabaseInstanceFailoverReplicaSpec DatabaseInstanceFailoverReplicaSpec_DeepCopyInto DatabaseInstanceFailoverReplicaSpec_DeepCopy None;
  Build_api_type "DiskEncryptionConfiguration" DiskEncryptionConfiguration DiskEncryptionConfiguration_DeepCopyInto DiskEncryptionConfiguration_DeepCopy None;
  Build_api_type "OnPremisesConfiguration" OnPremisesConfiguration OnPremisesConfiguration_DeepCopyInto OnPremisesConfiguration_DeepCopy None;
  Build_api_type "BackupConfiguration" BackupConfiguration BackupConfiguration_DeepCopyInto BackupConfiguration_DeepCopy None;
  Build_api_type "DatabaseFlags" DatabaseFlags DatabaseFlags_DeepCopyInto DatabaseFlags_DeepCopy None;
  Build_api_type "ACLEntry" ACLEntry ACLEntry_DeepCopyInto ACLEntry_DeepCopy None;
  Build_api_type "IPConfiguration" IPConfiguration IPConfiguration_DeepCopyInto IPConfiguration_DeepCopy None;
  Build_api_type "LocationPreference" LocationPreference LocationPreference_DeepCopyInto LocationPreference_DeepCopy None;
  Build_api_type "MaintenanceWindow" MaintenanceWindow MaintenanceWindow_DeepCopyInto MaintenanceWindow_DeepCopy None;
  Build_api_type "Settings" Settings Settings_DeepCopyInto Settings_DeepCopy None;
  Build_api_type "CloudSQLInstanceParameters" CloudSQLInstanceParameters CloudSQLInstanceParameters_DeepCopyInto CloudSQLInstanceParameters_DeepCopy None;
  Build_api_type "DatabaseInstanceFailoverReplicaStatus" DatabaseInstanceFailoverReplicaStatus DatabaseInstanceFailoverReplicaStatus_DeepCopyInto DatabaseInstanceFailoverReplicaStatus_DeepCopy None;
  Build_api_type "DiskEncryptionStatus" DiskEncryptionStatus DiskEncryptionStatus_DeepCopyInto DiskEncryptionStatus_DeepCopy None;
  Build_api_type "IPMapping" IPMapping IPMapping_DeepCopyInto IPMapping_DeepCopy None;
  Build_api_type "CloudSQLInstanceObservation" CloudSQLInstanceObservation CloudSQLInstanceObservation_DeepCopyInto CloudSQLInstanceObservation_DeepCopy None;
  Build_api_type "CloudSQLInstanceSpec" CloudSQLInstanceSpec CloudSQLInstanceSpec_DeepCopyInto CloudSQLInstanceSpec_DeepCopy None;
  Build_api_type "CloudSQLInstanceStatus" CloudSQLInstanceStatus CloudSQLInstanceStatus_DeepCopyInto CloudSQLInstanceStatus_DeepCopy None;
  Build_api_type "CloudSQLInstance" CloudSQLInstance CloudSQLInstance_DeepCopyInto CloudSQLInstance_DeepCopy (Some CloudSQLInstance_DeepCopyObject);
  Build_api_type "CloudSQLInstanceList" CloudSQLInstanceList CloudSQLInstanceList_DeepCopyInto CloudSQLInstanceList_DeepCopy (Some CloudSQLInstanceList_DeepCopyObject)].

Lemma Database_deep_copied : Forall deep_copied api_types.
Proof using Type. solve_api_types. Qed.
End types.
