(* ===== verification/DeepCopyIam.v ===== *)
(** * DeepCopy of the IAM API: service accounts, their keys and policies

    The structs of apis/iam/v1alpha1 and the functions that controller-gen
    generated for them. *)

From S2P Require Import Prelude GoMemory.

Section types.
Context `{KubeTypes}.

Definition AuditLogConfig : ty := TStruct [("ExemptedMembers", TSlice TString); ("LogType", TString)].
Definition AuditLogConfig_DeepCopyInto : copier := copy_struct [("ExemptedMembers", if_non_nil make_copy)].
Definition AuditLogConfig_DeepCopy : copier := deep_copy AuditLogConfig_DeepCopyInto.

Definition AuditConfig : ty := TStruct [("AuditLogConfigs", TSlice (TPtr AuditLogConfig)); ("Service", TString)].
Definition AuditConfig_DeepCopyInto : copier := copy_struct [
  ("AuditLogConfigs", if_non_nil (make_each (if_non_nil (new_into AuditLogConfig_DeepCopyInto))))].
Definition AuditConfig_DeepCopy : copier := deep_copy AuditConfig_DeepCopyInto.

Definition Expr : ty := TStruct [
  ("Description", TPtr TString); ("Expression", TString); ("Location", TPtr TString); ("Title", TPtr TString)].
Definition Expr_DeepCopyInto : copier := copy_struct [
  ("Description", if_non_nil new_copy); ("Location", if_non_nil new_copy); ("Title", if_non_nil new_copy)].
Definition Expr_DeepCopy : copier := deep_copy Expr_DeepCopyInto.

Definition Binding : ty := TStruct [
  ("Condition", TPtr Expr); ("Members", TSlice TString); ("ServiceAccountMemberRefs", TSlice Reference);
  ("ServiceAccountMemberSelector", TPtr Selector); ("Role", TString)].
Definition Binding_DeepCopyInto : copier := copy_struct [
  ("Condition", if_non_nil (new_into Expr_DeepCopyInto)); ("Members", if_non_nil make_copy);
  ("ServiceAccountMemberRefs", if_non_nil make_copy);
  ("ServiceAccountMemberSelector", if_non_nil (new_into Selector_DeepCopyInto))].
Definition Binding_DeepCopy : copier := deep_copy Binding_DeepCopyInto.

Definition Policy : ty := TStruct [("AuditConfigs", TSlice (TPtr AuditConfig)); ("Bindings", TSlice (TPtr Binding))].
Definition Policy_DeepCopyInto : copier := copy_struct [
  ("AuditConfigs", if_non_nil (make_each (if_non_nil (new_into AuditConfig_DeepCopyInto))));
  ("Bindings", if_non_nil (make_each (if_non_nil (new_into Binding_DeepCopyInto))))].
Definition Policy_DeepCopy : copier := deep_copy Policy_DeepCopyInto.

Definition ServiceAccountReferer : ty := TStruct [
  ("ServiceAccount", TPtr TString); ("ServiceAccountRef", TPtr Reference); ("ServiceAccountSelector", TPtr Selector)].
Definition ServiceAccountReferer_DeepCopyInto : copier := copy_struct [
  ("ServiceAccount", if_non_nil new_copy); ("ServiceAccountRef", if_non_nil new_copy);
  ("ServiceAccountSelector", if_non_nil (new_into Selector_DeepCopyInto))].
Definition ServiceAccountReferer_DeepCopy : copier := deep_copy ServiceAccountReferer_DeepCopyInto.

Definition ServiceAccountParameters : ty := TStruct [("DisplayName", TPtr TString); ("Description", TPtr TString)].
Definition ServiceAccountParameters_DeepCopyInto : copier := copy_struct [
  ("DisplayName", if_non_nil new_copy); ("Description", if_non_nil new_copy)].
Definition ServiceAccountParameters_DeepCopy : copier := deep_copy ServiceAccountParameters_DeepCopyInto.

Definition ServiceAccountObservation : ty := TStruct [
  ("Name", TString); ("ProjectID", TString); ("UniqueID", TString); ("Email", TString); ("Oauth2ClientID", TString);
  ("Disabled", TBool)].
Definition ServiceAccountObservation_DeepCopyInto : copier := copy_struct [].
Definition ServiceAccountObservation_DeepCopy : copier := deep_copy ServiceAccountObservation_DeepCopyInto.

Definition ServiceAccountSpec : ty := TStruct [
  ("ResourceSpec", ResourceSpec); ("ForProvider", ServiceAccountParameters)].
Definition ServiceAccountSpec_DeepCopyInto : copier := copy_struct [
  ("ResourceSpec", ResourceSpec_DeepCopyInto); ("ForProvider", ServiceAccountParameters_DeepCopyInto)].
Definition ServiceAccountSpec_DeepCopy : copier := deep_copy ServiceAccountSpec_DeepCopyInto.

Definition ServiceAccountStatus : ty := TStruct [
  ("ResourceStatus", ResourceStatus); ("AtProvider", ServiceAccountObservation)].
Definition ServiceAccountStatus_DeepCopyInto : copier := copy_struct [
  ("ResourceStatus", ResourceStatus_DeepCopyInto); ("AtProvider", assign)].
Definition ServiceAccountStatus_DeepCopy : copier := deep_copy ServiceAccountStatus_DeepCopyInto.

Definition ServiceAccount : ty := TStruct [
  ("TypeMeta", TypeMeta); ("ObjectMeta", ObjectMeta); ("Spec", ServiceAccountSpec); ("Status", ServiceAccountStatus)].
Definition ServiceAccount_DeepCopyInto : copier := copy_struct [
  ("TypeMeta", assign); ("ObjectMeta", ObjectMeta_DeepCopyInto); ("Spec", ServiceAccountSpec_DeepCopyInto);
  ("Status", ServiceAccountStatus_DeepCopyInto)].
Definition ServiceAccount_DeepCopy : copier := deep_copy ServiceAccount_DeepCopyInto.
Definition ServiceAccount_DeepCopyObject := deep_copy_object ServiceAccount_DeepCopy.

Definition ServiceAccountList : ty := TStruct [
  ("TypeMeta", TypeMeta); ("ListMeta", ListMeta); ("Items", TSlice ServiceAccount)].
Definition ServiceAccountList_DeepCopyInto : copier := copy_struct [
  ("TypeMeta", assign); ("ListMeta", ListMeta_DeepCopyInto);
  ("Items", if_non_nil (make_each ServiceAccount_DeepCopyInto))].
Definition ServiceAccountList_DeepCopy : copier := deep_copy ServiceAccountList_DeepCopyInto.
Definition ServiceAccountList_DeepCopyObject := deep_copy_object ServiceAccountList_DeepCopy.

Definition ServiceAccountKeyParameters : ty := TStruct [
  ("KeyAlgorithm", TPtr TString); ("PrivateKeyType", TPtr TString); ("PublicKeyType", TPtr TString);
  ("ServiceAccountReferer", ServiceAccountReferer)].
Definition ServiceAccountKeyParameters_DeepCopyInto : copier := copy_struct [
  ("KeyAlgorithm", if_non_nil new_copy); ("PrivateKeyType", if_non_nil new_copy);
  ("PublicKeyType", if_non_nil new_copy); ("ServiceAccountReferer", ServiceAccountReferer_DeepCopyInto)].
Definition ServiceAccountKeyParameters_DeepCopy : copier := deep_copy ServiceAccountKeyParameters_DeepCopyInto.

Definition ServiceAccountKeyObservation : ty := TStruct [
  ("Name", TString); ("KeyID", TString); ("PrivateKeyType", TString); ("KeyAlgorithm", TString);
  ("ValidAfterTime", TString); ("ValidBeforeTime", TString); ("KeyOrigin", TString); ("KeyType", TString)].
Definition ServiceAccountKeyObservation_DeepCopyInto : copier := copy_struct [].
Definition ServiceAccountKeyObservation_DeepCopy : copier := deep_copy ServiceAccountKeyObservation_DeepCopyInto.

Definition ServiceAccountKeySpec : ty := TStruct [
  ("ResourceSpec", ResourceSpec); ("ForProvider", ServiceAccountKeyParameters)].
Definition ServiceAccountKeySpec_DeepCopyInto : copier := copy_struct [
  ("ResourceSpec", ResourceSpec_DeepCopyInto); ("ForProvider", ServiceAccountKeyParameters_DeepCopyInto)].
Definition ServiceAccountKeySpec_DeepCopy : copier := deep_copy ServiceAccountKeySpec_DeepCopyInto.

Definition ServiceAccountKeyStatus : ty := TStruct [
  ("ResourceStatus", ResourceStatus); ("AtProvider", ServiceAccountKeyObservation)].
Definition ServiceAccountKeyStatus_DeepCopyInto : copier := copy_struct [
  ("ResourceStatus", ResourceStatus_DeepCopyInto); ("AtProvider", assign)].
Definition ServiceAccountKeyStatus_DeepCopy : copier := deep_copy ServiceAccountKeyStatus_DeepCopyInto.

Definition ServiceAccountKey : ty := TStruct [
  ("TypeMeta", TypeMeta); ("ObjectMeta", ObjectMeta); ("Spec", ServiceAccountKeySpec);
  ("Status", ServiceAccountKeyStatus)].
Definition ServiceAccountKey_DeepCopyInto : copier := copy_struct [
  ("TypeMeta", assign); ("ObjectMeta", ObjectMeta_DeepCopyInto); ("Spec", ServiceAccountKeySpec_DeepCopyInto);
  ("Status", ServiceAccountKeyStatus_DeepCopyInto)].
Definition ServiceAccountKey_DeepCopy : copier := deep_copy ServiceAccountKey_DeepCopyInto.
Definition ServiceAccountKey_DeepCopyObject := deep_copy_object ServiceAccountKey_DeepCopy.

Definition ServiceAccountKeyList : ty := TStruct [
  ("TypeMeta", TypeMeta); ("ListMeta", ListMeta); ("Items", TSlice ServiceAccountKey)].
Definition ServiceAccountKeyList_DeepCopyInto : copier := copy_struct [
  ("TypeMeta", assign); ("ListMeta", ListMeta_DeepCopyInto);
  ("Items", if_non_nil (make_each ServiceAccountKey_DeepCopyInto))].
Definition ServiceAccountKeyList_DeepCopy : copier := deep_copy ServiceAccountKeyList_DeepCopyInto.
Definition ServiceAccountKeyList_DeepCopyObject := deep_copy_object ServiceAccountKeyList_DeepCopy.

Definition ServiceAccountPolicyParameters : ty := TStruct [
  ("ServiceAccountReferer", ServiceAccountReferer); ("Policy", Policy)].
Definition ServiceAccountPolicyParameters_DeepCopyInto : copier := copy_struct [
  ("ServiceAccountReferer", ServiceAccountReferer_DeepCopyInto); ("Policy", Policy_DeepCopyInto)].
Definition ServiceAccountPolicyParameters_DeepCopy : copier := deep_copy ServiceAccountPolicyParameters_DeepCopyInto.

Definition ServiceAccountPolicySpec : ty := TStruct [
  ("ResourceSpec", ResourceSpec); ("ForProvider", ServiceAccountPolicyParameters)].
Definition ServiceAccountPolicySpec_DeepCopyInto : copier := copy_struct [
  ("ResourceSpec", ResourceSpec_DeepCopyInto); ("ForProvider", ServiceAccountPolicyParameters_DeepCopyInto)].
Definition ServiceAccountPolicySpec_DeepCopy : copier := deep_copy ServiceAccountPolicySpec_DeepCopyInto.

Definition ServiceAccountPolicyStatus : ty := TStruct [("ResourceStatus", ResourceStatus)].
Definition ServiceAccountPolicyStatus_DeepCopyInto : copier := copy_struct [
  ("ResourceStatus", ResourceStatus_DeepCopyInto)].
Definition ServiceAccountPolicyStatus_DeepCopy : copier := deep_copy ServiceAccountPolicyStatus_DeepCopyInto.

Definition ServiceAccountPolicy : ty := TStruct [
  ("TypeMeta", TypeMeta); ("ObjectMeta", ObjectMeta); ("Spec", ServiceAccountPolicySpec);
  ("Status", ServiceAccountPolicyStatus)].
Definition ServiceAccountPolicy_DeepCopyInto : copier := copy_struct [
  ("TypeMeta", assign); ("ObjectMeta", ObjectMeta_DeepCopyInto); ("Spec", ServiceAccountPolicySpec_DeepCopyInto);
  ("Status", ServiceAccountPolicyStatus_DeepCopyInto)].
Definition ServiceAccountPolicy_DeepCopy : copier := deep_copy ServiceAccountPolicy_DeepCopyInto.
Definition ServiceAccountPolicy_DeepCopyObject := deep_copy_object ServiceAccountPolicy_DeepCopy.

Definition ServiceAccountPolicyList : ty := TStruct [
  ("TypeMeta", TypeMeta); ("ListMeta", ListMeta); ("Items", TSlice ServiceAccountPolicy)].
Definition ServiceAccountPolicyList_DeepCopyInto : copier := copy_struct [
  ("TypeMeta", assign); ("ListMeta", ListMeta_DeepCopyInto);
  ("Items", if_non_nil (make_each ServiceAccountPolicy_DeepCopyInto))].
Definition ServiceAccountPolicyList_DeepCopy : copier := deep_copy ServiceAccountPolicyList_DeepCopyInto.
Definition ServiceAccountPolicyList_DeepCopyObject := deep_copy_object ServiceAccountPolicyList_DeepCopy.

Definition api_types : list api_type := [
  Build_api_type "AuditLogConfig" AuditLogConfig AuditLogConfig_DeepCopyInto AuditLogConfig_DeepCopy None;
  Build_api_type "AuditConfig" AuditConfig AuditConfig_DeepCopyInto AuditConfig_DeepCopy None;
  Build_api_type "Expr" Expr Expr_DeepCopyInto Expr_DeepCopy None;
  Build_api_type "Binding" Binding Binding_DeepCopyInto Binding_DeepCopy None;
  Build_api_type "Policy" Policy Policy_DeepCopyInto Policy_DeepCopy None;
  Build_api_type "ServiceAccountReferer" ServiceAccountReferer ServiceAccountReferer_DeepCopyInto ServiceAccountReferer_DeepCopy None;
  Build_api_type "ServiceAccountParameters" ServiceAccountParameters ServiceAccountParameters_DeepCopyInto ServiceAccountParameters_DeepCopy None;
  Build_api_type "ServiceAccountObservation" ServiceAccountObservation ServiceAccountObservation_DeepCopyInto ServiceAccountObservation_DeepCopy None;
  Build_api_type "ServiceAccountSpec" ServiceAccountSpec ServiceAccountSpec_DeepCopyInto ServiceAccountSpec_DeepCopy None;
  Build_api_type "ServiceAccountStatus" ServiceAccountStatus ServiceAccountStatus_DeepCopyInto ServiceAccountStatus_DeepCopy None;
  Build_api_type "ServiceAccount" ServiceAccount ServiceAccount_DeepCopyInto ServiceAccount_DeepCopy (Some ServiceAccount_DeepCopyObject);
  Build_api_type "ServiceAccountList" ServiceAccountList ServiceAccountList_DeepCopyInto ServiceAccountList_DeepCopy (Some ServiceAccountList_DeepCopyObject);
  Build_api_type "ServiceAccountKeyParameters" ServiceAccountKeyParameters ServiceAccountKeyParameters_DeepCopyInto ServiceAccountKeyParameters_DeepCopy None;
  Build_api_type "ServiceAccountKeyObservation" ServiceAccountKeyObservation ServiceAccountKeyObservation_DeepCopyInto ServiceAccountKeyObservation_DeepCopy None;
  Build_api_type "ServiceAccountKeySpec" ServiceAccountKeySpec ServiceAccountKeySpec_DeepCopyInto ServiceAccountKeySpec_DeepCopy None;
  Build_api_type "ServiceAccountKeyStatus" ServiceAccountKeyStatus ServiceAccountKeyStatus_DeepCopyInto ServiceAccountKeyStatus_DeepCopy None;
  Build_api_type "ServiceAccountKey" ServiceAccountKey ServiceAccountKey_DeepCopyInto ServiceAccountKey_DeepCopy (Some ServiceAccountKey_DeepCopyObject);
  Build_api_type "ServiceAccountKeyList" ServiceAccountKeyList ServiceAccountKeyList_DeepCopyInto ServiceAccountKeyList_DeepCopy (Some ServiceAccountKeyList_DeepCopyObject);
  Build_api_type "ServiceAccountPolicyParameters" ServiceAccountPolicyParameters ServiceAccountPolicyParameters_DeepCopyInto ServiceAccountPolicyParameters_DeepCopy None;
  Build_api_type "ServiceAccountPolicySpec" ServiceAccountPolicySpec ServiceAccountPolicySpec_DeepCopyInto ServiceAccountPolicySpec_DeepCopy None;
  Build_api_type "ServiceAccountPolicyStatus" ServiceAccountPolicyStatus ServiceAccountPolicyStatus_DeepCopyInto ServiceAccountPolicyStatus_DeepCopy None;
  Build_api_type "ServiceAccountPolicy" ServiceAccountPolicy ServiceAccountPolicy_DeepCopyInto ServiceAccountPolicy_DeepCopy (Some ServiceAccountPolicy_DeepCopyObject);
  Build_api_type "ServiceAccountPolicyList" ServiceAccountPolicyList ServiceAccountPolicyList_DeepCopyInto ServiceAccountPolicyList_DeepCopy (Some ServiceAccountPolicyList_DeepCopyObject)].

Lemma Iam_deep_copied : Forall deep_copied api_types.
Proof using Type. solve_api_types. Qed.
End types.
