(* ===== verification/DeepCopyKms.v ===== *)
(** * DeepCopy of the KMS API: key rings, keys and their policies

    The structs of apis/kms/v1alpha1 and the functions that controller-gen
    generated for them. *)

From S2P Require Import Prelude GoMemory.
From S2P Require Import DeepCopyIam.

Section types.
Context `{KubeTypes}.

Definition CryptoKeyVersionTemplate : ty := TStruct [("Algorithm", TPtr TString); ("ProtectionLevel", TPtr TString)].
Definition CryptoKeyVersionTemplate_DeepCopyInto : copier := copy_struct [
  ("Algorithm", if_non_nil new_copy); ("ProtectionLevel", if_non_nil new_copy)].
Definition CryptoKeyVersionTemplate_DeepCopy : copier := deep_copy CryptoKeyVersionTemplate_DeepCopyInto.

Definition CryptoKeyParameters : ty := TStruct [
  ("KeyRing", TPtr TString); ("KeyRingRef", TPtr Reference); ("KeyRingSelector", TPtr Selector);
  ("Labels", TMap TString); ("Purpose", TString); ("RotationPeriod", TPtr TString);
  ("NextRotationTime", TPtr TString); ("VersionTemplate", TPtr CryptoKeyVersionTemplate)].
Definition CryptoKeyParameters_DeepCopyInto : copier := copy_struct [
  ("KeyRing", if_non_nil new_copy); ("KeyRingRef", if_non_nil new_copy);
  ("KeyRingSelector", if_non_nil (new_into Selector_DeepCopyInto)); ("Labels", if_non_nil make_map);
  ("RotationPeriod", if_non_nil new_copy); ("NextRotationTime", if_non_nil new_copy);
  ("VersionTemplate", if_non_nil (new_into CryptoKeyVersionTemplate_DeepCopyInto))].
Definition CryptoKeyParameters_DeepCopy : copier := deep_copy CryptoKeyParameters_DeepCopyInto.

Definition ExternalProtectionLevelOptions : ty := TStruct [("ExternalKeyUri", TString)].
Definition ExternalProtectionLevelOptions_DeepCopyInto : copier := copy_struct [].
Definition ExternalProtectionLevelOptions_DeepCopy : copier := deep_copy ExternalProtectionLevelOptions_DeepCopyInto.

Definition KeyOperationAttestation : ty := TStruct [("Content", TString); ("Format", TString)].
Definition KeyOperationAttestation_DeepCopyInto : copier := copy_struct [].
Definition KeyOperationAttestation_DeepCopy : copier := deep_copy KeyOperationAttestation_DeepCopyInto.

Definition CryptoKeyVersion : ty := TStruct [
  ("Algorithm", TString); ("Attestation", TPtr KeyOperationAttestation); ("CreateTime", TString);
  ("DestroyEventTime", TString); ("DestroyTime", TString);
  ("ExternalProtectionLevelOptions", TPtr ExternalProtectionLevelOptions); ("GenerateTime", TString);
  ("ImportFailureReason", TString); ("ImportJob", TString); ("ImportTime", TString); ("Name", TString);
  ("ProtectionLevel", TString); ("State", TString)].
Definition CryptoKeyVersion_DeepCopyInto : copier := copy_struct [
  ("Attestation", if_non_nil new_copy); ("ExternalProtectionLevelOptions", if_non_nil new_copy)].
Definition CryptoKeyVersion_DeepCopy : copier := deep_copy CryptoKeyVersion_DeepCopyInto.

Definition CryptoKeyObservation : ty := TStruct [
  ("CreateTime", TString); ("Name", TString); ("NextRotationTime", TString); ("Primary", TPtr CryptoKeyVersion)].
Definition CryptoKeyObservation_DeepCopyInto : copier := copy_struct [
  ("Primary", if_non_nil (new_into CryptoKeyVersion_DeepCopyInto))].
Definition CryptoKeyObservation_DeepCopy : copier := deep_copy CryptoKeyObservation_DeepCopyInto.

Definition CryptoKeySpec : ty := TStruct [("ResourceSpec", ResourceSpec); ("ForProvider", CryptoKeyParameters)].
Definition CryptoKeySpec_DeepCopyInto : copier := copy_struct [
  ("ResourceSpec", ResourceSpec_DeepCopyInto); ("ForProvider", CryptoKeyParameters_DeepCopyInto)].
Definition CryptoKeySpec_DeepCopy : copier := deep_copy CryptoKeySpec_DeepCopyInto.

Definition CryptoKeyStatus : ty := TStruct [("ResourceStatus", ResourceStatus); ("AtProvider", CryptoKeyObservation)].
Definition CryptoKeyStatus_DeepCopyInto : copier := copy_struct [
  ("ResourceStatus", ResourceStatus_DeepCopyInto); ("AtProvider", CryptoKeyObservation_DeepCopyInto)].
Definition CryptoKeyStatus_DeepCopy : copier := deep_copy CryptoKeyStatus_DeepCopyInto.

Definition CryptoKey : ty := TStruct [
  ("TypeMeta", TypeMeta); ("ObjectMeta", ObjectMeta); ("Spec", CryptoKeySpec); ("Status", CryptoKeyStatus)].
Definition CryptoKey_DeepCopyInto : copier := copy_struct [
  ("TypeMeta", assign); ("ObjectMeta", ObjectMeta_DeepCopyInto); ("Spec", CryptoKeySpec_DeepCopyInto);
  ("Status", CryptoKeyStatus_DeepCopyInto)].
Definition CryptoKey_DeepCopy : copier := deep_copy CryptoKey_DeepCopyInto.
Definition CryptoKey_DeepCopyObject := deep_copy_object CryptoKey_DeepCopy.

Definition CryptoKeyList : ty := TStruct [
  ("TypeMeta", TypeMeta); ("ListMeta", ListMeta); ("Items", TSlice CryptoKey)].
Definition CryptoKeyList_DeepCopyInto : copier := copy_struct [
  ("TypeMeta", assign); ("ListMeta", ListMeta_DeepCopyInto); ("Items", if_non_nil (make_each CryptoKey_DeepCopyInto))].
Definition CryptoKeyList_DeepCopy : copier := deep_copy CryptoKeyList_DeepCopyInto.
Definition CryptoKeyList_DeepCopyObject := deep_copy_object CryptoKeyList_DeepCopy.

Definition CryptoKeyPolicyParameters : ty := TStruct [
  ("CryptoKey", TPtr TString); ("CryptoKeyRef", TPtr Reference); ("CryptoKeySelector", TPtr Selector);
  ("Policy", DeepCopyIam.Policy)].
Definition CryptoKeyPolicyParameters_DeepCopyInto : copier := copy_struct [
  ("CryptoKey", if_non_nil new_copy); ("CryptoKeyRef", if_non_nil new_copy);
  ("CryptoKeySelector", if_non_nil (new_into Selector_DeepCopyInto)); ("Policy", DeepCopyIam.Policy_DeepCopyInto)].
Definition CryptoKeyPolicyParameters_DeepCopy : copier := deep_copy CryptoKeyPolicyParameters_DeepCopyInto.

Definition CryptoKeyPolicySpec : ty := TStruct [
  ("ResourceSpec", ResourceSpec); ("ForProvider", CryptoKeyPolicyParameters)].
Definition CryptoKeyPolicySpec_DeepCopyInto : copier := copy_struct [
  ("ResourceSpec", ResourceSpec_DeepCopyInto); ("ForProvider", CryptoKeyPolicyParameters_DeepCopyInto)].
Definition CryptoKeyPolicySpec_DeepCopy : copier := deep_copy CryptoKeyPolicySpec_DeepCopyInto.

Definition CryptoKeyPolicyStatus : ty := TStruct [("ResourceStatus", ResourceStatus)].
Definition CryptoKeyPolicyStatus_DeepCopyInto : copier := copy_struct [
  ("ResourceStatus", ResourceStatus_DeepCopyInto)].
Definition CryptoKeyPolicyStatus_DeepCopy : copier := deep_copy CryptoKeyPolicyStatus_DeepCopyInto.

Definition CryptoKeyPolicy : ty := TStruct [
  ("TypeMeta", TypeMeta); ("ObjectMeta", ObjectMeta); ("Spec", CryptoKeyPolicySpec); ("Status", CryptoKeyPolicyStatus)].
Definition CryptoKeyPolicy_DeepCopyInto : copier := copy_struct [
  ("TypeMeta", assign); ("ObjectMeta", ObjectMeta_DeepCopyInto); ("Spec", CryptoKeyPolicySpec_DeepCopyInto);
  ("Status", CryptoKeyPolicyStatus_DeepCopyInto)].
Definition CryptoKeyPolicy_DeepCopy : copier := deep_copy CryptoKeyPolicy_DeepCopyInto.
Definition CryptoKeyPolicy_DeepCopyObject := deep_copy_object CryptoKeyPolicy_DeepCopy.

Definition CryptoKeyPolicyList : ty := TStruct [
  ("TypeMeta", TypeMeta); ("ListMeta", ListMeta); ("Items", TSlice CryptoKeyPolicy)].
Definition CryptoKeyPolicyList_DeepCopyInto : copier := copy_struct [
  ("TypeMeta", assign); ("ListMeta", ListMeta_DeepCopyInto);
  ("Items", if_non_nil (make_each CryptoKeyPolicy_DeepCopyInto))].
Definition CryptoKeyPolicyList_DeepCopy : copier := deep_copy CryptoKeyPolicyList_DeepCopyInto.
Definition CryptoKeyPolicyList_DeepCopyObject := deep_copy_object CryptoKeyPolicyList_DeepCopy.

Definition KeyRingParameters : ty := TStruct [("Location", TString)].
Definition KeyRingParameters_DeepCopyInto : copier := copy_struct [].
Definition KeyRingParameters_DeepCopy : copier := deep_copy KeyRingParameters_DeepCopyInto.

Definition KeyRingObservation : ty := TStruct [("CreateTime", TString); ("Name", TString)].
Definition KeyRingObservation_DeepCopyInto : copier := copy_struct [].
Definition KeyRingObservation_DeepCopy : copier := deep_copy KeyRingObservation_DeepCopyInto.

Definition KeyRingSpec : ty := TStruct [("ResourceSpec", ResourceSpec); ("ForProvider", KeyRingParameters)].
Definition KeyRingSpec_DeepCopyInto : copier := copy_struct [
  ("ResourceSpec", ResourceSpec_DeepCopyInto); ("ForProvider", assign)].
Definition KeyRingSpec_DeepCopy : copier := deep_copy KeyRingSpec_DeepCopyInto.

Definition KeyRingStatus : ty := TStruct [("ResourceStatus", ResourceStatus); ("AtProvider", KeyRingObservation)].
Definition KeyRingStatus_DeepCopyInto : copier := copy_struct [
  ("ResourceStatus", ResourceStatus_DeepCopyInto); ("AtProvider", assign)].
Definition KeyRingStatus_DeepCopy : copier := deep_copy KeyRingStatus_DeepCopyInto.

Definition KeyRing : ty := TStruct [
  ("TypeMeta", TypeMeta); ("ObjectMeta", ObjectMeta); ("Spec", KeyRingSpec); ("Status", KeyRingStatus)].
Definition KeyRing_DeepCopyInto : copier := copy_struct [
  ("TypeMeta", assign); ("ObjectMeta", ObjectMeta_DeepCopyInto); ("Spec", KeyRingSpec_DeepCopyInto);
  ("Status", KeyRingStatus_DeepCopyInto)].
Definition KeyRing_DeepCopy : copier := deep_copy KeyRing_DeepCopyInto.
Definition KeyRing_DeepCopyObject := deep_copy_object KeyRing_DeepCopy.

Definition KeyRingList : ty := TStruct [("TypeMeta", TypeMeta); ("ListMeta", ListMeta); ("Items", TSlice KeyRing)].
Definition KeyRingList_DeepCopyInto : copier := copy_struct [
  ("TypeMeta", assign); ("ListMeta", ListMeta_DeepCopyInto); ("Items", if_non_nil (make_each KeyRing_DeepCopyInto))].
Definition KeyRingList_DeepCopy : copier := deep_copy KeyRingList_DeepCopyInto.
Definition KeyRingList_DeepCopyObject := deep_copy_object KeyRingList_DeepCopy.

Definition api_types : list api_type := [
  Build_api_type "CryptoKeyVersionTemplate" CryptoKeyVersionTemplate CryptoKeyVersionTemplate_DeepCopyInto CryptoKeyVersionTemplate_DeepCopy None;
  Build_api_type "CryptoKeyParameters" CryptoKeyParameters CryptoKeyParameters_DeepCopyInto CryptoKeyParameters_DeepCopy None;
  Build_api_type "ExternalProtectionLevelOptions" ExternalProtectionLevelOptions ExternalProtectionLevelOptions_DeepCopyInto ExternalProtectionLevelOptions_DeepCopy None;
  Build_api_type "KeyOperationAttestation" KeyOperationAttestation KeyOperationAttestation_DeepCopyInto KeyOperationAttestation_DeepCopy None;
  Build_api_type "CryptoKeyVersion" CryptoKeyVersion CryptoKeyVersion_DeepCopyInto CryptoKeyVersion_DeepCopy None;
  Build_api_type "CryptoKeyObservation" CryptoKeyObservation CryptoKeyObservation_DeepCopyInto CryptoKeyObservation_DeepCopy None;
  Build_api_type "CryptoKeySpec" CryptoKeySpec CryptoKeySpec_DeepCopyInto CryptoKeySpec_DeepCopy None;
  Build_api_type "CryptoKeyStatus" CryptoKeyStatus CryptoKeyStatus_DeepCopyInto CryptoKeyStatus_DeepCopy None;
  Build_api_type "CryptoKey" CryptoKey CryptoKey_DeepCopyInto CryptoKey_DeepCopy (Some CryptoKey_DeepCopyObject);
  Build_api_type "CryptoKeyList" CryptoKeyList CryptoKeyList_DeepCopyInto CryptoKeyList_DeepCopy (Some CryptoKeyList_DeepCopyObject);
  Build_api_type "CryptoKeyPolicyParameters" CryptoKeyPolicyParameters CryptoKeyPolicyParameters_DeepCopyInto CryptoKeyPolicyParameters_DeepCopy None;
  Build_api_type "CryptoKeyPolicySpec" CryptoKeyPolicySpec CryptoKeyPolicySpec_DeepCopyInto CryptoKeyPolicySpec_DeepCopy None;
  Build_api_type "CryptoKeyPolicyStatus" CryptoKeyPolicyStatus CryptoKeyPolicyStatus_DeepCopyInto CryptoKeyPolicyStatus_DeepCopy None;
  Build_api_type "CryptoKeyPolicy" CryptoKeyPolicy CryptoKeyPolicy_DeepCopyInto CryptoKeyPolicy_DeepCopy (Some CryptoKeyPolicy_DeepCopyObject);
  Build_api_type "CryptoKeyPolicyList" CryptoKeyPolicyList CryptoKeyPolicyList_DeepCopyInto CryptoKeyPolicyList_DeepCopy (Some CryptoKeyPolicyList_DeepCopyObject);
  Build_api_type "KeyRingParameters" KeyRingParameters KeyRingParameters_DeepCopyInto KeyRingParameters_DeepCopy None;
  Build_api_type "KeyRingObservation" KeyRingObservation KeyRingObservation_DeepCopyInto KeyRingObservation_DeepCopy None;
  Build_api_type "KeyRingSpec" KeyRingSpec KeyRingSpec_DeepCopyInto KeyRingSpec_DeepCopy None;
  Build_api_type "KeyRingStatus" KeyRingStatus KeyRingStatus_DeepCopyInto KeyRingStatus_DeepCopy None;
  Build_api_type "KeyRing" KeyRing KeyRing_DeepCopyInto KeyRing_DeepCopy (Some KeyRing_DeepCopyObject);
  Build_api_type "KeyRingList" KeyRingList KeyRingList_DeepCopyInto KeyRingList_DeepCopy (Some KeyRingList_DeepCopyObject)].

Lemma Kms_deep_copied : Forall deep_copied api_types.
Proof using Type. solve_api_types. Qed.
End types.
