(* ===== verification/DeepCopyPubsub.v ===== *)
(** * DeepCopy of the Pub/Sub API

    The structs of apis/pubsub/v1alpha1 and the functions that controller-gen
    generated for them. *)

From S2P Require Import Prelude GoMemory.

Section types.
Context `{KubeTypes}.

Definition MessageStoragePolicy : ty := TStruct [("AllowedPersistenceRegions", TSlice TString)].
Definition MessageStoragePolicy_DeepCopyInto : copier := copy_struct [
  ("AllowedPersistenceRegions", if_non_nil make_copy)].
Definition MessageStoragePolicy_DeepCopy : copier := deep_copy MessageStoragePolicy_DeepCopyInto.

Definition TopicParameters : ty := TStruct [
  ("Labels", TMap TString); ("MessageStoragePolicy", TPtr MessageStoragePolicy); ("KmsKeyName", TPtr TString)].
Definition TopicParameters_DeepCopyInto : copier := copy_struct [
  ("Labels", if_non_nil make_map); ("MessageStoragePolicy", if_non_nil (new_into MessageStoragePolicy_DeepCopyInto));
  ("KmsKeyName", if_non_nil new_copy)].
Definition TopicParameters_DeepCopy : copier := deep_copy TopicParameters_DeepCopyInto.

Definition TopicSpec : ty := TStruct [("ResourceSpec", ResourceSpec); ("ForProvider", TopicParameters)].
Definition TopicSpec_DeepCopyInto : copier := copy_struct [
  ("ResourceSpec", ResourceSpec_DeepCopyInto); ("ForProvider", TopicParameters_DeepCopyInto)].
Definition TopicSpec_DeepCopy : copier := deep_copy TopicSpec_DeepCopyInto.

Definition TopicStatus : ty := TStruct [("ResourceStatus", ResourceStatus)].
Definition TopicStatus_DeepCopyInto : copier := copy_struct [("ResourceStatus", ResourceStatus_DeepCopyInto)].
Definition TopicStatus_DeepCopy : copier := deep_copy TopicStatus_DeepCopyInto.

Definition Topic : ty := TStruct [
  ("TypeMeta", TypeMeta); ("ObjectMeta", ObjectMeta); ("Spec", TopicSpec); ("Status", TopicStatus)].
Definition Topic_DeepCopyInto : copier := copy_struct [
  ("TypeMeta", assign); ("ObjectMeta", ObjectMeta_DeepCopyInto); ("Spec", TopicSpec_DeepCopyInto);
  ("Status", TopicStatus_DeepCopyInto)].
Definition Topic_DeepCopy : copier := deep_copy Topic_DeepCopyInto.
Definition Topic_DeepCopyObject := deep_copy_object Topic_DeepCopy.

Definition TopicList : ty := TStruct [("TypeMeta", TypeMeta); ("ListMeta", ListMeta); ("Items", TSlice Topic)].
Definition TopicList_DeepCopyInto : copier := copy_struct [
  ("TypeMeta", assign); ("ListMeta", ListMeta_DeepCopyInto); ("Items", if_non_nil (make_each Topic_DeepCopyInto))].
Definition TopicList_DeepCopy : copier := deep_copy TopicList_DeepCopyInto.
Definition TopicList_DeepCopyObject := deep_copy_object TopicList_DeepCopy.

Definition api_types : list api_type := [
  Build_api_type "MessageStoragePolicy" MessageStoragePolicy MessageStoragePolicy_DeepCopyInto MessageStoragePolicy_DeepCopy None;
  Build_api_type "TopicParameters" TopicParameters TopicParameters_DeepCopyInto TopicParameters_DeepCopy None;
  Build_api_type "TopicSpec" TopicSpec TopicSpec_DeepCopyInto TopicSpec_DeepCopy None;
  Build_api_type "TopicStatus" TopicStatus TopicStatus_DeepCopyInto TopicStatus_DeepCopy None;
  Build_api_type "Topic" Topic Topic_DeepCopyInto Topic_DeepCopy (Some Topic_DeepCopyObject);
  Build_api_type "TopicList" TopicList TopicList_DeepCopyInto TopicList_DeepCopy (Some TopicList_DeepCopyObject)].

Lemma Pubsub_deep_copied : Forall deep_copied api_types.
Proof using Type. solve_api_types. Qed.
End types.
