(* ===== verification/DeepCopyConnection.v ===== *)
(** * DeepCopy of the service networking API

    The structs of apis/servicenetworking/v1beta1 and the functions that controller-gen
    generated for them. *)

From S2P Require Import Prelude GoMemory.

Section types.
Context `{KubeTypes}.

Definition ConnectionParameters : ty := TStruct [
  ("Parent", TString); ("Network", TPtr TString); ("NetworkRef", TPtr Reference); ("NetworkSelector", TPtr Selector);
  ("ReservedPeeringRanges", TSlice TString); ("ReservedPeeringRangeRefs", TSlice Reference);
  ("ReservedPeeringRangeSelector", Selector)].
Definition ConnectionParameters_DeepCopyInto : copier := copy_struct [
  ("Network", if_non_nil new_copy); ("NetworkRef", if_non_nil new_copy);
  ("NetworkSelector", if_non_nil (new_into Selector_DeepCopyInto)); ("ReservedPeeringRanges", if_non_nil make_copy);
  ("ReservedPeeringRangeRefs", if_non_nil make_copy); ("ReservedPeeringRangeSelector", Selector_DeepCopyInto)].
Definition ConnectionParameters_DeepCopy : copier := deep_copy ConnectionParameters_DeepCopyInto.

Definition ConnectionObservation : ty := TStruct [("Peering", TString); ("Service", TString)].
Definition ConnectionObservation_DeepCopyInto : copier := copy_struct [].
Definition ConnectionObservation_DeepCopy : copier := deep_copy ConnectionObservation_DeepCopyInto.

Definition ConnectionSpec : ty := TStruct [("ResourceSpec", ResourceSpec); ("ForProvider", ConnectionParameters)].
Definition ConnectionSpec_DeepCopyInto : copier := copy_struct [
  ("ResourceSpec", ResourceSpec_DeepCopyInto); ("ForProvider", ConnectionParameters_DeepCopyInto)].
Definition ConnectionSpec_DeepCopy : copier := deep_copy ConnectionSpec_DeepCopyInto.

Definition ConnectionStatus : ty := TStruct [
  ("ResourceStatus", ResourceStatus); ("AtProvider", ConnectionObservation)].
Definition ConnectionStatus_DeepCopyInto : copier := copy_struct [
  ("ResourceStatus", ResourceStatus_DeepCopyInto); ("AtProvider", assign)].
Definition ConnectionStatus_DeepCopy : copier := deep_copy ConnectionStatus_DeepCopyInto.

Definition Connection : ty := TStruct [
  ("TypeMeta", TypeMeta); ("ObjectMeta", ObjectMeta); ("Spec", ConnectionSpec); ("Status", ConnectionStatus)].
Definition Connection_DeepCopyInto : copier := copy_struct [
  ("TypeMeta", assign); ("ObjectMeta", ObjectMeta_DeepCopyInto); ("Spec", ConnectionSpec_DeepCopyInto);
  ("Status", ConnectionStatus_DeepCopyInto)].
Definition Connection_DeepCopy : copier := deep_copy Connection_DeepCopyInto.
Definition Connection_DeepCopyObject := deep_copy_object Connection_DeepCopy.

Definition ConnectionList : ty := TStruct [
  ("TypeMeta", TypeMeta); ("ListMeta", ListMeta); ("Items", TSlice Connection)].
Definition ConnectionList_DeepCopyInto : copier := copy_struct [
  ("TypeMeta", assign); ("ListMeta", ListMeta_DeepCopyInto); ("Items", if_non_nil (make_each Connection_DeepCopyInto))].
Definition ConnectionList_DeepCopy : copier := deep_copy ConnectionList_DeepCopyInto.
Definition ConnectionList_DeepCopyObject := deep_copy_object ConnectionList_DeepCopy.

Definition api_types : list api_type := [
  Build_api_type "ConnectionParameters" ConnectionParameters ConnectionParameters_DeepCopyInto ConnectionParameters_DeepCopy None;
  Build_api_type "ConnectionObservation" ConnectionObservation ConnectionObservation_DeepCopyInto ConnectionObservation_DeepCopy None;
  Build_api_type "ConnectionSpec" ConnectionSpec ConnectionSpec_DeepCopyInto ConnectionSpec_DeepCopy None;
  Build_api_type "ConnectionStatus" ConnectionStatus ConnectionStatus_DeepCopyInto ConnectionStatus_DeepCopy None;
  Build_api_type "Connection" Connection Connection_DeepCopyInto Connection_DeepCopy (Some Connection_DeepCopyObject);
  Build_api_type "ConnectionList" ConnectionList ConnectionList_DeepCopyInto ConnectionList_DeepCopy (Some ConnectionList_DeepCopyObject)].

Lemma Connection_deep_copied : Forall deep_copied api_types.
Proof using Type. solve_api_types. Qed.
End types.
