(* ===== verification/DeepCopyBucketPolicy.v ===== *)
(** * DeepCopy of the storage API: bucket policies and their members

    The structs of apis/storage/v1alpha1 and the functions that controller-gen
    generated for them. *)

From S2P Require Import Prelude GoMemory.
From S2P Require Import DeepCopyIam.

Section types.
Context `{KubeTypes}.

Definition BucketPolicyParameters : ty := TStruct [
  ("Bucket", TPtr TString); ("BucketRef", TPtr Reference); ("BucketSelector", TPtr Selector);
  ("Policy", DeepCopyIam.Policy)].
Definition BucketPolicyParameters_DeepCopyInto : copier := copy_struct [
  ("Bucket", if_non_nil new_copy); ("BucketRef", if_non_nil new_copy);
  ("BucketSelector", if_non_nil (new_into Selector_DeepCopyInto)); ("Policy", DeepCopyIam.Policy_DeepCopyInto)].
Definition BucketPolicyParameters_DeepCopy : copier := deep_copy BucketPolicyParameters_DeepCopyInto.

Definition BucketPolicyObservation : ty := TStruct [("Version", TInt)].
Definition BucketPolicyObservation_DeepCopyInto : copier := copy_struct [].
Definition BucketPolicyObservation_DeepCopy : copier := deep_copy BucketPolicyObservation_DeepCopyInto.

Definition BucketPolicySpec : ty := TStruct [("ResourceSpec", ResourceSpec); ("ForProvider", BucketPolicyParameters)].
Definition BucketPolicySpec_DeepCopyInto : copier := copy_struct [
  ("ResourceSpec", ResourceSpec_DeepCopyInto); ("ForProvider", BucketPolicyParameters_DeepCopyInto)].
Definition BucketPolicySpec_DeepCopy : copier := deep_copy BucketPolicySpec_DeepCopyInto.

Definition BucketPolicyStatus : ty := TStruct [
  ("ResourceStatus", ResourceStatus); ("AtProvider", BucketPolicyObservation)].
Definition BucketPolicyStatus_DeepCopyInto : copier := copy_struct [
  ("ResourceStatus", ResourceStatus_DeepCopyInto); ("AtProvider", assign)].
Definition BucketPolicyStatus_DeepCopy : copier := deep_copy BucketPolicyStatus_DeepCopyInto.

Definition BucketPolicy : ty := TStruct [
  ("TypeMeta", TypeMeta); ("ObjectMeta", ObjectMeta); ("Spec", BucketPolicySpec); ("Status", BucketPolicyStatus)].
Definition BucketPolicy_DeepCopyInto : copier := copy_struct [
  ("TypeMeta", assign); ("ObjectMeta", ObjectMeta_DeepCopyInto); ("Spec", BucketPolicySpec_DeepCopyInto);
  ("Status", BucketPolicyStatus_DeepCopyInto)].
Definition BucketPolicy_DeepCopy : copier := deep_copy BucketPolicy_DeepCopyInto.
Definition BucketPolicy_DeepCopyObject := deep_copy_object BucketPolicy_DeepCopy.

Definition BucketPolicyList : ty := TStruct [
  ("TypeMeta", TypeMeta); ("ListMeta", ListMeta); ("Items", TSlice BucketPolicy)].
Definition BucketPolicyList_DeepCopyInto : copier := copy_struct [
  ("TypeMeta", assign); ("ListMeta", ListMeta_DeepCopyInto);
  ("Items", if_non_nil (make_each BucketPolicy_DeepCopyInto))].
Definition BucketPolicyList_DeepCopy : copier := deep_copy BucketPolicyList_DeepCopyInto.
Definition BucketPolicyList_DeepCopyObject := deep_copy_object BucketPolicyList_DeepCopy.

Definition BucketPolicyMemberParameters : ty := TStruct [
  ("Bucket", TPtr TString); ("BucketRef", TPtr Reference); ("BucketSelector", TPtr Selector); ("Role", TString);
  ("Member", TPtr TString); ("ServiceAccountMemberRef", TPtr Reference);
  ("ServiceAccountMemberSelector", TPtr Selector)].
Definition BucketPolicyMemberParameters_DeepCopyInto : copier := copy_struct [
  ("Bucket", if_non_nil new_copy); ("BucketRef", if_non_nil new_copy);
  ("BucketSelector", if_non_nil (new_into Selector_DeepCopyInto)); ("Member", if_non_nil new_copy);
  ("ServiceAccountMemberRef", if_non_nil new_copy);
  ("ServiceAccountMemberSelector", if_non_nil (new_into Selector_DeepCopyInto))].
Definition BucketPolicyMemberParameters_DeepCopy : copier := deep_copy BucketPolicyMemberParameters_DeepCopyInto.

Definition BucketPolicyMemberSpec : ty := TStruct [
  ("ResourceSpec", ResourceSpec); ("ForProvider", BucketPolicyMemberParameters)].
Definition BucketPolicyMemberSpec_DeepCopyInto : copier := copy_struct [
  ("ResourceSpec", ResourceSpec_DeepCopyInto); ("ForProvider", BucketPolicyMemberParameters_DeepCopyInto)].
Definition BucketPolicyMemberSpec_DeepCopy : copier := deep_copy BucketPolicyMemberSpec_DeepCopyInto.

Definition BucketPolicyMemberStatus : ty := TStruct [("ResourceStatus", ResourceStatus)].
Definition BucketPolicyMemberStatus_DeepCopyInto : copier := copy_struct [
  ("ResourceStatus", ResourceStatus_DeepCopyInto)].
Definition BucketPolicyMemberStatus_DeepCopy : copier := deep_copy BucketPolicyMemberStatus_DeepCopyInto.

Definition BucketPolicyMember : ty := TStruct [
  ("TypeMeta", TypeMeta); ("ObjectMeta", ObjectMeta); ("Spec", BucketPolicyMemberSpec);
  ("Status", BucketPolicyMemberStatus)].
Definition BucketPolicyMember_DeepCopyInto : copier := copy_struct [
  ("TypeMeta", assign); ("ObjectMeta", ObjectMeta_DeepCopyInto); ("Spec", BucketPolicyMemberSpec_DeepCopyInto);
  ("Status", BucketPolicyMemberStatus_DeepCopyInto)].
Definition BucketPolicyMember_DeepCopy : copier := deep_copy BucketPolicyMember_DeepCopyInto.
Definition BucketPolicyMember_DeepCopyObject := deep_copy_object BucketPolicyMember_DeepCopy.

Definition BucketPolicyMemberList : ty := TStruct [
  ("TypeMeta", TypeMeta); ("ListMeta", ListMeta); ("Items", TSlice BucketPolicyMember)].
Definition BucketPolicyMemberList_DeepCopyInto : copier := copy_struct [
  ("TypeMeta", assign); ("ListMeta", ListMeta_DeepCopyInto);
  ("Items", if_non_nil (make_each BucketPolicyMember_DeepCopyInto))].
Definition BucketPolicyMemberList_DeepCopy : copier := deep_copy BucketPolicyMemberList_DeepCopyInto.
Definition BucketPolicyMemberList_DeepCopyObject := deep_copy_object BucketPolicyMemberList_DeepCopy.

Definition api_types : list api_type := [
  Build_api_type "BucketPolicyParameters" BucketPolicyParameters BucketPolicyParameters_DeepCopyInto BucketPolicyParameters_DeepCopy None;
  Build_api_type "BucketPolicyObservation" BucketPolicyObservation BucketPolicyObservation_DeepCopyInto BucketPolicyObservation_DeepCopy None;
  Build_api_type "BucketPolicySpec" BucketPolicySpec BucketPolicySpec_DeepCopyInto BucketPolicySpec_DeepCopy None;
  Build_api_type "BucketPolicyStatus" BucketPolicyStatus BucketPolicyStatus_DeepCopyInto BucketPolicyStatus_DeepCopy None;
  Build_api_type "BucketPolicy" BucketPolicy BucketPolicy_DeepCopyInto BucketPolicy_DeepCopy (Some BucketPolicy_DeepCopyObject);
  Build_api_type "BucketPolicyList" BucketPolicyList BucketPolicyList_DeepCopyInto BucketPolicyList_DeepCopy (Some BucketPolicyList_DeepCopyObject);
  Build_api_type "BucketPolicyMemberParameters" BucketPolicyMemberParameters BucketPolicyMemberParameters_DeepCopyInto BucketPolicyMemberParameters_DeepCopy None;
  Build_api_type "BucketPolicyMemberSpec" BucketPolicyMemberSpec BucketPolicyMemberSpec_DeepCopyInto BucketPolicyMemberSpec_DeepCopy None;
  Build_api_type "BucketPolicyMemberStatus" BucketPolicyMemberStatus BucketPolicyMemberStatus_DeepCopyInto BucketPolicyMemberStatus_DeepCopy None;
  Build_api_type "BucketPolicyMember" BucketPolicyMember BucketPolicyMember_DeepCopyInto BucketPolicyMember_DeepCopy (Some BucketPolicyMember_DeepCopyObject);
  Build_api_type "BucketPolicyMemberList" BucketPolicyMemberList BucketPolicyMemberList_DeepCopyInto BucketPolicyMemberList_DeepCopy (Some BucketPolicyMemberList_DeepCopyObject)].

Lemma BucketPolicy_deep_copied : Forall deep_copied api_types.
Proof using Type. solve_api_types. Qed.
End types.
