(* ===== verification/DeepCopyBucket.v ===== *)
(** * DeepCopy of the storage API: buckets

    The structs of apis/storage/v1alpha3 and the functions that controller-gen
    generated for them. *)

From S2P Require Import Prelude GoMemory.

Section types.
Context `{KubeTypes}.

Definition ProjectTeam : ty := TStruct [("ProjectNumber", TString); ("Team", TString)].
Definition ProjectTeam_DeepCopyInto : copier := copy_struct [].
Definition ProjectTeam_DeepCopy : copier := deep_copy ProjectTeam_DeepCopyInto.

Definition ACLRule : ty := TStruct [
  ("Entity", TString); ("Role", TString); ("EntityID", TString); ("Domain", TString); ("Email", TString);
  ("ProjectTeam", TPtr ProjectTeam)].
Definition ACLRule_DeepCopyInto : copier := copy_struct [("ProjectTeam", if_non_nil new_copy)].
Definition ACLRule_DeepCopy : copier := deep_copy ACLRule_DeepCopyInto.

Definition LifecycleAction : ty := TStruct [("StorageClass", TString); ("Type", TString)].
Definition LifecycleAction_DeepCopyInto : copier := copy_struct [].
Definition LifecycleAction_DeepCopy : copier := deep_copy LifecycleAction_DeepCopyInto.

Definition LifecycleCondition : ty := TStruct [
  ("AgeInDays", TInt); ("CreatedBefore", Time); ("Liveness", TInt); ("MatchesStorageClasses", TSlice TString);
  ("NumNewerVersions", TInt)].
Definition LifecycleCondition_DeepCopyInto : copier := copy_struct [
  ("CreatedBefore", Time_DeepCopyInto); ("MatchesStorageClasses", if_non_nil make_copy)].
Definition LifecycleCondition_DeepCopy : copier := deep_copy LifecycleCondition_DeepCopyInto.

Definition LifecycleRule : ty := TStruct [("Action", LifecycleAction); ("Condition", LifecycleCondition)].
Definition LifecycleRule_DeepCopyInto : copier := copy_struct [
  ("Action", assign); ("Condition", LifecycleCondition_DeepCopyInto)].
Definition LifecycleRule_DeepCopy : copier := deep_copy LifecycleRule_DeepCopyInto.

Definition Lifecycle : ty := TStruct [("Rules", TSlice LifecycleRule)].
Definition Lifecycle_DeepCopyInto : copier := copy_struct [
  ("Rules", if_non_nil (make_each LifecycleRule_DeepCopyInto))].
Definition Lifecycle_DeepCopy : copier := deep_copy Lifecycle_DeepCopyInto.

Definition RetentionPolicy : ty := TStruct [("RetentionPeriodSeconds", TInt)].
Definition RetentionPolicy_DeepCopyInto : copier := copy_struct [].
Definition RetentionPolicy_DeepCopy : copier := deep_copy RetentionPolicy_DeepCopyInto.

Definition RetentionPolicyStatus : ty := TStruct [("EffectiveTime", Time); ("IsLocked", TBool)].
Definition RetentionPolicyStatus_DeepCopyInto : copier := copy_struct [("EffectiveTime", Time_DeepCopyInto)].
Definition RetentionPolicyStatus_DeepCopy : copier := deep_copy RetentionPolicyStatus_DeepCopyInto.

Definition BucketEncryption : ty := TStruct [("DefaultKMSKeyName", TString)].
Definition BucketEncryption_DeepCopyInto : copier := copy_struct [].
Definition BucketEncryption_DeepCopy : copier := deep_copy BucketEncryption_DeepCopyInto.

Definition BucketLogging : ty := TStruct [("LogBucket", TString); ("LogObjectPrefix", TString)].
Definition BucketLogging_DeepCopyInto : copier := copy_struct [].
Definition BucketLogging_DeepCopy : copier := deep_copy BucketLogging_DeepCopyInto.

Definition CORS : ty := TStruct [
  ("MaxAge", Duration); ("Methods", TSlice TString); ("Origins", TSlice TString); ("ResponseHeaders", TSlice TString)].
Definition CORS_DeepCopyInto : copier := copy_struct [
  ("MaxAge", assign); ("Methods", if_non_nil make_copy); ("Origins", if_non_nil make_copy);
  ("ResponseHeaders", if_non_nil make_copy)].
Definition CORS_DeepCopy : copier := deep_copy CORS_DeepCopyInto.

Definition BucketWebsite : ty := TStruct [("MainPageSuffix", TString); ("NotFoundPage", TString)].
Definition BucketWebsite_DeepCopyInto : copier := copy_struct [].
Definition BucketWebsite_DeepCopy : copier := deep_copy BucketWebsite_DeepCopyInto.

Definition BucketPolicyOnly : ty := TStruct [("Enabled", TBool); ("LockedTime", Time)].
Definition BucketPolicyOnly_DeepCopyInto : copier := copy_struct [("LockedTime", Time_DeepCopyInto)].
Definition BucketPolicyOnly_DeepCopy : copier := deep_copy BucketPolicyOnly_DeepCopyInto.

Definition BucketUpdatableAttrs : ty := TStruct [
  ("BucketPolicyOnly", TPtr BucketPolicyOnly); ("CORS", TSlice CORS); ("DefaultEventBasedHold", TBool);
  ("Encryption", TPtr BucketEncryption); ("Labels", TMap TString); ("Lifecycle", Lifecycle);
  ("Logging", TPtr BucketLogging); ("PredefinedACL", TString); ("PredefinedDefaultObjectACL", TString);
  ("RequesterPays", TBool); ("RetentionPolicy", TPtr RetentionPolicy); ("VersioningEnabled", TBool);
  ("Website", TPtr BucketWebsite)].
Definition BucketUpdatableAttrs_DeepCopyInto : copier := copy_struct [
  ("BucketPolicyOnly", if_non_nil (new_into BucketPolicyOnly_DeepCopyInto));
  ("CORS", if_non_nil (make_each CORS_DeepCopyInto)); ("Encryption", if_non_nil new_copy);
  ("Labels", if_non_nil make_map); ("Lifecycle", Lifecycle_DeepCopyInto); ("Logging", if_non_nil new_copy);
  ("RetentionPolicy", if_non_nil new_copy); ("Website", if_non_nil new_copy)].
Definition BucketUpdatableAttrs_DeepCopy : copier := deep_copy BucketUpdatableAttrs_DeepCopyInto.

Definition BucketSpecAttrs : ty := TStruct [
  ("BucketUpdatableAttrs", BucketUpdatableAttrs); ("ACL", TSlice ACLRule); ("DefaultObjectACL", TSlice ACLRule);
  ("Location", TString); ("StorageClass", TString)].
Definition BucketSpecAttrs_DeepCopyInto : copier := copy_struct [
  ("BucketUpdatableAttrs", BucketUpdatableAttrs_DeepCopyInto); ("ACL", if_non_nil (make_each ACLRule_DeepCopyInto));
  ("DefaultObjectACL", if_non_nil (make_each ACLRule_DeepCopyInto))].
Definition BucketSpecAttrs_DeepCopy : copier := deep_copy BucketSpecAttrs_DeepCopyInto.

Definition BucketOutputAttrs : ty := TStruct [
  ("BucketPolicyOnly", TPtr BucketPolicyOnly); ("Created", TPtr Time); ("RetentionPolicy", TPtr RetentionPolicyStatus)].
Definition BucketOutputAttrs_DeepCopyInto : copier := copy_struct [
  ("BucketPolicyOnly", if_non_nil (new_into BucketPolicyOnly_DeepCopyInto)); ("Created", if_non_nil Time_DeepCopy);
  ("RetentionPolicy", if_non_nil (new_into RetentionPolicyStatus_DeepCopyInto))].
Definition BucketOutputAttrs_DeepCopy : copier := deep_copy BucketOutputAttrs_DeepCopyInto.

Definition BucketParameters : ty := TStruct [("BucketSpecAttrs", BucketSpecAttrs)].
Definition BucketParameters_DeepCopyInto : copier := copy_struct [("BucketSpecAttrs", BucketSpecAttrs_DeepCopyInto)].
Definition BucketParameters_DeepCopy : copier := deep_copy BucketParameters_DeepCopyInto.

Definition BucketSpec : ty := TStruct [("ResourceSpec", ResourceSpec); ("BucketParameters", BucketParameters)].
Definition BucketSpec_DeepCopyInto : copier := copy_struct [
  ("ResourceSpec", ResourceSpec_DeepCopyInto); ("BucketParameters", BucketParameters_DeepCopyInto)].
Definition BucketSpec_DeepCopy : copier := deep_copy BucketSpec_DeepCopyInto.

Definition BucketStatus : ty := TStruct [
  ("ResourceStatus", ResourceStatus); ("BucketOutputAttrs", BucketOutputAttrs)].
Definition BucketStatus_DeepCopyInto : copier := copy_struct [
  ("ResourceStatus", ResourceStatus_DeepCopyInto); ("BucketOutputAttrs", BucketOutputAttrs_DeepCopyInto)].
Definition BucketStatus_DeepCopy : copier := deep_copy BucketStatus_DeepCopyInto.

Definition Bucket : ty := TStruct [
  ("TypeMeta", TypeMeta); ("ObjectMeta", ObjectMeta); ("Spec", BucketSpec); ("Status", BucketStatus)].
Definition Bucket_DeepCopyInto : copier := copy_struct [
  ("TypeMeta", assign); ("ObjectMeta", ObjectMeta_DeepCopyInto); ("Spec", BucketSpec_DeepCopyInto);
  ("Status", BucketStatus_DeepCopyInto)].
Definition Bucket_DeepCopy : copier := deep_copy Bucket_DeepCopyInto.
Definition Bucket_DeepCopyObject := deep_copy_object Bucket_DeepCopy.

Definition BucketList : ty := TStruct [("TypeMeta", TypeMeta); ("ListMeta", ListMeta); ("Items", TSlice Bucket)].
Definition BucketList_DeepCopyInto : copier := copy_struct [
  ("TypeMeta", assign); ("ListMeta", ListMeta_DeepCopyInto); ("Items", if_non_nil (make_each Bucket_DeepCopyInto))].
Definition BucketList_DeepCopy : copier := deep_copy BucketList_DeepCopyInto.
Definition BucketList_DeepCopyObject := deep_copy_object BucketList_DeepCopy.

Definition api_types : list api_type := [
  Build_api_type "ProjectTeam" ProjectTeam ProjectTeam_DeepCopyInto ProjectTeam_DeepCopy None;
  Build_api_type "ACLRule" ACLRule ACLRule_DeepCopyInto ACLRule_DeepCopy None;
  Build_api_type "LifecycleAction" LifecycleAction LifecycleAction_DeepCopyInto LifecycleAction_DeepCopy None;
  Build_api_type "LifecycleCondition" LifecycleCondition LifecycleCondition_DeepCopyInto LifecycleCondition_DeepCopy None;
  Build_api_type "LifecycleRule" LifecycleRule LifecycleRule_DeepCopyInto LifecycleRule_DeepCopy None;
  Build_api_type "Lifecycle" Lifecycle Lifecycle_DeepCopyInto Lifecycle_DeepCopy None;
  Build_api_type "RetentionPolicy" RetentionPolicy RetentionPolicy_DeepCopyInto RetentionPolicy_DeepCopy None;
  Build_api_type "RetentionPolicyStatus" RetentionPolicyStatus RetentionPolicyStatus_DeepCopyInto RetentionPolicyStatus_DeepCopy None;
  Build_api_type "BucketEncryption" BucketEncryption BucketEncryption_DeepCopyInto BucketEncryption_DeepCopy None;
  Build_api_type "BucketLogging" BucketLogging BucketLogging_DeepCopyInto BucketLogging_DeepCopy None;
  Build_api_type "CORS" CORS CORS_DeepCopyInto CORS_DeepCopy None;
  Build_api_type "BucketWebsite" BucketWebsite BucketWebsite_DeepCopyInto BucketWebsite_DeepCopy None;
  Build_api_type "BucketPolicyOnly" BucketPolicyOnly BucketPolicyOnly_DeepCopyInto BucketPolicyOnly_DeepCopy None;
  Build_api_type "BucketUpdatableAttrs" BucketUpdatableAttrs BucketUpdatableAttrs_DeepCopyInto BucketUpdatableAttrs_DeepCopy None;
  Build_api_type "BucketSpecAttrs" BucketSpecAttrs BucketSpecAttrs_DeepCopyInto BucketSpecAttrs_DeepCopy None;
  Build_api_type "BucketOutputAttrs" BucketOutputAttrs BucketOutputAttrs_DeepCopyInto BucketOutputAttrs_DeepCopy None;
  Build_api_type "BucketParameters" BucketParameters BucketParameters_DeepCopyInto BucketParameters_DeepCopy None;
  Build_api_type "BucketSpec" BucketSpec BucketSpec_DeepCopyInto BucketSpec_DeepCopy None;
  Build_api_type "BucketStatus" BucketStatus BucketStatus_DeepCopyInto BucketStatus_DeepCopy None;
  Build_api_type "Bucket" Bucket Bucket_DeepCopyInto Bucket_DeepCopy (Some Bucket_DeepCopyObject);
  Build_api_type "BucketList" BucketList BucketList_DeepCopyInto BucketList_DeepCopy (Some BucketList_DeepCopyObject)].

Lemma Bucket_deep_copied : Forall deep_copied api_types.
Proof using Type. solve_api_types. Qed.
End types.
