(* ===== verification/DeepCopy.v ===== *)
(** * DeepCopy: what the controllers rely on

    The functions of every apis/.../zz_generated.deepcopy.go together, and the
    copies that the Observe methods compare with. *)

From S2P Require Import Prelude GoMemory.
From S2P Require Import DeepCopyProvider DeepCopyCache DeepCopyCompute DeepCopyCluster DeepCopyNodePool DeepCopyDatabase.
From S2P Require Import DeepCopyIam DeepCopyKms DeepCopyPubsub DeepCopyConnection DeepCopyBucketPolicy DeepCopyBucket.

(** ** A choice of the library types *)

(** Small structs of the shape the libraries document: labels and owners in the
    metadata of an object, a policy in a selector, conditions in a status. *)
Definition selector_type : ty := TStruct [("MatchControllerRef", TPtr TBool); ("MatchLabels", TMap TString)].
Definition selector_into : copier := copy_struct [("MatchControllerRef", if_non_nil new_copy); ("MatchLabels", if_non_nil make_map)].
Definition reference_type : ty := TStruct [("Name", TString)].
Definition object_meta_type : ty := TStruct [("Name", TString); ("Annotations", TMap TString); ("Finalizers", TSlice TString)].
Definition object_meta_into : copier := copy_struct [("Annotations", if_non_nil make_map); ("Finalizers", if_non_nil make_copy)].
Definition list_meta_type : ty := TStruct [("RemainingItemCount", TPtr TInt)].
Definition list_meta_into : copier := copy_struct [("RemainingItemCount", if_non_nil new_copy)].
Definition secret_reference_type : ty := TStruct [("Name", TString); ("Namespace", TString)].
Definition resource_spec_type : ty := TStruct [
  ("WriteConnectionSecretToReference", TPtr secret_reference_type); ("ProviderConfigReference", TPtr reference_type);
  ("ProviderReference", TPtr reference_type); ("DeletionPolicy", TString)].
Definition resource_spec_into : copier := copy_struct [
  ("WriteConnectionSecretToReference", if_non_nil new_copy); ("ProviderConfigReference", if_non_nil new_copy);
  ("ProviderReference", if_non_nil new_copy)].
Definition resource_status_type : ty := TStruct [("Conditions", TSlice (TStruct [("Type", TString); ("Status", TString)]))].
Definition resource_status_into : copier := copy_struct [("Conditions", if_non_nil make_copy)].
Definition typed_reference_type : ty := TStruct [("APIVersion", TString); ("Kind", TString); ("Name", TString); ("UID", TString)].
Definition config_status_type : ty := TStruct [("ConditionedStatus", resource_status_type); ("Users", TInt)].
Definition config_status_into : copier := copy_struct [("ConditionedStatus", resource_status_into)].
Definition credentials_type : ty := TStruct [("SecretRef", TPtr (TStruct [("Name", TString); ("Key", TString)]))].
Definition credentials_into : copier := copy_struct [("SecretRef", if_non_nil new_copy)].

Definition kube_types : KubeTypes.
Proof.
  refine {|
    TypeMeta := TStruct [("Kind", TString); ("APIVersion", TString)];
    Duration := TInt;
    Reference := reference_type;
    SecretKeySelector := TStruct [("Name", TString); ("Namespace", TString); ("Key", TString)];
    XpProviderConfigUsage := TStruct [
      ("ProviderConfigReference", reference_type); ("ResourceReference", typed_reference_type)];
    ObjectMeta := object_meta_type; ObjectMeta_DeepCopyInto := object_meta_into;
    ListMeta := list_meta_type; ListMeta_DeepCopyInto := list_meta_into;
    Time := TInt; Time_DeepCopyInto := assign; Time_DeepCopy := deep_copy assign;
    Selector := selector_type; Selector_DeepCopyInto := selector_into;
    ResourceSpec := resource_spec_type; ResourceSpec_DeepCopyInto := resource_spec_into;
    ResourceStatus := resource_status_type; ResourceStatus_DeepCopyInto := resource_status_into;
    XpProviderConfigStatus := config_status_type; XpProviderConfigStatus_DeepCopyInto := config_status_into;
    CommonCredentialSelectors := credentials_type; CommonCredentialSelectors_DeepCopyInto := credentials_into |};
    first [reflexivity | apply copies_deep_copy; solve_copies | solve_copies].
Defined.

(** ** Every type of the API *)

Definition all_api_types `{KubeTypes} : list api_type :=
  DeepCopyProvider.api_types ++ DeepCopyCache.api_types ++ DeepCopyCompute.api_types ++ DeepCopyCluster.api_types ++
  DeepCopyNodePool.api_types ++ DeepCopyDatabase.api_types ++ DeepCopyIam.api_types ++ DeepCopyKms.api_types ++
  DeepCopyPubsub.api_types ++ DeepCopyConnection.api_types ++ DeepCopyBucketPolicy.api_types ++ DeepCopyBucket.api_types.

(** Each of the 229 structs has a copy of itself. *)
Lemma all_deep_copied `{KubeTypes} : Forall deep_copied all_api_types.
Proof.
  unfold all_api_types. rewrite !Forall_app.
  exact (conj Provider_deep_copied (conj Cache_deep_copied (conj Compute_deep_copied (conj Cluster_deep_copied
    (conj NodePool_deep_copied (conj Database_deep_copied (conj Iam_deep_copied (conj Kms_deep_copied
    (conj Pubsub_deep_copied (conj Connection_deep_copied (conj BucketPolicy_deep_copied Bucket_deep_copied))))))))))).
Qed.

(** C10: for each of the 229 structs of the API, in whatever heap, with whatever
    sharing between its parts, the generated functions do not panic on a value
    of that type; they leave every existing cell as it is and return a value of the
    same type, equal to it when all pointers are followed, that consists of new cells alone:
    no field, element or entry of it is shared with the original. DeepCopy of nil is nil, and
    DeepCopyObject of nil the nil interface. *)
Theorem api_types_deep_copied `{KubeTypes} :
  List.length all_api_types = 229 ∧
  ∀ a h v r, a ∈ all_api_types →
    (reads h a.(go_type) v r → ∃ d w, a.(go_into) h v = Returns (h ∪ d, w) ∧ h ##ₘ d ∧ reads d a.(go_type) w r) ∧
    (reads h (TPtr a.(go_type)) v r →
      (∃ d w, a.(go_copy) h v = Returns (h ∪ d, w) ∧ h ##ₘ d ∧ reads d (TPtr a.(go_type)) w r) ∧
      ∀ f, a.(go_object) = Some f → ∃ d o, f h v = Returns (h ∪ d, o) ∧ h ##ₘ d ∧
        match o with
        | NilObject => v = VPtr None
        | Object w => v ≠ VPtr None ∧ reads d (TPtr a.(go_type)) w r
        end).
Proof.
  split; [reflexivity|]. intros a h v r Ha.
  pose proof (proj1 (Forall_forall _ _) all_deep_copied a Ha) as (Hinto & Hcopy & Hobject).
  split; [apply Hinto|]. intros Hr. split; [by apply Hcopy|]. intros f Hf. rewrite Hf in Hobject. by apply Hobject.
Qed.

(** A topic with a label and a KMS key: the spec, the labels and the key in cells
    of their own. *)
Definition topic_heap : gmap loc cell :=
  <[1%positive := CValue (VStruct [("Labels", VMap (Some 2%positive)); ("MessageStoragePolicy", VPtr None);
                                   ("KmsKeyName", VPtr (Some 3%positive))])]>
  (<[2%positive := CMap {["team" := VBasic (BString "a")]}]>
  {[3%positive := CValue (VBasic (BString "key"))]}).
Definition topic_tree : tree :=
  RPtr (RStruct [("Labels", RMap {["team" := RBasic (BString "a")]}); ("MessageStoragePolicy", RNil);
                 ("KmsKeyName", RPtr (RBasic (BString "key")))]).

Lemma topic_reads : reads topic_heap (TPtr (TopicParameters)) (VPtr (Some 1%positive)) topic_tree.
Proof.
  eexists. split; [reflexivity|]. apply reads_struct. repeat constructor.
  - eexists. split; [reflexivity|]. intros k. destruct (decide (k = "team")) as [->|Hk].
    + rewrite !lookup_singleton_eq. by repeat constructor.
    + rewrite !lookup_singleton_ne by done. constructor.
  - eexists. split; [reflexivity|]. by repeat constructor.
Qed.

Definition topic_type : api_type :=
  Build_api_type "TopicParameters" TopicParameters TopicParameters_DeepCopyInto TopicParameters_DeepCopy None.
Lemma api_types_deep_copied_witness :
  ∃ d w, TopicParameters_DeepCopy topic_heap (VPtr (Some 1%positive)) = Returns (topic_heap ∪ d, w) ∧
    topic_heap ##ₘ d ∧ reads d (TPtr TopicParameters) w topic_tree.
Proof.
  destruct (@api_types_deep_copied kube_types) as [_ Hall].
  destruct (Hall topic_type topic_heap (VPtr (Some 1%positive)) topic_tree) as [_ Hcopy].
  - apply (list_elem_of_lookup_2 _ 186). reflexivity.
  - destruct (Hcopy topic_reads) as [Hcopied _]. exact Hcopied.
Defined.
