(* ===== verification/TopicMemory.v ===== *)
(** * A topic's late initialization, in memory

    Topic.v models TopicParameters as a tree and LateInitialize as a function
    from trees to trees. The code has pointers: Observe copies the spec, LateInitialize writes to
    the spec in place, allocates, and lets the spec share a slice with the
    observed topic. Here is that code over the memory of GoMemory.v, with a proof that
    it refines the functions on trees. *)

From S2P Require Import Prelude GoMemory DeepCopyPubsub Topic.

(** ** Trees of the values of Topic.v *)

Definition string_tree (s : string) : tree := RBasic (BString s).
Definition map_tree (m : gomap string) : tree := match m with Some m => RMap (string_tree <$> m) | None => RNil end.
Definition slice_tree (s : slice string) : tree := match s with Some l => RSlice (string_tree <$> l) | None => RNil end.
Definition ptr_tree {A} (f : A → tree) (p : ptr A) : tree := match p with Some a => RPtr (f a) | None => RNil end.
Definition policy_tree (p : Topic.MessageStoragePolicy) : tree :=
  RStruct [("AllowedPersistenceRegions", slice_tree p.(AllowedPersistenceRegions))].
Definition parameters_tree (s : Topic.TopicParameters) : tree := RStruct [
  ("Labels", map_tree s.(t_Labels));
  ("MessageStoragePolicy", ptr_tree policy_tree s.(t_MessageStoragePolicy));
  ("KmsKeyName", ptr_tree string_tree s.(t_KmsKeyName))].

(** pubsub.Topic and pubsub.MessageStoragePolicy: the fields that are read. *)
Definition api_policy : ty := TStruct [("AllowedPersistenceRegions", TSlice TString)].
Definition api_topic : ty := TStruct [
  ("KmsKeyName", TString); ("Labels", TMap TString); ("MessageStoragePolicy", TPtr api_policy)].
Definition api_policy_tree (p : apiStoragePolicy) : tree :=
  RStruct [("AllowedPersistenceRegions", slice_tree p.(asp_AllowedPersistenceRegions))].
Definition api_topic_tree (t : apiTopic) : tree := RStruct [
  ("KmsKeyName", string_tree t.(at_KmsKeyName));
  ("Labels", map_tree t.(at_Labels));
  ("MessageStoragePolicy", ptr_tree api_policy_tree t.(at_MessageStoragePolicy))].

(** ** The code *)

Definition get (n : string) (v : value) : outcome value :=
  match v with
  | VStruct fs => match field n fs with Some x => Returns x | None => Panics end
  | _ => Panics
  end.
Definition load (h : gmap loc cell) (v : value) : outcome value :=
  match v with
  | VPtr (Some l) => match h !! l with Some (CValue x) => Returns x | _ => Panics end
  | _ => Panics
  end.
(** [s.F = x] for the struct that [s] points to. *)
Definition store_field (h : gmap loc cell) (s : loc) (n : string) (x : value) : outcome (gmap loc cell) :=
  match h !! s with
  | Some (CValue (VStruct fs)) => Returns (<[s := CValue (VStruct (set_field n x fs))]> h)
  | _ => Panics
  end.
Definition map_len (h : gmap loc cell) (v : value) : outcome nat :=
  match v with
  | VMap None => Returns 0
  | VMap (Some l) => match h !! l with Some (CMap m) => Returns (size m) | _ => Panics end
  | _ => Panics
  end.
Definition string_len (v : value) : outcome nat :=
  match v with VBasic (BString s) => Returns (String.length s) | _ => Panics end.
Definition is_nil (v : value) : bool := match v with VPtr None => true | _ => false end.

(** The three statements of LateInitialize. The map is filled before it is
    assigned, which nobody else sees. *)
Definition late_labels (h : gmap loc cell) (s : loc) (t : value) : outcome (gmap loc cell) :=
  spec ← load h (VPtr (Some s));
  labels ← get "Labels" spec; n ← map_len h labels;
  observed ← get "Labels" t; m ← map_len h observed;
  if Nat.eqb n 0 && negb (Nat.eqb m 0)
  then '(h, labels) ← make_map h observed; store_field h s "Labels" labels
  else Returns h.
Definition late_key (h : gmap loc cell) (s : loc) (t : value) : outcome (gmap loc cell) :=
  spec ← load h (VPtr (Some s));
  key ← get "KmsKeyName" spec;
  observed ← get "KmsKeyName" t; n ← string_len observed;
  if is_nil key && negb (Nat.eqb n 0)
  then let '(h, l) := alloc h (CValue observed) in store_field h s "KmsKeyName" (VPtr (Some l))
  else Returns h.
(** The new policy has the slice of the observed one. *)
Definition late_policy (h : gmap loc cell) (s : loc) (t : value) : outcome (gmap loc cell) :=
  spec ← load h (VPtr (Some s));
  policy ← get "MessageStoragePolicy" spec;
  observed ← get "MessageStoragePolicy" t;
  if is_nil policy && negb (is_nil observed)
  then p ← load h observed;
       regions ← get "AllowedPersistenceRegions" p;
       let '(h, l) := alloc h (CValue (VStruct [("AllowedPersistenceRegions", regions)])) in
       store_field h s "MessageStoragePolicy" (VPtr (Some l))
  else Returns h.
Definition LateInitialize_in_memory (h : gmap loc cell) (s : loc) (t : value) : outcome (gmap loc cell) :=
  h ← late_labels h s t;
  h ← late_key h s t;
  late_policy h s t.

(** [currentSpec := cr.Spec.ForProvider.DeepCopy()] and
    [topic.LateInitialize(&cr.Spec.ForProvider, *t)]: the heap, and the copy. *)
Definition observe_in_memory (h : gmap loc cell) (s : loc) (t : value) : outcome (gmap loc cell * value) :=
  '(h, currentSpec) ← TopicParameters_DeepCopy h (VPtr (Some s));
  h ← LateInitialize_in_memory h s t;
  Returns (h, currentSpec).

(** ** No pointer leads back to the spec *)

(** A cell that no value of type [t] leads to. *)
Fixpoint never_at (c : cell) (t : ty) : Prop :=
  match t with
  | TBasic _ => True
  | TPtr t => match c with CValue x => ∀ h r, ¬ reads h t x r | _ => True end ∧ never_at c t
  | TSlice t => match c with CArray _ => False | _ => True end ∧ never_at c t
  | TMap t => match c with CMap _ => False | _ => True end ∧ never_at c t
  | TStruct fs => (fix go (fs : list (string * ty)) := match fs with [] => True | (_, t) :: fs => never_at c t ∧ go fs end) fs
  end.
Lemma reads_delete h s c t v r :
  h !! s = Some c → never_at c t → reads h t v r → reads (delete s h) t v r.
Proof.
  intros Hs. revert v r. induction t as [b|t IH|t IH|t IH|fs IH] using ty_nested_ind; intros v r Hn; [done|..].
  - destruct Hn as [Hc Hn]. destruct v as [|[l|]|[l|]|[l|]|], r; try done. intros (x & Hx & Hr). exists x.
    split; [|by apply IH]. rewrite lookup_delete_ne; [done|]. intros ->. simplify_eq. by apply Hc in Hr.
  - destruct Hn as [Hc Hn]. destruct v as [|[l|]|[l|]|[l|]|], r; try done. intros (xs & Hx & Hr). exists xs.
    split; [rewrite lookup_delete_ne; [done|]; intros ->; by simplify_eq|]. eapply Forall2_impl; [done|]. auto.
  - destruct Hn as [Hc Hn]. destruct v as [|[l|]|[l|]|[l|]|], r; try done. intros (m' & Hx & Hr). exists m'.
    split; [rewrite lookup_delete_ne; [done|]; intros ->; by simplify_eq|]. intros k. destruct (Hr k); constructor; auto.
  - intros (vs & rs & -> & -> & Hr)%reads_struct_inv. apply reads_struct. simpl in Hn.
    induction Hr as [|n t v r fs vs rs Hr _ IHr]; [constructor|]. destruct Hn as [Hn Hns]. inversion IH. constructor; auto.
Qed.

(** The spec, in three parts that do not lead back to it; and the observed
    topic, which does not lead to it either. *)
Definition spec_cell (labels policy key : value) : cell :=
  CValue (VStruct [("Labels", labels); ("MessageStoragePolicy", policy); ("KmsKeyName", key)]).
Definition parts_read (h : gmap loc cell) (labels policy key : value) (sp : Topic.TopicParameters) : Prop :=
  reads h (TMap TString) labels (map_tree sp.(t_Labels)) ∧
  reads h (TPtr DeepCopyPubsub.MessageStoragePolicy) policy (ptr_tree policy_tree sp.(t_MessageStoragePolicy)) ∧
  reads h (TPtr TString) key (ptr_tree string_tree sp.(t_KmsKeyName)).
Definition spec_at (h : gmap loc cell) (s : loc) (sp : Topic.TopicParameters) : Prop :=
  ∃ labels policy key, h !! s = Some (spec_cell labels policy key) ∧ parts_read (delete s h) labels policy key sp.
Definition topic_at (h : gmap loc cell) (labels policy : value) (t : apiTopic) : Prop :=
  reads h (TMap TString) labels (map_tree t.(at_Labels)) ∧
  reads h (TPtr api_policy) policy (ptr_tree api_policy_tree t.(at_MessageStoragePolicy)).
Definition topic_value (key : string) (labels policy : value) : value :=
  VStruct [("KmsKeyName", VBasic (BString key)); ("Labels", labels); ("MessageStoragePolicy", policy)].

Lemma parts_mono h h' labels policy key sp : h ⊆ h' → parts_read h labels policy key sp → parts_read h' labels policy key sp.
Proof. intros Hh (Hl & Hp & Hk). split_and!; by eapply reads_mono. Qed.
Lemma topic_mono h h' labels policy t : h ⊆ h' → topic_at h labels policy t → topic_at h' labels policy t.
Proof. intros Hh (Hl & Hp). split; by eapply reads_mono. Qed.

Lemma fields_read_inv h n t fs vs n' r rs :
  fields_read h ((n, t) :: fs) vs ((n', r) :: rs) → ∃ v vs', vs = (n, v) :: vs' ∧ reads h t v r ∧ fields_read h fs vs' rs.
Proof. inversion 1; subst. by eauto. Qed.
Ltac invert_struct Hr :=
  apply reads_struct_inv in Hr as (?vs & ?rs & -> & [= <-] & Hr).

Lemma never_at_spec labels policy key :
  never_at (spec_cell labels policy key) (TMap TString) ∧ never_at (spec_cell labels policy key) (TPtr TString) ∧
  never_at (spec_cell labels policy key) (TPtr api_policy) ∧ never_at (spec_cell labels policy key) api_topic.
Proof.
  assert (∀ h r, ¬ reads h api_policy (VStruct [("Labels", labels); ("MessageStoragePolicy", policy); ("KmsKeyName", key)]) r).
  { intros h r (vs & rs & [= <-] & -> & Hr)%reads_struct_inv. inversion Hr. }
  cbn -[reads]. split_and!; first [exact I | assumption | by intros ?? []].
Qed.

Lemma spec_at_reads h s sp :
  reads h (TPtr DeepCopyPubsub.TopicParameters) (VPtr (Some s)) (RPtr (parameters_tree sp)) ↔ spec_at h s sp.
Proof.
  split.
  - intros (x & Hx & Hr). invert_struct Hr.
    apply fields_read_inv in Hr as (labels & vs1 & -> & Hl & Hr). apply fields_read_inv in Hr as (policy & vs2 & -> & Hp & Hr).
    apply fields_read_inv in Hr as (key & vs3 & -> & Hk & Hr). inversion Hr; subst vs3.
    exists labels, policy, key. split; [done|]. destruct (never_at_spec labels policy key) as (? & ? & ? & ?).
    split_and!; by eapply reads_delete.
  - intros (labels & policy & key & Hs & Hl & Hp & Hk). eexists. split; [done|]. apply reads_struct.
    repeat apply fields_read_cons; try apply fields_read_nil; (eapply reads_mono; [apply delete_subseteq|done]).
Qed.
Lemma topic_at_reads h v t :
  reads h api_topic v (api_topic_tree t) →
  ∃ labels policy, v = topic_value t.(at_KmsKeyName) labels policy ∧ topic_at h labels policy t.
Proof.
  intros Hr. invert_struct Hr.
  apply fields_read_inv in Hr as (key & vs1 & -> & Hk & Hr). apply fields_read_inv in Hr as (labels & vs2 & -> & Hl & Hr).
  apply fields_read_inv in Hr as (policy & vs3 & -> & Hp & Hr). inversion Hr; subst vs3.
  exists labels, policy. split; [|done]. destruct key as [b| | | |]; try done. by destruct Hk as [_ ->].
Qed.

(** ** The three statements *)

Lemma tree_len (h : gmap loc cell) v m :
  reads h (TMap TString) v (map_tree m) → ∃ n, map_len h v = Returns n ∧ Nat.eqb n 0 = map_empty m.
Proof.
  destruct v as [| | |[l|]|], m as [m|]; try done; [|by exists 0].
  intros (m' & Hl & Hm). simpl. rewrite Hl. exists (size m'). split; [done|].
  assert (dom m' = dom m) as Hdom.
  { apply set_eq. intros k. rewrite !elem_of_dom. specialize (Hm k). rewrite lookup_fmap in Hm.
    destruct (m' !! k), (m !! k); inversion Hm; by split; intros []. }
  unfold Prelude.map_empty, entries. simpl. apply eq_true_iff_eq.
  rewrite Nat.eqb_eq, bool_decide_eq_true, map_size_empty_iff, <- !dom_empty_iff_L, Hdom. done.
Qed.

(** A new cell, and a write to the spec: the rest of the heap grows by the
    cell. *)
Lemma grown (h : gmap loc cell) s c c1 c2 (l := fresh (dom h)) :
  h !! s = Some c →
  <[l := c1]> h !! s = Some c ∧
  delete s (<[s := c2]> (<[l := c1]> h)) = <[l := c1]> (delete s h) ∧
  delete s h ⊆ <[l := c1]> (delete s h).
Proof.
  intros Hs. pose proof (fresh_lookup h) as Hl. fold l in Hl. clearbody l.
  assert (s ≠ l) by (intros ->; congruence). split_and!.
  - by rewrite lookup_insert_ne.
  - by rewrite delete_insert_eq, delete_insert_ne.
  - apply insert_subseteq. by rewrite lookup_delete_ne.
Qed.

Section statements.
Context (h : gmap loc cell) (s : loc) (sp : Topic.TopicParameters) (t : apiTopic).
Context (labels policy : value).
Hypothesis Hsp : spec_at h s sp.
Hypothesis Ht : topic_at (delete s h) labels policy t.
Abbreviation observed := (topic_value t.(at_KmsKeyName) labels policy).

(** [f] returns; the cells other than the spec stay, and the spec becomes [sp']. *)
Definition refines (f : outcome (gmap loc cell)) (sp' : Topic.TopicParameters) : Prop :=
  ∃ h', f = Returns h' ∧ delete s h ⊆ delete s h' ∧ spec_at h' s sp'.

Lemma late_labels_refines :
  refines (late_labels h s observed)
    {| sp with t_Labels := if Prelude.map_empty sp.(t_Labels) && negb (Prelude.map_empty t.(at_Labels))
                           then Some (entries t.(at_Labels)) else sp.(t_Labels) |}.
Proof using Hsp Ht.
  destruct Hsp as (l & p & k & Hs & Hl & Hp & Hk). destruct Ht as [Htl _].
  destruct (tree_len _ _ _ Hl) as (n & Hn & Hen). destruct (tree_len _ _ _ Htl) as (m & Hm & Hem).
  assert (∀ v n, map_len (delete s h) v = Returns n → map_len h v = Returns n) as Hlen.
  { intros [| | |[l'|]|] ?; try done. simpl. destruct (delete s h !! l') as [[]|] eqn:Hl'; try done.
    by rewrite (lookup_weaken _ h _ _ Hl' (delete_subseteq _ _)). }
  unfold late_labels, refines. cbn [load]. rewrite Hs. cbn. rewrite (Hlen _ _ Hn). cbn. rewrite (Hlen _ _ Hm). cbn.
  rewrite Hen, Hem. destruct (_ && _) eqn:Hb; cbn.
  2: { exists h. split_and!; [done..|]. by exists l, p, k. }
  apply andb_true_iff in Hb as [_ Hb%negb_true_iff].
  destruct (at_Labels t) as [ls|]; [|done]. destruct labels as [| | |[l0|]|]; try done.
  destruct Htl as (m0 & Hl0 & Hm0). cbn. rewrite (lookup_weaken _ h _ _ Hl0 (delete_subseteq _ _)), entries_again. cbn.
  edestruct (grown h s) as (Hs' & Hd & Hsub); [done|]. unfold store_field. rewrite Hs'. unfold spec_cell.
  eexists. split_and!; [done|by rewrite Hd|]. eexists _, _, _. split; [apply lookup_insert_eq|]. rewrite Hd.
  split_and!; [|by eapply reads_mono..]. exists m0. split; [apply lookup_insert_eq|].
  intros x. destruct (Hm0 x); constructor. by eapply reads_flat.
Qed.

Lemma late_key_refines :
  refines (late_key h s observed)
    {| sp with t_KmsKeyName :=
         match sp.(t_KmsKeyName) with
         | None => if negb (bool_decide (t.(at_KmsKeyName) = "")) then Some t.(at_KmsKeyName) else None
         | Some _ => sp.(t_KmsKeyName)
         end |}.
Proof using Hsp.
  destruct Hsp as (l & p & k & Hs & Hl & Hp & Hk).
  unfold late_key, refines. cbn [load]. rewrite Hs. cbn.
  assert (Nat.eqb (String.length (at_KmsKeyName t)) 0 = bool_decide (at_KmsKeyName t = "")) as ->.
  { by destruct (at_KmsKeyName t). }
  destruct (is_nil k && _) eqn:Hb; cbn.
  - apply andb_true_iff in Hb as [Hnil Hne]. destruct k as [|[|]| | |]; try done.
    destruct (t_KmsKeyName sp) eqn:Hkey; [done|]. rewrite Hne.
    edestruct (grown h s) as (Hs' & Hd & Hsub); [done|]. unfold store_field. rewrite Hs'. unfold spec_cell.
    eexists. split_and!; [done|by rewrite Hd|]. eexists _, _, _. split; [apply lookup_insert_eq|]. rewrite Hd.
    split_and!; [by eapply reads_mono..|]. eexists. by split; [apply lookup_insert_eq|].
  - exists h. split_and!; [done..|]. exists l, p, k. split; [done|]. split_and!; [done..|]. cbn.
    destruct (t_KmsKeyName sp) as [key|] eqn:Hkey; [done|]. by destruct k as [|[|]| | |], (negb _).
Qed.

Lemma late_policy_refines :
  refines (late_policy h s observed)
    {| sp with t_MessageStoragePolicy :=
         match sp.(t_MessageStoragePolicy), t.(at_MessageStoragePolicy) with
         | None, Some p => Some {| AllowedPersistenceRegions := p.(asp_AllowedPersistenceRegions) |}
         | _, _ => sp.(t_MessageStoragePolicy)
         end |}.
Proof using Hsp Ht.
  destruct Hsp as (l & p & k & Hs & Hl & Hp & Hk). destruct Ht as [_ Htp].
  unfold late_policy, refines. cbn [load]. rewrite Hs. cbn. destruct (is_nil p && _) eqn:Hb; cbn.
  - apply andb_true_iff in Hb as [Hnil Hne]. destruct p as [|[|]| | |]; try done.
    destruct (t_MessageStoragePolicy sp) eqn:Hpol; [done|].
    destruct policy as [|[l0|]| | |]; try done. destruct (at_MessageStoragePolicy t) as [ap|] eqn:Hap; [|done].
    destruct Htp as (x & Hx & Hr). cbn [load]. rewrite (lookup_weaken _ h _ _ Hx (delete_subseteq _ _)). cbn.
    invert_struct Hr. apply fields_read_inv in Hr as (regions & vs1 & -> & Hreg & Hr). inversion Hr; subst vs1. cbn.
    edestruct (grown h s) as (Hs' & Hd & Hsub); [done|]. unfold store_field. rewrite Hs'. unfold spec_cell.
    eexists. split_and!; [done|by rewrite Hd|]. eexists _, _, _. split; [apply lookup_insert_eq|]. rewrite Hd.
    split_and!; [by eapply reads_mono| |by eapply reads_mono]. eexists. split; [apply lookup_insert_eq|].
    apply reads_struct, fields_read_cons; [by eapply reads_mono|apply fields_read_nil].
  - exists h. split_and!; [done..|]. exists l, p, k. split; [done|]. split_and!; [done| |done]. cbn.
    destruct (t_MessageStoragePolicy sp) as [pol|] eqn:Hpol; [done|].
    destruct p as [|[|]| | |]; try done. by destruct (at_MessageStoragePolicy t), policy as [|[|]| | |].
Qed.
End statements.

Lemma LateInitialize_refines h s sp t labels policy :
  spec_at h s sp → topic_at (delete s h) labels policy t →
  refines h s (LateInitialize_in_memory h s (topic_value t.(at_KmsKeyName) labels policy)) (LateInitialize sp t).
Proof.
  intros Hsp Ht. unfold LateInitialize_in_memory.
  destruct (late_labels_refines h s sp t labels policy Hsp Ht) as (h1 & -> & Hsub1 & Hsp1). cbn [mbind outcome_bind].
  destruct (late_key_refines h1 s _ t labels policy Hsp1) as (h2 & -> & Hsub2 & Hsp2). cbn [mbind outcome_bind].
  destruct (late_policy_refines h2 s _ t labels policy Hsp2) as (h3 & -> & Hsub3 & Hsp3).
  { eapply topic_mono, Ht. by etrans. }
  exists h3. split_and!; [done|by do 2 etrans|exact Hsp3].
Qed.

(** ** Observe *)

Lemma map_tree_inj m1 m2 : map_tree m1 = map_tree m2 → m1 = m2.
Proof.
  destruct m1, m2; cbn; try done. intros [= Heq%(map_fmap_inj _)]; [congruence|]. by intros ?? [=].
Qed.
Lemma slice_tree_inj l1 l2 : slice_tree l1 = slice_tree l2 → l1 = l2.
Proof.
  destruct l1, l2; cbn; try done. intros [= Heq%(list_fmap_eq_inj _)]; [congruence|]. by intros ?? [=].
Qed.
Lemma parameters_tree_inj s1 s2 : parameters_tree s1 = parameters_tree s2 → s1 = s2.
Proof.
  destruct s1 as [l1 p1 k1], s2 as [l2 p2 k2]. cbn. intros [= Hl%map_tree_inj Hp Hk]. f_equal; [done|..].
  - destruct p1 as [[r1]|], p2 as [[r2]|]; cbn in Hp; try done. injection Hp as Hp%slice_tree_inj. cbn in Hp. congruence.
  - destruct k1, k2; cbn in Hk; try done. by injection Hk as ->.
Qed.

(** C11: the code of a topic's Observe that copies the spec, late initializes it in place and compares the two
    refines the functions of Topic.v. In any heap in which the spec and the observed topic are well-typed, they may
    share labels and regions as they like, it does not panic; the
    spec then reads as LateInitialize has it, the copy as the spec did
    before, and comparing the two finds them equal exactly when LateInitialize changes nothing: the
    spec is sent to the API server if and only if the model says so. *)
Theorem topic_observe_refined h s sp tv t :
  reads h (TPtr DeepCopyPubsub.TopicParameters) (VPtr (Some s)) (RPtr (parameters_tree sp)) →
  reads h api_topic tv (api_topic_tree t) →
  ∃ h' currentSpec, observe_in_memory h s tv = Returns (h', currentSpec) ∧
    reads h' (TPtr DeepCopyPubsub.TopicParameters) (VPtr (Some s)) (RPtr (parameters_tree (LateInitialize sp t))) ∧
    reads h' (TPtr DeepCopyPubsub.TopicParameters) currentSpec (RPtr (parameters_tree sp)) ∧
    ∀ r r', reads h' (TPtr DeepCopyPubsub.TopicParameters) currentSpec r →
      reads h' (TPtr DeepCopyPubsub.TopicParameters) (VPtr (Some s)) r' → r = r' ↔ LateInitialize sp t = sp.
Proof.
  intros Hsp Ht. unfold observe_in_memory. apply spec_at_reads in Hsp as Hat. destruct Hat as (l & p & k & Hs & _).
  assert (copies (TPtr DeepCopyPubsub.TopicParameters) TopicParameters_DeepCopy) as Hcopy by (apply copies_deep_copy; solve_copies).
  destruct (Hcopy _ _ _ Hsp) as (d & w & -> & Hd & Hw). cbn [mbind outcome_bind].
  eapply reads_mono in Hsp; [|apply (map_union_subseteq_l h d)]. eapply reads_mono in Ht; [|apply (map_union_subseteq_l h d)].
  eapply (reads_delete _ s) in Ht; [|by eapply lookup_union_Some_l|apply never_at_spec].
  apply topic_at_reads in Ht as (labels & policy & -> & Ht).
  destruct (LateInitialize_refines (h ∪ d) s sp t labels policy) as (h' & -> & Hsub & Hsp'); [by apply spec_at_reads|done|].
  assert (d ⊆ h') as Hdh'.
  { etrans; [|apply (delete_subseteq h' s)]. etrans; [|exact Hsub].
    rewrite delete_union, (delete_id d) by (by eapply map_disjoint_Some_l).
    apply map_union_subseteq_r, map_disjoint_delete_l, Hd. }
  apply (reads_mono d h') in Hw; [|done]. apply spec_at_reads in Hsp'.
  exists h', w. split_and!; [done..|]. intros r r' Hr Hr'.
  rewrite (reads_det _ _ _ _ _ Hr Hw), (reads_det _ _ _ _ _ Hr' Hsp').
  split; [by intros <-%(inj RPtr)%parameters_tree_inj|by intros ->].
Qed.

(** The topic of DeepCopy.v's heap has a label and a key; Google adds the regions,
    which the spec then shares with the observed topic. *)
Definition example_heap : gmap loc cell :=
  <[1%positive := spec_cell (VMap (Some 2%positive)) (VPtr None) (VPtr (Some 3%positive))]>
  (<[2%positive := CMap {["team" := VBasic (BString "a")]}]>
  (<[3%positive := CValue (VBasic (BString "key"))]>
  (<[4%positive := CValue (VStruct [("AllowedPersistenceRegions", VSlice (Some 5%positive))])]>
  {[5%positive := CArray [VBasic (BString "us-east1")]]}))).
Definition example_parameters : Topic.TopicParameters :=
  {| t_Labels := Some {["team" := "a"]}; t_MessageStoragePolicy := None; t_KmsKeyName := Some "key" |}.
Definition example_topic : apiTopic := {|
  at_KmsKeyName := "key"; at_Labels := Some {["team" := "a"]}; at_Name := ""; at_rest := ∅;
  at_MessageStoragePolicy := Some {| asp_AllowedPersistenceRegions := Some ["us-east1"]; asp_rest := ∅ |} |}.
Definition example_value : value := topic_value "key" (VMap (Some 2%positive)) (VPtr (Some 4%positive)).

Lemma example_labels :
  reads example_heap (TMap TString) (VMap (Some 2%positive)) (map_tree (Some {["team" := "a"]})).
Proof.
  eexists. split; [reflexivity|]. intros k. rewrite lookup_fmap. destruct (decide (k = "team")) as [->|Hk].
  - rewrite !lookup_singleton_eq. by repeat constructor.
  - rewrite !lookup_singleton_ne by done. constructor.
Qed.
Lemma topic_observe_refined_witness :
  ∃ h' currentSpec, observe_in_memory example_heap 1%positive example_value = Returns (h', currentSpec) ∧
    reads h' (TPtr DeepCopyPubsub.TopicParameters) currentSpec (RPtr (parameters_tree example_parameters)) ∧
    ¬ reads h' (TPtr DeepCopyPubsub.TopicParameters) (VPtr (Some 1%positive)) (RPtr (parameters_tree example_parameters)).
Proof.
  destruct (topic_observe_refined example_heap 1%positive example_parameters example_value example_topic)
    as (h' & w & Hw & Hs & Hc & Heq).
  - eexists. split; [reflexivity|]. apply reads_struct. repeat apply fields_read_cons; [exact example_labels|done| |apply fields_read_nil].
    eexists. by split; [reflexivity|].
  - apply reads_struct. repeat apply fields_read_cons; [done|exact example_labels| |apply fields_read_nil].
    eexists. split; [reflexivity|]. apply reads_struct, fields_read_cons; [|apply fields_read_nil].
    eexists. split; [reflexivity|]. by repeat constructor.
  - exists h', w. split; [exact Hw|]. split; [exact Hc|]. intros Hr.
    pose proof (proj1 (Heq _ _ Hc Hr) eq_refl) as Hlate.
    apply (f_equal t_MessageStoragePolicy) in Hlate. cbn in Hlate. discriminate Hlate.
Defined.
