(* ===== verification/Registration.v ===== *)
(** * The types that are registered

    apis/gcp.go and the register.go of every API package: the group, the version
    and the kinds, and the objects that each package registers with its scheme
    builder when it is loaded. *)

From S2P Require Import Prelude.

(** A struct of the repository. *)
Record GoType := { go_package : string; type_name : string }.
#[global] Instance GoType_eq_dec : EqDecision GoType.
Proof. solve_decision. Defined.

(** ** Groups, versions and kinds *)

Record GroupVersion := { Group : string; Version : string }.
Record GroupKind := { gk_Group : string; gk_Kind : string }.
Record GroupVersionKind := { gvk_Group : string; gvk_Version : string; gvk_Kind : string }.
#[global] Instance GroupVersion_eq_dec : EqDecision GroupVersion.
Proof. solve_decision. Defined.
#[global] Instance GroupKind_eq_dec : EqDecision GroupKind.
Proof. solve_decision. Defined.
#[global] Instance GroupVersionKind_eq_dec : EqDecision GroupVersionKind.
Proof. solve_decision. Defined.

(** k8s.io/apimachinery/pkg/runtime/schema: how groups and kinds are printed, and
    the kind of a group and version. *)
Class Schema := {
  GroupKind_String : GroupKind → string;
  GroupVersion_String : GroupVersion → string;
  WithKind : GroupVersion → string → GroupVersionKind;
  WithKind_fields gv kind :
    WithKind gv kind = {| gvk_Group := gv.(Group); gvk_Version := gv.(Version); gvk_Kind := kind |}
}.

(** The metadata that a package declares of a type; the kind is the type's
    name. *)
Record Metadata := {
  md_Kind : string;
  md_GroupKind : string;
  md_KindAPIVersion : string;
  md_GroupVersionKind : GroupVersionKind
}.
Definition metadata `{Schema} (gv : GroupVersion) (t : GoType) : Metadata :=
  let kind := t.(type_name) in
  {| md_Kind := kind;
     md_GroupKind := GroupKind_String {| gk_Group := gv.(Group); gk_Kind := kind |};
     md_KindAPIVersion := kind +:+ "." +:+ GroupVersion_String gv;
     md_GroupVersionKind := WithKind gv kind |}.

(** What a package hands to controller-runtime: its group and version, and the
    objects of the calls of Register. *)
Record SchemeBuilder := { builder_GroupVersion : GroupVersion; builder_objects : list GoType }.
#[global] Instance SchemeBuilder_eq_dec : EqDecision SchemeBuilder.
Proof. solve_decision. Defined.

(** ** The packages *)

Section packages.
Context `{Schema}.

(** *** apis/v1alpha3/register.go *)

Definition gcp_v1alpha3 : GroupVersion := {| Group := "gcp.crossplane.io"; Version := "v1alpha3" |}.
Definition Provider_type : GoType := {| go_package := "apis/v1alpha3"; type_name := "Provider" |}.
Definition ProviderList_type : GoType := {| go_package := "apis/v1alpha3"; type_name := "ProviderList" |}.
Definition Provider_metadata := metadata gcp_v1alpha3 Provider_type.
Definition gcp_v1alpha3_SchemeBuilder : SchemeBuilder := {|
  builder_GroupVersion := gcp_v1alpha3;
  builder_objects := [Provider_type; ProviderList_type] |}.

(** *** apis/v1beta1/register.go *)

Definition gcp_v1beta1 : GroupVersion := {| Group := "gcp.crossplane.io"; Version := "v1beta1" |}.
Definition ProviderConfig_type : GoType := {| go_package := "apis/v1beta1"; type_name := "ProviderConfig" |}.
Definition ProviderConfigList_type : GoType := {| go_package := "apis/v1beta1"; type_name := "ProviderConfigList" |}.
Definition ProviderConfigUsage_type : GoType :=
  {| go_package := "apis/v1beta1"; type_name := "ProviderConfigUsage" |}.
Definition ProviderConfigUsageList_type : GoType :=
  {| go_package := "apis/v1beta1"; type_name := "ProviderConfigUsageList" |}.
Definition ProviderConfig_metadata := metadata gcp_v1beta1 ProviderConfig_type.
Definition ProviderConfigUsage_metadata := metadata gcp_v1beta1 ProviderConfigUsage_type.
Definition ProviderConfigUsageList_metadata := metadata gcp_v1beta1 ProviderConfigUsageList_type.
Definition gcp_v1beta1_SchemeBuilder : SchemeBuilder := {|
  builder_GroupVersion := gcp_v1beta1;
  builder_objects := [ProviderConfig_type; ProviderConfigList_type] ++
    [ProviderConfigUsage_type; ProviderConfigUsageList_type] |}.

(** *** apis/cache/v1beta1/register.go *)

Definition cache_v1beta1 : GroupVersion := {| Group := "cache.gcp.crossplane.io"; Version := "v1beta1" |}.
Definition CloudMemorystoreInstance_type : GoType :=
  {| go_package := "apis/cache/v1beta1"; type_name := "CloudMemorystoreInstance" |}.
Definition CloudMemorystoreInstanceList_type : GoType :=
  {| go_package := "apis/cache/v1beta1"; type_name := "CloudMemorystoreInstanceList" |}.
Definition CloudMemorystoreInstance_metadata := metadata cache_v1beta1 CloudMemorystoreInstance_type.
Definition cache_v1beta1_SchemeBuilder : SchemeBuilder := {|
  builder_GroupVersion := cache_v1beta1;
  builder_objects := [CloudMemorystoreInstance_type; CloudMemorystoreInstanceList_type] |}.

(** *** apis/compute/v1beta1/register.go *)

Definition compute_v1beta1 : GroupVersion := {| Group := "compute.gcp.crossplane.io"; Version := "v1beta1" |}.
Definition Network_type : GoType := {| go_package := "apis/compute/v1beta1"; type_name := "Network" |}.
Definition NetworkList_type : GoType := {| go_package := "apis/compute/v1beta1"; type_name := "NetworkList" |}.
Definition Subnetwork_type : GoType := {| go_package := "apis/compute/v1beta1"; type_name := "Subnetwork" |}.
Definition SubnetworkList_type : GoType := {| go_package := "apis/compute/v1beta1"; type_name := "SubnetworkList" |}.
Definition GlobalAddress_type : GoType := {| go_package := "apis/compute/v1beta1"; type_name := "GlobalAddress" |}.
Definition GlobalAddressList_type : GoType :=
  {| go_package := "apis/compute/v1beta1"; type_name := "GlobalAddressList" |}.
Definition Network_metadata := metadata compute_v1beta1 Network_type.
Definition Subnetwork_metadata := metadata compute_v1beta1 Subnetwork_type.
Definition GlobalAddress_metadata := metadata compute_v1beta1 GlobalAddress_type.
Definition compute_v1beta1_SchemeBuilder : SchemeBuilder := {|
  builder_GroupVersion := compute_v1beta1;
  builder_objects := [Network_type; NetworkList_type] ++
    [Subnetwork_type; SubnetworkList_type] ++
    [GlobalAddress_type; GlobalAddressList_type] |}.

(** *** apis/container/v1beta2/register.go *)

Definition container_v1beta2 : GroupVersion := {| Group := "container.gcp.crossplane.io"; Version := "v1beta2" |}.
Definition Cluster_type : GoType := {| go_package := "apis/container/v1beta2"; type_name := "Cluster" |}.
Definition ClusterList_type : GoType := {| go_package := "apis/container/v1beta2"; type_name := "ClusterList" |}.
Definition Cluster_metadata := metadata container_v1beta2 Cluster_type.
Definition container_v1beta2_SchemeBuilder : SchemeBuilder := {|
  builder_GroupVersion := container_v1beta2;
  builder_objects := [Cluster_type; ClusterList_type] |}.

(** *** apis/container/v1beta1/register.go *)

Definition container_v1beta1 : GroupVersion := {| Group := "container.gcp.crossplane.io"; Version := "v1beta1" |}.
Definition NodePool_type : GoType := {| go_package := "apis/container/v1beta1"; type_name := "NodePool" |}.
Definition NodePoolList_type : GoType := {| go_package := "apis/container/v1beta1"; type_name := "NodePoolList" |}.
Definition NodePool_metadata := metadata container_v1beta1 NodePool_type.
Definition container_v1beta1_SchemeBuilder : SchemeBuilder := {|
  builder_GroupVersion := container_v1beta1;
  builder_objects := [NodePool_type; NodePoolList_type] |}.

(** *** apis/database/v1beta1/register.go *)

Definition database_v1beta1 : GroupVersion := {| Group := "database.gcp.crossplane.io"; Version := "v1beta1" |}.
Definition CloudSQLInstance_type : GoType :=
  {| go_package := "apis/database/v1beta1"; type_name := "CloudSQLInstance" |}.
Definition CloudSQLInstanceList_type : GoType :=
  {| go_package := "apis/database/v1beta1"; type_name := "CloudSQLInstanceList" |}.
Definition CloudSQLInstance_metadata := metadata database_v1beta1 CloudSQLInstance_type.
Definition database_v1beta1_SchemeBuilder : SchemeBuilder := {|
  builder_GroupVersion := database_v1beta1;
  builder_objects := [CloudSQLInstance_type; CloudSQLInstanceList_type] |}.

(** *** apis/iam/v1alpha1/register.go *)

Definition iam_v1alpha1 : GroupVersion := {| Group := "iam.gcp.crossplane.io"; Version := "v1alpha1" |}.
Definition ServiceAccount_type : GoType := {| go_package := "apis/iam/v1alpha1"; type_name := "ServiceAccount" |}.
Definition ServiceAccountList_type : GoType :=
  {| go_package := "apis/iam/v1alpha1"; type_name := "ServiceAccountList" |}.
Definition ServiceAccountKey_type : GoType :=
  {| go_package := "apis/iam/v1alpha1"; type_name := "ServiceAccountKey" |}.
Definition ServiceAccountKeyList_type : GoType :=
  {| go_package := "apis/iam/v1alpha1"; type_name := "ServiceAccountKeyList" |}.
Definition ServiceAccountPolicy_type : GoType :=
  {| go_package := "apis/iam/v1alpha1"; type_name := "ServiceAccountPolicy" |}.
Definition ServiceAccountPolicyList_type : GoType :=
  {| go_package := "apis/iam/v1alpha1"; type_name := "ServiceAccountPolicyList" |}.
Definition ServiceAccount_metadata := metadata iam_v1alpha1 ServiceAccount_type.
Definition ServiceAccountKey_metadata := metadata iam_v1alpha1 ServiceAccountKey_type.
Definition ServiceAccountPolicy_metadata := metadata iam_v1alpha1 ServiceAccountPolicy_type.
Definition iam_v1alpha1_SchemeBuilder : SchemeBuilder := {|
  builder_GroupVersion := iam_v1alpha1;
  builder_objects := [ServiceAccount_type; ServiceAccountList_type; ServiceAccountKey_type; ServiceAccountKeyList_type; ServiceAccountPolicy_type; ServiceAccountPolicyList_type] |}.

(** *** apis/kms/v1alpha1/register.go *)

Definition kms_v1alpha1 : GroupVersion := {| Group := "kms.gcp.crossplane.io"; Version := "v1alpha1" |}.
Definition KeyRing_type : GoType := {| go_package := "apis/kms/v1alpha1"; type_name := "KeyRing" |}.
Definition KeyRingList_type : GoType := {| go_package := "apis/kms/v1alpha1"; type_name := "KeyRingList" |}.
Definition CryptoKey_type : GoType := {| go_package := "apis/kms/v1alpha1"; type_name := "CryptoKey" |}.
Definition CryptoKeyList_type : GoType := {| go_package := "apis/kms/v1alpha1"; type_name := "CryptoKeyList" |}.
Definition CryptoKeyPolicy_type : GoType := {| go_package := "apis/kms/v1alpha1"; type_name := "CryptoKeyPolicy" |}.
Definition CryptoKeyPolicyList_type : GoType :=
  {| go_package := "apis/kms/v1alpha1"; type_name := "CryptoKeyPolicyList" |}.
Definition KeyRing_metadata := metadata kms_v1alpha1 KeyRing_type.
Definition CryptoKey_metadata := metadata kms_v1alpha1 CryptoKey_type.
Definition CryptoKeyPolicy_metadata := metadata kms_v1alpha1 CryptoKeyPolicy_type.
Definition kms_v1alpha1_SchemeBuilder : SchemeBuilder := {|
  builder_GroupVersion := kms_v1alpha1;
  builder_objects := [KeyRing_type; KeyRingList_type; CryptoKey_type; CryptoKeyList_type; CryptoKeyPolicy_type; CryptoKeyPolicyList_type] |}.

(** *** apis/pubsub/v1alpha1/register.go *)

Definition pubsub_v1alpha1 : GroupVersion := {| Group := "pubsub.gcp.crossplane.io"; Version := "v1alpha1" |}.
Definition Topic_type : GoType := {| go_package := "apis/pubsub/v1alpha1"; type_name := "Topic" |}.
Definition TopicList_type : GoType := {| go_package := "apis/pubsub/v1alpha1"; type_name := "TopicList" |}.
Definition Topic_metadata := metadata pubsub_v1alpha1 Topic_type.
Definition pubsub_v1alpha1_SchemeBuilder : SchemeBuilder := {|
  builder_GroupVersion := pubsub_v1alpha1;
  builder_objects := [Topic_type; TopicList_type] |}.

(** *** apis/servicenetworking/v1beta1/register.go *)

Definition servicenetworking_v1beta1 : GroupVersion :=
  {| Group := "servicenetworking.gcp.crossplane.io"; Version := "v1beta1" |}.
Definition Connection_type : GoType :=
  {| go_package := "apis/servicenetworking/v1beta1"; type_name := "Connection" |}.
Definition ConnectionList_type : GoType :=
  {| go_package := "apis/servicenetworking/v1beta1"; type_name := "ConnectionList" |}.
Definition Connection_metadata := metadata servicenetworking_v1beta1 Connection_type.
Definition servicenetworking_v1beta1_SchemeBuilder : SchemeBuilder := {|
  builder_GroupVersion := servicenetworking_v1beta1;
  builder_objects := [Connection_type; ConnectionList_type] |}.

(** *** apis/storage/v1alpha1/register.go *)

Definition storage_v1alpha1 : GroupVersion := {| Group := "storage.gcp.crossplane.io"; Version := "v1alpha1" |}.
Definition BucketPolicy_type : GoType := {| go_package := "apis/storage/v1alpha1"; type_name := "BucketPolicy" |}.
Definition BucketPolicyList_type : GoType :=
  {| go_package := "apis/storage/v1alpha1"; type_name := "BucketPolicyList" |}.
Definition BucketPolicyMember_type : GoType :=
  {| go_package := "apis/storage/v1alpha1"; type_name := "BucketPolicyMember" |}.
Definition BucketPolicyMemberList_type : GoType :=
  {| go_package := "apis/storage/v1alpha1"; type_name := "BucketPolicyMemberList" |}.
Definition BucketPolicy_metadata := metadata storage_v1alpha1 BucketPolicy_type.
Definition BucketPolicyMember_metadata := metadata storage_v1alpha1 BucketPolicyMember_type.
Definition storage_v1alpha1_SchemeBuilder : SchemeBuilder := {|
  builder_GroupVersion := storage_v1alpha1;
  builder_objects := [BucketPolicy_type; BucketPolicyList_type; BucketPolicyMember_type; BucketPolicyMemberList_type] |}.

(** *** apis/storage/v1alpha3/register.go *)

Definition storage_v1alpha3 : GroupVersion := {| Group := "storage.gcp.crossplane.io"; Version := "v1alpha3" |}.
Definition Bucket_type : GoType := {| go_package := "apis/storage/v1alpha3"; type_name := "Bucket" |}.
Definition BucketList_type : GoType := {| go_package := "apis/storage/v1alpha3"; type_name := "BucketList" |}.
Definition Bucket_metadata := metadata storage_v1alpha3 Bucket_type.
Definition storage_v1alpha3_SchemeBuilder : SchemeBuilder := {|
  builder_GroupVersion := storage_v1alpha3;
  builder_objects := [Bucket_type; BucketList_type] |}.

(** ** apis/gcp.go *)

Definition AddToSchemes : list SchemeBuilder := [
  gcp_v1alpha3_SchemeBuilder; gcp_v1beta1_SchemeBuilder; cache_v1beta1_SchemeBuilder;
  compute_v1beta1_SchemeBuilder; container_v1beta2_SchemeBuilder; container_v1beta1_SchemeBuilder;
  database_v1beta1_SchemeBuilder; iam_v1alpha1_SchemeBuilder; kms_v1alpha1_SchemeBuilder;
  pubsub_v1alpha1_SchemeBuilder; servicenetworking_v1beta1_SchemeBuilder; storage_v1alpha1_SchemeBuilder;
  storage_v1alpha3_SchemeBuilder].
End packages.

(** The kinds that the scheme has once these builders are added. *)
Definition registered `{Schema} (bs : list SchemeBuilder) : list GroupVersionKind :=
  b ← bs; (λ t, WithKind b.(builder_GroupVersion) t.(type_name)) <$> b.(builder_objects).
