(* ===== verification/Setup.v ===== *)
(** * Starting the provider

    cmd/provider/main.go, pkg/controller/gcp.go and the SetupX function of every
    controller: which controllers are made, of what, and in which order. The
    libraries they are handed to are not part of the repository: making a
    reconciler and completing a controller are calls. *)

From S2P Require Import IamPolicy PolicyController BucketPolicy BucketPolicyMember ServiceAccountPolicy CryptoKeyPolicy.
From S2P Require Import ServiceAccount ServiceAccountKey Bucket Network Subnetwork GlobalAddress Connection Topic KeyRing CryptoKey.
From S2P Require Import Memorystore CloudSQL ClusterTypes Cluster NodePool Connect.
From S2P Require Import Prelude Libs Contract Gcp Registration.

(** ** What a controller is made of *)

(** The structs of the managed resources, by the types that model them. *)
Class IsGoType (T : Type) (t : GoType) := {}.
#[global] Instance CloudMemorystoreInstance_is Time : IsGoType (Memorystore.CloudMemorystoreInstance Time) CloudMemorystoreInstance_type := {}.
#[global] Instance GlobalAddress_is : IsGoType GlobalAddress.GlobalAddress GlobalAddress_type := {}.
#[global] Instance Network_is : IsGoType Network.Network Network_type := {}.
#[global] Instance Subnetwork_is : IsGoType Subnetwork.Subnetwork Subnetwork_type := {}.
#[global] Instance Cluster_is : IsGoType ClusterTypes.Cluster Cluster_type := {}.
#[global] Instance NodePool_is : IsGoType NodePool.NodePool NodePool_type := {}.
#[global] Instance CloudSQLInstance_is : IsGoType CloudSQL.CloudSQLInstance CloudSQLInstance_type := {}.
#[global] Instance ServiceAccount_is : IsGoType ServiceAccount.ServiceAccount ServiceAccount_type := {}.
#[global] Instance ServiceAccountKey_is : IsGoType ServiceAccountKey.ServiceAccountKey ServiceAccountKey_type := {}.
#[global] Instance ServiceAccountPolicy_is : IsGoType ServiceAccountPolicy.ServiceAccountPolicy ServiceAccountPolicy_type := {}.
#[global] Instance KeyRing_is : IsGoType KeyRing.KeyRing KeyRing_type := {}.
#[global] Instance CryptoKey_is : IsGoType CryptoKey.CryptoKey CryptoKey_type := {}.
#[global] Instance CryptoKeyPolicy_is : IsGoType CryptoKeyPolicy.CryptoKeyPolicy CryptoKeyPolicy_type := {}.
#[global] Instance Topic_is : IsGoType Topic.Topic Topic_type := {}.
#[global] Instance Connection_is : IsGoType Connection.Connection Connection_type := {}.
#[global] Instance Bucket_is : IsGoType (Managed BucketSpecAttrs BucketOutputAttrs) Bucket_type := {}.
#[global] Instance BucketPolicy_is : IsGoType BucketPolicy.BucketPolicy BucketPolicy_type := {}.
#[global] Instance BucketPolicyMember_is : IsGoType BucketPolicyMember.BucketPolicyMember BucketPolicyMember_type := {}.

(** The type that a handler asserts the managed resource to be is the type of
    the resource in its argument, after those of what the client holds; a
    resource of any other type is [None] to it. *)
Class Asserts (F : Type) (t : GoType) := {}.
#[global] Instance asserts_resource {T A} t `{!IsGoType T t} : Asserts (option T → A) t | 0 := {}.
#[global] Instance asserts_held {B} {F : B → Type} t `{!∀ b, Asserts (F b) t} : Asserts (∀ b, F b) t | 1 := {}.
Definition assertion {F : Type} {t : GoType} (handler : F) `{!Asserts F t} : GoType := t.

(** An external connecter, with the types that its Connect and the handlers of the client it
    connects assert the managed resource to be, in the order of the file. *)
Record Connecter := { connecter_name : string; asserts : list GoType }.

Inductive Initializer := NewDefaultProviderConfig | NewNameAsExternalName | CloudsqlTagger.
Definition initializer_asserts (i : Initializer) : list GoType :=
  match i with CloudsqlTagger => [assertion (@CloudSQL.Initialize)] | _ => [] end.
Inductive Resolver := NewAPISimpleReferenceResolver.
(** No controller names a publisher of its own. *)
Inductive Publisher := .
(** The options of a managed reconciler. The logger is the one Setup is given,
    with the name of the controller or as it is. *)
Inductive ReconcilerOption :=
| WithExternalConnecter (c : Connecter)
| WithInitializers (inits : list Initializer)
| WithReferenceResolver (r : Resolver)
| WithConnectionPublishers (ps : list Publisher)
| WithLogger (controller : option string)
| WithRecorder (name : string).
Inductive Reconciler :=
| ManagedReconciler (kind : GroupVersionKind) (os : list ReconcilerOption)
| ProviderConfigReconciler (config usages : GroupVersionKind) (os : list ReconcilerOption).

(** crossplane-runtime's names of controllers and its rate limiters. *)
Class ControllerRuntime := {
  managed_ControllerName : string → string;
  providerconfig_ControllerName : string → string;
  RateLimiter : Type;
  NewDefaultManagedRateLimiter : RateLimiter → RateLimiter;
  NewDefaultProviderRateLimiter : RateLimiter
}.

Section setup.
Context `{Schema} `{ControllerRuntime}.

Record Controller := {
  c_Name : string;
  c_RateLimiter : RateLimiter;
  c_For : GoType;
  c_Watches : list GoType;
  c_Reconciler : Reconciler
}.

(** Making a reconciler panics when the scheme does not have its kinds;
    completing a controller registers it with the manager. *)
Inductive SetupE : Type → Type :=
| NewReconciler (r : Reconciler) : SetupE (outcome unit)
| Complete (c : Controller) : SetupE (option error).

Definition new_reconciler (r : Reconciler) : prog SetupE Reconciler :=
  o ← call (NewReconciler r);
  lift (o ≫= λ _, Returns r).

(** ** The connecters *)

Definition cache_connecter : Connecter := {|
  connecter_name := "cache.connecter";
  asserts := [assertion (@Memorystore.Observe); assertion (@Memorystore.Create); assertion (@Memorystore.Update); assertion (@Memorystore.Delete)] |}.
Definition gaConnector : Connecter := {|
  connecter_name := "compute.gaConnector";
  asserts := [assertion (@GlobalAddress.Observe); assertion (@GlobalAddress.Create); assertion (@GlobalAddress.Delete)] |}.
Definition networkConnector : Connecter := {|
  connecter_name := "compute.networkConnector";
  asserts := [assertion (@Network.Observe); assertion (@Network.Create); assertion (@Network.Update); assertion (@Network.Delete)] |}.
Definition subnetworkConnector : Connecter := {|
  connecter_name := "compute.subnetworkConnector";
  asserts := [assertion (@Subnetwork.Observe); assertion (@Subnetwork.Create); assertion (@Subnetwork.Update); assertion (@Subnetwork.Delete)] |}.
Definition clusterConnector : Connecter := {|
  connecter_name := "container.clusterConnector";
  asserts := [assertion (@Cluster.Observe); assertion (@Cluster.Create); assertion (@Cluster.Update); assertion (@Cluster.Delete)] |}.
Definition nodePoolConnector : Connecter := {|
  connecter_name := "container.nodePoolConnector";
  asserts := [assertion (@NodePool.Observe); assertion (@NodePool.Create); assertion (@NodePool.Update); assertion (@NodePool.Delete)] |}.
Definition cloudsqlConnector : Connecter := {|
  connecter_name := "database.cloudsqlConnector";
  asserts := [assertion (@CloudSQL.Observe); assertion (@CloudSQL.Create); assertion (@CloudSQL.Update); assertion (@CloudSQL.Delete)] |}.
Definition iam_connecter : Connecter := {|
  connecter_name := "iam.connecter";
  asserts := [assertion (@ServiceAccount.Observe); assertion (@ServiceAccount.Create); assertion (@ServiceAccount.Update); assertion (@ServiceAccount.Delete)] |}.
Definition serviceAccountKeyServiceConnector : Connecter := {|
  connecter_name := "iam.serviceAccountKeyServiceConnector";
  asserts := [assertion (@ServiceAccountKey.Observe); assertion (@ServiceAccountKey.Create); assertion (@ServiceAccountKey.Delete)] |}.
Definition serviceAccountPolicyConnecter : Connecter := {|
  connecter_name := "iam.serviceAccountPolicyConnecter";
  asserts := [assertion (@ServiceAccountPolicy.Observe); assertion (@ServiceAccountPolicy.Create); assertion (@ServiceAccountPolicy.Update); assertion (@ServiceAccountPolicy.Delete)] |}.
Definition keyRingConnecter : Connecter := {|
  connecter_name := "kms.keyRingConnecter";
  asserts := [assertion (@Connect.keyRing_Connect); assertion (@KeyRing.Observe); assertion (@KeyRing.Create)] |}.
Definition cryptoKeyConnecter : Connecter := {|
  connecter_name := "kms.cryptoKeyConnecter";
  asserts := [assertion (@CryptoKey.Observe); assertion (@CryptoKey.Create); assertion (@CryptoKey.Update)] |}.
Definition cryptoKeyPolicyConnecter : Connecter := {|
  connecter_name := "kms.cryptoKeyPolicyConnecter";
  asserts := [assertion (@CryptoKeyPolicy.Observe); assertion (@CryptoKeyPolicy.Create); assertion (@CryptoKeyPolicy.Update); assertion (@CryptoKeyPolicy.Delete)] |}.
Definition pubsub_connector : Connecter := {|
  connecter_name := "pubsub.connector";
  asserts := [assertion (@Topic.Observe); assertion (@Topic.Create); assertion (@Topic.Update); assertion (@Topic.Delete)] |}.
Definition servicenetworking_connector : Connecter := {|
  connecter_name := "servicenetworking.connector";
  asserts := [assertion (@Connection.Observe); assertion (@Connection.Create); assertion (@Connection.Update); assertion (@Connection.Delete)] |}.
Definition storage_connecter : Connecter := {|
  connecter_name := "storage.connecter";
  asserts := [assertion (@Bucket.Observe); assertion (@Bucket.Create); assertion (@Bucket.Update); assertion (@Bucket.Delete)] |}.
Definition bucketPolicyConnecter : Connecter := {|
  connecter_name := "storage.bucketPolicyConnecter";
  asserts := [assertion (@BucketPolicy.Observe); assertion (@BucketPolicy.Create); assertion (@BucketPolicy.Update); assertion (@BucketPolicy.Delete)] |}.
Definition bucketPolicyMemberConnecter : Connecter := {|
  connecter_name := "storage.bucketPolicyMemberConnecter";
  asserts := [assertion (@BucketPolicyMember.Observe); assertion (@BucketPolicyMember.Create); assertion (@BucketPolicyMember.Delete)] |}.

(** ** The controllers *)

Definition config_Setup (rl : RateLimiter) : prog SetupE (option error) :=
  let name := providerconfig_ControllerName ProviderConfig_metadata.(md_GroupKind) in
  r ← new_reconciler (ProviderConfigReconciler
        ProviderConfig_metadata.(md_GroupVersionKind) ProviderConfigUsageList_metadata.(md_GroupVersionKind) [
        WithLogger (Some name); WithRecorder name]);
  call (Complete {| c_Name := name; c_RateLimiter := NewDefaultManagedRateLimiter rl;
                    c_For := ProviderConfig_type; c_Watches := [ProviderConfigUsage_type]; c_Reconciler := r |}).
Definition SetupCloudMemorystoreInstance (rl : RateLimiter) : prog SetupE (option error) :=
  let name := managed_ControllerName CloudMemorystoreInstance_metadata.(md_GroupKind) in
  r ← new_reconciler (ManagedReconciler CloudMemorystoreInstance_metadata.(md_GroupVersionKind) [
        WithExternalConnecter cache_connecter; WithLogger (Some name); WithRecorder name]);
  call (Complete {| c_Name := name; c_RateLimiter := NewDefaultManagedRateLimiter rl;
                    c_For := CloudMemorystoreInstance_type; c_Watches := []; c_Reconciler := r |}).
Definition SetupGlobalAddress (rl : RateLimiter) : prog SetupE (option error) :=
  let name := managed_ControllerName GlobalAddress_metadata.(md_GroupKind) in
  r ← new_reconciler (ManagedReconciler GlobalAddress_metadata.(md_GroupVersionKind) [
        WithExternalConnecter gaConnector;
        WithReferenceResolver NewAPISimpleReferenceResolver; WithConnectionPublishers [];
        WithLogger (Some name); WithRecorder name]);
  call (Complete {| c_Name := name; c_RateLimiter := NewDefaultManagedRateLimiter rl;
                    c_For := GlobalAddress_type; c_Watches := []; c_Reconciler := r |}).
Definition SetupNetwork (rl : RateLimiter) : prog SetupE (option error) :=
  let name := managed_ControllerName Network_metadata.(md_GroupKind) in
  r ← new_reconciler (ManagedReconciler Network_metadata.(md_GroupVersionKind) [
        WithExternalConnecter networkConnector;
        WithReferenceResolver NewAPISimpleReferenceResolver; WithConnectionPublishers [];
        WithLogger (Some name); WithRecorder name]);
  call (Complete {| c_Name := name; c_RateLimiter := NewDefaultManagedRateLimiter rl;
                    c_For := Network_type; c_Watches := []; c_Reconciler := r |}).
Definition SetupSubnetwork (rl : RateLimiter) : prog SetupE (option error) :=
  let name := managed_ControllerName Subnetwork_metadata.(md_GroupKind) in
  r ← new_reconciler (ManagedReconciler Subnetwork_metadata.(md_GroupVersionKind) [
        WithExternalConnecter subnetworkConnector;
        WithReferenceResolver NewAPISimpleReferenceResolver; WithConnectionPublishers [];
        WithLogger (Some name); WithRecorder name]);
  call (Complete {| c_Name := name; c_RateLimiter := NewDefaultManagedRateLimiter rl;
                    c_For := Subnetwork_type; c_Watches := []; c_Reconciler := r |}).
Definition SetupCluster (rl : RateLimiter) : prog SetupE (option error) :=
  let name := managed_ControllerName Cluster_metadata.(md_GroupKind) in
  r ← new_reconciler (ManagedReconciler Cluster_metadata.(md_GroupVersionKind) [
        WithExternalConnecter clusterConnector;
        WithReferenceResolver NewAPISimpleReferenceResolver; WithLogger (Some name); WithRecorder name]);
  call (Complete {| c_Name := name; c_RateLimiter := NewDefaultManagedRateLimiter rl;
                    c_For := Cluster_type; c_Watches := []; c_Reconciler := r |}).
Definition SetupNodePool (rl : RateLimiter) : prog SetupE (option error) :=
  let name := managed_ControllerName NodePool_metadata.(md_GroupKind) in
  r ← new_reconciler (ManagedReconciler NodePool_metadata.(md_GroupVersionKind) [
        WithExternalConnecter nodePoolConnector;
        WithReferenceResolver NewAPISimpleReferenceResolver; WithLogger None; WithRecorder name]);
  call (Complete {| c_Name := name; c_RateLimiter := NewDefaultManagedRateLimiter rl;
                    c_For := NodePool_type; c_Watches := []; c_Reconciler := r |}).
Definition SetupCloudSQLInstance (rl : RateLimiter) : prog SetupE (option error) :=
  let name := managed_ControllerName CloudSQLInstance_metadata.(md_GroupKind) in
  r ← new_reconciler (ManagedReconciler CloudSQLInstance_metadata.(md_GroupVersionKind) [
        WithExternalConnecter cloudsqlConnector;
        WithInitializers [NewDefaultProviderConfig; NewNameAsExternalName; CloudsqlTagger];
        WithReferenceResolver NewAPISimpleReferenceResolver; WithLogger (Some name); WithRecorder name]);
  call (Complete {| c_Name := name; c_RateLimiter := NewDefaultManagedRateLimiter rl;
                    c_For := CloudSQLInstance_type; c_Watches := []; c_Reconciler := r |}).
Definition SetupServiceAccount (rl : RateLimiter) : prog SetupE (option error) :=
  let name := managed_ControllerName ServiceAccount_metadata.(md_GroupKind) in
  r ← new_reconciler (ManagedReconciler ServiceAccount_metadata.(md_GroupVersionKind) [
        WithExternalConnecter iam_connecter; WithLogger (Some name); WithRecorder name]);
  call (Complete {| c_Name := name; c_RateLimiter := NewDefaultManagedRateLimiter rl;
                    c_For := ServiceAccount_type; c_Watches := []; c_Reconciler := r |}).
Definition SetupServiceAccountKey (rl : RateLimiter) : prog SetupE (option error) :=
  let name := managed_ControllerName ServiceAccountKey_metadata.(md_GroupKind) in
  r ← new_reconciler (ManagedReconciler ServiceAccountKey_metadata.(md_GroupVersionKind) [
        WithInitializers []; WithExternalConnecter serviceAccountKeyServiceConnector; WithLogger (Some name); WithRecorder name]);
  call (Complete {| c_Name := name; c_RateLimiter := NewDefaultManagedRateLimiter rl;
                    c_For := ServiceAccountKey_type; c_Watches := []; c_Reconciler := r |}).
Definition SetupServiceAccountPolicy (rl : RateLimiter) : prog SetupE (option error) :=
  let name := managed_ControllerName ServiceAccountPolicy_metadata.(md_GroupKind) in
  r ← new_reconciler (ManagedReconciler ServiceAccountPolicy_metadata.(md_GroupVersionKind) [
        WithExternalConnecter serviceAccountPolicyConnecter;
        WithReferenceResolver NewAPISimpleReferenceResolver; WithLogger (Some name); WithRecorder name]);
  call (Complete {| c_Name := name; c_RateLimiter := NewDefaultManagedRateLimiter rl;
                    c_For := ServiceAccountPolicy_type; c_Watches := []; c_Reconciler := r |}).
Definition SetupKeyRing (rl : RateLimiter) : prog SetupE (option error) :=
  let name := managed_ControllerName KeyRing_metadata.(md_GroupKind) in
  r ← new_reconciler (ManagedReconciler KeyRing_metadata.(md_GroupVersionKind) [
        WithExternalConnecter keyRingConnecter; WithLogger (Some name); WithRecorder name]);
  call (Complete {| c_Name := name; c_RateLimiter := NewDefaultManagedRateLimiter rl;
                    c_For := KeyRing_type; c_Watches := []; c_Reconciler := r |}).
Definition SetupCryptoKey (rl : RateLimiter) : prog SetupE (option error) :=
  let name := managed_ControllerName CryptoKey_metadata.(md_GroupKind) in
  r ← new_reconciler (ManagedReconciler CryptoKey_metadata.(md_GroupVersionKind) [
        WithExternalConnecter cryptoKeyConnecter;
        WithReferenceResolver NewAPISimpleReferenceResolver; WithLogger (Some name); WithRecorder name]);
  call (Complete {| c_Name := name; c_RateLimiter := NewDefaultManagedRateLimiter rl;
                    c_For := CryptoKey_type; c_Watches := []; c_Reconciler := r |}).
Definition SetupCryptoKeyPolicy (rl : RateLimiter) : prog SetupE (option error) :=
  let name := managed_ControllerName CryptoKeyPolicy_metadata.(md_GroupKind) in
  r ← new_reconciler (ManagedReconciler CryptoKeyPolicy_metadata.(md_GroupVersionKind) [
        WithExternalConnecter cryptoKeyPolicyConnecter;
        WithReferenceResolver NewAPISimpleReferenceResolver; WithLogger (Some name); WithRecorder name]);
  call (Complete {| c_Name := name; c_RateLimiter := NewDefaultManagedRateLimiter rl;
                    c_For := CryptoKeyPolicy_type; c_Watches := []; c_Reconciler := r |}).
Definition SetupTopic (rl : RateLimiter) : prog SetupE (option error) :=
  let name := managed_ControllerName Topic_metadata.(md_GroupKind) in
  r ← new_reconciler (ManagedReconciler Topic_metadata.(md_GroupVersionKind) [
        WithExternalConnecter pubsub_connector; WithLogger (Some name); WithRecorder name]);
  call (Complete {| c_Name := name; c_RateLimiter := NewDefaultManagedRateLimiter rl;
                    c_For := Topic_type; c_Watches := []; c_Reconciler := r |}).
Definition SetupConnection (rl : RateLimiter) : prog SetupE (option error) :=
  let name := managed_ControllerName Connection_metadata.(md_GroupKind) in
  r ← new_reconciler (ManagedReconciler Connection_metadata.(md_GroupVersionKind) [
        WithExternalConnecter servicenetworking_connector;
        WithConnectionPublishers []; WithReferenceResolver NewAPISimpleReferenceResolver;
        WithLogger (Some name); WithRecorder name]);
  call (Complete {| c_Name := name; c_RateLimiter := NewDefaultManagedRateLimiter rl;
                    c_For := Connection_type; c_Watches := []; c_Reconciler := r |}).
Definition SetupBucket (rl : RateLimiter) : prog SetupE (option error) :=
  let name := managed_ControllerName Bucket_metadata.(md_GroupKind) in
  r ← new_reconciler (ManagedReconciler Bucket_metadata.(md_GroupVersionKind) [
        WithExternalConnecter storage_connecter; WithLogger (Some name); WithRecorder name]);
  call (Complete {| c_Name := name; c_RateLimiter := NewDefaultManagedRateLimiter rl;
                    c_For := Bucket_type; c_Watches := []; c_Reconciler := r |}).
Definition SetupBucketPolicy (rl : RateLimiter) : prog SetupE (option error) :=
  let name := managed_ControllerName BucketPolicy_metadata.(md_GroupKind) in
  r ← new_reconciler (ManagedReconciler BucketPolicy_metadata.(md_GroupVersionKind) [
        WithExternalConnecter bucketPolicyConnecter;
        WithReferenceResolver NewAPISimpleReferenceResolver; WithLogger (Some name); WithRecorder name]);
  call (Complete {| c_Name := name; c_RateLimiter := NewDefaultManagedRateLimiter rl;
                    c_For := BucketPolicy_type; c_Watches := []; c_Reconciler := r |}).
Definition SetupBucketPolicyMember (rl : RateLimiter) : prog SetupE (option error) :=
  let name := managed_ControllerName BucketPolicyMember_metadata.(md_GroupKind) in
  r ← new_reconciler (ManagedReconciler BucketPolicyMember_metadata.(md_GroupVersionKind) [
        WithExternalConnecter bucketPolicyMemberConnecter;
        WithReferenceResolver NewAPISimpleReferenceResolver; WithLogger (Some name); WithRecorder name]);
  call (Complete {| c_Name := name; c_RateLimiter := NewDefaultManagedRateLimiter rl;
                    c_For := BucketPolicyMember_type; c_Watches := []; c_Reconciler := r |}).

(** ** pkg/controller/gcp.go *)

Definition setups : list (RateLimiter → prog SetupE (option error)) := [
  config_Setup; SetupCloudMemorystoreInstance; SetupGlobalAddress;
  SetupNetwork; SetupSubnetwork; SetupCluster;
  SetupNodePool; SetupCloudSQLInstance; SetupServiceAccount;
  SetupServiceAccountKey; SetupServiceAccountPolicy; SetupKeyRing;
  SetupCryptoKey; SetupCryptoKeyPolicy; SetupTopic;
  SetupConnection; SetupBucket; SetupBucketPolicy;
  SetupBucketPolicyMember].

Fixpoint setup_each (ss : list (RateLimiter → prog SetupE (option error))) (rl : RateLimiter) : prog SetupE (option error) :=
  match ss with
  | [] => mret None
  | setup :: ss =>
    err ← setup rl;
    match err with
    | Some err => mret (Some err)
    | None => setup_each ss rl
    end
  end.
Definition Setup : RateLimiter → prog SetupE (option error) := setup_each setups.

(** ** cmd/provider/main.go *)

Record Flags := { debug : bool; syncPeriod : Z; leaderElection : bool }.
Record Options := { LeaderElection : bool; LeaderElectionID : string; SyncPeriod : Z }.

Context {Config : Type}.
(** The command line is parsed by a library that ends the program when it cannot
    be; the manager that NewManager makes is the one that the later calls are
    about. *)
Inductive MainE : Type → Type :=
| Parse : MainE (Flags + error)
| SetLogger : MainE unit
| GetConfig : MainE (Config + error)
| NewManager (cfg : Config) (o : Options) : MainE (option error)
| AddToScheme (bs : list SchemeBuilder) : MainE (option error)
| SettingUp {X : Type} (e : SetupE X) : MainE X
| Start : MainE (option error).
Fixpoint setting_up {A} (p : prog SetupE A) : prog MainE A :=
  match p with
  | Done a => Done a
  | Crash => Crash
  | Call e k => Call (SettingUp e) (λ r, setting_up (k r))
  end.

(** How main ends: it returns, or it is fatal with an error and what it could
    not do. *)
Inductive ending := MainReturns | Fatal (err : error) (what : string).
Definition fatal_or (o : option error) (what : string) (k : prog MainE ending) : prog MainE ending :=
  match o with
  | Some err => mret (Fatal err what)
  | None => k
  end.

(** apis.AddToScheme of the manager's scheme. *)
Definition apis_AddToScheme : prog MainE (option error) := call (AddToScheme AddToSchemes).

Definition main : prog MainE ending :=
  flags ← call Parse;
  match flags with
  | inr err => mret (Fatal err "")
  | inl flags =>
    _ ← (if flags.(debug) then call SetLogger else mret tt);
    cfg ← call GetConfig;
    match cfg with
    | inr err => mret (Fatal err "Cannot get API server rest config")
    | inl cfg =>
      err ← call (NewManager cfg {| LeaderElection := flags.(leaderElection);
                                    LeaderElectionID := "crossplane-leader-election-provider-gcp";
                                    SyncPeriod := flags.(syncPeriod) |});
      fatal_or err "Cannot create controller manager" (
      err ← apis_AddToScheme;
      fatal_or err "Cannot add GCP APIs to scheme" (
      err ← setting_up (Setup NewDefaultProviderRateLimiter);
      fatal_or err "Cannot setup GCP controllers" (
      err ← call Start;
      fatal_or err "Cannot start controller manager" (mret MainReturns))))
    end
  end.
End setup.
Arguments Controller : clear implicits.
Arguments Controller {_}.
Arguments SetupE {_} _.
Arguments MainE {_} _ _.

(** ** What is set up *)

(** A connecter, or initializers, that assert no type but [t]. *)
Definition connects_type (t : GoType) (o : ReconcilerOption) : Prop :=
  match o with
  | WithExternalConnecter c => c.(asserts) ≠ [] ∧ Forall (eq t) c.(asserts)
  | WithInitializers inits => Forall (eq t) (inits ≫= initializer_asserts)
  | _ => True
  end.
Definition is_connecter (o : ReconcilerOption) : bool := match o with WithExternalConnecter _ => true | _ => false end.

Section setup_properties.
Context `{Schema} `{ControllerRuntime}.

(** The kinds of a type that is registered. *)
Definition kind_of (t : GoType) (k : GroupVersionKind) : Prop :=
  ∃ b, b ∈ AddToSchemes ∧ t ∈ b.(builder_objects) ∧ k = WithKind b.(builder_GroupVersion) t.(type_name).
Definition name_of (t : GoType) (f : string → string) (name : string) : Prop :=
  ∃ b, b ∈ AddToSchemes ∧ t ∈ b.(builder_objects) ∧
    name = f (GroupKind_String {| gk_Group := b.(builder_GroupVersion).(Group); gk_Kind := t.(type_name) |}).

(** A controller fits when its reconciler is for the kind of the objects it is
    triggered by, its only connecter is for them, and its name is theirs. *)
Definition fits (c : Controller) : Prop :=
  match c.(c_Reconciler) with
  | ManagedReconciler kind os =>
    kind_of c.(c_For) kind ∧ Forall (connects_type c.(c_For)) os ∧ List.length (filter is_connecter os) = 1 ∧
    name_of c.(c_For) managed_ControllerName c.(c_Name)
  | ProviderConfigReconciler config usages os =>
    kind_of c.(c_For) config ∧ name_of c.(c_For) providerconfig_ControllerName c.(c_Name) ∧
    ∃ t, c.(c_Watches) = [t] ∧ kind_of {| go_package := t.(go_package); type_name := t.(type_name) +:+ "List" |} usages
  end.
Definition reconciled_kinds (r : Reconciler) : list GroupVersionKind :=
  match r with ManagedReconciler kind _ => [kind] | ProviderConfigReconciler config usages _ => [config; usages] end.

Definition sets_up_fitting (X : Type) (e : SetupE X) : Prop :=
  match e with
  | NewReconciler r => Forall (λ k, k ∈ registered AddToSchemes) (reconciled_kinds r)
  | Complete c => fits c
  end.
End setup_properties.

(** ** Every controller fits *)

Ltac by_decision := apply (bool_decide_unpack _); vm_compute; exact I.
(** The builder of a type is found by trying each of them. *)
Ltac in_builders tac :=
  first
    [ exists gcp_v1beta1_SchemeBuilder; tac | exists cache_v1beta1_SchemeBuilder; tac
    | exists compute_v1beta1_SchemeBuilder; tac | exists container_v1beta2_SchemeBuilder; tac
    | exists container_v1beta1_SchemeBuilder; tac | exists database_v1beta1_SchemeBuilder; tac
    | exists iam_v1alpha1_SchemeBuilder; tac | exists kms_v1alpha1_SchemeBuilder; tac
    | exists pubsub_v1alpha1_SchemeBuilder; tac | exists servicenetworking_v1beta1_SchemeBuilder; tac
    | exists storage_v1alpha1_SchemeBuilder; tac | exists storage_v1alpha3_SchemeBuilder; tac ].
Ltac registered_in := in_builders ltac:(split_and!; [by_decision|by_decision|reflexivity]).

Section fitting.
Context `{Schema} `{ControllerRuntime}.

Lemma kind_of_registered t k : kind_of t k → k ∈ registered AddToSchemes.
Proof using Type.
  intros (b & Hb & Ht & ->). unfold registered. apply list_elem_of_bind. exists b. split; [|done].
  apply list_elem_of_fmap. by exists t.
Qed.

Lemma fits_registered c : fits c → Forall (λ k, k ∈ registered AddToSchemes) (reconciled_kinds c.(c_Reconciler)).
Proof using Type.
  unfold fits. destruct (c_Reconciler c) as [kind os|config usages os]; simpl.
  - intros (Hk & _). apply Forall_singleton. by eapply kind_of_registered.
  - intros (Hk & _ & t & _ & Hu). apply Forall_cons_2; [|apply Forall_singleton]; by eapply kind_of_registered.
Qed.

(** A SetupX function makes its reconciler and completes its controller, which
    fits. *)
Definition fitting (p : prog SetupE (option error)) : Prop :=
  ∃ (c : Reconciler → Controller) r,
    p = (r' ← new_reconciler r; call (Complete (c r'))) ∧ c_Reconciler (c r) = r ∧ fits (c r).
Lemma fitting_calls p : fitting p → calls_only sets_up_fitting p.
Proof using Type.
  intros (c & r & -> & Hr & Hc). split.
  - simpl. rewrite <- Hr. by apply fits_registered.
  - intros [[]|]; simpl; [|done]. split; [done|]. by intros [].
Qed.

Lemma setup_each_calls ss rl :
  Forall (λ setup, fitting (setup rl)) ss → calls_only sets_up_fitting (setup_each ss rl).
Proof using Type.
  induction 1 as [|setup ss Hs _ IH]; simpl; [done|]. apply calls_only_bind; [by apply fitting_calls|]. by intros [].
Qed.
End fitting.

Ltac solve_fitting :=
  eexists (λ r, {| c_Name := _; c_RateLimiter := _; c_For := _; c_Watches := _; c_Reconciler := r |}), _;
  split_and!; [reflexivity|reflexivity|];
  cbn [fits c_Reconciler c_For c_Name c_Watches]; split_and!;
  first [registered_in | reflexivity | by repeat constructor | eexists; split; [reflexivity|registered_in] ].

Lemma setups_fitting `{Schema} `{ControllerRuntime} rl : Forall (λ setup, fitting (setup rl)) setups.
Proof. unfold setups. repeat (apply Forall_cons_2; [solve_fitting|]). apply Forall_nil_2. Qed.

(** ** Which kinds have a controller *)

(** A manager that accepts everything, and the controllers it has been given. *)
Definition record_controllers `{ControllerRuntime} (X : Type) (e : SetupE X) : list Controller → X * list Controller :=
  match e with
  | NewReconciler _ => λ cs, (Returns tt, cs)
  | Complete c => λ cs, (None, cs ++ [c])
  end.

(** The list of a kind is registered next to the kind. *)
Definition is_list (t : GoType) : bool :=
  let n := String.length t.(type_name) in
  String.eqb (String.substring (n - 4) 4 t.(type_name)) "List".
Definition registered_types : list GoType := AddToSchemes ≫= builder_objects.


(** ** Starting *)

Definition setup_fails `{ControllerRuntime} (X : Type) (e : SetupE X) : X → bool :=
  match e with
  | NewReconciler _ => λ _, false
  | Complete _ => write_fails no_excuse
  end.
Definition main_fails `{ControllerRuntime} {Config : Type} (X : Type) (e : MainE Config X) : X → bool :=
  match e with
  | Parse | GetConfig => read_fails no_excuse
  | SetLogger => λ _, false
  | NewManager _ _ | AddToScheme _ | Start => write_fails no_excuse
  | SettingUp e => setup_fails _ e
  end.
(** What is in the scheme of the manager: nothing of this provider when the
    manager is made, and the kinds of the packages that were added since. *)
Definition scheme_after `{Schema} `{ControllerRuntime} {Config : Type} (X : Type) (e : MainE Config X)
  : list GroupVersionKind → X → list GroupVersionKind :=
  match e with
  | NewManager _ _ => λ _ _, []
  | AddToScheme bs => λ scheme r, match r with None => registered bs ++ scheme | Some _ => scheme end
  | _ => λ scheme _, scheme
  end.
(** The reconcilers of crossplane-runtime panic only when asked for a kind that
    is not in the scheme at that time. *)
Definition panics_when_unregistered `{ControllerRuntime} (scheme : list GroupVersionKind) (X : Type) (e : SetupE X) : X → Prop :=
  match e with
  | NewReconciler r => λ o, o = Panics → ¬ Forall (λ k, k ∈ scheme) (reconciled_kinds r)
  | Complete _ => λ _, True
  end.
Definition main_answers `{ControllerRuntime} {Config : Type} (scheme : list GroupVersionKind) (X : Type) (e : MainE Config X)
  : X → Prop :=
  match e with
  | SettingUp e => panics_when_unregistered scheme _ e
  | _ => λ _, True
  end.
(** With the scheme [scheme], for every response that is possible then, the
    program does not panic, and ends with an error exactly when a call failed
    ([failed]: one did already). *)
Fixpoint errors_with `{Schema} `{ControllerRuntime} {Config : Type} {A} `{!HasError A}
    (scheme : list GroupVersionKind) (failed : bool) (p : prog (MainE Config) A) : Prop :=
  match p with
  | Done a => error_of a ≠ None ↔ failed = true
  | Crash => False
  | Call e k => ∀ r, main_answers scheme _ e r →
      errors_with (scheme_after _ e scheme r) (failed || main_fails _ e r) (k r)
  end.
#[global] Instance ending_error : HasError ending := λ e, match e with MainReturns => None | Fatal err _ => Some err end.

Section starting.
Context `{Schema} `{ControllerRuntime} {Config : Type}.

(** Setting up goes on to [k], with an error exactly when a controller could
    not be completed, once the API packages are in the scheme. *)
Lemma setup_each_errors scheme ss rl (k : option error → prog (MainE Config) ending) :
  registered AddToSchemes ⊆ scheme → Forall (λ setup, fitting (setup rl)) ss →
  errors_with scheme false (k None) → (∀ err, errors_with scheme true (k (Some err))) →
  errors_with scheme false (setting_up (setup_each ss rl) ≫= k).
Proof using Type.
  intros Hin Hss Hnone Hsome. induction Hss as [|setup ss Hs _ IH]; [done|].
  simpl. destruct Hs as (c & r & -> & Hr & Hc). intros o Ho. destruct o as [[]|].
  - intros [err|] _; [apply Hsome|apply IH].
  - destruct (Ho eq_refl). rewrite <- Hr. eapply Forall_impl; [by apply fits_registered|]. auto.
Qed.
Lemma setup_each_stops ss rl (k : option error → prog (MainE Config) ending) :
  Forall (λ setup, fitting (setup rl)) ss → stops_on_failure main_fails (k None) →
  (∀ err, ∃ e, k (Some err) = Done e) → stops_on_failure main_fails (setting_up (setup_each ss rl) ≫= k).
Proof using Type.
  intros Hss Hnone Hsome. induction Hss as [|setup ss Hs _ IH]; [done|].
  simpl. destruct Hs as (c & r & -> & Hr & Hc). intros o. simpl. destruct o as [[]|]; [|done].
  intros [err|]; simpl; [|apply IH]. by destruct (Hsome err) as [e ->].
Qed.
Lemma Setup_errors scheme rl (k : option error → prog (MainE Config) ending) :
  registered AddToSchemes ⊆ scheme →
  errors_with scheme false (k None) → (∀ err, errors_with scheme true (k (Some err))) →
  errors_with scheme false (setting_up (Setup rl) ≫= k).
Proof using Type. intros Hin. by apply setup_each_errors, setups_fitting. Qed.
Lemma Setup_stops rl (k : option error → prog (MainE Config) ending) :
  stops_on_failure main_fails (k None) → (∀ err, ∃ e, k (Some err) = Done e) →
  stops_on_failure main_fails (setting_up (Setup rl) ≫= k).
Proof using Type. apply setup_each_stops, setups_fitting. Qed.
End starting.
#[local] Opaque Setup.

(** C17: main ends with an error exactly when one of its steps failed, and takes no
    step after a failed one. In particular the manager is started only when it could be
    made, every API package was added to its scheme and all controllers were
    completed; and setting up does not panic: a reconciler panics when its kinds are not in the
    scheme of the manager, which starts without any of them, and by the time a reconciler is made they have been added. *)
Theorem main_starts_or_fails `{Schema} `{ControllerRuntime} {Config : Type} :
  errors_with [] false (main (Config := Config)) ∧
  stops_on_failure main_fails (main (Config := Config)).
Proof.
  split.
  - intros [[[] sync leader]|err] _; simpl; [..|walk_done].
    1: intros [] _; simpl.
    1,2: intros [cfg|err] _; simpl; [|walk_done]; intros [err|] _; simpl; [walk_done|];
      intros [err|] _; simpl; [walk_done|].
    1,2: apply Setup_errors; [set_solver|intros [err|] _; simpl; walk_done|intros err; simpl; walk_done].
  - intros [[[] sync leader]|err]; simpl; [..|done].
    1: intros []; simpl.
    1,2: intros [cfg|err]; simpl; [|done]; intros [err|]; simpl; [done|]; intros [err|]; simpl; [done|].
    1,2: apply Setup_stops; [|by eexists]; by intros [err|].
Qed.

(** ** The two theorems at work *)

#[local] Transparent Setup.
(** Names as crossplane-runtime's documentation has them. *)
Definition example_schema : Schema := {|
  GroupKind_String gk := gk.(gk_Kind) +:+ "." +:+ gk.(gk_Group);
  GroupVersion_String gv := gv.(Group) +:+ "/" +:+ gv.(Version);
  WithKind gv kind := {| gvk_Group := gv.(Group); gvk_Version := gv.(Version); gvk_Kind := kind |};
  WithKind_fields _ _ := eq_refl |}.
Definition example_runtime : ControllerRuntime := {|
  managed_ControllerName s := "managed/" +:+ s;
  providerconfig_ControllerName s := "providerconfig/" +:+ s;
  RateLimiter := nat;
  NewDefaultManagedRateLimiter := S;
  NewDefaultProviderRateLimiter := 0 |}.


(** A cluster on which everything succeeds: the calls that are made, by name. *)
Definition setup_succeeds (X : Type) (e : @SetupE example_runtime X) : list string → X * list string :=
  match e with
  | NewReconciler _ => λ log, (Returns tt, log)
  | Complete c => λ log, (None, log ++ [c.(c_Name)])
  end.
Definition everything_succeeds (X : Type) (e : @MainE example_runtime unit X) : list string → X * list string :=
  match e with
  | Parse => λ log, (inl {| debug := false; syncPeriod := 3600; leaderElection := true |}, log)
  | SetLogger => λ log, (tt, log)
  | GetConfig => λ log, (inl tt, log)
  | NewManager _ _ => λ log, (None, log ++ ["manager"])
  | AddToScheme bs => λ log, (None, log ++ ["scheme"])
  | SettingUp e => setup_succeeds _ e
  | Start => λ log, (None, log ++ ["start"])
  end.
Lemma main_starts_or_fails_witness :
  @errors_with example_schema example_runtime _ _ _ [] false (@main example_schema example_runtime unit) ∧
  ∃ log, run everything_succeeds (@main example_schema example_runtime unit) [] = Returns (MainReturns, log) ∧
    List.length log = 22 ∧ last log = Some "start".
Proof.
  split; [exact (proj1 (@main_starts_or_fails example_schema example_runtime unit))|].
  eexists. split; [vm_compute; reflexivity|]. by split.
Defined.
