(* ===== verification/Publishing.v ===== *)
(** * Connection details reach a secret

    A reconciler publishes the connection details that Observe and Create return
    with the publishers it was made with. Four controllers are made without any,
    so nothing is published for them: their handlers must not return any
    details. *)

From S2P Require Import Prelude Libs Contract Registration Setup.
From S2P Require Import Network Subnetwork GlobalAddress Connection.

(** Every result of the program satisfies [Q]; it may panic. *)
Fixpoint returns_only {E : Type → Type} {A} (Q : A → Prop) (p : prog E A) : Prop :=
  match p with
  | Done a => Q a
  | Crash => True
  | Call _ k => ∀ r, returns_only Q (k r)
  end.

Definition unpublished (c : Reconciler) : bool :=
  match c with
  | ManagedReconciler _ os => existsb (λ o, match o with WithConnectionPublishers [] => true | _ => false end) os
  | ProviderConfigReconciler _ _ _ => false
  end.

Definition observes_nothing_secret {E : Type → Type} {M} (p : prog E (ExternalObservation * option error * M)) : Prop :=
  returns_only (λ '(o, _, _), o.(ConnectionDetails) = None) p.
Definition creates_nothing_secret {E : Type → Type} {M} (p : prog E (ExternalCreation * option error * M)) : Prop :=
  returns_only (λ '(c, _, _), c.(CreationDetails) = None) p.

Lemma returns_lift {E : Type → Type} {A B} (Q : B → Prop) (o : outcome A) (k : A → prog E B) :
  (∀ a, returns_only Q (k a)) → returns_only Q (lift o ≫= k).
Proof. intros Hk. by destruct o; [apply Hk|]. Qed.

(** Walks a handler, over every response of every call. *)
Ltac returns :=
  repeat (simpl; first [done | apply returns_lift; intros ? | progress walk_step]).

(** C24: no connection detail is lost. The controllers that are set up without
    a publisher are the ones of GlobalAddress, Network, Subnetwork and Connection, and
    whatever the API server and Google answer, what their Observe and
    Create return has no connection details. *)
Theorem unpublished_details_are_empty `{Libs} `{Schema} `{ControllerRuntime} rl projectID :
  (∃ cs, run record_controllers (Setup rl) [] = Returns (None, cs) ∧
    c_For <$> filter (λ c, unpublished c.(c_Reconciler) = true) cs =
      [GlobalAddress_type; Network_type; Subnetwork_type; Connection_type]) ∧
  (∀ mg, observes_nothing_secret (GlobalAddress.Observe projectID mg) ∧ creates_nothing_secret (GlobalAddress.Create projectID mg)) ∧
  (∀ mg, observes_nothing_secret (Network.Observe projectID mg) ∧ creates_nothing_secret (Network.Create projectID mg)) ∧
  (∀ mg, observes_nothing_secret (Subnetwork.Observe projectID mg) ∧ creates_nothing_secret (Subnetwork.Create projectID mg)) ∧
  (∀ mg, observes_nothing_secret (Connection.Observe projectID mg) ∧ creates_nothing_secret (Connection.Create mg)).
Proof.
  split_and!; [eexists; split; vm_compute; reflexivity|..].
  all: intros [cr|]; split; unfold observes_nothing_secret, creates_nothing_secret; [..|done|done].
  all: unfold GlobalAddress.Observe, GlobalAddress.Create, Network.Observe, Network.Create,
    Subnetwork.Observe, Subnetwork.Create, Connection.Observe, Connection.Create; returns.
Qed.

(** A network that is created and then observed: nothing is returned that would
    have to be published. *)
Definition example_published : Network.Network :=
  fresh "n" {| AutoCreateSubnetworks := Some true; Network.Description := None; RoutingConfig := None |} no_network_observation.
Lemma unpublished_details_are_empty_witness :
  creates_nothing_secret (@Network.Create reference_libs "project" (Some example_published)) ∧
  observes_nothing_secret (@Network.Observe reference_libs "project" (Some example_published)).
Proof.
  destruct (@unpublished_details_are_empty reference_libs example_schema example_runtime 0 "project") as (_ & _ & Hn & _).
  destruct (Hn (Some example_published)) as [Ho Hc]. split; [exact Hc|exact Ho].
Defined.
