(* ===== verification/Accessors.v ===== *)
(** * What a kind offers to the reconciler

    The accessors of apis/.../zz_generated.managed.go, through which
    crossplane-runtime reads and writes the parts that all managed resources
    have, as one interface with its laws: [resource.Managed]. A managed
    resource is the value of its struct; [mg.Spec.F] is a field that Spec has from the
    ResourceSpec embedded in it. The same for [resource.ProviderConfig] and
    [resource.ProviderConfigUsage], of apis/v1beta1/zz_generated.pc.go and
    zz_generated.pcu.go. *)

From S2P Require Import Prelude GoMemory DeepCopy.
From S2P Require Import DeepCopyCache DeepCopyCompute DeepCopyCluster DeepCopyNodePool DeepCopyDatabase.
From S2P Require Import DeepCopyIam DeepCopyKms DeepCopyPubsub DeepCopyConnection DeepCopyBucketPolicy.
From S2P Require Import DeepCopyBucket DeepCopyProvider.

(** ** Paths *)

Fixpoint get_path (p : list string) (v : value) : outcome value :=
  match p with
  | [] => Returns v
  | n :: p =>
    match v with
    | VStruct fs => match field n fs with Some x => get_path p x | None => Panics end
    | _ => Panics
    end
  end.
Fixpoint set_path (p : list string) (r v : value) : outcome value :=
  match p with
  | [] => Returns r
  | n :: p =>
    match v with
    | VStruct fs =>
      match field n fs with
      | Some x => y ← set_path p r x; Returns (VStruct (set_field n y fs))
      | None => Panics
      end
    | _ => Panics
    end
  end.
(** The type at the end of a path through structs, none of which has two fields
    of one name. *)
Fixpoint path_ty (p : list string) (t : ty) : option ty :=
  match p with
  | [] => Some t
  | n :: p =>
    match t with
    | TStruct fs => if bool_decide (NoDup fs.*1) then field n fs ≫= path_ty p else None
    | _ => None
    end
  end.
(** Two paths that part before either ends. *)
Fixpoint apart (p q : list string) : bool :=
  match p, q with
  | n :: p, m :: q => if String.eqb n m then apart p q else true
  | _, _ => false
  end.

Lemma path_ty_app p q t : path_ty (p ++ q) t = path_ty p t ≫= path_ty q.
Proof.
  revert t. induction p as [|n p IH]; intros t; [done|]. destruct t as [| | | |fs]; try done. simpl.
  case_bool_decide; [|done]. destruct (field n fs); simpl; [apply IH|done].
Qed.

Lemma field_set {A} n (x y : A) fs : field n fs = Some x → field n (set_field n y fs) = Some y.
Proof.
  induction fs as [|[m z] fs IH]; [done|]. simpl. destruct (String.eqb m n) eqn:Heq; [done|]. apply IH.
Qed.
Lemma field_set_ne {A} n m (y : A) fs : String.eqb n m = false → field m (set_field n y fs) = field m fs.
Proof.
  intros Hne. induction fs as [|[k z] fs IH]; [done|]. simpl. fold (set_field n y fs). rewrite IH.
  destruct (String.eqb k m) eqn:Hk; [|done]. apply String.eqb_eq in Hk as ->.
  rewrite String.eqb_sym in Hne. by rewrite Hne.
Qed.

(** A path can be read after it was written, and another one reads as before. *)
Lemma get_set_path p r v v' : set_path p r v = Returns v' → get_path p v' = Returns r.
Proof.
  revert v v'. induction p as [|n p IH]; intros v v'; [by intros [= ->]|].
  destruct v as [| | | |fs]; try done. simpl. destruct (field n fs) as [x|] eqn:Hx; [|done].
  destruct (set_path p r x) as [y|] eqn:Hy; [|done]. intros [= <-]. rewrite (field_set n x) by done. by eapply IH.
Qed.
Lemma get_set_apart p q r v v' : apart p q = true → set_path p r v = Returns v' → get_path q v' = get_path q v.
Proof.
  revert q v v'. induction p as [|n p IH]; intros [|m q] v v' Ha; try done.
  destruct v as [| | | |fs]; try done. simpl in *. destruct (field n fs) as [x|] eqn:Hx; [|done].
  destruct (set_path p r x) as [y|] eqn:Hy; [|done]. intros [= <-].
  destruct (String.eqb n m) eqn:Heq.
  - apply String.eqb_eq in Heq as ->. rewrite (field_set m x) by done. rewrite Hx. by eapply IH.
  - by rewrite field_set_ne.
Qed.

(** Reading and writing well-typed structs does not panic, and what is written
    is well-typed. *)
Lemma fields_read_field h n t fs vs rs :
  fields_read h fs vs rs → field n fs = Some t → ∃ v r, field n vs = Some v ∧ field n rs = Some r ∧ reads h t v r.
Proof.
  induction 1 as [|m t' v r fs vs rs Hr _ IH]; simpl; [done|]. destruct (String.eqb m n); [|done]. intros [= <-]. by eauto.
Qed.
Lemma fields_read_names h fs vs rs : fields_read h fs vs rs → vs.*1 = fs.*1.
Proof. induction 1; csimpl; congruence. Qed.
Lemma fields_read_set h n t w r fs vs rs :
  NoDup fs.*1 → fields_read h fs vs rs → field n fs = Some t → reads h t w r →
  ∃ rs', fields_read h fs (set_field n w vs) rs'.
Proof.
  intros Hnd Hr. revert Hnd. induction Hr as [|m t' v r' fs vs rs Hr Hrs IH]; simpl; [done|].
  intros [Hm Hnd]%NoDup_cons. destruct (String.eqb_spec m n) as [->|Hne].
  - intros [= ->] Hw. eexists. constructor; [done|]. fold (set_field n w vs).
    rewrite set_field_notin by (by erewrite fields_read_names). done.
  - intros Ht Hw. destruct (IH Hnd Ht Hw) as [rs' Hrs']. eexists. by constructor.
Qed.
Lemma get_path_reads h p t u v r : path_ty p t = Some u → reads h t v r → ∃ x rx, get_path p v = Returns x ∧ reads h u x rx.
Proof.
  revert t v r. induction p as [|n p IH]; intros t v r; [intros [= ->]; by eauto|].
  destruct t as [| | | |fs]; try done. simpl. case_bool_decide as Hnd; [|done].
  destruct (field n fs) as [t|] eqn:Ht; [|done]. intros Hu (vs & rs & -> & -> & Hr)%reads_struct_inv.
  destruct (fields_read_field _ _ _ _ _ _ Hr Ht) as (x & rx & Hx & _ & Hrx). rewrite Hx. by eapply IH.
Qed.
Lemma set_path_reads h p t u v r w rw :
  path_ty p t = Some u → reads h t v r → reads h u w rw → ∃ v' r', set_path p w v = Returns v' ∧ reads h t v' r'.
Proof.
  intros Hu Hr Hw. revert t v r Hu Hr. induction p as [|n p IH]; intros t v r; [intros [= ->]; by eauto|].
  destruct t as [| | | |fs]; try done. simpl. case_bool_decide as Hnd; [|done].
  destruct (field n fs) as [t|] eqn:Ht; [|done]. intros Hu (vs & rs & -> & -> & Hr)%reads_struct_inv.
  destruct (fields_read_field _ _ _ _ _ _ Hr Ht) as (x & rx & Hx & _ & Hrx). rewrite Hx.
  destruct (IH t x rx Hu Hrx) as (y & ry & -> & Hry). destruct (fields_read_set _ _ _ _ _ _ _ _ Hnd Hr Ht Hry) as [rs' Hrs'].
  eexists _, (RStruct rs'). split; [done|]. by apply reads_struct.
Qed.

(** ** The interface *)

Record Accessors := {
  acc_GetCondition : string → gmap loc cell → value → outcome value;
  acc_GetDeletionPolicy : value → outcome value;
  acc_GetProviderConfigReference : value → outcome value;
  acc_GetProviderReference : value → outcome value;
  acc_GetWriteConnectionSecretToReference : value → outcome value;
  acc_SetConditions : list value → gmap loc cell → value → outcome (gmap loc cell * value);
  acc_SetDeletionPolicy : value → value → outcome value;
  acc_SetProviderConfigReference : value → value → outcome value;
  acc_SetProviderReference : value → value → outcome value;
  acc_SetWriteConnectionSecretToReference : value → value → outcome value
}.

(** crossplane-runtime's ResourceSpec has the four fields, and its ResourceStatus
    the conditions, with methods of its own. *)
Class ResourceTypes `{KubeTypes} := {
  SecretReference : ty;
  spec_DeletionPolicy : path_ty ["DeletionPolicy"] ResourceSpec = Some TString;
  spec_ProviderConfigReference : path_ty ["ProviderConfigReference"] ResourceSpec = Some (TPtr Reference);
  spec_ProviderReference : path_ty ["ProviderReference"] ResourceSpec = Some (TPtr Reference);
  spec_WriteConnectionSecretToReference :
    path_ty ["WriteConnectionSecretToReference"] ResourceSpec = Some (TPtr SecretReference);
  status_GetCondition : string → gmap loc cell → value → outcome value;
  status_SetConditions : list value → gmap loc cell → value → outcome (gmap loc cell * value)
}.

(** Of crossplane-runtime's ProviderConfigStatus: the conditions, which are a struct
    of their own with methods of their own, and the number of users; of its
    ProviderConfigUsage, the two references. *)
Class ProviderTypes `{KubeTypes} := {
  ConditionedStatus : ty;
  TypedReference : ty;
  pcs_ConditionedStatus : path_ty ["ConditionedStatus"] XpProviderConfigStatus = Some ConditionedStatus;
  pcs_Users : path_ty ["Users"] XpProviderConfigStatus = Some TInt;
  pcu_ProviderConfigReference : path_ty ["ProviderConfigReference"] XpProviderConfigUsage = Some Reference;
  pcu_ResourceReference : path_ty ["ResourceReference"] XpProviderConfigUsage = Some TypedReference;
  conditioned_GetCondition : string → gmap loc cell → value → outcome value;
  conditioned_SetConditions : list value → gmap loc cell → value → outcome (gmap loc cell * value)
}.

(** ** ProviderConfig and ProviderConfigUsage *)

Section provider.
Context `{ProviderTypes}.

Definition ProviderConfig_GetCondition (ct : string) (h : gmap loc cell) (p : value) : outcome value :=
  status ← get_path ["Status"; "ProviderConfigStatus"; "ConditionedStatus"] p; conditioned_GetCondition ct h status.
Definition ProviderConfig_GetUsers (p : value) : outcome value := get_path ["Status"; "ProviderConfigStatus"; "Users"] p.
Definition ProviderConfig_SetConditions (c : list value) (h : gmap loc cell) (p : value) : outcome (gmap loc cell * value) :=
  status ← get_path ["Status"; "ProviderConfigStatus"; "ConditionedStatus"] p;
  '(h, status) ← conditioned_SetConditions c h status;
  p ← set_path ["Status"; "ProviderConfigStatus"; "ConditionedStatus"] status p; Returns (h, p).
Definition ProviderConfig_SetUsers (i p : value) : outcome value := set_path ["Status"; "ProviderConfigStatus"; "Users"] i p.

Definition ProviderConfigUsage_GetProviderConfigReference (p : value) : outcome value :=
  get_path ["ProviderConfigUsage"; "ProviderConfigReference"] p.
Definition ProviderConfigUsage_GetResourceReference (p : value) : outcome value :=
  get_path ["ProviderConfigUsage"; "ResourceReference"] p.
Definition ProviderConfigUsage_SetProviderConfigReference (r p : value) : outcome value :=
  set_path ["ProviderConfigUsage"; "ProviderConfigReference"] r p.
Definition ProviderConfigUsage_SetResourceReference (r p : value) : outcome value :=
  set_path ["ProviderConfigUsage"; "ResourceReference"] r p.
End provider.

(** ** The eighteen kinds *)

Section kinds.
Context `{ResourceTypes}.

Definition CloudMemorystoreInstance_accessors : Accessors := {|
  acc_GetCondition ct h mg := status ← get_path ["Status"; "ResourceStatus"] mg; status_GetCondition ct h status;
  acc_GetDeletionPolicy mg := get_path ["Spec"; "ResourceSpec"; "DeletionPolicy"] mg;
  acc_GetProviderConfigReference mg := get_path ["Spec"; "ResourceSpec"; "ProviderConfigReference"] mg;
  acc_GetProviderReference mg := get_path ["Spec"; "ResourceSpec"; "ProviderReference"] mg;
  acc_GetWriteConnectionSecretToReference mg := get_path ["Spec"; "ResourceSpec"; "WriteConnectionSecretToReference"] mg;
  acc_SetConditions c h mg :=
    status ← get_path ["Status"; "ResourceStatus"] mg;
    '(h, status) ← status_SetConditions c h status;
    mg ← set_path ["Status"; "ResourceStatus"] status mg; Returns (h, mg);
  acc_SetDeletionPolicy r mg := set_path ["Spec"; "ResourceSpec"; "DeletionPolicy"] r mg;
  acc_SetProviderConfigReference r mg := set_path ["Spec"; "ResourceSpec"; "ProviderConfigReference"] r mg;
  acc_SetProviderReference r mg := set_path ["Spec"; "ResourceSpec"; "ProviderReference"] r mg;
  acc_SetWriteConnectionSecretToReference r mg := set_path ["Spec"; "ResourceSpec"; "WriteConnectionSecretToReference"] r mg |}.
Definition GlobalAddress_accessors : Accessors := {|
  acc_GetCondition ct h mg := status ← get_path ["Status"; "ResourceStatus"] mg; status_GetCondition ct h status;
  acc_GetDeletionPolicy mg := get_path ["Spec"; "ResourceSpec"; "DeletionPolicy"] mg;
  acc_GetProviderConfigReference mg := get_path ["Spec"; "ResourceSpec"; "ProviderConfigReference"] mg;
  acc_GetProviderReference mg := get_path ["Spec"; "ResourceSpec"; "ProviderReference"] mg;
  acc_GetWriteConnectionSecretToReference mg := get_path ["Spec"; "ResourceSpec"; "WriteConnectionSecretToReference"] mg;
  acc_SetConditions c h mg :=
    status ← get_path ["Status"; "ResourceStatus"] mg;
    '(h, status) ← status_SetConditions c h status;
    mg ← set_path ["Status"; "ResourceStatus"] status mg; Returns (h, mg);
  acc_SetDeletionPolicy r mg := set_path ["Spec"; "ResourceSpec"; "DeletionPolicy"] r mg;
  acc_SetProviderConfigReference r mg := set_path ["Spec"; "ResourceSpec"; "ProviderConfigReference"] r mg;
  acc_SetProviderReference r mg := set_path ["Spec"; "ResourceSpec"; "ProviderReference"] r mg;
  acc_SetWriteConnectionSecretToReference r mg := set_path ["Spec"; "ResourceSpec"; "WriteConnectionSecretToReference"] r mg |}.
Definition Network_accessors : Accessors := {|
  acc_GetCondition ct h mg := status ← get_path ["Status"; "ResourceStatus"] mg; status_GetCondition ct h status;
  acc_GetDeletionPolicy mg := get_path ["Spec"; "ResourceSpec"; "DeletionPolicy"] mg;
  acc_GetProviderConfigReference mg := get_path ["Spec"; "ResourceSpec"; "ProviderConfigReference"] mg;
  acc_GetProviderReference mg := get_path ["Spec"; "ResourceSpec"; "ProviderReference"] mg;
  acc_GetWriteConnectionSecretToReference mg := get_path ["Spec"; "ResourceSpec"; "WriteConnectionSecretToReference"] mg;
  acc_SetConditions c h mg :=
    status ← get_path ["Status"; "ResourceStatus"] mg;
    '(h, status) ← status_SetConditions c h status;
    mg ← set_path ["Status"; "ResourceStatus"] status mg; Returns (h, mg);
  acc_SetDeletionPolicy r mg := set_path ["Spec"; "ResourceSpec"; "DeletionPolicy"] r mg;
  acc_SetProviderConfigReference r mg := set_path ["Spec"; "ResourceSpec"; "ProviderConfigReference"] r mg;
  acc_SetProviderReference r mg := set_path ["Spec"; "ResourceSpec"; "ProviderReference"] r mg;
  acc_SetWriteConnectionSecretToReference r mg := set_path ["Spec"; "ResourceSpec"; "WriteConnectionSecretToReference"] r mg |}.
Definition Subnetwork_accessors : Accessors := {|
  acc_GetCondition ct h mg := status ← get_path ["Status"; "ResourceStatus"] mg; status_GetCondition ct h status;
  acc_GetDeletionPolicy mg := get_path ["Spec"; "ResourceSpec"; "DeletionPolicy"] mg;
  acc_GetProviderConfigReference mg := get_path ["Spec"; "ResourceSpec"; "ProviderConfigReference"] mg;
  acc_GetProviderReference mg := get_path ["Spec"; "ResourceSpec"; "ProviderReference"] mg;
  acc_GetWriteConnectionSecretToReference mg := get_path ["Spec"; "ResourceSpec"; "WriteConnectionSecretToReference"] mg;
  acc_SetConditions c h mg :=
    status ← get_path ["Status"; "ResourceStatus"] mg;
    '(h, status) ← status_SetConditions c h status;
    mg ← set_path ["Status"; "ResourceStatus"] status mg; Returns (h, mg);
  acc_SetDeletionPolicy r mg := set_path ["Spec"; "ResourceSpec"; "DeletionPolicy"] r mg;
  acc_SetProviderConfigReference r mg := set_path ["Spec"; "ResourceSpec"; "ProviderConfigReference"] r mg;
  acc_SetProviderReference r mg := set_path ["Spec"; "ResourceSpec"; "ProviderReference"] r mg;
  acc_SetWriteConnectionSecretToReference r mg := set_path ["Spec"; "ResourceSpec"; "WriteConnectionSecretToReference"] r mg |}.
Definition Cluster_accessors : Accessors := {|
  acc_GetCondition ct h mg := status ← get_path ["Status"; "ResourceStatus"] mg; status_GetCondition ct h status;
  acc_GetDeletionPolicy mg := get_path ["Spec"; "ResourceSpec"; "DeletionPolicy"] mg;
  acc_GetProviderConfigReference mg := get_path ["Spec"; "ResourceSpec"; "ProviderConfigReference"] mg;
  acc_GetProviderReference mg := get_path ["Spec"; "ResourceSpec"; "ProviderReference"] mg;
  acc_GetWriteConnectionSecretToReference mg := get_path ["Spec"; "ResourceSpec"; "WriteConnectionSecretToReference"] mg;
  acc_SetConditions c h mg :=
    status ← get_path ["Status"; "ResourceStatus"] mg;
    '(h, status) ← status_SetConditions c h status;
    mg ← set_path ["Status"; "ResourceStatus"] status mg; Returns (h, mg);
  acc_SetDeletionPolicy r mg := set_path ["Spec"; "ResourceSpec"; "DeletionPolicy"] r mg;
  acc_SetProviderConfigReference r mg := set_path ["Spec"; "ResourceSpec"; "ProviderConfigReference"] r mg;
  acc_SetProviderReference r mg := set_path ["Spec"; "ResourceSpec"; "ProviderReference"] r mg;
  acc_SetWriteConnectionSecretToReference r mg := set_path ["Spec"; "ResourceSpec"; "WriteConnectionSecretToReference"] r mg |}.
Definition NodePool_accessors : Accessors := {|
  acc_GetCondition ct h mg := status ← get_path ["Status"; "ResourceStatus"] mg; status_GetCondition ct h status;
  acc_GetDeletionPolicy mg := get_path ["Spec"; "ResourceSpec"; "DeletionPolicy"] mg;
  acc_GetProviderConfigReference mg := get_path ["Spec"; "ResourceSpec"; "ProviderConfigReference"] mg;
  acc_GetProviderReference mg := get_path ["Spec"; "ResourceSpec"; "ProviderReference"] mg;
  acc_GetWriteConnectionSecretToReference mg := get_path ["Spec"; "ResourceSpec"; "WriteConnectionSecretToReference"] mg;
  acc_SetConditions c h mg :=
    status ← get_path ["Status"; "ResourceStatus"] mg;
    '(h, status) ← status_SetConditions c h status;
    mg ← set_path ["Status"; "ResourceStatus"] status mg; Returns (h, mg);
  acc_SetDeletionPolicy r mg := set_path ["Spec"; "ResourceSpec"; "DeletionPolicy"] r mg;
  acc_SetProviderConfigReference r mg := set_path ["Spec"; "ResourceSpec"; "ProviderConfigReference"] r mg;
  acc_SetProviderReference r mg := set_path ["Spec"; "ResourceSpec"; "ProviderReference"] r mg;
  acc_SetWriteConnectionSecretToReference r mg := set_path ["Spec"; "ResourceSpec"; "WriteConnectionSecretToReference"] r mg |}.
Definition CloudSQLInstance_accessors : Accessors := {|
  acc_GetCondition ct h mg := status ← get_path ["Status"; "ResourceStatus"] mg; status_GetCondition ct h status;
  acc_GetDeletionPolicy mg := get_path ["Spec"; "ResourceSpec"; "DeletionPolicy"] mg;
  acc_GetProviderConfigReference mg := get_path ["Spec"; "ResourceSpec"; "ProviderConfigReference"] mg;
  acc_GetProviderReference mg := get_path ["Spec"; "ResourceSpec"; "ProviderReference"] mg;
  acc_GetWriteConnectionSecretToReference mg := get_path ["Spec"; "ResourceSpec"; "WriteConnectionSecretToReference"] mg;
  acc_SetConditions c h mg :=
    status ← get_path ["Status"; "ResourceStatus"] mg;
    '(h, status) ← status_SetConditions c h status;
    mg ← set_path ["Status"; "ResourceStatus"] status mg; Returns (h, mg);
  acc_SetDeletionPolicy r mg := set_path ["Spec"; "ResourceSpec"; "DeletionPolicy"] r mg;
  acc_SetProviderConfigReference r mg := set_path ["Spec"; "ResourceSpec"; "ProviderConfigReference"] r mg;
  acc_SetProviderReference r mg := set_path ["Spec"; "ResourceSpec"; "ProviderReference"] r mg;
  acc_SetWriteConnectionSecretToReference r mg := set_path ["Spec"; "ResourceSpec"; "WriteConnectionSecretToReference"] r mg |}.
Definition ServiceAccount_accessors : Accessors := {|
  acc_GetCondition ct h mg := status ← get_path ["Status"; "ResourceStatus"] mg; status_GetCondition ct h status;
  acc_GetDeletionPolicy mg := get_path ["Spec"; "ResourceSpec"; "DeletionPolicy"] mg;
  acc_GetProviderConfigReference mg := get_path ["Spec"; "ResourceSpec"; "ProviderConfigReference"] mg;
  acc_GetProviderReference mg := get_path ["Spec"; "ResourceSpec"; "ProviderReference"] mg;
  acc_GetWriteConnectionSecretToReference mg := get_path ["Spec"; "ResourceSpec"; "WriteConnectionSecretToReference"] mg;
  acc_SetConditions c h mg :=
    status ← get_path ["Status"; "ResourceStatus"] mg;
    '(h, status) ← status_SetConditions c h status;
    mg ← set_path ["Status"; "ResourceStatus"] status mg; Returns (h, mg);
  acc_SetDeletionPolicy r mg := set_path ["Spec"; "ResourceSpec"; "DeletionPolicy"] r mg;
  acc_SetProviderConfigReference r mg := set_path ["Spec"; "ResourceSpec"; "ProviderConfigReference"] r mg;
  acc_SetProviderReference r mg := set_path ["Spec"; "ResourceSpec"; "ProviderReference"] r mg;
  acc_SetWriteConnectionSecretToReference r mg := set_path ["Spec"; "ResourceSpec"; "WriteConnectionSecretToReference"] r mg |}.
Definition ServiceAccountKey_accessors : Accessors := {|
  acc_GetCondition ct h mg := status ← get_path ["Status"; "ResourceStatus"] mg; status_GetCondition ct h status;
  acc_GetDeletionPolicy mg := get_path ["Spec"; "ResourceSpec"; "DeletionPolicy"] mg;
  acc_GetProviderConfigReference mg := get_path ["Spec"; "ResourceSpec"; "ProviderConfigReference"] mg;
  acc_GetProviderReference mg := get_path ["Spec"; "ResourceSpec"; "ProviderReference"] mg;
  acc_GetWriteConnectionSecretToReference mg := get_path ["Spec"; "ResourceSpec"; "WriteConnectionSecretToReference"] mg;
  acc_SetConditions c h mg :=
    status ← get_path ["Status"; "ResourceStatus"] mg;
    '(h, status) ← status_SetConditions c h status;
    mg ← set_path ["Status"; "ResourceStatus"] status mg; Returns (h, mg);
  acc_SetDeletionPolicy r mg := set_path ["Spec"; "ResourceSpec"; "DeletionPolicy"] r mg;
  acc_SetProviderConfigReference r mg := set_path ["Spec"; "ResourceSpec"; "ProviderConfigReference"] r mg;
  acc_SetProviderReference r mg := set_path ["Spec"; "ResourceSpec"; "ProviderReference"] r mg;
  acc_SetWriteConnectionSecretToReference r mg := set_path ["Spec"; "ResourceSpec"; "WriteConnectionSecretToReference"] r mg |}.
Definition ServiceAccountPolicy_accessors : Accessors := {|
  acc_GetCondition ct h mg := status ← get_path ["Status"; "ResourceStatus"] mg; status_GetCondition ct h status;
  acc_GetDeletionPolicy mg := get_path ["Spec"; "ResourceSpec"; "DeletionPolicy"] mg;
  acc_GetProviderConfigReference mg := get_path ["Spec"; "ResourceSpec"; "ProviderConfigReference"] mg;
  acc_GetProviderReference mg := get_path ["Spec"; "ResourceSpec"; "ProviderReference"] mg;
  acc_GetWriteConnectionSecretToReference mg := get_path ["Spec"; "ResourceSpec"; "WriteConnectionSecretToReference"] mg;
  acc_SetConditions c h mg :=
    status ← get_path ["Status"; "ResourceStatus"] mg;
    '(h, status) ← status_SetConditions c h status;
    mg ← set_path ["Status"; "ResourceStatus"] status mg; Returns (h, mg);
  acc_SetDeletionPolicy r mg := set_path ["Spec"; "ResourceSpec"; "DeletionPolicy"] r mg;
  acc_SetProviderConfigReference r mg := set_path ["Spec"; "ResourceSpec"; "ProviderConfigReference"] r mg;
  acc_SetProviderReference r mg := set_path ["Spec"; "ResourceSpec"; "ProviderReference"] r mg;
  acc_SetWriteConnectionSecretToReference r mg := set_path ["Spec"; "ResourceSpec"; "WriteConnectionSecretToReference"] r mg |}.
Definition CryptoKey_accessors : Accessors := {|
  acc_GetCondition ct h mg := status ← get_path ["Status"; "ResourceStatus"] mg; status_GetCondition ct h status;
  acc_GetDeletionPolicy mg := get_path ["Spec"; "ResourceSpec"; "DeletionPolicy"] mg;
  acc_GetProviderConfigReference mg := get_path ["Spec"; "ResourceSpec"; "ProviderConfigReference"] mg;
  acc_GetProviderReference mg := get_path ["Spec"; "ResourceSpec"; "ProviderReference"] mg;
  acc_GetWriteConnectionSecretToReference mg := get_path ["Spec"; "ResourceSpec"; "WriteConnectionSecretToReference"] mg;
  acc_SetConditions c h mg :=
    status ← get_path ["Status"; "ResourceStatus"] mg;
    '(h, status) ← status_SetConditions c h status;
    mg ← set_path ["Status"; "ResourceStatus"] status mg; Returns (h, mg);
  acc_SetDeletionPolicy r mg := set_path ["Spec"; "ResourceSpec"; "DeletionPolicy"] r mg;
  acc_SetProviderConfigReference r mg := set_path ["Spec"; "ResourceSpec"; "ProviderConfigReference"] r mg;
  acc_SetProviderReference r mg := set_path ["Spec"; "ResourceSpec"; "ProviderReference"] r mg;
  acc_SetWriteConnectionSecretToReference r mg := set_path ["Spec"; "ResourceSpec"; "WriteConnectionSecretToReference"] r mg |}.
Definition CryptoKeyPolicy_accessors : Accessors := {|
  acc_GetCondition ct h mg := status ← get_path ["Status"; "ResourceStatus"] mg; status_GetCondition ct h status;
  acc_GetDeletionPolicy mg := get_path ["Spec"; "ResourceSpec"; "DeletionPolicy"] mg;
  acc_GetProviderConfigReference mg := get_path ["Spec"; "ResourceSpec"; "ProviderConfigReference"] mg;
  acc_GetProviderReference mg := get_path ["Spec"; "ResourceSpec"; "ProviderReference"] mg;
  acc_GetWriteConnectionSecretToReference mg := get_path ["Spec"; "ResourceSpec"; "WriteConnectionSecretToReference"] mg;
  acc_SetConditions c h mg :=
    status ← get_path ["Status"; "ResourceStatus"] mg;
    '(h, status) ← status_SetConditions c h status;
    mg ← set_path ["Status"; "ResourceStatus"] status mg; Returns (h, mg);
  acc_SetDeletionPolicy r mg := set_path ["Spec"; "ResourceSpec"; "DeletionPolicy"] r mg;
  acc_SetProviderConfigReference r mg := set_path ["Spec"; "ResourceSpec"; "ProviderConfigReference"] r mg;
  acc_SetProviderReference r mg := set_path ["Spec"; "ResourceSpec"; "ProviderReference"] r mg;
  acc_SetWriteConnectionSecretToReference r mg := set_path ["Spec"; "ResourceSpec"; "WriteConnectionSecretToReference"] r mg |}.
Definition KeyRing_accessors : Accessors := {|
  acc_GetCondition ct h mg := status ← get_path ["Status"; "ResourceStatus"] mg; status_GetCondition ct h status;
  acc_GetDeletionPolicy mg := get_path ["Spec"; "ResourceSpec"; "DeletionPolicy"] mg;
  acc_GetProviderConfigReference mg := get_path ["Spec"; "ResourceSpec"; "ProviderConfigReference"] mg;
  acc_GetProviderReference mg := get_path ["Spec"; "ResourceSpec"; "ProviderReference"] mg;
  acc_GetWriteConnectionSecretToReference mg := get_path ["Spec"; "ResourceSpec"; "WriteConnectionSecretToReference"] mg;
  acc_SetConditions c h mg :=
    status ← get_path ["Status"; "ResourceStatus"] mg;
    '(h, status) ← status_SetConditions c h status;
    mg ← set_path ["Status"; "ResourceStatus"] status mg; Returns (h, mg);
  acc_SetDeletionPolicy r mg := set_path ["Spec"; "ResourceSpec"; "DeletionPolicy"] r mg;
  acc_SetProviderConfigReference r mg := set_path ["Spec"; "ResourceSpec"; "ProviderConfigReference"] r mg;
  acc_SetProviderReference r mg := set_path ["Spec"; "ResourceSpec"; "ProviderReference"] r mg;
  acc_SetWriteConnectionSecretToReference r mg := set_path ["Spec"; "ResourceSpec"; "WriteConnectionSecretToReference"] r mg |}.
Definition Topic_accessors : Accessors := {|
  acc_GetCondition ct h mg := status ← get_path ["Status"; "ResourceStatus"] mg; status_GetCondition ct h status;
  acc_GetDeletionPolicy mg := get_path ["Spec"; "ResourceSpec"; "DeletionPolicy"] mg;
  acc_GetProviderConfigReference mg := get_path ["Spec"; "ResourceSpec"; "ProviderConfigReference"] mg;
  acc_GetProviderReference mg := get_path ["Spec"; "ResourceSpec"; "ProviderReference"] mg;
  acc_GetWriteConnectionSecretToReference mg := get_path ["Spec"; "ResourceSpec"; "WriteConnectionSecretToReference"] mg;
  acc_SetConditions c h mg :=
    status ← get_path ["Status"; "ResourceStatus"] mg;
    '(h, status) ← status_SetConditions c h status;
    mg ← set_path ["Status"; "ResourceStatus"] status mg; Returns (h, mg);
  acc_SetDeletionPolicy r mg := set_path ["Spec"; "ResourceSpec"; "DeletionPolicy"] r mg;
  acc_SetProviderConfigReference r mg := set_path ["Spec"; "ResourceSpec"; "ProviderConfigReference"] r mg;
  acc_SetProviderReference r mg := set_path ["Spec"; "ResourceSpec"; "ProviderReference"] r mg;
  acc_SetWriteConnectionSecretToReference r mg := set_path ["Spec"; "ResourceSpec"; "WriteConnectionSecretToReference"] r mg |}.
Definition Connection_accessors : Accessors := {|
  acc_GetCondition ct h mg := status ← get_path ["Status"; "ResourceStatus"] mg; status_GetCondition ct h status;
  acc_GetDeletionPolicy mg := get_path ["Spec"; "ResourceSpec"; "DeletionPolicy"] mg;
  acc_GetProviderConfigReference mg := get_path ["Spec"; "ResourceSpec"; "ProviderConfigReference"] mg;
  acc_GetProviderReference mg := get_path ["Spec"; "ResourceSpec"; "ProviderReference"] mg;
  acc_GetWriteConnectionSecretToReference mg := get_path ["Spec"; "ResourceSpec"; "WriteConnectionSecretToReference"] mg;
  acc_SetConditions c h mg :=
    status ← get_path ["Status"; "ResourceStatus"] mg;
    '(h, status) ← status_SetConditions c h status;
    mg ← set_path ["Status"; "ResourceStatus"] status mg; Returns (h, mg);
  acc_SetDeletionPolicy r mg := set_path ["Spec"; "ResourceSpec"; "DeletionPolicy"] r mg;
  acc_SetProviderConfigReference r mg := set_path ["Spec"; "ResourceSpec"; "ProviderConfigReference"] r mg;
  acc_SetProviderReference r mg := set_path ["Spec"; "ResourceSpec"; "ProviderReference"] r mg;
  acc_SetWriteConnectionSecretToReference r mg := set_path ["Spec"; "ResourceSpec"; "WriteConnectionSecretToReference"] r mg |}.
Definition BucketPolicy_accessors : Accessors := {|
  acc_GetCondition ct h mg := status ← get_path ["Status"; "ResourceStatus"] mg; status_GetCondition ct h status;
  acc_GetDeletionPolicy mg := get_path ["Spec"; "ResourceSpec"; "DeletionPolicy"] mg;
  acc_GetProviderConfigReference mg := get_path ["Spec"; "ResourceSpec"; "ProviderConfigReference"] mg;
  acc_GetProviderReference mg := get_path ["Spec"; "ResourceSpec"; "ProviderReference"] mg;
  acc_GetWriteConnectionSecretToReference mg := get_path ["Spec"; "ResourceSpec"; "WriteConnectionSecretToReference"] mg;
  acc_SetConditions c h mg :=
    status ← get_path ["Status"; "ResourceStatus"] mg;
    '(h, status) ← status_SetConditions c h status;
    mg ← set_path ["Status"; "ResourceStatus"] status mg; Returns (h, mg);
  acc_SetDeletionPolicy r mg := set_path ["Spec"; "ResourceSpec"; "DeletionPolicy"] r mg;
  acc_SetProviderConfigReference r mg := set_path ["Spec"; "ResourceSpec"; "ProviderConfigReference"] r mg;
  acc_SetProviderReference r mg := set_path ["Spec"; "ResourceSpec"; "ProviderReference"] r mg;
  acc_SetWriteConnectionSecretToReference r mg := set_path ["Spec"; "ResourceSpec"; "WriteConnectionSecretToReference"] r mg |}.
Definition BucketPolicyMember_accessors : Accessors := {|
  acc_GetCondition ct h mg := status ← get_path ["Status"; "ResourceStatus"] mg; status_GetCondition ct h status;
  acc_GetDeletionPolicy mg := get_path ["Spec"; "ResourceSpec"; "DeletionPolicy"] mg;
  acc_GetProviderConfigReference mg := get_path ["Spec"; "ResourceSpec"; "ProviderConfigReference"] mg;
  acc_GetProviderReference mg := get_path ["Spec"; "ResourceSpec"; "ProviderReference"] mg;
  acc_GetWriteConnectionSecretToReference mg := get_path ["Spec"; "ResourceSpec"; "WriteConnectionSecretToReference"] mg;
  acc_SetConditions c h mg :=
    status ← get_path ["Status"; "ResourceStatus"] mg;
    '(h, status) ← status_SetConditions c h status;
    mg ← set_path ["Status"; "ResourceStatus"] status mg; Returns (h, mg);
  acc_SetDeletionPolicy r mg := set_path ["Spec"; "ResourceSpec"; "DeletionPolicy"] r mg;
  acc_SetProviderConfigReference r mg := set_path ["Spec"; "ResourceSpec"; "ProviderConfigReference"] r mg;
  acc_SetProviderReference r mg := set_path ["Spec"; "ResourceSpec"; "ProviderReference"] r mg;
  acc_SetWriteConnectionSecretToReference r mg := set_path ["Spec"; "ResourceSpec"; "WriteConnectionSecretToReference"] r mg |}.
Definition Bucket_accessors : Accessors := {|
  acc_GetCondition ct h mg := status ← get_path ["Status"; "ResourceStatus"] mg; status_GetCondition ct h status;
  acc_GetDeletionPolicy mg := get_path ["Spec"; "ResourceSpec"; "DeletionPolicy"] mg;
  acc_GetProviderConfigReference mg := get_path ["Spec"; "ResourceSpec"; "ProviderConfigReference"] mg;
  acc_GetProviderReference mg := get_path ["Spec"; "ResourceSpec"; "ProviderReference"] mg;
  acc_GetWriteConnectionSecretToReference mg := get_path ["Spec"; "ResourceSpec"; "WriteConnectionSecretToReference"] mg;
  acc_SetConditions c h mg :=
    status ← get_path ["Status"; "ResourceStatus"] mg;
    '(h, status) ← status_SetConditions c h status;
    mg ← set_path ["Status"; "ResourceStatus"] status mg; Returns (h, mg);
  acc_SetDeletionPolicy r mg := set_path ["Spec"; "ResourceSpec"; "DeletionPolicy"] r mg;
  acc_SetProviderConfigReference r mg := set_path ["Spec"; "ResourceSpec"; "ProviderConfigReference"] r mg;
  acc_SetProviderReference r mg := set_path ["Spec"; "ResourceSpec"; "ProviderReference"] r mg;
  acc_SetWriteConnectionSecretToReference r mg := set_path ["Spec"; "ResourceSpec"; "WriteConnectionSecretToReference"] r mg |}.

Definition managed_kinds : list (string * ty * Accessors) := [
  ("CloudMemorystoreInstance", DeepCopyCache.CloudMemorystoreInstance, CloudMemorystoreInstance_accessors);
  ("GlobalAddress", DeepCopyCompute.GlobalAddress, GlobalAddress_accessors);
  ("Network", DeepCopyCompute.Network, Network_accessors);
  ("Subnetwork", DeepCopyCompute.Subnetwork, Subnetwork_accessors);
  ("Cluster", DeepCopyCluster.Cluster, Cluster_accessors);
  ("NodePool", DeepCopyNodePool.NodePool, NodePool_accessors);
  ("CloudSQLInstance", DeepCopyDatabase.CloudSQLInstance, CloudSQLInstance_accessors);
  ("ServiceAccount", DeepCopyIam.ServiceAccount, ServiceAccount_accessors);
  ("ServiceAccountKey", DeepCopyIam.ServiceAccountKey, ServiceAccountKey_accessors);
  ("ServiceAccountPolicy", DeepCopyIam.ServiceAccountPolicy, ServiceAccountPolicy_accessors);
  ("CryptoKey", DeepCopyKms.CryptoKey, CryptoKey_accessors);
  ("CryptoKeyPolicy", DeepCopyKms.CryptoKeyPolicy, CryptoKeyPolicy_accessors);
  ("KeyRing", DeepCopyKms.KeyRing, KeyRing_accessors);
  ("Topic", DeepCopyPubsub.Topic, Topic_accessors);
  ("Connection", DeepCopyConnection.Connection, Connection_accessors);
  ("BucketPolicy", DeepCopyBucketPolicy.BucketPolicy, BucketPolicy_accessors);
  ("BucketPolicyMember", DeepCopyBucketPolicy.BucketPolicyMember, BucketPolicyMember_accessors);
  ("Bucket", DeepCopyBucket.Bucket, Bucket_accessors)].
End kinds.

(** ** The laws *)

Section laws.
Context `{ResourceTypes}.

(** A field of type [u] of the objects of type [t]: it can be read and written
    without a panic, keeps the object well-typed, and reads as it was written. *)
Definition lawful_field (t u : ty) (get : value → outcome value) (set : value → value → outcome value) : Prop :=
  ∀ h v r, reads h t v r →
    (∃ x rx, get v = Returns x ∧ reads h u x rx) ∧
    ∀ w rw, reads h u w rw → ∃ v' r', set w v = Returns v' ∧ reads h t v' r' ∧ get v' = Returns w.
(** Writing leaves what another accessor reads. *)
Definition leaves {A} (set : value → value → outcome value) (get : value → A) : Prop :=
  ∀ w v v', set w v = Returns v' → get v' = get v.

Definition getters (a : Accessors) : list (value → outcome value) :=
  [acc_GetDeletionPolicy a; acc_GetProviderConfigReference a; acc_GetProviderReference a; acc_GetWriteConnectionSecretToReference a].
Definition setters (a : Accessors) : list (value → value → outcome value) :=
  [acc_SetDeletionPolicy a; acc_SetProviderConfigReference a; acc_SetProviderReference a; acc_SetWriteConnectionSecretToReference a].

Record lawful (t : ty) (a : Accessors) : Prop := {
  lawful_DeletionPolicy : lawful_field t TString (acc_GetDeletionPolicy a) (acc_SetDeletionPolicy a);
  lawful_ProviderConfigReference :
    lawful_field t (TPtr Reference) (acc_GetProviderConfigReference a) (acc_SetProviderConfigReference a);
  lawful_ProviderReference : lawful_field t (TPtr Reference) (acc_GetProviderReference a) (acc_SetProviderReference a);
  lawful_WriteConnectionSecretToReference :
    lawful_field t (TPtr SecretReference) (acc_GetWriteConnectionSecretToReference a) (acc_SetWriteConnectionSecretToReference a);
  lawful_apart i j get set : getters a !! i = Some get → setters a !! j = Some set → i ≠ j → leaves set get;
  lawful_conditions cs h v h' v' : acc_SetConditions a cs h v = Returns (h', v') →
    Forall (λ get, get v' = get v) (getters a);
  lawful_status ct h : Forall (λ set, leaves set (acc_GetCondition a ct h)) (setters a)
}.

Definition spec_path (n : string) : list string := ["Spec"; "ResourceSpec"; n].
Definition status_path : list string := ["Status"; "ResourceStatus"].

Lemma path_lawful p q t u w :
  path_ty p t = Some u → path_ty q u = Some w → lawful_field t w (get_path (p ++ q)) (set_path (p ++ q)).
Proof using Type.
  intros Ht Hu h v r Hr. assert (path_ty (p ++ q) t = Some w) as Hp by (by rewrite path_ty_app, Ht).
  split; [by eapply get_path_reads|]. intros x rx Hx. destruct (set_path_reads h _ _ _ _ _ _ _ Hp Hr Hx) as (v' & r' & Hv' & Hr').
  exists v', r'. split_and!; [done..|]. by eapply get_set_path.
Qed.
Lemma paths_leave p q : apart p q = true → leaves (set_path p) (get_path q).
Proof using Type. intros Ha w v v'. by apply get_set_apart. Qed.

Lemma path_leaves_status n ct h : leaves (set_path (spec_path n)) (acc_GetCondition Network_accessors ct h).
Proof using Type.
  intros w v v' Hv. cbn [acc_GetCondition Network_accessors]. fold status_path.
  by rewrite (get_set_apart (spec_path n) status_path _ _ _ eq_refl Hv).
Qed.

(** Accessors that go to these places are lawful for every type that has them. *)
Lemma accessors_lawful t :
  path_ty ["Spec"; "ResourceSpec"] t = Some ResourceSpec → lawful t Network_accessors.
Proof using Type.
  intros Ht. split.
  - apply (path_lawful ["Spec"; "ResourceSpec"] ["DeletionPolicy"] _ ResourceSpec); [done|apply spec_DeletionPolicy].
  - apply (path_lawful ["Spec"; "ResourceSpec"] ["ProviderConfigReference"] _ ResourceSpec); [done|apply spec_ProviderConfigReference].
  - apply (path_lawful ["Spec"; "ResourceSpec"] ["ProviderReference"] _ ResourceSpec); [done|apply spec_ProviderReference].
  - apply (path_lawful ["Spec"; "ResourceSpec"] ["WriteConnectionSecretToReference"] _ ResourceSpec); [done|apply spec_WriteConnectionSecretToReference].
  - intros i j get set Hi Hj Hne. destruct i as [|[|[|[|]]]], j as [|[|[|[|]]]]; try done;
      cbn [getters setters lookup list_lookup] in Hi, Hj; simplify_eq;
      (refine (paths_leave ["Spec"; "ResourceSpec"; _] ["Spec"; "ResourceSpec"; _] _); reflexivity).
  - intros c h v h' v'. cbn [acc_SetConditions acc_GetCondition Network_accessors]. fold status_path.
    destruct (get_path status_path v) as [s|]; [|done]. cbn [mbind outcome_bind].
    destruct (status_SetConditions c h s) as [[h1 s1]|] eqn:Hc; [|done]. cbn [mbind outcome_bind].
    destruct (set_path status_path s1 v) as [v1|] eqn:Hv; [|done]. intros [= <- <-].
    repeat (apply Forall_cons_2; [by eapply (get_set_apart status_path ["Spec"; "ResourceSpec"; _])|]). apply Forall_nil_2.
  - intros ct h. repeat (apply Forall_cons_2; [refine (path_leaves_status _ ct h)|]). apply Forall_nil_2.
Qed.
End laws.

Section provider_laws.
Context `{ProviderTypes}.

Record provider_lawful : Prop := {
  lawful_Users : lawful_field ProviderConfig TInt ProviderConfig_GetUsers ProviderConfig_SetUsers;
  users_leave_conditions ct h : leaves ProviderConfig_SetUsers (ProviderConfig_GetCondition ct h);
  conditions_of_config cs h v h' v' : ProviderConfig_SetConditions cs h v = Returns (h', v') →
    ProviderConfig_GetUsers v' = ProviderConfig_GetUsers v;
  lawful_UsedConfig : lawful_field ProviderConfigUsage Reference
    ProviderConfigUsage_GetProviderConfigReference ProviderConfigUsage_SetProviderConfigReference;
  lawful_UsedBy : lawful_field ProviderConfigUsage TypedReference
    ProviderConfigUsage_GetResourceReference ProviderConfigUsage_SetResourceReference;
  used_config_apart : leaves ProviderConfigUsage_SetProviderConfigReference ProviderConfigUsage_GetResourceReference;
  used_by_apart : leaves ProviderConfigUsage_SetResourceReference ProviderConfigUsage_GetProviderConfigReference
}.

Definition config_status_path : list string := ["Status"; "ProviderConfigStatus"; "ConditionedStatus"].

Lemma provider_accessors_lawful : provider_lawful.
Proof using Type.
  split.
  - exact (path_lawful ["Status"; "ProviderConfigStatus"] ["Users"] ProviderConfig XpProviderConfigStatus _ eq_refl pcs_Users).
  - intros ct h w v v' Hv. unfold ProviderConfig_GetCondition. fold config_status_path.
    by rewrite (get_set_apart ["Status"; "ProviderConfigStatus"; "Users"] config_status_path _ _ _ eq_refl Hv).
  - intros c h v h' v'. unfold ProviderConfig_SetConditions, ProviderConfig_GetCondition. fold config_status_path.
    destruct (get_path config_status_path v) as [s|]; [|done]. cbn [mbind outcome_bind].
    destruct (conditioned_SetConditions c h s) as [[h1 s1]|] eqn:Hc; [|done]. cbn [mbind outcome_bind].
    destruct (set_path config_status_path s1 v) as [v1|] eqn:Hv; [|done]. intros [= <- <-].
    exact (get_set_apart config_status_path ["Status"; "ProviderConfigStatus"; "Users"] _ _ _ eq_refl Hv).
  - exact (path_lawful ["ProviderConfigUsage"] ["ProviderConfigReference"] ProviderConfigUsage XpProviderConfigUsage _ eq_refl pcu_ProviderConfigReference).
  - exact (path_lawful ["ProviderConfigUsage"] ["ResourceReference"] ProviderConfigUsage XpProviderConfigUsage _ eq_refl pcu_ResourceReference).
  - by apply paths_leave.
  - by apply paths_leave.
Qed.
End provider_laws.

(** On every well-typed object of each of the eighteen kinds the four
    pairs of accessors read and write, without a panic, a field of the right
    type, keep the object well-typed, and leave what the other accessors read. *)
Lemma managed_resources_lawful `{KubeTypes, !ResourceTypes, !ProviderTypes} :
  List.length managed_kinds = 18 ∧ Forall (λ '(_, t, a), lawful t a) managed_kinds ∧ provider_lawful.
Proof.
  split; [reflexivity|]. split; [|apply provider_accessors_lawful]. unfold managed_kinds.
  repeat (apply Forall_cons_2; [apply accessors_lawful; vm_compute; reflexivity|]). apply Forall_nil_2.
Qed.

(** ** A choice of the library functions *)

(** Setting conditions replaces the list; a condition is a struct with a type. *)
Definition example_condition_type (c : value) : string :=
  match get_path ["Type"] c with Returns (VBasic (BString s)) => s | _ => "" end.
Definition example_SetConditions (cs : list value) (h : gmap loc cell) (s : value) : outcome (gmap loc cell * value) :=
  let '(h, l) := alloc h (CArray cs) in
  s ← set_path ["Conditions"] (VSlice (Some l)) s;
  Returns (h, s).
Definition example_GetCondition (ct : string) (h : gmap loc cell) (s : value) : outcome value :=
  cs ← get_path ["Conditions"] s;
  match cs with
  | VSlice (Some l) =>
    match h !! l with
    | Some (CArray cs) =>
      match List.find (λ c, String.eqb (example_condition_type c) ct) cs with Some c => Returns c | None => Panics end
    | _ => Panics
    end
  | _ => Panics
  end.
Definition example_resources : @ResourceTypes kube_types.
Proof.
  refine {|
    SecretReference := secret_reference_type;
    status_GetCondition := example_GetCondition;
    status_SetConditions := example_SetConditions |}; vm_compute; reflexivity.
Defined.

Definition example_providers : @ProviderTypes kube_types.
Proof.
  refine {|
    ConditionedStatus := resource_status_type;
    TypedReference := typed_reference_type;
    conditioned_GetCondition := example_GetCondition;
    conditioned_SetConditions := example_SetConditions |}; vm_compute; reflexivity.
Defined.
