(* ===== verification/ListItems.v ===== *)
(** * The items of a list

    GetItems of the lists of managed resources and of ProviderConfigUsages, in
    apis/.../zz_generated.managedlist.go and zz_generated.pculist.go: the pointers to the
    elements of the list's own array, by which crossplane-runtime reads and
    changes the resources of a list where they are. *)

From S2P Require Import Prelude GoMemory DeepCopy Accessors.
From S2P Require Import DeepCopyProvider DeepCopyCache DeepCopyCompute DeepCopyCluster DeepCopyNodePool DeepCopyDatabase.
From S2P Require Import DeepCopyIam DeepCopyKms DeepCopyPubsub DeepCopyConnection DeepCopyBucketPolicy.
From S2P Require Import DeepCopyBucket.

(** ** Pointers to elements *)

(** [&s[i]]: the array that the slice [s] leads to, and an index of it. *)
Record element := Element { el_array : loc; el_index : nat }.

Definition deref (h : gmap loc cell) (p : value) : outcome value :=
  match p with
  | VPtr (Some l) => match h !! l with Some (CValue v) => Returns v | _ => Panics end
  | _ => Panics
  end.
Definition slice_elems (h : gmap loc cell) (s : value) : outcome (list value) :=
  match s with
  | VSlice None => Returns []
  | VSlice (Some l) => match h !! l with Some (CArray vs) => Returns vs | _ => Panics end
  | _ => Panics
  end.
Definition slice_len (h : gmap loc cell) (s : value) : outcome nat :=
  vs ← slice_elems h s; Returns (List.length vs).
Definition address (h : gmap loc cell) (s : value) (i : nat) : outcome element :=
  len ← slice_len h s;
  match s with
  | VSlice (Some l) => if Nat.ltb i len then Returns (Element l i) else Panics
  | _ => Panics
  end.
(** [items[i] = x]. *)
Definition set_index {A} (items : list A) (i : nat) (x : A) : outcome (list A) :=
  if Nat.ltb i (List.length items) then Returns (<[i := x]> items) else Panics.
(** [for i := range s] over a slice of length [n]. *)
Fixpoint for_from {A} (i n : nat) (body : nat → A → outcome A) (a : A) : outcome A :=
  match n with
  | O => Returns a
  | S n => a ← body i a; for_from (S i) n body a
  end.
Definition for_range {A} (n : nat) (body : nat → A → outcome A) (a : A) : outcome A := for_from 0 n body a.

(** What is done through such a pointer: reading [*e] and writing [*e = v]. *)
Definition load (h : gmap loc cell) (e : element) : outcome value :=
  match h !! e.(el_array) with
  | Some (CArray vs) => match vs !! e.(el_index) with Some v => Returns v | None => Panics end
  | _ => Panics
  end.
Definition store (h : gmap loc cell) (e : element) (v : value) : outcome (gmap loc cell) :=
  match h !! e.(el_array) with
  | Some (CArray vs) => vs ← set_index vs e.(el_index) v; Returns (<[e.(el_array) := CArray vs]> h)
  | _ => Panics
  end.

(** ** The nineteen lists *)

Section lists.
Context `{KubeTypes}.

Definition ProviderConfigUsageList_GetItems (h : gmap loc cell) (p : value) : outcome (list (option element)) :=
  p ← deref h p;
  Items ← get_path ["Items"] p;
  len ← slice_len h Items;
  for_range len (λ i items, e ← address h Items i; set_index items i (Some e)) (replicate len None).
Definition CloudMemorystoreInstanceList_GetItems (h : gmap loc cell) (l : value) : outcome (list (option element)) :=
  l ← deref h l;
  Items ← get_path ["Items"] l;
  len ← slice_len h Items;
  for_range len (λ i items, e ← address h Items i; set_index items i (Some e)) (replicate len None).
Definition GlobalAddressList_GetItems (h : gmap loc cell) (l : value) : outcome (list (option element)) :=
  l ← deref h l;
  Items ← get_path ["Items"] l;
  len ← slice_len h Items;
  for_range len (λ i items, e ← address h Items i; set_index items i (Some e)) (replicate len None).
Definition NetworkList_GetItems (h : gmap loc cell) (l : value) : outcome (list (option element)) :=
  l ← deref h l;
  Items ← get_path ["Items"] l;
  len ← slice_len h Items;
  for_range len (λ i items, e ← address h Items i; set_index items i (Some e)) (replicate len None).
Definition SubnetworkList_GetItems (h : gmap loc cell) (l : value) : outcome (list (option element)) :=
  l ← deref h l;
  Items ← get_path ["Items"] l;
  len ← slice_len h Items;
  for_range len (λ i items, e ← address h Items i; set_index items i (Some e)) (replicate len None).
Definition ClusterList_GetItems (h : gmap loc cell) (l : value) : outcome (list (option element)) :=
  l ← deref h l;
  Items ← get_path ["Items"] l;
  len ← slice_len h Items;
  for_range len (λ i items, e ← address h Items i; set_index items i (Some e)) (replicate len None).
Definition NodePoolList_GetItems (h : gmap loc cell) (l : value) : outcome (list (option element)) :=
  l ← deref h l;
  Items ← get_path ["Items"] l;
  len ← slice_len h Items;
  for_range len (λ i items, e ← address h Items i; set_index items i (Some e)) (replicate len None).
Definition CloudSQLInstanceList_GetItems (h : gmap loc cell) (l : value) : outcome (list (option element)) :=
  l ← deref h l;
  Items ← get_path ["Items"] l;
  len ← slice_len h Items;
  for_range len (λ i items, e ← address h Items i; set_index items i (Some e)) (replicate len None).
Definition ServiceAccountKeyList_GetItems (h : gmap loc cell) (l : value) : outcome (list (option element)) :=
  l ← deref h l;
  Items ← get_path ["Items"] l;
  len ← slice_len h Items;
  for_range len (λ i items, e ← address h Items i; set_index items i (Some e)) (replicate len None).
Definition ServiceAccountList_GetItems (h : gmap loc cell) (l : value) : outcome (list (option element)) :=
  l ← deref h l;
  Items ← get_path ["Items"] l;
  len ← slice_len h Items;
  for_range len (λ i items, e ← address h Items i; set_index items i (Some e)) (replicate len None).
Definition ServiceAccountPolicyList_GetItems (h : gmap loc cell) (l : value) : outcome (list (option element)) :=
  l ← deref h l;
  Items ← get_path ["Items"] l;
  len ← slice_len h Items;
  for_range len (λ i items, e ← address h Items i; set_index items i (Some e)) (replicate len None).
Definition CryptoKeyList_GetItems (h : gmap loc cell) (l : value) : outcome (list (option element)) :=
  l ← deref h l;
  Items ← get_path ["Items"] l;
  len ← slice_len h Items;
  for_range len (λ i items, e ← address h Items i; set_index items i (Some e)) (replicate len None).
Definition CryptoKeyPolicyList_GetItems (h : gmap loc cell) (l : value) : outcome (list (option element)) :=
  l ← deref h l;
  Items ← get_path ["Items"] l;
  len ← slice_len h Items;
  for_range len (λ i items, e ← address h Items i; set_index items i (Some e)) (replicate len None).
Definition KeyRingList_GetItems (h : gmap loc cell) (l : value) : outcome (list (option element)) :=
  l ← deref h l;
  Items ← get_path ["Items"] l;
  len ← slice_len h Items;
  for_range len (λ i items, e ← address h Items i; set_index items i (Some e)) (replicate len None).
Definition TopicList_GetItems (h : gmap loc cell) (l : value) : outcome (list (option element)) :=
  l ← deref h l;
  Items ← get_path ["Items"] l;
  len ← slice_len h Items;
  for_range len (λ i items, e ← address h Items i; set_index items i (Some e)) (replicate len None).
Definition ConnectionList_GetItems (h : gmap loc cell) (l : value) : outcome (list (option element)) :=
  l ← deref h l;
  Items ← get_path ["Items"] l;
  len ← slice_len h Items;
  for_range len (λ i items, e ← address h Items i; set_index items i (Some e)) (replicate len None).
Definition BucketPolicyList_GetItems (h : gmap loc cell) (l : value) : outcome (list (option element)) :=
  l ← deref h l;
  Items ← get_path ["Items"] l;
  len ← slice_len h Items;
  for_range len (λ i items, e ← address h Items i; set_index items i (Some e)) (replicate len None).
Definition BucketPolicyMemberList_GetItems (h : gmap loc cell) (l : value) : outcome (list (option element)) :=
  l ← deref h l;
  Items ← get_path ["Items"] l;
  len ← slice_len h Items;
  for_range len (λ i items, e ← address h Items i; set_index items i (Some e)) (replicate len None).
Definition BucketList_GetItems (h : gmap loc cell) (l : value) : outcome (list (option element)) :=
  l ← deref h l;
  Items ← get_path ["Items"] l;
  len ← slice_len h Items;
  for_range len (λ i items, e ← address h Items i; set_index items i (Some e)) (replicate len None).

Definition list_kinds : list (string * ty * ty * (gmap loc cell → value → outcome (list (option element)))) := [
  ("ProviderConfigUsageList", DeepCopyProvider.ProviderConfigUsageList, DeepCopyProvider.ProviderConfigUsage, ProviderConfigUsageList_GetItems);
  ("CloudMemorystoreInstanceList", DeepCopyCache.CloudMemorystoreInstanceList, DeepCopyCache.CloudMemorystoreInstance, CloudMemorystoreInstanceList_GetItems);
  ("GlobalAddressList", DeepCopyCompute.GlobalAddressList, DeepCopyCompute.GlobalAddress, GlobalAddressList_GetItems);
  ("NetworkList", DeepCopyCompute.NetworkList, DeepCopyCompute.Network, NetworkList_GetItems);
  ("SubnetworkList", DeepCopyCompute.SubnetworkList, DeepCopyCompute.Subnetwork, SubnetworkList_GetItems);
  ("ClusterList", DeepCopyCluster.ClusterList, DeepCopyCluster.Cluster, ClusterList_GetItems);
  ("NodePoolList", DeepCopyNodePool.NodePoolList, DeepCopyNodePool.NodePool, NodePoolList_GetItems);
  ("CloudSQLInstanceList", DeepCopyDatabase.CloudSQLInstanceList, DeepCopyDatabase.CloudSQLInstance, CloudSQLInstanceList_GetItems);
  ("ServiceAccountKeyList", DeepCopyIam.ServiceAccountKeyList, DeepCopyIam.ServiceAccountKey, ServiceAccountKeyList_GetItems);
  ("ServiceAccountList", DeepCopyIam.ServiceAccountList, DeepCopyIam.ServiceAccount, ServiceAccountList_GetItems);
  ("ServiceAccountPolicyList", DeepCopyIam.ServiceAccountPolicyList, DeepCopyIam.ServiceAccountPolicy, ServiceAccountPolicyList_GetItems);
  ("CryptoKeyList", DeepCopyKms.CryptoKeyList, DeepCopyKms.CryptoKey, CryptoKeyList_GetItems);
  ("CryptoKeyPolicyList", DeepCopyKms.CryptoKeyPolicyList, DeepCopyKms.CryptoKeyPolicy, CryptoKeyPolicyList_GetItems);
  ("KeyRingList", DeepCopyKms.KeyRingList, DeepCopyKms.KeyRing, KeyRingList_GetItems);
  ("TopicList", DeepCopyPubsub.TopicList, DeepCopyPubsub.Topic, TopicList_GetItems);
  ("ConnectionList", DeepCopyConnection.ConnectionList, DeepCopyConnection.Connection, ConnectionList_GetItems);
  ("BucketPolicyList", DeepCopyBucketPolicy.BucketPolicyList, DeepCopyBucketPolicy.BucketPolicy, BucketPolicyList_GetItems);
  ("BucketPolicyMemberList", DeepCopyBucketPolicy.BucketPolicyMemberList, DeepCopyBucketPolicy.BucketPolicyMember, BucketPolicyMemberList_GetItems);
  ("BucketList", DeepCopyBucket.BucketList, DeepCopyBucket.Bucket, BucketList_GetItems)].
End lists.

(** ** The laws *)

(** The elements of the list that the tree of a pointer to it shows. *)
Definition tree_items (r : tree) : list tree :=
  match r with
  | RPtr (RStruct fs) => match field "Items" fs with Some (RSlice rs) => rs | _ => [] end
  | _ => []
  end.

(** The items of a list of type [lt] with elements of type [t] are its elements. *)
Definition items_of (lt t : ty) (GetItems : gmap loc cell → value → outcome (list (option element))) : Prop :=
  ∀ h l r, reads h (TPtr lt) l r → l ≠ VPtr None →
    ∃ items, GetItems h l = Returns (Some <$> items) ∧ NoDup items ∧
      Forall2 (λ e rv, ∃ v, load h e = Returns v ∧ reads h t v rv) items (tree_items r) ∧
      ∀ i e w, items !! i = Some e → ∃ h',
        store h e w = Returns h' ∧ load h' e = Returns w ∧ GetItems h' l = Returns (Some <$> items) ∧
        (∀ j e', items !! j = Some e' → j ≠ i → load h' e' = load h e') ∧
        (∀ a, a ≠ el_array e → h' !! a = h !! a).

(** The loop sets every index once. *)
Lemma for_from_fills {A} (f : nat → A) body (n : nat) pre (post : list A) :
  (∀ i items, i < List.length pre + n → body i items = set_index items i (f i)) →
  List.length post = n →
  for_from (List.length pre) n body (pre ++ post) = Returns (pre ++ (f <$> seq (List.length pre) n)).
Proof.
  intros Hbody. revert pre post Hbody. induction n as [|n IH]; intros pre [|x post] Hbody Hlen; simpl in Hlen; try done.
  simpl. rewrite Hbody by lia. unfold set_index. rewrite (proj2 (Nat.ltb_lt _ _)) by (rewrite length_app; simpl; lia).
  cbn [mbind outcome_bind]. replace (<[List.length pre := f (List.length pre)]> (pre ++ x :: post)) with ((pre ++ [f (List.length pre)]) ++ post).
  2: { rewrite <- (assoc_L (++)), insert_app_r_alt by lia. by rewrite Nat.sub_diag. }
  replace (S (List.length pre)) with (List.length (pre ++ [f (List.length pre)])) by (rewrite length_app; simpl; lia).
  rewrite IH; [|intros i items Hi; apply Hbody; rewrite length_app in Hi; simpl in Hi; lia|lia].
  rewrite length_app, <- (assoc_L (++)). simpl. by rewrite Nat.add_1_r.
Qed.
Lemma for_range_fills {A} (f : nat → A) body (init : list A) :
  (∀ i items, i < List.length init → body i items = set_index items i (f i)) →
  for_range (List.length init) body init = Returns (f <$> seq 0 (List.length init)).
Proof. intros Hbody. exact (for_from_fills f body (List.length init) [] init Hbody eq_refl). Qed.

Section laws.
Context `{KubeTypes}.

Lemma get_items_nil h p fs :
  h !! p = Some (CValue (VStruct fs)) → field "Items" fs = Some (VSlice None) →
  NetworkList_GetItems h (VPtr (Some p)) = Returns [].
Proof using Type. intros Hp Hf. unfold NetworkList_GetItems. simpl. by rewrite Hp; simpl; rewrite Hf. Qed.
Lemma get_items_array h p fs a vs :
  h !! p = Some (CValue (VStruct fs)) → field "Items" fs = Some (VSlice (Some a)) → h !! a = Some (CArray vs) →
  NetworkList_GetItems h (VPtr (Some p)) = Returns (Some <$> (Element a <$> seq 0 (List.length vs))).
Proof using Type.
  intros Hp Hf Ha. unfold NetworkList_GetItems. simpl. rewrite Hp. simpl. rewrite Hf. simpl.
  unfold slice_len, slice_elems. rewrite Ha. simpl. rewrite <- list_fmap_compose.
  pose proof (for_range_fills (Some ∘ Element a)) as Hfill. specialize (Hfill (λ i items, e ← address h (VSlice (Some a)) i; set_index items i (Some e)) (replicate (List.length vs) None)).
  rewrite length_replicate in Hfill. apply Hfill. intros i items Hi.
  unfold address, slice_len, slice_elems. rewrite Ha. cbn [mbind outcome_bind]. by rewrite (proj2 (Nat.ltb_lt _ _)).
Qed.

Lemma load_element h a vs i v : h !! a = Some (CArray vs) → vs !! i = Some v → load h (Element a i) = Returns v.
Proof using Type. intros Ha Hi. unfold load. simpl. by rewrite Ha, Hi. Qed.
Lemma store_element h a vs i w :
  h !! a = Some (CArray vs) → i < List.length vs → store h (Element a i) w = Returns (<[a := CArray (<[i := w]> vs)]> h).
Proof using Type. intros Ha Hi. unfold store, set_index. simpl. rewrite Ha. by rewrite (proj2 (Nat.ltb_lt _ _)). Qed.

(** Every list type with a field Items has these items. *)
Lemma get_items_lawful lt t : path_ty ["Items"] lt = Some (TSlice t) → items_of lt t NetworkList_GetItems.
Proof using Type.
  intros Hp h l r Hr Hnil. destruct lt as [| | | |fts]; try done. destruct l as [|[p|]|[]|[]|]; try done.
  destruct r as [| |r| | |]; try done. destruct Hr as (x & Hx & (fs & rs & -> & -> & Hfs)%reads_struct_inv).
  simpl in Hp. case_bool_decide; [|done]. destruct (field "Items" fts) as [u|] eqn:Hu; [|done]. simplify_eq/=.
  destruct (fields_read_field _ _ _ _ _ _ Hfs Hu) as (s & rv & Hs & Htree & Hrv). rewrite Htree.
  destruct s as [| |[a|]| |], rv as [| | |trees| |]; try done.
  - destruct Hrv as (vs & Ha & Hvs). pose proof (get_items_array h p fs a vs Hx Hs Ha) as Hget.
    exists (Element a <$> seq 0 (List.length vs)). split_and!; [done| | |].
    + apply NoDup_fmap; [by intros ?? [=]|apply NoDup_seq].
    + apply Forall2_fmap_l, Forall2_same_length_lookup. split.
      * rewrite length_seq. by eapply Forall2_length.
      * intros i k rv [-> Hi]%lookup_seq Hrv. destruct (Forall2_lookup_r _ _ _ _ _ Hvs Hrv) as (v & Hv & Hrd).
        exists v. split; [by eapply load_element|done].
    + intros i e w (k & -> & [-> Hi]%lookup_seq)%list_lookup_fmap_Some. simpl in *.
      exists (<[a := CArray (<[i := w]> vs)]> h). split_and!.
      * by apply store_element.
      * eapply load_element; [by rewrite lookup_insert_eq|by rewrite list_lookup_insert_eq].
      * rewrite (get_items_array _ p fs a (<[i := w]> vs)), length_insert; [done| |done|by rewrite lookup_insert_eq].
        rewrite lookup_insert_ne; [done|]. intros ->. congruence.
      * intros j e' (k & -> & [-> Hj]%lookup_seq)%list_lookup_fmap_Some Hne. simpl in *.
        destruct (lookup_lt_is_Some_2 vs j Hj) as [v Hv].
        rewrite (load_element h a vs j v), (load_element _ a (<[i := w]> vs) j v); try done; [by rewrite lookup_insert_eq|].
        by rewrite list_lookup_insert_ne.
      * intros a' Hne. by rewrite lookup_insert_ne.
  - exists []. split_and!; [by eapply get_items_nil|constructor|constructor|done].
Qed.
End laws.

(** C39: the items of a list are its elements, not copies of them. For each of the eighteen
    lists of managed resources and the list of ProviderConfigUsages, of any length, nil included,
    GetItems returns without a panic as many different pointers as there are elements, in their order;
    each reads as the element, of the right type, and none is nil. Writing through one of them
    changes that element of the list and no other, and nothing else in memory, and GetItems of the
    list is what it was. *)
Theorem list_items_are_elements `{KubeTypes} :
  List.length list_kinds = 19 ∧ Forall (λ '(_, lt, t, GetItems), items_of lt t GetItems) list_kinds.
Proof.
  split; [reflexivity|]. unfold list_kinds.
  repeat (apply Forall_cons_2; [apply get_items_lawful; vm_compute; reflexivity|]). apply Forall_nil_2.
Qed.

(** ** A list of two usages *)

Definition example_usage (name : string) : value := VStruct [
  ("TypeMeta", VStruct [("Kind", VBasic (BString "ProviderConfigUsage")); ("APIVersion", VBasic (BString "gcp.crossplane.io/v1beta1"))]);
  ("ObjectMeta", VStruct [("Name", VBasic (BString name)); ("Annotations", VMap None); ("Finalizers", VSlice None)]);
  ("ProviderConfigUsage", VStruct [
     ("ProviderConfigReference", VStruct [("Name", VBasic (BString "default"))]);
     ("ResourceReference", VStruct [
        ("APIVersion", VBasic (BString "compute.gcp.crossplane.io/v1beta1")); ("Kind", VBasic (BString "Network"));
        ("Name", VBasic (BString name)); ("UID", VBasic (BString "7"))])])].
Definition example_usage_tree (name : string) : tree := RStruct [
  ("TypeMeta", RStruct [("Kind", RBasic (BString "ProviderConfigUsage")); ("APIVersion", RBasic (BString "gcp.crossplane.io/v1beta1"))]);
  ("ObjectMeta", RStruct [("Name", RBasic (BString name)); ("Annotations", RNil); ("Finalizers", RNil)]);
  ("ProviderConfigUsage", RStruct [
     ("ProviderConfigReference", RStruct [("Name", RBasic (BString "default"))]);
     ("ResourceReference", RStruct [
        ("APIVersion", RBasic (BString "compute.gcp.crossplane.io/v1beta1")); ("Kind", RBasic (BString "Network"));
        ("Name", RBasic (BString name)); ("UID", RBasic (BString "7"))])])].
Definition usages_heap : gmap loc cell :=
  <[1%positive := CValue (VStruct [
      ("TypeMeta", VStruct [("Kind", VBasic (BString "ProviderConfigUsageList")); ("APIVersion", VBasic (BString "gcp.crossplane.io/v1beta1"))]);
      ("ListMeta", VStruct [("RemainingItemCount", VPtr None)]); ("Items", VSlice (Some 2%positive))])]>
  (<[2%positive := CArray [example_usage "a"; example_usage "b"]]> ∅).
Definition usages_tree : tree := RPtr (RStruct [
  ("TypeMeta", RStruct [("Kind", RBasic (BString "ProviderConfigUsageList")); ("APIVersion", RBasic (BString "gcp.crossplane.io/v1beta1"))]);
  ("ListMeta", RStruct [("RemainingItemCount", RNil)]); ("Items", RSlice [example_usage_tree "a"; example_usage_tree "b"])]).

Lemma usage_reads h name : reads h (@ProviderConfigUsage kube_types) (example_usage name) (example_usage_tree name).
Proof. cbn. by repeat split. Qed.
Lemma usages_read : reads usages_heap (TPtr (@ProviderConfigUsageList kube_types)) (VPtr (Some 1%positive)) usages_tree.
Proof.
  eexists. split; [reflexivity|]. cbn -[reads ProviderConfigUsage]. split_and!; try done.
  eexists. split; [reflexivity|]. repeat (constructor; [apply usage_reads|]). constructor.
Qed.

(** Two pointers, and what is written through the first leaves the second. *)
Lemma list_items_are_elements_witness :
  ∃ items e1 e2 h', ProviderConfigUsageList_GetItems usages_heap (VPtr (Some 1%positive)) = Returns (Some <$> items) ∧
    items = [e1; e2] ∧ store usages_heap e1 (example_usage "c") = Returns h' ∧
    load h' e1 = Returns (example_usage "c") ∧ load h' e2 = load usages_heap e2.
Proof.
  destruct (@list_items_are_elements kube_types) as [_ Hall].
  destruct (Forall_lookup_1 _ _ 0 _ Hall eq_refl usages_heap (VPtr (Some 1%positive)) usages_tree usages_read)
    as (items & Hitems & _ & Hread & Hwrite); [done|].
  inversion Hread as [|e1 t1 es1 ts1 _ Hread1]; subst. inversion Hread1 as [|e2 t2 es2 ts2 _ Hread2]; subst. inversion Hread2; subst.
  destruct (Hwrite 0 e1 (example_usage "c") eq_refl) as (h' & Hstore & Hload & _ & Hother & _).
  exists [e1; e2], e1, e2, h'. split_and!; try done. by apply (Hother 1).
Defined.
