(* ===== verification/Addressing.v ===== *)
(** * What a controller touches

    A controller is a way to connect and four handlers that work through the
    external client it returned; the reconciler of crossplane-runtime uses them in that
    order. Here the eighteen of pkg/controller are put together from Connect and
    from the handlers, and every call that they make is traced back to the object it is
    about: one that belongs to the managed resource, in the project of its
    provider. *)

From S2P Require Import Prelude GoStrings Libs Contract Gcp IamPolicy PolicyController.
From S2P Require Import BucketPolicy BucketPolicyMember ServiceAccountPolicy CryptoKeyPolicy ServiceAccount ServiceAccountKey.
From S2P Require Import Bucket BucketController Network Subnetwork GlobalAddress Connection Topic KeyRing CryptoKey.
From S2P Require Import Memorystore CloudSQL ClusterTypes ContainerAPI ClusterGenerate ClusterLate Cluster NodePool Connect.

(** ** Controllers *)

Record Handlers (E : Type → Type) (M : Type) := {
  h_Observe : option M → prog E (ExternalObservation * option error * option M);
  h_Create : option M → prog E (ExternalCreation * option error * option M);
  h_Update : option M → prog E (option error * option M);
  h_Delete : option M → prog E (option error * option M)
}.
Arguments h_Observe {E M} h.
Arguments h_Create {E M} h.
Arguments h_Update {E M} h.
Arguments h_Delete {E M} h.

(** What a call is about: an object of the service, by its full name; an object
    whose name is not below a project, made in one; the managed resource, written
    back to the API server; or nothing that the call changes. *)
Inductive target (M : Type) :=
| Object (name : string)
| ObjectIn (project name : string)
| Stored (cr : M)
| NoObject.
Arguments Object {M} name.
Arguments ObjectIn {M} project name.
Arguments Stored {M} cr.
Arguments NoObject {M}.

(** A kind with its controller. [c_target] is read off the documentation of the
    service; [c_names] are the full names of what belongs to a resource that is
    managed in a project, once the spec says where ([c_placed]). *)
Record Controller (Service : Type) := {
  c_E : Type → Type;
  c_P : Type;
  c_O : Type;
  c_External : Type;
  c_Connect : Managed c_P c_O → prog (ConnectE Service) (option error * ptr c_External);
  c_handlers : c_External → Handlers c_E (Managed c_P c_O);
  c_target : ∀ X, c_E X → target (Managed c_P c_O);
  c_names : string → Managed c_P c_O → list string;
  c_placed : Managed c_P c_O → Prop
}.
Arguments c_E {Service} c.
Arguments c_P {Service} c.
Arguments c_O {Service} c.
Arguments c_External {Service} c.
Arguments c_Connect {Service} c.
Arguments c_handlers {Service} c.
Arguments c_target {Service} c.
Arguments c_names {Service} c.
Arguments c_placed {Service} c.

#[local] Notation "a +++ b" := (String.append a b) (right associativity, at level 60).

(** ** Full names *)

Definition network_target X (e : NetworkE X) : target Network.Network :=
  match e with
  | Network.NetworksGet project name | Network.NetworksPatch project name _
  | Network.NetworksSwitchToCustomMode project name | Network.NetworksDelete project name =>
    Object ("projects/" +++ project +++ "/global/networks/" +++ name)
  | Network.NetworksInsert project net => Object ("projects/" +++ project +++ "/global/networks/" +++ net.(an_Name))
  | Network.KubeUpdate cr => Stored cr
  end.
Definition network_names (project : string) (cr : Network.Network) : list string :=
  ["projects/" +++ project +++ "/global/networks/" +++ cr.(ExternalName)].

Definition subnetwork_target X (e : SubnetworkE X) : target Subnetwork.Subnetwork :=
  match e with
  | SubnetworksGet project region name | SubnetworksPatch project region name _
  | SubnetworksSetPrivateIpGoogleAccess project region name _ | SubnetworksDelete project region name =>
    Object ("projects/" +++ project +++ "/regions/" +++ region +++ "/subnetworks/" +++ name)
  | SubnetworksInsert project region subnet =>
    Object ("projects/" +++ project +++ "/regions/" +++ region +++ "/subnetworks/" +++ subnet.(as_Name))
  | Subnetwork.KubeUpdate cr => Stored cr
  end.
Definition subnetwork_names (project : string) (cr : Subnetwork.Subnetwork) : list string :=
  ["projects/" +++ project +++ "/regions/" +++ cr.(ForProvider).(s_Region) +++ "/subnetworks/" +++ cr.(ExternalName)].

Definition address_target X (e : GlobalAddressE X) : target GlobalAddress.GlobalAddress :=
  match e with
  | GlobalAddressesGet project name | GlobalAddressesDelete project name =>
    Object ("projects/" +++ project +++ "/global/addresses/" +++ name)
  | GlobalAddressesInsert project address => Object ("projects/" +++ project +++ "/global/addresses/" +++ address.(ad_Name))
  | GlobalAddress.KubeUpdate cr => Stored cr
  end.
Definition address_names (project : string) (cr : GlobalAddress.GlobalAddress) : list string :=
  ["projects/" +++ project +++ "/global/addresses/" +++ cr.(ExternalName)].

(** A Connection has the connections of its parent, one of them by its name, and a peering of
    its network. Which network Observe looks up is up to the connection it finds. *)
Definition connection_target X (e : ConnectionE X) : target Connection.Connection :=
  match e with
  | ConnectionsList parent _ => Object (parent +++ "/connections")
  | Connection.NetworksGet _ _ => NoObject
  | ConnectionsPatch name _ _ _ => Object name
  | NetworksRemovePeering project network peering =>
    Object ("projects/" +++ project +++ "/global/networks/" +++ network +++ "/" +++ peering)
  end.
Definition connection_names (project : string) (cn : Connection.Connection) : list string :=
  let parent := cn.(ForProvider).(Connection.cp_Parent) in
  [parent +++ "/connections"; parent +++ "/connections/-"; parent +++ "/connections/" +++ PeeringName;
   "projects/" +++ project +++ "/global/networks/" +++ Base (StringValue cn.(ForProvider).(Connection.cp_Network)) +++ "/" +++
     cn.(AtProvider).(Connection.co_Peering)].

Definition topic_target X (e : TopicE X) : target Topic.Topic :=
  match e with
  | TopicsGet name | TopicsCreate name _ | TopicsPatch name _ | TopicsDelete name => Object name
  | Topic.KubeUpdate cr => Stored cr
  end.
Definition topic_names (project : string) (cr : Topic.Topic) : list string :=
  ["projects/" +++ project +++ "/topics/" +++ cr.(ExternalName)].

Definition keyring_target X (e : KeyRingE X) : target KeyRing.KeyRing :=
  match e with
  | KeyRingsGet name => Object name
  | KeyRingsCreate parent id _ => Object (parent +++ "/keyRings/" +++ id)
  end.
Definition keyring_names (project : string) (cr : KeyRing.KeyRing) : list string :=
  ["projects/" +++ project +++ "/locations/" +++ cr.(ForProvider).(kr_Location) +++ "/keyRings/" +++ cr.(ExternalName)].

Definition cryptokey_target X (e : CryptoKeyE X) : target CryptoKey.CryptoKey :=
  match e with
  | CryptoKeysGet name | CryptoKeysPatch name _ _ => Object name
  | CryptoKeysCreate parent id _ => Object (parent +++ "/cryptoKeys/" +++ id)
  end.
Definition cryptokey_names (_ : string) (cr : CryptoKey.CryptoKey) : list string :=
  [StringValue cr.(ForProvider).(ck_KeyRing) +++ "/cryptoKeys/" +++ cr.(ExternalName)].

Definition redis_target {Time} X (e : MemorystoreE Time X) : target (CloudMemorystoreInstance Time) :=
  match e with
  | Memorystore.InstancesGet name | Memorystore.InstancesPatch name _ | Memorystore.InstancesDelete name => Object name
  | InstancesCreate parent id _ => Object (parent +++ "/instances/" +++ id)
  | Memorystore.KubeUpdate cr => Stored cr
  end.
Definition redis_names {Time} (project : string) (cr : CloudMemorystoreInstance Time) : list string :=
  ["projects/" +++ project +++ "/locations/" +++ cr.(ForProvider).(m_Region) +++ "/instances/" +++ cr.(ExternalName)].

Definition cloudsql_target X (e : CloudSQLE X) : target CloudSQLInstance :=
  match e with
  | CloudSQL.InstancesGet project name | CloudSQL.InstancesPatch project name _ | CloudSQL.InstancesDelete project name =>
    Object ("projects/" +++ project +++ "/instances/" +++ name)
  | InstancesInsert project db => Object ("projects/" +++ project +++ "/instances/" +++ db.(db_Name))
  | GeneratePassword => NoObject
  | CloudSQL.KubeUpdate cr => Stored cr
  end.
Definition cloudsql_names (project : string) (cr : CloudSQLInstance) : list string :=
  ["projects/" +++ project +++ "/instances/" +++ cr.(ExternalName)].

(** A cluster has the pool it was bootstrapped with. *)
Definition cluster_target X (e : ClusterE X) : target Cluster :=
  match e with
  | ClustersGet name | ClustersUpdate name _ | ClustersSetLegacyAbac name _ | ClustersSetMaintenancePolicy name _
  | ClustersSetNetworkPolicy name _ | ClustersSetResourceLabels name _ | ClustersDelete name
  | Cluster.NodePoolsDelete name => Object name
  | ClustersCreate parent cluster => Object (parent +++ "/clusters/" +++ cluster.(acl_Name))
  | Cluster.KubeUpdate cr => Stored cr
  end.
Definition cluster_names (project : string) (cr : Cluster) : list string :=
  let cluster := "projects/" +++ project +++ "/locations/" +++ cr.(ForProvider).(cp_Location) +++ "/clusters/" +++ cr.(ExternalName) in
  [cluster; cluster +++ "/nodePools/" +++ BootstrapNodePoolName].

(** A pool is made below the name that its spec has for the cluster, and
    addressed by that path with zones replaced by locations: where the name of
    the cluster is an old zonal one, these are two names. *)
Definition nodepool_target X (e : NodePoolE X) : target NodePool :=
  match e with
  | NodePoolsGet name | NodePoolsSetAutoscaling name _ | NodePoolsSetManagement name _ | NodePoolsUpdate name _
  | NodePool.NodePoolsDelete name => Object name
  | NodePoolsCreate parent pool =>
    Object (parent +++ "/nodePools/" +++ pool.(anp_Name))
  | NodePool.KubeUpdate cr => Stored cr
  end.
Definition nodepool_names (_ : string) (cr : NodePool) : list string :=
  let created := cr.(ForProvider).(npp_Cluster) +++ "/nodePools/" +++ cr.(ExternalName) in
  [ReplaceAll created "/zones/" "/locations/"; created].

(** The names of buckets are global. *)
Definition bucket_target X (e : BucketE X) : target Bucket :=
  match e with
  | BucketGetAttrs name | BucketUpdate name _ | BucketDelete name => Object name
  | BucketCreate name project _ => ObjectIn project name
  | Bucket.KubeUpdate cr => Stored cr
  end.
Definition bucket_names (_ : string) (cr : Bucket) : list string := [cr.(ExternalName)].

(** The account [id] of a project is named by its email address. *)
Definition account_target X (e : ServiceAccountE X) : target ServiceAccount.ServiceAccount :=
  match e with
  | ServiceAccountsGet name | ServiceAccountsPatch name _ | ServiceAccountsDelete name => Object name
  | ServiceAccountsCreate parent csar =>
    Object (parent +++ "/serviceAccounts/" +++ csar.(csar_AccountId) +++ "@" +++ TrimPrefix parent "projects/" +++
      ".iam.gserviceaccount.com")
  end.
Definition account_names (project : string) (cr : ServiceAccount.ServiceAccount) : list string :=
  ["projects/" +++ project +++ "/serviceAccounts/" +++ cr.(ExternalName) +++ "@" +++ project +++ ".iam.gserviceaccount.com"].

(** The service chooses the name of a key: creating one is about the keys of
    the account. *)
Definition key_target X (e : ServiceAccountKeyE X) : target ServiceAccountKey :=
  match e with
  | KeysGet name _ | KeysDelete name => Object name
  | KeysCreate parent _ => Object (parent +++ "/keys")
  end.
Definition key_names (_ : string) (cr : ServiceAccountKey) : list string :=
  let account := StringValue cr.(ForProvider).(sak_ServiceAccountReferer).(ServiceAccountPolicy.ServiceAccount) in
  [account +++ "/keys"; account +++ "/keys/" +++ cr.(ExternalName)].

Definition policy_target {P M} X (e : PolicyE P X) : target M :=
  match e with
  | GetIamPolicy resource _ | SetIamPolicy resource _ => Object resource
  end.

(** ** The eighteen controllers *)

Section controllers.
Context `{Libs} `{MapOrder} {Service Time : Type}.
(** What the handlers take from libraries: time.Parse, mergo.Merge, the error of
    the storage client, clientcmd.Write. *)
Context (time_Parse : string → Time + error) (merge : BucketSpecAttrs → BucketSpecAttrs → BucketSpecAttrs + error).
Context (ErrBucketNotExist : error) (clientcmd_Write : kubeConfig → string + error).

Definition networkController : Controller Service := {|
  c_Connect := network_Connect;
  c_handlers c := {|
    h_Observe := Network.Observe c.(pe_projectID); h_Create := Network.Create c.(pe_projectID);
    h_Update := Network.Update c.(pe_projectID); h_Delete := Network.Delete c.(pe_projectID) |};
  c_target := network_target; c_names := network_names; c_placed _ := True |}.
Definition subnetworkController : Controller Service := {|
  c_Connect := subnetwork_Connect;
  c_handlers c := {|
    h_Observe := Subnetwork.Observe c.(pe_projectID); h_Create := Subnetwork.Create c.(pe_projectID);
    h_Update := Subnetwork.Update c.(pe_projectID); h_Delete := Subnetwork.Delete c.(pe_projectID) |};
  c_target := subnetwork_target; c_names := subnetwork_names; c_placed cr := cr.(ForProvider).(s_Region) ≠ "" |}.
Definition addressController : Controller Service := {|
  c_Connect := ga_Connect;
  c_handlers e := {|
    h_Observe := GlobalAddress.Observe e.(pe_projectID); h_Create := GlobalAddress.Create e.(pe_projectID);
    h_Update := GlobalAddress.Update; h_Delete := GlobalAddress.Delete e.(pe_projectID) |};
  c_target := address_target; c_names := address_names; c_placed _ := True |}.
Definition connectionController : Controller Service := {|
  c_Connect := connection_Connect;
  c_handlers e := {|
    h_Observe := Connection.Observe e.(ce_projectID); h_Create := Connection.Create;
    h_Update := Connection.Update; h_Delete := Connection.Delete e.(ce_projectID) |};
  c_target := connection_target; c_names := connection_names; c_placed _ := True |}.
Definition topicController : Controller Service := {|
  c_Connect := topic_Connect;
  c_handlers e := {|
    h_Observe := Topic.Observe e.(pe_projectID); h_Create := Topic.Create e.(pe_projectID);
    h_Update := Topic.Update e.(pe_projectID); h_Delete := Topic.Delete e.(pe_projectID) |};
  c_target := topic_target; c_names := topic_names; c_placed _ := True |}.
Definition keyRingController : Controller Service := {|
  c_Connect mg := keyRing_Connect (Some mg);
  c_handlers e := {|
    h_Observe := KeyRing.Observe e.(ke_rrn); h_Create := KeyRing.Create e.(ke_rrn);
    h_Update := KeyRing.Update; h_Delete := KeyRing.Delete |};
  c_target := keyring_target; c_names := keyring_names; c_placed _ := True |}.
Definition cryptoKeyController : Controller Service := {|
  c_Connect := cryptoKey_Connect;
  c_handlers _ := {|
    h_Observe := CryptoKey.Observe; h_Create := CryptoKey.Create; h_Update := CryptoKey.Update; h_Delete := CryptoKey.Delete |};
  c_target := cryptokey_target; c_names := cryptokey_names; c_placed _ := True |}.
Definition cryptoKeyPolicyController : Controller Service := {|
  c_Connect := cryptoKeyPolicy_Connect;
  c_handlers _ := {|
    h_Observe := CryptoKeyPolicy.Observe; h_Create := CryptoKeyPolicy.Create;
    h_Update := CryptoKeyPolicy.Update; h_Delete := CryptoKeyPolicy.Delete |};
  c_target := policy_target; c_names _ cr := [StringValue cr.(ForProvider).(ckp_CryptoKey)]; c_placed _ := True |}.
Definition redisController : Controller Service := {|
  c_Connect := redis_Connect;
  c_handlers e := {|
    h_Observe := Memorystore.Observe time_Parse e.(pe_projectID); h_Create := Memorystore.Create e.(pe_projectID);
    h_Update := Memorystore.Update e.(pe_projectID); h_Delete := Memorystore.Delete e.(pe_projectID) |};
  c_target := redis_target; c_names := redis_names; c_placed _ := True |}.
Definition cloudsqlController : Controller Service := {|
  c_Connect := cloudsql_Connect;
  c_handlers c := {|
    h_Observe := CloudSQL.Observe c.(pe_projectID); h_Create := CloudSQL.Create c.(pe_projectID);
    h_Update := CloudSQL.Update c.(pe_projectID); h_Delete := CloudSQL.Delete c.(pe_projectID) |};
  c_target := cloudsql_target; c_names := cloudsql_names; c_placed _ := True |}.
Definition clusterController : Controller Service := {|
  c_Connect := cluster_Connect;
  c_handlers e := {|
    h_Observe := Cluster.Observe clientcmd_Write e.(pe_projectID); h_Create := Cluster.Create e.(pe_projectID);
    h_Update := Cluster.Update e.(pe_projectID); h_Delete := Cluster.Delete e.(pe_projectID) |};
  c_target := cluster_target; c_names := cluster_names; c_placed _ := True |}.
Definition nodePoolController : Controller Service := {|
  c_Connect := nodePool_Connect;
  c_handlers _ := {|
    h_Observe := NodePool.Observe; h_Create := NodePool.Create; h_Update := NodePool.Update; h_Delete := NodePool.Delete |};
  c_target := nodepool_target; c_names := nodepool_names; c_placed _ := True |}.
Definition bucketController : Controller Service := {|
  c_Connect := bucket_Connect;
  c_handlers c := {|
    h_Observe := Bucket.Observe merge ErrBucketNotExist; h_Create := Bucket.Create c.(pe_projectID);
    h_Update := Bucket.Update; h_Delete := Bucket.Delete |};
  c_target := bucket_target; c_names := bucket_names; c_placed _ := True |}.
Definition bucketPolicyController : Controller Service := {|
  c_Connect := bucketPolicy_Connect;
  c_handlers _ := {|
    h_Observe := BucketPolicy.Observe; h_Create := BucketPolicy.Create;
    h_Update := BucketPolicy.Update; h_Delete := BucketPolicy.Delete |};
  c_target := policy_target; c_names _ cr := [StringValue cr.(ForProvider).(bp_Bucket)]; c_placed _ := True |}.
Definition bucketPolicyMemberController : Controller Service := {|
  c_Connect := bucketPolicyMember_Connect;
  c_handlers _ := {|
    h_Observe := BucketPolicyMember.Observe; h_Create := BucketPolicyMember.Create;
    h_Update := BucketPolicyMember.Update; h_Delete := BucketPolicyMember.Delete |};
  c_target := policy_target; c_names _ cr := [StringValue cr.(ForProvider).(bpm_Bucket)]; c_placed _ := True |}.
Definition serviceAccountController : Controller Service := {|
  c_Connect := serviceAccount_Connect;
  c_handlers c := {|
    h_Observe := ServiceAccount.Observe c.(sae_rrn); h_Create := ServiceAccount.Create c.(sae_rrn);
    h_Update := ServiceAccount.Update c.(sae_rrn); h_Delete := ServiceAccount.Delete c.(sae_rrn) |};
  c_target := account_target; c_names := account_names; c_placed _ := True |}.
Definition serviceAccountKeyController : Controller Service := {|
  c_Connect := serviceAccountKey_Connect;
  c_handlers _ := {|
    h_Observe := ServiceAccountKey.Observe; h_Create := ServiceAccountKey.Create;
    h_Update := ServiceAccountKey.Update; h_Delete := ServiceAccountKey.Delete |};
  c_target := key_target; c_names := key_names; c_placed _ := True |}.
Definition serviceAccountPolicyController : Controller Service := {|
  c_Connect := serviceAccountPolicy_Connect;
  c_handlers _ := {|
    h_Observe := ServiceAccountPolicy.Observe; h_Create := ServiceAccountPolicy.Create;
    h_Update := ServiceAccountPolicy.Update; h_Delete := ServiceAccountPolicy.Delete |};
  c_target := policy_target;
  c_names _ cr := [StringValue cr.(ForProvider).(sap_ServiceAccountReferer).(ServiceAccountPolicy.ServiceAccount)]; c_placed _ := True |}.

Definition controllers : list (Controller Service) := [
  redisController; addressController; networkController; subnetworkController; clusterController; nodePoolController;
  cloudsqlController; serviceAccountController; serviceAccountKeyController; serviceAccountPolicyController;
  keyRingController; cryptoKeyController; cryptoKeyPolicyController; topicController; connectionController;
  bucketController; bucketPolicyController; bucketPolicyMemberController].

(** Those that name what they manage by the project of the provider; the others
    work on what the spec names in full, in whatever project that is, and on buckets,
    whose names are global. *)
Definition project_controllers : list (Controller Service) := [
  redisController; addressController; networkController; subnetworkController; clusterController; cloudsqlController;
  serviceAccountController; keyRingController; topicController].
(** Those that manage one object by one name. A Connection has the connections of its parent
    and a peering, a cluster its bootstrap pool, a key the keys of its account, and a pool may have two names. *)
Definition single_controllers : list (Controller Service) := [
  redisController; addressController; networkController; subnetworkController; cloudsqlController;
  serviceAccountController; serviceAccountPolicyController; keyRingController; cryptoKeyController;
  cryptoKeyPolicyController; topicController; bucketController; bucketPolicyController; bucketPolicyMemberController].
End controllers.

(** ** Whose project *)

Definition named_by_project {Service} (c : Controller Service) : Prop :=
  ∀ project cr, Forall (λ n, HasPrefix n ("projects/" +++ project +++ "/") = true) (c.(c_names) project cr).
Definition single_name {Service} (c : Controller Service) : Prop :=
  ∀ project cr, ∃ n, c.(c_names) project cr = [n].

(** The API server answers with provider configs and providers that have these
    projects. *)
Definition answers_projects {Service} (configs providers : string → string) X (e : ConnectE Service X) : X → Prop :=
  match e with
  | Authenticate e =>
    match e with
    | GetProviderConfig name => λ r, match r with inl spec => spec.(pc_ProjectID) = configs name | inr _ => True end
    | GetProvider name => λ r, match r with inl spec => spec.(prov_ProjectID) = providers name | inr _ => True end
    | _ => λ _, True
    end
  | NewService _ _ => λ _, True
  end.
(** The project of the provider that a resource names; a provider config goes first. *)
Definition project_of {P O} (configs providers : string → string) (mg : Managed P O) : string :=
  match mg.(ProviderConfigReference), mg.(ProviderReference) with
  | Some ref, _ => configs ref.(refName)
  | None, Some ref => providers ref.(refName)
  | None, None => ""
  end.

(** The call is about something that belongs to [cr] in [project]; when it writes
    a resource back, that is [cr] under the same names. *)
Definition minds {Service} (c : Controller Service) (project : string) (cr : Managed c.(c_P) c.(c_O)) X (e : c.(c_E) X) : Prop :=
  match c.(c_target) X e with
  | Object name => name ∈ c.(c_names) project cr
  | ObjectIn project' name => project' = project ∧ name ∈ c.(c_names) project cr
  | Stored cr' => cr'.(ExternalName) = cr.(ExternalName) ∧ c.(c_names) project cr' = c.(c_names) project cr
  | NoObject => True
  end.
Definition handlers_mind {Service} (c : Controller Service) (project : string) (cr : Managed c.(c_P) c.(c_O))
    (h : Handlers c.(c_E) (Managed c.(c_P) c.(c_O))) : Prop :=
  calls_only (minds c project cr) (h.(h_Observe) (Some cr)) ∧ calls_only (minds c project cr) (h.(h_Create) (Some cr)) ∧
  calls_only (minds c project cr) (h.(h_Update) (Some cr)) ∧ calls_only (minds c project cr) (h.(h_Delete) (Some cr)).

(** Connect returns clients whose handlers mind the resource. *)
Definition reconciles {Service} (c : Controller Service) : Prop :=
  ∀ configs providers cr, c.(c_placed) cr →
    always_given (answers_projects configs providers)
      (λ '(_, client), ∀ x, client = Some x → handlers_mind c (project_of configs providers cr) cr (c.(c_handlers) x))
      (c.(c_Connect) cr).

(** ** What the others see *)

Definition target_names {M} (t : target M) : list string :=
  match t with Object name | ObjectIn _ name => [name] | Stored _ | NoObject => [] end.
(** A service in which a call changes no object but the one it is about; [at_name] is what
    there is under a name, whatever that is. *)
Definition serves_by_name {Service W V} (c : Controller Service) (serve : ∀ X, c.(c_E) X → W → X * W)
    (at_name : W → string → V) : Prop :=
  ∀ X e w n, n ∉ target_names (c.(c_target) X e) → at_name (serve X e w).2 n = at_name w n.

(** Run against such a service, the program leaves what is not below [names]. *)
Definition leaves_others {Service W V A} (c : Controller Service) (serve : ∀ X, c.(c_E) X → W → X * W)
    (at_name : W → string → V) (names : list string) (p : prog c.(c_E) A) : Prop :=
  ∀ w a w' n, run serve p w = Returns (a, w') → n ∉ names → at_name w' n = at_name w n.

Definition isolated {Service} (c : Controller Service) : Prop :=
  ∀ configs providers cr, c.(c_placed) cr →
    always_given (answers_projects configs providers)
      (λ '(_, client), ∀ x, client = Some x →
         let h := c.(c_handlers) x in
         let names := c.(c_names) (project_of configs providers cr) cr in
         ∀ (W V : Type) serve (at_name : W → string → V), serves_by_name c serve at_name →
           leaves_others c serve at_name names (h.(h_Observe) (Some cr)) ∧ leaves_others c serve at_name names (h.(h_Create) (Some cr)) ∧
           leaves_others c serve at_name names (h.(h_Update) (Some cr)) ∧ leaves_others c serve at_name names (h.(h_Delete) (Some cr)))
      (c.(c_Connect) cr).

(** ** Lemmas *)

Lemma always_given_impl {E : Type → Type} {A} (answers : ∀ X, E X → X → Prop) (P Q : A → Prop) (p : prog E A) :
  (∀ a, P a → Q a) → always_given answers P p → always_given answers Q p.
Proof. intros HPQ. induction p as [a| |X e k IH]; simpl; [apply HPQ|done|]. intros Hk r Hr. by apply IH, Hk. Qed.

(** A program that minds a resource is not noticed by another. *)
Lemma minds_leaves {Service W V A} (c : Controller Service) serve (at_name : W → string → V) project cr (p : prog c.(c_E) A) :
  serves_by_name c serve at_name → calls_only (minds c project cr) p → leaves_others c serve at_name (c.(c_names) project cr) p.
Proof.
  intros Hserve Hp w a w' n Hrun Hn. revert w Hrun. induction p as [b| |X e k IH]; intros w; simpl; [by intros [= _ ->]|done|].
  destruct Hp as [He Hk]. destruct (serve X e w) as [r w1] eqn:Hs. intros Hrun. rewrite (IH r (Hk r) w1 Hrun).
  change w1 with (r, w1).2. rewrite <- Hs. apply Hserve. unfold minds in He.
  destruct (c_target c X e); simpl; set_solver.
Qed.
Lemma reconciles_isolated {Service} (c : Controller Service) : reconciles c → isolated c.
Proof.
  intros Hc configs providers cr Hplaced. eapply always_given_impl, (Hc configs providers cr Hplaced).
  intros [err client] Hx x Hclient W V serve at_name Hserve. destruct (Hx x Hclient) as (? & ? & ? & ?).
  cbv zeta. repeat split; by apply minds_leaves.
Qed.

Lemma calls_only_call {E : Type → Type} {X A} (P : ∀ X, E X → Prop) (e : E X) (k : X → prog E A) :
  P _ e → (∀ r, calls_only P (k r)) → calls_only P (call e ≫= k).
Proof. done. Qed.
Lemma calls_only_lift {E : Type → Type} {X A} (P : ∀ X, E X → Prop) (o : outcome X) (k : X → prog E A) :
  (∀ a, o = Returns a → calls_only P (k a)) → calls_only P (lift o ≫= k).
Proof. intros Hk. destruct o; [by apply Hk|done]. Qed.

(** Connecting as [k] does once the credentials are there, and giving up without. *)
Lemma authenticated_given `{Libs} {Service X P O} configs providers (mg : Managed P O)
    (k : AuthInfo → prog (ConnectE Service) (option error * ptr X)) (Q : option error * ptr X → Prop) :
  (∀ project err, k (project, None, Some err) = Done (Some err, None)) → (∀ err, Q (Some err, None)) →
  (∀ opts, always_given (answers_projects configs providers) Q (k (project_of configs providers mg, Some opts, None))) →
  always_given (answers_projects configs providers) Q (authenticate (GetAuthInfo mg) ≫= k).
Proof.
  intros Herr Hnone Hok. unfold GetAuthInfo, UseProviderConfig, UseProvider, project_of in *.
  destruct (ProviderConfigReference mg), (ProviderReference mg); simpl; [..|unfold errors_New; rewrite Herr; apply Hnone].
  1,2: intros [err|] _; simpl; [rewrite Herr; apply Hnone|]; intros [spec|err] Hp; simpl; [|rewrite Herr; apply Hnone];
    intros [data|err] _; simpl; [rewrite Hp; apply Hok|rewrite errors_Wrap_some, Herr; apply Hnone].
  intros [spec|err] Hp; simpl; [|rewrite Herr; apply Hnone];
    intros [data|err] _; simpl; [rewrite Hp; apply Hok|rewrite Herr; apply Hnone].
Qed.

(** What is sent to create an object carries its name. *)
Lemma GenerateNetwork_name name i n : (GenerateNetwork name i n).(an_Name) = name.
Proof. unfold GenerateNetwork. destruct (AutoCreateSubnetworks i) as [[]|], (RoutingConfig i); done. Qed.
Lemma GenerateCluster_name name i c : (GenerateCluster name i c).(acl_Name) = name.
Proof.
  unfold GenerateCluster. cbv zeta.
  repeat match goal with
  | |- acl_Name (?G ?x _) = _ => rewrite (_ : ∀ c, acl_Name (G x c) = acl_Name c) by (intros ?; unfold G; by destruct x)
  end. done.
Qed.
Lemma AddNodePoolForCreate_name (b : bool) c : (if b then AddNodePoolForCreate c else c).(acl_Name) = c.(acl_Name).
Proof. by destruct b. Qed.
Lemma GenerateNodePool_name name i p : (GenerateNodePool name i p).(anp_Name) = name.
Proof.
  unfold GenerateNodePool. cbv zeta.
  repeat match goal with
  | |- anp_Name (?G ?x _) = _ => rewrite (_ : ∀ c, anp_Name (G x c) = anp_Name c) by (intros ?; unfold G; by destruct x)
  end. by case_match.
Qed.
(** Late initialization does not move a cluster or a pool. *)
Lemma cluster_late_location i c i' : ClusterLate.LateInitializeSpec i c = Returns i' → i'.(cp_Location) = i.(cp_Location).
Proof. intros Hk%cluster_LateInitializeSpec_keeps. apply Hk. Qed.
Lemma nodepool_late_cluster i p i' : NodePool.LateInitializeSpec i p = Returns i' → i'.(npp_Cluster) = i.(npp_Cluster).
Proof. unfold NodePool.LateInitializeSpec, mbind, outcome_bind. case_match; [|done]. by intros [= <-]. Qed.
(** What is sent to create a subnetwork or a database carries its name, and
    late initialization does not move a subnetwork. *)
Lemma GenerateSubnetwork_name name i sn sn' : GenerateSubnetwork name i sn = Returns sn' → sn'.(as_Name) = name.
Proof. unfold GenerateSubnetwork, mbind, outcome_bind. case_match; [|done]. by intros [= <-]. Qed.
Lemma GenerateDatabaseInstance_name name i db db' : GenerateDatabaseInstance name i db = Returns db' → db'.(db_Name) = name.
Proof. unfold GenerateDatabaseInstance, mbind, outcome_bind. case_match; [|done]. by intros [= <-]. Qed.
Lemma subnetwork_late_region i o i' :
  i.(s_Region) ≠ "" → Subnetwork.LateInitializeSpec i o = Returns i' → i'.(s_Region) = i.(s_Region).
Proof.
  intros Hr. unfold Subnetwork.LateInitializeSpec, mbind, outcome_bind. case_match; [|done]. intros [= <-]. simpl.
  by rewrite bool_decide_eq_false_2.
Qed.
(** The paths of an account and of its keys. *)
Lemma referencedServiceAccountPath_is k path :
  referencedServiceAccountPath k = Returns (inl path) →
  path = StringValue k.(ForProvider).(sak_ServiceAccountReferer).(ServiceAccountPolicy.ServiceAccount).
Proof.
  unfold referencedServiceAccountPath. case_bool_decide; [done|].
  destruct (ServiceAccountPolicy.ServiceAccount _); [|done]. by intros [= <-].
Qed.
Lemma resourcePath_is k path :
  resourcePath k = Returns (inl path) →
  path = StringValue k.(ForProvider).(sak_ServiceAccountReferer).(ServiceAccountPolicy.ServiceAccount) +++ "/keys/" +++ k.(ExternalName).
Proof.
  unfold resourcePath. destruct (referencedServiceAccountPath k) as [[p|]|] eqn:Hp; try done.
  apply referencedServiceAccountPath_is in Hp as <-. cbn. case_bool_decide; [done|]. by intros [= <-].
Qed.
#[local] Arguments GenerateNetwork : simpl never.
#[local] Arguments GenerateCluster : simpl never.
#[local] Arguments GenerateNodePool : simpl never.
#[local] Arguments ClusterLate.LateInitializeSpec : simpl never.
#[local] Arguments NodePool.LateInitializeSpec : simpl never.
Create Rewrite HintDb addresses.
#[local] Hint Rewrite GenerateNetwork_name AddNodePoolForCreate_name GenerateCluster_name GenerateNodePool_name append_append TrimPrefix_app : addresses.

Ltac connecting := intros configs providers cr Hplaced; apply authenticated_given;
  [done|by intros err x [=]|intros opts; cbn [c_Connect]; intros [s|err] _; [|by intros x [=]]; intros x [= <-]].
(** Walks a handler from call to call, without computing what lies between. *)
Ltac mind_step :=
  match goal with
  | |- calls_only _ (mret _) => exact I
  | |- calls_only _ (let _ := _ in _) => cbv zeta
  | |- calls_only _ (call _ ≫= _) => apply calls_only_call; [|intros ?]
  | |- calls_only _ (lift _ ≫= _) => apply calls_only_lift; intros ? ?
  | |- calls_only _ (_ ≫= _) => apply calls_only_bind; [|intros ?]
  | |- calls_only _ (call _) => split; [|intros ?; exact I]
  | |- calls_only _ (match ?x with _ => _ end) => destruct x eqn:?
  end.
Ltac mind_own :=
  unfold minds; cbn;
  unfold Memorystore.GetFullyQualifiedParent, Cluster.GetFullyQualifiedParent, ResourceName, LocationRRN, ProjectRRN,
    ServiceAccount.ResourceName, ProjectName, Cluster.cluster_name, Cluster.GetFullyQualifiedName, GetFullyQualifiedBNP, cluster_names;
  cbn; autorewrite with addresses; first [done | solve [repeat first [by left | right]] | by split; [|left]].
Ltac mind := repeat mind_step; try mind_own.
Tactic Notation "handlers" reference(h) := split_and!; cbn [c_handlers h h_Observe h_Create h_Update h_Delete pe_projectID ce_projectID ke_rrn sae_rrn].

Section proofs.
Context `{Libs} `{MapOrder} {Service Time : Type}.

Lemma network_reconciles : reconciles (Service := Service) networkController.
Proof using Type.
  connecting. handlers networkController;
    [unfold Network.Observe|unfold Network.Create|unfold Network.Update|unfold Network.Delete]; mind.
Qed.
Lemma subnetwork_reconciles : reconciles (Service := Service) subnetworkController.
Proof using Type.
  connecting. handlers subnetworkController;
    [unfold Subnetwork.Observe|unfold Subnetwork.Create|unfold Subnetwork.Update|unfold Subnetwork.Delete]; mind.
  - split; [done|]. unfold c_names, subnetworkController, subnetwork_names. cbn. by erewrite subnetwork_late_region.
  - unfold minds, c_target, c_names, subnetworkController, subnetwork_target, subnetwork_names.
    erewrite GenerateSubnetwork_name by done. by left.
Qed.
Lemma address_reconciles : reconciles (Service := Service) addressController.
Proof using Type.
  connecting. handlers addressController;
    [unfold GlobalAddress.Observe|unfold GlobalAddress.Create|unfold GlobalAddress.Update|unfold GlobalAddress.Delete]; mind.
Qed.
Lemma topic_reconciles : reconciles (Service := Service) topicController.
Proof using Type.
  connecting. handlers topicController; [unfold Topic.Observe|unfold Topic.Create|unfold Topic.Update|unfold Topic.Delete]; mind.
Qed.
Lemma redis_reconciles time_Parse : reconciles (Service := Service) (redisController (Time := Time) time_Parse).
Proof using Type.
  connecting. handlers redisController;
    [unfold Memorystore.Observe|unfold Memorystore.Create|unfold Memorystore.Update|unfold Memorystore.Delete]; mind.
Qed.
Lemma cloudsql_reconciles : reconciles (Service := Service) cloudsqlController.
Proof using Type.
  connecting. handlers cloudsqlController;
    [unfold CloudSQL.Observe|unfold CloudSQL.Create|unfold CloudSQL.Update|unfold CloudSQL.Delete]; mind.
  unfold minds, c_target, c_names, cloudsqlController, cloudsql_target, cloudsql_names. cbn [db_Name].
  erewrite GenerateDatabaseInstance_name by done. by left.
Qed.
Lemma cluster_reconciles clientcmd_Write : reconciles (Service := Service) (clusterController clientcmd_Write).
Proof using Type.
  connecting. handlers clusterController;
    [unfold Cluster.Observe|unfold Cluster.Create|unfold Cluster.Update|unfold Cluster.Delete]; mind.
  - split; [done|]. unfold c_names, clusterController, cluster_names. cbn. by erewrite cluster_late_location.
  - unfold Cluster.call_update. mind.
Qed.
Lemma nodepool_reconciles : reconciles (Service := Service) nodePoolController.
Proof using Type.
  connecting. handlers nodePoolController;
    [unfold NodePool.Observe|unfold NodePool.Create|unfold NodePool.Update|unfold NodePool.Delete]; mind.
  - split; [done|]. unfold c_names, nodePoolController, nodepool_names. cbn. by erewrite nodepool_late_cluster.
  - unfold NodePool.call_update. mind.
Qed.
Lemma bucket_reconciles merge missing : reconciles (Service := Service) (bucketController merge missing).
Proof using Type.
  connecting. handlers bucketController; [unfold Bucket.Observe|unfold Bucket.Create|unfold Bucket.Update|unfold Bucket.Delete]; mind.
Qed.
Lemma cryptokey_reconciles : reconciles (Service := Service) cryptoKeyController.
Proof using Type.
  connecting. handlers cryptoKeyController;
    [unfold CryptoKey.Observe|unfold CryptoKey.Create|unfold CryptoKey.Update|unfold CryptoKey.Delete]; mind.
Qed.
Lemma cryptokey_policy_reconciles : reconciles (Service := Service) cryptoKeyPolicyController.
Proof using Type.
  connecting. handlers cryptoKeyPolicyController;
    [unfold CryptoKeyPolicy.Observe|unfold CryptoKeyPolicy.Create|unfold CryptoKeyPolicy.Update|unfold CryptoKeyPolicy.Delete]; mind.
Qed.
Lemma bucket_policy_reconciles : reconciles (Service := Service) bucketPolicyController.
Proof using Type.
  connecting. handlers bucketPolicyController;
    [unfold BucketPolicy.Observe|unfold BucketPolicy.Create|unfold BucketPolicy.Update|unfold BucketPolicy.Delete]; mind.
Qed.
Lemma bucket_policy_member_reconciles : reconciles (Service := Service) bucketPolicyMemberController.
Proof using Type.
  connecting. handlers bucketPolicyMemberController;
    [unfold BucketPolicyMember.Observe|unfold BucketPolicyMember.Create|unfold BucketPolicyMember.Update, BucketPolicyMember.Create|unfold BucketPolicyMember.Delete]; mind.
Qed.
Lemma account_policy_reconciles : reconciles (Service := Service) serviceAccountPolicyController.
Proof using Type.
  connecting. handlers serviceAccountPolicyController;
    [unfold ServiceAccountPolicy.Observe|unfold ServiceAccountPolicy.Create|unfold ServiceAccountPolicy.Update|unfold ServiceAccountPolicy.Delete]; mind.
Qed.
Lemma account_reconciles : reconciles (Service := Service) serviceAccountController.
Proof using Type.
  connecting. handlers serviceAccountController;
    [unfold ServiceAccount.Observe|unfold ServiceAccount.Create|unfold ServiceAccount.Update|unfold ServiceAccount.Delete]; mind.
Qed.
Lemma keyring_reconciles : reconciles (Service := Service) keyRingController.
Proof using Type.
  connecting. handlers keyRingController;
    [unfold KeyRing.Observe|unfold KeyRing.Create|unfold KeyRing.Update|unfold KeyRing.Delete]; mind.
Qed.
Lemma account_key_reconciles : reconciles (Service := Service) serviceAccountKeyController.
Proof using Type.
  connecting. handlers serviceAccountKeyController;
    [unfold ServiceAccountKey.Observe|unfold ServiceAccountKey.Create|unfold ServiceAccountKey.Update|unfold ServiceAccountKey.Delete]; mind.
  all: subst; match goal with
    | Hp : resourcePath _ = _ |- _ => apply resourcePath_is in Hp as ->; by right; left
    | Hp : referencedServiceAccountPath _ = _ |- _ => apply referencedServiceAccountPath_is in Hp as ->; by left
    end.
Qed.
Lemma connection_reconciles : reconciles (Service := Service) connectionController.
Proof using Type.
  intros configs providers cr _. apply authenticated_given; [done|by intros err x [=]|].
  intros opts. cbn. intros [cmp|err] _; [|by intros x [=]]. cbn. intros sn _ x [= <-].
  handlers connectionController;
    [unfold Connection.Observe|unfold Connection.Create|unfold Connection.Update|unfold Connection.Delete]; mind.
Qed.
End proofs.

Lemma replace_absent n s old new :
  old ≠ "" → (∀ a t, s ≠ a +++ old +++ t) → replace_fuel n s old new = s.
Proof.
  intros Hne. revert s. induction n as [|n IH]; intros [|c s] Hs; simpl; [done..|].
  destruct (strip_prefix old (String c s)) as [t|] eqn:Ht.
  - apply strip_prefix_Some in Ht. by destruct (Hs "" t).
  - f_equal. apply IH. intros a t ->. by apply (Hs (String c a) t).
Qed.
Lemma below_project project rest : HasPrefix ("projects/" +++ project +++ "/" +++ rest) ("projects/" +++ project +++ "/") = true.
Proof. apply HasPrefix_true. exists rest. by rewrite !append_append. Qed.


(** The network net of the provider config default, which is for the project
    dev. *)
Definition example_network : Network.Network := {|
  ExternalName := "net"; WasDeleted := false; ProviderConfigReference := Some {| refName := "default" |};
  ProviderReference := None;
  ForProvider := {| AutoCreateSubnetworks := Some false; Network.Description := None; RoutingConfig := None |};
  AtProvider := no_network_observation; Conditions := [] |}.
Definition example_config : ProviderConfigSpec := {|
  Credentials := {| Source := "Secret"; CommonCredentialSelectors := ∅ |}; pc_ProjectID := "dev" |}.
Definition dev_projects (name : string) : string := if String.eqb name "default" then "dev" else "prod".

(** A service that knows the networks there are. *)
Definition network_path (project name : string) : string := "projects/" +++ project +++ "/global/networks/" +++ name.
Definition example_service X (e : NetworkE X) (w : gset string) : X * gset string :=
  match e with
  | Network.NetworksGet project name =>
    (if bool_decide (network_path project name ∈ w) then inl zero_network else inr (GoogleAPIError StatusNotFound ""), w)
  | Network.NetworksInsert project net => (None, {[network_path project net.(an_Name)]} ∪ w)
  | Network.NetworksPatch _ _ _ | Network.NetworksSwitchToCustomMode _ _ => (None, w)
  | Network.NetworksDelete project name => (None, w ∖ {[network_path project name]})
  | Network.KubeUpdate cr => (inl cr, w)
  end.
Definition example_networks : gset string := {[network_path "dev" "net"; network_path "dev" "other"]}.

