(* ===== verification/Existence.v ===== *)
(** * Observe tells whether the resource is there

    The reconciler creates a resource when Observe reports that it does not exist,
    and lets go of one that is being deleted when Observe says so. Observe of every
    controller under pkg/controller says so exactly when it has the service's
    word for it. *)

From S2P Require Import Prelude GoStrings Libs Contract Gcp Nested IamPolicy PolicyController.
From S2P Require Import BucketPolicy BucketPolicyMember ServiceAccountPolicy CryptoKeyPolicy ServiceAccount ServiceAccountKey.
From S2P Require Import Bucket BucketController Network Subnetwork GlobalAddress Connection Topic KeyRing CryptoKey.
From S2P Require Import Memorystore CloudSQL ClusterTypes ContainerAPI ClusterGenerate ClusterLate Cluster NodePool Connect.
From S2P Require Import Addressing.

(** Without an error, the observation says that the resource exists exactly when
    no answer was one of those that [gone] picks ([seen]: one was already). A
    panic reports nothing. *)
Fixpoint tells {E : Type → Type} {M} (gone : ∀ X, E X → X → bool) (seen : bool)
    (p : prog E (ExternalObservation * option error * M)) : Prop :=
  match p with
  | Done (o, err, _) => err = None → o.(ResourceExists) = negb seen
  | Crash => True
  | Call e k => ∀ r, tells gone (seen || gone _ e r) (k r)
  end.

(** The service answered that there is no such object, or with something that
    [none] takes for nothing. *)
Definition not_found {A} (r : A + error) : bool :=
  match r with inl _ => false | inr err => IsErrorNotFound (Some err) end.
Definition not_found_or {A} (none : A → bool) (r : A + error) : bool :=
  match r with inl a => none a | inr err => IsErrorNotFound (Some err) end.

(** A controller, the answers that mean that the object is not there, and the
    resources of which that is known without asking. *)
Record Existence (Service : Type) := {
  ex_controller : Controller Service;
  ex_gone : Managed ex_controller.(c_P) ex_controller.(c_O) → ∀ X, ex_controller.(c_E) X → X → bool;
  ex_unasked : Managed ex_controller.(c_P) ex_controller.(c_O) → bool
}.
Arguments ex_controller {Service} _.
Arguments ex_gone {Service} _.
Arguments ex_unasked {Service} _.

Definition truthful {Service} (x : Existence Service) : Prop :=
  ∀ client cr, tells (x.(ex_gone) cr) (x.(ex_unasked) cr) ((x.(ex_controller).(c_handlers) client).(h_Observe) (Some cr)).

Definition asked {M : Type} (_ : M) : bool := false.

Section kinds.
Context `{Libs} `{MapOrder} {Service Time : Type}.
Context (time_Parse : string → Time + error) (merge : BucketSpecAttrs → BucketSpecAttrs → BucketSpecAttrs + error).
Context (ErrBucketNotExist : error) (clientcmd_Write : kubeConfig → string + error).

Definition network_exists : Existence Service := {|
  ex_controller := networkController; ex_unasked := asked;
  ex_gone _ X e := match e with Network.NetworksGet _ _ => not_found | _ => λ _, false end |}.
Definition subnetwork_exists : Existence Service := {|
  ex_controller := subnetworkController; ex_unasked := asked;
  ex_gone _ X e := match e with SubnetworksGet _ _ _ => not_found | _ => λ _, false end |}.
Definition address_exists : Existence Service := {|
  ex_controller := addressController; ex_unasked := asked;
  ex_gone _ X e := match e with GlobalAddressesGet _ _ => not_found | _ => λ _, false end |}.
Definition topic_exists : Existence Service := {|
  ex_controller := topicController; ex_unasked := asked;
  ex_gone _ X e := match e with TopicsGet _ => not_found | _ => λ _, false end |}.
Definition redis_exists : Existence Service := {|
  ex_controller := redisController time_Parse; ex_unasked := asked;
  ex_gone _ X e := match e with Memorystore.InstancesGet _ => not_found | _ => λ _, false end |}.
Definition cloudsql_exists : Existence Service := {|
  ex_controller := cloudsqlController; ex_unasked := asked;
  ex_gone _ X e := match e with CloudSQL.InstancesGet _ _ => not_found | _ => λ _, false end |}.
Definition cluster_exists : Existence Service := {|
  ex_controller := clusterController clientcmd_Write; ex_unasked := asked;
  ex_gone _ X e := match e with ClustersGet _ => not_found | _ => λ _, false end |}.
Definition nodepool_exists : Existence Service := {|
  ex_controller := nodePoolController; ex_unasked := asked;
  ex_gone _ X e := match e with NodePoolsGet _ => not_found | _ => λ _, false end |}.
Definition account_exists : Existence Service := {|
  ex_controller := serviceAccountController; ex_unasked := asked;
  ex_gone _ X e := match e with ServiceAccountsGet _ => not_found | _ => λ _, false end |}.
(** Key rings and crypto keys cannot be deleted: a resource that is being deleted
    is let go. *)
Definition keyring_exists : Existence Service := {|
  ex_controller := keyRingController; ex_unasked cr := cr.(WasDeleted);
  ex_gone _ X e := match e with KeyRingsGet _ => not_found | _ => λ _, false end |}.
Definition cryptokey_exists : Existence Service := {|
  ex_controller := cryptoKeyController; ex_unasked cr := cr.(WasDeleted);
  ex_gone _ X e := match e with CryptoKeysGet _ => not_found | _ => λ _, false end |}.
(** A key is named when it was created. *)
Definition key_exists : Existence Service := {|
  ex_controller := serviceAccountKeyController; ex_unasked cr := bool_decide (cr.(ExternalName) = "");
  ex_gone _ X e := match e with KeysGet _ _ => not_found | _ => λ _, false end |}.
(** The client library of Cloud Storage has an error of its own. *)
Definition bucket_exists : Existence Service := {|
  ex_controller := bucketController merge ErrBucketNotExist; ex_unasked := asked;
  ex_gone _ X e :=
    match e with
    | BucketGetAttrs _ => λ r, match r with inl _ => false | inr err => bool_decide (err = ErrBucketNotExist) end
    | _ => λ _, false
    end |}.
(** A policy is there when it says something. *)
Definition bucket_policy_exists : Existence Service := {|
  ex_controller := bucketPolicyController; ex_unasked := asked;
  ex_gone _ X e := match e with GetIamPolicy _ _ => not_found_or BucketPolicy.IsEmpty | _ => λ _, false end |}.
Definition account_policy_exists : Existence Service := {|
  ex_controller := serviceAccountPolicyController; ex_unasked := asked;
  ex_gone _ X e := match e with GetIamPolicy _ _ => not_found_or ServiceAccountPolicy.IsEmpty | _ => λ _, false end |}.
Definition cryptokey_policy_exists : Existence Service := {|
  ex_controller := cryptoKeyPolicyController; ex_unasked := asked;
  ex_gone _ X e := match e with GetIamPolicy _ _ => not_found_or CryptoKeyPolicy.IsEmpty | _ => λ _, false end |}.
(** A member is there when binding it would change nothing. *)
Definition member_exists : Existence Service := {|
  ex_controller := bucketPolicyMemberController; ex_unasked := asked;
  ex_gone cr X e :=
    match e with
    | GetIamPolicy _ _ => λ r, 
      match r with
      | inl policy => match BindRoleToMember cr.(ForProvider) policy with Returns (changed, _) => changed | Panics => false end
      | inr _ => false
      end
    | _ => λ _, false
    end |}.
(** A connection is there when it is listed, under the name they all have. *)
Definition connection_exists : Existence Service := {|
  ex_controller := connectionController; ex_unasked := asked;
  ex_gone _ X e :=
    match e with
    | ConnectionsList _ _ => λ r,
      match r with
      | inl conns => forallb (λ c, negb (bool_decide (c.(ac_Peering) = PeeringName))) (derefs conns)
      | inr _ => false
      end
    | _ => λ _, false
    end |}.

Definition existences : list (Existence Service) := [
  redis_exists; address_exists; network_exists; subnetwork_exists; cluster_exists; nodepool_exists; cloudsql_exists;
  account_exists; key_exists; account_policy_exists; keyring_exists; cryptokey_exists; cryptokey_policy_exists; topic_exists;
  connection_exists; bucket_exists; bucket_policy_exists; member_exists].
End kinds.

(** ** Walking Observe *)

Section walking.
Context {E : Type → Type} {M : Type} (gone : ∀ X, E X → X → bool) (seen : bool).

Lemma tells_call {X} (e : E X) (k : X → prog E (ExternalObservation * option error * M)) :
  (∀ r, tells gone (seen || gone _ e r) (k r)) → tells gone seen (call e ≫= k).
Proof using Type. done. Qed.
Lemma tells_ret {X} (a : X) (k : X → prog E (ExternalObservation * option error * M)) :
  tells gone seen (k a) → tells gone seen (mret a ≫= k).
Proof using Type. done. Qed.
Lemma tells_lift {X} (o : outcome X) (k : X → prog E (ExternalObservation * option error * M)) :
  (∀ a, o = Returns a → tells gone seen (k a)) → tells gone seen (lift o ≫= k).
Proof using Type. intros Hk. destruct o; [by apply Hk|done]. Qed.
(** What is answered besides: an existing object, or an error. *)
Lemma tells_exists o m : seen = false → o.(ResourceExists) = true → tells (M := M) gone seen (mret (o, None, m)).
Proof using Type. intros -> Ho _. exact Ho. Qed.
Lemma tells_absent o m : seen = true → o.(ResourceExists) = false → tells (M := M) gone seen (mret (o, None, m)).
Proof using Type. intros -> Ho _. exact Ho. Qed.
Lemma tells_error o err m : err ≠ None → tells (M := M) gone seen (mret (o, err, m)).
Proof using Type. by intros Hne ->. Qed.
End walking.

Lemma tells_not_found `{Libs} {E : Type → Type} {M} (gone : ∀ X, E X → X → bool) err msg (m : M) :
  tells gone (IsErrorNotFound (Some err))
    (mret (no_observation, errors_Wrap (resource_Ignore IsErrorNotFound (Some err)) msg, m)).
Proof.
  intros Hnone. destruct (IsErrorNotFound (Some err)) eqn:Hf; [done|]. by rewrite wrap_ignore_false in Hnone.
Qed.

Ltac tell_step :=
  match goal with
  | |- tells _ _ (let _ := _ in _) => cbv zeta
  | |- tells _ _ (mret _ ≫= _) => apply tells_ret
  | |- tells _ _ (call _ ≫= _) => apply tells_call; intros ?
  | |- tells _ _ (lift _ ≫= _) => apply tells_lift; intros ? ?
  | |- tells _ _ ((if ?b then _ else _) ≫= _) => destruct b eqn:?
  | |- tells _ _ (match ?x with _ => _ end) => destruct x eqn:?
  end.
Lemma findConnection_none conns found :
  findConnection conns = Returns found →
  forallb (λ c, negb (bool_decide (c.(ac_Peering) = PeeringName))) (derefs conns) =
  match found with Some _ => false | None => true end.
Proof.
  unfold findConnection, derefs. induction (elems conns) as [|[c|] l IH]; simpl; [by intros [= <-]| |done].
  destruct (bool_decide _); [by intros [= <-]|done].
Qed.

(** Whether the object was seen to be gone, from what is known of the answers. *)
Ltac seen_known :=
  unfold asked, not_found, not_found_or;
  repeat match goal with
    | Hf : findConnection _ = Returns _ |- _ => rewrite (findConnection_none _ _ Hf); clear Hf
    | Hb : negb _ = true |- _ => apply negb_true_iff in Hb
    | Hb : negb _ = false |- _ => apply negb_false_iff in Hb
    | Hb : ?b = _ |- context [?b] => rewrite Hb
    end;
  cbn [orb fst]; rewrite ?orb_false_r.
Ltac tell_done :=
  cbn [ex_gone ex_unasked]; rewrite ?errors_Wrap_some, ?errors_Wrap_nil;
  first [ by apply tells_error
        | apply tells_exists; [by seen_known|reflexivity]
        | apply tells_absent; [by seen_known|reflexivity]
        | seen_known; apply tells_not_found ].
Ltac tell := repeat tell_step; subst; tell_done.

Tactic Notation "observing" reference(x) reference(c) reference(observe) :=
  unfold truthful, x, c; cbn [ex_controller ex_gone ex_unasked c_handlers h_Observe c_P c_O c_E c_External];
  intros client cr; unfold observe; tell.

Section proofs.
Context `{Libs} `{MapOrder} {Service Time : Type}.

Lemma redis_tells time_Parse : truthful (Service := Service) (redis_exists (Time := Time) time_Parse).
Proof using Type. observing redis_exists redisController Memorystore.Observe. Qed.
Lemma address_tells : truthful (Service := Service) address_exists.
Proof using Type. observing address_exists addressController GlobalAddress.Observe. Qed.
Lemma network_tells : truthful (Service := Service) network_exists.
Proof using Type. observing network_exists networkController Network.Observe. Qed.
Lemma subnetwork_tells : truthful (Service := Service) subnetwork_exists.
Proof using Type. observing subnetwork_exists subnetworkController Subnetwork.Observe. Qed.
Lemma cluster_tells write : truthful (Service := Service) (cluster_exists write).
Proof using Type. observing cluster_exists clusterController Cluster.Observe. Qed.
Lemma nodepool_tells : truthful (Service := Service) nodepool_exists.
Proof using Type. observing nodepool_exists nodePoolController NodePool.Observe. Qed.
Lemma cloudsql_tells : truthful (Service := Service) cloudsql_exists.
Proof using Type. observing cloudsql_exists cloudsqlController CloudSQL.Observe. Qed.
Lemma account_tells : truthful (Service := Service) account_exists.
Proof using Type. observing account_exists serviceAccountController ServiceAccount.Observe. Qed.
Lemma key_tells : truthful (Service := Service) key_exists.
Proof using Type. observing key_exists serviceAccountKeyController ServiceAccountKey.Observe. Qed.
Lemma account_policy_tells : truthful (Service := Service) account_policy_exists.
Proof using Type. observing account_policy_exists serviceAccountPolicyController ServiceAccountPolicy.Observe. Qed.
Lemma keyring_tells : truthful (Service := Service) keyring_exists.
Proof using Type. observing keyring_exists keyRingController KeyRing.Observe. Qed.
Lemma cryptokey_tells : truthful (Service := Service) cryptokey_exists.
Proof using Type. observing cryptokey_exists cryptoKeyController CryptoKey.Observe. Qed.
Lemma cryptokey_policy_tells : truthful (Service := Service) cryptokey_policy_exists.
Proof using Type. observing cryptokey_policy_exists cryptoKeyPolicyController CryptoKeyPolicy.Observe. Qed.
Lemma topic_tells : truthful (Service := Service) topic_exists.
Proof using Type. observing topic_exists topicController Topic.Observe. Qed.
Lemma connection_tells : truthful (Service := Service) connection_exists.
Proof using Type. observing connection_exists connectionController Connection.Observe. Qed.
Lemma bucket_tells merge missing : truthful (Service := Service) (bucket_exists merge missing).
Proof using Type. observing bucket_exists bucketController Bucket.Observe. Qed.
Lemma bucket_policy_tells : truthful (Service := Service) bucket_policy_exists.
Proof using Type. observing bucket_policy_exists bucketPolicyController BucketPolicy.Observe. Qed.
Lemma member_tells : truthful (Service := Service) member_exists.
Proof using Type. observing member_exists bucketPolicyMemberController BucketPolicyMember.Observe. Qed.
End proofs.


(** A network that the service does not have, and one that it does not give access to. *)
Definition example_client : ProjectExternal (Service := unit) := {| pe_service := tt; pe_projectID := "dev" |}.
